(* ===== verification/_CoqProject ===== *)
-Q . S2P
Prelude.v
JsString.v
JsMap.v
JsArray.v
Json.v
Base64.v
Workspace.v
Backup.v
ServerIface.v
Relay.v
RelayInv.v
RelayServer.v
App.v
RelayProps.v
AppRelay.v
Scenarios.v
CommandHistory.v
HistoryModal.v
OutputStorage.v
Dialogs.v
RunningCommands.v
WorkspaceScenarios.v
BackupScenarios.v
AgentScenarios.v
DialogComponents.v
SharingDecorator.v
ContextMenus.v
Proxy.v
ProxyScenarios.v
SettingsTabs.v
AgentUi.v
