(* ===== verification/Prelude.v ===== *)
(** * Tlink: session sharing, workspaces, backups, the agent plugin and the AI proxy

    A verification development for the Tlink terminal application
    (repository tlink-ai).  It models, as executable Rocq definitions, the
    parts of the program that keep state or make decisions, and proves the
    properties that make them correct.

    ** The program and how its parts interact

    - The session-sharing relay (spec sections 2-7): a server object in
      the Electron main process.  It keeps a registry of shared terminal
      sessions and accepts viewer connections after a token/password
      handshake.  It fans terminal output out to the viewers and forwards
      the input of interactive viewers back to the host.  Its source file
      is not part of [src/]: it is modelled from the spec, and its
      definitions are marked spec_modelled in the manifest.
    - The IPC layer of the main process ([src/app/lib/app.ts]:
      [Application.initSessionSharing], [init], the [before-quit] hook).
      It computes the bind address, starts and stops the relay and
      re-broadcasts the relay's viewer events to every window.  It sees
      the relay only through the interface of [ServerIface.v].
    - The renderer side of sharing ([src/unnamed/part_010]).  The
      terminal decorator sends a shared terminal's output to the sharing
      service.  The context-menu providers share, unshare and inspect
      sessions, set session-log directories and save profiles.
    - The workspace and backup services
      ([src/tlink-core/src/services/workspace.service.ts]): saved
      workspaces in the configuration store, share URLs, and a backup
      index with retention, automatic backups, restore, import and export.
    - The agent plugin ([src/builtin-plugins/tabby-vscode-agent] and
      [src/unnamed/part_004], [part_005], [part_006]): the command history
      with its exports, the stored command outputs with pagination, the
      running commands, and the dialogs.  [DialogManagerService] shows one
      confirmation or result dialog at a time.  The dialog components
      handle the keyboard and the hotkeys.  Dialogs can be minimized and
      restored.
    - The workspace and backup settings tabs
      ([src/tlink-settings/src/components]) show the two services' state
      and call their methods.
    - The AI proxy, a separate Node server: its provider configuration
      ([src/unnamed/part_000], the proxy's config.js) and its
      chat-completions route ([src/proxy-server/src/routes/chat.js]).
      The route tries the selected provider, then the others.  It retries
      each with back-off and answers with the upstream reply or an error
      object.

    ** Files, in dependency order

    - [Prelude.v] (this file) holds the shared machinery:
      - the [result] error type with its monad instance;
      - the fold lemmas every handler that loops uses;
      - the invariant principle [rtc_preserve] for step relations;
      - list and filter lemmas;
      - the hint databases [tlink] and [tlink_rw], and the tactics.
    - JavaScript built-ins, each with its laws:
      - [JsString.v]: string built-ins on ASCII strings;
      - [JsMap.v]: [Map] in insertion order, as an association list;
      - [JsArray.v]: the stable [Array.prototype.sort];
      - [Json.v]: [JSON.stringify] and [JSON.parse];
      - [Base64.v]: [btoa], [atob] and the UTF-8 steps around them.
    - [Workspace.v] models [WorkspaceService].  [Backup.v] models
      [BackupService]; its environment (IPC, hashing, clock) is a Section.
    - The relay and the main process:
      - [ServerIface.v]: the interface (a type class) between app.ts and
        the relay;
      - [Relay.v]: the relay, modelled from the spec;
      - [RelayInv.v]: the relay's invariant;
      - [RelayServer.v]: the relay as an instance of the interface;
      - [App.v]: the IPC handlers, written against the interface;
      - [RelayProps.v]: the relay's functional behaviour;
      - [AppRelay.v]: the composed system as a step relation, with its
        end-to-end theorems.
    - [Scenarios.v], [WorkspaceScenarios.v], [BackupScenarios.v] and
      [AgentScenarios.v]: concrete runs that apply the theorems.
    - The agent plugin:
      - [CommandHistory.v]: the history service, its storage and its
        exports;
      - [HistoryModal.v]: the history dialog: its view, every handler
        and the [commandHistory$] subscription, composed with the
        service of [CommandHistory.v] in a step relation;
      - [OutputStorage.v]: the stored outputs and their pagination;
      - [Dialogs.v]: the dialog queue, the modal stack, the openDialog
        promises and the minimized dialogs, as step relations;
      - [RunningCommands.v]: the running-commands service and the rows
        of its dialog;
      - [DialogComponents.v]: the confirmation and result dialog
        components, with their keyboard handlers, hotkey pause, focus,
        timers and destruction.
    - [SharingDecorator.v]: the terminal decorator.  It is written
      against [SessionSharing], a type class for the renderer's
      [SessionSharingService]; its laws are in [SessionSharingLaws].
      [ContextMenus.v]: the six context-menu providers and their clicks.
    - [Proxy.v]: the AI proxy.
      - Module [Providers] models config.js: [parseKeyList],
        [buildProviderConfigs], [getProviderConfig] and [getAllProviders],
        with [process.env] as a record.
      - Module [Chat] models chat.js.  [chatCompletions] consumes the
        outcomes of its successive [axios.post] calls from a list and
        returns the reply, the outcomes left and a trace of its
        [recordRequest], [sleep] and upstream calls.  [attempt_loop] is
        the retry loop and [candidates_loop] the loop over providers.
      - [ProxyScenarios.v] runs it on a concrete configuration.
    - [SettingsTabs.v]: the two settings tabs, as functions of the
      component and the service state of [Workspace.v] and [Backup.v].
      The workspace tab's methods also form a step relation, with an
      invariant that ties the tab to the service.
    - [AgentUi.v]: the agent plugin's hotkey service and hotkey list,
      its configuration defaults, the toolbar buttons, the dialog
      service, the URL opener, the command button, the share dialog's
      copy, and the lifecycle of the running-commands dialog.  They are
      composed with the running-commands, minimized-dialog and history
      services in the step relation [ui_step].  [ExecToolCategory] is
      not in the repository and is an environment record.

    ** What the theorems show

    - Invariants, proved by induction over step relations:
      - the relay's consistency;
      - unique workspace ids;
      - the backup timer agrees with the configuration;
      - the history, and what a restart reads back, hold at most 1000
        entries even when a storage write fails, and a restart reads
        back the valid entries while every write succeeds;
      - one manager dialog at a time when no dialog is opened in the
        100 ms gap;
      - the hotkeys are balanced;
      - the decorator's subscriptions are well formed;
      - the workspace tab lists the stored workspaces and selects one
        of them;
      - the history dialog never shows a stale list or count;
      - the toolbar's titles show the current counts of the three
        services.
    - Functional behaviour on every branch, errors included, of the
      handlers: relay handshake, input routing, broadcast, expiry, server
      start (including a request for port 0 with a configured port);
      workspace save; backup create, restore, delete; output
      storage and pagination; dialog keyboard flows; the menu clicks.
    - Round trips:
      - JSON and share URLs;
      - workspace export/import and backup restore/export/import;
      - CSV fields;
      - minimize then restore.
    - Equivalence of the history dialog's two filtering paths.
    - The running-commands dialog lists the service's commands, newest
      first.
    - Liveness, by an explicit measure:
      - the dialog queue drains;
      - the promise of a discarded minimized dialog is never settled.
    - Bounds: the output count; the proxy's upstream calls and total
      back-off per request; the backup interval the settings tab writes.
    - Termination of the proxy's loops: with an outcome for each call
      it can make, [chatCompletions] answers.
    - A type property: every error answer of the proxy is an
      [{error: {message, type}}] object.
    - A refinement: the proxy's [getProviderConfig] agrees with
      [getAllProviders].
    - The findings, each proved as a theorem:
      - two dialogs on screen at once;
      - hotkeys left disabled;
      - late-shared terminals not broadcast;
      - expired backups deleted on restore;
      - entries lost at restart;
      - the proxy's [PROXY_FAILOVER_ON_429] switch has no effect;
      - a blank API key becomes a provider with an empty key;
      - the workspace tab hides a failed save;
      - a closed running-commands dialog stays subscribed and keeps
        being refreshed.
    - Findings recorded without a claim of their own:
      - the history dialog's JSON export reuses the file name of the
        commands-only export;
      - the Copilot TCP connection writes no request;
      - a failed [localStorage.setItem] of the history is only logged,
        and a restart loses the changes since the last good write.

    ** Fuel and measures

    [Json.parse_value] takes fuel [S (length text)].  Each call consumes
    a character, so this is enough, and the round-trip theorem proves
    that this fuel suffices.  [Dialogs.answer_all] runs
    [drain_measure s = 3 * queued + 2 * timers + shown] rounds.  Each
    round of answering the shown dialog or running a timer lowers the
    measure, and [queue_drains] proves that this many rounds empty the
    queue.  The proxy's [attempt_loop] recurses on the iterations left,
    started at [RETRY_MAX + 1], and [candidates_loop] on the candidate
    list, so both are structural.  The upstream is a finite list of
    outcomes, and [chatCompletions] returns [None] only when it runs out.
    [chat_terminates] proves that (providers + 1) * (RETRY_MAX + 1)
    outcomes are enough.

    ** Not modelled

    - The design and implementation guides ([src/unnamed/part_009],
      [part_001], [part_002], the *.md files): documentation, including
      a cloud-sync design that has no code.
    - In the AI proxy:
      - the outer catch of [chatCompletions], reached only by exceptions
        of [res] or of the logger;
      - the stream's later [error] event;
      - [NaN] values of the [PROXY_*] variables;
      - the user id passed to telemetry;
      - [selectProvider] and [recordRequest], which are not in the
        repository: the first is an argument, the second a trace entry.
    - In the settings tabs: [formatDate] ([toLocaleString]), the
      static settings-tab providers, and the templates.
    - Window, tray and plugin management in app.ts.
    - The agent plugin's terminal tools ([ExecToolCategory]), which are
      not in the repository; its packaging scripts, type declarations
      and constant providers.
    - DOM details: focus classes, textarea heights, the .pug templates.
      The templates are not in the repository; their calls are events of
      the step relations.
    - Translation.
    - Logging.
    - The exception branches of the menus' directory picker and sharing
      calls.

    ** Conventions

    - JavaScript numbers that the code uses as integers are [Z]: ports,
      counts, and timestamps in milliseconds.  Lengths and indices are
      [nat].
    - A [Map] whose order matters is a [JsMap] list.  A dictionary whose
      order does not matter is a stdpp [gmap].
    - Time is an explicit argument [now : Z]: the value [Date.now()]
      would return at that call.
    - A function that throws or returns an error object returns a
      [result E A].
    - Awaited promises are sequential steps.  Timers and user events are
      constructors of the step relations. *)

From stdpp Require Export base gmap strings list sets.
From Stdlib Require Export ZArith Lia.

#[export] Set Warnings "-clear-no-such-hyp".

Declare Scope tlink_scope.
Delimit Scope tlink_scope with tlink.
Open Scope tlink_scope.

(** ** Results *)

(** The outcome of an operation that can fail: [Ok] carries the value,
    [Err] the error (an exception, a rejected promise, [success:false]). *)
Inductive result (E A : Type) : Type :=
| Ok (a : A)
| Err (e : E).
Arguments Ok {E A} a.
Arguments Err {E A} e.

#[export] Instance result_ret E : MRet (result E) := λ A a, Ok a.
#[export] Instance result_bind E : MBind (result E) :=
  λ A B f r, match r with Ok a => f a | Err e => Err e end.
#[export] Instance result_fmap E : FMap (result E) :=
  λ A B f r, match r with Ok a => Ok (f a) | Err e => Err e end.

Definition is_ok {E A} (r : result E A) : bool :=
  match r with Ok _ => true | Err _ => false end.

Notation "'ok?' r" := (is_ok r) (at level 10) : tlink_scope.

Lemma result_bind_ok {E A B} (r : result E A) (f : A → result E B) b :
  (r ≫= f) = Ok b ↔ ∃ a, r = Ok a ∧ f a = Ok b.
Proof.
  destruct r as [a|e]; simpl; split.
  - intros H. by exists a.
  - by intros (a' & [= ->] & H).
  - discriminate.
  - by intros (? & ? & _).
Qed.

(** [mapM] of a function that succeeds on every element. *)
Lemma mapM_ok {E A B} (f : A → result E B) (g : A → B) (l : list A) :
  (∀ x, x ∈ l → f x = Ok (g x)) → mapM f l = Ok (g <$> l).
Proof.
  induction l as [|x l IH]; intros H; [done|]. simpl. rewrite H by apply list_elem_of_here.
  simpl. rewrite IH; [done|]. intros y Hy. apply H. by apply list_elem_of_further.
Qed.

(** ** Folds of state transformers

    A handler that walks a collection and updates the state at each element
    is a [foldl] of a step function.  The two lemmas below are the
    induction principles the components use for such loops. *)

Section fold_lemmas.
Context {S X : Type}.

(** A predicate kept by every step is kept by the loop. *)
Lemma foldl_preserve (P : S → Prop) (f : S → X → S) (l : list X) (s : S) :
  P s → (∀ s' x, x ∈ l → P s' → P (f s' x)) → P (foldl f s l).
Proof.
  revert s. induction l as [|x l IH]; intros s Hs Hstep; simpl; [done|].
  apply IH; [apply Hstep; [left|done]|].
  intros s' y Hy. apply Hstep. by right.
Qed.

(** A relation between the state before and after the loop, built up step
    by step: if [R] is reflexive, transitive and contains every step, it
    relates the initial state to the final one. *)
Lemma foldl_rel (R : S → S → Prop) (f : S → X → S) (l : list X) (s : S) :
  (∀ s, R s s) → (∀ a b c, R a b → R b c → R a c) →
  (∀ s' x, x ∈ l → R s' (f s' x)) → R s (foldl f s l).
Proof.
  intros Hrefl Htrans. revert s.
  induction l as [|x l IH]; intros s Hstep; simpl; [done|].
  eapply Htrans; [apply Hstep; left|].
  apply IH. intros s' y Hy. apply Hstep. by right.
Qed.
End fold_lemmas.

(** A loop whose steps all leave a projection unchanged leaves it unchanged. *)
Lemma foldl_proj_const {S X B} (g : S → B) (f : S → X → S) (l : list X) (s : S) :
  (∀ s' x, x ∈ l → g (f s' x) = g s') → g (foldl f s l) = g s.
Proof.
  intros H. apply (foldl_rel (λ a b, g b = g a)); [done|congruence|].
  intros. by apply H.
Qed.

(** An invariant of the steps of a transition system holds in every
    state reachable from a state where it holds. *)
Lemma rtc_preserve {S} (R : relation S) (P : S → Prop) s s' :
  (∀ a b, R a b → P a → P b) → P s → rtc R s s' → P s'.
Proof. intros HR Hs Hr. induction Hr; eauto. Qed.

(** ** Lists *)

Lemma filter_length_le {A} (P : A → Prop) `{∀ x, Decision (P x)} (l : list A) :
  length (filter P l) ≤ length l.
Proof. apply length_filter. Qed.

(** A sublist of a list maps to a sublist of its image. *)
Lemma sublist_fmap {A B} (f : A → B) (l1 l2 : list A) : l1 `sublist_of` l2 → f <$> l1 `sublist_of` f <$> l2.
Proof. intros H. induction H as [|x l1 l2 _ IH|x l1 l2 _ IH]; simpl; [constructor|by apply sublist_skip|by apply sublist_cons]. Qed.

(** [filter] keeps a list whose elements all pass. *)
Lemma filter_all {A} (P : A → Prop) `{∀ x, Decision (P x)} l : Forall P l → filter P l = l.
Proof. induction 1; simpl; [done|]. rewrite filter_cons_True by done. congruence. Qed.

Lemma filter_none {A} (P : A → Prop) `{∀ x, Decision (P x)} l : Forall (λ x, ¬ P x) l → filter P l = [].
Proof. induction 1; simpl; [done|]. by rewrite filter_cons_False. Qed.

(** Three filters that split every element one way rearrange the list. *)
Lemma filter3_perm {A} (P Q R : A → Prop) `{∀ x, Decision (P x)} `{∀ x, Decision (Q x)} `{∀ x, Decision (R x)} l :
  (∀ x, (P x ∧ ¬ Q x ∧ ¬ R x) ∨ (¬ P x ∧ Q x ∧ ¬ R x) ∨ (¬ P x ∧ ¬ Q x ∧ R x)) →
  filter P l ++ filter Q l ++ filter R l ≡ₚ l.
Proof.
  intros Hx. induction l as [|x l IH]; [done|]. rewrite !filter_cons.
  destruct (Hx x) as [(?&?&?)|[(?&?&?)|(?&?&?)]];
    repeat first [rewrite decide_True by done|rewrite decide_False by done]; simpl.
  - by constructor.
  - rewrite <-Permutation_middle. by constructor.
  - rewrite (app_assoc (filter P l)), <-Permutation_middle, <-app_assoc. by constructor.
Qed.

(** [filter] only looks at the elements of the list. *)
Lemma list_filter_ext_in {A} (P Q : A → Prop) `{∀ x, Decision (P x)} `{∀ x, Decision (Q x)}
    (l : list A) :
  (∀ x, x ∈ l → P x ↔ Q x) → filter P l = filter Q l.
Proof.
  induction l as [|x l IH]; intros Hpq; [done|].
  rewrite !filter_cons. rewrite IH by (intros y Hy; apply Hpq; by right).
  assert (Hx : P x ↔ Q x) by (apply Hpq; left).
  destruct (decide (P x)), (decide (Q x)); done || tauto.
Qed.

Lemma take_length_le {A} (n : nat) (l : list A) : length (take n l) ≤ n.
Proof. rewrite length_take. lia. Qed.

(** ** Automation *)

Create HintDb tlink.
Create Rewrite HintDb tlink_rw.
#[export] Hint Resolve filter_length_le take_length_le : tlink.

(** Case on every [decide] and [match] in the goal, then simplify. *)
Ltac tlink_cases :=
  repeat (case_decide || case_match); simplify_eq/=.

(** Unfold a record update written with [{| ... |}] and close by
    reflexivity or congruence. *)
Ltac tlink_done := first [reflexivity | congruence | done | lia].

(** Prove a decidable proposition about closed values by evaluating its
    decision procedure. *)
Ltac vm_decide := apply (bool_decide_unpack _); vm_compute; exact I.
