(* ===== verification/JsString.v ===== *)
(** * JavaScript string built-ins

    The string methods the modelled services call, on strings of ASCII
    characters (Stdlib [string]): [toLowerCase], [trim], [startsWith],
    [includes], [split] on a one-character separator, [join], and the
    global replace of one character.  The code of the repository calls
    these on user input (search terms, API keys, CSV fields), so the
    lemmas below are the facts the components' proofs need: the
    split/join round trip, idempotence of [trim] and [toLowerCase], and
    the substring facts about [includes].  Non-ASCII characters are left
    unchanged by [to_lower], which is what [toLowerCase] does on the ASCII
    range; the model does not cover Unicode case mapping. *)

From S2P Require Import Prelude.
From Stdlib Require Import Ascii.

Local Open Scope char_scope.

(** ** Characters *)

Definition ascii_lower (c : ascii) : ascii :=
  let n := nat_of_ascii c in
  if (65 <=? n)%nat && (n <=? 90)%nat then ascii_of_nat (n + 32) else c.

(** The white space [String.prototype.trim] removes (on ASCII). *)
Definition is_ws (c : ascii) : bool := Ascii.is_space c.

(** ** Strings *)

Fixpoint to_lower (s : string) : string :=
  match s with
  | EmptyString => EmptyString
  | String c s' => String (ascii_lower c) (to_lower s')
  end.

Fixpoint trim_start (s : string) : string :=
  match s with
  | EmptyString => EmptyString
  | String c s' => if is_ws c then trim_start s' else s
  end.

Definition trim_end (s : string) : string :=
  String.rev (trim_start (String.rev s)).

(** [s.trim()] *)
Definition trim (s : string) : string := trim_end (trim_start s).

(** [s.startsWith(p)] *)
Fixpoint starts_with (p s : string) : bool :=
  match p, s with
  | EmptyString, _ => true
  | String c p', String d s' => bool_decide (c = d) && starts_with p' s'
  | String _ _, EmptyString => false
  end.

(** [s.includes(sub)], equivalently [s.indexOf(sub) !== -1]. *)
Fixpoint includes (s sub : string) : bool :=
  starts_with sub s ||
  match s with
  | EmptyString => false
  | String _ s' => includes s' sub
  end.

(** [s.split(sep)] for a separator of one character: the pieces between
    the occurrences of [sep], empty pieces included. *)
Fixpoint split_on (sep : ascii) (s : string) : list string :=
  match s with
  | EmptyString => [EmptyString]
  | String c s' =>
      if bool_decide (c = sep) then EmptyString :: split_on sep s'
      else match split_on sep s' with
           | [] => [String c EmptyString]
           | w :: ws => String c w :: ws
           end
  end.

(** [l.join(sep)] *)
Fixpoint join (sep : string) (l : list string) : string :=
  match l with
  | [] => EmptyString
  | [w] => w
  | w :: ws => w +:+ sep +:+ join sep ws
  end.

(** [s.replace(/c/g, r)] for a single character [c]. *)
Fixpoint replace_char (c : ascii) (r : string) (s : string) : string :=
  match s with
  | EmptyString => EmptyString
  | String d s' =>
      if bool_decide (d = c) then r +:+ replace_char c r s'
      else String d (replace_char c r s')
  end.

(** The string without its first [n] characters. *)
Fixpoint str_drop (n : nat) (s : string) : string :=
  match n, s with
  | O, _ => s
  | S n', String _ s' => str_drop n' s'
  | S _, EmptyString => EmptyString
  end.

(** [s.replace(p, r)] with a string pattern: only the first occurrence
    of [p] is replaced. *)
Fixpoint replace_first (p r s : string) : string :=
  if starts_with p s then r +:+ str_drop (String.length p) s
  else match s with
       | EmptyString => EmptyString
       | String c s' => String c (replace_first p r s')
       end.

(** JavaScript truthiness of a string: only [''] is falsy. *)
Definition str_truthy (s : string) : bool :=
  match s with EmptyString => false | _ => true end.

(** [a || b] on an optional string ([undefined], [''] are falsy). *)
Definition js_or_str (a : option string) (b : string) : string :=
  match a with
  | Some s => if str_truthy s then s else b
  | None => b
  end.

(** [a || b] on an optional integer ([undefined], [0] are falsy). *)
Definition js_or_num (a : option Z) (b : Z) : Z :=
  match a with
  | Some n => if bool_decide (n = 0%Z) then b else n
  | None => b
  end.

(** [String(n)] for an integer [n]: its decimal digits. *)
Fixpoint n_digits (fuel : nat) (n : N) (acc : string) : string :=
  match fuel with
  | O => acc
  | S f =>
      let acc' := String (ascii_of_N (48 + n mod 10)) acc in
      if (n <? 10)%N then acc' else n_digits f (n / 10)%N acc'
  end.

(** [String(n)] on a natural number: one digit per step, and there are
    at most as many decimal digits as binary ones. *)
Definition n_to_string (n : N) : string := n_digits (S (N.size_nat n)) n EmptyString.

Definition z_to_string (z : Z) : string :=
  if (z <? 0)%Z then "-" +:+ n_to_string (Z.to_N (- z)) else n_to_string (Z.to_N z).

(** ** Lemmas *)

Lemma string_app_cons (c : ascii) (s t : string) :
  String c s +:+ t = String c (s +:+ t).
Proof. reflexivity. Qed.

Lemma string_app_nil_l (s : string) : EmptyString +:+ s = s.
Proof. reflexivity. Qed.

Lemma split_on_nonempty sep s : split_on sep s ≠ [].
Proof.
  induction s as [|c s IH]; simpl; [done|].
  case_bool_decide; [done|]. by destruct (split_on sep s).
Qed.

(** Joining the pieces of [s.split(sep)] with [sep] gives back [s]. *)
Lemma join_split (sep : ascii) (s : string) :
  join (String sep EmptyString) (split_on sep s) = s.
Proof.
  induction s as [|c s IH]; simpl; [done|].
  case_bool_decide as Hc.
  - subst c. destruct (split_on sep s) as [|w ws] eqn:E;
      [by destruct (split_on_nonempty sep s)|].
    rewrite <-IH. simpl. destruct ws; reflexivity.
  - destruct (split_on sep s) as [|w ws] eqn:E;
      [by destruct (split_on_nonempty sep s)|].
    rewrite <-IH. destruct ws; reflexivity.
Qed.

(** No piece of [s.split(sep)] contains [sep]. *)
Lemma split_on_no_sep sep s w :
  w ∈ split_on sep s → includes w (String sep EmptyString) = false.
Proof.
  revert w. induction s as [|c s IH]; intros w Hw; simpl in Hw.
  - apply list_elem_of_singleton in Hw. by subst.
  - case_bool_decide as Hc.
    + apply elem_of_cons in Hw as [->|Hw]; [done|by apply IH].
    + destruct (split_on sep s) as [|w' ws] eqn:E;
        [by destruct (split_on_nonempty sep s)|].
      apply elem_of_cons in Hw as [->|Hw].
      * simpl. rewrite (bool_decide_false (sep = c)) by congruence. simpl.
        apply IH. rewrite ?E. apply list_elem_of_here.
      * apply IH. rewrite ?E. by apply list_elem_of_further.
Qed.

Lemma split_on_app_sep sep s t :
  split_on sep (s +:+ String sep t) = split_on sep s ++ split_on sep t.
Proof.
  induction s as [|c s IH]; simpl.
  - by rewrite bool_decide_true.
  - rewrite IH. case_bool_decide; [done|].
    destruct (split_on sep s) as [|w ws] eqn:E; [by destruct (split_on_nonempty sep s)|]. done.
Qed.

Lemma split_on_none sep s : includes s (String sep EmptyString) = false → split_on sep s = [s].
Proof.
  induction s as [|c s IH]; [done|]. simpl. rewrite orb_false_iff, andb_false_iff.
  intros [[Hc|Hc] Hs]; [|done]. rewrite bool_decide_false by (intros ->; by rewrite bool_decide_true in Hc).
  by rewrite IH.
Qed.

Lemma starts_with_refl s : starts_with s s = true.
Proof. induction s; simpl; [done|]. by rewrite bool_decide_true, IHs. Qed.

Lemma starts_with_app p s : starts_with p (p +:+ s) = true.
Proof.
  induction p; [done|]. rewrite string_app_cons. simpl.
  by rewrite bool_decide_true, IHp.
Qed.

Lemma list_ascii_of_string_app (s t : string) :
  String.list_ascii_of_string (s +:+ t) = String.list_ascii_of_string s ++ String.list_ascii_of_string t.
Proof. induction s as [|c s IH]; [done|]. rewrite string_app_cons. simpl. by rewrite IH. Qed.

Lemma str_drop_app p s : str_drop (String.length p) (p +:+ s) = s.
Proof. induction p; simpl; auto. Qed.

Lemma replace_first_prefix p r s : replace_first p r (p +:+ s) = r +:+ s.
Proof.
  assert (∀ t, replace_first p r t = if starts_with p t then r +:+ str_drop (String.length p) t
                 else match t with EmptyString => EmptyString | String c t' => String c (replace_first p r t') end)
    as -> by (intros []; reflexivity).
  by rewrite starts_with_app, str_drop_app.
Qed.

Lemma includes_empty s : includes s EmptyString = true.
Proof. destruct s; reflexivity. Qed.

Lemma includes_refl s : includes s s = true.
Proof. destruct s; simpl; [done|]. by rewrite bool_decide_true, starts_with_refl. Qed.

(** [includes] is "occurs at some offset". *)
Lemma includes_spec s sub :
  includes s sub = true ↔ ∃ pre post, s = pre +:+ sub +:+ post.
Proof.
  split.
  - induction s as [|c s IH]; simpl.
    + destruct sub; simpl; [|done]. intros _. by exists EmptyString, EmptyString.
    + intros [Hs|Hs]%orb_true_iff.
      * exists EmptyString. simpl.
        revert Hs. generalize (String c s). clear.
        induction sub as [|d sub IH]; intros t Ht; [by exists t|].
        destruct t as [|e t]; [done|]. simpl in Ht.
        apply andb_true_iff in Ht as [He%bool_decide_eq_true Ht]. subst e.
        destruct (IH t Ht) as [post ->]. by exists post.
      * destruct (IH Hs) as (pre & post & ->). by exists (String c pre), post.
  - intros (pre & post & ->). induction pre as [|c pre IH]; simpl.
    + destruct sub as [|a sub]; [apply includes_empty|].
      rewrite ?string_app_cons. simpl. by rewrite bool_decide_true, starts_with_app.
    + by rewrite IH, orb_true_r.
Qed.

Lemma ascii_lower_idem c : ascii_lower (ascii_lower c) = ascii_lower c.
Proof. destruct c as [[] [] [] [] [] [] [] []]; reflexivity. Qed.

Lemma to_lower_idem s : to_lower (to_lower s) = to_lower s.
Proof. induction s; simpl; [done|]. by rewrite ascii_lower_idem, IHs. Qed.

Lemma to_lower_length s : String.length (to_lower s) = String.length s.
Proof. induction s; simpl; auto. Qed.

Lemma trim_start_idem s : trim_start (trim_start s) = trim_start s.
Proof.
  induction s as [|c s IH]; simpl; [done|].
  destruct (is_ws c) eqn:E; [done|]. simpl. by rewrite E.
Qed.

(** Replacing a character that does not occur changes nothing. *)
Lemma replace_char_absent c r s :
  includes s (String c EmptyString) = false → replace_char c r s = s.
Proof.
  induction s as [|d s IH]; simpl; [done|].
  intros [H1 H2]%orb_false_iff. rewrite andb_true_r in H1.
  rewrite bool_decide_false; [|intros ->; by rewrite bool_decide_true in H1].
  f_equal. by apply IH.
Qed.

Lemma str_app_assoc a b c : (a +:+ b) +:+ c = a +:+ (b +:+ c).
Proof. induction a as [|x a IH]; [reflexivity|]. change (String x ((a +:+ b) +:+ c) = String x (a +:+ b +:+ c)). by rewrite IH. Qed.

Lemma to_lower_app s t : to_lower (s +:+ t) = to_lower s +:+ to_lower t.
Proof. induction s; simpl; [done|]. by rewrite IHs. Qed.

(** An occurrence of an occurrence is an occurrence. *)
Lemma includes_trans a b c : includes a b = true → includes b c = true → includes a c = true.
Proof.
  rewrite !includes_spec. intros (p1 & q1 & ->) (p2 & q2 & ->).
  exists (p1 +:+ p2), (q2 +:+ q1). by rewrite !str_app_assoc.
Qed.

Lemma includes_to_lower a b : includes a b = true → includes (to_lower a) (to_lower b) = true.
Proof. rewrite !includes_spec. intros (p & q & ->). exists (to_lower p), (to_lower q). by rewrite !to_lower_app. Qed.

Lemma trim_start_app_nil s t : trim_start (s +:+ t) = EmptyString → trim_start s = EmptyString ∧ trim_start t = EmptyString.
Proof. induction s as [|c s IH]; simpl; [done|]. by destruct (is_ws c). Qed.

Lemma trim_start_snoc s c : is_ws c = false → trim_start (s +:+ String c EmptyString) ≠ EmptyString.
Proof. induction s as [|d s IH]; simpl; intros Hc; [by rewrite Hc|]. by destruct (is_ws d); [apply IH|]. Qed.

Lemma rev_app_nil s t : String.rev_app s t = EmptyString → s = EmptyString ∧ t = EmptyString.
Proof. revert t. induction s as [|c s IH]; intros t H; simpl in H; [done|]. by destruct (IH _ H). Qed.

Lemma rev_app_spec s t : String.rev_app s t = String.rev_app s EmptyString +:+ t.
Proof.
  revert t. induction s as [|c s IH]; intros t; [done|]. simpl. rewrite IH, (IH (String c EmptyString)).
  by rewrite str_app_assoc.
Qed.

(** [s.trim()] is empty exactly when [s] is white space only. *)
Lemma trim_truthy s : str_truthy (trim s) = str_truthy (trim_start s).
Proof.
  unfold trim, trim_end. destruct (trim_start s) as [|c r] eqn:E; [done|].
  assert (is_ws c = false) as Hc.
  { revert E. clear. induction s as [|d s IH]; simpl; [done|]. destruct (is_ws d) eqn:Ed; [done|]. by intros [= -> _]. }
  destruct (String.rev (trim_start (String.rev (String c r)))) eqn:R; [|done].
  apply rev_app_nil in R as [R _]. unfold String.rev in R. simpl in R. rewrite rev_app_spec in R.
  by apply trim_start_snoc in R.
Qed.

Lemma is_ws_lower c : is_ws (ascii_lower c) = is_ws c.
Proof. destruct c as [[] [] [] [] [] [] [] []]; reflexivity. Qed.

(** Lower-casing does not make a string blank or not blank. *)
Lemma trim_to_lower t : str_truthy (trim (to_lower t)) = str_truthy (trim t).
Proof.
  rewrite !trim_truthy. induction t as [|c t IH]; [done|]. simpl. rewrite is_ws_lower.
  by destruct (is_ws c).
Qed.

(** A piece of a blank string is blank. *)
Lemma trim_includes a b : includes a b = true → str_truthy (trim a) = false → str_truthy (trim b) = false.
Proof.
  rewrite !trim_truthy, includes_spec. intros (p & q & ->) H.
  destruct (trim_start (p +:+ b +:+ q)) eqn:E; [|done].
  apply trim_start_app_nil in E as [_ E]. apply trim_start_app_nil in E as [E _]. by rewrite E.
Qed.

(** ** Idempotence of [trim] *)

(** A string whose first character, if any, is not white space. *)
Definition lead_ok (s : string) : bool :=
  match s with EmptyString => true | String c _ => negb (is_ws c) end.

Lemma trim_start_lead s : lead_ok (trim_start s) = true.
Proof. induction s as [|c s IH]; simpl; [done|]. destruct (is_ws c) eqn:E; simpl; [done|]. by rewrite E. Qed.

Lemma lead_trim_start s : lead_ok s = true → trim_start s = s.
Proof. destruct s as [|c s]; simpl; [done|]. by destruct (is_ws c). Qed.

Lemma trim_start_split s : ∃ p, s = p +:+ trim_start s.
Proof.
  induction s as [|c s [p Hp]]; simpl; [by exists EmptyString|].
  destruct (is_ws c); [exists (String c p); rewrite string_app_cons; congruence|by exists EmptyString].
Qed.

Lemma str_app_nil_r s : s +:+ EmptyString = s.
Proof. induction s as [|c s IH]; [done|]. by rewrite string_app_cons, IH. Qed.

Lemma rev_app_rev_app s t u : String.rev_app (String.rev_app s t) u = String.rev_app t (s +:+ u).
Proof. revert t. induction s as [|c s IH]; intros t; simpl; [done|]. by rewrite IH. Qed.

Lemma str_rev_involutive s : String.rev (String.rev s) = s.
Proof. unfold String.rev. rewrite rev_app_rev_app. apply str_app_nil_r. Qed.

Lemma str_rev_app p w : String.rev (p +:+ w) = String.rev w +:+ String.rev p.
Proof.
  unfold String.rev. rewrite <-rev_app_spec.
  generalize EmptyString. induction p as [|c p IH]; intros t; [done|]. apply IH.
Qed.

(** [s.trim().trim() = s.trim()]. *)
Lemma trim_idem s : trim (trim s) = trim s.
Proof.
  unfold trim, trim_end.
  pose proof (trim_start_lead s) as Hu. generalize dependent (trim_start s). intros u Hu.
  destruct (trim_start_split (String.rev u)) as [p Hp].
  set (w := trim_start (String.rev u)) in *.
  assert (lead_ok (String.rev w) = true) as Hw.
  { assert (u = String.rev w +:+ String.rev p) as Eu by (by rewrite <-str_rev_app, <-Hp, str_rev_involutive).
    destruct (String.rev w) as [|c r]; [done|]. by rewrite Eu in Hu. }
  rewrite (lead_trim_start _ Hw), str_rev_involutive, (lead_trim_start w); [done|].
  apply trim_start_lead.
Qed.

#[export] Hint Resolve starts_with_refl includes_empty includes_refl : tlink.
#[export] Hint Rewrite to_lower_idem trim_start_idem trim_idem join_split : tlink_rw.
