(* ===== verification/JsMap.v ===== *)
(** * The JavaScript [Map] built-in, in insertion order

    A [Map] is the list of its entries in the order [keys()], [values()]
    and [Array.from] list them: [set] of a new key appends the entry, [set]
    of an existing key replaces its value in place, [delete] removes the
    entry.  The agent services keep their stored outputs and their running
    commands in such maps ([CommandOutputStorageService.outputs],
    [RunningCommandsManagerService.runningCommands]). *)

From S2P Require Import Prelude.

Local Abbreviation length := List.length.

(** The entries of a [Map], in insertion order. *)
Abbreviation js_map K V := (list (K * V)).

Section JsMap.
Context {K V : Type} `{EqDecision K}.

(** [Map.prototype.set]: a new key goes last, an existing one keeps its
    place. *)
Fixpoint map_set (k : K) (v : V) (m : list (K * V)) : list (K * V) :=
  match m with
  | [] => [(k, v)]
  | (k', v') :: r => if bool_decide (k = k') then (k, v) :: r else (k', v') :: map_set k v r
  end.

(** [Map.prototype.get]. *)
Definition map_get (k : K) (m : list (K * V)) : option V :=
  (λ ikv : nat * (K * V), ikv.2.2) <$> list_find (λ kv : K * V, kv.1 = k) m.

(** [Map.prototype.delete]. *)
Definition map_delete (k : K) (m : list (K * V)) : list (K * V) := filter (λ kv : K * V, kv.1 ≠ k) m.

(** [Map.prototype.has]. *)
Definition map_has (k : K) (m : list (K * V)) : bool := bool_decide (k ∈ m.*1).

(** ** Lemmas *)

Lemma map_set_keys k v m : k ∉ m.*1 → map_set k v m = m ++ [(k, v)].
Proof.
  induction m as [|[k' v'] m IH]; intros Hk; [done|]. simpl. rewrite fmap_cons in Hk.
  apply not_elem_of_cons in Hk as [Hne Hk]. rewrite bool_decide_false by done. by rewrite IH.
Qed.

Lemma map_set_fst k v m : (map_set k v m).*1 = if decide (k ∈ m.*1) then m.*1 else m.*1 ++ [k].
Proof.
  induction m as [|[k' v'] m IH]; [done|]. cbn [map_set]. rewrite (fmap_cons _ (k', v') m). cbn [fst].
  case_bool_decide as Hk.
  - subst. rewrite fmap_cons. cbn [fst]. rewrite decide_True; [done|apply list_elem_of_here].
  - rewrite fmap_cons, IH. cbn [fst]. destruct (decide (k ∈ m.*1)) as [H1|H1], (decide (k ∈ k' :: m.*1)) as [H2|H2];
      try done; [exfalso; apply H2; by right|]. apply elem_of_cons in H2 as [->|]; done.
Qed.

Lemma map_set_nodup k v m : NoDup m.*1 → NoDup (map_set k v m).*1.
Proof.
  intros Hnd. rewrite map_set_fst. destruct (decide (k ∈ m.*1)); [done|].
  apply NoDup_app. split_and!; [done| |apply NoDup_singleton]. by intros x Hx ->%list_elem_of_singleton.
Qed.

Lemma map_set_length k v m : (length (map_set k v m) ≤ S (length m))%nat.
Proof. induction m as [|[k' v'] m IH]; simpl; [lia|]. case_bool_decide; simpl; lia. Qed.

Lemma map_delete_nodup k m : NoDup m.*1 → NoDup (map_delete k m).*1.
Proof. intros Hnd. eapply sublist_NoDup; [exact Hnd|]. apply sublist_fmap, sublist_filter. Qed.

(** Deleting a key the map has removes one entry. *)
Lemma map_delete_length k m : NoDup m.*1 → k ∈ m.*1 → length (map_delete k m) = (length m - 1)%nat.
Proof.
  induction m as [|[k' v'] m IH]; intros Hnd Hk; [by apply elem_of_nil in Hk|].
  rewrite fmap_cons in Hnd, Hk. cbn [fst] in Hnd, Hk. apply NoDup_cons in Hnd as [Hn Hnd]. unfold map_delete. rewrite filter_cons. simpl.
  apply elem_of_cons in Hk as [<-|Hk].
  - rewrite decide_False by (simpl; tauto). rewrite filter_all; [lia|].
    apply Forall_forall. intros [x w] Hxw Heq. simpl in Heq. subst. apply Hn.
    apply list_elem_of_fmap. by exists (k, w).
  - rewrite decide_True; [|simpl; intros ->; by apply Hn]. simpl. unfold map_delete in IH. rewrite IH by done.
    destruct m; [by apply elem_of_nil in Hk|simpl; lia].
Qed.

Lemma map_delete_fst k m : (map_delete k m).*1 = filter (λ x, x ≠ k) m.*1.
Proof.
  induction m as [|[k' v'] m IH]; [done|]. unfold map_delete in *. rewrite fmap_cons, !filter_cons. cbn [fst].
  destruct (decide (k' ≠ k)); [rewrite fmap_cons; cbn [fst]|]; by rewrite IH.
Qed.

Lemma map_get_cons k k' v m : map_get k ((k', v) :: m) = if decide (k' = k) then Some v else map_get k m.
Proof. unfold map_get. simpl. case_decide; simpl; [done|]. by destruct (list_find _ m) as [[]|]. Qed.

Lemma map_get_delete k k' m : k ≠ k' → map_get k (map_delete k' m) = map_get k m.
Proof.
  intros Hne. induction m as [|[x v] m IH]; [done|]. unfold map_delete in *. rewrite filter_cons, map_get_cons.
  destruct (decide ((x, v).1 ≠ k')) as [Hx|Hx]; cbn [fst] in Hx.
  - rewrite map_get_cons. by rewrite IH.
  - apply dec_stable in Hx. subst. rewrite decide_False by done. exact IH.
Qed.

Lemma map_get_delete_same k m : map_get k (map_delete k m) = None.
Proof.
  induction m as [|[x v] m IH]; [done|]. unfold map_delete in *. rewrite filter_cons.
  destruct (decide ((x, v).1 ≠ k)) as [Hx|Hx]; cbn [fst] in Hx; [|exact IH].
  rewrite map_get_cons, decide_False by done. exact IH.
Qed.

(** [get] after [set]: the key set has the new value, the others keep theirs. *)
Lemma map_get_set k k' v m : map_get k (map_set k' v m) = if decide (k' = k) then Some v else map_get k m.
Proof.
  induction m as [|[x w] m IH]; cbn [map_set]; [by rewrite map_get_cons|].
  case_bool_decide as Hx; [subst x; rewrite !map_get_cons; by case_decide|].
  rewrite !map_get_cons, IH. do 2 case_decide; congruence.
Qed.

(** Deleting distinct keys, all present, one at a time. *)
Lemma foldl_delete_spec ks m :
  NoDup ks → NoDup m.*1 → (∀ k, k ∈ ks → k ∈ m.*1) →
  let m' := foldl (λ m k, map_delete k m) m ks in
  NoDup m'.*1 ∧ length m' = (length m - length ks)%nat ∧ ∀ k, k ∉ ks → map_get k m' = map_get k m.
Proof.
  revert m. induction ks as [|k ks IH]; intros m Hks Hnd Hin; simpl; [split_and!; [done|lia|done]|].
  apply NoDup_cons in Hks as [Hk Hks].
  destruct (IH (map_delete k m) Hks (map_delete_nodup k m Hnd)) as (H1 & H2 & H3).
  { intros x Hx. rewrite map_delete_fst. apply list_elem_of_filter. split; [intros ->; contradiction|].
    apply Hin. by right. }
  split_and!; [done| |].
  - rewrite H2, map_delete_length; [lia|done|apply Hin; left].
  - intros x Hx. apply not_elem_of_cons in Hx as [Hx1 Hx2]. rewrite H3 by done. by apply map_get_delete.
Qed.

Lemma map_get_foldl_delete ks m k :
  map_get k (foldl (λ m k, map_delete k m) m ks) = if decide (k ∈ ks) then None else map_get k m.
Proof.
  revert m. induction ks as [|k' ks IH]; intros m; simpl; [reflexivity|].
  rewrite IH. destruct (decide (k = k')) as [->|Hne].
  - rewrite (decide_True _ _ (list_elem_of_here k' ks)). rewrite map_get_delete_same. by case_decide.
  - rewrite map_get_delete by done. destruct (decide (k ∈ ks)), (decide (k ∈ k' :: ks)); try done.
    + exfalso. apply n. by right.
    + apply elem_of_cons in e as [->|]; done.
Qed.

Lemma map_get_snoc k k' v m : k' ∉ m.*1 → map_get k (m ++ [(k', v)]) = if decide (k = k') then Some v else map_get k m.
Proof.
  induction m as [|[x w] m IH]; intros Hk; simpl.
  - rewrite map_get_cons. by destruct (decide (k' = k)), (decide (k = k')); subst.
  - rewrite fmap_cons in Hk. cbn [fst] in Hk. apply not_elem_of_cons in Hk as [Hne Hk].
    rewrite !map_get_cons, IH by done. destruct (decide (x = k)); [subst|done]. by rewrite decide_False.
Qed.

Lemma map_get_Some k v m : map_get k m = Some v → (k, v) ∈ m.
Proof.
  induction m as [|[x w] m IH]; [done|]. rewrite map_get_cons. case_decide; [intros [= <-]; subst; apply list_elem_of_here|].
  intros Hg. right. by apply IH.
Qed.

Lemma map_get_is_Some k m : k ∈ m.*1 → is_Some (map_get k m).
Proof.
  induction m as [|[x w] m IH]; intros Hk; [by apply elem_of_nil in Hk|]. rewrite map_get_cons.
  case_decide; [eauto|]. rewrite fmap_cons in Hk. apply elem_of_cons in Hk as [->|Hk]; [done|by apply IH].
Qed.

(** [has] is [get] returning a value. *)
Lemma map_has_get k m : map_has k m = bool_decide (is_Some (map_get k m)).
Proof.
  unfold map_has. apply bool_decide_ext. split; [apply map_get_is_Some|].
  intros [v Hv]. apply map_get_Some in Hv. apply list_elem_of_fmap. by exists (k, v).
Qed.

Lemma map_get_None k m : map_get k m = None ↔ k ∉ m.*1.
Proof.
  split.
  - intros Hn Hk. destruct (map_get_is_Some k m Hk) as [v Hv]. congruence.
  - intros Hk. destruct (map_get k m) as [v|] eqn:Hv; [|done].
    apply map_get_Some in Hv. destruct Hk. apply list_elem_of_fmap. by exists (k, v).
Qed.

(** An entry of [m.set(k, v)] is the new one or an entry of [m]. *)
Lemma map_set_elem_of k v m kv : kv ∈ map_set k v m → kv = (k, v) ∨ kv ∈ m.
Proof.
  induction m as [|[k' v'] m IH]; simpl.
  - intros ->%list_elem_of_singleton. by left.
  - case_bool_decide; intros Hkv; apply elem_of_cons in Hkv as [->|Hkv].
    + by left.
    + right. by right.
    + right. by left.
    + destruct (IH Hkv); [by left|]. right. by right.
Qed.

(** With unique keys, [get] finds every entry. *)
Lemma map_get_elem_of k v m : NoDup m.*1 → (k, v) ∈ m → map_get k m = Some v.
Proof.
  induction m as [|[x w] m IH]; intros Hnd Hkv; [by apply elem_of_nil in Hkv|].
  rewrite fmap_cons in Hnd. apply NoDup_cons in Hnd as [Hx Hnd]. rewrite map_get_cons.
  apply elem_of_cons in Hkv as [[= -> ->]|Hkv]; [by rewrite decide_True|].
  rewrite decide_False; [by apply IH|]. intros ->. apply Hx, list_elem_of_fmap. by exists (k, v).
Qed.

End JsMap.
