(* ===== verification/JsArray.v ===== *)
(** * [Array.prototype.sort] with a comparator

    [arr.sort(cmp)] sorts by the sign of [cmp(a, b)] and, since ES2019,
    is stable: elements that compare equal keep their order.  The model
    is the stable insertion sort: the elements are inserted one after the
    other, each after every element that does not compare greater.  The
    services sort by a numeric key, [(a, b) => key(a) - key(b)] or the
    reverse. *)

From S2P Require Import Prelude.
From Stdlib Require Import Sorting.Sorted.

Section JsArray.
Context {A : Type}.
Implicit Types (cmp : A → A → Z) (l : list A).

(** Insert [x] before the first element that compares greater. *)
Fixpoint insert_by cmp (x : A) l : list A :=
  match l with
  | [] => [x]
  | y :: r => if bool_decide (0 < cmp y x)%Z then x :: l else y :: insert_by cmp x r
  end.

(** [l.sort(cmp)]. *)
Definition sort_by cmp l : list A := foldr (insert_by cmp) [] (rev l).

Lemma insert_by_perm cmp x l : insert_by cmp x l ≡ₚ x :: l.
Proof.
  induction l as [|y l IH]; simpl; [done|]. case_bool_decide; [done|].
  rewrite IH. apply perm_swap.
Qed.

Lemma sort_by_perm cmp l : sort_by cmp l ≡ₚ l.
Proof.
  unfold sort_by. rewrite <-(reverse_Permutation l) at 2. unfold reverse. rewrite <-rev_alt.
  induction (rev l) as [|x r IH]; simpl; [done|]. by rewrite insert_by_perm, IH.
Qed.

(** An element no other compares greater than goes last. *)
Lemma insert_by_last cmp x l : (∀ y, y ∈ l → cmp y x ≤ 0)%Z → insert_by cmp x l = l ++ [x].
Proof.
  induction l as [|y l IH]; intros H; [done|]. simpl. rewrite bool_decide_false.
  - f_equal. apply IH. intros z Hz. apply H. by right.
  - pose proof (H y (list_elem_of_here _ _)). lia.
Qed.

Lemma sort_by_snoc cmp l x : (∀ y, y ∈ l → cmp y x ≤ 0)%Z → sort_by cmp (l ++ [x]) = sort_by cmp l ++ [x].
Proof.
  intros H. unfold sort_by. rewrite rev_app_distr. simpl. apply insert_by_last.
  intros y Hy. apply H. by rewrite <-(sort_by_perm cmp l).
Qed.

Lemma sort_by_ext cmp1 cmp2 l : (∀ a b, cmp1 a b = cmp2 a b) → sort_by cmp1 l = sort_by cmp2 l.
Proof.
  intros Hc. unfold sort_by. induction (rev l) as [|x r IH]; [done|]. cbn. rewrite IH.
  generalize (foldr (insert_by cmp2) [] r). intros m. induction m as [|y m IHm]; [done|]. cbn.
  by rewrite Hc, IHm.
Qed.

Section key.
Variable key : A → Z.

Lemma insert_by_key_sorted x l :
  Sorted (λ a b, key a ≤ key b)%Z l → Sorted (λ a b, key a ≤ key b)%Z (insert_by (λ a b, key a - key b)%Z x l).
Proof.
  induction l as [|y l IH]; intros Hs; cbn; [by repeat constructor|].
  apply Sorted_inv in Hs as [Hs Hhd]. case_bool_decide as Hc.
  - constructor; [by constructor|]. constructor. lia.
  - constructor; [by apply IH|]. destruct l as [|z l]; cbn; [constructor; lia|].
    inversion Hhd; subst. case_bool_decide; constructor; lia.
Qed.

(** [l.sort((a, b) => key(a) - key(b))] is sorted by [key]. *)
Lemma sort_by_key_sorted l : Sorted (λ a b, key a ≤ key b)%Z (sort_by (λ a b, key a - key b)%Z l).
Proof. unfold sort_by. induction (rev l) as [|x r IH]; cbn; [constructor|]. by apply insert_by_key_sorted. Qed.

End key.
End JsArray.
