(* ===== verification/Json.v ===== *)
(** * JSON values, [JSON.stringify] and [JSON.parse]

    The workspace and backup services store their data as JSON text:
    [exportWorkspace] and [createBackup] call [JSON.stringify(x, null, 2)],
    [generateShareableUrl] calls [JSON.stringify(x)], and the import and
    restore paths call [JSON.parse].  This file models the two built-ins
    on the values those services write:

    - [json]: null, booleans, integers, strings, arrays and objects (an
      object is its list of properties in insertion order, which is the
      order [JSON.stringify] writes them);
    - [jprint pretty depth v]: [JSON.stringify(v)] ([pretty = false]) or
      [JSON.stringify(v, null, 2)] ([pretty = true]), character for
      character, with the escapes of QuoteJSONString;
    - [parse_value]: a recursive-descent reading of the JSON grammar, with
      fuel; [json_parse] reads a whole text and fails ([None]) wherever
      [JSON.parse] throws a [SyntaxError].

    Numbers are integers: a number with a fraction or an exponent is
    outside the model and [json_parse] refuses it; the services only write
    integer numbers (versions, sizes, counts).  [\uXXXX] escapes denote a
    character only up to [ÿ]: strings are byte strings here.

    The main theorem is the round trip [json_parse (json_stringify pretty
    v) = Some v], for both layouts, proved from [parse_print] on every
    value and every suffix that does not start with a digit. *)

From S2P Require Import Prelude JsString.
From Stdlib Require Import Ascii String.
Local Abbreviation length := List.length.

Local Open Scope char_scope.
Local Open Scope Z_scope.
Local Set Warnings "-register-all".

(** ** Values *)

Inductive json :=
| JNull
| JBool (b : bool)
| JNum (n : Z)
| JStr (s : string)
| JArr (l : list json)
| JObj (kvs : list (string * json)).

(** Induction with hypotheses on the elements of arrays and objects. *)
Section json_ind_strong.
Variable P : json → Prop.
Hypothesis HNull : P JNull.
Hypothesis HBool : ∀ b, P (JBool b).
Hypothesis HNum : ∀ n, P (JNum n).
Hypothesis HStr : ∀ s, P (JStr s).
Hypothesis HArr : ∀ l, Forall P l → P (JArr l).
Hypothesis HObj : ∀ kvs, Forall (λ kv, P kv.2) kvs → P (JObj kvs).

Fixpoint json_ind_strong (v : json) : P v :=
  match v with
  | JNull => HNull
  | JBool b => HBool b
  | JNum n => HNum n
  | JStr s => HStr s
  | JArr l => HArr l ((fix go l : Forall P l :=
                        match l with
                        | [] => Forall_nil_2 _
                        | x :: l' => Forall_cons_2 _ _ _ (json_ind_strong x) (go l')
                        end) l)
  | JObj kvs => HObj kvs ((fix go kvs : Forall (λ kv, P kv.2) kvs :=
                            match kvs with
                            | [] => Forall_nil_2 _
                            | kv :: kvs' => Forall_cons_2 _ _ _ (json_ind_strong kv.2) (go kvs')
                            end) kvs)
  end.
End json_ind_strong.

(** ** Equality *)

Fixpoint list_eqb {A} (eqb : A → A → bool) (l1 l2 : list A) : bool :=
  match l1, l2 with
  | [], [] => true
  | x :: r1, y :: r2 => eqb x y && list_eqb eqb r1 r2
  | _, _ => false
  end.

Fixpoint json_eqb (a b : json) : bool :=
  match a, b with
  | JNull, JNull => true
  | JBool x, JBool y => bool_decide (x = y)
  | JNum x, JNum y => bool_decide (x = y)
  | JStr x, JStr y => bool_decide (x = y)
  | JArr l1, JArr l2 => list_eqb json_eqb l1 l2
  | JObj k1, JObj k2 => list_eqb (λ p q, bool_decide (p.1 = q.1) && json_eqb p.2 q.2) k1 k2
  | _, _ => false
  end.

Lemma list_eqb_spec {A} (eqb : A → A → bool) l1 :
  Forall (λ x, ∀ y, eqb x y = true ↔ x = y) l1 → ∀ l2, list_eqb eqb l1 l2 = true ↔ l1 = l2.
Proof.
  induction 1 as [|x l1 Hx _ IH]; intros [|y l2]; simpl; try (split; congruence).
  rewrite andb_true_iff, Hx, IH. split; [intros [-> ->]|intros [= -> ->]]; done.
Qed.

Lemma json_eqb_spec a b : json_eqb a b = true ↔ a = b.
Proof.
  revert b. induction a as [| | | |l Hl|kvs Hkvs] using json_ind_strong; intros [];
    simpl; rewrite ?bool_decide_eq_true; try (split; congruence).
  - rewrite list_eqb_spec by done. split; congruence.
  - rewrite list_eqb_spec; [split; congruence|]. eapply Forall_impl; [exact Hkvs|].
    intros [k v] Hv [k' v']. simpl in *. rewrite andb_true_iff, bool_decide_eq_true, Hv.
    split; [intros [-> ->]|intros [= -> ->]]; done.
Qed.

#[export] Instance json_eq_dec : EqDecision json.
Proof. refine (λ a b, cast_if (decide (json_eqb a b = true))); by rewrite <-json_eqb_spec. Defined.

(** ** Objects *)

(** The property [k] of a property list, [None] for [undefined]. *)
Fixpoint assoc_get (k : string) (kvs : list (string * json)) : option json :=
  match kvs with
  | [] => None
  | (k', x) :: r => if bool_decide (k = k') then Some x else assoc_get k r
  end.

(** [o[k] = x] on a property list: replace the value in place when [k]
    exists, append otherwise (CreateDataProperty). *)
Fixpoint assoc_set (k : string) (x : json) (kvs : list (string * json)) : list (string * json) :=
  match kvs with
  | [] => [(k, x)]
  | (k', y) :: r => if bool_decide (k = k') then (k', x) :: r else (k', y) :: assoc_set k x r
  end.

(** [v.k] on a value: [undefined] on anything but an object. *)
Definition jget (v : json) (k : string) : option json :=
  match v with
  | JObj kvs => assoc_get k kvs
  | _ => None
  end.

(** A JavaScript object has each property once. *)
Fixpoint json_wf (v : json) : bool :=
  match v with
  | JArr l => forallb json_wf l
  | JObj kvs => bool_decide (NoDup kvs.*1) && forallb (λ kv, json_wf kv.2) kvs
  | _ => true
  end.

(** ** JavaScript operations on parsed values *)

(** ToBoolean: [null], [false], [0] and the empty string are falsy. *)
Definition js_truthy (v : json) : bool :=
  match v with
  | JNull => false
  | JBool b => b
  | JNum n => negb (bool_decide (n = 0))
  | JStr s => negb (bool_decide (s = EmptyString))
  | JArr _ | JObj _ => true
  end.

(** [a || b] where [a] may be [undefined] ([None]). *)
Definition js_or (a : option json) (b : json) : json :=
  match a with
  | Some v => if js_truthy v then v else b
  | None => b
  end.

(** [v.k] on a parsed value: a [TypeError] on [null], [undefined] on
    anything but an object without that property. *)
Definition js_prop (v : json) (k : string) : result string (option json) :=
  match v with
  | JNull => Err "TypeError"%string
  | _ => Ok (jget v k)
  end.

(** ToString, as [+] applies it to a non-number: arrays join their
    elements with commas ([null] giving the empty string), objects print
    as [[object Object]]. *)
Fixpoint js_to_string (v : json) : string :=
  match v with
  | JNull => "null"%string
  | JBool true => "true"%string
  | JBool false => "false"%string
  | JNum n => z_to_string n
  | JStr s => s
  | JArr l =>
      join ","%string (map (λ x, match x with JNull => EmptyString | _ => js_to_string x end) l)
  | JObj _ => "[object Object]"%string
  end.

(** [v + 1]: numeric addition on numbers, booleans and [null], string
    concatenation on everything else. *)
Definition js_add_one (v : json) : json :=
  match v with
  | JNum n => JNum (n + 1)
  | JBool b => JNum (if b then 2 else 1)
  | JNull => JNum 1
  | _ => JStr (js_to_string v +:+ "1"%string)
  end.

(** ** Characters *)

Definition c_quote : ascii := ascii_of_nat 34.
Definition c_bslash : ascii := "\".

(** JSON's white space: space, tab, line feed, carriage return. *)
Definition json_ws (c : ascii) : bool :=
  bool_decide (c = " "%char) || bool_decide (c = "009"%char) ||
  bool_decide (c = "010"%char) || bool_decide (c = "013"%char).

Fixpoint skip_ws (s : list ascii) : list ascii :=
  match s with
  | c :: r => if json_ws c then skip_ws r else s
  | [] => []
  end.

Definition digit_val (c : ascii) : option Z :=
  let n := Z.of_nat (nat_of_ascii c) in
  if (48 <=? n) && (n <=? 57) then Some (n - 48) else None.

Definition hex_val (c : ascii) : option Z :=
  let n := Z.of_nat (nat_of_ascii c) in
  if (48 <=? n) && (n <=? 57) then Some (n - 48)
  else if (97 <=? n) && (n <=? 102) then Some (n - 87)
  else if (65 <=? n) && (n <=? 70) then Some (n - 55)
  else None.

(** The lower-case hex digit of [0 <= k < 16], as [JSON.stringify] writes
    it in [\u00XX]. *)
Definition hex_digit (k : nat) : ascii :=
  if (k <? 10)%nat then ascii_of_nat (48 + k) else ascii_of_nat (87 + k).

(** ** [JSON.stringify] *)

(** QuoteJSONString, one character. *)
Definition quote_char (c : ascii) : list ascii :=
  let n := nat_of_ascii c in
  if bool_decide (c = c_quote) then [c_bslash; c_quote]
  else if bool_decide (c = c_bslash) then [c_bslash; c_bslash]
  else if (n =? 8)%nat then [c_bslash; "b"]
  else if (n =? 9)%nat then [c_bslash; "t"]
  else if (n =? 10)%nat then [c_bslash; "n"]
  else if (n =? 12)%nat then [c_bslash; "f"]
  else if (n =? 13)%nat then [c_bslash; "r"]
  else if (n <? 32)%nat then [c_bslash; "u"; "0"; "0"; hex_digit (n / 16); hex_digit (n mod 16)]
  else [c].

Definition quote (s : string) : list ascii :=
  [c_quote] ++ mbind quote_char (list_ascii_of_string s) ++ [c_quote].

Fixpoint sep_join (sep : list ascii) (l : list (list ascii)) : list ascii :=
  match l with
  | [] => []
  | [x] => x
  | x :: r => x ++ sep ++ sep_join sep r
  end.

(** A line break and the indentation of nesting level [d] (two spaces a
    level), written only by the pretty layout. *)
Definition nl (pretty : bool) (d : nat) : list ascii :=
  if pretty then "010"%char :: repeat " "%char (2 * d) else [].

(** [JSON.stringify(v)] ([pretty = false]) or [JSON.stringify(v, null, 2)]
    ([pretty = true]) of a value at nesting level [d]. *)
Fixpoint jprint (pretty : bool) (d : nat) (v : json) : list ascii :=
  match v with
  | JNull => ["n"; "u"; "l"; "l"]
  | JBool true => ["t"; "r"; "u"; "e"]
  | JBool false => ["f"; "a"; "l"; "s"; "e"]
  | JNum n => list_ascii_of_string (z_to_string n)
  | JStr s => quote s
  | JArr [] => ["["; "]"]
  | JArr l =>
      ["["] ++ nl pretty (S d) ++
      sep_join ("," :: nl pretty (S d)) (map (jprint pretty (S d)) l) ++ nl pretty d ++ ["]"]
  | JObj [] => ["{"; "}"]
  | JObj kvs =>
      ["{"] ++ nl pretty (S d) ++
      sep_join ("," :: nl pretty (S d))
        (map (λ kv, quote kv.1 ++ [":"] ++ (if pretty then [" "%char] else []) ++
                    jprint pretty (S d) kv.2) kvs) ++
      nl pretty d ++ ["}"]
  end.

Definition json_stringify (pretty : bool) (v : json) : string :=
  string_of_list_ascii (jprint pretty 0 v).

(** ** [JSON.parse] *)

(** The body of a string literal after its opening quote, up to and
    including the closing quote. *)
Fixpoint parse_str (s : list ascii) : option (list ascii * list ascii) :=
  match s with
  | [] => None
  | c :: r =>
      if bool_decide (c = c_quote) then Some ([], r)
      else if bool_decide (c = c_bslash) then
        match r with
        | e :: r1 =>
            let esc ch := (λ '(t, r2), (ch :: t, r2)) <$> parse_str r1 in
            if bool_decide (e = c_quote) then esc c_quote
            else if bool_decide (e = c_bslash) then esc c_bslash
            else if bool_decide (e = "/"%char) then esc "/"%char
            else if bool_decide (e = "b"%char) then esc (ascii_of_nat 8)
            else if bool_decide (e = "f"%char) then esc (ascii_of_nat 12)
            else if bool_decide (e = "n"%char) then esc (ascii_of_nat 10)
            else if bool_decide (e = "r"%char) then esc (ascii_of_nat 13)
            else if bool_decide (e = "t"%char) then esc (ascii_of_nat 9)
            else if bool_decide (e = "u"%char) then
              match r1 with
              | h1 :: h2 :: h3 :: h4 :: r2 =>
                  match hex_val h1, hex_val h2, hex_val h3, hex_val h4 with
                  | Some a, Some b, Some c', Some d =>
                      let n := ((a * 16 + b) * 16 + c') * 16 + d in
                      if n <? 256
                      then (λ '(t, r3), (ascii_of_nat (Z.to_nat n) :: t, r3)) <$> parse_str r2
                      else None
                  | _, _, _, _ => None
                  end
              | _ => None
              end
            else None
        | [] => None
        end
      else if (nat_of_ascii c <? 32)%nat then None
      else (λ '(t, r1), (c :: t, r1)) <$> parse_str r
  end.

Fixpoint read_digits (s : list ascii) (acc : Z) : Z * list ascii :=
  match s with
  | c :: r => match digit_val c with Some k => read_digits r (acc * 10 + k) | None => (acc, s) end
  | [] => (acc, [])
  end.

(** What may follow a number: not a digit (the number would go on), and
    not a fraction or an exponent (outside the model). *)
Definition num_end_ok (s : list ascii) : bool :=
  match s with
  | c :: _ => bool_decide (digit_val c = None) && negb (bool_decide (c = "."%char)) &&
              negb (bool_decide (c = "e"%char)) && negb (bool_decide (c = "E"%char))
  | [] => true
  end.

(** A number: an optional minus sign, then [0] or a non-zero digit and more digits. *)
Definition parse_number (s : list ascii) : option (json * list ascii) :=
  let '(neg, s1) := match s with c :: r => if bool_decide (c = "-"%char) then (true, r) else (false, s)
                                 | [] => (false, s) end in
  match s1 with
  | c :: r =>
      match digit_val c with
      | Some k =>
          let '(n, r') := if k =? 0 then (0, r) else read_digits r k in
          if num_end_ok r' then Some (JNum (if neg then - n else n), r') else None
      | None => None
      end
  | [] => None
  end.

Fixpoint parse_value (fuel : nat) (s : list ascii) : option (json * list ascii) :=
  match fuel with
  | O => None
  | S f =>
      match skip_ws s with
      | [] => None
      | c :: r =>
          if bool_decide (c = "n"%char) then
            match r with "u" :: "l" :: "l" :: r' => Some (JNull, r') | _ => None end
          else if bool_decide (c = "t"%char) then
            match r with "r" :: "u" :: "e" :: r' => Some (JBool true, r') | _ => None end
          else if bool_decide (c = "f"%char) then
            match r with "a" :: "l" :: "s" :: "e" :: r' => Some (JBool false, r') | _ => None end
          else if bool_decide (c = c_quote) then
            (λ '(t, r'), (JStr (string_of_list_ascii t), r')) <$> parse_str r
          else if bool_decide (c = "["%char) then
            match skip_ws r with
            | c' :: r' => if bool_decide (c' = "]"%char) then Some (JArr [], r') else parse_elems f r []
            | [] => None
            end
          else if bool_decide (c = "{"%char) then
            match skip_ws r with
            | c' :: r' => if bool_decide (c' = "}"%char) then Some (JObj [], r') else parse_members f r []
            | [] => None
            end
          else parse_number (c :: r)
      end
  end
with parse_elems (fuel : nat) (s : list ascii) (acc : list json) : option (json * list ascii) :=
  match fuel with
  | O => None
  | S f =>
      match parse_value f s with
      | Some (v, r) =>
          match skip_ws r with
          | c :: r' =>
              if bool_decide (c = ","%char) then parse_elems f r' (acc ++ [v])
              else if bool_decide (c = "]"%char) then Some (JArr (acc ++ [v]), r')
              else None
          | [] => None
          end
      | None => None
      end
  end
with parse_members (fuel : nat) (s : list ascii) (acc : list (string * json))
    : option (json * list ascii) :=
  match fuel with
  | O => None
  | S f =>
      match skip_ws s with
      | q :: r =>
          if bool_decide (q = c_quote) then
            match parse_str r with
            | Some (k, r1) =>
                match skip_ws r1 with
                | c :: r2 =>
                    if bool_decide (c = ":"%char) then
                      match parse_value f r2 with
                      | Some (v, r3) =>
                          let acc' := assoc_set (string_of_list_ascii k) v acc in
                          match skip_ws r3 with
                          | c' :: r4 =>
                              if bool_decide (c' = ","%char) then parse_members f r4 acc'
                              else if bool_decide (c' = "}"%char) then Some (JObj acc', r4)
                              else None
                          | [] => None
                          end
                      | None => None
                      end
                    else None
                | [] => None
                end
            | None => None
            end
          else None
      | [] => None
      end
  end.

(** [JSON.parse(text)]: one value, surrounded by white space only. *)
Definition json_parse (text : string) : option json :=
  let s := list_ascii_of_string text in
  match parse_value (S (List.length s)) s with
  | Some (v, r) => if bool_decide (skip_ws r = []) then Some v else None
  | None => None
  end.

(** ** Lemmas: characters, strings and numbers *)

Lemma hex_val_digit k : (k < 16)%nat → hex_val (hex_digit k) = Some (Z.of_nat k).
Proof.
  intros Hk. do 16 (destruct k as [|k]; [reflexivity|]). lia.
Qed.

Lemma parse_str_char c r :
  parse_str (quote_char c ++ r) = (λ '(t, r'), (c :: t, r')) <$> parse_str r.
Proof.
  unfold quote_char.
  case_bool_decide as Hq; [subst; reflexivity|].
  case_bool_decide as Hb; [subst; reflexivity|].
  destruct (Nat.eqb_spec (nat_of_ascii c) 8) as [H|_];
    [rewrite <-(ascii_nat_embedding c), H; reflexivity|].
  destruct (Nat.eqb_spec (nat_of_ascii c) 9) as [H|_];
    [rewrite <-(ascii_nat_embedding c), H; reflexivity|].
  destruct (Nat.eqb_spec (nat_of_ascii c) 10) as [H|_];
    [rewrite <-(ascii_nat_embedding c), H; reflexivity|].
  destruct (Nat.eqb_spec (nat_of_ascii c) 12) as [H|_];
    [rewrite <-(ascii_nat_embedding c), H; reflexivity|].
  destruct (Nat.eqb_spec (nat_of_ascii c) 13) as [H|_];
    [rewrite <-(ascii_nat_embedding c), H; reflexivity|].
  destruct (Nat.ltb_spec (nat_of_ascii c) 32) as [Hlt|Hge].
  - assert (Hhi : (nat_of_ascii c / 16 < 16)%nat) by (apply Nat.Div0.div_lt_upper_bound; lia).
    assert (Hlo : (nat_of_ascii c mod 16 < 16)%nat) by (apply Nat.mod_upper_bound; lia).
    pose proof (Nat.div_mod_eq (nat_of_ascii c) 16) as Hdm.
    remember (nat_of_ascii c / 16)%nat as hi. remember (nat_of_ascii c mod 16)%nat as lo.
    simpl. rewrite !hex_val_digit by done. simpl.
    change (Z.of_nat (nat_of_ascii "0")) with 48.
    replace ((((48 - 48) * 16 + (48 - 48)) * 16 + Z.of_nat hi) * 16 + Z.of_nat lo)
      with (Z.of_nat (nat_of_ascii c)) by lia.
    rewrite (proj2 (Z.ltb_lt _ _)) by (pose proof (nat_ascii_bounded c); lia).
    by rewrite Nat2Z.id, ascii_nat_embedding.
  - simpl. rewrite !bool_decide_false by done.
    destruct (Nat.ltb_spec (nat_of_ascii c) 32); [lia|]. reflexivity.
Qed.

Lemma parse_str_quote (l : list ascii) rest :
  parse_str (mbind quote_char l ++ c_quote :: rest) = Some (l, rest).
Proof.
  induction l as [|c l IH]; [reflexivity|].
  change ((c :: l) ≫= quote_char) with (quote_char c ++ l ≫= quote_char).
  rewrite <-app_assoc, parse_str_char, IH. done.
Qed.

Lemma pos_size_nat_bound (p : positive) : Z.pos p < 2 ^ Z.of_nat (Pos.size_nat p).
Proof.
  induction p as [p IH|p IH|]; cbn [Pos.size_nat]; [| |simpl; lia];
    rewrite Nat2Z.inj_succ, Z.pow_succ_r by lia; lia.
Qed.

Lemma size_nat_bound (m : N) : (m < 2 ^ N.of_nat (N.size_nat m))%N.
Proof.
  destruct m as [|p]; [simpl; lia|]. pose proof (pos_size_nat_bound p). simpl N.size_nat.
  apply N2Z.inj_lt. rewrite N2Z.inj_pow, nat_N_Z. done.
Qed.

Lemma digit_val_char (k : N) : (k < 10)%N → digit_val (ascii_of_N (48 + k)) = Some (Z.of_N k).
Proof.
  intros Hk. rewrite <-(N2Nat.id k) in *. remember (N.to_nat k) as j. clear Heqj.
  assert (j < 10)%nat by lia. do 10 (destruct j as [|j]; [reflexivity|]). lia.
Qed.

Lemma n_digits_read f m acc k rest :
  (m < 10 ^ N.of_nat f)%N →
  ∃ e : nat, read_digits (list_ascii_of_string (n_digits f m acc) ++ rest) k =
       read_digits (list_ascii_of_string acc ++ rest) (k * 10 ^ Z.of_nat e + Z.of_N m).
Proof.
  revert m acc k. induction f as [|f IH]; intros m acc k Hm.
  - exists 0%nat. simpl in *. replace m with 0%N by lia. f_equal. lia.
  - simpl n_digits. assert (Hmod : (m mod 10 < 10)%N) by (apply N.mod_upper_bound; lia).
    pose proof (N.div_mod m 10 ltac:(lia)) as Hdm.
    destruct (N.ltb_spec m 10) as [Hlt|Hge].
    + exists 1%nat. simpl. rewrite digit_val_char by done. f_equal.
      rewrite N.mod_small by done. lia.
    + destruct (IH (m / 10)%N (String (ascii_of_N (48 + m mod 10)) acc) k) as [e He].
      { rewrite Nat2N.inj_succ, N.pow_succ_r' in Hm.
        apply N.Div0.div_lt_upper_bound; lia. }
      exists (S e). rewrite He. simpl. rewrite digit_val_char by done. f_equal.
      rewrite Nat2Z.inj_succ, Z.pow_succ_r by lia.
      replace (Z.of_N m) with (10 * Z.of_N (m / 10) + Z.of_N (m mod 10)) by lia. ring.
Qed.

Lemma n_digits_head f m acc :
  (0 < m)%N → (m < 10 ^ N.of_nat f)%N →
  ∃ c r k, list_ascii_of_string (n_digits f m acc) = c :: r ∧ digit_val c = Some k ∧ k ≠ 0.
Proof.
  revert m acc. induction f as [|f IH]; intros m acc Hpos Hm; [simpl in Hm; lia|].
  simpl n_digits. assert (Hmod : (m mod 10 < 10)%N) by (apply N.mod_upper_bound; lia).
  destruct (N.ltb_spec m 10) as [Hlt|Hge].
  - do 3 eexists. split; [reflexivity|]. rewrite digit_val_char by done.
    split; [reflexivity|]. rewrite N.mod_small by done. lia.
  - apply IH.
    + apply N.div_str_pos. lia.
    + rewrite Nat2N.inj_succ, N.pow_succ_r' in Hm. apply N.Div0.div_lt_upper_bound; lia.
Qed.

Lemma read_digits_stop rest acc : num_end_ok rest = true → read_digits rest acc = (acc, rest).
Proof.
  destruct rest as [|c r]; [done|]. simpl. intros H.
  destruct (digit_val c) eqn:Hd; [|done]. by rewrite bool_decide_false in H.
Qed.

Lemma n_to_string_fuel m : (m < 10 ^ N.of_nat (S (N.size_nat m)))%N.
Proof.
  pose proof (size_nat_bound m).
  assert (2 ^ N.of_nat (N.size_nat m) ≤ 10 ^ N.of_nat (N.size_nat m))%N
    by (apply N.pow_le_mono_l; lia).
  rewrite Nat2N.inj_succ, N.pow_succ_r'. lia.
Qed.

(** The digits of a positive number read back as that number. *)
Lemma n_to_string_read m rest :
  (0 < m)%N → num_end_ok rest = true →
  ∃ c r k, list_ascii_of_string (n_to_string m) = c :: r ∧ digit_val c = Some k ∧ k ≠ 0 ∧
           read_digits (r ++ rest) k = (Z.of_N m, rest).
Proof.
  intros Hpos Hend. unfold n_to_string.
  destruct (n_digits_head (S (N.size_nat m)) m "" Hpos (n_to_string_fuel m)) as (c & r & k & Hcr & Hc & Hk).
  destruct (n_digits_read (S (N.size_nat m)) m "" 0 rest (n_to_string_fuel m)) as [e He].
  exists c, r, k. split_and!; try done.
  rewrite Hcr in He. simpl in He. rewrite Hc in He. rewrite (read_digits_stop rest) in He by done.
  replace (0 * 10 + k) with k in He by lia. rewrite He. f_equal; lia.
Qed.

Lemma digit_val_minus : digit_val "-" = None.
Proof. reflexivity. Qed.

Lemma parse_number_print z rest :
  num_end_ok rest = true → parse_number (list_ascii_of_string (z_to_string z) ++ rest) = Some (JNum z, rest).
Proof.
  intros Hend. unfold z_to_string. destruct (Z.ltb_spec z 0) as [Hneg|Hnn].
  - destruct (n_to_string_read (Z.to_N (- z)) rest ltac:(lia) Hend) as (c & r & k & Hcr & Hc & Hk & Hr).
    change (list_ascii_of_string ("-" +:+ n_to_string (Z.to_N (- z))))
      with ("-" :: list_ascii_of_string (n_to_string (Z.to_N (- z)))).
    rewrite Hcr. unfold parse_number. simpl. rewrite Hc.
    destruct (Z.eqb_spec k 0); [done|]. rewrite Hr, Hend. f_equal. f_equal. f_equal. lia.
  - destruct (Z.eq_dec z 0) as [->|Hz].
    + unfold parse_number. simpl. by rewrite Hend.
    + destruct (n_to_string_read (Z.to_N z) rest ltac:(lia) Hend) as (c & r & k & Hcr & Hc & Hk & Hr).
      rewrite Hcr. unfold parse_number. simpl.
      rewrite bool_decide_false by (intros ->; rewrite digit_val_minus in Hc; done).
      rewrite Hc. destruct (Z.eqb_spec k 0); [done|]. rewrite Hr, Hend. f_equal. f_equal. f_equal. lia.
Qed.

(** ** The round trip *)

(** A bound on the parser's recursion: one unit per value and per element. *)
Fixpoint json_size (v : json) : nat :=
  match v with
  | JArr l => S (sum_list_with (λ x, S (json_size x)) l)
  | JObj kvs => S (sum_list_with (λ kv, S (json_size kv.2)) kvs)
  | _ => 1
  end.

Definition head_ok (c : ascii) : Prop :=
  c = "n" ∨ c = "t" ∨ c = "f" ∨ c = c_quote ∨ c = "[" ∨ c = "{" ∨ c = "-" ∨ is_Some (digit_val c).

Lemma num_head z : ∃ c r, list_ascii_of_string (z_to_string z) = c :: r ∧ (c = "-" ∨ is_Some (digit_val c)).
Proof.
  unfold z_to_string. destruct (Z.ltb_spec z 0); [by do 2 eexists; split; [reflexivity|left]|].
  destruct (Z.eq_dec z 0) as [->|Hz]; [by do 2 eexists; split; [reflexivity|right]|].
  destruct (n_to_string_read (Z.to_N z) [] ltac:(lia) eq_refl) as (c & r & k & Hcr & Hc & _).
  exists c, r. split; [done|]. right. by rewrite Hc.
Qed.

Lemma print_head p d v : ∃ c r, jprint p d v = c :: r ∧ head_ok c.
Proof.
  unfold head_ok. destruct v as [|[]|z|s|[]|[]]; simpl; try (do 2 eexists; split; [reflexivity|]; tauto).
  destruct (num_head z) as (c & r & -> & Hc). do 2 eexists; split; [reflexivity|]. tauto.
Qed.

Lemma head_ok_cases c : head_ok c →
  json_ws c = false ∧ c ≠ "]" ∧ c ≠ "}" ∧ c ≠ "," ∧ c ≠ ":".
Proof.
  intros Hc. destruct (decide (c = "-" ∨ is_Some (digit_val c))) as [Hd|Hnd].
  - assert (∀ x, (x = "-" → False) → digit_val x = None → c ≠ x) as Hne.
    { intros x Hx Hdx ->. destruct Hd as [->|[k Hk]]; [by apply Hx|congruence]. }
    split_and!; try (apply Hne; [discriminate|reflexivity]).
    unfold json_ws. destruct Hd as [->|[k Hk]]; [reflexivity|].
    repeat case_bool_decide; subst; try discriminate; done.
  - unfold head_ok in Hc. repeat destruct Hc as [->|Hc]; try (split_and!; [reflexivity|discriminate..]); tauto.
Qed.

Lemma skip_ws_nonws c r : json_ws c = false → skip_ws (c :: r) = c :: r.
Proof. intros H. simpl. by rewrite H. Qed.

Lemma skip_ws_ws c r : json_ws c = true → skip_ws (c :: r) = skip_ws r.
Proof. intros H. simpl. by rewrite H. Qed.

Lemma skip_ws_nl p d r : skip_ws (nl p d ++ r) = skip_ws r.
Proof.
  destruct p; [|reflexivity]. unfold nl. generalize (2 * d)%nat. intros n.
  change (skip_ws ("010" :: repeat " " n ++ r) = skip_ws r).
  rewrite skip_ws_ws by reflexivity.
  induction n as [|n IH]; [done|]. simpl repeat. rewrite <-app_comm_cons, skip_ws_ws by reflexivity. exact IH.
Qed.

Lemma skip_ws_print p d v r : skip_ws (jprint p d v ++ r) = jprint p d v ++ r.
Proof.
  destruct (print_head p d v) as (c & r' & -> & Hc). apply head_ok_cases in Hc as (Hws & _).
  by apply skip_ws_nonws.
Qed.

Lemma parse_value_nl f p d s : parse_value f (nl p d ++ s) = parse_value f s.
Proof. destruct f; [done|]. cbn -[skip_ws]. by rewrite skip_ws_nl. Qed.

Lemma num_end_ok_nl p d (c : ascii) r :
  c ∈ ["]"; "}"] → num_end_ok (nl p d ++ c :: r) = true.
Proof. destruct p; [done|]. intros [->|[->|[]%elem_of_nil]%elem_of_cons]%elem_of_cons; done. Qed.

Lemma parse_elems_nl f p d s acc : parse_elems f (nl p d ++ s) acc = parse_elems f s acc.
Proof. destruct f; [done|]. cbn -[parse_value skip_ws]. by rewrite parse_value_nl. Qed.


Definition all_ws (w : list ascii) : Prop := Forall (λ c, json_ws c = true) w.

Lemma skip_ws_prefix w r : all_ws w → skip_ws (w ++ r) = skip_ws r.
Proof. induction 1 as [|c w Hc _ IH]; [done|]. simpl. by rewrite Hc. Qed.

Lemma nl_ws p d : all_ws (nl p d).
Proof.
  destruct p; [|constructor]. constructor; [reflexivity|].
  apply List.Forall_forall. intros c ->%repeat_spec. reflexivity.
Qed.

Lemma sp_ws (p : bool) : all_ws (if p then [" "] else []).
Proof. destruct p; repeat constructor. Qed.

Lemma parse_value_prefix f w s : all_ws w → parse_value f (w ++ s) = parse_value f s.
Proof. intros Hw. destruct f; [done|]. cbn -[skip_ws]. by rewrite skip_ws_prefix. Qed.

Lemma parse_members_prefix f w s acc : all_ws w → parse_members f (w ++ s) acc = parse_members f s acc.
Proof. intros Hw. destruct f; [done|]. cbn -[skip_ws]. by rewrite skip_ws_prefix. Qed.

Lemma parse_elems_prefix f w s acc : all_ws w → parse_elems f (w ++ s) acc = parse_elems f s acc.
Proof. intros Hw. destruct f; [done|]. cbn -[parse_value skip_ws]. by rewrite parse_value_prefix. Qed.

Lemma assoc_set_new k v acc : k ∉ acc.*1 → assoc_set k v acc = acc ++ [(k, v)].
Proof.
  induction acc as [|[k' y] acc IH]; [done|]. simpl. intros Hk.
  rewrite bool_decide_false by set_solver. rewrite IH by set_solver. done.
Qed.

(** [o[k] = x; o[k]] is [x]. *)
Lemma assoc_get_set k v kvs : assoc_get k (assoc_set k v kvs) = Some v.
Proof.
  induction kvs as [|[k' y] kvs IH]; cbn; [by rewrite bool_decide_true|].
  case_bool_decide as Hk; cbn; [subst; by rewrite bool_decide_true|by rewrite bool_decide_false].
Qed.

Lemma num_head_ne c : c = "-" ∨ is_Some (digit_val c) →
  c ≠ "n" ∧ c ≠ "t" ∧ c ≠ "f" ∧ c ≠ c_quote ∧ c ≠ "[" ∧ c ≠ "{".
Proof.
  intros Hd. assert (∀ x, (x = "-" → False) → digit_val x = None → c ≠ x) as Hne.
  { intros x Hx Hdx ->. destruct Hd as [->|[k Hk]]; [by apply Hx|congruence]. }
  split_and!; apply Hne; (discriminate || reflexivity).
Qed.

Definition parses_back (v : json) : Prop :=
  ∀ p d f rest, json_wf v = true → (json_size v < f)%nat → num_end_ok rest = true →
  parse_value f (jprint p d v ++ rest) = Some (v, rest).

Lemma parse_print_str p d s f rest : (0 < f)%nat → parse_value f (jprint p d (JStr s) ++ rest) = Some (JStr s, rest).
Proof.
  intros Hf. destruct f as [|f]; [lia|]. simpl jprint. unfold quote. rewrite <-!app_assoc. simpl.
  rewrite parse_str_quote. simpl. by rewrite string_of_list_ascii_of_string.
Qed.

Lemma parse_print_num p d z f rest : (0 < f)%nat → num_end_ok rest = true →
  parse_value f (jprint p d (JNum z) ++ rest) = Some (JNum z, rest).
Proof.
  intros Hf Hend. destruct f as [|f]; [lia|]. simpl jprint.
  destruct (num_head z) as (c & r & Hcr & Hc).
  pose proof (num_head_ne c Hc) as (H1 & H2 & H3 & H4 & H5 & H6).
  assert (Hws : json_ws c = false).
  { apply head_ok_cases. unfold head_ok. tauto. }
  rewrite <-(parse_number_print z rest Hend), Hcr. simpl.
  rewrite Hws. by rewrite !bool_decide_false by done.
Qed.

Lemma open_dispatch (close : ascii) (k : list ascii → option (json * list ascii)) (o : option (json * list ascii)) s :
  (∃ c r, skip_ws s = c :: r ∧ c ≠ close) →
  match skip_ws s with [] => None | c' :: r' => if bool_decide (c' = close) then k r' else o end = o.
Proof. intros (c & r & -> & Hc). by rewrite bool_decide_false. Qed.

Lemma sep_join_head sep x l : ∃ tl, sep_join sep (x :: l) = x ++ tl.
Proof. destruct l; [exists []; by rewrite app_nil_r|by eexists]. Qed.

Lemma sep_join_cons2 sep x y l : sep_join sep (x :: y :: l) = x ++ sep ++ sep_join sep (y :: l).
Proof. done. Qed.

Lemma parse_elems_print p d l : Forall parses_back l →
  ∀ acc f rest, forallb json_wf l = true → l ≠ [] →
  (sum_list_with (λ x, S (json_size x)) l < f)%nat →
  parse_elems f (sep_join ("," :: nl p (S d)) (map (jprint p (S d)) l) ++ nl p d ++ "]" :: rest) acc =
  Some (JArr (acc ++ l), rest).
Proof.
  induction 1 as [|x l Hx Hl IH]; [done|]. intros acc f rest Hwf _ Hf.
  simpl in Hwf. apply andb_true_iff in Hwf as [Hwx Hwl].
  destruct f as [|f]; [simpl in Hf; lia|]. simpl in Hf.
  destruct l as [|y l].
  - cbn -[parse_value skip_ws nl jprint].
    rewrite (Hx p (S d) f); [|done|simpl in Hf |- *; lia|apply num_end_ok_nl; set_solver].
    rewrite skip_ws_prefix by apply nl_ws. simpl. done.
  - cbn [map]. rewrite sep_join_cons2, <-!app_assoc. cbn -[parse_value skip_ws nl jprint sep_join map].
    rewrite (Hx p (S d) f) by (done || lia). simpl.
    rewrite parse_elems_prefix by apply nl_ws. rewrite IH by (done || simpl in *; lia).
    by rewrite <-app_assoc.
Qed.

Lemma parse_members_print p d kvs : Forall (λ kv, parses_back kv.2) kvs →
  ∀ acc f rest, forallb (λ kv, json_wf kv.2) kvs = true → NoDup ((acc ++ kvs).*1) → kvs ≠ [] →
  (sum_list_with (λ kv, S (json_size kv.2)) kvs < f)%nat →
  parse_members f (sep_join ("," :: nl p (S d))
      (map (λ kv, quote kv.1 ++ [":"] ++ (if p then [" "] else []) ++ jprint p (S d) kv.2) kvs)
      ++ nl p d ++ "}" :: rest) acc =
  Some (JObj (acc ++ kvs), rest).
Proof.
  induction 1 as [|[k v] kvs Hv Hkvs IH]; [done|]. intros acc f rest Hwf Hnd _ Hf.
  simpl in Hwf. apply andb_true_iff in Hwf as [Hwv Hwl].
  destruct f as [|f]; [simpl in Hf; lia|]. simpl in Hf.
  assert (Hk : k ∉ acc.*1).
  { rewrite fmap_app in Hnd. simpl in Hnd. apply NoDup_app in Hnd as (_ & Hnd & _). set_solver. }
  destruct kvs as [|kv' kvs].
  - cbn [map sep_join]. unfold quote. rewrite <-!app_assoc. cbn -[parse_value skip_ws nl jprint parse_str].
    rewrite skip_ws_nonws by reflexivity. rewrite bool_decide_true by done. rewrite parse_str_quote.
    rewrite skip_ws_nonws by reflexivity. rewrite bool_decide_true by done.
    rewrite parse_value_prefix by apply sp_ws.
    rewrite (Hv p (S d) f); [|done|simpl in Hf |- *; lia|apply num_end_ok_nl; set_solver].
    rewrite skip_ws_prefix by apply nl_ws. simpl.
    by rewrite string_of_list_ascii_of_string, assoc_set_new.
  - cbn [map]. rewrite sep_join_cons2. unfold quote at 1. rewrite <-!app_assoc.
    cbn -[parse_value skip_ws nl jprint parse_str sep_join map quote].
    rewrite skip_ws_nonws by reflexivity. rewrite bool_decide_true by done. rewrite parse_str_quote.
    rewrite skip_ws_nonws by reflexivity. rewrite bool_decide_true by done.
    rewrite parse_value_prefix by apply sp_ws.
    rewrite (Hv p (S d) f) by (done || (simpl in *; lia)). simpl.
    rewrite parse_members_prefix by apply nl_ws.
    rewrite string_of_list_ascii_of_string, assoc_set_new by done.
    rewrite IH; [|done|by rewrite <-app_assoc|done|simpl in *; lia].
    by rewrite <-app_assoc.
Qed.

Lemma parse_print v : parses_back v.
Proof.
  induction v as [| b | z | s | l IH | kvs IH] using json_ind_strong;
    intros p d f rest Hwf Hf Hend.
  - destruct f; [simpl in Hf; lia|]. reflexivity.
  - destruct f; [simpl in Hf; lia|]. by destruct b.
  - apply parse_print_num; [simpl in Hf; lia|done].
  - apply parse_print_str. simpl in Hf. lia.
  - destruct f as [|f]; [simpl in Hf; lia|]. destruct l as [|x l]; [reflexivity|].
    destruct (print_head p (S d) x) as (c & r & Hcr & Hc). apply head_ok_cases in Hc as (Hws & Hnb & _).
    cbn [jprint]. rewrite <-!app_assoc. cbn -[parse_elems skip_ws nl jprint sep_join map].
    rewrite skip_ws_nonws by reflexivity. cbn -[parse_elems skip_ws nl jprint sep_join map].
    rewrite (open_dispatch "]" (λ r', Some (JArr [], r')) (parse_elems f _ [])).
    + rewrite parse_elems_prefix by apply nl_ws.
      apply (parse_elems_print p d (x :: l) IH [] f rest); [done|done|simpl in Hf |- *; lia].
    + destruct (sep_join_head ("," :: nl p (S d)) (jprint p (S d) x) (map (jprint p (S d)) l)) as [tl Htl].
      rewrite map_cons, Htl, skip_ws_prefix by apply nl_ws.
      rewrite <-app_assoc, Hcr. simpl app. rewrite skip_ws_nonws by done. eauto.
  - destruct f as [|f]; [simpl in Hf; lia|]. destruct kvs as [|[k v] kvs]; [reflexivity|].
    simpl in Hwf. apply andb_true_iff in Hwf as [Hnd%bool_decide_eq_true Hwf].
    cbn [jprint]. rewrite <-!app_assoc. cbn -[parse_members skip_ws nl jprint sep_join map quote].
    rewrite skip_ws_nonws by reflexivity. cbn -[parse_members skip_ws nl jprint sep_join map quote].
    rewrite (open_dispatch "}" (λ r', Some (JObj [], r')) (parse_members f _ [])).
    + rewrite parse_members_prefix by apply nl_ws.
      apply (parse_members_print p d ((k, v) :: kvs) IH [] f rest); [done|done|done|simpl in Hf |- *; lia].
    + rewrite skip_ws_prefix by apply nl_ws. rewrite map_cons.
      match goal with |- context [sep_join ?sep (?x :: ?l)] =>
        destruct (sep_join_head sep x l) as [tl Htl]; rewrite Htl end.
      simpl. eauto.
Qed.

Lemma sep_join_bound {A} (g : A → nat) (h : A → list ascii) sep l :
  sep ≠ [] → l ≠ [] → (∀ x, x ∈ l → g x ≤ length (h x))%nat →
  (sum_list_with (λ x, S (g x)) l ≤ length (sep_join sep (map h l)) + 1)%nat.
Proof.
  intros Hsep. induction l as [|x [|y l] IH]; intros Hl Hle; [done| |].
  - simpl. pose proof (Hle x ltac:(set_solver)). lia.
  - rewrite map_cons, map_cons, sep_join_cons2, <-map_cons, !length_app.
    specialize (IH ltac:(done) ltac:(intros z Hz; apply Hle; set_solver)).
    pose proof (Hle x ltac:(set_solver)). destruct sep; [done|]. simpl in *. lia.
Qed.

Lemma quote_length s : (2 ≤ length (quote s))%nat.
Proof. unfold quote. rewrite !length_app. simpl. lia. Qed.

Lemma jprint_size p d v : (json_size v ≤ length (jprint p d v))%nat.
Proof.
  revert d. induction v as [| b | z | s | l IH | kvs IH] using json_ind_strong; intros d.
  - simpl. lia.
  - destruct b; simpl; lia.
  - destruct (num_head z) as (c & r & Hcr & _). simpl jprint. rewrite Hcr. simpl. lia.
  - pose proof (quote_length s). simpl. lia.
  - destruct l as [|x l]; [simpl; lia|].
    pose proof (sep_join_bound json_size (jprint p (S d)) ("," :: nl p (S d)) (x :: l) ltac:(done) ltac:(done))
      as Hj.
    cbn [jprint json_size]. rewrite !length_app. simpl length.
    enough (sum_list_with (λ x, S (json_size x)) (x :: l) ≤ length (sep_join ("," :: nl p (S d)) (map (jprint p (S d)) (x :: l))) + 1)%nat by (simpl in *; lia).
    apply Hj. intros y Hy. rewrite List.Forall_forall in IH. apply IH. by apply list_elem_of_In.
  - destruct kvs as [|kv kvs]; [simpl; lia|].
    pose proof (sep_join_bound (λ kv, json_size kv.2)
      (λ kv, quote kv.1 ++ [":"] ++ (if p then [" "] else []) ++ jprint p (S d) kv.2)
      ("," :: nl p (S d)) (kv :: kvs) ltac:(done) ltac:(done)) as Hj.
    cbn [jprint json_size]. rewrite !length_app. simpl length.
    enough (sum_list_with (λ kv, S (json_size kv.2)) (kv :: kvs) ≤ length (sep_join ("," :: nl p (S d)) (map (λ kv, quote kv.1 ++ [":"] ++ (if p then [" "] else []) ++ jprint p (S d) kv.2) (kv :: kvs))) + 1)%nat by (simpl in *; lia).
    apply Hj. intros y Hy. rewrite List.Forall_forall in IH. pose proof (IH y ltac:(by apply list_elem_of_In) (S d)).
    rewrite !length_app. lia.
Qed.

(** The round trip. *)
Theorem json_roundtrip p v : json_wf v = true → json_parse (json_stringify p v) = Some v.
Proof.
  intros Hwf. unfold json_parse, json_stringify. rewrite list_ascii_of_string_of_list_ascii.
  pose proof (jprint_size p 0 v) as Hs.
  pose proof (parse_print v p 0%nat (S (length (jprint p 0 v))) [] Hwf ltac:(lia) eq_refl) as H.
  rewrite app_nil_r in H. by rewrite H.
Qed.
