(* ===== verification/Base64.v ===== *)
(** * [btoa], [atob] and the UTF-8 steps around them

    [WorkspaceService.generateShareableUrl] encodes a workspace as
    [btoa(unescape(encodeURIComponent(json)))] and [importFromUrl] decodes
    it with [decodeURIComponent(escape(atob(base64)))].  This file models
    the four built-ins on byte strings (Stdlib [string], one character per
    code unit up to 255):

    - [utf8_encode]: [unescape(encodeURIComponent(s))], the UTF-8 bytes of
      [s] (one byte below 128, two bytes from 128 to 255);
    - [utf8_decode]: [decodeURIComponent(escape(s))], [None] where the
      built-in throws a [URIError] (a byte sequence that is not UTF-8) and
      also where the decoded code point would exceed 255, which a byte
      string cannot hold;
    - [btoa]: RFC 4648 base64 with [=] padding, written with the shifts and
      masks of the 24-bit groups;
    - [atob]: the forgiving-base64 decode of the HTML standard: white space
      removed, one or two trailing [=] removed when the length is a
      multiple of four, failure on a length of the form [4k+1] or on a
      character outside the alphabet.

    The theorems are the round trips [atob (btoa s) = Some s] and
    [utf8_decode (utf8_encode s) = Some s]. *)

From S2P Require Import Prelude.
From Stdlib Require Import Ascii String.

Local Abbreviation length := List.length.
Local Open Scope char_scope.
Local Open Scope Z_scope.

Definition byte (c : ascii) : Z := Z.of_nat (nat_of_ascii c).
Definition chr (n : Z) : ascii := ascii_of_nat (Z.to_nat n).

(** ** The alphabet *)

Definition b64_char (n : Z) : ascii :=
  if n <? 26 then chr (65 + n)
  else if n <? 52 then chr (71 + n)
  else if n <? 62 then chr (n - 4)
  else if n =? 62 then "+" else "/".

Definition b64_index (c : ascii) : option Z :=
  let k := byte c in
  if (65 <=? k) && (k <=? 90) then Some (k - 65)
  else if (97 <=? k) && (k <=? 122) then Some (k - 71)
  else if (48 <=? k) && (k <=? 57) then Some (k + 4)
  else if k =? 43 then Some 62
  else if k =? 47 then Some 63
  else None.

(** ** [btoa] *)

(** One group of three bytes, as four characters. *)
Definition enc3 (a b c : Z) : list ascii :=
  let n := Z.lor (Z.lor (Z.shiftl a 16) (Z.shiftl b 8)) c in
  [b64_char (Z.shiftr n 18); b64_char (Z.land (Z.shiftr n 12) 63);
   b64_char (Z.land (Z.shiftr n 6) 63); b64_char (Z.land n 63)].

Fixpoint btoa_l (s : list ascii) : list ascii :=
  match s with
  | a :: b :: c :: r => enc3 (byte a) (byte b) (byte c) ++ btoa_l r
  | [a; b] =>
      let n := Z.lor (Z.shiftl (byte a) 16) (Z.shiftl (byte b) 8) in
      [b64_char (Z.shiftr n 18); b64_char (Z.land (Z.shiftr n 12) 63);
       b64_char (Z.land (Z.shiftr n 6) 63); "="]
  | [a] =>
      let n := Z.shiftl (byte a) 16 in
      [b64_char (Z.shiftr n 18); b64_char (Z.land (Z.shiftr n 12) 63); "="; "="]
  | [] => []
  end.

Definition btoa (s : string) : string := string_of_list_ascii (btoa_l (list_ascii_of_string s)).

(** ** [atob] *)

(** ASCII white space as the HTML standard has it: tab, line feed, form
    feed, carriage return, space. *)
Definition html_ws (c : ascii) : bool :=
  let k := byte c in (k =? 9) || (k =? 10) || (k =? 12) || (k =? 13) || (k =? 32).

(** Remove two trailing [=], or else one. *)
Definition strip_pad (t : list ascii) : list ascii :=
  match rev t with
  | c1 :: c2 :: r =>
      if bool_decide (c1 = "=") then (if bool_decide (c2 = "=") then rev r else rev (c2 :: r)) else t
  | [c1] => if bool_decide (c1 = "=") then [] else t
  | [] => t
  end.

(** Four sextets give three bytes; a final three give two bytes and a
    final two give one, the bits left over being discarded. *)
Fixpoint dec_sextets (l : list Z) : list ascii :=
  match l with
  | w :: x :: y :: z :: r =>
      let n := Z.lor (Z.lor (Z.lor (Z.shiftl w 18) (Z.shiftl x 12)) (Z.shiftl y 6)) z in
      [chr (Z.shiftr n 16); chr (Z.land (Z.shiftr n 8) 255); chr (Z.land n 255)] ++ dec_sextets r
  | [w; x; y] =>
      let n := Z.shiftr (Z.lor (Z.lor (Z.shiftl w 12) (Z.shiftl x 6)) y) 2 in
      [chr (Z.shiftr n 8); chr (Z.land n 255)]
  | [w; x] => [chr (Z.shiftr (Z.lor (Z.shiftl w 6) x) 4)]
  | _ => []
  end.

Definition atob (s : string) : option string :=
  let t0 := filter (λ c, html_ws c = false) (list_ascii_of_string s) in
  let t := if bool_decide (length t0 mod 4 = 0)%nat then strip_pad t0 else t0 in
  if bool_decide (length t mod 4 = 1)%nat then None
  else (λ l, string_of_list_ascii (dec_sextets l)) <$> mapM b64_index t.

(** ** UTF-8 *)

(** [unescape(encodeURIComponent(s))]. *)
Fixpoint utf8_encode_l (s : list ascii) : list ascii :=
  match s with
  | c :: r =>
      let k := byte c in
      if k <? 128 then c :: utf8_encode_l r
      else chr (Z.lor 192 (Z.shiftr k 6)) :: chr (Z.lor 128 (Z.land k 63)) :: utf8_encode_l r
  | [] => []
  end.

(** [decodeURIComponent(escape(s))]. *)
Fixpoint utf8_decode_l (s : list ascii) : option (list ascii) :=
  match s with
  | c :: r =>
      let k := byte c in
      if k <? 128 then cons c <$> utf8_decode_l r
      else if (194 <=? k) && (k <=? 195) then
        match r with
        | c2 :: r' =>
            let k2 := byte c2 in
            if (128 <=? k2) && (k2 <=? 191)
            then cons (chr (Z.lor (Z.shiftl (Z.land k 31) 6) (Z.land k2 63))) <$> utf8_decode_l r'
            else None
        | [] => None
        end
      else None
  | [] => Some []
  end.

Definition utf8_encode (s : string) : string := string_of_list_ascii (utf8_encode_l (list_ascii_of_string s)).

Definition utf8_decode (s : string) : option string :=
  string_of_list_ascii <$> utf8_decode_l (list_ascii_of_string s).

(** ** Lemmas *)

Lemma byte_bound c : 0 ≤ byte c < 256.
Proof. unfold byte. pose proof (nat_ascii_bounded c). lia. Qed.

Lemma byte_chr x : 0 ≤ x < 256 → byte (chr x) = x.
Proof. intros Hx. unfold byte, chr. rewrite nat_ascii_embedding by lia. lia. Qed.

Lemma chr_byte c : chr (byte c) = c.
Proof. unfold chr, byte. by rewrite Nat2Z.id, ascii_nat_embedding. Qed.

Lemma b64_index_char n : 0 ≤ n < 64 → b64_index (b64_char n) = Some n.
Proof.
  intros Hn. replace n with (Z.of_nat (Z.to_nat n)) by lia.
  assert (Z.to_nat n < 64)%nat as Hlt by lia. revert Hlt. generalize (Z.to_nat n). intros j Hj.
  do 64 (destruct j as [|j]; [reflexivity|]). lia.
Qed.

Lemma b64_char_not_pad n : 0 ≤ n < 64 → b64_char n ≠ "=".
Proof. intros Hn Heq. pose proof (b64_index_char n Hn) as H. rewrite Heq in H. discriminate. Qed.

Lemma html_ws_index c : html_ws c = true → b64_index c = None.
Proof.
  unfold html_ws, b64_index. generalize (byte c). intros k Hk.
  repeat (apply orb_true_iff in Hk as [Hk|Hk]); apply Z.eqb_eq in Hk; subst; reflexivity.
Qed.

Lemma b64_char_not_ws n : 0 ≤ n < 64 → html_ws (b64_char n) = false.
Proof.
  intros Hn. destruct (html_ws (b64_char n)) eqn:E; [|done].
  apply html_ws_index in E. by rewrite b64_index_char in E.
Qed.

(** Disjoint bits: [x << k | y] is [x * 2^k + y] when [y < 2^k]. *)
Lemma lor_shiftl x y k : 0 ≤ k → 0 ≤ y < 2 ^ k → Z.lor (Z.shiftl x k) y = x * 2 ^ k + y.
Proof.
  intros Hk Hy. rewrite Z.shiftl_mul_pow2 by done.
  assert (Hd : Z.land (x * 2 ^ k) y = 0).
  { apply Z.bits_inj'. intros i Hi. rewrite Z.land_spec, Z.bits_0.
    destruct (Z.lt_ge_cases i k) as [Hlt|Hge].
    - by rewrite Z.mul_pow2_bits_low.
    - destruct (Z.eq_dec y 0) as [->|Hy0]; [by rewrite Z.bits_0, andb_false_r|].
      rewrite (Z.bits_above_log2 y i); [by rewrite andb_false_r|lia|].
      assert (Z.log2 y < k) by (apply Z.log2_lt_pow2; lia). lia. }
  rewrite <-Z.lxor_lor by done. by rewrite <-Z.add_nocarry_lxor.
Qed.

Lemma land_63 x : Z.land x 63 = x mod 64.
Proof. change 63 with (Z.ones 6). rewrite Z.land_ones by lia. done. Qed.

Lemma land_255 x : Z.land x 255 = x mod 256.
Proof. change 255 with (Z.ones 8). rewrite Z.land_ones by lia. done. Qed.

Lemma lor_mul q y k : 0 ≤ k → 0 ≤ y < 2 ^ k → Z.lor (q * 2 ^ k) y = q * 2 ^ k + y.
Proof. intros. rewrite <-(Z.shiftl_mul_pow2 q k) at 1 by done. by apply lor_shiftl. Qed.

(** Three bytes as one 24-bit number. *)
Lemma pack3 a b c : 0 ≤ a < 256 → 0 ≤ b < 256 → 0 ≤ c < 256 →
  Z.lor (Z.lor (Z.shiftl a 16) (Z.shiftl b 8)) c = a * 65536 + b * 256 + c.
Proof.
  intros Ha Hb Hc. rewrite !Z.shiftl_mul_pow2 by lia.
  rewrite (lor_mul a (b * 2 ^ 8) 16) by (simpl; lia).
  replace (a * 2 ^ 16 + b * 2 ^ 8) with ((a * 2 ^ 8 + b) * 2 ^ 8) by ring.
  rewrite lor_mul by (simpl; lia). simpl. ring.
Qed.

(** Four sextets as one 24-bit number. *)
Lemma pack4 w x y z : 0 ≤ x < 64 → 0 ≤ y < 64 → 0 ≤ z < 64 →
  Z.lor (Z.lor (Z.lor (Z.shiftl w 18) (Z.shiftl x 12)) (Z.shiftl y 6)) z =
  w * 262144 + x * 4096 + y * 64 + z.
Proof.
  intros Hx Hy Hz. rewrite !Z.shiftl_mul_pow2 by lia.
  rewrite (lor_mul w (x * 2 ^ 12) 18) by (simpl; lia).
  replace (w * 2 ^ 18 + x * 2 ^ 12) with ((w * 2 ^ 6 + x) * 2 ^ 12) by ring.
  rewrite (lor_mul _ (y * 2 ^ 6) 12) by (simpl; lia).
  replace ((w * 2 ^ 6 + x) * 2 ^ 12 + y * 2 ^ 6) with (((w * 2 ^ 6 + x) * 2 ^ 6 + y) * 2 ^ 6) by ring.
  rewrite lor_mul by (simpl; lia). simpl. ring.
Qed.

Lemma pack3s w x y : 0 ≤ x < 64 → 0 ≤ y < 64 →
  Z.lor (Z.lor (Z.shiftl w 12) (Z.shiftl x 6)) y = w * 4096 + x * 64 + y.
Proof.
  intros Hx Hy. rewrite !Z.shiftl_mul_pow2 by lia.
  rewrite (lor_mul w (x * 2 ^ 6) 12) by (simpl; lia).
  replace (w * 2 ^ 12 + x * 2 ^ 6) with ((w * 2 ^ 6 + x) * 2 ^ 6) by ring.
  rewrite lor_mul by (simpl; lia). simpl. ring.
Qed.

Lemma pack2s w x : 0 ≤ x < 64 → Z.lor (Z.shiftl w 6) x = w * 64 + x.
Proof. intros Hx. rewrite lor_shiftl by (simpl; lia). done. Qed.

(** The base-64 digits of a number. *)
Lemma digits64 n : 0 ≤ n →
  n / 64 = n / 4096 * 64 + n / 64 mod 64 ∧
  n / 4096 = n / 262144 * 64 + n / 4096 mod 64 ∧
  n = n / 64 * 64 + n mod 64.
Proof.
  intros Hn. pose proof (Z.div_mod n 64 ltac:(lia)).
  pose proof (Z.div_mod (n / 64) 64 ltac:(lia)).
  pose proof (Z.div_mod (n / 4096) 64 ltac:(lia)).
  rewrite ?Z.div_div in * by lia. change (64 * 64) with 4096 in *. change (4096 * 64) with 262144 in *. lia.
Qed.

Lemma sextet_bound x : 0 ≤ x mod 64 < 64.
Proof. apply Z.mod_pos_bound. lia. Qed.

Ltac pow_num :=
  change (2 ^ 18) with 262144 in *; change (2 ^ 16) with 65536 in *; change (2 ^ 12) with 4096 in *;
  change (2 ^ 8) with 256 in *; change (2 ^ 6) with 64 in *; change (2 ^ 4) with 16 in *;
  change (2 ^ 2) with 4 in *.

Fixpoint btoa_body (s : list ascii) : list ascii :=
  match s with
  | a :: b :: c :: r => enc3 (byte a) (byte b) (byte c) ++ btoa_body r
  | [a; b] =>
      let n := Z.lor (Z.shiftl (byte a) 16) (Z.shiftl (byte b) 8) in
      [b64_char (Z.shiftr n 18); b64_char (Z.land (Z.shiftr n 12) 63); b64_char (Z.land (Z.shiftr n 6) 63)]
  | [a] => let n := Z.shiftl (byte a) 16 in [b64_char (Z.shiftr n 18); b64_char (Z.land (Z.shiftr n 12) 63)]
  | [] => []
  end.

Section list3.
Context {A : Type} (P : list A → Prop).
Hypothesis H0 : P [].
Hypothesis H1 : ∀ a, P [a].
Hypothesis H2 : ∀ a b, P [a; b].
Hypothesis H3 : ∀ a b c r, P r → P (a :: b :: c :: r).
Fixpoint list3_ind (l : list A) : P l :=
  match l with
  | [] => H0
  | [a] => H1 a
  | [a; b] => H2 a b
  | a :: b :: c :: r => H3 a b c r (list3_ind r)
  end.
End list3.

Lemma body_decode s : ∃ l, mapM b64_index (btoa_body s) = Some l ∧ dec_sextets l = s.
Proof.
  induction s as [|a|a b|a b c r IH] using list3_ind.
  - by exists [].
  - pose proof (byte_bound a). set (n := byte a * 65536).
    assert (Hn : Z.shiftl (byte a) 16 = n) by (rewrite Z.shiftl_mul_pow2 by lia; reflexivity).
    destruct (digits64 n ltac:(lia)) as (D1 & D2 & D3).
    simpl btoa_body. rewrite Hn, !Z.shiftr_div_pow2, land_63 by lia. pow_num.
    assert (n / 262144 < 64) by (apply Z.div_lt_upper_bound; lia).
    assert (0 ≤ n / 262144) by (apply Z.div_pos; lia).
    cbn [mapM]. rewrite !b64_index_char by (pose proof (sextet_bound (n / 4096)); lia). simpl.
    eexists; split; [reflexivity|]. simpl.
    rewrite pack2s, Z.shiftr_div_pow2 by (apply sextet_bound || lia). pow_num.
    replace (n / 262144 * 64 + n / 4096 mod 64) with (n / 4096) by lia.
    rewrite Z.div_div by lia. change (4096 * 16) with 65536. replace (n / 65536) with (byte a).
    + by rewrite chr_byte.
    + apply Z.div_unique_pos with 0; lia.
  - pose proof (byte_bound a). pose proof (byte_bound b). set (n := byte a * 65536 + byte b * 256).
    assert (Hn : Z.lor (Z.shiftl (byte a) 16) (Z.shiftl (byte b) 8) = n).
    { rewrite !Z.shiftl_mul_pow2 by lia. rewrite lor_mul by (simpl; lia). reflexivity. }
    destruct (digits64 n ltac:(lia)) as (D1 & D2 & D3).
    simpl btoa_body. rewrite Hn, !Z.shiftr_div_pow2, !land_63 by lia. pow_num.
    assert (n / 262144 < 64) by (apply Z.div_lt_upper_bound; lia).
    assert (0 ≤ n / 262144) by (apply Z.div_pos; lia).
    pose proof (sextet_bound (n / 4096)). pose proof (sextet_bound (n / 64)).
    cbn [mapM]. rewrite !b64_index_char by lia. simpl.
    eexists; split; [reflexivity|]. simpl.
    rewrite pack3s, Z.shiftr_div_pow2 by lia. pow_num.
    replace (n / 262144 * 4096 + n / 4096 mod 64 * 64 + n / 64 mod 64) with (n / 64) by lia.
    rewrite !Z.shiftr_div_pow2 by lia. pow_num.
    replace (n / 64 / 4) with (n / 256) by (rewrite Z.div_div by lia; reflexivity).
    assert (Hq : n / 256 = byte a * 256 + byte b) by (symmetry; apply Z.div_unique_pos with 0; lia).
    rewrite land_255. rewrite Hq.
    replace ((byte a * 256 + byte b) / 256) with (byte a) by (apply Z.div_unique_pos with (byte b); lia).
    replace ((byte a * 256 + byte b) mod 256) with (byte b) by (apply Z.mod_unique_pos with (byte a); lia).
    by rewrite !chr_byte.
  - pose proof (byte_bound a). pose proof (byte_bound b). pose proof (byte_bound c).
    set (n := byte a * 65536 + byte b * 256 + byte c).
    destruct (digits64 n ltac:(lia)) as (D1 & D2 & D3).
    destruct IH as (l & Hl & Hd).
    simpl btoa_body. unfold enc3. rewrite pack3 by done. fold n.
    rewrite !Z.shiftr_div_pow2, !land_63 by lia. pow_num.
    assert (n / 262144 < 64) by (apply Z.div_lt_upper_bound; lia).
    assert (0 ≤ n / 262144) by (apply Z.div_pos; lia).
    pose proof (sextet_bound (n / 4096)). pose proof (sextet_bound (n / 64)). pose proof (sextet_bound n).
    cbn [mapM app]. rewrite !b64_index_char by lia. simpl. rewrite Hl. simpl.
    eexists; split; [reflexivity|]. simpl.
    rewrite pack4 by lia. rewrite !Z.shiftr_div_pow2, !land_255 by lia. pow_num.
    replace (n / 262144 * 262144 + n / 4096 mod 64 * 4096 + n / 64 mod 64 * 64 + n mod 64) with n by lia.
    replace (n / 65536) with (byte a) by (apply Z.div_unique_pos with (byte b * 256 + byte c); lia).
    replace (n / 256) with (byte a * 256 + byte b) by (apply Z.div_unique_pos with (byte c); lia).
    replace ((byte a * 256 + byte b) mod 256) with (byte b) by (apply Z.mod_unique_pos with (byte a); lia).
    replace (n mod 256) with (byte c) by (apply Z.mod_unique_pos with (byte a * 256 + byte b); lia).
    rewrite !chr_byte, Hd. done.
Qed.

Lemma b64_char_ok n : 0 ≤ n → html_ws (b64_char n) = false ∧ b64_char n ≠ "=".
Proof.
  intros Hn. destruct (Z.lt_ge_cases n 64).
  - split; [by apply b64_char_not_ws|by apply b64_char_not_pad].
  - unfold b64_char. destruct (Z.ltb_spec n 26); [lia|]. destruct (Z.ltb_spec n 52); [lia|].
    destruct (Z.ltb_spec n 62); [lia|]. destruct (Z.eqb_spec n 62); [lia|]. done.
Qed.

Lemma b64_char_ne_pad n : 0 ≤ n → b64_char n ≠ "=".
Proof. intros. by apply b64_char_ok. Qed.

Lemma land_63_nonneg x : 0 ≤ Z.land x 63.
Proof. rewrite land_63. apply Z.mod_pos_bound. lia. Qed.

Lemma shiftr_nonneg x k : 0 ≤ x → 0 ≤ k → 0 ≤ Z.shiftr x k.
Proof. intros. rewrite Z.shiftr_div_pow2 by done. apply Z.div_pos; [done|]. apply Z.pow_pos_nonneg; lia. Qed.

Lemma lor_nonneg x y : 0 ≤ x → 0 ≤ y → 0 ≤ Z.lor x y.
Proof. intros. apply Z.lor_nonneg. lia. Qed.

Lemma shiftl_nonneg x k : 0 ≤ x → 0 ≤ Z.shiftl x k.
Proof. intros. apply Z.shiftl_nonneg. lia. Qed.

Create HintDb b64.
#[local] Hint Resolve land_63_nonneg shiftr_nonneg lor_nonneg shiftl_nonneg : b64.
#[local] Hint Extern 1 (0 ≤ byte _) => apply byte_bound : b64.
#[local] Hint Extern 1 (0 ≤ _) => lia : b64.

(** Every character [btoa] writes is a base-64 digit or [=], never white space. *)
Lemma btoa_no_ws s : Forall (λ c, html_ws c = false) (btoa_l s).
Proof.
  induction s as [|a|a b|a b c r IH] using list3_ind; simpl.
  - constructor.
  - repeat constructor; try apply b64_char_ok; eauto with b64.
  - repeat constructor; try apply b64_char_ok; eauto 7 with b64.
  - unfold enc3. repeat constructor; try apply b64_char_ok; eauto 8 with b64.
Qed.

Lemma strip_pad_app x y : (2 ≤ length y)%nat → strip_pad (x ++ y) = x ++ strip_pad y.
Proof.
  intros Hy. unfold strip_pad. rewrite rev_app_distr.
  destruct (rev y) as [|c1 [|c2 r]] eqn:Hr;
    [apply (f_equal length) in Hr; rewrite length_rev in Hr; simpl in Hr; lia
    |apply (f_equal length) in Hr; rewrite length_rev in Hr; simpl in Hr; lia|].
  simpl. case_bool_decide; [case_bool_decide|].
  - rewrite rev_app_distr, rev_involutive. done.
  - change (c2 :: r ++ rev x) with ((c2 :: r) ++ rev x). rewrite rev_app_distr, rev_involutive. by rewrite <-app_assoc.
  - done.
Qed.

Lemma strip_pad_last x c : c ≠ "=" → strip_pad (x ++ [c]) = x ++ [c].
Proof.
  intros Hc. unfold strip_pad. rewrite rev_app_distr. simpl.
  destruct (rev x) as [|c2 r]; simpl; by rewrite bool_decide_false.
Qed.

Lemma btoa_strip s : strip_pad (btoa_l s) = btoa_body s.
Proof.
  induction s as [|a|a b|a b c r IH] using list3_ind.
  - done.
  - reflexivity.
  - simpl btoa_l. simpl btoa_body. unfold strip_pad. simpl.
    rewrite (bool_decide_false (b64_char _ = "=")) by (apply b64_char_ne_pad; eauto 7 with b64).
    reflexivity.
  - destruct r as [|d r].
    + simpl btoa_body. simpl btoa_l. rewrite ?app_nil_r. unfold enc3.
      apply (strip_pad_last [_; _; _]). apply b64_char_ne_pad. eauto with b64.
    + change (btoa_l (a :: b :: c :: d :: r)) with (enc3 (byte a) (byte b) (byte c) ++ btoa_l (d :: r)).
      change (btoa_body (a :: b :: c :: d :: r)) with (enc3 (byte a) (byte b) (byte c) ++ btoa_body (d :: r)).
      rewrite strip_pad_app, IH; [done|].
      destruct r as [|e [|f r]]; simpl; rewrite ?length_app; simpl; lia.
Qed.

Lemma btoa_length s : ∃ k, length (btoa_l s) = (4 * k)%nat.
Proof.
  induction s as [|a|a b|a b c r [k IH]] using list3_ind; [by exists 0%nat|by exists 1%nat|by exists 1%nat|].
  exists (S k). simpl. rewrite IH. lia.
Qed.

Lemma body_length s : (length (btoa_body s) mod 4 ≠ 1)%nat.
Proof.
  assert (∃ k, length (btoa_body s) = 4 * k ∨ length (btoa_body s) = 4 * k + 2 ∨
               length (btoa_body s) = 4 * k + 3)%nat as (k & Hk).
  { induction s as [|a|a b|a b c r (k & IH)] using list3_ind.
    - exists 0%nat. simpl. lia.
    - exists 0%nat. simpl. lia.
    - exists 0%nat. simpl. lia.
    - exists (S k). simpl. rewrite ?length_app. simpl. lia. }
  destruct Hk as [Hk|[Hk|Hk]]; rewrite Hk;
    [replace (4 * k)%nat with (0 + k * 4)%nat by lia|replace (4 * k + 2)%nat with (2 + k * 4)%nat by lia|
     replace (4 * k + 3)%nat with (3 + k * 4)%nat by lia]; rewrite Nat.Div0.mod_add; simpl; lia.
Qed.

(** [atob] inverts [btoa]. *)
Theorem atob_btoa s : atob (btoa s) = Some s.
Proof.
  unfold atob, btoa. rewrite list_ascii_of_string_of_list_ascii.
  rewrite filter_all by apply btoa_no_ws.
  destruct (btoa_length (list_ascii_of_string s)) as [k Hk].
  assert (H0 : (length (btoa_l (list_ascii_of_string s)) mod 4 = 0)%nat)
    by (rewrite Hk, Nat.mul_comm, Nat.Div0.mod_mul; done).
  simpl. rewrite (bool_decide_true _ H0).
  rewrite btoa_strip, bool_decide_false by apply body_length.
  destruct (body_decode (list_ascii_of_string s)) as (l & -> & Hd). simpl.
  by rewrite Hd, string_of_list_ascii_of_string.
Qed.

(** ** UTF-8 *)

Theorem utf8_roundtrip s : utf8_decode (utf8_encode s) = Some s.
Proof.
  unfold utf8_decode, utf8_encode. rewrite list_ascii_of_string_of_list_ascii.
  enough (utf8_decode_l (utf8_encode_l (list_ascii_of_string s)) = Some (list_ascii_of_string s)) as ->.
  { simpl. by rewrite string_of_list_ascii_of_string. }
  induction (list_ascii_of_string s) as [|c r IH]; [done|]. simpl.
  pose proof (byte_bound c) as Hb. destruct (Z.ltb_spec (byte c) 128) as [Hlt|Hge].
  - simpl. rewrite (proj2 (Z.ltb_lt _ _)) by done. by rewrite IH.
  - assert (Hq : 2 ≤ byte c / 64 < 4) by (split; [apply Z.div_le_lower_bound|apply Z.div_lt_upper_bound]; lia).
    pose proof (Z.mod_pos_bound (byte c) 64 ltac:(lia)) as Hm.
    assert (E1 : Z.lor 192 (Z.shiftr (byte c) 6) = 192 + byte c / 64).
    { rewrite Z.shiftr_div_pow2 by lia.
      pose proof (lor_mul 3 (byte c / 2 ^ 6) 6 ltac:(lia) ltac:(change (2 ^ 6) with 64; lia)) as E.
      change (3 * 2 ^ 6) with 192 in E. change (2 ^ 6) with 64 in *. lia. }
    assert (E2 : Z.lor 128 (Z.land (byte c) 63) = 128 + byte c mod 64).
    { rewrite land_63.
      pose proof (lor_mul 2 (byte c mod 64) 6 ltac:(lia) ltac:(change (2 ^ 6) with 64; lia)) as E.
      change (2 * 2 ^ 6) with 128 in E. lia. }
    rewrite E1, E2.
    cbn [utf8_decode_l]. rewrite !byte_chr by lia.
    rewrite (proj2 (Z.ltb_ge _ _)) by lia.
    rewrite (proj2 (andb_true_iff _ _)) by (split; apply Z.leb_le; lia).
    rewrite (proj2 (andb_true_iff _ _)) by (split; apply Z.leb_le; lia).
    rewrite IH. simpl. f_equal. f_equal.
    change 31 with (Z.ones 5). rewrite Z.land_ones, land_63 by lia.
    replace ((192 + byte c / 64) mod 2 ^ 5) with (byte c / 64)
      by (apply Z.mod_unique_pos with 6; change (2 ^ 5) with 32; lia).
    replace ((128 + byte c mod 64) mod 64) with (byte c mod 64)
      by (apply Z.mod_unique_pos with 2; lia).
    rewrite lor_shiftl by (change (2 ^ 6) with 64; lia). change (2 ^ 6) with 64.
    rewrite Z.mul_comm, <-Z.div_mod by lia. apply chr_byte.
Qed.
