(* ===== verification/Workspace.v ===== *)
(** * Saved workspaces ([src/tlink-core/src/services/workspace.service.ts])

    [WorkspaceService] keeps the saved workspaces in the configuration
    store ([config.store.workspaces]), persists them with [config.save()],
    captures the open tabs into a new workspace, restores a workspace's
    tabs, and moves workspaces in and out of the application as JSON text
    ([exportWorkspace], [importFromJson]) or as a [tlink://workspace/] URL
    ([generateShareableUrl], [importFromUrl]).

    State ([ws_state]): the store as [ConfigService] holds it ([None] until
    the configuration is loaded), the store as last persisted, the open
    tabs and the clipboard.  [uuidv4()] and [new Date()] are inputs of the
    operations ([uuid], [now]).

    A workspace's [name], [description], [tabs], [codeEditorFolders],
    [profiles], [layout] and [version] are JSON values: the import paths
    copy them from parsed text without checking their types, so the model
    keeps whatever the text held, and [version + 1] is JavaScript's [+] on
    it ([js_add_one]).  A workspace saved from the open tabs has a string
    name, arrays of tokens, folders and profiles, and version 1. *)

From S2P Require Import Prelude JsString Json Base64.
From Stdlib Require Import Ascii String.
Local Abbreviation length := List.length.

Local Open Scope Z_scope.

(** ** Data *)

(** [interface Workspace] ([src/tlink-core/src/api/workspace.ts]). *)
Record workspace := Workspace {
  ws_id : string;
  ws_name : option json;
  ws_description : option json;
  ws_tabs : json;
  ws_codeEditorFolders : json;
  ws_profiles : json;
  ws_layout : option json;
  ws_shared : json;
  ws_teamId : option json;
  ws_version : json;
  ws_createdAt : Z;
  ws_updatedAt : Z;
  ws_tags : option (list string);
  ws_isTemplate : option bool;
}.

(** An open tab, as [saveWorkspace] reads it: its full recovery token
    ([null] when it has none), whether it is a code editor, the [path] of
    each entry of its [folders] array ([None] when [folders] is not an
    array; an entry without a path is [None]), and its [profile.id]. *)
Record app_tab := AppTab {
  tab_token : option json;
  tab_is_code_editor : bool;
  tab_folders : option (list (option string));
  tab_profile_id : option string;
}.

(** [config.store.backup], the settings [BackupService] keeps in the
    configuration; a setting that is not there is [None]. *)
Record stored_backup := StoredBackup {
  sb_enabled : option bool;
  sb_interval : option Z;
  sb_retention : option Z;
  sb_includeWorkspaces : option bool;
  sb_includeConfig : option bool;
  sb_includeProfiles : option bool;
}.

(** The part of [config.store] the workspace and backup services read and
    write. *)
Record config_store := ConfigStore {
  cs_workspaces : option (list workspace);
  cs_profiles : option (list json);
  cs_backup : stored_backup;
}.

Record ws_state := WsState {
  st_store : option config_store;
  st_saved : option config_store;
  st_tabs : list app_tab;
  st_clipboard : option string;
}.

Definition set_store (cs : option config_store) (s : ws_state) : ws_state :=
  WsState cs (st_saved s) (st_tabs s) (st_clipboard s).

(** [await this.config.save()]: persist the store. *)
Definition config_save (s : ws_state) : ws_state :=
  WsState (st_store s) (st_store s) (st_tabs s) (st_clipboard s).

Definition set_workspaces (l : list workspace) (s : ws_state) : ws_state :=
  match st_store s with
  | Some cs => set_store (Some (ConfigStore (Some l) (cs_profiles cs) (cs_backup cs))) s
  | None => s
  end.

Definition stored_workspaces (s : ws_state) : option (list workspace) :=
  st_store s ≫= cs_workspaces.

(** ** Reading *)

(** [ensureWorkspacesConfig()]: create the array when the store exists. *)
Definition ensureWorkspacesConfig (s : ws_state) : ws_state :=
  match st_store s with
  | Some cs =>
      match cs_workspaces cs with
      | Some _ => s
      | None => set_store (Some (ConfigStore (Some []) (cs_profiles cs) (cs_backup cs))) s
      end
  | None => s
  end.

(** [getWorkspaces()]: the stored workspaces, or none without a store;
    the copies it returns ([new Date(...)] of the dates) are equal to
    them. *)
Definition getWorkspaces (s : ws_state) : ws_state * list workspace :=
  let s' := ensureWorkspacesConfig s in
  (s', default [] (stored_workspaces s')).

(** [workspaces.findIndex(w => w.id === id)] together with the element;
    [None] for [-1]. *)
Definition find_ws (id : string) (l : list workspace) : option (nat * workspace) :=
  list_find (λ w, ws_id w = id) l.

(** [getWorkspace(id)]: [workspaces.find(w => w.id === id) ?? null]. *)
Definition getWorkspace (id : string) (s : ws_state) : ws_state * option workspace :=
  let '(s', l) := getWorkspaces s in (s', snd <$> find_ws id l).

(** ** Saving the open tabs *)

(** The tokens of the tabs that have one. *)
Definition capture_tokens (tabs : list app_tab) : list json := omap tab_token tabs.

(** [if (p && !acc.includes(p)) acc.push(p)]. *)
Definition push_new (acc : list string) (p : string) : list string :=
  if str_truthy p && negb (bool_decide (p ∈ acc)) then acc ++ [p] else acc.

(** The folder paths of the code-editor tabs, each once, in order. *)
Definition capture_folders (tabs : list app_tab) : list string :=
  foldl (λ acc t,
           if tab_is_code_editor t then
             match tab_folders t with
             | Some fs => foldl (λ acc f, match f with Some p => push_new acc p | None => acc end) acc fs
             | None => acc
             end
           else acc) [] tabs.

(** The profile ids of the tabs, each once, in order. *)
Definition capture_profiles (tabs : list app_tab) : list string :=
  foldl (λ acc t,
           match tab_profile_id t with
           | Some p => push_new acc p
           | None => acc
           end) [] tabs.

(** [captureLayout()]. *)
Definition captureLayout (tabs : list app_tab) : json :=
  JObj [("tabs", JNum (Z.of_nat (length tabs)))].

(** [saveWorkspace(name, description?, shared = false, teamId?)].  The
    settings tab passes a string, an optional string and a boolean;
    [restoreBackup] passes the values it read from a backup file, so the
    arguments are JSON values. *)
Definition saveWorkspace (name : option json) (description : option json) (shared : json)
    (teamId : option json) (uuid : string) (now : Z) (s : ws_state)
    : ws_state * result string workspace :=
  let s1 := ensureWorkspacesConfig s in
  match stored_workspaces s1 with
  | None => (s1, Err "Config store not ready, cannot save workspace")
  | Some l =>
      let tabs := st_tabs s1 in
      let w := Workspace uuid name description (JArr (capture_tokens tabs))
                 (JArr (JStr <$> capture_folders tabs)) (JArr (JStr <$> capture_profiles tabs))
                 (Some (captureLayout tabs)) shared teamId (JNum 1) now now (Some []) (Some false) in
      (config_save (set_workspaces (l ++ [w]) s1), Ok w)
  end.

(** ** Updating and deleting *)

(** [Partial<Workspace>]: the properties present in [updates]. *)
Record ws_updates := WsUpdates {
  up_name : option json;
  up_description : option json;
  up_tabs : option json;
  up_codeEditorFolders : option json;
  up_profiles : option json;
  up_layout : option json;
  up_shared : option json;
  up_teamId : option json;
  up_createdAt : option Z;
  up_tags : option (list string);
  up_isTemplate : option bool;
}.

(** [{...workspace, ...updates, id, version: workspace.version + 1,
    updatedAt: new Date()}]: [id], [version] and [updatedAt] of [updates]
    are overridden, so they are not among its fields here. *)
Definition apply_updates (w : workspace) (u : ws_updates) (id : string) (now : Z) : workspace :=
  Workspace id (match up_name u with Some x => Some x | None => ws_name w end)
    (match up_description u with Some d => Some d | None => ws_description w end)
    (default (ws_tabs w) (up_tabs u)) (default (ws_codeEditorFolders w) (up_codeEditorFolders u))
    (default (ws_profiles w) (up_profiles u))
    (match up_layout u with Some x => Some x | None => ws_layout w end)
    (default (ws_shared w) (up_shared u))
    (match up_teamId u with Some x => Some x | None => ws_teamId w end)
    (js_add_one (ws_version w)) (default (ws_createdAt w) (up_createdAt u)) now
    (match up_tags u with Some x => Some x | None => ws_tags w end)
    (match up_isTemplate u with Some x => Some x | None => ws_isTemplate w end).

(** [updateWorkspace(id, updates)]: [null] when there is no such
    workspace; the throw when the store is missing cannot happen after a
    workspace was found, and is kept as the code has it. *)
Definition updateWorkspace (id : string) (u : ws_updates) (now : Z) (s : ws_state)
    : ws_state * result string (option workspace) :=
  let '(s1, l) := getWorkspaces s in
  match find_ws id l with
  | None => (s1, Ok None)
  | Some (i, w) =>
      match stored_workspaces s1 with
      | None => (s1, Err "Config store not ready, cannot update workspace")
      | Some ls =>
          let w' := apply_updates w u id now in
          (config_save (set_workspaces (<[i := w']> ls) s1), Ok (Some w'))
      end
  end.

(** [deleteWorkspace(id)]: [splice(index, 1)]. *)
Definition deleteWorkspace (id : string) (s : ws_state) : ws_state * result string bool :=
  let '(s1, l) := getWorkspaces s in
  match find_ws id l with
  | None => (s1, Ok false)
  | Some (i, _) =>
      match stored_workspaces s1 with
      | None => (s1, Err "Config store not ready, cannot delete workspace")
      | Some ls => (config_save (set_workspaces (delete i ls) s1), Ok true)
      end
  end.

(** ** Export and import *)

(** A property whose value is [undefined] is left out by [JSON.stringify]. *)
Definition opt_field (k : string) (o : option json) : list (string * json) :=
  match o with Some v => [(k, v)] | None => [] end.

(** [workspaceData] of [generateShareableUrl]. *)
Definition share_fields (w : workspace) : list (string * json) :=
  opt_field "name" (ws_name w) ++ opt_field "description" (ws_description w) ++
  [("tabs", ws_tabs w); ("codeEditorFolders", ws_codeEditorFolders w); ("profiles", ws_profiles w)] ++
  opt_field "layout" (ws_layout w) ++ [("version", ws_version w)].

(** [exportData] of [exportWorkspace]: the same properties and
    [exportedAt], the ISO text of the current time. *)
Definition export_fields (w : workspace) (iso : string) : list (string * json) :=
  share_fields w ++ [("exportedAt", JStr iso)].

(** [exportWorkspace(id)]: [JSON.stringify(exportData, null, 2)]. *)
Definition exportWorkspace (id : string) (iso : string) (s : ws_state) : ws_state * option string :=
  let '(s1, o) := getWorkspace id s in
  (s1, (λ w, json_stringify true (JObj (export_fields w iso))) <$> o).

Definition url_prefix : string := "tlink://workspace/".

(** [generateShareableUrl(id)]: compact JSON, UTF-8 bytes
    ([unescape(encodeURIComponent(.))]), base64.  Neither
    [JSON.stringify] of a parsed value nor [btoa] of bytes can throw, so
    the [catch] branch is unreachable. *)
Definition generateShareableUrl (id : string) (s : ws_state) : ws_state * option string :=
  let '(s1, o) := getWorkspace id s in
  (s1, (λ w, url_prefix +:+ btoa (utf8_encode (json_stringify false (JObj (share_fields w))))) <$> o).

(** [copyShareableUrl(id)]: the URL goes to the clipboard. *)
Definition copyShareableUrl (id : string) (s : ws_state) : ws_state * bool :=
  match generateShareableUrl id s with
  | (s1, Some url) => (WsState (st_store s1) (st_saved s1) (st_tabs s1) (Some url), true)
  | (s1, None) => (s1, false)
  end.

(** The workspace [importFromUrl] and [importFromJson] build from the
    parsed value ([None] for [undefined]): each property read on
    [undefined] or [null] throws a [TypeError]; a falsy [name], [tabs],
    [codeEditorFolders], [profiles] or [version] is replaced. *)
Definition ws_of_data (d : option json) (uuid : string) (now : Z) : result string workspace :=
  match d with
  | None | Some JNull => Err "TypeError"
  | Some v =>
      Ok (Workspace uuid (Some (js_or (jget v "name") (JStr "Imported Workspace"))) (jget v "description")
            (js_or (jget v "tabs") (JArr [])) (js_or (jget v "codeEditorFolders") (JArr []))
            (js_or (jget v "profiles") (JArr [])) (jget v "layout") (JBool false) None
            (js_or (jget v "version") (JNum 1)) now now (Some []) (Some false))
  end.

(** The end of both imports: push onto the stored array and persist,
    after one more [ensureWorkspacesConfig] when it is missing. *)
Definition push_imported (err : string) (w : workspace) (s : ws_state) : ws_state * result string workspace :=
  let s1 := match stored_workspaces s with Some _ => s | None => ensureWorkspacesConfig s end in
  match stored_workspaces s1 with
  | None => (s1, Err err)
  | Some l => (config_save (set_workspaces (l ++ [w]) s1), Ok w)
  end.

(** [try { ... } catch { return null }]. *)
Definition catch_null {A} (p : ws_state * result string A) : ws_state * option A :=
  match p.2 with Ok a => (p.1, Some a) | Err _ => (p.1, None) end.

(** [importFromJson(json)]; [JSON.parse] throwing is [None]. *)
Definition importFromJson (text : string) (uuid : string) (now : Z) (s : ws_state) : ws_state * option workspace :=
  catch_null
    (match json_parse text with
     | None => (s, Err "SyntaxError")
     | Some v =>
         match ws_of_data (Some v) uuid now with
         | Err e => (s, Err e)
         | Ok w => push_imported "Config store not ready, cannot import workspace from JSON" w s
         end
     end).

(** ** The shareable URL *)

(** The rest of [l] after the prefix [p]. *)
Fixpoint strip_prefix (p l : list ascii) : option (list ascii) :=
  match p, l with
  | [], _ => Some l
  | c :: p', d :: l' => if bool_decide (c = d) then strip_prefix p' l' else None
  | _ :: _, [] => None
  end.

Fixpoint take_while {A} (p : A → bool) (l : list A) : list A :=
  match l with x :: r => if p x then x :: take_while p r else [] | [] => [] end.

Fixpoint drop_while {A} (p : A → bool) (l : list A) : list A :=
  match l with x :: r => if p x then drop_while p r else l | [] => [] end.

(** The characters [.] does not match. *)
Definition line_terminator (c : ascii) : bool :=
  bool_decide (c = ascii_of_nat 10) || bool_decide (c = ascii_of_nat 13).

(** [/data:[^;]*;base64,(.+)/] tried at the start of [l]: the group.  The
    run of non-[;] characters is followed by [;] only at its greedy end,
    and the group runs to the first line terminator, so neither
    quantifier backtracks. *)
Definition data_match_at (l : list ascii) : option (list ascii) :=
  match strip_prefix (list_ascii_of_string "data:") l with
  | None => None
  | Some r =>
      match strip_prefix (list_ascii_of_string ";base64,") (drop_while (λ c, negb (bool_decide (c = ascii_of_nat 59))) r) with
      | None => None
      | Some t =>
          match take_while (λ c, negb (line_terminator c)) t with
          | [] => None
          | g => Some g
          end
      end
  end.

(** [urlOrData.match(/data:[^;]*;base64,(.+)/)]: the leftmost match. *)
Fixpoint data_match (l : list ascii) : option (list ascii) :=
  match data_match_at l with
  | Some g => Some g
  | None => match l with [] => None | _ :: r => data_match r end
  end.

(** [JSON.parse(decodeURIComponent(escape(atob(b))))]. *)
Definition decode_payload (b : string) : option json :=
  (atob b ≫= utf8_decode) ≫= json_parse.

(** [importFromUrl(urlOrData)].  The [workspaceData] it builds from is
    [undefined] when a [data:] URL does not match the pattern, and the
    first property read then throws. *)
Definition importFromUrl (u : string) (uuid : string) (now : Z) (s : ws_state) : ws_state * option workspace :=
  let data : result string (option json) :=
    if starts_with url_prefix u then
      match decode_payload (replace_first url_prefix "" u) with Some v => Ok (Some v) | None => Err "Error" end
    else if starts_with "data:" u then
      match data_match (list_ascii_of_string u) with
      | Some g => match decode_payload (string_of_list_ascii g) with Some v => Ok (Some v) | None => Err "Error" end
      | None => Ok None
      end
    else match decode_payload u with Some v => Ok (Some v) | None => Err "Error" end in
  catch_null
    (match data ≫= λ d, ws_of_data d uuid now with
     | Err e => (s, Err e)
     | Ok w => push_imported "Config store not ready, cannot import workspace" w s
     end).

(** ** Loading a workspace *)

(** [for (const x of v)] on a parsed value: the elements of an array, the
    characters of a string; anything else is not iterable. *)
Definition json_iter (v : json) : result string (list json) :=
  match v with
  | JArr l => Ok l
  | JStr s => Ok (map (λ c, JStr (String c EmptyString)) (list_ascii_of_string s))
  | _ => Err "TypeError"
  end.

Definition set_tabs (tabs : list app_tab) (s : ws_state) : ws_state :=
  WsState (st_store s) (st_saved s) tabs (st_clipboard s).

Section Load.

(** [tabRecovery.recoverTab(token)]: the tab a token restores, if any;
    and [codeEditor.addFolder(path)], both of components outside the
    service. *)
Variable recoverTab : json → option app_tab.
Variable addFolder : app_tab → json → app_tab.

(** [loadWorkspace(id)]: close every open tab, then open the tab of each
    token that recovers.  A [tabs] value that is not iterable rejects the
    promise after the tabs were closed. *)
Definition loadWorkspace (id : string) (s : ws_state) : ws_state * result string bool :=
  let '(s1, o) := getWorkspace id s in
  match o with
  | None => (s1, Ok false)
  | Some w =>
      let s2 := set_tabs [] s1 in
      match json_iter (ws_tabs w) with
      | Err e => (s2, Err e)
      | Ok toks => (set_tabs (st_tabs s2 ++ omap recoverTab toks) s2, Ok true)
      end
  end.

(** The folder loop of one code-editor tab: add each path that its
    folders do not have yet. *)
Definition restore_tab_folders (paths : list json) (t : app_tab) : app_tab :=
  if tab_is_code_editor t then
    foldl (λ t p,
             match tab_folders t with
             | Some fs =>
                 (* [f.path === folderPath]: only a string path can be equal *)
                 let present := match p with JStr q => bool_decide (Some q ∈ fs) | _ => false end in
                 if present then t else addFolder t p
             | None => t
             end) t paths
  else t.

(** The [setTimeout] callback of [loadWorkspace], run 500 ms later. *)
Definition restore_folders (w : workspace) (s : ws_state) : ws_state * result string unit :=
  if existsb tab_is_code_editor (st_tabs s) then
    match json_iter (ws_codeEditorFolders w) with
    | Err e => (s, Err e)
    | Ok paths => (set_tabs (map (restore_tab_folders paths) (st_tabs s)) s, Ok ())
    end
  else (s, Ok ()).

End Load.

(** ** Lemmas: the store *)

(** The workspaces [getWorkspaces] returns. *)
Abbreviation ws_list s := (getWorkspaces s).2.

Lemma ensure_no_store s : st_store s = None → ensureWorkspacesConfig s = s.
Proof. unfold ensureWorkspacesConfig. by intros ->. Qed.

Lemma ensure_stored s cs : st_store s = Some cs →
  stored_workspaces (ensureWorkspacesConfig s) = Some (default [] (cs_workspaces cs)).
Proof.
  unfold ensureWorkspacesConfig, stored_workspaces. intros H. rewrite H.
  destruct (cs_workspaces cs) eqn:E; simpl; rewrite ?H; simpl; by rewrite ?E.
Qed.

Lemma ws_list_no_store s : st_store s = None → getWorkspaces s = (s, []).
Proof. intros H. unfold getWorkspaces. rewrite ensure_no_store by done. unfold stored_workspaces. by rewrite H. Qed.

Lemma ws_list_stored s cs : st_store s = Some cs →
  getWorkspaces s = (ensureWorkspacesConfig s, default [] (cs_workspaces cs)).
Proof. intros H. unfold getWorkspaces. by rewrite (ensure_stored s cs H). Qed.

Lemma ensure_store_some s : is_Some (st_store s) → is_Some (st_store (ensureWorkspacesConfig s)).
Proof.
  unfold ensureWorkspacesConfig. destruct (st_store s) as [cs|] eqn:E; [|by intros []].
  intros _. destruct (cs_workspaces cs); simpl; rewrite ?E; eauto.
Qed.

Lemma ensure_tabs s : st_tabs (ensureWorkspacesConfig s) = st_tabs s.
Proof. unfold ensureWorkspacesConfig. by repeat case_match. Qed.

(** Writing an array into an existing store and saving it: [getWorkspaces]
    then returns that array and changes nothing, and the store is
    persisted. *)
Lemma write_stored l s : is_Some (st_store s) →
  getWorkspaces (config_save (set_workspaces l s)) = (config_save (set_workspaces l s), l) ∧
  st_saved (config_save (set_workspaces l s)) = st_store (config_save (set_workspaces l s)).
Proof. unfold set_workspaces. intros [cs Hcs]. rewrite Hcs. split; reflexivity. Qed.

Lemma write_tabs l s : st_tabs (config_save (set_workspaces l s)) = st_tabs s.
Proof. unfold set_workspaces. by case_match. Qed.

(** The stored profiles, which no workspace operation touches. *)
Definition stored_profiles (s : ws_state) : option (list json) := st_store s ≫= cs_profiles.

Lemma ensure_profiles s : stored_profiles (ensureWorkspacesConfig s) = stored_profiles s.
Proof.
  unfold stored_profiles, ensureWorkspacesConfig. destruct (st_store s) as [cs|] eqn:E; [|by rewrite E].
  destruct (cs_workspaces cs); simpl; by rewrite ?E.
Qed.

Lemma write_profiles l s : stored_profiles (config_save (set_workspaces l s)) = stored_profiles s.
Proof. unfold stored_profiles, set_workspaces. destruct (st_store s) eqn:E; simpl; by rewrite ?E. Qed.

Lemma write_store_some l s : is_Some (st_store s) → is_Some (st_store (config_save (set_workspaces l s))).
Proof. unfold set_workspaces. intros [cs ->]. simpl. eauto. Qed.

(** [findIndex] on ids that are pairwise distinct finds the one element
    with that id. *)
Lemma find_ws_unique id l i w :
  NoDup (ws_id <$> l) → l !! i = Some w → ws_id w = id → find_ws id l = Some (i, w).
Proof.
  intros Hnd Hi Hid. apply list_find_Some. split_and!; [done|done|].
  intros j y Hj Hy Hyid. assert (i = j) as ->; [|lia].
  apply (NoDup_lookup _ _ _ id Hnd); rewrite list_lookup_fmap; [rewrite Hi|rewrite Hj]; simpl; congruence.
Qed.

Lemma find_ws_app_fresh id l w :
  id ∉ ws_id <$> l → ws_id w = id → find_ws id (l ++ [w]) = Some (length l, w).
Proof.
  intros Hn Hid. unfold find_ws. rewrite list_find_app_r.
  - simpl. rewrite decide_True by done. simpl. do 2 f_equal; lia.
  - apply list_find_None, Forall_forall. intros x Hx Hxid. apply Hn. rewrite <-Hxid. by apply list_elem_of_fmap_2.
Qed.

(** ** Lemmas: capturing the open tabs *)

Lemma str_truthy_spec p : str_truthy p = true ↔ p ≠ EmptyString.
Proof. destruct p; simpl; split; congruence. Qed.

Lemma push_new_spec acc p : NoDup acc →
  NoDup (push_new acc p) ∧ ∀ x, x ∈ push_new acc p ↔ x ∈ acc ∨ (x = p ∧ p ≠ EmptyString).
Proof.
  intros Hnd. unfold push_new. destruct (str_truthy p) eqn:Ht; simpl.
  - apply str_truthy_spec in Ht. case_bool_decide as Hin; simpl.
    + split; [done|]. intros x. split; [tauto|]. intros [?|[-> _]]; auto.
    + split; [apply NoDup_app; split_and!; [done| |by apply NoDup_singleton]|].
      * intros x Hx ->%list_elem_of_singleton. contradiction.
      * intros x. rewrite elem_of_app, list_elem_of_singleton. tauto.
  - split; [done|]. intros x. split; [tauto|]. intros [?|[-> Hne]]; [done|].
    by apply str_truthy_spec in Hne; rewrite Hne in Ht.
Qed.

(** One tab's folder loop. *)
Lemma push_folders_spec fs acc : NoDup acc →
  let r := foldl (λ acc f, match f with Some p => push_new acc p | None => acc end) acc fs in
  NoDup r ∧ ∀ x, x ∈ r ↔ x ∈ acc ∨ (x ≠ EmptyString ∧ Some x ∈ fs).
Proof.
  revert acc. induction fs as [|[p|] fs IH]; intros acc Hnd; simpl.
  - split; [done|]. intros x. rewrite elem_of_nil. tauto.
  - destruct (push_new_spec acc p Hnd) as [Hnd' Hin'].
    destruct (IH _ Hnd') as [? Hr]. split; [done|]. intros x. rewrite Hr, Hin', elem_of_cons.
    split; [intros [[?|[-> ?]]|[? ?]]; auto|intros [?|[? [[= ->]|?]]]; auto].
  - destruct (IH _ Hnd) as [? Hr]. split; [done|]. intros x. rewrite Hr, elem_of_cons.
    split; [intros [?|[? ?]]; auto|intros [?|[? [?|?]]]; [auto|discriminate|auto]].
Qed.

(** The folders [saveWorkspace] captures: each nonempty path of a
    code-editor tab's folders, once. *)
Lemma capture_folders_spec tabs :
  NoDup (capture_folders tabs) ∧
  ∀ p, p ∈ capture_folders tabs ↔
       p ≠ EmptyString ∧ ∃ t fs, t ∈ tabs ∧ tab_is_code_editor t = true ∧ tab_folders t = Some fs ∧ Some p ∈ fs.
Proof.
  unfold capture_folders.
  cut (∀ acc, NoDup acc → let r := foldl (λ acc t, if tab_is_code_editor t then
             match tab_folders t with
             | Some fs => foldl (λ acc f, match f with Some p => push_new acc p | None => acc end) acc fs
             | None => acc end else acc) acc tabs in
       NoDup r ∧ ∀ p, p ∈ r ↔ p ∈ acc ∨
         (p ≠ EmptyString ∧ ∃ t fs, t ∈ tabs ∧ tab_is_code_editor t = true ∧ tab_folders t = Some fs ∧ Some p ∈ fs)).
  { intros H. destruct (H [] (NoDup_nil_2)) as [? Hr]. split; [done|]. intros p. rewrite Hr, elem_of_nil. tauto. }
  induction tabs as [|t tabs IH]; intros acc Hnd; simpl.
  - split; [done|]. intros p. split; [tauto|]. intros [?|(_ & t & fs & Ht & _)]; [done|]. by apply elem_of_nil in Ht.
  - destruct (tab_is_code_editor t) eqn:Hc; [destruct (tab_folders t) as [fs|] eqn:Hf|].
    1: destruct (push_folders_spec fs acc Hnd) as [Hnd' Hin']; destruct (IH _ Hnd') as [? Hr].
    2,3: destruct (IH _ Hnd) as [? Hr].
    all: split; [done|]; intros p; rewrite Hr; try rewrite Hin'; setoid_rewrite elem_of_cons.
    all: split; [intros [[?|[? ?]]|[? (t' & fs' & ? & ? & ? & ?)]] || intros [?|[? (t' & fs' & ? & ? & ? & ?)]]|].
    all: try solve [eauto 10].
    all: intros [?|[? (t' & fs' & [->|?] & ? & ? & ?)]]; simplify_eq; first [congruence|eauto 10].
Qed.

(** The profiles [saveWorkspace] captures: each nonempty profile id of
    an open tab, once. *)
Lemma capture_profiles_spec tabs :
  NoDup (capture_profiles tabs) ∧
  ∀ p, p ∈ capture_profiles tabs ↔ p ≠ EmptyString ∧ ∃ t, t ∈ tabs ∧ tab_profile_id t = Some p.
Proof.
  unfold capture_profiles.
  cut (∀ acc, NoDup acc → let r := foldl (λ acc t, match tab_profile_id t with
             | Some p => push_new acc p | None => acc end) acc tabs in
       NoDup r ∧ ∀ p, p ∈ r ↔ p ∈ acc ∨ (p ≠ EmptyString ∧ ∃ t, t ∈ tabs ∧ tab_profile_id t = Some p)).
  { intros H. destruct (H [] (NoDup_nil_2)) as [? Hr]. split; [done|]. intros p. rewrite Hr, elem_of_nil. tauto. }
  induction tabs as [|t tabs IH]; intros acc Hnd; simpl.
  - split; [done|]. intros p. split; [tauto|]. intros [?|(_ & t & Ht & _)]; [done|]. by apply elem_of_nil in Ht.
  - destruct (tab_profile_id t) as [q|] eqn:Hp;
      [destruct (push_new_spec acc q Hnd) as [Hnd' Hin']; destruct (IH _ Hnd') as [? Hr]|destruct (IH _ Hnd) as [? Hr]].
    all: split; [done|]; intros p; rewrite Hr; try rewrite Hin'; setoid_rewrite elem_of_cons.
    all: split; [intros [[?|[-> ?]]|[? (t' & ? & ?)]] || intros [?|[? (t' & ? & ?)]]|]; try solve [eauto 10].
    all: intros [?|[? (t' & [->|?] & ?)]]; simplify_eq; eauto 10.
Qed.

(** ** Saving *)

(** What [saveWorkspace] stores, when the store exists. *)
Lemma saveWorkspace_stored name d sh t uuid now s cs :
  st_store s = Some cs →
  let tabs := st_tabs s in
  let w := Workspace uuid name d (JArr (capture_tokens tabs))
             (JArr (JStr <$> capture_folders tabs)) (JArr (JStr <$> capture_profiles tabs))
             (Some (captureLayout tabs)) sh t (JNum 1) now now (Some []) (Some false) in
  ∃ s', saveWorkspace name d sh t uuid now s = (s', Ok w) ∧ getWorkspaces s' = (s', ws_list s ++ [w]) ∧
    st_saved s' = st_store s' ∧ st_tabs s' = st_tabs s ∧
    is_Some (st_store s') ∧ stored_profiles s' = stored_profiles s.
Proof.
  intros Hs tabs w.
  assert (ws_list s = default [] (cs_workspaces cs)) as Hl by (by rewrite (ws_list_stored s cs Hs)).
  assert (is_Some (st_store (ensureWorkspacesConfig s))) as Hsome by (apply ensure_store_some; by rewrite Hs).
  destruct (write_stored (ws_list s ++ [w]) (ensureWorkspacesConfig s) Hsome) as [H1 H2].
  eexists; split_and!; [|exact H1|done|by rewrite write_tabs, ensure_tabs|by apply write_store_some
    |by rewrite write_profiles, ensure_profiles].
  unfold saveWorkspace. rewrite (ensure_stored s cs Hs), ensure_tabs, <-Hl. reflexivity.
Qed.

(** ** Lemmas: updating and deleting by index *)

Lemma list_find_insert_same {A} (P : A → Prop) `{∀ x, Decision (P x)} l i x y :
  l !! i = Some x → (P x ↔ P y) →
  list_find P (<[i := y]> l) = (λ p, if decide (p.1 = i) then (i, y) else p) <$> list_find P l.
Proof.
  revert i. induction l as [|a l IH]; intros [|i] Hi Hxy; simpl in *; simplify_eq.
  - destruct (decide (P x)), (decide (P y)); simpl; try tauto.
    destruct (list_find P l) as [[k z]|]; simpl; rewrite ?decide_False by lia; done.
  - destruct (decide (P a)); simpl; [rewrite ?decide_False by lia; done|].
    rewrite (IH i Hi Hxy). destruct (list_find P l) as [[k z]|]; simpl; [|done].
    destruct (decide (k = i)) as [->|]; simpl; [rewrite ?decide_True by done|rewrite ?decide_False by lia]; done.
Qed.

Lemma find_ws_insert j l i w w' :
  l !! i = Some w → ws_id w' = ws_id w →
  snd <$> find_ws j (<[i := w']> l) = snd <$> ((λ p, if decide (p.1 = i) then (i, w') else p) <$> find_ws j l).
Proof. intros Hi Hid. unfold find_ws. rewrite (list_find_insert_same _ l i w w'); [done|done|]. by rewrite Hid. Qed.

(** Deleting the one workspace with an id, when ids are distinct, is
    filtering it out. *)
Lemma delete_unique_filter id l i w :
  NoDup (ws_id <$> l) → l !! i = Some w → ws_id w = id →
  delete i l = filter (λ x, ws_id x ≠ id) l.
Proof.
  revert i. induction l as [|a l IH]; intros [|i] Hnd Hi Hid; simpl in *; simplify_eq.
  - rewrite filter_cons_False by tauto. symmetry. apply filter_all, Forall_forall.
    intros x Hx Hxid. apply NoDup_cons in Hnd as [Hn _]. apply Hn. rewrite <-Hxid.
    by apply list_elem_of_fmap_2.
  - apply NoDup_cons in Hnd as [Hn Hnd]. rewrite filter_cons_True.
    + f_equal. by apply (IH i).
    + intros Ha. apply Hn. rewrite Ha. apply list_elem_of_fmap_2. by eapply list_elem_of_lookup_2.
Qed.

(** ** Lemmas: lookups by id *)

Lemma getWorkspaces_eq s : getWorkspaces s = (ensureWorkspacesConfig s, ws_list s).
Proof. reflexivity. Qed.

Lemma getWorkspace_eq id s : getWorkspace id s = (ensureWorkspacesConfig s, snd <$> find_ws id (ws_list s)).
Proof. reflexivity. Qed.

Lemma getWorkspace_snd id s : (getWorkspace id s).2 = snd <$> find_ws id (ws_list s).
Proof. reflexivity. Qed.

(** A workspace that [getWorkspace] finds is in an existing store. *)
Lemma get_found id s w : (getWorkspace id s).2 = Some w →
  ∃ i, find_ws id (ws_list s) = Some (i, w) ∧ ws_list s !! i = Some w ∧ ws_id w = id ∧
       stored_workspaces (ensureWorkspacesConfig s) = Some (ws_list s) ∧
       is_Some (st_store (ensureWorkspacesConfig s)).
Proof.
  rewrite getWorkspace_snd. destruct (st_store s) as [cs|] eqn:E.
  - destruct (find_ws id (ws_list s)) as [[i w']|] eqn:Hf; simpl; [intros [= ->]|discriminate].
    apply list_find_Some in Hf as (Hi & Hid & _). exists i. split_and!; try done.
    + by rewrite (ensure_stored s cs E).
    + apply ensure_store_some. by rewrite E.
  - by rewrite (ws_list_no_store s E).
Qed.

Lemma get_after_write id l s : is_Some (st_store s) →
  (getWorkspace id (config_save (set_workspaces l s))).2 = snd <$> find_ws id l.
Proof. intros Hs. by rewrite getWorkspace_snd, (proj1 (write_stored l s Hs)). Qed.

(** ** Updating, deleting and missing ids *)

(** [updateWorkspace] of a stored workspace: the merged workspace, its id
    kept and its version bumped with JavaScript's [+ 1], replaces it in
    place and is persisted; every other id finds what it found before. *)
Theorem update_workspace_spec id u now s w :
  (getWorkspace id s).2 = Some w →
  let w' := apply_updates w u id now in
  ∃ s', updateWorkspace id u now s = (s', Ok (Some w')) ∧
    ws_id w' = ws_id w ∧ ws_version w' = js_add_one (ws_version w) ∧ ws_updatedAt w' = now ∧
    (getWorkspace id s').2 = Some w' ∧
    (∀ j, j ≠ id → (getWorkspace j s').2 = (getWorkspace j s).2) ∧
    st_saved s' = st_store s'.
Proof.
  intros Hw w'. destruct (get_found id s w Hw) as (i & Hf & Hi & Hid & Hst & Hsome).
  unfold updateWorkspace. rewrite getWorkspaces_eq, Hf, Hst.
  eexists; split_and!; [reflexivity|done|reflexivity|reflexivity| |intros j Hj|apply write_stored, Hsome].
  all: rewrite get_after_write, (find_ws_insert _ _ i w w') by done.
  - by rewrite Hf; simpl; rewrite decide_True.
  - rewrite getWorkspace_snd. destruct (find_ws j (ws_list s)) as [[k x]|] eqn:Hk; simpl; [|done].
    case_decide; simpl; [|done]. subst k. apply list_find_Some in Hk as (Hk & Hx & _). congruence.
Qed.

(** [deleteWorkspace] of a stored workspace, ids being distinct: the
    array loses exactly that workspace, the others keep their order, the
    id is no longer found and the store is persisted. *)
Theorem delete_workspace_spec id s w :
  NoDup (ws_id <$> ws_list s) → (getWorkspace id s).2 = Some w →
  ∃ s', deleteWorkspace id s = (s', Ok true) ∧
    ws_list s' = filter (λ x, ws_id x ≠ id) (ws_list s) ∧ (getWorkspace id s').2 = None ∧
    st_saved s' = st_store s'.
Proof.
  intros Hnd Hw. destruct (get_found id s w Hw) as (i & Hf & Hi & Hid & Hst & Hsome).
  unfold deleteWorkspace. rewrite getWorkspaces_eq, Hf, Hst.
  destruct (write_stored (delete i (ws_list s)) _ Hsome) as [H1 H2].
  eexists; split_and!; [reflexivity| |rewrite get_after_write by done|done].
  - rewrite H1. simpl. by eapply delete_unique_filter.
  - erewrite delete_unique_filter by done. unfold find_ws.
    replace (list_find _ _) with (@None (nat * workspace)); [done|]. symmetry.
    apply list_find_None, Forall_forall. intros x Hx. by apply list_elem_of_filter in Hx as [? _].
Qed.

(** An id that [getWorkspace] does not find: [updateWorkspace] returns
    [null], [deleteWorkspace] [false], the export and the shareable URL
    [null], and none of them changes anything but creating the array. *)
Theorem absent_id_noop id u now iso s :
  (getWorkspace id s).2 = None →
  updateWorkspace id u now s = (ensureWorkspacesConfig s, Ok None) ∧
  deleteWorkspace id s = (ensureWorkspacesConfig s, Ok false) ∧
  exportWorkspace id iso s = (ensureWorkspacesConfig s, None) ∧
  generateShareableUrl id s = (ensureWorkspacesConfig s, None) ∧
  copyShareableUrl id s = (ensureWorkspacesConfig s, false).
Proof.
  rewrite getWorkspace_snd. destruct (find_ws id (ws_list s)) eqn:Hf; [discriminate|intros _].
  unfold updateWorkspace, deleteWorkspace, copyShareableUrl, generateShareableUrl, exportWorkspace.
  rewrite getWorkspace_eq, getWorkspaces_eq. cbn [fst snd]. rewrite Hf. split_and!; reflexivity.
Qed.

(** ** Lemmas: the exported properties *)

(** The properties of a workspace are values [JSON.stringify] prints
    and [JSON.parse] reads back: objects with distinct keys. *)
Definition ws_json_wf (w : workspace) : bool :=
  default true (json_wf <$> ws_name w) && default true (json_wf <$> ws_description w) && json_wf (ws_tabs w) &&
  json_wf (ws_codeEditorFolders w) && json_wf (ws_profiles w) &&
  default true (json_wf <$> ws_layout w) && json_wf (ws_version w).

(** The workspace an import of [w]'s exported properties creates. *)
Definition imported_copy (w : workspace) (uuid : string) (now : Z) : workspace :=
  Workspace uuid (Some (js_or (ws_name w) (JStr "Imported Workspace"))) (ws_description w)
    (js_or (Some (ws_tabs w)) (JArr [])) (js_or (Some (ws_codeEditorFolders w)) (JArr []))
    (js_or (Some (ws_profiles w)) (JArr [])) (ws_layout w) (JBool false) None
    (js_or (Some (ws_version w)) (JNum 1)) now now (Some []) (Some false).

Lemma assoc_get_app k l1 l2 :
  assoc_get k (l1 ++ l2) = match assoc_get k l1 with Some v => Some v | None => assoc_get k l2 end.
Proof. induction l1 as [|[k' v] l1 IH]; simpl; [done|]. by case_bool_decide. Qed.

Lemma export_fields_wf w iso extra : ws_json_wf w = true → extra = [] ∨ extra = [("exportedAt", JStr iso)] →
  json_wf (JObj (share_fields w ++ extra)) = true.
Proof.
  unfold ws_json_wf. intros Hw Hx. rewrite !andb_true_iff in Hw. destruct Hw as [[[[[[Hn Hd] ?] ?] ?] Hl] ?].
  unfold share_fields. destruct Hx as [->| ->], (ws_name w) as [n|], (ws_description w) as [d|], (ws_layout w) as [l|];
    simpl in *;
    rewrite ?andb_true_iff; split_and?; auto; apply bool_decide_eq_true_2; repeat constructor; set_solver.
Qed.

Lemma ws_of_share w extra uuid now : extra = [] ∨ (∃ iso, extra = [("exportedAt", JStr iso)]) →
  ws_of_data (Some (JObj (share_fields w ++ extra))) uuid now = Ok (imported_copy w uuid now).
Proof.
  intros Hx. assert (∀ k, k ≠ "exportedAt" → assoc_get k extra = None) as He.
  { intros k Hk. destruct Hx as [->|[iso ->]]; simpl; [done|]. by rewrite bool_decide_false. }
  unfold ws_of_data, jget. rewrite !assoc_get_app, !He by done.
  unfold imported_copy, share_fields. by destruct (ws_name w), (ws_description w), (ws_layout w).
Qed.

(** ** Lemmas: imports *)

Lemma ensure_idem s : ensureWorkspacesConfig (ensureWorkspacesConfig s) = ensureWorkspacesConfig s.
Proof. unfold ensureWorkspacesConfig. by repeat (case_match; simplify_eq/=). Qed.

Lemma ws_list_ensure s : ws_list (ensureWorkspacesConfig s) = ws_list s.
Proof. unfold getWorkspaces. by rewrite ensure_idem. Qed.

(** The end of an import, with a store: the workspace is appended to
    what [getWorkspaces] returned and persisted. *)
Lemma push_imported_ok err w s : is_Some (st_store s) →
  push_imported err w s = (config_save (set_workspaces (ws_list s ++ [w]) (ensureWorkspacesConfig s)), Ok w).
Proof.
  intros [cs Hs]. unfold push_imported, getWorkspaces, ensureWorkspacesConfig, stored_workspaces.
  rewrite Hs. destruct (cs_workspaces cs) eqn:E; do 3 (simpl; rewrite ?Hs, ?E); reflexivity.
Qed.

Lemma strip_prefix_app p l : strip_prefix p (p ++ l) = Some l.
Proof. induction p; simpl; [done|]. by rewrite bool_decide_true. Qed.

Lemma drop_while_app {A} (p : A → bool) m l : Forall (λ x, p x = true) m → drop_while p (m ++ l) = drop_while p l.
Proof. induction 1 as [|x m Hx _ IH]; simpl; [done|]. by rewrite Hx. Qed.

Lemma take_while_all {A} (p : A → bool) l : Forall (λ x, p x = true) l → take_while p l = l.
Proof. induction 1 as [|x l Hx _ IH]; simpl; [done|]. by rewrite Hx, IH. Qed.

(** A [data:] URL whose media type has no [;] (character 59) matches at
    its start, and the group is the whole payload when the payload is a
    nonempty line. *)
Lemma data_match_url mime b :
  ascii_of_nat 59 ∉ list_ascii_of_string mime → b ≠ [] → Forall (λ c, line_terminator c = false) b →
  data_match (list_ascii_of_string ("data:" +:+ mime +:+ ";base64,") ++ b) = Some b.
Proof.
  intros Hm Hb Hl. rewrite !list_ascii_of_string_app, <-!app_assoc.
  assert (∀ l, data_match l = match data_match_at l with Some g => Some g
            | None => match l with [] => None | _ :: r => data_match r end end) as -> by (intros []; done).
  unfold data_match_at at 1. remember (list_ascii_of_string ";base64,") as sb eqn:Esb.
  rewrite strip_prefix_app, drop_while_app.
  - assert (drop_while (λ c, negb (bool_decide (c = ascii_of_nat 59))) (sb ++ b) = sb ++ b) as ->
      by (subst sb; reflexivity).
    rewrite strip_prefix_app, take_while_all.
    + by destruct b.
    + eapply Forall_impl; [exact Hl|]. intros c ->. done.
  - apply Forall_forall. intros c Hc. apply negb_true_iff, bool_decide_eq_false_2. by intros ->.
Qed.

Lemma line_terminator_ws c : line_terminator c = true → html_ws c = true.
Proof. unfold line_terminator. intros [->%bool_decide_eq_true_1| ->%bool_decide_eq_true_1]%orb_true_iff; done. Qed.

Lemma btoa_l_nonempty l : l ≠ [] → btoa_l l ≠ [].
Proof. destruct l as [|a [|b [|c r]]]; simpl; done. Qed.

Lemma utf8_encode_l_nonempty l : l ≠ [] → utf8_encode_l l ≠ [].
Proof. destruct l as [|c r]; [done|]. simpl. by case_match. Qed.

(** The payload of a shareable URL is a nonempty line. *)
Lemma share_payload_line v :
  let b := list_ascii_of_string (btoa (utf8_encode (json_stringify false v))) in
  b ≠ [] ∧ Forall (λ c, line_terminator c = false) b.
Proof.
  unfold btoa, utf8_encode, json_stringify. rewrite !list_ascii_of_string_of_list_ascii. split.
  - apply btoa_l_nonempty, utf8_encode_l_nonempty. destruct (print_head false 0 v) as (c & r & -> & _). done.
  - eapply Forall_impl; [apply btoa_no_ws|]. intros c Hc.
    destruct (line_terminator c) eqn:E; [|done]. apply line_terminator_ws in E. congruence.
Qed.

(** [decodeURIComponent(escape(atob(.)))] and [JSON.parse] read back the
    payload of a shareable URL. *)
Lemma decode_share_payload w : ws_json_wf w = true →
  decode_payload (btoa (utf8_encode (json_stringify false (JObj (share_fields w))))) = Some (JObj (share_fields w)).
Proof.
  intros Hw. unfold decode_payload. rewrite atob_btoa. simpl. rewrite utf8_roundtrip. simpl.
  rewrite <-(app_nil_r (share_fields w)) at 1 2. apply json_roundtrip, (export_fields_wf w EmptyString); auto.
Qed.

Lemma import_found id s w : (getWorkspace id s).2 = Some w →
  ∀ err w', ∃ s2, push_imported err w' (ensureWorkspacesConfig s) = (s2, Ok w') ∧
    ws_list s2 = ws_list s ++ [w'] ∧ st_saved s2 = st_store s2.
Proof.
  intros Hw err w'. destruct (get_found id s w Hw) as (_ & _ & _ & _ & _ & Hsome).
  rewrite push_imported_ok, ensure_idem, ws_list_ensure by done.
  destruct (write_stored (ws_list s ++ [w']) (ensureWorkspacesConfig s) Hsome) as [H1 H2].
  eexists; split_and!; [reflexivity|by rewrite H1|done].
Qed.

(** ** Round trips *)

(** C16: The text [exportWorkspace] produces imports back with
    [importFromJson]: the new workspace has a fresh id, the exported
    properties (a falsy name becoming ["Imported Workspace"], a falsy
    version 1), is not shared, has no team, and is appended to the stored
    array and persisted. *)
Theorem export_import_roundtrip id iso uuid now s w :
  (getWorkspace id s).2 = Some w → ws_json_wf w = true →
  ∃ text s2, exportWorkspace id iso s = (ensureWorkspacesConfig s, Some text) ∧
    importFromJson text uuid now (ensureWorkspacesConfig s) = (s2, Some (imported_copy w uuid now)) ∧
    ws_list s2 = ws_list s ++ [imported_copy w uuid now] ∧ st_saved s2 = st_store s2.
Proof.
  intros Hw Hwf. destruct (get_found id s w Hw) as (i & Hf & _).
  destruct (import_found id s w Hw "Config store not ready, cannot import workspace from JSON"
              (imported_copy w uuid now)) as (s2 & Hp & Hl & Hsv).
  unfold exportWorkspace. rewrite getWorkspace_eq, Hf. do 2 eexists; split; [reflexivity|].
  split; [|done]. unfold importFromJson, export_fields. cbn [fmap option_fmap option_map snd].
  rewrite json_roundtrip by (apply (export_fields_wf w iso); auto).
  rewrite ws_of_share by eauto. by rewrite Hp.
Qed.

(** C17: The URL [generateShareableUrl] produces imports back with
    [importFromUrl], and so does its payload as a [data:] URL whose
    media type has no [;]. *)
Theorem share_url_roundtrip id uuid now mime s w :
  (getWorkspace id s).2 = Some w → ws_json_wf w = true → ascii_of_nat 59 ∉ list_ascii_of_string mime →
  ∃ b s2, generateShareableUrl id s = (ensureWorkspacesConfig s, Some (url_prefix +:+ b)) ∧
    importFromUrl (url_prefix +:+ b) uuid now (ensureWorkspacesConfig s) = (s2, Some (imported_copy w uuid now)) ∧
    importFromUrl ("data:" +:+ mime +:+ ";base64," +:+ b) uuid now (ensureWorkspacesConfig s) =
      (s2, Some (imported_copy w uuid now)) ∧
    ws_list s2 = ws_list s ++ [imported_copy w uuid now] ∧ st_saved s2 = st_store s2.
Proof.
  intros Hw Hwf Hm. destruct (get_found id s w Hw) as (i & Hf & _).
  destruct (import_found id s w Hw "Config store not ready, cannot import workspace"
              (imported_copy w uuid now)) as (s2 & Hp & Hl & Hsv).
  destruct (share_payload_line (JObj (share_fields w))) as [Hb1 Hb2].
  unfold generateShareableUrl. rewrite getWorkspace_eq, Hf.
  do 2 eexists; split; [reflexivity|]. unfold importFromUrl. change ((i, w).2) with w.
  set (B := btoa (utf8_encode (json_stringify false (JObj (share_fields w))))) in *.
  assert (Hd : (match decode_payload B with Some v => Ok (Some v) | None => Err "Error" end
                ≫= λ d, ws_of_data d uuid now) = Ok (imported_copy w uuid now)).
  { unfold B. rewrite decode_share_payload by done. cbn -[share_fields ws_of_data].
    rewrite <-(app_nil_r (share_fields w)). apply ws_of_share. auto. }
  split_and!; [| |done|done].
  - rewrite starts_with_app, replace_first_prefix, string_app_nil_l, Hd. by rewrite Hp.
  - assert (starts_with url_prefix ("data:" +:+ mime +:+ ";base64," +:+ B) = false) as -> by reflexivity.
    rewrite starts_with_app.
    assert (list_ascii_of_string ("data:" +:+ mime +:+ ";base64," +:+ B) =
            list_ascii_of_string ("data:" +:+ mime +:+ ";base64,") ++ list_ascii_of_string B) as ->
      by (rewrite !list_ascii_of_string_app; by rewrite <-!app_assoc).
    rewrite data_match_url, string_of_list_ascii_of_string, Hd by done. by rewrite Hp.
Qed.

(** ** Lemmas: what each operation does to the stored array *)

Lemma ws_list_of_store s :
  ws_list s = match st_store s with Some cs => default [] (cs_workspaces cs) | None => [] end.
Proof.
  destruct (st_store s) eqn:E; [by rewrite (ws_list_stored s c E)|by rewrite (ws_list_no_store s E)].
Qed.

Lemma ws_list_same_store s1 s2 : st_store s1 = st_store s2 → ws_list s1 = ws_list s2.
Proof. intros H. by rewrite !ws_list_of_store, H. Qed.

Lemma ws_list_set_tabs tabs s : ws_list (set_tabs tabs s) = ws_list s.
Proof. by apply ws_list_same_store. Qed.

Lemma ws_list_write l s : is_Some (st_store s) → ws_list (config_save (set_workspaces l s)) = l.
Proof. intros Hs. by rewrite (proj1 (write_stored l s Hs)). Qed.

(** An operation that appends one workspace with the given id, or leaves
    the array as it is. *)
Definition appends_or_keeps (uuid : string) (s s' : ws_state) : Prop :=
  ws_list s' = ws_list s ∨ ∃ w, ws_id w = uuid ∧ ws_list s' = ws_list s ++ [w].

Lemma save_appends name d sh t uuid now s :
  appends_or_keeps uuid s (saveWorkspace name d sh t uuid now s).1.
Proof.
  destruct (st_store s) as [cs|] eqn:E.
  - destruct (saveWorkspace_stored name d sh t uuid now s cs E) as (s' & -> & H & _). right.
    eexists; split; [|cbn [fst]; by rewrite H]. done.
  - left. unfold saveWorkspace. rewrite ensure_no_store by done. unfold stored_workspaces. by rewrite E.
Qed.

Lemma push_imported_appends err w s : appends_or_keeps (ws_id w) s (push_imported err w s).1.
Proof.
  destruct (st_store s) as [cs|] eqn:E.
  - right. exists w. rewrite push_imported_ok by eauto. cbn [fst]. rewrite ws_list_write; [done|].
    apply ensure_store_some. by rewrite E.
  - left. unfold push_imported. rewrite !(ensure_no_store s E). unfold stored_workspaces.
    rewrite E. cbn. rewrite E. reflexivity.
Qed.

Lemma ws_of_data_id d uuid now w : ws_of_data d uuid now = Ok w → ws_id w = uuid.
Proof. destruct d as [[]|]; by intros [= <-]. Qed.

Lemma import_tail_appends err (r : result string workspace) uuid s :
  (∀ w, r = Ok w → ws_id w = uuid) →
  appends_or_keeps uuid s (catch_null (match r with Ok w => push_imported err w s | Err e => (s, Err e) end)).1.
Proof.
  intros Hr. destruct r as [w|e]; [|by left]. rewrite <-(Hr w eq_refl).
  unfold catch_null. destruct (push_imported err w s) as [s' r'] eqn:Hp.
  pose proof (push_imported_appends err w s) as Ha. rewrite Hp in Ha. by destruct r'.
Qed.

Lemma import_json_appends text uuid now s : appends_or_keeps uuid s (importFromJson text uuid now s).1.
Proof.
  unfold importFromJson. destruct (json_parse text) as [v|]; [|by left].
  apply import_tail_appends, ws_of_data_id.
Qed.

Lemma import_url_appends u uuid now s : appends_or_keeps uuid s (importFromUrl u uuid now s).1.
Proof.
  unfold importFromUrl. apply import_tail_appends. intros w (d & _ & Hw)%result_bind_ok.
  by apply ws_of_data_id in Hw.
Qed.

Lemma ws_list_keeps s s' : st_store s' = st_store (ensureWorkspacesConfig s) → ws_list s' = ws_list s.
Proof. intros H. rewrite (ws_list_same_store _ _ H). apply ws_list_ensure. Qed.

Lemma updateWorkspace_eq id u now s : updateWorkspace id u now s =
  match find_ws id (ws_list s) with
  | None => (ensureWorkspacesConfig s, Ok None)
  | Some (i, w) =>
      match stored_workspaces (ensureWorkspacesConfig s) with
      | None => (ensureWorkspacesConfig s, Err "Config store not ready, cannot update workspace")
      | Some ls => (config_save (set_workspaces (<[i := apply_updates w u id now]> ls) (ensureWorkspacesConfig s)),
                    Ok (Some (apply_updates w u id now)))
      end
  end.
Proof. reflexivity. Qed.

Lemma deleteWorkspace_eq id s : deleteWorkspace id s =
  match find_ws id (ws_list s) with
  | None => (ensureWorkspacesConfig s, Ok false)
  | Some (i, _) =>
      match stored_workspaces (ensureWorkspacesConfig s) with
      | None => (ensureWorkspacesConfig s, Err "Config store not ready, cannot delete workspace")
      | Some ls => (config_save (set_workspaces (delete i ls) (ensureWorkspacesConfig s)), Ok true)
      end
  end.
Proof. reflexivity. Qed.

Lemma update_ids id u now s : ws_id <$> ws_list (updateWorkspace id u now s).1 = ws_id <$> ws_list s.
Proof.
  rewrite updateWorkspace_eq. destruct ((getWorkspace id s).2) as [w|] eqn:Hg.
  - destruct (get_found id s w Hg) as (i & Hf & Hi & Hid & Hst & Hsome).
    rewrite Hf, Hst. cbn [fst].
    rewrite ws_list_write, list_fmap_insert by done. apply list_insert_id.
    rewrite list_lookup_fmap, Hi. simpl. by rewrite Hid.
  - rewrite getWorkspace_snd in Hg.
    destruct (find_ws id (ws_list s)); [discriminate|]. cbn [fst]. by rewrite ws_list_ensure.
Qed.

Lemma delete_ids id s : ws_id <$> ws_list (deleteWorkspace id s).1 `sublist_of` ws_id <$> ws_list s.
Proof.
  rewrite deleteWorkspace_eq.
  destruct (find_ws id (ws_list s)) as [[i w]|] eqn:Hf; cbn [fst]; [|by rewrite ws_list_ensure].
  destruct (st_store s) as [cs|] eqn:E; [|by rewrite (ws_list_no_store s E) in Hf].
  assert (ws_list s = default [] (cs_workspaces cs)) as Hl by (by rewrite (ws_list_stored s cs E)).
  rewrite (ensure_stored s cs E), <-Hl. cbn [fst].
  rewrite ws_list_write by (apply ensure_store_some; by rewrite E).
  apply sublist_fmap, sublist_delete.
Qed.
Lemma load_keeps rt id s : ws_list (loadWorkspace rt id s).1 = ws_list s.
Proof.
  apply ws_list_keeps. unfold loadWorkspace. rewrite getWorkspace_eq.
  destruct (snd <$> find_ws id (ws_list s)); [|done]. by destruct (json_iter _).
Qed.

Lemma restore_keeps af w s : ws_list (restore_folders af w s).1 = ws_list s.
Proof. apply ws_list_same_store. unfold restore_folders. repeat case_match; done. Qed.

Lemma export_keeps id iso s : ws_list (exportWorkspace id iso s).1 = ws_list s.
Proof. apply ws_list_keeps. reflexivity. Qed.

Lemma copy_keeps id s : ws_list (copyShareableUrl id s).1 = ws_list s.
Proof. apply ws_list_keeps. unfold copyShareableUrl, generateShareableUrl. rewrite getWorkspace_eq. by case_match. Qed.

(** ** Loading *)

Lemma omap_recover (rt : json → option app_tab) tabs :
  (∀ tab tok, tab ∈ tabs → tab_token tab = Some tok → rt tok = Some tab) →
  omap rt (capture_tokens tabs) = filter (λ tab, is_Some (tab_token tab)) tabs.
Proof.
  intros Hrt. unfold capture_tokens. induction tabs as [|tab tabs IH]; [done|]. simpl.
  assert (omap rt (omap tab_token tabs) = filter (λ tab, is_Some (tab_token tab)) tabs) as IH'.
  { apply IH. intros ????. apply Hrt; [by apply elem_of_cons; right|done]. }
  destruct (tab_token tab) as [tok|] eqn:E; simpl.
  - rewrite (Hrt tab tok), filter_cons_True by (rewrite ?E; eauto using list_elem_of_here). by f_equal.
  - rewrite filter_cons_False; [done|]. rewrite E. by intros [? ?].
Qed.

(** A workspace just saved loads back: the open tabs are replaced by the
    ones that had a recovery token, when recovering a tab's token gives
    that tab back. *)
Theorem save_then_load rt name d sh t uuid now s s' w :
  (∀ tab tok, tab ∈ st_tabs s → tab_token tab = Some tok → rt tok = Some tab) →
  uuid ∉ ws_id <$> ws_list s →
  saveWorkspace name d sh t uuid now s = (s', Ok w) →
  loadWorkspace rt uuid s' = (set_tabs (filter (λ tab, is_Some (tab_token tab)) (st_tabs s)) s', Ok true).
Proof.
  intros Hrt Hfresh Hsave. destruct (st_store s) as [cs|] eqn:E.
  - destruct (saveWorkspace_stored name d sh t uuid now s cs E) as (s'' & Hs & Hg & _ & Htabs & _).
    rewrite Hsave in Hs. injection Hs as -> ->.
    unfold loadWorkspace. rewrite getWorkspace_eq. cbn zeta.
    assert (ensureWorkspacesConfig s'' = s'') as -> by exact (f_equal fst Hg).
    rewrite Hg. cbn [snd]. rewrite find_ws_app_fresh by done. cbn. rewrite omap_recover by done. done.
  - unfold saveWorkspace in Hsave. rewrite ensure_no_store in Hsave by done.
    unfold stored_workspaces in Hsave. rewrite E in Hsave. discriminate.
Qed.

(** [loadWorkspace] of a workspace whose [tabs] value is not iterable
    (an imported one, whose text had a number or an object there):
    every open tab is closed, then the promise rejects. *)
Theorem load_noniterable_closes_tabs rt id s w :
  (getWorkspace id s).2 = Some w → (∀ l, ws_tabs w ≠ JArr l) → (∀ str, ws_tabs w ≠ JStr str) →
  loadWorkspace rt id s = (set_tabs [] (ensureWorkspacesConfig s), Err "TypeError").
Proof.
  intros Hw Ha Hs. unfold loadWorkspace. rewrite getWorkspace_eq. rewrite getWorkspace_snd in Hw.
  cbn zeta. rewrite Hw. unfold json_iter.
  destruct (ws_tabs w); first [done | by edestruct Ha | by edestruct Hs].
Qed.

(** ** Lemmas for the clients of the service *)

Lemma stored_ensure_list s : is_Some (st_store s) →
  stored_workspaces (ensureWorkspacesConfig s) = Some (ws_list s).
Proof. intros [cs Hs]. rewrite (ensure_stored s cs Hs). by rewrite (ws_list_stored s cs Hs). Qed.

(** Deleting the id of the first stored workspace removes it. *)
Lemma delete_head x l s : is_Some (st_store s) → ws_list s = x :: l →
  ∃ s', deleteWorkspace (ws_id x) s = (s', Ok true) ∧ ws_list s' = l ∧ st_tabs s' = st_tabs s ∧
        is_Some (st_store s') ∧ stored_profiles s' = stored_profiles s.
Proof.
  intros Hs Hl. rewrite deleteWorkspace_eq, Hl, stored_ensure_list, Hl by done.
  assert (find_ws (ws_id x) (x :: l) = Some (0%nat, x)) as -> by (unfold find_ws; simpl; by rewrite decide_True).
  assert (is_Some (st_store (ensureWorkspacesConfig s))) as Hs' by (by apply ensure_store_some).
  eexists; split_and!; [reflexivity|by rewrite ws_list_write|by rewrite write_tabs, ensure_tabs
    |by apply write_store_some|by rewrite write_profiles, ensure_profiles].
Qed.

(** Saving into an existing store appends the workspace built from the
    arguments and the open tabs. *)
Lemma save_stored name d sh t uuid now s : is_Some (st_store s) →
  ∃ s' w, saveWorkspace name d sh t uuid now s = (s', Ok w) ∧ ws_list s' = ws_list s ++ [w] ∧
    ws_name w = name ∧ ws_description w = d ∧ ws_shared w = sh ∧ ws_teamId w = t ∧
    ws_tabs w = JArr (capture_tokens (st_tabs s)) ∧
    st_tabs s' = st_tabs s ∧ is_Some (st_store s') ∧ stored_profiles s' = stored_profiles s.
Proof.
  intros [cs Hs]. destruct (saveWorkspace_stored name d sh t uuid now s cs Hs) as (s' & H & Hg & _ & Ht & Hst & Hp).
  do 2 eexists. split_and!; [exact H|by rewrite Hg|done..].
Qed.

(** ** Saving: the claim *)

(** C15: [saveWorkspace] with a configuration store appends the new workspace
    and persists the store; [getWorkspace] of its fresh id returns it;
    its tokens are those of the open tabs that have one, its folders the
    distinct nonempty folder paths of the code-editor tabs and its
    profiles the distinct nonempty profile ids.  Without a store it
    throws and changes nothing. *)
Theorem save_then_get name d sh t uuid now s :
  uuid ∉ ws_id <$> ws_list s →
  match st_store s with
  | None => saveWorkspace name d sh t uuid now s = (s, Err "Config store not ready, cannot save workspace")
  | Some _ =>
      ∃ s' w folders profiles, saveWorkspace name d sh t uuid now s = (s', Ok w) ∧
        ws_id w = uuid ∧ ws_version w = JNum 1 ∧
        ws_list s' = ws_list s ++ [w] ∧ getWorkspace uuid s' = (s', Some w) ∧ st_saved s' = st_store s' ∧
        ws_tabs w = JArr (omap tab_token (st_tabs s)) ∧
        ws_codeEditorFolders w = JArr (JStr <$> folders) ∧ NoDup folders ∧
        (∀ p, p ∈ folders ↔ p ≠ EmptyString ∧
           ∃ tab fs, tab ∈ st_tabs s ∧ tab_is_code_editor tab = true ∧ tab_folders tab = Some fs ∧ Some p ∈ fs) ∧
        ws_profiles w = JArr (JStr <$> profiles) ∧ NoDup profiles ∧
        (∀ p, p ∈ profiles ↔ p ≠ EmptyString ∧ ∃ tab, tab ∈ st_tabs s ∧ tab_profile_id tab = Some p)
  end.
Proof.
  intros Hfresh. destruct (st_store s) as [cs|] eqn:E.
  - destruct (saveWorkspace_stored name d sh t uuid now s cs E) as (s' & Hs & Hg & Hsv & _).
    destruct (capture_folders_spec (st_tabs s)) as [Hf1 Hf2].
    destruct (capture_profiles_spec (st_tabs s)) as [Hp1 Hp2].
    do 4 eexists. split_and!; [exact Hs|done|done|by rewrite Hg| |done|done|done|done|done|done|done|done].
    + rewrite getWorkspace_eq. assert (ensureWorkspacesConfig s' = s') as -> by exact (f_equal fst Hg).
      rewrite Hg. cbn [snd]. by rewrite find_ws_app_fresh.
  - unfold saveWorkspace. rewrite ensure_no_store by done. unfold stored_workspaces. by rewrite E.
Qed.

(** ** The service as a transition system *)

(** One call of a method of [WorkspaceService], or the folder callback
    [loadWorkspace] schedules.  The calls that create a workspace get an
    id from [uuidv4()] that no stored workspace has. *)
Inductive ws_step : ws_state → ws_state → Prop :=
| WsGet id s : ws_step s (getWorkspace id s).1
| WsSave name d sh t uuid now s :
    uuid ∉ ws_id <$> ws_list s → ws_step s (saveWorkspace name d sh t uuid now s).1
| WsUpdate id u now s : ws_step s (updateWorkspace id u now s).1
| WsDelete id s : ws_step s (deleteWorkspace id s).1
| WsLoad rt id s : ws_step s (loadWorkspace rt id s).1
| WsRestore af w s : ws_step s (restore_folders af w s).1
| WsExport id iso s : ws_step s (exportWorkspace id iso s).1
| WsCopy id s : ws_step s (copyShareableUrl id s).1
| WsImportJson text uuid now s :
    uuid ∉ ws_id <$> ws_list s → ws_step s (importFromJson text uuid now s).1
| WsImportUrl u uuid now s :
    uuid ∉ ws_id <$> ws_list s → ws_step s (importFromUrl u uuid now s).1.

Lemma appends_nodup uuid s s' :
  appends_or_keeps uuid s s' → uuid ∉ ws_id <$> ws_list s → NoDup (ws_id <$> ws_list s) →
  NoDup (ws_id <$> ws_list s').
Proof.
  intros [->|(w & Hid & ->)] Hn Hnd; [done|]. rewrite fmap_app. simpl.
  apply NoDup_app. split_and!; [done| |by apply NoDup_singleton].
  intros x Hx ->%list_elem_of_singleton. by rewrite Hid in Hx.
Qed.

(** C14: Workspace ids stay pairwise distinct: every method keeps them so,
    given fresh ids from [uuidv4()]. *)
Theorem ws_ids_unique s0 s :
  rtc ws_step s0 s → NoDup (ws_id <$> ws_list s0) → NoDup (ws_id <$> ws_list s).
Proof.
  induction 1 as [|s1 s2 s3 Hstep _ IH]; [done|]. intros Hnd. apply IH.
  destruct Hstep.
  - rewrite getWorkspace_eq. cbn [fst]. by rewrite ws_list_ensure.
  - by eapply appends_nodup; [apply save_appends|..].
  - by rewrite update_ids.
  - eapply sublist_NoDup; [exact Hnd|apply delete_ids].
  - by rewrite load_keeps.
  - by rewrite restore_keeps.
  - by rewrite export_keeps.
  - by rewrite copy_keeps.
  - by eapply appends_nodup; [apply import_json_appends|..].
  - by eapply appends_nodup; [apply import_url_appends|..].
Qed.
