(* ===== verification/Backup.v ===== *)
(** * Backups ([BackupService], [src/tlink-core/src/services/workspace.service.ts], lines 423-1169)

    [BackupService] keeps an index of backups ([this.backups]), writes
    each backup as a pretty-printed JSON file through the main process
    (IPC channels [backup:save-file], [backup:load-file],
    [backup:delete-file], [backup:save-index], [backup:load-index]),
    checks a SHA-256 checksum before restoring, deletes backups older than
    the retention period after each new one, and runs automatic backups
    on a timer.  Its settings live in [config.store.backup], beside the
    workspaces of [WorkspaceService], whose state ([ws_state]) is part of
    the state here: a restore deletes and re-saves workspaces through it.

    State ([bk_state]): the settings, the index, the timer ([Some] period
    when [backupInterval] is set), the device id, the backup directory,
    the files and index the main process holds, the number of
    [backupsChanged$] emissions, the workspace service, and the next
    [uuidv4()] to draw.

    Parameters of the environment (Section [Env]): whether the Electron
    IPC renderer exists, [crypto]'s SHA-256 as hex, [Date.toISOString],
    [new Date(v)] on a parsed value ([None] for an invalid date),
    [getAppVersion()], [process.platform], the JSON object of the
    configuration proxy, [ProfilesService.newProfile] and [uuidv4()] as a
    supply of ids.  The IPC handlers of the main process are not in
    [src/]: the model takes writes and deletes to succeed, and a read of a
    missing file to reject.  A day is 86 400 000 ms ([setDate] in a time
    zone without daylight saving). *)

From S2P Require Import Prelude JsString Json Base64 Workspace.
From Stdlib Require Import Ascii String Sorted.

Local Abbreviation length := List.length.
Local Open Scope Z_scope.

(** ** Data *)

(** [interface BackupConfig]. *)
Record backup_config := BackupConfig {
  bc_enabled : bool;
  bc_interval : Z;
  bc_retention : Z;
  bc_includeWorkspaces : bool;
  bc_includeConfig : bool;
  bc_includeProfiles : bool;
}.

(** [interface Backup]: [timestamp] in milliseconds; the metadata an
    imported file provides are JSON values. *)
Record backup := Backup {
  bk_id : string;
  bk_timestamp : Z;
  bk_size : Z;
  bk_path : string;
  bk_checksum : string;
  md_version : json;
  md_deviceId : json;
  md_items : list string;
  md_appVersion : option json;
}.

Record bk_state := BkState {
  b_config : backup_config;
  b_backups : list backup;
  b_timer : option Z;
  b_deviceId : string;
  b_dir : string;
  b_files : gmap string string;
  b_index : gmap string (list backup);
  b_changed : nat;
  b_ws : ws_state;
  b_seed : nat;
}.

Definition set_config (c : backup_config) (s : bk_state) : bk_state :=
  BkState c (b_backups s) (b_timer s) (b_deviceId s) (b_dir s) (b_files s) (b_index s) (b_changed s) (b_ws s) (b_seed s).
Definition set_backups (l : list backup) (s : bk_state) : bk_state :=
  BkState (b_config s) l (b_timer s) (b_deviceId s) (b_dir s) (b_files s) (b_index s) (b_changed s) (b_ws s) (b_seed s).
Definition set_timer (t : option Z) (s : bk_state) : bk_state :=
  BkState (b_config s) (b_backups s) t (b_deviceId s) (b_dir s) (b_files s) (b_index s) (b_changed s) (b_ws s) (b_seed s).
Definition set_files (f : gmap string string) (s : bk_state) : bk_state :=
  BkState (b_config s) (b_backups s) (b_timer s) (b_deviceId s) (b_dir s) f (b_index s) (b_changed s) (b_ws s) (b_seed s).
Definition set_index (i : gmap string (list backup)) (s : bk_state) : bk_state :=
  BkState (b_config s) (b_backups s) (b_timer s) (b_deviceId s) (b_dir s) (b_files s) i (b_changed s) (b_ws s) (b_seed s).
Definition set_dir (d : string) (s : bk_state) : bk_state :=
  BkState (b_config s) (b_backups s) (b_timer s) (b_deviceId s) d (b_files s) (b_index s) (b_changed s) (b_ws s) (b_seed s).
Definition emit_changed (s : bk_state) : bk_state :=
  BkState (b_config s) (b_backups s) (b_timer s) (b_deviceId s) (b_dir s) (b_files s) (b_index s) (S (b_changed s)) (b_ws s) (b_seed s).
Definition set_ws (w : ws_state) (s : bk_state) : bk_state :=
  BkState (b_config s) (b_backups s) (b_timer s) (b_deviceId s) (b_dir s) (b_files s) (b_index s) (b_changed s) w (b_seed s).

(** [Partial<BackupConfig>]: the settings given, with defined values. *)
Record bc_updates := BcUpdates {
  u_enabled : option bool;
  u_interval : option Z;
  u_retention : option Z;
  u_includeWorkspaces : option bool;
  u_includeConfig : option bool;
  u_includeProfiles : option bool;
}.

(** [{ ...this.backupConfig, ...config }]. *)
Definition merge_config (c : backup_config) (u : bc_updates) : backup_config :=
  BackupConfig (default (bc_enabled c) (u_enabled u)) (default (bc_interval c) (u_interval u))
    (default (bc_retention c) (u_retention u)) (default (bc_includeWorkspaces c) (u_includeWorkspaces u))
    (default (bc_includeConfig c) (u_includeConfig u)) (default (bc_includeProfiles c) (u_includeProfiles u)).

(** ** Pure helpers *)

(** [getOrCreateDeviceId()]: the id kept in [localStorage], or a new one
    that is stored there. *)
Definition getOrCreateDeviceId (stored : option string) (uuid : string) : string * option string :=
  match stored with
  | Some d => if str_truthy d then (d, Some d) else (uuid, Some uuid)
  | None => (uuid, Some uuid)
  end.

(** [getBackupDirectory()]: the [backups] folder beside the configuration
    file, when [getConfigPath()] gives a nonempty string. *)
Definition getBackupDirectory (configPath : option string) : string :=
  match configPath with
  | Some p => if str_truthy p then join "/" (removelast (split_on "/" p)) +:+ "/backups" else "backups"
  | None => "backups"
  end.

(** The default settings of [loadBackupConfig] without a store, and the
    [??] defaults with one. *)
Definition default_backup_config : backup_config := BackupConfig false 60 30 true true true.

Definition config_of_store (sb : stored_backup) : backup_config :=
  BackupConfig (default false (sb_enabled sb)) (default 60 (sb_interval sb)) (default 30 (sb_retention sb))
    (default true (sb_includeWorkspaces sb)) (default true (sb_includeConfig sb))
    (default true (sb_includeProfiles sb)).

(** [loadBackupConfig()]. *)
Definition loadBackupConfig (s : bk_state) : bk_state :=
  match st_store (b_ws s) with
  | None => set_config default_backup_config s
  | Some cs => set_config (config_of_store (cs_backup cs)) s
  end.

(** [timestamp.toISOString().replace(/[:.]/g, '-')]. *)
Fixpoint dash_time (s : string) : string :=
  match s with
  | EmptyString => EmptyString
  | String c r =>
      String (if bool_decide (c = ":"%char) || bool_decide (c = "."%char) then "-"%char else c) (dash_time r)
  end.

(** [`${prefix}${timestampStr}-${id.substring(0, 8)}.json`]. *)
Definition backup_filename (prefix iso id : string) : string :=
  prefix +:+ dash_time iso +:+ "-" +:+ substring 0 8 id +:+ ".json".

(** [Buffer.byteLength(json, 'utf8')]. *)
Definition byte_length (s : string) : Z := Z.of_nat (String.length (utf8_encode s)).

(** [v.length] of a parsed value: the length of an array or a string,
    the [length] property of an object, [undefined] otherwise. *)
Definition length_prop (v : json) : option json :=
  match v with
  | JArr l => Some (JNum (Z.of_nat (length l)))
  | JStr t => Some (JNum (Z.of_nat (String.length t)))
  | JObj _ => jget v "length"
  | _ => None
  end.

(** [x > 0] for the values a [length] can be: numbers, booleans and
    [null] compare as numbers.  A string, array or object there is taken
    as not positive (JavaScript would convert it to a number first). *)
Definition js_gt_zero (x : json) : bool :=
  match x with
  | JNum n => bool_decide (0 < n)
  | JBool b => b
  | _ => false
  end.

(** [v && v.length > 0]: the length, when it holds. *)
Definition nonempty_length (o : option json) : option json :=
  match o with
  | Some v =>
      if js_truthy v then
        match length_prop v with Some n => if js_gt_zero n then Some n else None | None => None end
      else None
  | None => None
  end.

(** [metadata.items] of [createBackup] and [importBackup]. *)
Definition data_items (data : json) : list string :=
  (if js_truthy (default JNull (jget data "config")) then ["config"] else []) ++
  (match nonempty_length (jget data "workspaces") with
   | Some n => ["workspaces(" +:+ js_to_string n +:+ ")"] | None => [] end) ++
  (match nonempty_length (jget data "profiles") with
   | Some n => ["profiles(" +:+ js_to_string n +:+ ")"] | None => [] end).

(** [JSON.parse(JSON.stringify(v))]. *)
Definition json_clone (v : json) : option json := json_parse (json_stringify false v).

(** [[...this.backups].sort((a, b) => b.timestamp - a.timestamp)]: the
    sort is stable, so it is insertion of each backup before the first
    one that is not newer. *)
Fixpoint insert_desc (b : backup) (l : list backup) : list backup :=
  match l with
  | [] => [b]
  | c :: r => if bool_decide (bk_timestamp c ≤ bk_timestamp b) then b :: l else c :: insert_desc b r
  end.

Definition sort_desc (l : list backup) : list backup := foldr insert_desc [] l.

(** [this.backups.find(b => b.id === id)]. *)
Definition find_backup (id : string) (l : list backup) : option backup :=
  snd <$> list_find (λ b, bk_id b = id) l.

(** [getBackups()] and [getBackup(id)]. *)
Definition getBackups (s : bk_state) : list backup := sort_desc (b_backups s).
Definition getBackup (id : string) (s : bk_state) : option backup := find_backup id (b_backups s).

(** [getBackupStats()]: count, total size, oldest and newest timestamp. *)
Record backup_stats := BackupStats {
  totalBackups : nat;
  totalSize : Z;
  oldestBackup : option Z;
  newestBackup : option Z;
}.

Definition getBackupStats (s : bk_state) : backup_stats :=
  match b_backups s with
  | [] => BackupStats 0 0 None None
  | _ =>
      let sorted := getBackups s in
      BackupStats (length (b_backups s)) (foldl (λ sum b, sum + bk_size b) 0 (b_backups s))
        (bk_timestamp <$> last sorted) (bk_timestamp <$> head sorted)
  end.

(** [getBackupConfig()] and [isEnabled()]. *)
Definition getBackupConfig (s : bk_state) : backup_config := b_config s.
Definition isEnabled (s : bk_state) : bool := bc_enabled (b_config s).

(** A workspace as [collectBackupData] puts it in the file: its
    properties in declaration order, the dates as ISO strings, the
    [undefined] ones left out. *)
Definition ws_to_json (iso_of : Z → string) (w : workspace) : json :=
  JObj ([("id", JStr (ws_id w))] ++ opt_field "name" (ws_name w) ++ opt_field "description" (ws_description w) ++
        [("tabs", ws_tabs w); ("codeEditorFolders", ws_codeEditorFolders w); ("profiles", ws_profiles w)] ++
        opt_field "layout" (ws_layout w) ++ [("shared", ws_shared w)] ++ opt_field "teamId" (ws_teamId w) ++
        [("version", ws_version w); ("createdAt", JStr (iso_of (ws_createdAt w)));
         ("updatedAt", JStr (iso_of (ws_updatedAt w)))] ++
        opt_field "tags" ((λ ts, JArr (JStr <$> ts)) <$> ws_tags w) ++
        opt_field "isTemplate" (JBool <$> ws_isTemplate w)).

(** ** Operations *)

(** What the service takes from its surroundings: whether the Electron
    IPC renderer exists, [crypto]'s SHA-256 as hex, [Date.toISOString],
    [new Date(v)] on a parsed value ([None] for an invalid date),
    [getAppVersion()], [process.platform], the JSON object of the
    configuration proxy, [ProfilesService.newProfile] and [uuidv4()] as a
    supply of ids. *)
Record backup_env := BackupEnv {
  env_ipc : bool;
  env_sha256_hex : string → string;
  env_iso_of : Z → string;
  env_date_of : json → option Z;
  env_app_version : string;
  env_platform : string;
  env_store_json : config_store → json;
  env_newProfile : json → list json → result string (list json);
  env_uuidv4 : nat → string;
}.

Section Env.

Variable env : backup_env.

Local Abbreviation ipc := (env_ipc env).
Local Abbreviation sha256_hex := (env_sha256_hex env).
Local Abbreviation iso_of := (env_iso_of env).
Local Abbreviation date_of := (env_date_of env).
Local Abbreviation app_version := (env_app_version env).
Local Abbreviation platform := (env_platform env).
Local Abbreviation store_json := (env_store_json env).
Local Abbreviation newProfile := (env_newProfile env).
Local Abbreviation uuidv4 := (env_uuidv4 env).

(** The next [uuidv4()]. *)
Definition fresh (s : bk_state) : string * bk_state :=
  (uuidv4 (b_seed s),
   BkState (b_config s) (b_backups s) (b_timer s) (b_deviceId s) (b_dir s) (b_files s) (b_index s)
     (b_changed s) (b_ws s) (S (b_seed s))).

(** [saveBackupIndex(emitChange)]. *)
Definition saveBackupIndex (emit : bool) (s : bk_state) : bk_state :=
  let s1 := if ipc then set_index (<[b_dir s := b_backups s]> (b_index s)) s else s in
  if emit then emit_changed s1 else s1.

(** [deleteBackup(id)]. *)
Definition deleteBackup (id : string) (s : bk_state) : bk_state * result string unit :=
  match find_backup id (b_backups s) with
  | None => (s, Err "Backup not found")
  | Some b =>
      let s1 := if ipc then set_files (delete (bk_path b) (b_files s)) s else s in
      let s2 := set_backups (filter (λ x, bk_id x ≠ id) (b_backups s1)) s1 in
      (saveBackupIndex true s2, Ok ())
  end.

(** [cleanupOldBackups()]: delete, one by one, the backups older than
    [retention] days; a failed deletion is logged and skipped. *)
Definition cutoff (now : Z) (s : bk_state) : Z := now - bc_retention (b_config s) * 86400000.

Definition cleanupOldBackups (now : Z) (s : bk_state) : bk_state :=
  if bool_decide (bc_retention (b_config s) ≤ 0) then s
  else
    let old := filter (λ b, bk_timestamp b < cutoff now s) (b_backups s) in
    foldl (λ s b, (deleteBackup (bk_id b) s).1) s old.

(** [collectBackupData()]: the file's object, its properties in the
    order they are created.  [getWorkspaces()] may create the
    [workspaces] array. *)
Definition collectBackupData (now : Z) (s : bk_state) : bk_state * result string json :=
  let base := [("version", JStr "1.0"); ("timestamp", JStr (iso_of now)); ("deviceId", JStr (b_deviceId s));
               ("metadata", JObj [("appVersion", JStr app_version); ("platform", JStr platform)])] in
  let c := b_config s in
  let store := st_store (b_ws s) in
  let config :=
    if bc_includeConfig c then
      match store with
      | Some cs => match json_clone (store_json cs) with Some v => Ok [("config", v)] | None => Err "SyntaxError" end
      | None => Ok []
      end
    else Ok [] in
  let '(ws1, wss) := getWorkspaces (b_ws s) in
  let s1 := if bc_includeWorkspaces c then set_ws ws1 s else s in
  let workspaces := if bc_includeWorkspaces c then [("workspaces", JArr (ws_to_json iso_of <$> wss))] else [] in
  let profiles :=
    if bc_includeProfiles c then
      match store with
      | Some cs =>
          match json_clone (JArr (default [] (cs_profiles cs))) with
          | Some v => Ok [("profiles", v)] | None => Err "SyntaxError" end
      | None => Ok []
      end
    else Ok [] in
  match config, profiles with
  | Ok cf, Ok pf => (s1, Ok (JObj (base ++ cf ++ workspaces ++ pf)))
  | Err e, _ => (s, Err e)
  | _, Err e => (s1, Err e)
  end.

(** [createBackup(manual, silent)]; [manual] only changes a log line. *)
Definition createBackup (silent : bool) (now : Z) (s : bk_state) : bk_state * result string backup :=
  let '(uuid, s0) := fresh s in
  match collectBackupData now s0 with
  | (s1, Err e) => (s1, Err e)
  | (s1, Ok data) =>
      let text := json_stringify true data in
      let path := b_dir s1 +:+ "/" +:+ backup_filename "backup-" (iso_of now) uuid in
      let b := Backup uuid now (byte_length text) path (sha256_hex text) (JStr "1.0") (JStr (b_deviceId s1))
                 (data_items data) (Some (JStr app_version)) in
      if ipc then
        let s2 := set_files (<[path := text]> (b_files s1)) s1 in
        let s3 := saveBackupIndex (negb silent) (set_backups (b_backups s2 ++ [b]) s2) in
        (cleanupOldBackups now s3, Ok b)
      else (s1, Err "IPC not available, cannot save backup")
  end.

(** [stopAutomaticBackups()]. *)
Definition stopAutomaticBackups (s : bk_state) : bk_state := set_timer None s.

(** [startAutomaticBackups(skipInitial)]: the first backup, unless
    skipped, then [setInterval] with the period in milliseconds. *)
Definition startAutomaticBackups (skipInitial : bool) (now : Z) (s : bk_state) : bk_state :=
  let s1 := stopAutomaticBackups s in
  if bc_enabled (b_config s1) then
    let s2 := if skipInitial then s1 else (createBackup false now s1).1 in
    set_timer (Some (bc_interval (b_config s2) * 60 * 1000)) s2
  else s1.

(** The [setInterval] callback. *)
Definition backup_tick (now : Z) (s : bk_state) : bk_state :=
  match b_timer s with Some _ => (createBackup false now s).1 | None => s end.

(** [saveBackupConfig()]: write the settings into [config.store.backup]
    and persist the store. *)
Definition saveBackupConfig (s : bk_state) : bk_state :=
  match st_store (b_ws s) with
  | None => s
  | Some cs =>
      let c := b_config s in
      let sb := StoredBackup (Some (bc_enabled c)) (Some (bc_interval c)) (Some (bc_retention c))
                  (Some (bc_includeWorkspaces c)) (Some (bc_includeConfig c)) (Some (bc_includeProfiles c)) in
      set_ws (config_save (set_store (Some (ConfigStore (cs_workspaces cs) (cs_profiles cs) sb)) (b_ws s))) s
  end.

(** [enableAutomaticBackups()], [disableAutomaticBackups()] and
    [updateBackupConfig(config)]. *)
Definition with_enabled (e : bool) (c : backup_config) : backup_config :=
  BackupConfig e (bc_interval c) (bc_retention c) (bc_includeWorkspaces c) (bc_includeConfig c) (bc_includeProfiles c).

Definition enableAutomaticBackups (now : Z) (s : bk_state) : bk_state :=
  startAutomaticBackups false now (saveBackupConfig (set_config (with_enabled true (b_config s)) s)).

Definition disableAutomaticBackups (s : bk_state) : bk_state :=
  stopAutomaticBackups (saveBackupConfig (set_config (with_enabled false (b_config s)) s)).

Definition updateBackupConfig (u : bc_updates) (now : Z) (s : bk_state) : bk_state :=
  let s1 := saveBackupConfig (set_config (merge_config (b_config s) u) s) in
  if bc_enabled (b_config s1) then startAutomaticBackups false now s1 else stopAutomaticBackups s1.

(** ** Restore *)

(** [await this.workspace.deleteWorkspace(existing.id)] for each workspace
    [getWorkspaces()] returned, stopping at the first rejection. *)
Fixpoint delete_all (ids : list string) (w : ws_state) : ws_state * result string unit :=
  match ids with
  | [] => (w, Ok ())
  | id :: r =>
      match deleteWorkspace id w with
      | (w1, Ok _) => delete_all r w1
      | (w1, Err e) => (w1, Err e)
      end
  end.

(** [await this.workspace.saveWorkspace(ws.name, ws.description,
    ws.shared || false, ws.teamId)] for each workspace of the file: the
    workspace saved has the name and description of the file, and the
    tabs, folders and profiles that are open now. *)
Fixpoint save_all (now : Z) (l : list json) (s : bk_state) : bk_state * result string unit :=
  match l with
  | [] => (s, Ok ())
  | JNull :: _ => (s, Err "TypeError")
  | ws :: r =>
      let '(uuid, s1) := fresh s in
      match saveWorkspace (jget ws "name") (jget ws "description") (js_or (jget ws "shared") (JBool false))
              (jget ws "teamId") uuid now (b_ws s1) with
      | (w1, Ok _) => save_all now r (set_ws w1 s1)
      | (w1, Err e) => (set_ws w1 s1, Err e)
      end
  end.

(** The workspace part of [restoreBackup]. *)
Definition restore_workspaces (now : Z) (data : json) (s : bk_state) : bk_state * result string unit :=
  match nonempty_length (jget data "workspaces") with
  | Some _ =>
      if bc_includeWorkspaces (b_config s) then
        let '(w0, existing) := getWorkspaces (b_ws s) in
        match delete_all (ws_id <$> existing) w0 with
        | (w1, Err e) => (set_ws w1 s, Err e)
        | (w1, Ok _) =>
            match json_iter (default JNull (jget data "workspaces")) with
            | Err e => (set_ws w1 s, Err e)
            | Ok l =>
                match save_all now l (set_ws w1 s) with
                | (s2, Ok _) => (set_ws (config_save (b_ws s2)) s2, Ok ())
                | (s2, Err e) => (s2, Err e)
                end
            end
        end
      else (s, Ok ())
  | None => (s, Ok ())
  end.

(** [p.id] of each profile: a [TypeError] on [null]. *)
Definition profile_ids (l : list json) : result string (list (option json)) :=
  mapM (λ p, js_prop p "id") l.

(** [for (const profile of newProfiles) try { await
    this.profilesService.newProfile(profile, { genId: false }) } catch {}]. *)
Definition add_profiles (l : list json) (ps : list json) : list json :=
  foldl (λ ps p, match newProfile p ps with Ok ps' => ps' | Err _ => ps end) ps l.

Definition set_profiles (ps : list json) (w : ws_state) : ws_state :=
  match st_store w with
  | Some cs => set_store (Some (ConfigStore (cs_workspaces cs) (Some ps) (cs_backup cs))) w
  | None => w
  end.

(** The profile part of [restoreBackup]: the profiles of the file whose
    id no stored profile has. *)
Definition restore_profiles (data : json) (s : bk_state) : bk_state * result string unit :=
  match nonempty_length (jget data "profiles") with
  | Some _ =>
      if bc_includeProfiles (b_config s) then
        let existing := default [] (st_store (b_ws s) ≫= cs_profiles) in
        match profile_ids existing, default JNull (jget data "profiles") with
        | Err e, _ => (s, Err e)
        | Ok ids, JArr l =>
            match mapM (λ p, (λ id, (p, id)) <$> js_prop p "id") l with
            | Err e => (s, Err e)
            | Ok pids =>
                let fresh_ps := (λ pi, pi.1) <$> filter (λ pi, pi.2 ∉ ids) pids in
                match fresh_ps with
                | [] => (s, Ok ())
                | _ => (set_ws (config_save (set_profiles (add_profiles fresh_ps existing) (b_ws s))) s, Ok ())
                end
            end
        | Ok _, _ => (s, Err "TypeError")
        end
      else (s, Ok ())
  | None => (s, Ok ())
  end.

(** [restoreBackup(id)] from the read of the file on: integrity check,
    parse, safety backup (whose failure is ignored), then workspaces and
    profiles. *)
Definition restore_body (b : backup) (now : Z) (s : bk_state) : bk_state * result string unit :=
  if negb ipc then (s, Err "IPC not available, cannot restore backup") else
  match b_files s !! bk_path b with
  | None => (s, Err "ENOENT")
  | Some text =>
      if bool_decide (sha256_hex text ≠ bk_checksum b)
      then (s, Err "Backup integrity check failed - backup may be corrupted")
      else
        match json_parse text with
        | None => (s, Err "SyntaxError")
        | Some data =>
            let s1 := (createBackup true now s).1 in
            match st_store (b_ws s1), data with
            | None, _ => (s1, Err "Config store not ready, cannot restore backup")
            | Some _, JNull => (s1, Err "TypeError")
            | Some _, _ =>
                match restore_workspaces now data s1 with
                | (s2, Err e) => (s2, Err e)
                | (s2, Ok _) =>
                    match restore_profiles data s2 with
                    | (s3, Err e) => (s3, Err e)
                    | (s3, Ok _) => (emit_changed s3, Ok ())
                    end
                end
            end
        end
  end.

(** [restoreBackup(id)]: automatic backups are stopped for the restore
    and started again, without an initial backup, in [finally]. *)
Definition restoreBackup (id : string) (now : Z) (s : bk_state) : bk_state * result string unit :=
  match find_backup id (b_backups s) with
  | None => (s, Err "Backup not found")
  | Some b =>
      let was := bc_enabled (b_config s) in
      let s0 := if was then stopAutomaticBackups s else s in
      let '(s1, r) := restore_body b now s0 in
      let s2 := if was && bool_decide (b_timer s1 = None) then startAutomaticBackups true now s1 else s1 in
      (s2, r)
  end.

(** ** Export and import *)

(** [exportBackup(id, filePath)]: copy the backup's file. *)
Definition exportBackup (id filePath : string) (s : bk_state) : bk_state * result string unit :=
  match find_backup id (b_backups s) with
  | None => (s, Err "Backup not found")
  | Some b =>
      if negb ipc then (s, Err "IPC not available, cannot export backup") else
      match b_files s !! bk_path b with
      | None => (s, Err "ENOENT")
      | Some text => (set_files (<[filePath := text]> (b_files s)) s, Ok ())
      end
  end.

(** [backupData.timestamp ? new Date(backupData.timestamp) : new Date()]. *)
Definition backup_time (now : Z) (data : json) : option Z :=
  match jget data "timestamp" with
  | Some v => if js_truthy v then date_of v else Some now
  | None => Some now
  end.

(** [importBackup(filePath)]: the file is parsed, described and copied
    into the backup directory. *)
Definition importBackup (filePath : string) (now : Z) (s : bk_state) : bk_state * result string backup :=
  if negb ipc then (s, Err "IPC not available, cannot import backup") else
  match b_files s !! filePath with
  | None => (s, Err "ENOENT")
  | Some text =>
      match json_parse text with
      | None => (s, Err "SyntaxError")
      | Some JNull => (s, Err "TypeError")
      | Some data =>
          let '(uuid, s1) := fresh s in
          match backup_time now data with
          | None => (s1, Err "RangeError: Invalid time value")
          | Some t =>
              let path := b_dir s1 +:+ "/" +:+ backup_filename "imported-" (iso_of t) uuid in
              let appv := match jget data "metadata" with
                          | Some JNull | None => None
                          | Some m => jget m "appVersion"
                          end in
              let b := Backup uuid t (byte_length text) path (sha256_hex text)
                         (js_or (jget data "version") (JStr "1.0")) (js_or (jget data "deviceId") (JStr (b_deviceId s1)))
                         (data_items data) appv in
              let s2 := set_files (<[path := text]> (b_files s1)) s1 in
              (saveBackupIndex true (set_backups (b_backups s2 ++ [b]) s2), Ok b)
          end
      end
  end.

(** ** Start-up *)

(** [ensureBackupDirectory()]: the directory the main process reports
    for [backup:get-directory-path], when it is a nonempty string; the
    [backup:ensure-directory] call creates it on disk. *)
Definition ensureBackupDirectory (main_dir : option string) (s : bk_state) : bk_state :=
  if ipc then
    match main_dir with Some d => if str_truthy d then set_dir d s else s | None => s end
  else s.

(** [loadBackupIndex()]: the index the main process keeps for the
    directory, when there is one. *)
Definition loadBackupIndex (s : bk_state) : bk_state :=
  if ipc then match b_index s !! b_dir s with Some l => set_backups l s | None => s end else s.

(** What the constructor does once the configuration is ready. *)
Definition bk_ready (main_dir : option string) (now : Z) (s : bk_state) : bk_state :=
  let s1 := loadBackupIndex (ensureBackupDirectory main_dir (loadBackupConfig s)) in
  if bc_enabled (b_config s1) then startAutomaticBackups false now s1 else s1.


(** ** Lemmas: the sorted list of backups *)

Abbreviation newer_or_same a c := (bk_timestamp c ≤ bk_timestamp a).

Lemma insert_desc_perm b l : insert_desc b l ≡ₚ b :: l.
Proof.
  induction l as [|c l IH]; simpl; [done|]. case_bool_decide; [done|].
  rewrite IH. apply Permutation_swap.
Qed.

Lemma sort_desc_perm l : sort_desc l ≡ₚ l.
Proof. induction l as [|b l IH]; simpl; [done|]. by rewrite insert_desc_perm, IH. Qed.

Lemma insert_desc_sorted b l :
  Sorted (λ a c, newer_or_same a c) l → Sorted (λ a c, newer_or_same a c) (insert_desc b l).
Proof.
  induction 1 as [|c l Hl IH Hhd]; simpl; [repeat constructor|].
  case_bool_decide as Hc.
  - constructor; [by constructor|]. by constructor.
  - constructor; [done|]. destruct l as [|d l]; simpl; [constructor; lia|].
    inversion Hhd; subst. case_bool_decide; constructor; lia.
Qed.

Lemma sort_desc_sorted l : Sorted (λ a c, newer_or_same a c) (sort_desc l).
Proof. induction l; simpl; [constructor|]. by apply insert_desc_sorted. Qed.

(** Backups with the same timestamp keep their order. *)
Lemma insert_desc_stable t b l :
  filter (λ x, bk_timestamp x = t) (insert_desc b l) = filter (λ x, bk_timestamp x = t) (b :: l) ∨
  (bk_timestamp b ≠ t ∧ filter (λ x, bk_timestamp x = t) (insert_desc b l) = filter (λ x, bk_timestamp x = t) l).
Proof.
  induction l as [|c l IH]; simpl; [by left|]. case_bool_decide as Hc; [by left|].
  destruct (decide (bk_timestamp b = t)) as [Hb|Hb].
  - left. rewrite filter_cons_False by lia. rewrite (filter_cons_True _ b) by done.
    destruct IH as [IH|[? _]]; [|done]. rewrite IH, filter_cons_True by done.
    by rewrite filter_cons_False by lia.
  - right. split; [done|]. rewrite !filter_cons. case_decide; [|destruct IH as [IH|[_ IH]]].
    + destruct IH as [IH|[_ IH]]; [rewrite IH, filter_cons_False by done|]; by f_equal.
    + by rewrite IH, filter_cons_False.
    + done.
Qed.

Lemma sort_desc_stable t l :
  filter (λ x, bk_timestamp x = t) (sort_desc l) = filter (λ x, bk_timestamp x = t) l.
Proof.
  induction l as [|b l IH]; simpl; [done|].
  destruct (insert_desc_stable t b (sort_desc l)) as [H|[Hb H]]; rewrite H; [|rewrite filter_cons_False by done];
    rewrite ?filter_cons; [case_decide|]; by rewrite IH.
Qed.

Lemma sorted_desc_head h l :
  Sorted (λ a c, newer_or_same a c) (h :: l) → ∀ x, x ∈ h :: l → bk_timestamp x ≤ bk_timestamp h.
Proof.
  intros Hs%Sorted_StronglySorted x Hx; [|intros ???; lia].
  apply StronglySorted_inv in Hs as [_ Hall]. apply elem_of_cons in Hx as [->|Hx]; [lia|].
  rewrite Forall_forall in Hall. by apply Hall.
Qed.

Lemma sorted_desc_last l y :
  Sorted (λ a c, newer_or_same a c) l → last l = Some y → ∀ x, x ∈ l → bk_timestamp y ≤ bk_timestamp x.
Proof.
  intros Hs%Sorted_StronglySorted; [|intros ???; lia]. induction Hs as [|a l Hl IH Hall]; [done|].
  intros Hy x Hx. destruct l as [|c l].
  - simpl in Hy. injection Hy as ->. apply list_elem_of_singleton in Hx as ->. lia.
  - assert (bk_timestamp y ≤ bk_timestamp a).
    { rewrite Forall_forall in Hall. apply Hall, last_Some_elem_of. by rewrite <-Hy. }
    apply elem_of_cons in Hx as [->|Hx]; [done|]. by apply IH.
Qed.

Lemma foldl_size_sum l a : foldl (λ sum b, sum + bk_size b) a l = a + foldr Z.add 0 (bk_size <$> l).
Proof. revert a. induction l as [|b l IH]; intros a; [simpl; lia|]. rewrite fmap_cons. simpl. rewrite IH. lia. Qed.

(** [getBackups()] lists the backups newest first: a permutation of the
    index, sorted by timestamp, and backups with the same timestamp in
    index order. *)
Theorem getBackups_spec s :
  getBackups s ≡ₚ b_backups s ∧ Sorted (λ a c, newer_or_same a c) (getBackups s) ∧
  ∀ t, filter (λ x, bk_timestamp x = t) (getBackups s) = filter (λ x, bk_timestamp x = t) (b_backups s).
Proof. split_and!; [apply sort_desc_perm|apply sort_desc_sorted|intros t; apply sort_desc_stable]. Qed.

(** [getBackupStats()]: the number of backups, the sum of their sizes,
    and the smallest and largest timestamp; zeros and [null] without
    backups. *)
Theorem backup_stats_spec s :
  (b_backups s = [] → getBackupStats s = BackupStats 0 0 None None) ∧
  (b_backups s ≠ [] → ∃ oldest newest,
     getBackupStats s = BackupStats (length (b_backups s)) (foldr Z.add 0 (bk_size <$> b_backups s))
                          (Some oldest) (Some newest) ∧
     (∃ x, x ∈ b_backups s ∧ bk_timestamp x = newest) ∧ (∀ x, x ∈ b_backups s → bk_timestamp x ≤ newest) ∧
     (∃ x, x ∈ b_backups s ∧ bk_timestamp x = oldest) ∧ (∀ x, x ∈ b_backups s → oldest ≤ bk_timestamp x)).
Proof.
  unfold getBackupStats. split; [by intros ->|intros Hne].
  pose proof (sort_desc_perm (b_backups s)) as Hp. pose proof (sort_desc_sorted (b_backups s)) as Hs.
  destruct (sort_desc (b_backups s)) as [|h r] eqn:E.
  { apply Permutation_nil_l in Hp. congruence. }
  destruct (last (h :: r)) as [y|] eqn:Ey; [|by apply last_None in Ey].
  exists (bk_timestamp y), (bk_timestamp h). unfold getBackups. rewrite E, Ey.
  split; [destruct (b_backups s) as [|b0 l0]; [done|]; by rewrite foldl_size_sum, Z.add_0_l|].
  split_and!.
  - exists h. split; [|done]. rewrite <-Hp. apply list_elem_of_here.
  - intros x Hx. apply (sorted_desc_head h r Hs). by rewrite Hp.
  - exists y. split; [|done]. rewrite <-Hp. by apply last_Some_elem_of.
  - intros x Hx. apply (sorted_desc_last (h :: r) y Hs Ey). by rewrite Hp.
Qed.

(** ** Lemmas: deleting backups *)

Lemma find_backup_None id l : find_backup id l = None ↔ Forall (λ x, bk_id x ≠ id) l.
Proof.
  unfold find_backup. rewrite fmap_None. apply list_find_None.
Qed.

Lemma find_backup_unique l b :
  NoDup (bk_id <$> l) → b ∈ l → find_backup (bk_id b) l = Some b.
Proof.
  intros Hnd Hb. apply list_elem_of_lookup in Hb as [i Hi]. unfold find_backup.
  assert (list_find (λ x, bk_id x = bk_id b) l = Some (i, b)) as -> ; [|done].
  apply list_find_Some. split_and!; [done|done|].
  intros j y Hj Hy Hyid. assert (i = j) as ->; [|lia].
  apply (NoDup_lookup _ _ _ (bk_id b) Hnd); rewrite list_lookup_fmap; [rewrite Hi|rewrite Hj]; simpl; congruence.
Qed.

Lemma find_backup_Some id l b : find_backup id l = Some b → b ∈ l ∧ bk_id b = id.
Proof.
  unfold find_backup. destruct (list_find _ l) as [[i x]|] eqn:E; [|done]. intros [= <-].
  apply list_find_Some in E as (Hi & Hid & _). split; [by eapply list_elem_of_lookup_2|done].
Qed.

Lemma delete_backups id s : b_backups (deleteBackup id s).1 = filter (λ x, bk_id x ≠ id) (b_backups s).
Proof.
  unfold deleteBackup. destruct (find_backup id (b_backups s)) as [b|] eqn:E.
  - unfold saveBackupIndex. simpl. destruct ipc; simpl; by destruct true.
  - simpl. symmetry. apply filter_all. by apply find_backup_None.
Qed.

Lemma delete_files id s b : ipc = true → find_backup id (b_backups s) = Some b →
  b_files (deleteBackup id s).1 = delete (bk_path b) (b_files s).
Proof. intros Hipc E. unfold deleteBackup, saveBackupIndex. rewrite E, Hipc. reflexivity. Qed.

(** ** Lemmas: what the operations leave alone *)

(** The settings, the timer, the directory and the device id. *)
Definition bk_frame (s s' : bk_state) : Prop :=
  b_config s' = b_config s ∧ b_timer s' = b_timer s ∧ b_dir s' = b_dir s ∧ b_deviceId s' = b_deviceId s.

Lemma bk_frame_refl s : bk_frame s s.
Proof. done. Qed.

Lemma bk_frame_trans s1 s2 s3 : bk_frame s1 s2 → bk_frame s2 s3 → bk_frame s1 s3.
Proof. intros (?&?&?&?) (?&?&?&?). repeat split; congruence. Qed.

Create HintDb bk.
#[local] Hint Resolve bk_frame_refl : bk.

Lemma saveBackupIndex_frame e s : bk_frame s (saveBackupIndex e s).
Proof. unfold saveBackupIndex. by destruct ipc, e. Qed.

Lemma saveBackupIndex_same e s :
  let s' := saveBackupIndex e s in
  b_ws s' = b_ws s ∧ b_backups s' = b_backups s ∧ b_files s' = b_files s ∧ b_seed s' = b_seed s.
Proof. unfold saveBackupIndex. by destruct ipc, e. Qed.

(** What deleting a backup leaves alone. *)
Lemma delete_frame id s :
  let s' := (deleteBackup id s).1 in bk_frame s s' ∧ b_ws s' = b_ws s ∧ b_seed s' = b_seed s.
Proof. unfold deleteBackup, saveBackupIndex. destruct (find_backup _ _); [destruct ipc|]; done. Qed.

Lemma fold_delete_backups ol s :
  b_backups (foldl (λ s b, (deleteBackup (bk_id b) s).1) s ol) =
  filter (λ x, bk_id x ∉ bk_id <$> ol) (b_backups s).
Proof.
  revert s. induction ol as [|b ol IH]; intros s; simpl.
  - symmetry. apply filter_all, Forall_forall. intros x _. apply not_elem_of_nil.
  - rewrite IH, delete_backups, list_filter_filter. apply list_filter_ext_in. intros x _.
    rewrite elem_of_cons. tauto.
Qed.

Lemma fold_delete_files ol s :
  ipc = true → NoDup (bk_id <$> b_backups s) → NoDup (bk_id <$> ol) → (∀ b, b ∈ ol → b ∈ b_backups s) →
  b_files (foldl (λ s b, (deleteBackup (bk_id b) s).1) s ol) = foldl (λ f b, delete (bk_path b) f) (b_files s) ol.
Proof.
  intros Hipc. revert s. induction ol as [|b ol IH]; intros s Hnd Hnd' Hin; simpl; [done|].
  apply NoDup_cons in Hnd' as [Hb Hnd'].
  rewrite IH; [rewrite (delete_files _ _ b Hipc); [done|]| | |].
  - apply find_backup_unique; [done|]. apply Hin, list_elem_of_here.
  - rewrite delete_backups. eapply sublist_NoDup; [exact Hnd|]. apply sublist_fmap, sublist_filter.
  - done.
  - intros x Hx. rewrite delete_backups. apply list_elem_of_filter. split; [|apply Hin; by apply elem_of_cons; right].
    intros Hid. apply Hb. rewrite <-Hid. by apply list_elem_of_fmap_2.
Qed.

Lemma fold_delete_frame ol s :
  let s' := foldl (λ s b, (deleteBackup (bk_id b) s).1) s ol in bk_frame s s' ∧ b_ws s' = b_ws s ∧ b_seed s' = b_seed s.
Proof.
  revert s. induction ol as [|b ol IH]; intros s; simpl; [done|].
  destruct (IH ((deleteBackup (bk_id b) s).1)) as (Hf & -> & ->).
  destruct (delete_frame (bk_id b) s) as (Hf' & -> & ->). split_and!; [|done|done]. by eapply bk_frame_trans.
Qed.

Lemma cleanup_frame now s :
  let s' := cleanupOldBackups now s in bk_frame s s' ∧ b_ws s' = b_ws s ∧ b_seed s' = b_seed s.
Proof. unfold cleanupOldBackups. case_bool_decide; [done|]. apply fold_delete_frame. Qed.

Lemma foldl_delete_lookup (ol : list backup) (f : gmap string string) p :
  foldl (λ f b, delete (bk_path b) f) f ol !! p = if decide (p ∈ bk_path <$> ol) then None else f !! p.
Proof.
  revert f. induction ol as [|b ol IH]; intros f; simpl; [done|]. rewrite IH.
  destruct (decide (p ∈ bk_path <$> ol)), (decide (p = bk_path b)) as [->|];
    rewrite ?decide_True, ?decide_False by (rewrite ?elem_of_cons; tauto); try done.
  - by rewrite lookup_delete_eq.
  - by rewrite lookup_delete_ne.
Qed.

Lemma backup_ids_inj l x y :
  NoDup (bk_id <$> l) → x ∈ l → y ∈ l → bk_id x = bk_id y → x = y.
Proof.
  intros Hnd Hx Hy Hid. apply list_elem_of_lookup in Hx as [i Hi], Hy as [j Hj].
  assert (i = j) as -> by (apply (NoDup_lookup _ _ _ (bk_id x) Hnd); rewrite list_lookup_fmap;
                           [rewrite Hi|rewrite Hj]; simpl; congruence).
  congruence.
Qed.

(** [cleanupOldBackups()], with ids pairwise distinct: the index keeps
    exactly the backups not older than [retention] days, the files of
    the others are deleted and no other file is touched. *)
Lemma cleanup_spec now s :
  ipc = true → NoDup (bk_id <$> b_backups s) → 0 < bc_retention (b_config s) →
  let s' := cleanupOldBackups now s in
  b_backups s' = filter (λ b, cutoff now s ≤ bk_timestamp b) (b_backups s) ∧
  (∀ b, b ∈ b_backups s → bk_timestamp b < cutoff now s → b_files s' !! bk_path b = None) ∧
  (∀ p, (∀ b, b ∈ b_backups s → bk_timestamp b < cutoff now s → bk_path b ≠ p) → b_files s' !! p = b_files s !! p).
Proof.
  intros Hipc Hnd Hr s'. unfold s', cleanupOldBackups. rewrite bool_decide_false by lia.
  set (old := filter (λ b, bk_timestamp b < cutoff now s) (b_backups s)).
  assert (NoDup (bk_id <$> old)) as Hnd'.
  { eapply sublist_NoDup; [exact Hnd|]. apply sublist_fmap, sublist_filter. }
  assert (∀ b, b ∈ old → b ∈ b_backups s) as Hin by (intros b Hb; by apply list_elem_of_filter in Hb as [_ ?]).
  split_and!.
  - rewrite fold_delete_backups. apply list_filter_ext_in. intros x Hx. split.
    + intros Hn. apply Z.nlt_ge. intros Hlt. apply Hn, list_elem_of_fmap_2, list_elem_of_filter. done.
    + intros Hge (y & Hid & Hy)%list_elem_of_fmap. apply list_elem_of_filter in Hy as [Hlt Hy].
      rewrite (backup_ids_inj _ x y Hnd Hx Hy Hid) in Hge. lia.
  - intros b Hb Hlt. rewrite fold_delete_files, foldl_delete_lookup by done.
    rewrite decide_True; [done|]. apply list_elem_of_fmap_2, list_elem_of_filter. done.
  - intros p Hp. rewrite fold_delete_files, foldl_delete_lookup by done. rewrite decide_False; [done|]. intros (b & -> & Hb)%list_elem_of_fmap.
    apply list_elem_of_filter in Hb as [Hlt Hb]. by apply (Hp b).
Qed.

(** ** Lemmas: the timer *)

(** The timer the settings ask for: running with the period in
    milliseconds exactly when automatic backups are enabled. *)
Definition timer_matches (s : bk_state) : Prop :=
  b_timer s = if bc_enabled (b_config s) then Some (bc_interval (b_config s) * 60 * 1000) else None.

Lemma set_timer_same s : set_timer (b_timer s) s = s.
Proof. by destruct s. Qed.

(** [restoreBackup] refuses an id the index does not have, and a backup
    whose file does not have the recorded checksum; either way nothing
    changes. *)
Theorem restore_refuses id now s :
  timer_matches s →
  (find_backup id (b_backups s) = None → restoreBackup id now s = (s, Err "Backup not found")) ∧
  (∀ b text, find_backup id (b_backups s) = Some b → ipc = true → b_files s !! bk_path b = Some text →
     sha256_hex text ≠ bk_checksum b →
     restoreBackup id now s = (s, Err "Backup integrity check failed - backup may be corrupted")).
Proof.
  intros Ht. split; [unfold restoreBackup; by intros ->|]. intros b text Hb Hipc Hf Hsum.
  unfold restoreBackup. rewrite Hb. cbn zeta.
  assert (∀ s0, b_files s0 = b_files s → restore_body b now s0 =
            (s0, Err "Backup integrity check failed - backup may be corrupted")) as Hbody.
  { intros s0 Hs0. unfold restore_body. rewrite Hipc, Hs0, Hf. simpl. by rewrite bool_decide_true. }
  destruct (bc_enabled (b_config s)) eqn:He.
  - rewrite Hbody by done. simpl.
    unfold timer_matches, startAutomaticBackups, stopAutomaticBackups in *. simpl. rewrite He.
    rewrite He in Ht. rewrite <-Ht. by destruct s.
  - by rewrite Hbody.
Qed.

Lemma collect_frame now s :
  let s' := (collectBackupData now s).1 in
  bk_frame s s' ∧ (b_ws s' = b_ws s ∨ b_ws s' = ensureWorkspacesConfig (b_ws s)) ∧ b_seed s' = b_seed s.
Proof.
  unfold collectBackupData. rewrite getWorkspaces_eq. cbn zeta.
  destruct (bc_includeWorkspaces (b_config s)); repeat case_match; unfold bk_frame; simpl; split_and!; auto.
Qed.

Lemma create_frame silent now s :
  let s' := (createBackup silent now s).1 in
  bk_frame s s' ∧ (b_ws s' = b_ws s ∨ b_ws s' = ensureWorkspacesConfig (b_ws s)).
Proof.
  unfold createBackup, fresh. cbn zeta.
  match goal with |- context [collectBackupData now ?s0] =>
    destruct (collect_frame now s0) as (Hf & Hw & _); destruct (collectBackupData now s0) as [s1 [data|e]] end;
    simpl in *; [|done].
  destruct ipc; simpl; [|done].
  match goal with |- context [cleanupOldBackups now ?s3] => destruct (cleanup_frame now s3) as (Hf' & -> & _) end.
  split; [|by rewrite (proj1 (saveBackupIndex_same _ _))].
  eapply bk_frame_trans; [exact Hf|]. eapply bk_frame_trans; [|exact Hf'].
  eapply bk_frame_trans; [|apply saveBackupIndex_frame]. done.
Qed.

Lemma save_all_frame now l s : bk_frame s (save_all now l s).1.
Proof.
  revert s. induction l as [|ws l IH]; intros s; simpl; [done|].
  destruct ws; try done; unfold fresh; cbn zeta;
    match goal with |- context [saveWorkspace ?a ?b ?c ?d ?e ?f ?g] => destruct (saveWorkspace a b c d e f g) as [w1 []] end;
    simpl; try done; (eapply bk_frame_trans; [|apply IH]); done.
Qed.

Lemma restore_workspaces_frame now data s : bk_frame s (restore_workspaces now data s).1.
Proof.
  unfold restore_workspaces. rewrite getWorkspaces_eq. cbn zeta.
  repeat case_match; simplify_eq/=; try done.
  all: match goal with H : save_all ?n ?l ?s0 = _ |- _ =>
         pose proof (save_all_frame n l s0) as Hf; rewrite H in Hf end.
  all: simpl in *; eapply bk_frame_trans; [|exact Hf]; done.
Qed.

Lemma restore_profiles_frame data s : bk_frame s (restore_profiles data s).1.
Proof. unfold restore_profiles. by repeat case_match. Qed.

Lemma restore_body_frame b now s : bk_frame s (restore_body b now s).1.
Proof.
  unfold restore_body. destruct ipc; simpl; [|done].
  destruct (b_files s !! bk_path b); [|done]. case_bool_decide; [done|].
  destruct (json_parse _) as [data|]; [|done].
  destruct (create_frame true now s) as [Hc _]. set (s1 := (createBackup true now s).1) in *.
  destruct (st_store (b_ws s1)); [|done]. destruct data; try done.
  all: match goal with |- context [restore_workspaces ?n ?d ?t] =>
         destruct (restore_workspaces n d t) as [s2 r2] eqn:E2;
         pose proof (restore_workspaces_frame n d t) as H2; rewrite E2 in H2; simpl in H2 end.
  all: destruct r2; [|eapply bk_frame_trans; [exact Hc|exact H2]].
  all: match goal with |- context [restore_profiles ?d ?t] =>
         destruct (restore_profiles d t) as [s3 r3] eqn:E3;
         pose proof (restore_profiles_frame d t) as H3; rewrite E3 in H3; simpl in H3 end.
  all: destruct r3; simpl; do 2 (eapply bk_frame_trans; [eassumption|]); done.
Qed.

Lemma export_frame id p s : bk_frame s (exportBackup id p s).1.
Proof. unfold exportBackup. by repeat case_match. Qed.

Lemma import_frame p now s : bk_frame s (importBackup p now s).1.
Proof.
  unfold importBackup, fresh. destruct ipc; simpl; [|done].
  destruct (b_files s !! p) as [text|]; [|done]. destruct (json_parse text) as [data|]; [|done].
  destruct data; try done; cbn zeta;
    repeat match goal with |- context [match ?o with Some _ => _ | None => _ end] => destruct o end;
    cbn [fst]; try done; unfold bk_frame; destruct ipc; simpl; auto.
Qed.

Lemma delete_frame' id s : bk_frame s (deleteBackup id s).1.
Proof. apply delete_frame. Qed.

Lemma tick_frame now s : bk_frame s (backup_tick now s).
Proof. unfold backup_tick. case_match; [apply create_frame|done]. Qed.

Lemma frame_matches s s' : bk_frame s s' → timer_matches s → timer_matches s'.
Proof. intros (Hc & Ht & _) H. unfold timer_matches in *. by rewrite Hc, Ht. Qed.

Lemma start_matches skip now s : timer_matches (startAutomaticBackups skip now s).
Proof.
  unfold startAutomaticBackups, timer_matches. simpl. destruct (bc_enabled (b_config s)) eqn:He; simpl; [|by rewrite He].
  destruct skip; simpl; [by rewrite He|]. destruct (create_frame false now (stopAutomaticBackups s)) as [(Hc & _) _].
  rewrite Hc. simpl. by rewrite He.
Qed.

Lemma saveBackupConfig_frame s : bk_frame s (saveBackupConfig s).
Proof. unfold saveBackupConfig. by case_match. Qed.

(** ** The service as a transition system *)

(** One call of a public method of [BackupService], a tick of its
    timer, or a call of a [WorkspaceService] method, which shares the
    configuration store. *)
Inductive bk_step : bk_state → bk_state → Prop :=
| BkCreate silent now s : bk_step s (createBackup silent now s).1
| BkRestore id now s : bk_step s (restoreBackup id now s).1
| BkExport id p s : bk_step s (exportBackup id p s).1
| BkImport p now s : bk_step s (importBackup p now s).1
| BkDelete id s : bk_step s (deleteBackup id s).1
| BkEnable now s : bk_step s (enableAutomaticBackups now s)
| BkDisable s : bk_step s (disableAutomaticBackups s)
| BkUpdate u now s : bk_step s (updateBackupConfig u now s)
| BkTick now s : bk_step s (backup_tick now s)
| BkWorkspace w' s : ws_step (b_ws s) w' → bk_step s (set_ws w' s).

(** C20: Automatic backups run, with the configured period, exactly when they
    are enabled: from start-up on, after every method and every tick. *)
Theorem timer_invariant main_dir now s0 s :
  b_timer s0 = None → rtc bk_step (bk_ready main_dir now s0) s → timer_matches s.
Proof.
  intros H0 Hr. cut (timer_matches (bk_ready main_dir now s0)).
  { intros Hi. induction Hr as [|x y z Hs _ IH]; [done|]. apply IH. clear IH.
    destruct Hs as [silent now' s|id now' s| | | | | | | |]; try solve
      [eapply frame_matches; [|done]; first [apply create_frame|apply export_frame|apply import_frame
        |apply delete_frame'|apply tick_frame|done]].
    - unfold restoreBackup. destruct (find_backup id (b_backups s)) as [b|]; [|done]. cbn zeta.
      destruct (bc_enabled (b_config s)) eqn:He; simpl.
      + destruct (restore_body b now' (stopAutomaticBackups s)) as [s1 r] eqn:E.
        pose proof (restore_body_frame b now' (stopAutomaticBackups s)) as (Hc & Ht & _). rewrite E in Hc, Ht.
        simpl in *. rewrite Ht, bool_decide_true by done. apply start_matches.
      + destruct (restore_body b now' s) as [s1 r] eqn:E.
        pose proof (restore_body_frame b now' s) as Hf. rewrite E in Hf. simpl.
        by eapply frame_matches.
    - apply start_matches.
    - unfold disableAutomaticBackups, stopAutomaticBackups, timer_matches. simpl.
      destruct (saveBackupConfig_frame (set_config (with_enabled false (b_config s)) s)) as (-> & _). done.
    - unfold updateBackupConfig. case_match eqn:He; [apply start_matches|].
      unfold stopAutomaticBackups, timer_matches. simpl. by rewrite He. }
  unfold bk_ready. case_match eqn:He; [apply start_matches|]. unfold timer_matches. rewrite He.
  assert (b_timer (loadBackupIndex (ensureBackupDirectory main_dir (loadBackupConfig s0))) = b_timer s0) as ->
    by (unfold loadBackupIndex, ensureBackupDirectory, loadBackupConfig; by repeat case_match).
  done.
Qed.

(** ** The backup directory *)

(** [getBackupDirectory()]: for a configuration file [d/f], the backups
    go to [d/backups]. *)
Theorem backup_dir_beside_config d f :
  includes f "/" = false → getBackupDirectory (Some (d +:+ "/" +:+ f)) = d +:+ "/backups".
Proof.
  intros Hf. unfold getBackupDirectory.
  assert (str_truthy (d +:+ "/" +:+ f) = true) as -> by (destruct d; done).
  change ("/" +:+ f) with (String "/"%char f).
  rewrite split_on_app_sep, (split_on_none _ f Hf), removelast_last. f_equal. apply join_split.
Qed.

(** ** Lemmas: the backup file *)

Lemma json_clone_wf v : json_wf v = true → json_clone v = Some v.
Proof. apply json_roundtrip. Qed.

(** A stored workspace whose properties [JSON.stringify] prints and
    [JSON.parse] reads back. *)
Definition ws_full_wf (w : workspace) : bool :=
  ws_json_wf w && json_wf (ws_shared w) && default true (json_wf <$> ws_teamId w).

Lemma opt_field_keys k o : (opt_field k o).*1 `sublist_of` [k].
Proof. destruct o; simpl; [done|apply sublist_nil_l]. Qed.

Lemma opt_field_wf k o :
  default true (json_wf <$> o) = true → forallb (λ kv, json_wf kv.2) (opt_field k o) = true.
Proof. destruct o; simpl; [by rewrite andb_true_r|done]. Qed.

Lemma ws_to_json_wf w : ws_full_wf w = true → json_wf (ws_to_json iso_of w) = true.
Proof.
  unfold ws_full_wf, ws_json_wf. rewrite !andb_true_iff. intros [[[[[[[[Hn Hd] Ht] Hc] Hp] Hl] Hv] Hs] Htm].
  unfold ws_to_json. cbn [json_wf]. apply andb_true_iff. split.
  - apply bool_decide_eq_true_2. rewrite !fmap_app.
    apply (sublist_NoDup _ (["id"] ++ ["name"] ++ ["description"] ++ ["tabs"; "codeEditorFolders"; "profiles"] ++
             ["layout"] ++ ["shared"] ++ ["teamId"] ++ ["version"; "createdAt"; "updatedAt"] ++ ["tags"] ++ ["isTemplate"]));
      [vm_decide|].
    repeat apply sublist_app; first [apply opt_field_keys|reflexivity].
  - rewrite !forallb_app. simpl. rewrite !opt_field_wf; simpl; rewrite ?Ht, ?Hc, ?Hp, ?Hs, ?Hv; try done.
    + by destruct (ws_isTemplate w).
    + destruct (ws_tags w) as [ts|]; [|done]. simpl. by induction ts.
Qed.

(** The object [collectBackupData] builds, for a device, the store and
    the workspaces [getWorkspaces()] returns. *)
Definition backup_data (now : Z) (c : backup_config) (device : string) (cs : config_store) (wss : list workspace) : json :=
  JObj ([("version", JStr "1.0"); ("timestamp", JStr (iso_of now)); ("deviceId", JStr device);
         ("metadata", JObj [("appVersion", JStr app_version); ("platform", JStr platform)])] ++
        (if bc_includeConfig c then [("config", store_json cs)] else []) ++
        (if bc_includeWorkspaces c then [("workspaces", JArr (ws_to_json iso_of <$> wss))] else []) ++
        (if bc_includeProfiles c then [("profiles", JArr (default [] (cs_profiles cs)))] else [])).

(** The store's values that go into a backup print and parse back. *)
Definition store_wf (cs : config_store) : Prop :=
  json_wf (store_json cs) = true ∧ forallb json_wf (default [] (cs_profiles cs)) = true.

Lemma collect_ok now s cs : st_store (b_ws s) = Some cs → store_wf cs →
  collectBackupData now s =
  (if bc_includeWorkspaces (b_config s) then set_ws (ensureWorkspacesConfig (b_ws s)) s else s,
   Ok (backup_data now (b_config s) (b_deviceId s) cs (ws_list (b_ws s)))).
Proof.
  intros Hs [Hc Hp]. unfold collectBackupData, backup_data. rewrite Hs, getWorkspaces_eq. cbn zeta.
  rewrite !json_clone_wf by done.
  destruct (bc_includeConfig _), (bc_includeWorkspaces _), (bc_includeProfiles _); reflexivity.
Qed.

Lemma backup_data_wf now c device cs wss :
  store_wf cs → Forall (λ w, ws_full_wf w = true) wss → json_wf (backup_data now c device cs wss) = true.
Proof.
  intros [Hc Hp] Hw. unfold backup_data. cbn [json_wf]. apply andb_true_iff. split.
  - apply bool_decide_eq_true_2.
    destruct (bc_includeConfig c), (bc_includeWorkspaces c), (bc_includeProfiles c); vm_decide.
  - rewrite !forallb_app. apply andb_true_iff. split; [done|].
    repeat (apply andb_true_iff; split); [destruct (bc_includeConfig c)| destruct (bc_includeWorkspaces c)
      | destruct (bc_includeProfiles c)]; simpl; rewrite ?andb_true_r; try done.
    induction Hw as [|w wss Hw _ IH]; [done|]. rewrite fmap_cons. cbn [forallb].
    by rewrite ws_to_json_wf, IH.
Qed.

(** ** Lemmas: creating a backup *)

Lemma cleanup_keeps now s :
  ipc = true → NoDup (bk_id <$> b_backups s) →
  let s' := cleanupOldBackups now s in
  b_backups s' = filter (λ x, 0 < bc_retention (b_config s) → cutoff now s ≤ bk_timestamp x) (b_backups s) ∧
  ∀ p, (∀ b, b ∈ b_backups s → 0 < bc_retention (b_config s) → bk_timestamp b < cutoff now s → bk_path b ≠ p) →
    b_files s' !! p = b_files s !! p.
Proof.
  intros Hipc Hnd s'. unfold s'. destruct (decide (0 < bc_retention (b_config s))) as [Hr|Hr].
  - destruct (cleanup_spec now s Hipc Hnd Hr) as (H1 & _ & H3). split; [|intros p Hp; apply H3; eauto].
    rewrite H1. apply list_filter_ext_in. intros x _. tauto.
  - unfold cleanupOldBackups. rewrite bool_decide_true by lia. split; [|done].
    symmetry. apply filter_all, Forall_forall. intros x _ ?. lia.
Qed.

(** [createBackup] once [collectBackupData] has succeeded. *)
Lemma createBackup_eq silent now s s1 data :
  ipc = true → collectBackupData now (fresh s).2 = (s1, Ok data) →
  let uuid := uuidv4 (b_seed s) in
  let text := json_stringify true data in
  let path := b_dir s1 +:+ "/" +:+ backup_filename "backup-" (iso_of now) uuid in
  let b := Backup uuid now (byte_length text) path (sha256_hex text) (JStr "1.0") (JStr (b_deviceId s1))
             (data_items data) (Some (JStr app_version)) in
  createBackup silent now s =
  (cleanupOldBackups now (saveBackupIndex (negb silent)
     (set_backups (b_backups s1 ++ [b]) (set_files (<[path := text]> (b_files s1)) s1))), Ok b).
Proof.
  intros Hipc Hc. unfold createBackup.
  change (fresh s) with (uuidv4 (b_seed s), (fresh s).2). cbv iota. rewrite Hc, Hipc. reflexivity.
Qed.

Lemma create_ok silent now s cs :
  ipc = true → st_store (b_ws s) = Some cs → store_wf cs →
  let uuid := uuidv4 (b_seed s) in
  let text := json_stringify true (backup_data now (b_config s) (b_deviceId s) cs (ws_list (b_ws s))) in
  let path := b_dir s +:+ "/" +:+ backup_filename "backup-" (iso_of now) uuid in
  NoDup (bk_id <$> b_backups s) → uuid ∉ bk_id <$> b_backups s →
  ∃ s1 b, createBackup silent now s = (s1, Ok b) ∧
    bk_id b = uuid ∧ bk_timestamp b = now ∧ bk_path b = path ∧ bk_checksum b = sha256_hex text ∧
    bk_size b = byte_length text ∧ ((∀ x, x ∈ b_backups s → bk_path x ≠ path) → b_files s1 !! path = Some text) ∧
    b_backups s1 = filter (λ x, 0 < bc_retention (b_config s) → cutoff now s ≤ bk_timestamp x) (b_backups s ++ [b]) ∧
    NoDup (bk_id <$> b_backups s1) ∧ bk_frame s s1 ∧
    b_ws s1 = (if bc_includeWorkspaces (b_config s) then ensureWorkspacesConfig (b_ws s) else b_ws s).
Proof.
  intros Hipc Hs Hwf uuid text path Hnd Hfresh.
  pose proof (collect_ok now (fresh s).2 cs Hs Hwf) as Hcol. cbn [fresh snd b_ws b_config b_deviceId] in Hcol.
  set (s1 := if bc_includeWorkspaces (b_config s) then _ else _) in Hcol.
  assert (b_dir s1 = b_dir s ∧ b_deviceId s1 = b_deviceId s ∧ b_files s1 = b_files s ∧ b_backups s1 = b_backups s ∧
          b_config s1 = b_config s ∧ b_timer s1 = b_timer s ∧
          b_ws s1 = (if bc_includeWorkspaces (b_config s) then ensureWorkspacesConfig (b_ws s) else b_ws s))
    as (Hd & Hdev & Hf & Hb & Hc & Ht & Hw) by (unfold s1; by case_match).
  rewrite (createBackup_eq silent now s s1 _ Hipc Hcol). cbv zeta. rewrite Hd, Hdev, Hf, Hb. fold uuid text path.
  set (b := Backup _ _ _ _ _ _ _ _ _). do 2 eexists. split; [reflexivity|].
  set (s2 := set_backups (b_backups s ++ [b]) (set_files (<[path:=text]> (b_files s)) s1)).
  destruct (saveBackupIndex_same (negb silent) s2) as (Hw3 & Hb3 & Hf3 & _).
  pose proof (saveBackupIndex_frame (negb silent) s2) as (Hc3 & Ht3 & Hd3 & Hdev3).
  set (s3 := saveBackupIndex (negb silent) s2) in *. unfold s2 in *. simpl in Hb3, Hf3, Hc3, Ht3, Hd3, Hdev3, Hw3.
  assert (NoDup (bk_id <$> b_backups s3)) as Hnd3.
  { rewrite Hb3, fmap_app. apply NoDup_app. split_and!; [done| |apply NoDup_singleton].
    intros x Hx ->%list_elem_of_singleton. by apply Hfresh. }
  destruct (cleanup_keeps now s3 Hipc Hnd3) as [Hk1 Hk2].
  destruct (cleanup_frame now s3) as (Hfr & Hw4 & _).
  unfold cutoff in Hk1, Hk2. rewrite Hc3, Hc in Hk1, Hk2.
  split_and!; try reflexivity.
  - intros Hpath. rewrite Hk2, Hf3; [by rewrite lookup_insert_eq|]. intros x Hx Hr Hlt. rewrite Hb3 in Hx.
    apply elem_of_app in Hx as [Hx | ->%list_elem_of_singleton]; [by apply Hpath|].
    simpl in Hlt. lia.
  - by rewrite Hk1, Hb3.
  - rewrite Hk1. eapply sublist_NoDup; [exact Hnd3|]. apply sublist_fmap, sublist_filter.
  - eapply bk_frame_trans; [|exact Hfr]. unfold bk_frame. by rewrite Hc3, Ht3, Hd3, Hdev3, Hc, Ht, Hd, Hdev.
  - by rewrite Hw4, Hw3.
Qed.


Lemma create_found now r c l l' b :
  bk_timestamp b = now → NoDup (bk_id <$> l') →
  l' = filter (λ x, 0 < r → now - r * c ≤ bk_timestamp x) (l ++ [b]) → 0 ≤ c → find_backup (bk_id b) l' = Some b.
Proof.
  intros Ht Hnd -> Hc. apply find_backup_unique; [done|]. apply list_elem_of_filter. split.
  - intros Hr. rewrite Ht. nia.
  - apply elem_of_app. right. by apply list_elem_of_singleton.
Qed.

(** ** Creating, deleting, importing *)

(** C18: a successful [createBackup] lists the new backup, so that
    [getBackup] finds it; its file has the recorded checksum, which is
    what [restoreBackup] checks, and parses back to the data collected
    from the store; the index keeps exactly the backups within the
    retention period, the new one included. *)
Theorem create_backup_spec silent now s cs :
  ipc = true → st_store (b_ws s) = Some cs → store_wf cs → Forall (λ w, ws_full_wf w = true) (ws_list (b_ws s)) →
  NoDup (bk_id <$> b_backups s) → uuidv4 (b_seed s) ∉ bk_id <$> b_backups s →
  (∀ x, x ∈ b_backups s → bk_path x ≠ b_dir s +:+ "/" +:+ backup_filename "backup-" (iso_of now) (uuidv4 (b_seed s))) →
  ∃ s' b text, createBackup silent now s = (s', Ok b) ∧ getBackup (bk_id b) s' = Some b ∧ bk_timestamp b = now ∧
    b_files s' !! bk_path b = Some text ∧ sha256_hex text = bk_checksum b ∧
    json_parse text = Some (backup_data now (b_config s) (b_deviceId s) cs (ws_list (b_ws s))) ∧
    b_backups s' = filter (λ x, 0 < bc_retention (b_config s) → cutoff now s ≤ bk_timestamp x) (b_backups s ++ [b]).
Proof.
  intros Hipc Hs Hwf Hws Hnd Hfresh Hpath.
  pose proof (create_ok silent now s cs Hipc Hs Hwf) as Hok. cbv zeta in Hok.
  destruct (Hok Hnd Hfresh) as (s' & b & Hc & Hid & Ht & Hp & Hsum & _ & Hf & Hb & Hnd' & _). specialize (Hf Hpath).
  eexists s', b, _. split_and!; [exact Hc| | exact Ht | rewrite Hp; exact Hf | by rewrite Hsum
    | apply json_roundtrip, backup_data_wf; done | exact Hb].
  unfold getBackup. apply (create_found now (bc_retention (b_config s)) 86400000 (b_backups s)); [done|done|exact Hb|lia].
Qed.

(** [deleteBackup(id)] rejects an id the index does not have and
    changes nothing; otherwise it deletes the backup's file, drops it
    from the index, so that [getBackup] no longer finds it, persists the
    index and emits [backupsChanged$]. *)
Theorem delete_backup_spec id s :
  (getBackup id s = None → deleteBackup id s = (s, Err "Backup not found")) ∧
  (∀ b, getBackup id s = Some b → ipc = true →
     let s' := (deleteBackup id s).1 in
     (deleteBackup id s).2 = Ok () ∧ getBackup id s' = None ∧
     b_backups s' = filter (λ x, bk_id x ≠ id) (b_backups s) ∧ b_files s' = delete (bk_path b) (b_files s) ∧
     b_index s' !! b_dir s = Some (b_backups s') ∧ b_changed s' = S (b_changed s)).
Proof.
  unfold getBackup. split; [unfold deleteBackup; by intros ->|]. intros b Hb Hipc.
  split_and!; [unfold deleteBackup; by rewrite Hb| | apply delete_backups | by apply delete_files | |].
  - rewrite delete_backups. apply find_backup_None, Forall_forall.
    by intros x [? _]%list_elem_of_filter.
  - unfold deleteBackup, saveBackupIndex. rewrite Hb, Hipc. simpl. by rewrite lookup_insert_eq.
  - unfold deleteBackup, saveBackupIndex. rewrite Hb, Hipc. done.
Qed.

(** a backup exported to a file and imported back is a new entry of
    the index with the same checksum, size and items, a copy of the file
    in the backup directory, and the timestamp the file records. *)
Theorem export_import_backup id p now s b text data t :
  ipc = true → getBackup id s = Some b → b_files s !! bk_path b = Some text → sha256_hex text = bk_checksum b →
  json_parse text = Some data → data ≠ JNull → backup_time now data = Some t →
  let s1 := set_files (<[p := text]> (b_files s)) s in
  ∃ s2 b', exportBackup id p s = (s1, Ok ()) ∧ importBackup p now s1 = (s2, Ok b') ∧
    bk_checksum b' = bk_checksum b ∧ bk_size b' = byte_length text ∧ bk_timestamp b' = t ∧
    md_items b' = data_items data ∧ b_files s2 !! bk_path b' = Some text ∧ b_backups s2 = b_backups s ++ [b'].
Proof.
  unfold getBackup. intros Hipc Hb Hf Hsum Hp Hnull Ht.
  unfold exportBackup, importBackup. rewrite Hb, Hipc, Hf. cbn.
  rewrite lookup_insert_eq, Hp. cbn iota.
  destruct data; try done; unfold fresh; cbn zeta; rewrite Ht;
    do 2 eexists; split_and!; try reflexivity; unfold saveBackupIndex; rewrite ?Hipc; simpl;
    by rewrite ?lookup_insert_eq.
Qed.

Lemma config_of_stored c :
  config_of_store (StoredBackup (Some (bc_enabled c)) (Some (bc_interval c)) (Some (bc_retention c))
    (Some (bc_includeWorkspaces c)) (Some (bc_includeConfig c)) (Some (bc_includeProfiles c))) = c.
Proof. by destruct c. Qed.

Lemma ensure_backup w : cs_backup <$> st_store (ensureWorkspacesConfig w) = cs_backup <$> st_store w.
Proof. unfold ensureWorkspacesConfig. destruct (st_store w) as [cs|] eqn:E; [|by rewrite E]. by destruct (cs_workspaces cs); simpl; rewrite ?E. Qed.

Lemma create_store silent now s :
  cs_backup <$> st_store (b_ws (createBackup silent now s).1) = cs_backup <$> st_store (b_ws s).
Proof. destruct (create_frame silent now s) as [_ [-> | ->]]; [done|apply ensure_backup]. Qed.

Lemma start_store skip now s :
  let s' := startAutomaticBackups skip now s in
  cs_backup <$> st_store (b_ws s') = cs_backup <$> st_store (b_ws s) ∧ b_config s' = b_config s ∧
  b_timer s' = if bc_enabled (b_config s) then Some (bc_interval (b_config s) * 60 * 1000) else None.
Proof.
  unfold startAutomaticBackups, stopAutomaticBackups. simpl. destruct (bc_enabled (b_config s)) eqn:He; [|done].
  destruct skip; simpl; [done|]. destruct (create_frame false now (set_timer None s)) as [(Hc & _) _].
  rewrite create_store, Hc. done.
Qed.

(** [updateBackupConfig(config)] takes the given settings over the
    current ones, writes them into the configuration store, so that
    [loadBackupConfig()] reads them back, and runs the timer exactly
    when the result is enabled. *)
Theorem update_config_persists u now s cs :
  st_store (b_ws s) = Some cs →
  let s' := updateBackupConfig u now s in
  b_config s' = merge_config (b_config s) u ∧ b_config (loadBackupConfig s') = merge_config (b_config s) u ∧
  b_timer s' = if bc_enabled (merge_config (b_config s) u)
               then Some (bc_interval (merge_config (b_config s) u) * 60 * 1000) else None.
Proof.
  intros Hs s'. unfold s', updateBackupConfig. set (m := merge_config (b_config s) u).
  set (s1 := saveBackupConfig (set_config m s)).
  assert (b_config s1 = m ∧ cs_backup <$> st_store (b_ws s1) =
     Some (StoredBackup (Some (bc_enabled m)) (Some (bc_interval m)) (Some (bc_retention m))
             (Some (bc_includeWorkspaces m)) (Some (bc_includeConfig m)) (Some (bc_includeProfiles m)))) as [Hc Hb]
    by (unfold s1, saveBackupConfig; simpl; by rewrite Hs).
  assert (∀ s2, cs_backup <$> st_store (b_ws s2) = cs_backup <$> st_store (b_ws s1) → b_config s2 = m →
            b_config (loadBackupConfig s2) = m) as Hload.
  { intros s2 H2 Hc2. unfold loadBackupConfig. rewrite Hb in H2.
    destruct (st_store (b_ws s2)); simplify_eq/=. rewrite H2. exact (config_of_stored (merge_config (b_config s) u)). }
  rewrite Hc. destruct (bc_enabled m) eqn:He.
  - destruct (start_store false now s1) as (H1 & H2 & H3). rewrite H3, Hc, He. split_and!; [congruence|apply Hload; congruence|done].
  - unfold stopAutomaticBackups. split_and!; [done|apply Hload; done|done].
Qed.


(** ** Lemmas: restoring *)

Lemma ws_to_json_get w :
  let j := ws_to_json iso_of w in
  jget j "name" = ws_name w ∧ jget j "description" = ws_description w ∧
  jget j "shared" = Some (ws_shared w) ∧ jget j "teamId" = ws_teamId w.
Proof.
  unfold ws_to_json. cbn [jget]. rewrite !assoc_get_app.
  destruct (ws_name w), (ws_description w), (ws_layout w), (ws_teamId w), (ws_tags w), (ws_isTemplate w);
    vm_compute; repeat split.
Qed.

Lemma ws_list_config_save w : ws_list (config_save w) = ws_list w.
Proof. destruct w as [[cs|] sv tb cl]; [|done]. by destruct cs as [[l|] ps b]. Qed.

Lemma delete_all_spec l w : is_Some (st_store w) → ws_list w = l →
  ∃ w', delete_all (ws_id <$> l) w = (w', Ok ()) ∧ ws_list w' = [] ∧ st_tabs w' = st_tabs w ∧
    is_Some (st_store w') ∧ stored_profiles w' = stored_profiles w.
Proof.
  revert w. induction l as [|x l IH]; intros w Hs Hl; [by exists w|].
  destruct (delete_head x l w Hs Hl) as (w1 & Hd & Hl1 & Ht1 & Hs1 & Hp1).
  destruct (IH w1 Hs1 Hl1) as (w' & Hd' & ? & ? & ? & ?).
  exists w'. rewrite fmap_cons. cbn [delete_all]. rewrite Hd. cbv iota beta. split_and!; congruence.
Qed.


(** The workspace [restoreBackup] saves for an entry [j] of the file,
    with the tabs open at the time. *)
Definition restored_from (tabs : list app_tab) (j : json) (w : workspace) : Prop :=
  ws_name w = jget j "name" ∧ ws_description w = jget j "description" ∧
  ws_shared w = js_or (jget j "shared") (JBool false) ∧ ws_teamId w = jget j "teamId" ∧
  ws_tabs w = JArr (capture_tokens tabs).

Lemma save_all_spec now l s : is_Some (st_store (b_ws s)) → Forall (λ j, j ≠ JNull) l →
  ∃ s' ws, save_all now l s = (s', Ok ()) ∧ ws_list (b_ws s') = ws_list (b_ws s) ++ ws ∧
    Forall2 (restored_from (st_tabs (b_ws s))) l ws ∧
    st_tabs (b_ws s') = st_tabs (b_ws s) ∧ is_Some (st_store (b_ws s')) ∧
    stored_profiles (b_ws s') = stored_profiles (b_ws s) ∧ bk_frame s s' ∧ b_backups s' = b_backups s.
Proof.
  revert s. induction l as [|j l IH]; intros s Hs Hl.
  { exists s, []. rewrite app_nil_r. split_and!; done. }
  apply Forall_cons in Hl as [Hj Hl].
  destruct (save_stored (jget j "name") (jget j "description") (js_or (jget j "shared") (JBool false))
              (jget j "teamId") (uuidv4 (b_seed s)) now (b_ws s) Hs)
    as (w1 & w & Hsv & Hl1 & Hn & Hd & Hsh & Ht & Htabs & Htabs1 & Hs1 & Hp1).
  destruct (IH (set_ws w1 (fresh s).2) Hs1 Hl) as (s' & ws & Hsa & Hl' & HF & Ht' & Hs' & Hp' & Hfr & Hb).
  exists s', (w :: ws).
  assert (save_all now (j :: l) s = save_all now l (set_ws w1 (fresh s).2)) as ->.
  { destruct j; try done; cbn [save_all]; unfold fresh at 1; cbv iota beta zeta; cbn [b_ws]; by rewrite Hsv. }
  cbn [set_ws fresh snd b_ws b_backups] in Hl', Ht', Hp', HF, Hfr, Hb. split_and!; try congruence.
  - rewrite Hl', Hl1. by rewrite <-app_assoc.
  - constructor; [done|]. by rewrite <-Htabs1.
  - destruct Hfr as (? & ? & ? & ?). repeat split; done.
Qed.


Lemma restore_workspaces_spec now data s l :
  is_Some (st_store (b_ws s)) → bc_includeWorkspaces (b_config s) = true → jget data "workspaces" = Some (JArr l) →
  l ≠ [] → Forall (λ j, j ≠ JNull) l →
  ∃ s' ws, restore_workspaces now data s = (s', Ok ()) ∧ ws_list (b_ws s') = ws ∧
    Forall2 (restored_from (st_tabs (b_ws s))) l ws ∧ st_tabs (b_ws s') = st_tabs (b_ws s) ∧
    is_Some (st_store (b_ws s')) ∧ stored_profiles (b_ws s') = stored_profiles (b_ws s) ∧
    bk_frame s s' ∧ b_backups s' = b_backups s.
Proof.
  intros Hs Hinc Hj Hne Hl. unfold restore_workspaces. rewrite Hj, Hinc, getWorkspaces_eq.
  assert (nonempty_length (Some (JArr l)) = Some (JNum (Z.of_nat (length l)))) as ->.
  { unfold nonempty_length, length_prop, js_gt_zero. cbn [js_truthy]. rewrite bool_decide_true; [done|].
    destruct l; [done|]. simpl. lia. }
  destruct (delete_all_spec (ws_list (b_ws s)) (ensureWorkspacesConfig (b_ws s)))
    as (w1 & Hd & Hl1 & Ht1 & Hs1 & Hp1); [by apply ensure_store_some|apply ws_list_ensure|].
  cbv iota beta zeta. rewrite Hd. cbv [default from_option id json_iter].
  destruct (save_all_spec now l (set_ws w1 s) Hs1 Hl) as (s2 & ws & Hsa & Hl2 & HF & Ht2 & Hs2 & Hp2 & Hfr & Hb).
  rewrite Hsa. cbn [b_ws set_ws] in *. exists (set_ws (config_save (b_ws s2)) s2), ws.
  rewrite Hl1 in Hl2. rewrite Ht1, ensure_tabs in Ht2, HF. rewrite Hp1, ensure_profiles in Hp2.
  split_and!; try done; cbn [b_ws set_ws b_backups].
  - by rewrite ws_list_config_save.
Qed.

Lemma backup_data_get now c device cs wss :
  let d := backup_data now c device cs wss in
  jget d "workspaces" = (if bc_includeWorkspaces c then Some (JArr (ws_to_json iso_of <$> wss)) else None) ∧
  jget d "profiles" = (if bc_includeProfiles c then Some (JArr (default [] (cs_profiles cs))) else None).
Proof.
  unfold backup_data. cbn [jget]. rewrite !assoc_get_app.
  destruct (bc_includeConfig c), (bc_includeWorkspaces c), (bc_includeProfiles c); vm_compute; done.
Qed.

(** The profile part of a restore from a file that lists the stored
    profiles, or none, adds nothing. *)
Lemma restore_profiles_same data s :
  let existing := default [] (stored_profiles (b_ws s)) in
  Forall (λ p, p ≠ JNull) existing → jget data "profiles" = None ∨ jget data "profiles" = Some (JArr existing) →
  restore_profiles data s = (s, Ok ()).
Proof.
  intros existing Hp Hd. unfold restore_profiles. fold (stored_profiles (b_ws s)). fold existing.
  destruct Hd as [-> | ->]; [done|]. destruct (nonempty_length _); [|done]. destruct (bc_includeProfiles _); [|done].
  assert (∀ p, p ∈ existing → js_prop p "id" = Ok (jget p "id")) as Hid.
  { intros p Hin. rewrite Forall_forall in Hp. specialize (Hp p Hin). by destruct p. }
  unfold profile_ids. rewrite (mapM_ok _ (λ p, jget p "id") _ Hid). cbv [default from_option id].
  rewrite (mapM_ok _ (λ p, (p, jget p "id")) existing); [|intros p Hin; by rewrite Hid].
  rewrite filter_none; [done|]. apply Forall_forall. intros pi Hin Hnot. apply Hnot.
  apply list_elem_of_fmap in Hin as (p & -> & Hin). apply list_elem_of_fmap. by exists p.
Qed.


Lemma create_ws_view silent now s :
  let w := b_ws (createBackup silent now s).1 in
  st_tabs w = st_tabs (b_ws s) ∧ stored_profiles w = stored_profiles (b_ws s) ∧
  (is_Some (st_store (b_ws s)) → is_Some (st_store w)).
Proof.
  destruct (create_frame silent now s) as [_ [-> | ->]]; [done|].
  split_and!; [apply ensure_tabs|apply ensure_profiles|apply ensure_store_some].
Qed.

Lemma restore_body_ok b now s text data l :
  ipc = true → b_files s !! bk_path b = Some text → sha256_hex text = bk_checksum b → json_parse text = Some data →
  data ≠ JNull → is_Some (st_store (b_ws s)) → bc_includeWorkspaces (b_config s) = true →
  jget data "workspaces" = Some (JArr l) → l ≠ [] → Forall (λ j, j ≠ JNull) l →
  Forall (λ p, p ≠ JNull) (default [] (stored_profiles (b_ws s))) →
  jget data "profiles" = None ∨ jget data "profiles" = Some (JArr (default [] (stored_profiles (b_ws s)))) →
  ∃ s', restore_body b now s = (s', Ok ()) ∧ Forall2 (restored_from (st_tabs (b_ws s))) l (ws_list (b_ws s')) ∧
    bk_frame s s'.
Proof.
  intros Hipc Hf Hsum Hp Hnull Hs Hinc Hw Hne Hl Hpn Hpd. unfold restore_body. rewrite Hipc, Hf, Hp. cbn [negb].
  rewrite bool_decide_false by congruence.
  destruct (create_frame true now s) as [Hfr _]. destruct (create_ws_view true now s) as (Ht & Hps & Hs1).
  set (s1 := (createBackup true now s).1) in *. destruct (Hs1 Hs) as [cs1 Hcs1]. rewrite Hcs1.
  destruct (restore_workspaces_spec now data s1 l) as (s2 & ws & Hr & <- & HF & Ht2 & Hs2 & Hp2 & Hfr2 & _);
    [by rewrite Hcs1|destruct Hfr as (Hc1 & _); by rewrite Hc1|done|done|done|].
  assert (restore_profiles data s2 = (s2, Ok ())) as Hrp.
  { apply restore_profiles_same; rewrite Hp2, Hps; done. }
  exists (emit_changed s2). destruct data; try done; rewrite Hr, Hrp; (split; [done|]); rewrite <-Ht;
    (split; [done|]); do 2 (eapply bk_frame_trans; [eassumption|]); done.
Qed.

Lemma start_skip_ws now s : b_ws (startAutomaticBackups true now s) = b_ws s.
Proof. unfold startAutomaticBackups. by case_match. Qed.



(** C19: a backup restores the workspaces it was taken from.  After a
    successful [createBackup] that includes the workspaces, restoring it
    succeeds and leaves, in the same order, one workspace per backed-up
    one, with its name, description, team and [shared || false]; but the
    tabs of every restored workspace are the tabs open at the time of the
    restore, not those of the backup, since [restoreBackup] re-creates the
    workspaces with [saveWorkspace]. *)
Theorem backup_restore_roundtrip silent now now' s cs :
  ipc = true → st_store (b_ws s) = Some cs → store_wf cs → Forall (λ w, ws_full_wf w = true) (ws_list (b_ws s)) →
  ws_list (b_ws s) ≠ [] → bc_includeWorkspaces (b_config s) = true →
  Forall (λ p, p ≠ JNull) (default [] (cs_profiles cs)) →
  NoDup (bk_id <$> b_backups s) → uuidv4 (b_seed s) ∉ bk_id <$> b_backups s →
  (∀ x, x ∈ b_backups s → bk_path x ≠ b_dir s +:+ "/" +:+ backup_filename "backup-" (iso_of now) (uuidv4 (b_seed s))) →
  ∃ s1 b s2, createBackup silent now s = (s1, Ok b) ∧ restoreBackup (bk_id b) now' s1 = (s2, Ok ()) ∧
    Forall2 (λ w w', ws_name w' = ws_name w ∧ ws_description w' = ws_description w ∧
                     ws_shared w' = js_or (Some (ws_shared w)) (JBool false) ∧ ws_teamId w' = ws_teamId w ∧
                     ws_tabs w' = JArr (capture_tokens (st_tabs (b_ws s))))
      (ws_list (b_ws s)) (ws_list (b_ws s2)).
Proof.
  intros Hipc Hs Hwf Hws Hne Hinc Hpn Hnd Hfresh Hpath.
  pose proof (create_ok silent now s cs Hipc Hs Hwf) as Hok. cbv zeta in Hok.
  destruct (Hok Hnd Hfresh) as (s1 & b & Hc & Hid & Ht & Hp & Hsum & _ & Hf & Hb & Hnd' & Hfr & Hw).
  specialize (Hf Hpath).
  rewrite Hinc in Hw. exists s1, b.
  destruct (backup_data_get now (b_config s) (b_deviceId s) cs (ws_list (b_ws s))) as [Hdw Hdp].
  rewrite Hinc in Hdw.
  set (data := backup_data now (b_config s) (b_deviceId s) cs (ws_list (b_ws s))) in *.
  assert (find_backup (bk_id b) (b_backups s1) = Some b) as Hfind
    by (apply (create_found now (bc_retention (b_config s)) 86400000 (b_backups s)); [done|done|exact Hb|lia]).
  unfold restoreBackup. rewrite Hfind. cbn zeta.
  set (s0 := if bc_enabled (b_config s1) then stopAutomaticBackups s1 else s1).
  assert (b_ws s0 = b_ws s1 ∧ b_files s0 = b_files s1 ∧ b_config s0 = b_config s1) as (Hw0 & Hf0 & Hc0)
    by (unfold s0; by destruct (bc_enabled (b_config s1))).
  assert (stored_profiles (b_ws s0) = Some (default [] (cs_profiles cs)) ∨
          stored_profiles (b_ws s0) = None ∧ cs_profiles cs = None) as Hsp.
  { rewrite Hw0, Hw, ensure_profiles. unfold stored_profiles. rewrite Hs. simpl. by destruct (cs_profiles cs); [left|right]. }
  destruct (restore_body_ok b now' s0 (json_stringify true data) data (ws_to_json iso_of <$> ws_list (b_ws s)))
    as (s' & Hr & HF & _).
  - done.
  - by rewrite Hf0, Hp.
  - by rewrite Hsum.
  - by apply json_roundtrip, backup_data_wf.
  - discriminate.
  - rewrite Hw0, Hw. apply ensure_store_some. by rewrite Hs.
  - rewrite Hc0. by destruct Hfr as (-> & _).
  - exact Hdw.
  - by destruct (ws_list (b_ws s)).
  - apply Forall_fmap, Forall_forall. intros w _. discriminate.
  - destruct Hsp as [-> | [-> Hn]]; [exact Hpn|constructor].
  - rewrite Hdp. destruct Hsp as [-> | [-> ->]]; destruct (bc_includeProfiles _); auto.
  - rewrite Hr. eexists. split; [exact Hc|]. split; [reflexivity|].
    assert (b_ws (if bc_enabled (b_config s1) && bool_decide (b_timer s' = None) then startAutomaticBackups true now' s' else s')
              = b_ws s') as -> by (destruct (_ && _); [apply start_skip_ws|done]).
    rewrite Hw0, Hw, ensure_tabs, Forall2_fmap_l in HF.
    eapply Forall2_impl; [exact HF|]. intros w w' (Hn & Hd & Hsh & Htm & Htb).
    destruct (ws_to_json_get w) as (Hn' & Hd' & Hsh' & Htm'). rewrite <-Hn', <-Hd', <-Hsh', <-Htm'. done.
Qed.


(** ** Restoring an expired backup *)

Lemma save_all_backups now l s : b_backups (save_all now l s).1 = b_backups s.
Proof.
  revert s. induction l as [|j l IH]; intros s; [done|]. cbn [save_all].
  destruct j; try done; unfold fresh; cbv iota beta zeta;
    match goal with |- context [saveWorkspace ?a ?b ?c ?d ?e ?f ?g] => destruct (saveWorkspace a b c d e f g) as [w1 []] end;
    by rewrite ?IH.
Qed.

Lemma restore_workspaces_backups now data s : b_backups (restore_workspaces now data s).1 = b_backups s.
Proof.
  unfold restore_workspaces. rewrite getWorkspaces_eq. cbn zeta. repeat case_match; simplify_eq/=; try done.
  all: match goal with H : save_all ?n ?l ?s0 = _ |- _ => pose proof (save_all_backups n l s0) as Hb; rewrite H in Hb end.
  all: done.
Qed.

Lemma restore_profiles_backups data s : b_backups (restore_profiles data s).1 = b_backups s.
Proof. unfold restore_profiles. by repeat case_match. Qed.

(** What [restoreBackup] leaves of the index: that of its safety backup. *)
Lemma restore_body_backups b now s text data :
  ipc = true → b_files s !! bk_path b = Some text → sha256_hex text = bk_checksum b → json_parse text = Some data →
  b_backups (restore_body b now s).1 = b_backups (createBackup true now s).1.
Proof.
  intros Hipc Hf Hsum Hp. unfold restore_body. rewrite Hipc, Hf, Hp. cbn [negb].
  rewrite bool_decide_false by congruence. set (s1 := (createBackup true now s).1).
  destruct (st_store (b_ws s1)); [|done]. destruct data; try done.
  all: match goal with |- context [restore_workspaces ?n ?d ?t] =>
         pose proof (restore_workspaces_backups n d t) as H1;
         destruct (restore_workspaces n d t) as [s2 [?|?]]; [|done] end.
  all: match goal with |- context [restore_profiles ?d ?t] =>
         pose proof (restore_profiles_backups d t) as H2;
         destruct (restore_profiles d t) as [s3 [?|?]]; simpl in *; congruence end.
Qed.

(** C21: restoring a backup older than the retention period deletes it.
    The safety backup [restoreBackup] takes first runs
    [cleanupOldBackups], which drops the backup being restored from the
    index and deletes its file, whatever the rest of the restore does. *)
Theorem restore_drops_expired id now s b text data cs :
  ipc = true → getBackup id s = Some b → b_files s !! bk_path b = Some text → sha256_hex text = bk_checksum b →
  json_parse text = Some data → st_store (b_ws s) = Some cs → store_wf cs →
  NoDup (bk_id <$> b_backups s) → uuidv4 (b_seed s) ∉ bk_id <$> b_backups s →
  0 < bc_retention (b_config s) → bk_timestamp b < cutoff now s →
  getBackup id (restoreBackup id now s).1 = None.
Proof.
  unfold getBackup. intros Hipc Hb Hf Hsum Hp Hs Hwf Hnd Hfresh Hr Hold.
  destruct (find_backup_Some _ _ _ Hb) as [Hin Hid].
  unfold restoreBackup. rewrite Hb. cbn zeta.
  set (s0 := if bc_enabled (b_config s) then stopAutomaticBackups s else s).
  assert (b_ws s0 = b_ws s ∧ b_files s0 = b_files s ∧ b_config s0 = b_config s ∧ b_backups s0 = b_backups s ∧
          b_seed s0 = b_seed s) as (Hw0 & Hf0 & Hc0 & Hb0 & Hs0) by (unfold s0; by destruct (bc_enabled _)).
  pose proof (restore_body_backups b now s0 text data Hipc ltac:(by rewrite Hf0) Hsum Hp) as Hrb.
  destruct (restore_body b now s0) as [s1 r]. cbn [fst] in *.
  assert (b_backups (if bc_enabled (b_config s) && bool_decide (b_timer s1 = None) then startAutomaticBackups true now s1
            else s1) = b_backups s1) as -> by (destruct (_ && _); [unfold startAutomaticBackups; by case_match|done]).
  pose proof (create_ok true now s0 cs Hipc ltac:(by rewrite Hw0) Hwf) as Hok. cbv zeta in Hok.
  destruct (Hok ltac:(by rewrite Hb0) ltac:(by rewrite Hs0, Hb0)) as (s1' & nb & Hc & Hnid & _ & _ & _ & _ & _ & Hbl & _).
  rewrite Hrb, Hc. cbn [fst]. rewrite Hbl, Hb0. apply find_backup_None, Forall_forall. intros x Hx Heq.
  apply list_elem_of_filter in Hx as [Hkeep Hx]. unfold cutoff in Hkeep, Hold. rewrite Hc0 in Hkeep.
  apply elem_of_app in Hx as [Hx | ->%list_elem_of_singleton].
  - assert (x = b) as -> by (apply (backup_ids_inj (b_backups s)); congruence).
    specialize (Hkeep Hr). lia.
  - apply Hfresh. rewrite <-Hs0, <-Hnid, Heq, <-Hid. by apply list_elem_of_fmap_2.
Qed.

End Env.
