(* ===== verification/ServerIface.v ===== *)
(** * The interface between the main process and the relay

    [src/app/lib/app.ts] uses the relay only through the methods it calls
    on [this.sessionSharingServer] and through the events the relay emits
    on [process] ([session-sharing:viewer-joined], [viewer-left],
    [input]).  The class [SharingServer] lists those methods, each as a
    function of the server state; [SharingServerLaws] states what the
    main process relies on.  [App.v] is proved against these two classes
    only; [RelayServer.v] gives the relay's instances and proves the laws. *)

From S2P Require Import Prelude JsString.

(** The events the relay emits on [process], in emission order. *)
Inductive server_event :=
| EvViewerJoined (sid : string) (count : nat)
| EvViewerLeft (sid : string) (count : nat)
| EvInput (sid : string) (data : string).

Class SharingServer (S : Type) := {
  (** [start(port, host)]: the bound port, or the error of [listen]. *)
  srv_start : Z → string → S → S * result string Z;
  srv_stop : S → S;
  srv_isStarted : S → bool;
  srv_getPort : S → Z;
  srv_getHost : S → string;
  srv_getWebSocketUrl : bool → S → option string;
  srv_getPublicUrl : S → option string;
  srv_setPublicUrl : option string → S → S;
  (** [registerSession(id, token, mode, password?, expiresIn?)] at time [now]. *)
  srv_registerSession : string → string → string → option string → option Z → Z →
                        S → result string S;
  srv_unregisterSession : string → S → S;
  srv_broadcastOutput : string → string → S → S;
  srv_getViewerCount : string → S → nat;
  srv_getActiveSessionCount : S → nat;
  (** Everything emitted on [process] so far. *)
  srv_events : S → list server_event;
}.

(** What the main process relies on. *)
Class SharingServerLaws (S : Type) `{SharingServer S} := {
  law_start_ok p h s s' port :
    srv_start p h s = (s', Ok port) → srv_isStarted s' = true ∧ srv_getPort s' = port;
  law_start_err p h s s' e :
    srv_start p h s = (s', Err e) → srv_isStarted s' = false;
  law_start_running p h s :
    srv_isStarted s = true → srv_start p h s = (s, Ok (srv_getPort s));
  law_stop_stopped s : srv_isStarted (srv_stop s) = false;
  law_stop_sessions s : srv_isStarted s = true → srv_getActiveSessionCount (srv_stop s) = 0;
  law_public_url u s : srv_getPublicUrl (srv_setPublicUrl u s) = u;
  law_public_url_started u s : srv_isStarted (srv_setPublicUrl u s) = srv_isStarted s;
  (** The event log only grows. *)
  law_events_start p h s : srv_events s `prefix_of` srv_events (srv_start p h s).1;
  law_events_stop s : srv_events s `prefix_of` srv_events (srv_stop s);
  law_events_register sid t m pw e now s s' :
    srv_registerSession sid t m pw e now s = Ok s' → srv_events s `prefix_of` srv_events s';
  law_events_unregister sid s : srv_events s `prefix_of` srv_events (srv_unregisterSession sid s);
  law_events_broadcast sid d s : srv_events s `prefix_of` srv_events (srv_broadcastOutput sid d s);
  law_events_public_url u s : srv_events (srv_setPublicUrl u s) = srv_events s;
}.
