(* ===== verification/Relay.v ===== *)
(** * The session-sharing relay

    The server object of the main process that shares terminal sessions
    with remote viewers (spec sections 2 to 7).  Its source file is not
    part of [src/]; every definition of this file is modelled from the
    spec and marked spec_modelled in the manifest.  [App.v] models the code
    of [src/app/lib/app.ts] that drives it.

    State ([relay]):
    - the lifecycle phase [Stopped | Starting | Running | Stopping] with the
      bound port and host and the public URL override (Lifecycle Manager);
    - the registry [r_sessions : gmap string shared_session], keyed by
      session id, each entry with its token, optional password, mode,
      optional expiry and the set of attached viewer handles (Session
      Registry);
    - the connection table [r_conns : gmap nat conn]: every transport the
      listener accepted, with the session it is attached to, whether it is
      open, broken (a write to it fails) or closed, and the chunks written
      to it in order (Transport Listener, Broadcast Engine);
    - the event log [r_events]: the [viewer-joined]/[viewer-left]
      notifications and the input forwarded to the host, in emission order
      (the [process.emit] calls the spec describes);
    - the machine's network: the ports already bound and the addresses
      that can be bound, which decide the outcome of [listen].

    Operations, one definition each: [registerSession], [unregisterSession],
    [viewerCount], [attach] (the handshake), [broadcastOutput],
    [viewerInput] (Input Router), [viewerClose] and [transportFail]
    (transport events), [expireSessions] (the expiry sweep), [start] and
    [stop] with their phases, [setPublicUrl] and the status accessors. *)

From S2P Require Import Prelude JsString ServerIface.

Local Open Scope Z_scope.

(** ** Data *)

(** A chunk of terminal output or viewer input: a Node [Buffer], here a
    string of 8-bit characters. *)
Abbreviation bytes := string.

(** The sharing mode: a two-variant enum (spec section 9). *)
Inductive mode := ReadOnly | Interactive.

#[export] Instance mode_eq_dec : EqDecision mode.
Proof. solve_decision. Defined.

(** The mode as the IPC layer passes it: a string, validated here. *)
Definition parse_mode (m : string) : option mode :=
  if bool_decide (m = "read-only") then Some ReadOnly
  else if bool_decide (m = "interactive") then Some Interactive
  else None.

Record shared_session := SharedSession {
  ss_token : string;
  ss_password : option string;
  ss_mode : mode;
  ss_expiresAt : option Z;
  ss_viewers : gset nat;
}.

Definition ss_set_viewers (vs : gset nat) (s : shared_session) : shared_session :=
  SharedSession (ss_token s) (ss_password s) (ss_mode s) (ss_expiresAt s) vs.

(** The state of one viewer transport. *)
Inductive conn_state := ConnOpen | ConnBroken | ConnClosed.

#[export] Instance conn_state_eq_dec : EqDecision conn_state.
Proof. solve_decision. Defined.

Record conn := Conn {
  conn_session : string;
  conn_st : conn_state;
  conn_received : list bytes;
}.

Definition conn_live (c : conn) : Prop := conn_st c ≠ ConnClosed.

Definition conn_close (c : conn) : conn :=
  Conn (conn_session c) ConnClosed (conn_received c).

Definition conn_write (data : bytes) (c : conn) : conn :=
  Conn (conn_session c) (conn_st c) (conn_received c ++ [data]).

Inductive phase := Stopped | Starting | Running | Stopping.

#[export] Instance phase_eq_dec : EqDecision phase.
Proof. solve_decision. Defined.

(** A viewer's attach request: the query parameters of the connection URI
    [/session?sessionId=..&token=..[&password=..]]. *)
Record attach_request := AttachRequest {
  req_session : string;
  req_token : string;
  req_password : option string;
}.

Record relay := Relay {
  r_phase : phase;
  r_port : Z;
  r_host : string;
  r_public_url : option string;
  r_sessions : gmap string shared_session;
  r_conns : gmap nat conn;
  r_next_conn : nat;
  r_events : list server_event;
  r_bound : gset Z;
  r_hosts : gset string;
}.

(** Field updates. *)
Definition set_sessions (m : gmap string shared_session) (r : relay) : relay :=
  Relay (r_phase r) (r_port r) (r_host r) (r_public_url r) m (r_conns r)
    (r_next_conn r) (r_events r) (r_bound r) (r_hosts r).
Definition set_conns (m : gmap nat conn) (r : relay) : relay :=
  Relay (r_phase r) (r_port r) (r_host r) (r_public_url r) (r_sessions r) m
    (r_next_conn r) (r_events r) (r_bound r) (r_hosts r).
Definition emit (e : server_event) (r : relay) : relay :=
  Relay (r_phase r) (r_port r) (r_host r) (r_public_url r) (r_sessions r)
    (r_conns r) (r_next_conn r) (r_events r ++ [e]) (r_bound r) (r_hosts r).
Definition set_server (ph : phase) (port : Z) (host : string) (bound : gset Z)
    (r : relay) : relay :=
  Relay ph port host (r_public_url r) (r_sessions r) (r_conns r)
    (r_next_conn r) (r_events r) bound (r_hosts r).

(** A fresh server: stopped, nothing registered, on a machine whose bound
    ports and bindable addresses are given. *)
Definition relay_init (bound : gset Z) (hosts : gset string) : relay :=
  Relay Stopped 0 "0.0.0.0" None ∅ ∅ 0 [] bound hosts.

(** ** Session Registry *)

(** [getViewerCount(sessionId)]: the size of the viewer set, 0 for an
    unknown session. *)
Definition viewerCount (sid : string) (r : relay) : nat :=
  match r_sessions r !! sid with
  | Some s => size (ss_viewers s)
  | None => 0
  end.

Definition getActiveSessionCount (r : relay) : nat := size (r_sessions r).

(** Remove viewer [v] from session [sid]: close its transport and emit the
    new count.  The one place a viewer leaves a session: a failed write, a
    closed transport, an unregistration and an expiry all go through it. *)
Definition drop_viewer (sid : string) (r : relay) (v : nat) : relay :=
  match r_sessions r !! sid with
  | Some s =>
      if bool_decide (v ∈ ss_viewers s) then
        let s' := ss_set_viewers (ss_viewers s ∖ {[v]}) s in
        emit (EvViewerLeft sid (size (ss_viewers s')))
          (set_conns (alter conn_close v (r_conns r))
             (set_sessions (<[sid := s']> (r_sessions r)) r))
      else r
  | None => r
  end.

(** [unregisterSession(sessionId)]: close every viewer, then remove the
    entry; a no-op for an unknown id. *)
Definition unregisterSession (sid : string) (r : relay) : relay :=
  match r_sessions r !! sid with
  | Some s =>
      let r' := foldl (drop_viewer sid) r (elements (ss_viewers s)) in
      set_sessions (delete sid (r_sessions r')) r'
  | None => r
  end.

(** [registerSession(sessionId, token, mode, password?, expiresIn?)] at
    time [now]: validate the mode, replace any entry of the same id (its
    viewers are closed first, as by [unregisterSession]) and compute the
    expiry from [expiresIn] seconds. *)
Definition registerSession (sid token : string) (m : string)
    (password : option string) (expiresIn : option Z) (now : Z)
    (r : relay) : result string relay :=
  match parse_mode m with
  | None => Err "invalid mode"
  | Some md =>
      let exp := (λ n, now + n * 1000) <$> expiresIn in
      let r' := unregisterSession sid r in
      Ok (set_sessions (<[sid := SharedSession token password md exp ∅]>
                          (r_sessions r')) r')
  end.

(** ** Expiry *)

Definition expired (now : Z) (s : shared_session) : bool :=
  match ss_expiresAt s with
  | Some e => bool_decide (e < now)
  | None => false
  end.

Definition expired_ids (now : Z) (r : relay) : list string :=
  (map_to_list (r_sessions r)) ≫= (λ '(sid, s), if expired now s then [sid] else []).

(** The expiry sweep: unregister every session whose expiry has passed. *)
Definition expireSessions (now : Z) (r : relay) : relay :=
  foldl (λ r sid, unregisterSession sid r) r (expired_ids now r).

(** ** Transport Listener: the handshake *)

Definition credentials_ok (s : shared_session) (q : attach_request) : bool :=
  bool_decide (req_token q = ss_token s) &&
  match ss_password s with
  | Some p => bool_decide (req_password q = Some p)
  | None => true
  end.

(** Attach after the expiry sweep: [Some v] with the new connection handle
    when accepted, [None] when rejected (the connection is closed and the
    registry is left as the sweep left it). *)
Definition handshake (q : attach_request) (r : relay) : relay * option nat :=
  if bool_decide (r_phase r = Running) then
    match r_sessions r !! req_session q with
    | Some s =>
        if credentials_ok s q then
          let v := r_next_conn r in
          let s' := ss_set_viewers (ss_viewers s ∪ {[v]}) s in
          let r1 := Relay (r_phase r) (r_port r) (r_host r) (r_public_url r)
                      (<[req_session q := s']> (r_sessions r))
                      (<[v := Conn (req_session q) ConnOpen []]> (r_conns r))
                      (S v) (r_events r) (r_bound r) (r_hosts r) in
          (emit (EvViewerJoined (req_session q) (size (ss_viewers s'))) r1, Some v)
        else (r, None)
    | None => (r, None)
    end
  else (r, None).

Definition attach (now : Z) (q : attach_request) (r : relay) : relay * option nat :=
  handshake q (expireSessions now r).

(** ** Broadcast Engine *)

(** Write [data] to viewer [v] of session [sid]: append it to an open
    transport; drop a broken one. *)
Definition bcast_one (sid : string) (data : bytes) (r : relay) (v : nat) : relay :=
  match r_conns r !! v with
  | Some c =>
      match conn_st c with
      | ConnOpen => set_conns (<[v := conn_write data c]> (r_conns r)) r
      | ConnBroken => drop_viewer sid r v
      | ConnClosed => r
      end
  | None => r
  end.

(** [broadcastOutput(sessionId, data)]: every viewer of the snapshot of
    the viewer set taken at the call; a no-op for an unknown session. *)
Definition broadcastOutput (sid : string) (data : bytes) (r : relay) : relay :=
  match r_sessions r !! sid with
  | Some s => foldl (bcast_one sid data) r (elements (ss_viewers s))
  | None => r
  end.

(** ** Input Router *)

(** Bytes received from viewer [v]: forwarded to the host, tagged with the
    session id, when the session is interactive; discarded otherwise. *)
Definition viewerInput (v : nat) (data : bytes) (r : relay) : relay :=
  match r_conns r !! v with
  | Some c =>
      if bool_decide (conn_st c = ConnOpen) then
        match r_sessions r !! conn_session c with
        | Some s =>
            if bool_decide (v ∈ ss_viewers s) && bool_decide (ss_mode s = Interactive)
            then emit (EvInput (conn_session c) data) r
            else r
        | None => r
        end
      else r
  | None => r
  end.

(** ** Transport events *)

(** The transport of [v] breaks (the peer vanished); the relay learns it at
    its next write. *)
Definition transportFail (v : nat) (r : relay) : relay :=
  match r_conns r !! v with
  | Some c =>
      if bool_decide (conn_st c = ConnOpen)
      then set_conns (<[v := Conn (conn_session c) ConnBroken (conn_received c)]> (r_conns r)) r
      else r
  | None => r
  end.

(** The [close] event of the transport of [v]. *)
Definition viewerClose (v : nat) (r : relay) : relay :=
  match r_conns r !! v with
  | Some c => drop_viewer (conn_session c) r v
  | None => r
  end.

(** ** Lifecycle Manager *)

(** The port the operating system picks for [port = 0]: one above every
    bound port and above the start of the ephemeral range. *)
Definition ephemeral_port (bound : gset Z) : Z :=
  1 + set_fold Z.max 49151 bound.

(** [listen(port, host)] as the operating system answers it. *)
Definition bind (port : Z) (host : string) (r : relay) : result string Z :=
  if bool_decide (host ∉ r_hosts r) then Err "EADDRNOTAVAIL"
  else if bool_decide (port < 0 ∨ 65535 < port) then Err "ERR_SOCKET_BAD_PORT"
  else if bool_decide (port = 0) then Ok (ephemeral_port (r_bound r))
  else if bool_decide (port ∈ r_bound r) then Err "EADDRINUSE"
  else Ok port.

Definition start_begin (r : relay) : relay :=
  set_server Starting (r_port r) (r_host r) (r_bound r) r.

(** The listen call completes: Running on the bound port, or back to
    Stopped on a [BindError]. *)
Definition start_complete (host : string) (res : result string Z) (r : relay) : relay :=
  match res with
  | Ok p => set_server Running p host (r_bound r ∪ {[p]}) r
  | Err _ => set_server Stopped 0 (r_host r) (r_bound r) r
  end.

(** [start(port, host)]: Stopped -> Starting -> Running (or back to
    Stopped); a no-op returning the bound port when Running. *)
Definition start (port : Z) (host : string) (r : relay) : relay * result string Z :=
  match r_phase r with
  | Running => (r, Ok (r_port r))
  | Stopped =>
      let r1 := start_begin r in
      let res := bind port host r1 in
      (start_complete host res r1, res)
  | Starting | Stopping => (r, Err "ERR_SERVER_BUSY")
  end.

Definition stop_begin (r : relay) : relay :=
  set_server Stopping (r_port r) (r_host r) (r_bound r) r.

(** Tear down every session (closing its viewers, as [unregisterSession]
    does), terminate any transport left, release the port. *)
Definition stop_complete (r : relay) : relay :=
  let r1 := foldl (λ r sid, unregisterSession sid r) r (map fst (map_to_list (r_sessions r))) in
  let r2 := set_conns (conn_close <$> r_conns r1) r1 in
  set_server Stopped 0 (r_host r2) (r_bound r2 ∖ {[r_port r2]}) r2.

(** [stop()]: Running -> Stopping -> Stopped; a no-op otherwise. *)
Definition stop (r : relay) : relay :=
  match r_phase r with
  | Running => stop_complete (stop_begin r)
  | _ => r
  end.

Definition isStarted (r : relay) : bool := bool_decide (r_phase r = Running).

(** [getWebSocketUrl(usePublicUrl)]: the public URL override when asked
    for and set, otherwise the listener's address while running. *)
Definition getWebSocketUrl (usePublic : bool) (r : relay) : option string :=
  match usePublic, r_public_url r with
  | true, Some u => Some u
  | _, _ =>
      if isStarted r
      then Some ("ws://" +:+ r_host r +:+ ":" +:+ z_to_string (r_port r))
      else None
  end.

Definition setPublicUrl (u : option string) (r : relay) : relay :=
  Relay (r_phase r) (r_port r) (r_host r) u (r_sessions r) (r_conns r)
    (r_next_conn r) (r_events r) (r_bound r) (r_hosts r).
