(* ===== verification/RelayInv.v ===== *)
(** * The relay's invariant

    The well-formedness of the relay state ([relay_wf]) that the spec's
    data model states (section 3): every viewer of a session is a live
    transport attached to that session, every live transport is a viewer
    of the session it is attached to (so a connection is in exactly one
    viewer set), connection handles are fresh, no transport is live while
    the server is stopped or starting, and a running server holds a bound
    port.  Every operation of [Relay.v] preserves it; the step relation
    [relay_step] allows the operations to interleave at the suspension
    points of [start] and [stop], and every reachable state is
    well-formed (rule induction). *)

From S2P Require Import Prelude Relay.

Local Open Scope Z_scope.

Record relay_wf (r : relay) : Prop := {
  wf_viewers : ∀ sid s v, r_sessions r !! sid = Some s → v ∈ ss_viewers s →
    ∃ c, r_conns r !! v = Some c ∧ conn_session c = sid ∧ conn_live c;
  wf_live : ∀ v c, r_conns r !! v = Some c → conn_live c →
    ∃ s, r_sessions r !! conn_session c = Some s ∧ v ∈ ss_viewers s;
  wf_fresh : ∀ v, (r_next_conn r ≤ v)%nat → r_conns r !! v = None;
  wf_idle : r_phase r = Stopped ∨ r_phase r = Starting →
    ∀ v c, r_conns r !! v = Some c → ¬ conn_live c;
  wf_port : r_phase r = Running → 0 < r_port r ∧ r_port r ∈ r_bound r;
}.

(** ** Viewer sets *)

Lemma ss_set_viewers_same s X : X ≡ ss_viewers s → ss_set_viewers X s = s.
Proof. intros ->%leibniz_equiv. by destruct s. Qed.

Lemma ss_set_viewers_twice X Y s :
  ss_set_viewers X (ss_set_viewers Y s) = ss_set_viewers X s.
Proof. done. Qed.

Lemma ss_set_viewers_equiv X Y s : X ≡ Y → ss_set_viewers X s = ss_set_viewers Y s.
Proof. by intros ->%leibniz_equiv. Qed.

Lemma ss_viewers_set X s : ss_viewers (ss_set_viewers X s) = X.
Proof. done. Qed.

#[export] Hint Rewrite ss_set_viewers_twice ss_viewers_set : tlink_rw.

(** ** Removing one viewer *)

Lemma conn_close_dead c : ¬ conn_live (conn_close c).
Proof. unfold conn_live. simpl. by intros []. Qed.

#[export] Hint Resolve conn_close_dead : tlink.

(** A connection handle is a viewer of at most one session. *)
Lemma wf_viewer_unique r sid1 sid2 s1 s2 v :
  relay_wf r →
  r_sessions r !! sid1 = Some s1 → v ∈ ss_viewers s1 →
  r_sessions r !! sid2 = Some s2 → v ∈ ss_viewers s2 → sid1 = sid2.
Proof.
  intros Hwf H1 Hv1 H2 Hv2.
  destruct (wf_viewers _ Hwf _ _ _ H1 Hv1) as (c1 & Hc1 & <- & _).
  destruct (wf_viewers _ Hwf _ _ _ H2 Hv2) as (c2 & Hc2 & <- & _).
  congruence.
Qed.

Lemma drop_viewer_wf sid r v : relay_wf r → relay_wf (drop_viewer sid r v).
Proof.
  intros Hwf. unfold drop_viewer.
  destruct (r_sessions r !! sid) as [s|] eqn:Hs; [|done].
  case_bool_decide as Hv; [|done].
  destruct (wf_viewers _ Hwf sid s v Hs Hv) as (c & Hc & Hcs & Hcl).
  constructor; simpl.
  - intros sid2 s2 v2 Hs2 Hv2.
    destruct (decide (sid2 = sid)) as [->|Hne].
    + rewrite lookup_insert_eq in Hs2. injection Hs2 as <-. simpl in Hv2.
      apply elem_of_difference in Hv2 as [Hv2 Hnv].
      destruct (wf_viewers _ Hwf sid s v2 Hs Hv2) as (c2 & ? & ? & ?).
      exists c2. rewrite lookup_alter_ne by set_solver. done.
    + rewrite lookup_insert_ne in Hs2 by done.
      destruct (wf_viewers _ Hwf _ _ _ Hs2 Hv2) as (c2 & Hc2 & Hc2s & ?).
      assert (v2 ≠ v) by (intros ->; congruence).
      exists c2. by rewrite lookup_alter_ne.
  - intros v2 c2 Hc2 Hl.
    destruct (decide (v2 = v)) as [->|Hne].
    + rewrite lookup_alter_eq, Hc in Hc2. injection Hc2 as <-.
      by apply conn_close_dead in Hl.
    + rewrite lookup_alter_ne in Hc2 by done.
      destruct (wf_live _ Hwf _ _ Hc2 Hl) as (s2 & Hs2 & Hv2).
      destruct (decide (conn_session c2 = sid)) as [Heq|Hne2].
      * rewrite Heq, lookup_insert_eq. eexists; split; [done|].
        rewrite Heq, Hs in Hs2. injection Hs2 as <-. simpl. set_solver.
      * rewrite lookup_insert_ne by done. eauto.
  - intros v2 Hv2. rewrite lookup_alter_None. by apply (wf_fresh _ Hwf).
  - intros Hph v2 c2 Hc2.
    destruct (decide (v2 = v)) as [->|Hne].
    + rewrite lookup_alter_eq, Hc in Hc2. injection Hc2 as <-. apply conn_close_dead.
    + rewrite lookup_alter_ne in Hc2 by done. eapply (wf_idle _ Hwf); eauto.
  - apply (wf_port _ Hwf).
Qed.

(** ** Removing several viewers *)

Lemma drop_viewer_sessions_ne sid sid' r v :
  sid' ≠ sid → r_sessions (drop_viewer sid r v) !! sid' = r_sessions r !! sid'.
Proof.
  intros Hne. unfold drop_viewer.
  destruct (r_sessions r !! sid); [|done].
  case_bool_decide; [|done]. simpl. by rewrite lookup_insert_ne.
Qed.

(** Dropping the viewers [vs] of [sid] removes exactly them from its set. *)
Lemma drop_viewers_session sid r vs :
  r_sessions (foldl (drop_viewer sid) r vs) !! sid =
  (λ s, ss_set_viewers (ss_viewers s ∖ list_to_set vs) s) <$> r_sessions r !! sid.
Proof.
  revert r. induction vs as [|v vs IH]; intros r; simpl.
  - destruct (r_sessions r !! sid) as [s|]; simpl; [|done].
    f_equal. symmetry. apply ss_set_viewers_same. set_solver.
  - rewrite IH. unfold drop_viewer.
    destruct (r_sessions r !! sid) as [s|] eqn:Hs; simpl; [|by rewrite Hs].
    case_bool_decide as Hv; simpl.
    + rewrite lookup_insert_eq. simpl. f_equal. autorewrite with tlink_rw. apply ss_set_viewers_equiv. set_solver.
    + rewrite Hs. simpl. f_equal. apply ss_set_viewers_equiv. set_solver.
Qed.

Lemma drop_viewers_sessions_ne sid sid' r vs :
  sid' ≠ sid → r_sessions (foldl (drop_viewer sid) r vs) !! sid' = r_sessions r !! sid'.
Proof.
  intros Hne. apply (foldl_proj_const (λ r, r_sessions r !! sid')).
  intros. by apply drop_viewer_sessions_ne.
Qed.

Lemma drop_viewers_wf sid r vs : relay_wf r → relay_wf (foldl (drop_viewer sid) r vs).
Proof. intros Hwf. apply foldl_preserve; [done|]. intros. by apply drop_viewer_wf. Qed.

(** ** Unregistering *)

(** [unregisterSession] removes exactly its entry from the registry. *)
Lemma unregister_sessions sid r :
  r_sessions (unregisterSession sid r) = delete sid (r_sessions r).
Proof.
  unfold unregisterSession.
  destruct (r_sessions r !! sid) as [s|] eqn:Hs.
  - simpl. apply map_eq. intros sid'.
    destruct (decide (sid' = sid)) as [->|Hne].
    + by rewrite !lookup_delete_eq.
    + rewrite !lookup_delete_ne by done. by apply drop_viewers_sessions_ne.
  - by rewrite delete_id.
Qed.

(** Once its entry is gone, no live transport is attached to [sid]. *)
Lemma wf_no_live_of_absent r sid v c :
  relay_wf r → r_sessions r !! sid = None →
  r_conns r !! v = Some c → conn_live c → conn_session c ≠ sid.
Proof.
  intros Hwf Hs Hc Hl Heq. rewrite <-Heq in Hs.
  destruct (wf_live _ Hwf _ _ Hc Hl) as (s & Hs' & _). congruence.
Qed.

Lemma unregister_wf sid r : relay_wf r → relay_wf (unregisterSession sid r).
Proof.
  intros Hwf. unfold unregisterSession.
  destruct (r_sessions r !! sid) as [s|] eqn:Hs; [|done].
  set (r' := foldl (drop_viewer sid) r (elements (ss_viewers s))).
  assert (Hwf' : relay_wf r') by (by apply drop_viewers_wf).
  assert (Hempty : r_sessions r' !! sid = Some (ss_set_viewers ∅ s)).
  { unfold r'. rewrite drop_viewers_session, Hs. simpl. f_equal.
    apply ss_set_viewers_equiv. intros x.
    rewrite elem_of_difference, elem_of_list_to_set, elem_of_elements. set_solver. }
  constructor; simpl.
  - intros sid2 s2 v2 Hs2 Hv2. destruct (decide (sid2 = sid)) as [->|Hne].
    + by rewrite lookup_delete_eq in Hs2.
    + rewrite lookup_delete_ne in Hs2 by done. eapply (wf_viewers _ Hwf'); eauto.
  - intros v2 c2 Hc2 Hl.
    destruct (wf_live _ Hwf' _ _ Hc2 Hl) as (s2 & Hs2 & Hv2).
    destruct (decide (conn_session c2 = sid)) as [Heq|Hne].
    + rewrite Heq, Hempty in Hs2. injection Hs2 as <-. set_solver.
    + rewrite lookup_delete_ne by done. eauto.
  - apply (wf_fresh _ Hwf').
  - apply (wf_idle _ Hwf').
  - apply (wf_port _ Hwf').
Qed.

(** ** Registering *)

Lemma register_wf sid tok m pw exp now r r' :
  relay_wf r → registerSession sid tok m pw exp now r = Ok r' → relay_wf r'.
Proof.
  unfold registerSession. intros Hwf Hreg.
  destruct (parse_mode m) as [md|]; [|done]. injection Hreg as <-.
  pose proof (unregister_wf sid r Hwf) as Hwf1.
  pose proof (unregister_sessions sid r) as Hs1.
  set (r1 := unregisterSession sid r) in *.
  assert (Habs : r_sessions r1 !! sid = None) by (rewrite Hs1; apply lookup_delete_eq).
  constructor; simpl.
  - intros sid2 s2 v2 Hs2 Hv2. destruct (decide (sid2 = sid)) as [->|Hne].
    + rewrite lookup_insert_eq in Hs2. injection Hs2 as <-. set_solver.
    + rewrite lookup_insert_ne in Hs2 by done. eapply (wf_viewers _ Hwf1); eauto.
  - intros v2 c2 Hc2 Hl.
    rewrite lookup_insert_ne by (apply not_eq_sym; eapply wf_no_live_of_absent; eauto).
    eapply (wf_live _ Hwf1); eauto.
  - apply (wf_fresh _ Hwf1).
  - apply (wf_idle _ Hwf1).
  - apply (wf_port _ Hwf1).
Qed.

(** ** Events and connection updates *)

Lemma emit_wf e r : relay_wf r → relay_wf (emit e r).
Proof. intros []. by constructor. Qed.

(** Replacing a transport by one attached to the same session, live exactly
    when the old one was, keeps the invariant (a write, a failure). *)
Lemma set_conn_wf r v c c' :
  relay_wf r → r_conns r !! v = Some c →
  conn_session c' = conn_session c → (conn_live c' ↔ conn_live c) →
  relay_wf (set_conns (<[v := c']> (r_conns r)) r).
Proof.
  intros Hwf Hc Hsess Hlive. constructor; simpl.
  - intros sid s v2 Hs Hv2.
    destruct (wf_viewers _ Hwf _ _ _ Hs Hv2) as (c2 & Hc2 & Hc2s & Hl2).
    destruct (decide (v2 = v)) as [->|Hne].
    + rewrite Hc in Hc2. injection Hc2 as <-. rewrite lookup_insert_eq.
      eexists; split_and!; [done|congruence|by apply Hlive].
    + rewrite lookup_insert_ne by done. eauto.
  - intros v2 c2 Hc2 Hl2. destruct (decide (v2 = v)) as [->|Hne].
    + rewrite lookup_insert_eq in Hc2. injection Hc2 as <-. rewrite Hsess.
      apply (wf_live _ Hwf v c Hc). by apply Hlive.
    + rewrite lookup_insert_ne in Hc2 by done. eapply (wf_live _ Hwf); eauto.
  - intros v2 Hv2.
    assert (v2 ≠ v) by (intros ->; by rewrite (wf_fresh _ Hwf v Hv2) in Hc).
    rewrite lookup_insert_ne by done. by apply (wf_fresh _ Hwf).
  - intros Hph v2 c2 Hc2. destruct (decide (v2 = v)) as [->|Hne].
    + rewrite lookup_insert_eq in Hc2. injection Hc2 as <-. rewrite Hlive.
      eapply (wf_idle _ Hwf); eauto.
    + rewrite lookup_insert_ne in Hc2 by done. eapply (wf_idle _ Hwf); eauto.
  - apply (wf_port _ Hwf).
Qed.

Lemma bcast_one_wf sid data r v : relay_wf r → relay_wf (bcast_one sid data r v).
Proof.
  intros Hwf. unfold bcast_one.
  destruct (r_conns r !! v) as [c|] eqn:Hc; [|done].
  destruct (conn_st c) eqn:Hst; [|by apply drop_viewer_wf|done].
  eapply set_conn_wf; eauto; done.
Qed.

Lemma broadcast_wf sid data r : relay_wf r → relay_wf (broadcastOutput sid data r).
Proof.
  intros Hwf. unfold broadcastOutput. destruct (r_sessions r !! sid); [|done].
  apply foldl_preserve; [done|]. intros. by apply bcast_one_wf.
Qed.

Lemma input_wf v data r : relay_wf r → relay_wf (viewerInput v data r).
Proof.
  intros Hwf. unfold viewerInput.
  repeat (case_match || case_bool_decide); try done; by apply emit_wf.
Qed.

Lemma fail_wf v r : relay_wf r → relay_wf (transportFail v r).
Proof.
  intros Hwf. unfold transportFail.
  destruct (r_conns r !! v) as [c|] eqn:Hc; [|done].
  case_bool_decide as Hst; [|done].
  eapply set_conn_wf; eauto. unfold conn_live. simpl. rewrite Hst. done.
Qed.

Lemma close_wf v r : relay_wf r → relay_wf (viewerClose v r).
Proof. intros Hwf. unfold viewerClose. case_match; [by apply drop_viewer_wf|done]. Qed.

Lemma expire_wf now r : relay_wf r → relay_wf (expireSessions now r).
Proof.
  intros Hwf. unfold expireSessions. apply foldl_preserve; [done|].
  intros. by apply unregister_wf.
Qed.

(** ** The handshake *)

Lemma handshake_wf q r : relay_wf r → relay_wf (handshake q r).1.
Proof.
  intros Hwf. unfold handshake.
  case_bool_decide as Hrun; [|done].
  destruct (r_sessions r !! req_session q) as [s|] eqn:Hs; [|done].
  destruct (credentials_ok s q); [|done].
  apply emit_wf. set (v := r_next_conn r).
  assert (Hfresh : r_conns r !! v = None) by (by apply (wf_fresh _ Hwf)).
  assert (Hnot : ∀ sid2 s2, r_sessions r !! sid2 = Some s2 → v ∉ ss_viewers s2).
  { intros sid2 s2 Hs2 Hv. destruct (wf_viewers _ Hwf _ _ _ Hs2 Hv) as (c & Hc & _). congruence. }
  constructor; simpl.
  - intros sid2 s2 v2 Hs2 Hv2.
    destruct (decide (v2 = v)) as [->|Hne].
    + destruct (decide (sid2 = req_session q)) as [->|Hne2].
      * rewrite lookup_insert_eq. eexists; split_and!; [done|done|]. by unfold conn_live.
      * rewrite lookup_insert_ne in Hs2 by done. by destruct (Hnot _ _ Hs2 Hv2).
    + rewrite lookup_insert_ne by done.
      destruct (decide (sid2 = req_session q)) as [->|Hne2].
      * rewrite lookup_insert_eq in Hs2. injection Hs2 as <-. simpl in Hv2.
        eapply (wf_viewers _ Hwf); [done|]. set_solver.
      * rewrite lookup_insert_ne in Hs2 by done. eapply (wf_viewers _ Hwf); eauto.
  - intros v2 c2 Hc2 Hl. destruct (decide (v2 = v)) as [->|Hne].
    + rewrite lookup_insert_eq in Hc2. injection Hc2 as <-. simpl.
      rewrite lookup_insert_eq. eexists; split; [done|]. simpl. set_solver.
    + rewrite lookup_insert_ne in Hc2 by done.
      destruct (wf_live _ Hwf _ _ Hc2 Hl) as (s2 & Hs2 & Hv2).
      destruct (decide (conn_session c2 = req_session q)) as [Heq|Hne2].
      * rewrite Heq, lookup_insert_eq. eexists; split; [done|].
        rewrite Heq, Hs in Hs2. injection Hs2 as <-. simpl. set_solver.
      * rewrite lookup_insert_ne by done. eauto.
  - intros v2 Hv2. rewrite lookup_insert_ne by (unfold v in *; lia).
    apply (wf_fresh _ Hwf). unfold v in *. lia.
  - rewrite Hrun. intros [? | ?]; discriminate.
  - apply (wf_port _ Hwf).
Qed.

Lemma attach_wf now q r : relay_wf r → relay_wf (attach now q r).1.
Proof. intros Hwf. apply handshake_wf. by apply expire_wf. Qed.

(** ** Binding a port *)

Lemma foldr_max_bounds (l : list Z) (b : Z) :
  b ≤ foldr Z.max b l ∧ ∀ x, x ∈ l → x ≤ foldr Z.max b l.
Proof.
  induction l as [|y l [IH1 IH2]]; simpl; split.
  - lia.
  - intros x Hx. by apply elem_of_nil in Hx.
  - lia.
  - intros x [->|Hx]%elem_of_cons; [lia|]. specialize (IH2 x Hx). lia.
Qed.

(** The port the system picks for [port = 0] is in the ephemeral range and
    not bound yet. *)
Lemma ephemeral_port_fresh (bound : gset Z) :
  49151 < ephemeral_port bound ∧ ephemeral_port bound ∉ bound.
Proof.
  unfold ephemeral_port, set_fold. simpl.
  destruct (foldr_max_bounds (elements bound) 49151) as [H1 H2]. split; [lia|].
  intros Hin%elem_of_elements. specialize (H2 _ Hin). lia.
Qed.

(** What a successful [listen] returns: a positive port, not bound before,
    the requested one unless [0] was requested. *)
Lemma bind_ok port host r p :
  bind port host r = Ok p →
  0 < p ∧ (p ∉ r_bound r) ∧ (port ≠ 0 → p = port) ∧ (host ∈ r_hosts r).
Proof.
  unfold bind. intros Hb.
  repeat case_bool_decide; simplify_eq; try done.
  - destruct (ephemeral_port_fresh (r_bound r)). split_and!; [lia|done|done|].
    destruct (decide (host ∈ r_hosts r)); tauto.
  - split_and!; [lia|done|done|]. destruct (decide (host ∈ r_hosts r)); tauto.
Qed.

(** ** Lifecycle *)

Lemma start_begin_wf r : r_phase r = Stopped → relay_wf r → relay_wf (start_begin r).
Proof.
  intros Hph [W1 W2 W3 W4 W5]. constructor; simpl; try done.
  - intros _. apply W4. by left.
Qed.

Lemma start_complete_wf host res r :
  r_phase r = Starting → (∀ p, res = Ok p → 0 < p) →
  relay_wf r → relay_wf (start_complete host res r).
Proof.
  intros Hph Hres [W1 W2 W3 W4 W5].
  destruct res as [p|e]; constructor; simpl; try done.
  - intros [? | ?]; discriminate.
  - intros _. split; [by apply Hres|set_solver].
  - intros _. apply W4. by right.
Qed.

Lemma stop_begin_wf r : relay_wf r → relay_wf (stop_begin r).
Proof. intros [W1 W2 W3 W4 W5]. constructor; simpl; try done. by intros [? | ?]. Qed.

Lemma unregister_all_sessions r l :
  r_sessions (foldl (λ r sid, unregisterSession sid r) r l) =
  foldl (λ m k, delete k m) (r_sessions r) l.
Proof.
  revert r. induction l as [|k l IH]; intros r; simpl; [done|].
  by rewrite IH, unregister_sessions.
Qed.

Lemma delete_all_lookup {A} (m : gmap string A) l k :
  foldl (λ m k, delete k m) m l !! k = if decide (k ∈ l) then None else m !! k.
Proof.
  revert m. induction l as [|k' l IH]; intros m; simpl.
  - destruct (decide (k ∈ [])) as [H|H]; [by apply elem_of_nil in H|]. done.
  - rewrite IH. destruct (decide (k = k')) as [->|Hne].
    + rewrite lookup_delete_eq. repeat case_decide; try done; set_solver.
    + rewrite lookup_delete_ne by done. repeat case_decide; try done; set_solver.
Qed.

(** Deleting every key of a map leaves the empty map. *)
Lemma delete_all_keys {A} (m : gmap string A) :
  foldl (λ m k, delete k m) m (map fst (map_to_list m)) = ∅.
Proof.
  apply map_eq. intros k. rewrite delete_all_lookup, lookup_empty.
  case_decide as Hk; [done|].
  destruct (m !! k) as [x|] eqn:Hm; [|done]. exfalso. apply Hk.
  apply list_elem_of_fmap. exists (k, x). split; [done|]. by apply elem_of_map_to_list.
Qed.

(** [stop] leaves no session registered. *)
Lemma stop_complete_sessions r : r_sessions (stop_complete r) = ∅.
Proof. unfold stop_complete. simpl. by rewrite unregister_all_sessions, delete_all_keys. Qed.

Lemma stop_complete_wf r : relay_wf r → relay_wf (stop_complete r).
Proof.
  intros Hwf.
  set (r1 := foldl (λ r sid, unregisterSession sid r) r (map fst (map_to_list (r_sessions r)))).
  assert (Hwf1 : relay_wf r1) by (apply foldl_preserve; [done|]; intros; by apply unregister_wf).
  pose proof (stop_complete_sessions r) as Hs. unfold stop_complete in *. fold r1 in Hs |- *.
  constructor; simpl in *.
  - intros sid s v. by rewrite Hs, lookup_empty.
  - intros v c Hc Hl. rewrite lookup_fmap in Hc.
    destruct (r_conns r1 !! v); simplify_eq/=. by apply conn_close_dead in Hl.
  - intros v Hv. rewrite lookup_fmap. by rewrite (wf_fresh _ Hwf1 v Hv).
  - intros _ v c Hc. rewrite lookup_fmap in Hc.
    destruct (r_conns r1 !! v); simplify_eq/=. apply conn_close_dead.
  - done.
Qed.

Lemma setPublicUrl_wf u r : relay_wf r → relay_wf (setPublicUrl u r).
Proof. intros []. by constructor. Qed.

(** ** The step relation

    One step per operation of the relay.  [start] and [stop] are split at
    their suspension points ([await listen], [await close]): between
    [rs_start_begin] and [rs_start_complete] any other operation can run,
    and likewise while stopping. *)

Inductive relay_step : relay → relay → Prop :=
| rs_register sid tok m pw exp now r r' :
    registerSession sid tok m pw exp now r = Ok r' → relay_step r r'
| rs_unregister sid r : relay_step r (unregisterSession sid r)
| rs_attach now q r : relay_step r (attach now q r).1
| rs_broadcast sid data r : relay_step r (broadcastOutput sid data r)
| rs_input v data r : relay_step r (viewerInput v data r)
| rs_fail v r : relay_step r (transportFail v r)
| rs_close v r : relay_step r (viewerClose v r)
| rs_expire now r : relay_step r (expireSessions now r)
| rs_start_begin r : r_phase r = Stopped → relay_step r (start_begin r)
| rs_start_complete port host r :
    r_phase r = Starting → relay_step r (start_complete host (bind port host r) r)
| rs_stop_begin r : r_phase r = Running → relay_step r (stop_begin r)
| rs_stop_complete r : r_phase r = Stopping → relay_step r (stop_complete r)
| rs_public_url u r : relay_step r (setPublicUrl u r).

Definition relay_reachable (bound : gset Z) (hosts : gset string) (r : relay) : Prop :=
  rtc relay_step (relay_init bound hosts) r.

Lemma relay_init_wf bound hosts : relay_wf (relay_init bound hosts).
Proof. constructor; simpl; done. Qed.

Lemma relay_step_wf r r' : relay_step r r' → relay_wf r → relay_wf r'.
Proof.
  destruct 1; intros Hwf.
  - eapply register_wf; eauto.
  - by apply unregister_wf.
  - by apply attach_wf.
  - by apply broadcast_wf.
  - by apply input_wf.
  - by apply fail_wf.
  - by apply close_wf.
  - by apply expire_wf.
  - by apply start_begin_wf.
  - apply start_complete_wf; [done| |done]. intros p Hp. by apply bind_ok in Hp as [? _].
  - by apply stop_begin_wf.
  - by apply stop_complete_wf.
  - by apply setPublicUrl_wf.
Qed.

Lemma relay_rtc_wf r r' : rtc relay_step r r' → relay_wf r → relay_wf r'.
Proof. induction 1; eauto using relay_step_wf. Qed.

(** The functional [start] is the sequence of its steps. *)
Lemma start_steps port host r : rtc relay_step r (start port host r).1.
Proof.
  unfold start. destruct (r_phase r) eqn:Hph; simpl; try reflexivity.
  eapply rtc_l; [by apply rs_start_begin|].
  apply rtc_once. by apply rs_start_complete.
Qed.

Lemma stop_steps r : rtc relay_step r (stop r).
Proof.
  unfold stop. destruct (r_phase r) eqn:Hph; try reflexivity.
  eapply rtc_l; [by apply rs_stop_begin|]. apply rtc_once. by apply rs_stop_complete.
Qed.

Lemma start_wf port host r : relay_wf r → relay_wf (start port host r).1.
Proof. apply relay_rtc_wf, start_steps. Qed.

Lemma stop_wf r : relay_wf r → relay_wf (stop r).
Proof. apply relay_rtc_wf, stop_steps. Qed.

#[export] Hint Resolve relay_init_wf unregister_wf attach_wf broadcast_wf input_wf
  fail_wf close_wf expire_wf start_wf stop_wf setPublicUrl_wf : tlink.
