(* ===== verification/RelayServer.v ===== *)
(** * The relay implements the main process's interface

    The instance [relay_server] maps each method of [SharingServer] to the
    relay operation of [Relay.v]; [relay_server_laws] proves the laws the
    main process relies on.  The event-log laws rest on one fact: every
    operation of the relay only appends to [r_events]. *)

From S2P Require Import Prelude JsString ServerIface Relay RelayInv.

Local Open Scope Z_scope.

#[export] Instance relay_server : SharingServer relay := {|
  srv_start := start;
  srv_stop := stop;
  srv_isStarted := isStarted;
  srv_getPort := r_port;
  srv_getHost := r_host;
  srv_getWebSocketUrl := getWebSocketUrl;
  srv_getPublicUrl := r_public_url;
  srv_setPublicUrl := setPublicUrl;
  srv_registerSession := registerSession;
  srv_unregisterSession := unregisterSession;
  srv_broadcastOutput := broadcastOutput;
  srv_getViewerCount := viewerCount;
  srv_getActiveSessionCount := getActiveSessionCount;
  srv_events := r_events;
|}.

(** ** The event log only grows *)

Definition events_grow (r r' : relay) : Prop := r_events r `prefix_of` r_events r'.

Lemma events_grow_refl r : events_grow r r.
Proof. unfold events_grow. done. Qed.

Lemma events_grow_trans r1 r2 r3 : events_grow r1 r2 → events_grow r2 r3 → events_grow r1 r3.
Proof. unfold events_grow. apply transitivity. Qed.

Lemma emit_grow e r : events_grow r (emit e r).
Proof. unfold events_grow. simpl. by apply prefix_app_r. Qed.

#[export] Hint Resolve events_grow_refl emit_grow : tlink.

(** A loop of growing steps grows. *)
Lemma foldl_grow {X} (f : relay → X → relay) l r :
  (∀ r' x, events_grow r' (f r' x)) → events_grow r (foldl f r l).
Proof.
  intros Hf. apply foldl_rel; [apply events_grow_refl|apply events_grow_trans|].
  intros. apply Hf.
Qed.

Lemma drop_viewer_grow sid r v : events_grow r (drop_viewer sid r v).
Proof.
  unfold drop_viewer. destruct (r_sessions r !! sid); [|apply events_grow_refl].
  case_bool_decide; [|apply events_grow_refl].
  unfold events_grow. simpl. by apply prefix_app_r.
Qed.

Lemma unregister_grow sid r : events_grow r (unregisterSession sid r).
Proof.
  unfold unregisterSession. destruct (r_sessions r !! sid) as [s|]; [|apply events_grow_refl].
  change (events_grow r (foldl (drop_viewer sid) r (elements (ss_viewers s)))).
  apply foldl_grow, drop_viewer_grow.
Qed.

Lemma bcast_one_grow sid data r v : events_grow r (bcast_one sid data r v).
Proof.
  unfold bcast_one. destruct (r_conns r !! v) as [c|]; [|apply events_grow_refl].
  destruct (conn_st c); [apply (events_grow_refl r)|apply drop_viewer_grow|apply events_grow_refl].
Qed.

Lemma broadcast_grow sid data r : events_grow r (broadcastOutput sid data r).
Proof.
  unfold broadcastOutput. case_match; [|apply events_grow_refl].
  apply foldl_grow, bcast_one_grow.
Qed.

Lemma expire_grow now r : events_grow r (expireSessions now r).
Proof. apply foldl_grow. intros. apply unregister_grow. Qed.

Lemma register_grow sid t m pw e now r r' :
  registerSession sid t m pw e now r = Ok r' → events_grow r r'.
Proof.
  unfold registerSession. case_match; [|done]. intros [= <-]. apply unregister_grow.
Qed.

Lemma unregister_all_grow l r : events_grow r (foldl (λ r sid, unregisterSession sid r) r l).
Proof. apply foldl_grow. intros. apply unregister_grow. Qed.

Lemma stop_grow r : events_grow r (stop r).
Proof.
  unfold stop. case_match; try apply events_grow_refl.
  unfold stop_complete, events_grow. simpl. apply (unregister_all_grow _ (stop_begin r)).
Qed.

Lemma start_grow p h r : events_grow r (start p h r).1.
Proof.
  unfold start, start_complete, events_grow. repeat case_match; simpl; done.
Qed.

(** ** The laws *)

#[export] Instance relay_server_laws : SharingServerLaws relay.
Proof.
  split; simpl.
  - intros p h s s' port. unfold start, start_complete, isStarted.
    destruct (r_phase s) eqn:Hph; intros Hs; simplify_eq/=; try done.
    + destruct (bind p h (start_begin s)); simplify_eq/=. done.
    + by rewrite Hph.
  - intros p h s s' e. unfold start, start_complete, isStarted.
    destruct (r_phase s) eqn:Hph; intros Hs; simplify_eq/=; try (by rewrite Hph).
    destruct (bind p h (start_begin s)); simplify_eq/=. done.
  - intros p h s. unfold isStarted, start. case_bool_decide as H; [|done]. by rewrite H.
  - intros s. unfold stop, isStarted. destruct (r_phase s) eqn:Hph; simpl; by rewrite ?Hph.
  - intros s. unfold isStarted, stop. case_bool_decide as H; [|done]. rewrite H.
    unfold getActiveSessionCount. rewrite stop_complete_sessions. done.
  - done.
  - done.
  - intros. apply start_grow.
  - intros. apply stop_grow.
  - intros. by eapply register_grow.
  - intros. apply unregister_grow.
  - intros. apply broadcast_grow.
  - done.
Qed.

Lemma handshake_grow q r : events_grow r (handshake q r).1.
Proof.
  unfold handshake. case_bool_decide; [|apply events_grow_refl].
  destruct (r_sessions r !! req_session q); [|apply events_grow_refl].
  destruct (credentials_ok _ _); [|apply events_grow_refl]. unfold events_grow. simpl. by apply prefix_app_r.
Qed.

Lemma attach_grow now q r : events_grow r (attach now q r).1.
Proof. eapply events_grow_trans; [apply expire_grow|apply handshake_grow]. Qed.

Lemma input_grow v d r : events_grow r (viewerInput v d r).
Proof. unfold viewerInput. repeat case_match; auto with tlink. Qed.

Lemma fail_grow v r : events_grow r (transportFail v r).
Proof. unfold transportFail, events_grow. repeat case_match; done. Qed.

Lemma close_grow v r : events_grow r (viewerClose v r).
Proof. unfold viewerClose. case_match; [apply drop_viewer_grow|apply events_grow_refl]. Qed.
