(* ===== verification/App.v ===== *)
(** * The main process's session-sharing layer ([src/app/lib/app.ts])

    [Application] owns the relay ([sessionSharingServer]), the windows and
    the [sessionSharing] section of the configuration.  This file models
    what [initSessionSharing] installs: one handler per IPC channel, the
    three [process.on] listeners that turn relay events into window
    messages, [init]'s auto-start and the [before-quit] hook.  Everything
    is written against the interface [SharingServer] of [ServerIface.v];
    the theorems of the first part use only its laws.

    State ([app_state]): the server, the messages broadcast to the windows
    so far ([app_sent], the calls of [Application.broadcast]; every
    window receives the same sequence), the configuration and the
    [quitRequested] flag.

    A relay event reaches the windows synchronously: [process.emit] runs
    the listeners before the emitting call returns.  So every handler that
    calls the server is [app_run f]: run [f] on the server, then broadcast
    the message of each event [f] emitted, in order. *)

From S2P Require Import Prelude JsString ServerIface.

Local Open Scope Z_scope.

(** ** Data *)

(** [configStore.sessionSharing] ([bindHost], [port], [autoStart],
    [enableTunneling]); [None] when the section is absent ([|| {}]). *)
Record sharing_config := SharingConfig {
  cfg_bindHost : option string;
  cfg_port : option Z;
  cfg_autoStart : bool;
  cfg_enableTunneling : bool;
}.

Definition empty_config : sharing_config := SharingConfig None None false false.

(** The status object [{isRunning, port, host, url, publicUrl}]. *)
Record status := Status {
  st_isRunning : bool;
  st_port : Z;
  st_host : string;
  st_url : option string;
  st_publicUrl : option string;
}.

(** A message [Application.broadcast] sends to every window. *)
Inductive renderer_msg :=
| MsgStatusChanged (st : status)                    (* session-sharing:server-status-changed *)
| MsgViewerCountChanged (sid : string) (count : nat) (* session-sharing:viewer-count-changed *)
| MsgTerminalInput (sid : string) (data : string).   (* session-sharing:terminal-input *)

Section App.
Context {S : Type} `{SharingServer S}.

Record app_state := AppState {
  app_server : S;
  app_sent : list renderer_msg;
  app_config : option sharing_config;
  app_quitRequested : bool;
}.

Definition app_init_state (s : S) (cfg : option sharing_config) : app_state :=
  AppState s [] cfg false.

(** [broadcast(event, ...args)]: to every window. *)
Definition broadcast (m : renderer_msg) (a : app_state) : app_state :=
  AppState (app_server a) (app_sent a ++ [m]) (app_config a) (app_quitRequested a).

(** ** The [process.on] listeners *)

(** [viewer-joined] and [viewer-left] become [viewer-count-changed];
    [input] becomes [terminal-input]. *)
Definition on_server_event (e : server_event) : renderer_msg :=
  match e with
  | EvViewerJoined sid n => MsgViewerCountChanged sid n
  | EvViewerLeft sid n => MsgViewerCountChanged sid n
  | EvInput sid d => MsgTerminalInput sid d
  end.

(** Install the new server state and run the listeners on the events it
    emitted since the old one. *)
Definition app_dispatch (s' : S) (a : app_state) : app_state :=
  let fresh := drop (length (srv_events (app_server a))) (srv_events s') in
  AppState s' (app_sent a ++ map on_server_event fresh) (app_config a) (app_quitRequested a).

Definition app_run (f : S → S) (a : app_state) : app_state :=
  app_dispatch (f (app_server a)) a.

(** ** IPC handlers *)

(** [session-sharing:get-server-url] *)
Definition ipc_get_server_url (usePublicUrl : bool) (a : app_state) : option string :=
  srv_getWebSocketUrl usePublicUrl (app_server a).

(** [session-sharing:register], at time [now]; the promise rejects when
    the server throws. *)
Definition ipc_register (sid token mode : string) (password : option string)
    (expiresIn : option Z) (now : Z) (a : app_state) : app_state * result string unit :=
  match srv_registerSession sid token mode password expiresIn now (app_server a) with
  | Ok s' => (app_dispatch s' a, Ok ())
  | Err e => (a, Err e)
  end.

(** [session-sharing:unregister] *)
Definition ipc_unregister (sid : string) (a : app_state) : app_state :=
  app_run (srv_unregisterSession sid) a.

(** [session-sharing:broadcast-output] *)
Definition ipc_broadcast_output (sid : string) (data : string) (a : app_state) : app_state :=
  app_run (srv_broadcastOutput sid data) a.

(** [session-sharing:forward-input]: echoed to the windows as
    [terminal-input]; the relay is not involved. *)
Definition ipc_forward_input (sid : string) (data : string) (a : app_state) : app_state :=
  broadcast (MsgTerminalInput sid data) a.

(** [session-sharing:get-viewer-count] *)
Definition ipc_get_viewer_count (sid : string) (a : app_state) : nat :=
  srv_getViewerCount sid (app_server a).

Definition current_status (s : S) : status :=
  Status (srv_isStarted s) (srv_getPort s) (srv_getHost s)
    (srv_getWebSocketUrl false s) (srv_getPublicUrl s).

(** [session-sharing:get-server-status]: the status and [activeSessions]. *)
Definition ipc_get_server_status (a : app_state) : status * nat :=
  (current_status (app_server a), srv_getActiveSessionCount (app_server a)).

(** [session-sharing:is-server-running] *)
Definition ipc_is_server_running (a : app_state) : bool := srv_isStarted (app_server a).

(** The address [start-server] binds:
    [host || sessionSharingConfig.bindHost || '0.0.0.0'] and
    [port || sessionSharingConfig.port || 0]. *)
Definition bind_host (host : option string) (a : app_state) : string :=
  let cfg := default empty_config (app_config a) in
  js_or_str host (js_or_str (cfg_bindHost cfg) "0.0.0.0").

Definition bind_port (port : option Z) (a : app_state) : Z :=
  let cfg := default empty_config (app_config a) in
  js_or_num port (js_or_num (cfg_port cfg) 0).

(** [session-sharing:start-server]: [{success: true, port, host}] after
    broadcasting the new status, or [{success: false, error}]. *)
Definition ipc_start_server (port : option Z) (host : option string) (a : app_state)
    : app_state * result string (Z * string) :=
  let h := bind_host host a in
  let p := bind_port port a in
  let '(s', res) := srv_start p h (app_server a) in
  let a1 := app_dispatch s' a in
  match res with
  | Ok actual =>
      (broadcast (MsgStatusChanged (Status true actual h (srv_getWebSocketUrl false s')
                                      (srv_getPublicUrl s'))) a1,
       Ok (actual, h))
  | Err e => (a1, Err e)
  end.

(** [session-sharing:stop-server]: [{success: true}] after broadcasting
    the stopped status. *)
Definition ipc_stop_server (a : app_state) : app_state * result string unit :=
  let a1 := app_run srv_stop a in
  (broadcast (MsgStatusChanged (Status false 0 "0.0.0.0" None None)) a1, Ok ()).

(** [session-sharing:set-public-url] *)
Definition ipc_set_public_url (u : option string) (a : app_state) : app_state :=
  let a1 := app_run (srv_setPublicUrl u) a in
  broadcast (MsgStatusChanged (current_status (app_server a1))) a1.

(** [session-sharing:get-public-url] *)
Definition ipc_get_public_url (a : app_state) : option string :=
  srv_getPublicUrl (app_server a).

(** ** Application lifecycle *)

(** [init()]: start the server when [autoStart] is set, on
    [bindHost || '0.0.0.0'] and [port || 0]; a failure is only logged.
    [startTunnelingService] only logs, so [enableTunneling] changes
    nothing. *)
Definition app_init (a : app_state) : app_state :=
  let cfg := default empty_config (app_config a) in
  if cfg_autoStart cfg then
    let h := js_or_str (cfg_bindHost cfg) "0.0.0.0" in
    let p := js_or_num (cfg_port cfg) 0 in
    app_dispatch (srv_start p h (app_server a)).1 a
  else a.

(** The [before-quit] hook: stop the server, remember the request. *)
Definition app_before_quit (a : app_state) : app_state :=
  let a1 := app_run srv_stop a in
  AppState (app_server a1) (app_sent a1) (app_config a1) true.

End App.

Arguments app_state S : clear implicits.

(** ** Theorems against the interface *)

Section AppLaws.
Context {S : Type} `{SharingServerLaws S}.
Implicit Types (a : app_state S) (s : S).

(** The viewer counts carried by the window messages, and by the relay's
    events. *)
Definition count_msgs (l : list renderer_msg) : list (string * nat) :=
  omap (λ m, match m with MsgViewerCountChanged sid n => Some (sid, n) | _ => None end) l.

Definition ev_counts (l : list server_event) : list (string * nat) :=
  omap (λ e, match e with
             | EvViewerJoined sid n | EvViewerLeft sid n => Some (sid, n)
             | EvInput _ _ => None
             end) l.

(** The windows have been told exactly the viewer counts the relay
    emitted, in emission order. *)
Definition counts_in_sync a : Prop :=
  count_msgs (app_sent a) = ev_counts (srv_events (app_server a)).

Lemma count_msgs_app l1 l2 : count_msgs (l1 ++ l2) = count_msgs l1 ++ count_msgs l2.
Proof. apply omap_app. Qed.

Lemma count_msgs_listeners l : count_msgs (map on_server_event l) = ev_counts l.
Proof. induction l as [|[] l IH]; simpl; by rewrite ?IH. Qed.

Lemma ev_counts_app l1 l2 : ev_counts (l1 ++ l2) = ev_counts l1 ++ ev_counts l2.
Proof. apply omap_app. Qed.

(** Dispatching a state whose log extends the old one broadcasts exactly
    the new events. *)
Lemma dispatch_sent s' a l :
  srv_events s' = srv_events (app_server a) ++ l →
  app_sent (app_dispatch s' a) = app_sent a ++ map on_server_event l.
Proof. intros Hl. unfold app_dispatch. simpl. by rewrite Hl, drop_app_length. Qed.

Lemma dispatch_sync s' a :
  srv_events (app_server a) `prefix_of` srv_events s' →
  counts_in_sync a → counts_in_sync (app_dispatch s' a).
Proof.
  intros [l Hl] Hs. unfold counts_in_sync in *.
  rewrite (dispatch_sent s' a l Hl). simpl.
  by rewrite count_msgs_app, Hs, count_msgs_listeners, Hl, ev_counts_app.
Qed.

Lemma broadcast_status_sync st a : counts_in_sync a → counts_in_sync (broadcast (MsgStatusChanged st) a).
Proof. unfold counts_in_sync. simpl. rewrite count_msgs_app. simpl. by rewrite app_nil_r. Qed.

Lemma broadcast_input_sync sid d a : counts_in_sync a → counts_in_sync (broadcast (MsgTerminalInput sid d) a).
Proof. unfold counts_in_sync. simpl. rewrite count_msgs_app. simpl. by rewrite app_nil_r. Qed.

#[local] Hint Resolve dispatch_sync broadcast_status_sync broadcast_input_sync : tlink.

(** One step of the main process: an IPC call, the application's own
    lifecycle, or a network event the relay handles ([f] stands for the
    relay's handling; it only appends to the event log). *)
Inductive app_step : app_state S → app_state S → Prop :=
| as_register sid t m pw e now a : app_step a (ipc_register sid t m pw e now a).1
| as_unregister sid a : app_step a (ipc_unregister sid a)
| as_broadcast sid d a : app_step a (ipc_broadcast_output sid d a)
| as_forward_input sid d a : app_step a (ipc_forward_input sid d a)
| as_start p h a : app_step a (ipc_start_server p h a).1
| as_stop a : app_step a (ipc_stop_server a).1
| as_public_url u a : app_step a (ipc_set_public_url u a)
| as_init a : app_step a (app_init a)
| as_quit a : app_step a (app_before_quit a)
| as_network f a : (∀ s, srv_events s `prefix_of` srv_events (f s)) → app_step a (app_run f a).

Lemma app_step_sync a a' : app_step a a' → counts_in_sync a → counts_in_sync a'.
Proof.
  destruct 1 as [sid t m pw e now a|sid a|sid d a|sid d a|p h a|a|u a|a|a|f a Hf]; intros Hs.
  - unfold ipc_register.
    destruct (srv_registerSession sid t m pw e now (app_server a)) eqn:Hr; simpl; [|done].
    apply dispatch_sync; [by eapply law_events_register|done].
  - apply dispatch_sync; [apply law_events_unregister|done].
  - apply dispatch_sync; [apply law_events_broadcast|done].
  - by apply broadcast_input_sync.
  - unfold ipc_start_server.
    pose proof (law_events_start (bind_port p a) (bind_host h a) (app_server a)) as Hg.
    destruct (srv_start _ _ _) as [s' [|]]; simpl in *; auto with tlink.
  - apply broadcast_status_sync, dispatch_sync; [apply law_events_stop|done].
  - apply broadcast_status_sync, dispatch_sync; [|done].
    by rewrite law_events_public_url.
  - unfold app_init. case_match; [|done]. apply dispatch_sync; [apply law_events_start|done].
  - unfold app_before_quit. apply (dispatch_sync _ a); [apply law_events_stop|done].
  - by apply dispatch_sync.
Qed.

Lemma app_rtc_sync a a' : rtc app_step a a' → counts_in_sync a → counts_in_sync a'.
Proof. induction 1; eauto using app_step_sync. Qed.

(** [start-server] that succeeds leaves the server running on the port it
    returns, on the address computed from the arguments and the
    configuration, and the last window message is that status. *)
Lemma start_server_ok p h a a' port host :
  ipc_start_server p h a = (a', Ok (port, host)) →
  srv_isStarted (app_server a') = true ∧ srv_getPort (app_server a') = port ∧
  host = bind_host h a ∧
  ∃ url pub, last (app_sent a') = Some (MsgStatusChanged (Status true port host url pub)).
Proof.
  unfold ipc_start_server.
  destruct (srv_start (bind_port p a) (bind_host h a) (app_server a)) as [s' [actual|e]] eqn:Hs;
    intros Ha; simplify_eq/=.
  destruct (law_start_ok _ _ _ _ _ Hs) as [Hst Hp].
  split_and!; [done|done|done|]. do 2 eexists. apply last_snoc.
Qed.

(** A failed [start-server] leaves the server stopped and tells the
    windows nothing but the relay's events. *)
Lemma start_server_err p h a a' e :
  ipc_start_server p h a = (a', Err e) →
  srv_isStarted (app_server a') = false ∧ app_config a' = app_config a.
Proof.
  unfold ipc_start_server.
  destruct (srv_start (bind_port p a) (bind_host h a) (app_server a)) as [s' [actual|e']] eqn:Hs;
    intros Ha; simplify_eq/=.
  split; [by eapply law_start_err|done].
Qed.

(** [start-server] on a running server binds nothing: the server is
    unchanged and its port is returned. *)
Lemma start_server_running p h a :
  srv_isStarted (app_server a) = true →
  (ipc_start_server p h a).2 = Ok (srv_getPort (app_server a), bind_host h a) ∧
  app_server (ipc_start_server p h a).1 = app_server a.
Proof.
  intros Hrun. unfold ipc_start_server.
  rewrite (law_start_running _ _ _ Hrun). simpl. done.
Qed.

(** [stop-server] leaves the server stopped, without sessions when it was
    running, and reports the stopped status last. *)
Lemma stop_server_stops a :
  let a' := (ipc_stop_server a).1 in
  srv_isStarted (app_server a') = false ∧
  (srv_isStarted (app_server a) = true → srv_getActiveSessionCount (app_server a') = 0%nat) ∧
  last (app_sent a') = Some (MsgStatusChanged (Status false 0 "0.0.0.0" None None)) ∧
  (ipc_stop_server a).2 = Ok ().
Proof.
  simpl. split_and!.
  - apply law_stop_stopped.
  - apply law_stop_sessions.
  - apply last_snoc.
  - done.
Qed.

(** [before-quit] stops the server and records the quit request. *)
Lemma before_quit_stops a :
  srv_isStarted (app_server (app_before_quit a)) = false ∧ app_quitRequested (app_before_quit a) = true.
Proof. split; [apply law_stop_stopped|done]. Qed.

End AppLaws.
