(* ===== verification/RelayProps.v ===== *)
(** * Functional behaviour of the relay

    What each relay operation does, on every branch, for a well-formed
    state: the broadcast writes to every open viewer and drops the broken
    ones (the Broadcast Engine contract of spec 4.3), the handshake
    accepts exactly the requests with the right credentials on a running
    server (4.2), input is forwarded for interactive sessions only (4.4),
    the expiry sweep removes exactly the expired sessions and closes their
    viewers (4.5), unregistering is idempotent and registering overwrites
    (4.1), and [start] binds a fresh positive port (4.2, 8). *)

From S2P Require Import Prelude JsString ServerIface Relay RelayInv.

Local Open Scope Z_scope.

(** ** Broadcast *)

(** What one write does to a transport. *)
Definition bcast_conn (data : bytes) (c : conn) : conn :=
  match conn_st c with
  | ConnOpen => conn_write data c
  | ConnBroken => conn_close c
  | ConnClosed => c
  end.

Definition is_broken (r : relay) (v : nat) : bool :=
  match r_conns r !! v with
  | Some c => bool_decide (conn_st c = ConnBroken)
  | None => false
  end.

Lemma bcast_one_conns sid data r s v w :
  relay_wf r → r_sessions r !! sid = Some s → v ∈ ss_viewers s →
  r_conns (bcast_one sid data r v) !! w =
  if decide (w = v) then bcast_conn data <$> r_conns r !! v else r_conns r !! w.
Proof.
  intros Hwf Hs Hv. destruct (wf_viewers _ Hwf _ _ _ Hs Hv) as (c & Hc & Hcs & Hl).
  unfold bcast_one, bcast_conn. rewrite Hc. simpl.
  destruct (conn_st c) eqn:Hst; simpl.
  - case_decide; subst; [by rewrite lookup_insert_eq|by rewrite lookup_insert_ne].
  - unfold drop_viewer. rewrite Hs, bool_decide_true by done. simpl.
    case_decide; subst; [by rewrite lookup_alter_eq, Hc|by rewrite lookup_alter_ne].
  - by destruct Hl.
Qed.

Lemma bcast_one_sessions sid data r s v :
  relay_wf r → r_sessions r !! sid = Some s → v ∈ ss_viewers s →
  r_sessions (bcast_one sid data r v) =
  <[sid := if is_broken r v then ss_set_viewers (ss_viewers s ∖ {[v]}) s else s]> (r_sessions r).
Proof.
  intros Hwf Hs Hv. destruct (wf_viewers _ Hwf _ _ _ Hs Hv) as (c & Hc & Hcs & Hl).
  unfold bcast_one, is_broken. rewrite Hc.
  destruct (conn_st c) eqn:Hst; simpl.
  - by rewrite insert_id.
  - unfold drop_viewer. by rewrite Hs, bool_decide_true.
  - by destruct Hl.
Qed.

Lemma is_broken_bcast_other sid data r s v w :
  relay_wf r → r_sessions r !! sid = Some s → v ∈ ss_viewers s → w ≠ v →
  is_broken (bcast_one sid data r v) w = is_broken r w.
Proof.
  intros Hwf Hs Hv Hne. unfold is_broken.
  rewrite (bcast_one_conns sid data r s v w) by done. by rewrite decide_False.
Qed.

(** The broadcast loop over a duplicate-free list of viewers. *)
Lemma bcast_fold sid data vs :
  ∀ r s, relay_wf r → r_sessions r !! sid = Some s → NoDup vs →
  (∀ v, v ∈ vs → v ∈ ss_viewers s) →
  let r' := foldl (bcast_one sid data) r vs in
  relay_wf r' ∧
  (∀ w, r_conns r' !! w =
        if decide (w ∈ vs) then bcast_conn data <$> r_conns r !! w else r_conns r !! w) ∧
  r_sessions r' =
    <[sid := ss_set_viewers (ss_viewers s ∖ list_to_set (filter (is_broken r) vs)) s]>
      (r_sessions r).
Proof.
  induction vs as [|v vs IH]; intros r s Hwf Hs Hnd Hsub; simpl.
  - split_and!; [done| |].
    + intros w. repeat case_decide; try done; set_solver.
    + rewrite ss_set_viewers_same by set_solver. by rewrite insert_id.
  - apply NoDup_cons in Hnd as [Hv_notin Hnd].
    assert (Hv : v ∈ ss_viewers s) by (apply Hsub; left).
    set (s1 := if is_broken r v then ss_set_viewers (ss_viewers s ∖ {[v]}) s else s).
    set (r1 := bcast_one sid data r v).
    assert (Hwf1 : relay_wf r1) by (by apply bcast_one_wf).
    assert (Hs1 : r_sessions r1 = <[sid := s1]> (r_sessions r)) by (by apply bcast_one_sessions).
    assert (Hsub1 : ∀ w, w ∈ vs → w ∈ ss_viewers s1).
    { intros w Hw. unfold s1. destruct (is_broken r v); simpl; [|by apply Hsub; right].
      apply elem_of_difference. split; [apply Hsub; by right|set_solver]. }
    destruct (IH r1 s1 Hwf1 ltac:(by rewrite Hs1, lookup_insert_eq) Hnd Hsub1)
      as (Hwf' & Hconns & Hsess).
    split_and!; [done| |].
    + intros w. rewrite Hconns. unfold r1.
      rewrite (bcast_one_conns sid data r s v w) by done.
      destruct (decide (w = v)) as [->|Hne]; repeat case_decide; set_solver.
    + rewrite Hsess, Hs1, insert_insert_eq. f_equal.
      assert (Hf : filter (is_broken r1) vs = filter (is_broken r) vs).
      { apply list_filter_ext_in. intros w Hw. unfold r1.
        rewrite (is_broken_bcast_other sid data r s v w) by (done || set_solver). done. }
      rewrite Hf, filter_cons. unfold s1.
      destruct (is_broken r v); simpl; autorewrite with tlink_rw;
        apply ss_set_viewers_equiv; set_solver.
Qed.

(** [broadcastOutput]: every viewer's transport is written (open) or
    closed (broken); nothing else changes; the broken viewers leave the
    session. *)
Lemma broadcast_effect sid data r s :
  relay_wf r → r_sessions r !! sid = Some s →
  let r' := broadcastOutput sid data r in
  relay_wf r' ∧
  (∀ w, r_conns r' !! w =
        if decide (w ∈ ss_viewers s) then bcast_conn data <$> r_conns r !! w else r_conns r !! w) ∧
  r_sessions r' = <[sid := ss_set_viewers (filter (λ v, is_broken r v = false) (ss_viewers s)) s]>
                    (r_sessions r).
Proof.
  intros Hwf Hs. unfold broadcastOutput. rewrite Hs.
  destruct (bcast_fold sid data (elements (ss_viewers s)) r s Hwf Hs (NoDup_elements _)
              (λ v Hv, proj1 (elem_of_elements _ _) Hv)) as (Hwf' & Hc & Hss).
  split_and!; [done| |].
  - intros w. rewrite Hc. repeat case_decide; set_solver.
  - rewrite Hss. do 2 f_equal. apply set_eq. intros v.
    rewrite elem_of_difference, elem_of_filter, elem_of_list_to_set, list_elem_of_filter,
      elem_of_elements.
    destruct (is_broken r v); naive_solver.
Qed.

(** The session's viewer count after a broadcast: its viewers whose
    transport was not broken. *)
Lemma broadcast_viewerCount sid data r s :
  relay_wf r → r_sessions r !! sid = Some s →
  viewerCount sid (broadcastOutput sid data r) =
  size (filter (λ v, is_broken r v = false) (ss_viewers s)).
Proof.
  intros Hwf Hs. destruct (broadcast_effect sid data r s Hwf Hs) as (_ & _ & Hss).
  unfold viewerCount. by rewrite Hss, lookup_insert_eq.
Qed.

(** ** The handshake *)

Lemma handshake_not_running q r :
  r_phase r ≠ Running → handshake q r = (r, None).
Proof. intros Hph. unfold handshake. by rewrite bool_decide_false. Qed.

Lemma handshake_unknown q r :
  r_sessions r !! req_session q = None → handshake q r = (r, None).
Proof. intros Hs. unfold handshake. case_bool_decide; [|done]. by rewrite Hs. Qed.

Lemma handshake_bad_credentials q r s :
  r_sessions r !! req_session q = Some s → credentials_ok s q = false →
  handshake q r = (r, None).
Proof. intros Hs Hc. unfold handshake. case_bool_decide; [|done]. by rewrite Hs, Hc. Qed.

(** An accepted request attaches a fresh open transport to the session,
    grows its viewer set by one and emits [viewer-joined] with the new
    count. *)
Lemma handshake_accept q r s :
  relay_wf r → r_phase r = Running → r_sessions r !! req_session q = Some s →
  credentials_ok s q = true →
  let v := r_next_conn r in
  let r' := (handshake q r).1 in
  (handshake q r).2 = Some v ∧
  r_conns r' !! v = Some (Conn (req_session q) ConnOpen []) ∧
  r_sessions r' = <[req_session q := ss_set_viewers (ss_viewers s ∪ {[v]}) s]> (r_sessions r) ∧
  viewerCount (req_session q) r' = S (viewerCount (req_session q) r) ∧
  r_events r' = r_events r ++ [EvViewerJoined (req_session q) (S (viewerCount (req_session q) r))].
Proof.
  intros Hwf Hph Hs Hc. unfold handshake, viewerCount.
  rewrite bool_decide_true by done. rewrite Hs, Hc. simpl.
  assert (Hnot : r_next_conn r ∉ ss_viewers s).
  { intros Hv. destruct (wf_viewers _ Hwf _ _ _ Hs Hv) as (c & Hc' & _).
    rewrite (wf_fresh _ Hwf (r_next_conn r)) in Hc' by lia. done. }
  rewrite lookup_insert_eq, lookup_insert_eq. simpl.
  rewrite size_union, size_singleton by set_solver.
  rewrite Nat.add_1_r. split_and!; done.
Qed.

(** ** Unregistering and registering *)

Lemma unregister_unknown sid r : r_sessions r !! sid = None → unregisterSession sid r = r.
Proof. intros Hs. unfold unregisterSession. by rewrite Hs. Qed.

(** Unregistering twice is unregistering once. *)
Lemma unregister_idem sid r : unregisterSession sid (unregisterSession sid r) = unregisterSession sid r.
Proof. apply unregister_unknown. by rewrite unregister_sessions, lookup_delete_eq. Qed.

Lemma set_sessions_same r : set_sessions (r_sessions r) r = r.
Proof. by destruct r. Qed.

Lemma set_sessions_twice m1 m2 r : set_sessions m1 (set_sessions m2 r) = set_sessions m1 r.
Proof. done. Qed.

(** A session without viewers is unregistered by deleting it. *)
Lemma unregister_no_viewers sid r s :
  r_sessions r !! sid = Some s → ss_viewers s = ∅ →
  unregisterSession sid r = set_sessions (delete sid (r_sessions r)) r.
Proof. intros Hs Hv. unfold unregisterSession. by rewrite Hs, Hv, elements_empty. Qed.

(** Registering the same session twice in a row is registering it once. *)
Lemma register_idem sid tok m pw exp now r r1 :
  registerSession sid tok m pw exp now r = Ok r1 →
  registerSession sid tok m pw exp now r1 = Ok r1.
Proof.
  unfold registerSession. destruct (parse_mode m) as [md|]; [|done]. intros [= <-].
  f_equal. set (r' := unregisterSession sid r).
  rewrite (unregister_no_viewers sid _ _ (lookup_insert_eq _ _ _)) by done.
  unfold set_sessions; simpl. f_equal.
  by rewrite insert_delete_eq, insert_insert_eq.
Qed.

(** ** Expiry *)

Lemma elem_of_expired_ids now r sid :
  sid ∈ expired_ids now r ↔ ∃ s, r_sessions r !! sid = Some s ∧ expired now s = true.
Proof.
  unfold expired_ids. rewrite list_elem_of_bind. split.
  - intros ([k s] & Hin & Hm%elem_of_map_to_list). destruct (expired now s) eqn:He; [|set_solver].
    apply list_elem_of_singleton in Hin as ->. eauto.
  - intros (s & Hs & He). exists (sid, s). rewrite elem_of_map_to_list, He. set_solver.
Qed.

(** The sweep removes exactly the sessions whose expiry has passed. *)
Lemma expire_sessions now r :
  r_sessions (expireSessions now r) = filter (λ '(_, s), expired now s = false) (r_sessions r).
Proof.
  apply map_eq. intros k. unfold expireSessions.
  rewrite unregister_all_sessions, delete_all_lookup, map_lookup_filter.
  case_decide as Hk.
  - apply elem_of_expired_ids in Hk as (s & Hs & He). rewrite Hs. simpl.
    by rewrite option_guard_False by congruence.
  - destruct (r_sessions r !! k) as [s|] eqn:Hs; [|done]. simpl.
    destruct (expired now s) eqn:He.
    + exfalso. apply Hk, elem_of_expired_ids. eauto.
    + by rewrite option_guard_True.
Qed.

(** Transports are never removed: each keeps its session. *)
Definition conns_kept (r r' : relay) : Prop :=
  ∀ v c, r_conns r !! v = Some c → ∃ c', r_conns r' !! v = Some c' ∧ conn_session c' = conn_session c.

Lemma conns_kept_refl r : conns_kept r r.
Proof. intros v c Hc. eauto. Qed.

Lemma conns_kept_trans r1 r2 r3 : conns_kept r1 r2 → conns_kept r2 r3 → conns_kept r1 r3.
Proof.
  intros H12 H23 v c Hc. destruct (H12 _ _ Hc) as (c2 & Hc2 & <-). eauto.
Qed.

Lemma drop_viewer_kept sid r v : conns_kept r (drop_viewer sid r v).
Proof.
  unfold drop_viewer. destruct (r_sessions r !! sid); [|apply conns_kept_refl].
  case_bool_decide; [|apply conns_kept_refl].
  intros w c Hc. simpl. destruct (decide (w = v)) as [->|Hne].
  - rewrite lookup_alter_eq, Hc. eexists; split; done.
  - rewrite lookup_alter_ne by done. eauto.
Qed.

Lemma unregister_kept sid r : conns_kept r (unregisterSession sid r).
Proof.
  unfold unregisterSession. destruct (r_sessions r !! sid) as [s|]; [|apply conns_kept_refl].
  change (conns_kept r (foldl (drop_viewer sid) r (elements (ss_viewers s)))).
  apply foldl_rel; [apply conns_kept_refl|apply conns_kept_trans|]. intros. apply drop_viewer_kept.
Qed.

Lemma expire_kept now r : conns_kept r (expireSessions now r).
Proof.
  unfold expireSessions. apply foldl_rel; [apply conns_kept_refl|apply conns_kept_trans|]. intros. apply unregister_kept.
Qed.

(** A viewer of a session no longer registered has no live transport. *)
Lemma viewer_of_removed_closed r r' sid s v :
  relay_wf r → relay_wf r' → conns_kept r r' →
  r_sessions r !! sid = Some s → v ∈ ss_viewers s → r_sessions r' !! sid = None →
  ∃ c', r_conns r' !! v = Some c' ∧ conn_session c' = sid ∧ ¬ conn_live c'.
Proof.
  intros Hwf Hwf' Hk Hs Hv Hs'.
  destruct (wf_viewers _ Hwf _ _ _ Hs Hv) as (c & Hc & Hcs & _).
  destruct (Hk _ _ Hc) as (c' & Hc' & Hcs'). exists c'. split_and!; [done|congruence|].
  intros Hl. apply (wf_no_live_of_absent r' sid v c' Hwf' Hs' Hc' Hl). congruence.
Qed.

(** An expired session is gone after the sweep and its viewers' transports
    are closed. *)
Lemma expire_closes now r sid s v :
  relay_wf r → r_sessions r !! sid = Some s → expired now s = true → v ∈ ss_viewers s →
  r_sessions (expireSessions now r) !! sid = None ∧
  ∃ c', r_conns (expireSessions now r) !! v = Some c' ∧ conn_session c' = sid ∧ ¬ conn_live c'.
Proof.
  intros Hwf Hs He Hv.
  assert (Hgone : r_sessions (expireSessions now r) !! sid = None).
  { rewrite expire_sessions, map_lookup_filter, Hs. simpl. by rewrite option_guard_False by congruence. }
  split; [done|]. eapply viewer_of_removed_closed; eauto using expire_wf, expire_kept.
Qed.

(** A request for an expired session is refused. *)
Lemma attach_expired now q r s :
  r_sessions r !! req_session q = Some s → expired now s = true →
  attach now q r = (expireSessions now r, None).
Proof.
  intros Hs He. apply handshake_unknown.
  rewrite expire_sessions, map_lookup_filter, Hs. simpl. by rewrite option_guard_False by congruence.
Qed.

(** The listener's fields, which session bookkeeping never touches. *)
Definition listener (r : relay) : phase * Z * string * gset Z :=
  (r_phase r, r_port r, r_host r, r_bound r).

Lemma drop_viewer_listener sid r v : listener (drop_viewer sid r v) = listener r.
Proof. unfold drop_viewer. repeat case_match; done. Qed.

Lemma unregister_listener sid r : listener (unregisterSession sid r) = listener r.
Proof.
  unfold unregisterSession. destruct (r_sessions r !! sid) as [s|]; [|done].
  transitivity (listener (foldl (drop_viewer sid) r (elements (ss_viewers s)))); [done|].
  apply (foldl_preserve (λ r1, listener r1 = listener r)); [done|].
  intros r1 v _ <-. apply drop_viewer_listener.
Qed.

Lemma unregister_all_listener l r :
  listener (foldl (λ r sid, unregisterSession sid r) r l) = listener r.
Proof.
  apply (foldl_preserve (λ r1, listener r1 = listener r)); [done|].
  intros r1 sid _ <-. apply unregister_listener.
Qed.

(** ** Lifecycle *)

(** From Stopped, [start(0, host)] on an available host binds a fresh
    port of the ephemeral range and runs on it. *)
Lemma start_ephemeral host r :
  r_phase r = Stopped → host ∈ r_hosts r →
  ∃ p, (start 0 host r).2 = Ok p ∧ 49151 < p ∧ (p ∉ r_bound r) ∧
       r_phase (start 0 host r).1 = Running ∧ r_port (start 0 host r).1 = p ∧
       r_host (start 0 host r).1 = host ∧ p ∈ r_bound (start 0 host r).1.
Proof.
  intros Hph Hh. unfold start. rewrite Hph. unfold bind. simpl.
  rewrite bool_decide_false by tauto.
  destruct (ephemeral_port_fresh (r_bound r)) as [H1 H2].
  eexists. split_and!; try done. simpl. set_solver.
Qed.

(** From Stopped, [start(port, host)] with a free port in range binds that
    very port. *)
Lemma start_fixed port host r :
  r_phase r = Stopped → host ∈ r_hosts r → 0 < port ≤ 65535 → port ∉ r_bound r →
  start port host r = (set_server Running port host (r_bound r ∪ {[port]}) (start_begin r), Ok port).
Proof.
  intros Hph Hh Hp Hb. unfold start. rewrite Hph. unfold bind. simpl.
  repeat case_bool_decide; first [done | exfalso; first [tauto | lia]].
Qed.

(** A port already bound is refused with [EADDRINUSE]; the relay stays
    stopped. *)
Lemma start_in_use port host r :
  r_phase r = Stopped → host ∈ r_hosts r → port ≠ 0 → 0 ≤ port ≤ 65535 → port ∈ r_bound r →
  (start port host r).2 = Err "EADDRINUSE" ∧ r_phase (start port host r).1 = Stopped.
Proof.
  intros Hph Hh Hp0 Hp Hb. unfold start. rewrite Hph. unfold bind. simpl.
  repeat case_bool_decide; first [done | exfalso; first [tauto | lia]].
Qed.

(** [start] on a running relay changes nothing and returns its port. *)
Lemma start_running port host r :
  r_phase r = Running → start port host r = (r, Ok (r_port r)).
Proof. intros Hph. unfold start. by rewrite Hph. Qed.

(** [stop] on a running relay: no session left, every transport closed,
    Stopped, and the port released. *)
Lemma stop_effect r :
  r_phase r = Running →
  r_phase (stop r) = Stopped ∧ r_sessions (stop r) = ∅ ∧
  (∀ v c, r_conns (stop r) !! v = Some c → ¬ conn_live c) ∧
  r_port r ∉ r_bound (stop r).
Proof.
  intros Hph. unfold stop. rewrite Hph. split_and!; [done|apply stop_complete_sessions| |].
  - intros v c. unfold stop_complete. simpl. rewrite lookup_fmap.
    intros (c0 & _ & ->)%fmap_Some. unfold conn_live. simpl. tauto.
  - unfold stop_complete. simpl.
    pose proof (unregister_all_listener (map fst (map_to_list (r_sessions r))) (stop_begin r)) as Hl.
    unfold listener in Hl. injection Hl as _ Hp _ Hb. rewrite Hp, Hb. simpl. set_solver.
Qed.
