(* ===== verification/AppRelay.v ===== *)
(** * The main process with the relay: end-to-end behaviour

    [App.v] at [S := relay]: the IPC handlers of [src/app/lib/app.ts]
    running the relay of [Relay.v].  The step relation [tl_step] has one
    rule per IPC handler and per application hook, and one rule per
    network event the relay handles on its own (a viewer's attach request,
    its input, its transport breaking or closing, the expiry sweep); each
    network event runs through [app_run], so its relay events reach the
    windows as the [process.on] listeners forward them.

    The first part proves that every state reachable from start-up keeps
    the relay invariant [relay_wf] and the windows' viewer counts in step
    with the relay's events.  The second part states the specification's
    guarantees end to end, through the handlers. *)

From S2P Require Import Prelude JsString ServerIface Relay RelayInv RelayServer App RelayProps.

Local Open Scope Z_scope.

(** The main process running the relay. *)
Definition tl_app : Type := app_state relay.

Implicit Types (a : tl_app) (r : relay).

(** ** Network events *)

Definition net_attach (now : Z) (q : attach_request) (a : tl_app) : tl_app :=
  app_run (λ r, (attach now q r).1) a.

Definition net_input (v : nat) (d : string) (a : tl_app) : tl_app :=
  app_run (viewerInput v d) a.

Definition net_fail (v : nat) (a : tl_app) : tl_app := app_run (transportFail v) a.

Definition net_close (v : nat) (a : tl_app) : tl_app := app_run (viewerClose v) a.

Definition net_expire (now : Z) (a : tl_app) : tl_app := app_run (expireSessions now) a.

(** One step of the whole system. *)
Inductive tl_step : tl_app → tl_app → Prop :=
| tl_register sid t m pw e now a : tl_step a (ipc_register sid t m pw e now a).1
| tl_unregister sid a : tl_step a (ipc_unregister sid a)
| tl_broadcast sid d a : tl_step a (ipc_broadcast_output sid d a)
| tl_forward_input sid d a : tl_step a (ipc_forward_input sid d a)
| tl_start p h a : tl_step a (ipc_start_server p h a).1
| tl_stop a : tl_step a (ipc_stop_server a).1
| tl_public_url u a : tl_step a (ipc_set_public_url u a)
| tl_init a : tl_step a (app_init a)
| tl_quit a : tl_step a (app_before_quit a)
| tl_attach now q a : tl_step a (net_attach now q a)
| tl_input v d a : tl_step a (net_input v d a)
| tl_fail v a : tl_step a (net_fail v a)
| tl_close v a : tl_step a (net_close v a)
| tl_expire now a : tl_step a (net_expire now a).

(** The application at start-up: the relay stopped, nothing sent. *)
Definition tl_init_state (bound : gset Z) (hosts : gset string) (cfg : option sharing_config) : tl_app :=
  app_init_state (relay_init bound hosts) cfg.

Definition tl_reachable bound hosts cfg (a : tl_app) : Prop :=
  rtc tl_step (tl_init_state bound hosts cfg) a.

(** ** The invariant of reachable states *)

Lemma tl_step_app_step a a' : tl_step a a' → app_step a a'.
Proof.
  destruct 1; try by constructor.
  - apply as_network. intros r. apply attach_grow.
  - apply as_network. intros r. apply input_grow.
  - apply as_network. intros r. apply fail_grow.
  - apply as_network. intros r. apply close_grow.
  - apply as_network. intros r. apply expire_grow.
Qed.

Lemma dispatch_server (s' : relay) a : app_server (app_dispatch s' a) = s'.
Proof. done. Qed.

Lemma start_server_server p h a :
  app_server (ipc_start_server p h a).1 =
  (start (bind_port p a) (bind_host h a) (app_server a)).1.
Proof. unfold ipc_start_server. simpl. destruct (start (bind_port p a) (bind_host h a) (app_server a)) as [? []]; done. Qed.

Lemma register_server sid t m pw e now a :
  app_server (ipc_register sid t m pw e now a).1 =
  match registerSession sid t m pw e now (app_server a) with Ok r' => r' | Err _ => app_server a end.
Proof. unfold ipc_register. simpl. by destruct (registerSession _ _ _ _ _ _ _). Qed.

Lemma tl_step_wf a a' : tl_step a a' → relay_wf (app_server a) → relay_wf (app_server a').
Proof.
  destruct 1; intros Hwf; simpl.
  - rewrite register_server. destruct (registerSession _ _ _ _ _ _ _) eqn:Hr; [|done].
    by eapply register_wf.
  - by apply unregister_wf.
  - by apply broadcast_wf.
  - done.
  - rewrite start_server_server. by apply start_wf.
  - by apply stop_wf.
  - by apply setPublicUrl_wf.
  - unfold app_init. case_match; [by apply start_wf|done].
  - by apply stop_wf.
  - by apply attach_wf.
  - by apply input_wf.
  - by apply fail_wf.
  - by apply close_wf.
  - by apply expire_wf.
Qed.

Lemma tl_rtc_inv a a' :
  rtc tl_step a a' → relay_wf (app_server a) ∧ counts_in_sync a →
  relay_wf (app_server a') ∧ counts_in_sync a'.
Proof.
  induction 1 as [|a1 a2 a3 Hst _ IH]; [done|]. intros [Hwf Hs]. apply IH. split.
  - by eapply tl_step_wf.
  - eapply app_step_sync; [by apply tl_step_app_step|done].
Qed.

Lemma tl_reachable_wf bound hosts cfg a :
  tl_reachable bound hosts cfg a → relay_wf (app_server a) ∧ counts_in_sync a.
Proof.
  intros Hr. eapply tl_rtc_inv; [done|]. split; [apply relay_init_wf|done].
Qed.

(** ** Handler helpers *)

(** A handler whose relay call changes nothing changes nothing. *)
Lemma app_run_same f a : f (app_server a) = app_server a → app_run f a = a.
Proof.
  intros Hf. unfold app_run, app_dispatch. rewrite Hf, drop_all. simpl.
  rewrite app_nil_r. by destruct a.
Qed.

(** The windows receive the messages of the events the relay call
    appended. *)
Lemma app_run_sent f a l :
  r_events (f (app_server a)) = r_events (app_server a) ++ l →
  app_sent (app_run f a) = app_sent a ++ map on_server_event l.
Proof. intros Hl. by apply (dispatch_sent (S := relay)). Qed.

Lemma register_ok sid tok m pw exp now r r' :
  registerSession sid tok m pw exp now r = Ok r' →
  ∃ md, parse_mode m = Some md ∧
    r' = set_sessions (<[sid := SharedSession tok pw md ((λ n, now + n * 1000) <$> exp) ∅]>
                         (r_sessions (unregisterSession sid r))) (unregisterSession sid r).
Proof. unfold registerSession. destruct (parse_mode m); [|done]. intros [= <-]. eauto. Qed.

Lemma ipc_register_inv sid tok m pw exp now a a1 :
  ipc_register sid tok m pw exp now a = (a1, Ok ()) →
  ∃ r', registerSession sid tok m pw exp now (app_server a) = Ok r' ∧ a1 = app_dispatch r' a.
Proof. unfold ipc_register. simpl. destruct (registerSession _ _ _ _ _ _ _); intros; simplify_eq; eauto. Qed.

Lemma expire_listener now r : listener (expireSessions now r) = listener r.
Proof. apply unregister_all_listener. Qed.

Lemma expire_lookup_live now r sid s :
  r_sessions r !! sid = Some s → expired now s = false →
  r_sessions (expireSessions now r) !! sid = Some s.
Proof.
  intros Hs He. rewrite expire_sessions, map_lookup_filter, Hs. simpl.
  by rewrite option_guard_True.
Qed.

Lemma handshake_some q r s :
  r_phase r = Running → r_sessions r !! req_session q = Some s →
  is_Some (handshake q r).2 ↔ credentials_ok s q = true.
Proof.
  intros Hph Hs. unfold handshake. rewrite bool_decide_true by done. rewrite Hs.
  destruct (credentials_ok s q); simpl; split; try done; by intros [? ?].
Qed.

Lemma expired_within now n now' s :
  ss_expiresAt s = Some (now + n * 1000) → now' ≤ now + n * 1000 → expired now' s = false.
Proof. intros He Hle. unfold expired. rewrite He. apply bool_decide_false. lia. Qed.

Lemma listener_phase r r' : listener r' = listener r → r_phase r' = r_phase r.
Proof. unfold listener. by intros [= -> _ _ _]. Qed.

Lemma register_listener sid tok m pw exp now r r' :
  registerSession sid tok m pw exp now r = Ok r' → listener r' = listener r.
Proof.
  intros (md & _ & ->)%register_ok. rewrite <-(unregister_listener sid r). done.
Qed.

(** ** Guarantees of the running system *)

(** C3: In every state reachable from start-up, each viewer of a session
    has a live transport attached to that session, each live transport is
    a viewer of the session it is attached to, and the viewer counts the
    windows were sent are exactly the relay's [viewer-joined] and
    [viewer-left] counts, in order. *)
Theorem reachable_consistent bound hosts cfg a :
  tl_reachable bound hosts cfg a →
  (∀ sid s v, r_sessions (app_server a) !! sid = Some s → v ∈ ss_viewers s →
     ∃ c, r_conns (app_server a) !! v = Some c ∧ conn_session c = sid ∧ conn_live c) ∧
  (∀ v c, r_conns (app_server a) !! v = Some c → conn_live c →
     ∃ s, r_sessions (app_server a) !! conn_session c = Some s ∧ v ∈ ss_viewers s) ∧
  count_msgs (app_sent a) = ev_counts (r_events (app_server a)).
Proof.
  intros [Hwf Hs]%tl_reachable_wf. split_and!; [apply Hwf|apply Hwf|apply Hs].
Qed.

(** C4: [broadcast-output] for a registered session writes the chunk to
    every open transport of its viewers, closes and removes the viewers
    whose transport broke (without affecting the others), touches no
    other transport or session, and [get-viewer-count] then counts the
    viewers whose transport was not broken. *)
Theorem broadcast_output_fanout bound hosts cfg a sid data s :
  tl_reachable bound hosts cfg a → r_sessions (app_server a) !! sid = Some s →
  let a' := ipc_broadcast_output sid data a in
  (∀ v c, v ∈ ss_viewers s → r_conns (app_server a) !! v = Some c →
     r_conns (app_server a') !! v = Some (bcast_conn data c)) ∧
  (∀ v, v ∉ ss_viewers s → r_conns (app_server a') !! v = r_conns (app_server a) !! v) ∧
  (∀ sid', sid' ≠ sid → r_sessions (app_server a') !! sid' = r_sessions (app_server a) !! sid') ∧
  ipc_get_viewer_count sid a' = size (filter (λ v, is_broken (app_server a) v = false) (ss_viewers s)).
Proof.
  intros [Hwf _]%tl_reachable_wf Hs. simpl.
  destruct (broadcast_effect sid data (app_server a) s Hwf Hs) as (_ & Hc & Hss).
  split_and!.
  - intros v c Hv Hcv. by rewrite Hc, decide_True, Hcv.
  - intros v Hv. by rewrite Hc, decide_False.
  - intros sid' Hne. by rewrite Hss, lookup_insert_ne.
  - unfold ipc_get_viewer_count, viewerCount. simpl. by rewrite Hss, lookup_insert_eq.
Qed.

(** C1: After [register] succeeds for a session of a running relay, and
    while the session has not expired, a viewer's attach request for it is
    accepted exactly when it carries the registered token and, when a
    password was registered, that password. *)
Theorem register_then_attach sid tok m pw exp now (a a1 : tl_app) q now' :
  ipc_register sid tok m pw exp now a = (a1, Ok ()) →
  r_phase (app_server a) = Running → req_session q = sid →
  (∀ n, exp = Some n → now' ≤ now + n * 1000) →
  is_Some (attach now' q (app_server a1)).2 ↔
  req_token q = tok ∧ (∀ p, pw = Some p → req_password q = Some p).
Proof.
  intros (r' & Hr & ->)%ipc_register_inv Hph <- Hexp. simpl.
  pose proof (register_listener _ _ _ _ _ _ _ _ Hr) as Hl.
  apply register_ok in Hr as (md & _ & ->). unfold attach.
  set (s := SharedSession tok pw md ((λ n, now + n * 1000) <$> exp) ∅).
  rewrite (handshake_some q _ s).
  - unfold credentials_ok. rewrite andb_true_iff, bool_decide_eq_true. simpl.
    destruct pw as [p|]; [rewrite bool_decide_eq_true|]; naive_solver.
  - rewrite (listener_phase _ _ (expire_listener _ _)), <-Hph. by apply listener_phase.
  - apply expire_lookup_live; [simpl; by rewrite lookup_insert_eq|].
    destruct exp as [n|]; [|done]. eapply expired_within; [done|]. by apply Hexp.
Qed.

(** [register] with a mode other than ["read-only"] and
    ["interactive"] is rejected with [invalid mode] and changes nothing. *)
Theorem register_invalid_mode sid tok m pw exp now (a : tl_app) :
  parse_mode m = None →
  ipc_register sid tok m pw exp now a = (a, Err "invalid mode").
Proof. intros Hm. unfold ipc_register. simpl. unfold registerSession. by rewrite Hm. Qed.

(** [register] with a valid mode installs a fresh session without
    viewers, carrying the token, password, mode and absolute expiry
    ([now + expiresIn * 1000]), and leaves every other session as it was. *)
Theorem register_valid sid tok m pw exp now (a : tl_app) md :
  parse_mode m = Some md →
  ∃ a1, ipc_register sid tok m pw exp now a = (a1, Ok ()) ∧
    r_sessions (app_server a1) !! sid =
      Some (SharedSession tok pw md ((λ n, now + n * 1000) <$> exp) ∅) ∧
    (∀ sid', sid' ≠ sid → r_sessions (app_server a1) !! sid' = r_sessions (app_server a) !! sid').
Proof.
  intros Hm. unfold ipc_register. simpl. unfold registerSession. rewrite Hm.
  eexists. split_and!; [done|simpl; by rewrite lookup_insert_eq|].
  intros sid' Hne. simpl. by rewrite lookup_insert_ne, unregister_sessions, lookup_delete_ne by congruence.
Qed.

(** C2: Input from a viewer reaches the windows only for interactive
    sessions: input on a read-only session changes nothing at all, and
    input from an attached viewer of an interactive session is forwarded
    to the windows as [terminal-input] tagged with the session id. *)
Theorem input_routing a v d c s :
  r_conns (app_server a) !! v = Some c → r_sessions (app_server a) !! conn_session c = Some s →
  (ss_mode s = ReadOnly → net_input v d a = a) ∧
  (ss_mode s = Interactive → conn_st c = ConnOpen → v ∈ ss_viewers s →
     app_sent (net_input v d a) = app_sent a ++ [MsgTerminalInput (conn_session c) d]).
Proof.
  intros Hc Hs. split.
  - intros Hm. apply app_run_same. unfold viewerInput. rewrite Hc.
    case_bool_decide; [|done]. rewrite Hs, Hm. by rewrite andb_false_r.
  - intros Hm Hst Hv. apply (app_run_sent _ _ [EvInput (conn_session c) d]).
    unfold viewerInput. rewrite Hc, bool_decide_true by done. by rewrite Hs, !bool_decide_true.
Qed.

(** The expiry sweep removes exactly the sessions whose expiry has
    passed, and closes the transport of every viewer of a removed
    session. *)
Theorem expiry_sweep bound hosts cfg a now :
  tl_reachable bound hosts cfg a →
  r_sessions (app_server (net_expire now a)) =
    filter (λ '(_, s), expired now s = false) (r_sessions (app_server a)) ∧
  (∀ sid s v, r_sessions (app_server a) !! sid = Some s → expired now s = true → v ∈ ss_viewers s →
     ∃ c', r_conns (app_server (net_expire now a)) !! v = Some c' ∧ conn_session c' = sid ∧
           ¬ conn_live c').
Proof.
  intros [Hwf _]%tl_reachable_wf. split; [apply expire_sessions|].
  intros sid s v Hs He Hv. by destruct (expire_closes now _ sid s v Hwf Hs He Hv).
Qed.

(** An attach request for a session whose expiry has passed is
    refused, and the expired session is swept. *)
Theorem attach_expired_refused a now q s :
  r_sessions (app_server a) !! req_session q = Some s → expired now s = true →
  (attach now q (app_server a)).2 = None ∧
  app_server (net_attach now q a) = expireSessions now (app_server a) ∧
  r_sessions (app_server (net_attach now q a)) !! req_session q = None.
Proof.
  intros Hs He. unfold net_attach. simpl. rewrite (attach_expired now q _ s Hs He). simpl.
  split_and!; [done|done|]. rewrite expire_sessions, map_lookup_filter, Hs. simpl.
  by rewrite option_guard_False by congruence.
Qed.

(** [unregister] is idempotent: a second call, and a call for an
    unknown session, change nothing. *)
Theorem unregister_idempotent sid (a : tl_app) :
  ipc_unregister sid (ipc_unregister sid a) = ipc_unregister sid a ∧
  (r_sessions (app_server a) !! sid = None → ipc_unregister sid a = a).
Proof.
  split.
  - apply app_run_same. apply unregister_idem.
  - intros Hs. apply app_run_same. by apply unregister_unknown.
Qed.

Lemma bind_defaults a :
  app_config a = None → bind_host None a = "0.0.0.0" ∧ bind_port None a = 0.
Proof. unfold bind_host, bind_port. intros ->. done. Qed.

Lemma start_server_result p h a r' res :
  start (bind_port p a) (bind_host h a) (app_server a) = (r', res) →
  app_server (ipc_start_server p h a).1 = r' ∧
  (ipc_start_server p h a).2 = (λ n, (n, bind_host h a)) <$> res.
Proof. intros E. unfold ipc_start_server. simpl. rewrite E. by destruct res. Qed.

(** With no configuration, [start-server] without arguments on a
    stopped relay binds [0.0.0.0] on a port the operating system picks
    from the ephemeral range, not bound before, and the relay runs on
    it. *)
Theorem start_server_ephemeral (a : tl_app) :
  app_config a = None → r_phase (app_server a) = Stopped → "0.0.0.0" ∈ r_hosts (app_server a) →
  ∃ p, (ipc_start_server None None a).2 = Ok (p, "0.0.0.0") ∧ 49151 < p ∧
       (p ∉ r_bound (app_server a)) ∧
       r_phase (app_server (ipc_start_server None None a).1) = Running ∧
       r_port (app_server (ipc_start_server None None a).1) = p.
Proof.
  intros Hc Hph Hh. destruct (bind_defaults a Hc) as [Hbh Hbp].
  destruct (start_ephemeral "0.0.0.0" _ Hph Hh) as (p & Hres & Hp & Hb & Hrun & Hport & _).
  destruct (start 0 "0.0.0.0" (app_server a)) as [r' res] eqn:E. simpl in Hres, Hrun, Hport. subst res.
  rewrite <-Hbh, <-Hbp in E. destruct (start_server_result _ _ _ _ _ E) as [-> ->].
  rewrite Hbh. exists p. split_and!; done.
Qed.

(** [start-server] on a running relay binds nothing: the relay is
    unchanged, the port it runs on is returned, and a second call returns
    the same port as the first. *)
Theorem start_server_idempotent p h (a : tl_app) :
  r_phase (app_server a) = Running →
  (ipc_start_server p h a).2 = Ok (r_port (app_server a), bind_host h a) ∧
  app_server (ipc_start_server p h a).1 = app_server a ∧
  (ipc_start_server p h (ipc_start_server p h a).1).2 = Ok (r_port (app_server a), bind_host h a).
Proof.
  intros Hph. destruct (start_server_result p h a _ _ (start_running (bind_port p a) (bind_host h a) _ Hph))
    as [Hs Hr].
  assert (Hb : bind_host h (ipc_start_server p h a).1 = bind_host h a).
  { unfold ipc_start_server. simpl. rewrite start_running by done. done. }
  assert (Hq : bind_port p (ipc_start_server p h a).1 = bind_port p a).
  { unfold ipc_start_server. simpl. rewrite start_running by done. done. }
  split_and!; [done|done|].
  rewrite <-Hs in Hph.
  destruct (start_server_result p h _ _ _ (start_running (bind_port p _) (bind_host h _) _ Hph))
    as [_ ->]. by rewrite Hs, Hb.
Qed.

Lemma bind_host_given h a : h ≠ "" → bind_host (Some h) a = h.
Proof. intros Hh. unfold bind_host. simpl. by destruct h. Qed.

(** [start-server] on a relay already running on another address
    answers [success] with the host it was asked for, and broadcasts a
    status with that host, although the relay still listens on its old
    address. *)
Theorem start_server_reports_requested_host p h (a : tl_app) :
  r_phase (app_server a) = Running → h ≠ "" → h ≠ r_host (app_server a) →
  (ipc_start_server p (Some h) a).2 = Ok (r_port (app_server a), h) ∧
  r_host (app_server (ipc_start_server p (Some h) a).1) = r_host (app_server a) ∧
  ∃ url pub, last (app_sent (ipc_start_server p (Some h) a).1) =
             Some (MsgStatusChanged (Status true (r_port (app_server a)) h url pub)).
Proof.
  intros Hph Hh Hne. unfold ipc_start_server. rewrite (bind_host_given h a Hh).
  simpl. rewrite start_running by done. simpl.
  split_and!; [done|done|]. do 2 eexists. apply last_snoc.
Qed.

(** [stop-server] on a running relay tears every session down,
    closes every transport, releases the port and stops the relay; the
    windows are told the stopped status last. *)
Theorem stop_server_effect (a : tl_app) :
  r_phase (app_server a) = Running →
  let a' := (ipc_stop_server a).1 in
  r_phase (app_server a') = Stopped ∧ r_sessions (app_server a') = ∅ ∧
  (∀ v c, r_conns (app_server a') !! v = Some c → ¬ conn_live c) ∧
  (r_port (app_server a) ∉ r_bound (app_server a')) ∧
  last (app_sent a') = Some (MsgStatusChanged (Status false 0 "0.0.0.0" None None)).
Proof.
  intros Hph. simpl. destruct (stop_effect _ Hph) as (H1 & H2 & H3 & H4).
  split_and!; [done|done|done|done|apply last_snoc].
Qed.

Lemma bcast_conn_open data c : conn_st c = ConnOpen → bcast_conn data c = conn_write data c.
Proof. unfold bcast_conn. by intros ->. Qed.

(** Chunks broadcast by successive [broadcast-output] calls reach
    each open viewer in the order of the calls. *)
Theorem broadcast_output_order bound hosts cfg a sid s v c d1 d2 :
  tl_reachable bound hosts cfg a → r_sessions (app_server a) !! sid = Some s →
  v ∈ ss_viewers s → r_conns (app_server a) !! v = Some c → conn_st c = ConnOpen →
  r_conns (app_server (ipc_broadcast_output sid d2 (ipc_broadcast_output sid d1 a))) !! v =
    Some (Conn sid ConnOpen (conn_received c ++ [d1; d2])).
Proof.
  intros [Hwf _]%tl_reachable_wf Hs Hv Hc Hst.
  destruct (wf_viewers _ Hwf _ _ _ Hs Hv) as (c0 & Hc0 & Hsid & _).
  assert (c0 = c) as -> by congruence.
  destruct (broadcast_effect sid d1 _ s Hwf Hs) as (Hwf1 & Hc1 & Hss1).
  set (r1 := broadcastOutput sid d1 (app_server a)) in *.
  set (s1 := ss_set_viewers (filter (λ v, is_broken (app_server a) v = false) (ss_viewers s)) s).
  assert (Hs1 : r_sessions r1 !! sid = Some s1) by (rewrite Hss1; apply lookup_insert_eq).
  assert (Hv1 : v ∈ ss_viewers s1).
  { unfold s1. rewrite ss_viewers_set, elem_of_filter. unfold is_broken. rewrite Hc, Hst. done. }
  assert (Hcv1 : r_conns r1 !! v = Some (conn_write d1 c)).
  { rewrite Hc1, decide_True, Hc by done. simpl. by rewrite bcast_conn_open. }
  destruct (broadcast_effect sid d2 r1 s1 Hwf1 Hs1) as (_ & Hc2 & _).
  simpl. rewrite Hc2, decide_True, Hcv1 by done. simpl.
  rewrite bcast_conn_open by done. unfold conn_write. simpl. by rewrite Hsid, Hst, <-app_assoc.
Qed.

(** C40: [start-server] asked for port [0] (an ephemeral port, in the
    spec) on a stopped relay with a configured port binds the configured
    port: it answers success with that port and the relay runs on it
    when it is free, and answers [EADDRINUSE] with the relay still
    stopped when it is taken, where an ephemeral port would have been
    free. *)
Theorem start_server_port_zero (a : tl_app) cfg pc h :
  app_config a = Some cfg → cfg_port cfg = Some pc → 0 < pc ≤ 65535 →
  r_phase (app_server a) = Stopped → bind_host h a ∈ r_hosts (app_server a) →
  (pc ∉ r_bound (app_server a) →
     (ipc_start_server (Some 0) h a).2 = Ok (pc, bind_host h a) ∧
     r_phase (app_server (ipc_start_server (Some 0) h a).1) = Running ∧
     r_port (app_server (ipc_start_server (Some 0) h a).1) = pc) ∧
  (pc ∈ r_bound (app_server a) →
     (ipc_start_server (Some 0) h a).2 = Err "EADDRINUSE" ∧
     r_phase (app_server (ipc_start_server (Some 0) h a).1) = Stopped).
Proof.
  intros Hc Hp Hpc Hph Hh.
  assert (Hb : bind_port (Some 0) a = pc).
  { unfold bind_port. rewrite Hc. simpl. rewrite Hp. simpl. by rewrite bool_decide_false by lia. }
  split; intros Hbound.
  - pose proof (start_fixed pc (bind_host h a) (app_server a) Hph Hh Hpc Hbound) as E. rewrite <-Hb in E.
    destruct (start_server_result _ _ _ _ _ E) as [-> ->]. rewrite Hb. split_and!; reflexivity.
  - destruct (start_in_use pc (bind_host h a) (app_server a) Hph Hh ltac:(lia) ltac:(lia) Hbound) as [E1 E2].
    rewrite <-Hb in E1, E2. destruct (start (bind_port (Some 0) a) (bind_host h a) (app_server a)) as [r' res] eqn:E.
    simpl in E1, E2. subst res. destruct (start_server_result _ _ _ _ _ E) as [-> ->]. done.
Qed.
