(* ===== verification/Scenarios.v ===== *)
(** * Concrete runs of the main process with the relay

    The scenarios of the specification, as states reached from start-up
    through the handlers of [src/app/lib/app.ts] and the relay's network
    events, and the theorems of [AppRelay.v] applied to them.  Every state
    here is computed by [vm_compute]: the relay starts on [0.0.0.0] with
    no configuration, so the operating system's first ephemeral port,
    49152, is bound; session ["multi"] is registered read-only with a
    60 s expiry at time 0, three viewers attach at time 10 ms, and the
    transport of the second one breaks. *)

From S2P Require Import Prelude JsString ServerIface Relay RelayInv RelayServer App RelayProps AppRelay.

Local Open Scope Z_scope.

Definition demo_hosts : gset string := {["0.0.0.0"; "127.0.0.1"]}.

Definition demo_init : tl_app := tl_init_state ∅ demo_hosts None.

Definition demo_running : tl_app := (ipc_start_server None None demo_init).1.

Definition demo_multi : tl_app :=
  (ipc_register "multi" "tok" "read-only" None (Some 60) 0 demo_running).1.

Definition demo_req : attach_request := AttachRequest "multi" "tok" None.

Definition demo_attached : tl_app :=
  net_attach 10 demo_req (net_attach 10 demo_req (net_attach 10 demo_req demo_multi)).

Definition demo_broken : tl_app := net_fail 1 demo_attached.

(** The session ["multi"] once its three viewers are attached. *)
Definition demo_session : shared_session :=
  SharedSession "tok" None ReadOnly (Some 60000) {[0%nat; 1%nat; 2%nat]}.

Definition demo_conn : conn := Conn "multi" ConnOpen [].

(** A configuration that pins the port. *)
Definition demo_configured : tl_app :=
  tl_init_state ∅ demo_hosts (Some (SharingConfig None (Some 8080) false false)).

(** The same, with port 8080 already taken by another program. *)
Definition demo_configured_busy : tl_app :=
  tl_init_state {[8080]} demo_hosts (Some (SharingConfig None (Some 8080) false false)).

(** ** Reachability of the scenario states *)

Lemma reach_step a a' : tl_reachable ∅ demo_hosts None a → tl_step a a' →
  tl_reachable ∅ demo_hosts None a'.
Proof. intros Hr Hs. eapply rtc_r; eauto. Qed.

Lemma demo_running_reach : tl_reachable ∅ demo_hosts None demo_running.
Proof. apply (reach_step demo_init); [apply rtc_refl|apply tl_start]. Qed.

Lemma demo_multi_reach : tl_reachable ∅ demo_hosts None demo_multi.
Proof. eapply reach_step; [apply demo_running_reach|apply tl_register]. Qed.

Lemma demo_broken_reach : tl_reachable ∅ demo_hosts None demo_broken.
Proof.
  eapply reach_step; [|apply tl_fail].
  do 3 (eapply reach_step; [|apply tl_attach]). apply demo_multi_reach.
Qed.

Lemma demo_session_lookup : r_sessions (app_server demo_broken) !! "multi" = Some demo_session.
Proof. vm_compute. reflexivity. Qed.

(** ** The guarantees at the scenario states *)

Lemma reachable_consistent_witness :
  count_msgs (app_sent demo_broken) = ev_counts (r_events (app_server demo_broken)).
Proof. apply (reachable_consistent ∅ demo_hosts None demo_broken demo_broken_reach). Defined.

(** Spec scenario 4: with the second viewer's transport broken,
    broadcasting ["hello"] reaches the other two and leaves two viewers. *)
Lemma broadcast_output_fanout_witness :
  ipc_get_viewer_count "multi" (ipc_broadcast_output "multi" "hello" demo_broken) = 2%nat.
Proof.
  pose proof (broadcast_output_fanout ∅ demo_hosts None demo_broken "multi" "hello" demo_session
                demo_broken_reach demo_session_lookup) as (_ & _ & _ & ->).
  vm_compute. reflexivity.
Defined.

(** Spec scenario 2: a wrong token is refused, the right one accepted. *)
Lemma register_then_attach_witness :
  ¬ is_Some (attach 10 (AttachRequest "multi" "wrong" None) (app_server demo_multi)).2.
Proof.
  rewrite (register_then_attach "multi" "tok" "read-only" None (Some 60) 0 demo_running demo_multi
             (AttachRequest "multi" "wrong" None) 10).
  - simpl. intros [H _]. discriminate.
  - vm_compute. reflexivity.
  - vm_compute. reflexivity.
  - reflexivity.
  - intros n [= <-]. lia.
Defined.

Lemma register_invalid_mode_witness :
  ipc_register "s" "t" "read-write" None None 0 demo_running = (demo_running, Err "invalid mode").
Proof. apply register_invalid_mode. vm_compute. reflexivity. Defined.

Lemma register_valid_witness :
  ∃ a1, ipc_register "s" "t" "interactive" (Some "pw") None 0 demo_running = (a1, Ok ()) ∧
    r_sessions (app_server a1) !! "s" = Some (SharedSession "t" (Some "pw") Interactive None ∅) ∧
    (∀ sid', sid' ≠ "s" → r_sessions (app_server a1) !! sid' = r_sessions (app_server demo_running) !! sid').
Proof. apply (register_valid "s" "t" "interactive" (Some "pw") None 0 demo_running Interactive). vm_compute. reflexivity. Defined.

(** Read-only enforcement: the first viewer's input changes nothing. *)
Lemma input_routing_witness : net_input 0 "rm -rf /" demo_broken = demo_broken.
Proof.
  apply (input_routing demo_broken 0 "rm -rf /" demo_conn demo_session); try (vm_compute; reflexivity).
Defined.

(** Spec scenario 3: at 70 s the session registered with a 60 s expiry is
    swept. *)
Lemma expiry_sweep_witness : r_sessions (app_server (net_expire 70000 demo_broken)) = ∅.
Proof.
  rewrite (proj1 (expiry_sweep ∅ demo_hosts None demo_broken 70000 demo_broken_reach)).
  vm_compute. reflexivity.
Defined.

Lemma attach_expired_refused_witness : (attach 70000 demo_req (app_server demo_broken)).2 = None.
Proof. apply (attach_expired_refused demo_broken 70000 demo_req demo_session); vm_compute; reflexivity. Defined.

Lemma unregister_idempotent_witness :
  ipc_unregister "absent" demo_broken = demo_broken.
Proof. apply (unregister_idempotent "absent" demo_broken). vm_compute. reflexivity. Defined.

Lemma start_server_ephemeral_witness :
  ∃ p, (ipc_start_server None None demo_init).2 = Ok (p, "0.0.0.0") ∧ 49151 < p.
Proof.
  destruct (start_server_ephemeral demo_init) as (p & H1 & H2 & _); [reflexivity|reflexivity|set_solver|].
  eauto.
Defined.

(** Spec scenario 5: a second [start] returns the first one's port. *)
Lemma start_server_idempotent_witness :
  (ipc_start_server None None demo_running).2 = Ok (49152, "0.0.0.0").
Proof.
  rewrite (proj1 (start_server_idempotent None None demo_running ltac:(vm_compute; reflexivity))).
  vm_compute. reflexivity.
Defined.

Lemma start_server_reports_requested_host_witness :
  (ipc_start_server None (Some "127.0.0.1") demo_running).2 = Ok (49152, "127.0.0.1") ∧
  r_host (app_server (ipc_start_server None (Some "127.0.0.1") demo_running).1) = "0.0.0.0".
Proof.
  destruct (start_server_reports_requested_host None "127.0.0.1" demo_running) as (H1 & H2 & _);
    [vm_compute; reflexivity|discriminate|vm_compute; discriminate|].
  rewrite H1, H2. vm_compute. split; reflexivity.
Defined.

Lemma stop_server_effect_witness : r_sessions (app_server (ipc_stop_server demo_broken).1) = ∅.
Proof. apply (stop_server_effect demo_broken). vm_compute. reflexivity. Defined.

Lemma broadcast_output_order_witness :
  r_conns (app_server (ipc_broadcast_output "multi" "b" (ipc_broadcast_output "multi" "a" demo_broken)))
    !! 0%nat = Some (Conn "multi" ConnOpen ["a"; "b"]).
Proof.
  apply (broadcast_output_order ∅ demo_hosts None demo_broken "multi" demo_session 0 demo_conn);
    [apply demo_broken_reach|apply demo_session_lookup|set_solver|vm_compute; reflexivity|reflexivity].
Defined.

Lemma start_server_port_zero_witness :
  (ipc_start_server (Some 0) None demo_configured).2 = Ok (8080, "0.0.0.0") ∧
  (ipc_start_server (Some 0) None demo_configured_busy).2 = Err "EADDRINUSE".
Proof.
  split.
  - apply (start_server_port_zero demo_configured (SharingConfig None (Some 8080) false false) 8080 None);
      [reflexivity|reflexivity|lia|reflexivity|vm_compute; set_solver|vm_compute; set_solver].
  - apply (start_server_port_zero demo_configured_busy (SharingConfig None (Some 8080) false false) 8080 None);
      [reflexivity|reflexivity|lia|reflexivity|vm_compute; set_solver|vm_compute; set_solver].
Defined.
