(* ===== verification/CommandHistory.v ===== *)
(** * Command history of the agent plugin ([CommandHistoryManagerService])

    [src/unnamed/part_005] (the agent plugin's
    [commandHistoryManager.service.ts]) keeps the commands the agent ran
    in terminals, newest first, at most 1000 of them, persists them as
    JSON in [localStorage['mcp_command_history']], and exports them as
    plain commands, annotated text, JSON, CSV or Markdown.

    State ([hist_state]): the [BehaviorSubject]'s value, the stored text,
    the clipboard, and the files handed to the browser for download.
    [Date.now()]-based ids are an argument of [addCommand];
    [toLocaleString], [toISOString] and whether the clipboard accepts a
    write are parameters of the Section [Env].

    Entries are written to storage by [JSON.stringify] with the
    interface's property order ([id] last, as [{...entry, id}] puts it).
    Reading them back, the model decodes every entry of the declared
    shape; a stored entry whose fields have other types (possible only if
    the storage was edited) is outside the model, which drops it where the
    code would keep it.

    [formatDuration] is modelled with the IEEE double arithmetic it
    performs: [duration / 1000] rounded to the nearest double, and
    [toFixed(1)] of that double. *)

From S2P Require Import Prelude JsString Json.
From Stdlib Require Import Ascii String.

Local Abbreviation length := List.length.
Local Open Scope Z_scope.

(** ** Data *)

(** [interface CommandHistoryEntry]. *)
Record cmd_entry := CmdEntry {
  he_id : string;
  he_command : string;
  he_output : string;
  he_promptShell : option string;
  he_exitCode : option Z;
  he_timestamp : Z;
  he_aborted : bool;
  he_tabId : string;
  he_tabTitle : option string;
  he_duration : option Z;
}.

(** [{ ...entry, id }]. *)
Definition with_id (id : string) (e : cmd_entry) : cmd_entry :=
  CmdEntry id (he_command e) (he_output e) (he_promptShell e) (he_exitCode e) (he_timestamp e)
    (he_aborted e) (he_tabId e) (he_tabTitle e) (he_duration e).

(** The service's state and what it writes outside itself. *)
Record hist_state := HistState {
  h_history : list cmd_entry;
  h_storage : option string;
  h_clipboard : option string;
  h_downloads : list (string * string * string);
}.

Definition set_history (l : list cmd_entry) (s : hist_state) : hist_state :=
  HistState l (h_storage s) (h_clipboard s) (h_downloads s).
Definition set_storage (t : option string) (s : hist_state) : hist_state :=
  HistState (h_history s) t (h_clipboard s) (h_downloads s).
Definition set_clipboard (t : string) (s : hist_state) : hist_state :=
  HistState (h_history s) (h_storage s) (Some t) (h_downloads s).

(** [private readonly MAX_HISTORY_ENTRIES = 1000]. *)
Definition MAX_HISTORY_ENTRIES : nat := 1000.

(** ** Storage *)

(** An optional property: [JSON.stringify] leaves out [undefined]. *)
Definition opt_prop (k : string) (o : option json) : list (string * json) :=
  match o with Some v => [(k, v)] | None => [] end.

Definition null_or {A} (f : A → json) (o : option A) : json :=
  match o with Some a => f a | None => JNull end.

(** The JSON object of an entry. *)
Definition entry_json (e : cmd_entry) : json :=
  JObj ([("command", JStr (he_command e)); ("output", JStr (he_output e));
         ("promptShell", null_or JStr (he_promptShell e)); ("exitCode", null_or JNum (he_exitCode e));
         ("timestamp", JNum (he_timestamp e)); ("aborted", JBool (he_aborted e)); ("tabId", JStr (he_tabId e))] ++
        opt_prop "tabTitle" (JStr <$> he_tabTitle e) ++ opt_prop "duration" (JNum <$> he_duration e) ++
        [("id", JStr (he_id e))]).

(** [saveHistoryToStorage()]: [localStorage.setItem] stores the text,
    or throws (a full storage: up to 1000 entries with their outputs),
    and the [catch] only logs.  [stored] is the outcome of [setItem]; on
    a failure the previous text stays. *)
Definition saveHistoryToStorage (stored : bool) (s : hist_state) : hist_state :=
  if stored then set_storage (Some (json_stringify false (JArr (entry_json <$> h_history s)))) s else s.

Definition get_str (j : json) (k : string) : option string :=
  match jget j k with Some (JStr t) => Some t | _ => None end.
Definition get_num (j : json) (k : string) : option Z :=
  match jget j k with Some (JNum n) => Some n | _ => None end.

(** A [string | null] or [number | null] property, or an optional one. *)
Definition get_opt {A} (g : json → string → option A) (j : json) (k : string) : option (option A) :=
  match jget j k with
  | None | Some JNull => Some None
  | Some _ => Some <$> g j k
  end.

(** An entry of the declared shape. *)
Definition entry_of_json (j : json) : option cmd_entry :=
  id ← get_str j "id"; c ← get_str j "command"; o ← get_str j "output";
  p ← get_opt get_str j "promptShell"; x ← get_opt get_num j "exitCode"; t ← get_num j "timestamp";
  a ← (match jget j "aborted" with Some (JBool b) => Some b | _ => None end); tab ← get_str j "tabId";
  title ← get_opt get_str j "tabTitle"; d ← get_opt get_num j "duration";
  Some (CmdEntry id c o p x t a tab title d).

(** [entry.id && entry.command && entry.timestamp]: a [TypeError] on
    [null]. *)
Definition valid_stored (j : json) : result string bool :=
  match j with
  | JNull => Err "TypeError"
  | _ => Ok (js_truthy (default JNull (jget j "id")) && js_truthy (default JNull (jget j "command")) &&
             js_truthy (default JNull (jget j "timestamp")))
  end.

(** [history.filter(valid)]: [filter] exists on arrays only. *)
Definition filter_valid (v : json) : result string (list json) :=
  match v with
  | JArr l => oks ← mapM (λ j, (λ b, (j, b)) <$> valid_stored j) l; Ok ((λ p, p.1) <$> filter (λ p, p.2 = true) oks)
  | _ => Err "TypeError"
  end.

(** [loadHistoryFromStorage()]: a parse error or a [TypeError] leaves the
    history empty. *)
Definition loadHistoryFromStorage (s : hist_state) : hist_state :=
  match h_storage s with
  | None => set_history [] s
  | Some text =>
      if negb (str_truthy text) then set_history [] s else
      match json_parse text with
      | None => set_history [] s
      | Some v =>
          match filter_valid v with
          | Ok l => set_history (omap entry_of_json l) s
          | Err _ => set_history [] s
          end
      end
  end.

(** ** Operations *)

(** [addCommand(entry)] with the id [generateEntryId()] returns. *)
Definition addCommand (stored : bool) (id : string) (e : cmd_entry) (s : hist_state) : hist_state * string :=
  let updated := with_id id e :: h_history s in
  let updated := take MAX_HISTORY_ENTRIES updated in
  (saveHistoryToStorage stored (set_history updated s), id).

(** [getCommand(id)]. *)
Definition getCommand (id : string) (s : hist_state) : option cmd_entry :=
  snd <$> list_find (λ e, he_id e = id) (h_history s).

(** [removeCommand(id)]. *)
Definition removeCommand (stored : bool) (id : string) (s : hist_state) : hist_state * bool :=
  let updated := filter (λ e, he_id e ≠ id) (h_history s) in
  if bool_decide (length updated ≠ length (h_history s))
  then (saveHistoryToStorage stored (set_history updated s), true)
  else (s, false).

(** [clearHistory()]. *)
Definition clearHistory (stored : bool) (s : hist_state) : hist_state := saveHistoryToStorage stored (set_history [] s).

(** The search predicate of [searchHistory] for a lower-cased term. *)
Definition entry_matches (term : string) (e : cmd_entry) : bool :=
  includes (to_lower (he_command e)) term || includes (to_lower (he_output e)) term ||
  match he_tabTitle e with Some t => str_truthy t && includes (to_lower t) term | None => false end.

(** [searchHistory(searchTerm)]. *)
Definition searchHistory (searchTerm : string) (s : hist_state) : list cmd_entry :=
  if negb (str_truthy (trim searchTerm)) then h_history s
  else filter (λ e, entry_matches (to_lower searchTerm) e = true) (h_history s).

(** The argument of [getFilteredHistory]. *)
Inductive history_filter := FAll | FSuccess | FFailed | FAborted.

Definition succeeded (e : cmd_entry) : bool := negb (he_aborted e) && bool_decide (he_exitCode e = Some 0).
Definition failed (e : cmd_entry) : bool := negb (he_aborted e) && bool_decide (he_exitCode e ≠ Some 0).

(** [getFilteredHistory(filter)]. *)
Definition getFilteredHistory (f : history_filter) (s : hist_state) : list cmd_entry :=
  match f with
  | FSuccess => filter (λ e, succeeded e = true) (h_history s)
  | FFailed => filter (λ e, failed e = true) (h_history s)
  | FAborted => filter (λ e, he_aborted e = true) (h_history s)
  | FAll => h_history s
  end.

(** ** Formatting durations *)

(** Division of integers rounded to the nearest, ties to even: the IEEE
    quotient of two exactly represented numbers. *)
Definition div_rne (a b : Z) : Z :=
  let q := a / b in let r := a mod b in
  if bool_decide (2 * r < b) then q
  else if bool_decide (2 * r > b) then q + 1
  else if Z.even q then q else q + 1.

(** [(duration / 1000).toFixed(1)] for [1000 <= duration]: the double
    nearest to [duration / 1000] is [M / 2^p] with a 53-bit [M]; [toFixed(1)]
    prints the integer [n] nearest to ten times that value (the larger one
    on a tie) with a point before its last digit. *)
Definition tenths_of_seconds (duration : Z) : Z :=
  let e := Z.log2 (duration / 1000) in
  let p := 52 - e in
  let M := div_rne (duration * 2 ^ p) 1000 in
  (20 * M + 2 ^ p) / 2 ^ (p + 1).

Definition fixed1 (n : Z) : string := z_to_string (n / 10) +:+ "." +:+ z_to_string (n mod 10).

(** [formatDuration(duration)] of the service. *)
Definition formatDuration (duration : Z) : string :=
  if bool_decide (duration < 1000) then z_to_string duration +:+ "ms"
  else if bool_decide (duration < 60000) then fixed1 (tenths_of_seconds duration) +:+ "s"
  else z_to_string (duration / 60000) +:+ "m " +:+ z_to_string ((duration mod 60000) / 1000) +:+ "s".

(** ** CSV *)

Definition c_dq : ascii := ascii_of_nat 34.
Definition c_comma : ascii := ",".
Definition c_lf : ascii := ascii_of_nat 10.
Definition c_cr : ascii := ascii_of_nat 13.

Definition needs_quotes (field : string) : bool :=
  includes field (String c_comma EmptyString) || includes field (String c_dq EmptyString) ||
  includes field (String c_lf EmptyString) || includes field (String c_cr EmptyString).

(** [escapeCsvField(field)]: quote a field that holds a comma, a quote or
    a line break, doubling its quotes. *)
Definition escapeCsvField (field : string) : string :=
  if negb (str_truthy field) then EmptyString
  else if needs_quotes field then String c_dq (replace_char c_dq (String c_dq (String c_dq EmptyString)) field +:+ String c_dq EmptyString)
  else field.

(** ** Exports *)

(** [entry.aborted ? 'ABORTED' : (entry.exitCode === 0 ? 'SUCCESS' : 'FAILED')]. *)
Definition status_text (e : cmd_entry) : string :=
  if he_aborted e then "ABORTED" else if bool_decide (he_exitCode e = Some 0) then "SUCCESS" else "FAILED".

(** [entry.duration ? ...]: a duration of [0] counts as none. *)
Definition truthy_num (o : option Z) : option Z :=
  match o with Some d => if bool_decide (d = 0) then None else Some d | None => None end.

Definition truthy_str (o : option string) : option string :=
  match o with Some t => if str_truthy t then Some t else None | None => None end.

Definition nl : string := String c_lf EmptyString.

(** [entries || this.commandHistory.value]: an array, even empty, is
    truthy. *)
Definition to_export (entries : option (list cmd_entry)) (s : hist_state) : list cmd_entry :=
  default (h_history s) entries.

(** [exportCommandsOnly(entries)]. *)
Definition exportCommandsOnly (entries : option (list cmd_entry)) (s : hist_state) : string :=
  match to_export entries s with
  | [] => EmptyString
  | h => join nl (he_command <$> h)
  end.

(** [csvLines.push(...)] for one entry of [exportAsCSV]. *)
Definition csv_line (iso_of : Z → string) (e : cmd_entry) : string :=
  join "," [iso_of (he_timestamp e); escapeCsvField (he_command e); status_text e;
            match he_exitCode e with Some x => z_to_string x | None => EmptyString end;
            match truthy_num (he_duration e) with Some d => z_to_string d | None => EmptyString end;
            escapeCsvField (default EmptyString (truthy_str (he_tabTitle e)));
            escapeCsvField (he_output e)].

Definition csv_header : string := "Date,Command,Status,Exit Code,Duration (ms),Terminal,Output".

Section Env.

(** [new Date(t).toLocaleString()], [new Date(t).toISOString()], the
    current time, and whether [navigator.clipboard.writeText] succeeds. *)
Variable locale_of : Z → string.
Variable iso_of : Z → string.
Variable now : Z.
Variable clipboard_ok : bool.

(** The lines of one entry in [exportCommandsWithOutput]. *)
Definition output_lines (index : nat) (e : cmd_entry) : list string :=
  let duration := match truthy_num (he_duration e) with
                  | Some d => " (" +:+ formatDuration d +:+ ")" | None => EmptyString end in
  ["# Entry " +:+ z_to_string (Z.of_nat index + 1) +:+ " - " +:+ locale_of (he_timestamp e) +:+ " - " +:+
     status_text e +:+ duration] ++
  (match truthy_str (he_tabTitle e) with Some t => ["# Terminal: " +:+ t] | None => [] end) ++
  ["$ " +:+ he_command e] ++
  (if str_truthy (trim (he_output e)) then [trim (he_output e)] else []) ++
  (match he_exitCode e with Some x => ["# Exit Code: " +:+ z_to_string x] | None => [] end) ++
  [EmptyString].

(** [exportCommandsWithOutput(entries)]. *)
Definition exportCommandsWithOutput (entries : option (list cmd_entry)) (s : hist_state) : string :=
  match to_export entries s with
  | [] => EmptyString
  | h => join nl (mjoin (imap output_lines h))
  end.

(** One element of [commands] in [exportAsJSON]. *)
Definition export_entry_json (e : cmd_entry) : json :=
  JObj ([("id", JStr (he_id e)); ("command", JStr (he_command e)); ("output", JStr (he_output e));
         ("exitCode", null_or JNum (he_exitCode e)); ("timestamp", JNum (he_timestamp e));
         ("date", JStr (iso_of (he_timestamp e))); ("aborted", JBool (he_aborted e)); ("tabId", JStr (he_tabId e))] ++
        opt_prop "tabTitle" (JStr <$> he_tabTitle e) ++ opt_prop "duration" (JNum <$> he_duration e) ++
        [("status", JStr (status_text e))]).

(** [exportAsJSON(entries)]. *)
Definition exportAsJSON (entries : option (list cmd_entry)) (s : hist_state) : string :=
  match to_export entries s with
  | [] => EmptyString
  | h => json_stringify true (JObj [("exportDate", JStr (iso_of now)); ("totalCommands", JNum (Z.of_nat (length h)));
                                    ("commands", JArr (export_entry_json <$> h))])
  end.

(** [exportAsCSV(entries)]. *)
Definition exportAsCSV (entries : option (list cmd_entry)) (s : hist_state) : string :=
  match to_export entries s with
  | [] => EmptyString
  | h => join nl (csv_header :: (csv_line iso_of <$> h))
  end.

(** The lines of one entry in [exportAsMarkdown]. *)
Definition markdown_lines (index : nat) (e : cmd_entry) : list string :=
  let status := if he_aborted e then "⚠️ ABORTED"
                else if bool_decide (he_exitCode e = Some 0) then "✅ SUCCESS" else "❌ FAILED" in
  let duration := match truthy_num (he_duration e) with
                  | Some d => " (" +:+ formatDuration d +:+ ")" | None => EmptyString end in
  ["## Command " +:+ z_to_string (Z.of_nat index + 1); "**Date:** " +:+ locale_of (he_timestamp e);
   "**Status:** " +:+ status +:+ duration] ++
  (match truthy_str (he_tabTitle e) with Some t => ["**Terminal:** " +:+ t] | None => [] end) ++
  ["**Exit Code:** " +:+ (match he_exitCode e with Some x => z_to_string x | None => "N/A" end);
   EmptyString; "### Command"; "```bash"; he_command e; "```"; EmptyString] ++
  (if str_truthy (trim (he_output e)) then ["### Output"; "```"; trim (he_output e); "```"; EmptyString] else []) ++
  ["---"; EmptyString].

(** [exportAsMarkdown(entries)]. *)
Definition exportAsMarkdown (entries : option (list cmd_entry)) (s : hist_state) : string :=
  match to_export entries s with
  | [] => EmptyString
  | h => join nl (["# Command History Export"; "**Export Date:** " +:+ locale_of now;
                   "**Total Commands:** " +:+ z_to_string (Z.of_nat (length h)); EmptyString; "---"; EmptyString] ++
                  mjoin (imap markdown_lines h))
  end.

(** [navigator.clipboard.writeText(text)] and its outcome. *)
Definition write_clipboard (text : string) (s : hist_state) : hist_state * bool :=
  if clipboard_ok then (set_clipboard text s, true) else (s, false).

(** [copyCommand(id)] and [copyOutput(id)]. *)
Definition copyCommand (id : string) (s : hist_state) : hist_state * bool :=
  match getCommand id s with
  | None => (s, false)
  | Some e => write_clipboard (he_command e) s
  end.

Definition copyOutput (id : string) (s : hist_state) : hist_state * bool :=
  match getCommand id s with
  | None => (s, false)
  | Some e => write_clipboard (he_output e) s
  end.

(** [copyExportToClipboard(content)]. *)
Definition copyExportToClipboard (content : string) (s : hist_state) : hist_state * bool :=
  write_clipboard content s.

(** [downloadExport(content, filename, mimeType)]: the file handed to the
    browser through a temporary link. *)
Definition downloadExport (content filename mimeType : string) (s : hist_state) : hist_state * bool :=
  (HistState (h_history s) (h_storage s) (h_clipboard s) (h_downloads s ++ [(filename, mimeType, content)]), true).

End Env.

(** ** Lemmas: storage *)

(** What [loadHistoryFromStorage] keeps of an entry: truthy [id],
    [command] and [timestamp]. *)
Definition entry_valid (e : cmd_entry) : bool :=
  str_truthy (he_id e) && str_truthy (he_command e) && negb (bool_decide (he_timestamp e = 0)).

(** The history a restart would read back from the storage. *)
Definition stored_history (s : hist_state) : list cmd_entry := h_history (loadHistoryFromStorage s).

Lemma entry_json_decode e : entry_of_json (entry_json e) = Some e.
Proof. destruct e as [id c o [p|] [x|] t a tab [ti|] [d|]]; vm_compute; reflexivity. Qed.

Lemma entry_json_wf e : json_wf (entry_json e) = true.
Proof.
  destruct e as [id c o [p|] [x|] t a tab [ti|] [d|]]; unfold entry_json; cbn [json_wf];
    apply andb_true_iff; (split; [apply bool_decide_eq_true_2; vm_decide|reflexivity]).
Qed.

Lemma valid_stored_entry e : valid_stored (entry_json e) = Ok (entry_valid e).
Proof.
  destruct e as [id c o [p|] [x|] t a tab [ti|] [d|]]; unfold valid_stored, entry_valid; vm_compute;
    destruct id, c; try reflexivity; by destruct (bool_decide (t = 0)).
Qed.

Lemma filter_valid_entries l :
  filter_valid (JArr (entry_json <$> l)) = Ok (entry_json <$> filter (λ e, entry_valid e = true) l).
Proof.
  unfold filter_valid. induction l as [|e l IH]; [done|]. rewrite fmap_cons. cbn [mapM].
  rewrite valid_stored_entry. cbn [fmap result_fmap mbind result_bind].
  destruct (mapM _ (entry_json <$> l)) as [oks|err]; [|done]. simplify_eq/=.
  rewrite !filter_cons. cbn [fst snd].
  destruct (decide (entry_valid e = true)); rewrite ?fmap_cons; cbn [fst]; by rewrite IH.
Qed.

Lemma omap_decode (l : list cmd_entry) : omap entry_of_json (entry_json <$> l) = l.
Proof. induction l as [|e l IH]; [done|]. simpl. rewrite entry_json_decode. f_equal. exact IH. Qed.

(** What a restart reads back after [saveHistoryToStorage]: the valid
    entries, in order. *)
Lemma stored_history_save s :
  stored_history (saveHistoryToStorage true s) = filter (λ e, entry_valid e = true) (h_history s).
Proof.
  unfold stored_history, loadHistoryFromStorage, saveHistoryToStorage. cbn [h_storage set_storage].
  assert (str_truthy (json_stringify false (JArr (entry_json <$> h_history s))) = true) as ->
    by (unfold json_stringify; by destruct (entry_json <$> h_history s)).
  rewrite json_roundtrip.
  - rewrite filter_valid_entries. simpl. apply omap_decode.
  - cbn [json_wf]. apply forallb_forall. intros j Hj. apply list_elem_of_In in Hj.
    apply list_elem_of_fmap in Hj as (e & -> & _). apply entry_json_wf.
Qed.

Lemma stored_history_same s s' : h_storage s' = h_storage s → stored_history s' = stored_history s.
Proof. intros H. unfold stored_history, loadHistoryFromStorage. rewrite H. by repeat case_match. Qed.

Lemma entry_of_json_fields j e : entry_of_json j = Some e →
  get_str j "id" = Some (he_id e) ∧ get_str j "command" = Some (he_command e) ∧
  get_num j "timestamp" = Some (he_timestamp e).
Proof.
  unfold entry_of_json. intros H.
  destruct (get_str j "id") eqn:E1; [|done]. cbn [mbind option_bind] in H.
  destruct (get_str j "command") eqn:E2; [|done]. cbn [mbind option_bind] in H.
  destruct (get_str j "output"); [|done]. cbn [mbind option_bind] in H.
  destruct (get_opt get_str j "promptShell"); [|done]. cbn [mbind option_bind] in H.
  destruct (get_opt get_num j "exitCode"); [|done]. cbn [mbind option_bind] in H.
  destruct (get_num j "timestamp") eqn:E3; [|done]. cbn [mbind option_bind] in H.
  destruct (match jget j "aborted" with Some (JBool b) => Some b | _ => None end); [|done].
  cbn [mbind option_bind] in H. destruct (get_str j "tabId"); [|done]. cbn [mbind option_bind] in H.
  destruct (get_opt get_str j "tabTitle"); [|done]. cbn [mbind option_bind] in H.
  destruct (get_opt get_num j "duration"); [|done]. cbn [mbind option_bind] in H.
  by injection H as <-.
Qed.

Lemma entry_of_json_valid j e : entry_of_json j = Some e → valid_stored j = Ok true → entry_valid e = true.
Proof.
  intros Hd Hv. destruct (entry_of_json_fields j e Hd) as (H1 & H2 & H3).
  unfold get_str, get_num in *. unfold valid_stored in Hv. unfold entry_valid.
  destruct (jget j "id") as [[]|], (jget j "command") as [[]|], (jget j "timestamp") as [[]|]; simplify_eq.
  destruct j; try discriminate; injection Hv as Hv; cbn [js_truthy default from_option id] in Hv;
    rewrite !andb_true_iff in Hv; destruct Hv as [[Ha Hb] Hc];
    rewrite !negb_true_iff in *; repeat case_bool_decide; simplify_eq/=; try done;
    destruct (he_id e), (he_command e); done.
Qed.

(** Every entry read back from storage is valid. *)
Lemma stored_history_valid s : Forall (λ e, entry_valid e = true) (stored_history s).
Proof.
  unfold stored_history, loadHistoryFromStorage.
  destruct (h_storage s) as [text|]; [|constructor]. destruct (str_truthy text); [|constructor]. simpl.
  destruct (json_parse text) as [[| | | |l|kvs]|]; try constructor. simpl.
  destruct (mapM _ l) as [oks|] eqn:Hm; [|constructor]. simpl. apply Forall_forall. intros e He.
  apply list_elem_of_omap in He as (j & Hj & Hd). apply list_elem_of_fmap in Hj as ([j' b] & -> & Hj).
  apply list_elem_of_filter in Hj as [Hb Hj]. simpl in Hb, Hd. subst b.
  assert (valid_stored j' = Ok true) as Hv.
  { revert oks Hm Hj. induction l as [|x l IH]; intros oks Hm Hj.
    - injection Hm as <-. by apply elem_of_nil in Hj.
    - cbn in Hm. destruct (valid_stored x) eqn:Ex; [|done]. cbn in Hm.
      destruct (mapM _ l) eqn:El; [|done]. injection Hm as <-.
      apply elem_of_cons in Hj as [Hj|Hj]; [by simplify_eq|by eapply IH]. }
  by apply (entry_of_json_valid j').
Qed.

(** ** The service as a transition system *)

(** A call of a method that changes the state, or a restart of the
    application, which builds the service again from the storage.  [W]
    says which outcomes of [setItem] the environment allows: [λ _, True]
    for any, [λ w, w = true] for a storage that never fails. *)
Inductive hist_step (W : bool → Prop) : hist_state → hist_state → Prop :=
| HAdd w id e s : W w → hist_step W s (addCommand w id e s).1
| HRemove w id s : W w → hist_step W s (removeCommand w id s).1
| HClear w s : W w → hist_step W s (clearHistory w s)
| HCopyCommand ok id s : hist_step W s (copyCommand ok id s).1
| HCopyOutput ok id s : hist_step W s (copyOutput ok id s).1
| HCopyExport ok c s : hist_step W s (copyExportToClipboard ok c s).1
| HDownload c f m s : hist_step W s (downloadExport c f m s).1
| HRestart s : hist_step W s (loadHistoryFromStorage s).

(** The history, and what a restart would read back, have at most 1000
    entries. *)
Definition hist_bounded (s : hist_state) : Prop :=
  (length (h_history s) ≤ MAX_HISTORY_ENTRIES)%nat ∧ (length (stored_history s) ≤ MAX_HISTORY_ENTRIES)%nat.

(** A restart would read back exactly the valid entries of the history. *)
Definition hist_synced (s : hist_state) : Prop :=
  stored_history s = filter (λ e, entry_valid e = true) (h_history s).

Lemma load_storage s : h_storage (loadHistoryFromStorage s) = h_storage s.
Proof. unfold loadHistoryFromStorage. by repeat case_match. Qed.

(** A write that succeeds synchronises the storage; one that fails
    leaves what a restart reads back unchanged. *)
Lemma save_synced s : hist_synced (saveHistoryToStorage true s).
Proof. exact (stored_history_save s). Qed.

Lemma save_failed_stored s : stored_history (saveHistoryToStorage false s) = stored_history s.
Proof. done. Qed.

Lemma hist_bounded_save w s :
  (length (h_history s) ≤ MAX_HISTORY_ENTRIES)%nat → (length (stored_history s) ≤ MAX_HISTORY_ENTRIES)%nat →
  hist_bounded (saveHistoryToStorage w s).
Proof.
  intros Hh Hs. destruct w; split; try done.
  rewrite stored_history_save. pose proof (length_filter (λ e, entry_valid e = true) (h_history s)). simpl in *. lia.
Qed.

Lemma hist_bounded_frame s s' :
  h_history s' = h_history s → h_storage s' = h_storage s → hist_bounded s → hist_bounded s'.
Proof. intros Hh Hs. unfold hist_bounded. by rewrite (stored_history_same s s' Hs), Hh. Qed.

Lemma hist_synced_frame s s' :
  h_history s' = h_history s → h_storage s' = h_storage s → hist_synced s → hist_synced s'.
Proof. intros Hh Hs. unfold hist_synced. by rewrite (stored_history_same s s' Hs), Hh. Qed.

Lemma write_clipboard_frame ok t s :
  h_history (write_clipboard ok t s).1 = h_history s ∧ h_storage (write_clipboard ok t s).1 = h_storage s.
Proof. unfold write_clipboard. by destruct ok. Qed.

Lemma hist_step_bounded W s s' : hist_step W s s' → hist_bounded s → hist_bounded s'.
Proof.
  intros Hs Hb. pose proof Hb as [Hh Hst]. destruct Hs as [w id e s Hw|w id s Hw|w s Hw|ok id s|ok id s|ok c s|c f m s|s].
  - apply hist_bounded_save; [apply take_length_le|done].
  - unfold removeCommand. case_bool_decide; [|done]. apply hist_bounded_save; [|done]. simpl.
    pose proof (length_filter (λ e, he_id e ≠ id) (h_history s)). lia.
  - apply hist_bounded_save; [simpl; lia|done].
  - unfold copyCommand. destruct (getCommand id s); [|done].
    destruct (write_clipboard_frame ok (he_command c) s). by apply (hist_bounded_frame s).
  - unfold copyOutput. destruct (getCommand id s); [|done].
    destruct (write_clipboard_frame ok (he_output c) s). by apply (hist_bounded_frame s).
  - destruct (write_clipboard_frame ok c s). by apply (hist_bounded_frame s).
  - by apply (hist_bounded_frame s).
  - split; [exact Hst|]. by rewrite (stored_history_same s); [|apply load_storage].
Qed.

(** A restart reads back what it loaded. *)
Lemma load_synced s : hist_synced (loadHistoryFromStorage s).
Proof.
  unfold hist_synced. rewrite (stored_history_same s); [|apply load_storage].
  symmetry. apply filter_all, stored_history_valid.
Qed.

Lemma hist_step_synced s s' :
  hist_step (λ w, w = true) s s' → hist_synced s → hist_synced s'.
Proof.
  intros Hs Hy. destruct Hs as [w id e s ->|w id s ->|w s ->|ok id s|ok id s|ok c s|c f m s|s].
  - apply save_synced.
  - unfold removeCommand. case_bool_decide; [apply save_synced|done].
  - apply save_synced.
  - unfold copyCommand. destruct (getCommand id s); [|done].
    destruct (write_clipboard_frame ok (he_command c) s). by apply (hist_synced_frame s).
  - unfold copyOutput. destruct (getCommand id s); [|done].
    destruct (write_clipboard_frame ok (he_output c) s). by apply (hist_synced_frame s).
  - destruct (write_clipboard_frame ok c s). by apply (hist_synced_frame s).
  - by apply (hist_synced_frame s).
  - apply load_synced.
Qed.

Lemma hist_load_bounded s0 :
  (length (stored_history s0) ≤ MAX_HISTORY_ENTRIES)%nat → hist_bounded (loadHistoryFromStorage s0).
Proof. intros H. split; [exact H|]. by rewrite (stored_history_same s0); [|apply load_storage]. Qed.

(** A failed write after a successful one: a restart loses exactly the
    entry just added (the [catch] of [saveHistoryToStorage] only logs). *)
Lemma failed_write_loses_entry id e s :
  hist_synced s → (length (h_history s) < MAX_HISTORY_ENTRIES)%nat → entry_valid (with_id id e) = true →
  filter (λ e, entry_valid e = true) (h_history (addCommand false id e s).1) =
    with_id id e :: stored_history (addCommand false id e s).1.
Proof.
  intros Hy Hl Hv. cbn [addCommand fst]. rewrite save_failed_stored. cbn [h_history set_history].
  rewrite (stored_history_same s) by done. rewrite Hy.
  cbn [saveHistoryToStorage h_history set_history]. rewrite take_ge by (simpl; lia). rewrite filter_cons. by rewrite decide_True.
Qed.

(** C22: from start-up on a storage holding at most 1000 entries, through
    any sequence of method calls and restarts, whether or not
    [localStorage.setItem] fails, the history and what a restart reads
    back have at most 1000 entries; and as long as every write succeeds,
    a restart reads back exactly the valid entries of the history, in
    order (an entry with an empty command or id or a zero timestamp,
    which [addCommand] accepts, is still lost at the next restart). *)
Theorem history_invariant s0 s :
  (length (stored_history s0) ≤ MAX_HISTORY_ENTRIES)%nat →
  (rtc (hist_step (λ _, True)) (loadHistoryFromStorage s0) s → hist_bounded s) ∧
  (rtc (hist_step (λ w, w = true)) (loadHistoryFromStorage s0) s →
     hist_bounded s ∧ stored_history s = filter (λ e, entry_valid e = true) (h_history s)).
Proof.
  intros H0. split.
  - intros Hr. exact (rtc_preserve _ _ _ _ (hist_step_bounded _) (hist_load_bounded s0 H0) Hr).
  - intros Hr. apply (rtc_preserve (hist_step (λ w, w = true)) (λ s, hist_bounded s ∧ hist_synced s) (loadHistoryFromStorage s0) s);
      [|split|exact Hr].
    + intros a b Hab [Hb Hy]. split; [by eapply hist_step_bounded|by eapply hist_step_synced].
    + by apply hist_load_bounded.
    + apply load_synced.
Qed.

(** ** Filters and search *)

Lemma filter_sublist_impl {A} (P Q : A → Prop) `{∀ x, Decision (P x)} `{∀ x, Decision (Q x)} l :
  (∀ x, x ∈ l → P x → Q x) → filter P l `sublist_of` filter Q l.
Proof.
  induction l as [|x l IH]; intros Himp; [done|]. rewrite !filter_cons.
  assert (∀ y, y ∈ l → P y → Q y) as Himp' by (intros; apply Himp; [by right|done]).
  destruct (decide (P x)) as [Hp|Hp].
  - rewrite decide_True by (apply Himp; [left|done]). by apply sublist_skip, IH.
  - destruct (decide (Q x)); [apply sublist_cons|]; by apply IH.
Qed.

(** the success, failed and aborted views of [getFilteredHistory]
    split the history: together they are a rearrangement of it, each
    entry in exactly one of them, and the [all] view is the history
    itself. *)
Theorem filtered_history_partition s :
  getFilteredHistory FSuccess s ++ getFilteredHistory FFailed s ++ getFilteredHistory FAborted s ≡ₚ h_history s ∧
  getFilteredHistory FAll s = h_history s.
Proof.
  split; [|done]. apply filter3_perm. intros e. unfold succeeded, failed.
  destruct (he_aborted e); simpl; [naive_solver|].
  destruct (decide (he_exitCode e = Some 0)) as [E|E].
  - rewrite bool_decide_true, bool_decide_false by tauto. naive_solver.
  - rewrite bool_decide_false, bool_decide_true by tauto. naive_solver.
Qed.

(** refining a search never finds more: when a nonblank term [t1]
    occurs in [t2], every entry [searchHistory(t2)] returns is returned,
    in the same order, by [searchHistory(t1)]; and the search ignores
    case. *)
Theorem search_narrowing t1 t2 s :
  includes t2 t1 = true → str_truthy (trim t1) = true →
  searchHistory t2 s `sublist_of` searchHistory t1 s ∧ searchHistory (to_lower t1) s = searchHistory t1 s.
Proof.
  intros Hinc Ht1. unfold searchHistory. split.
  - rewrite Ht1. destruct (str_truthy (trim t2)) eqn:Ht2.
    + simpl. apply filter_sublist_impl. intros e _. unfold entry_matches. rewrite !orb_true_iff.
      pose proof (includes_to_lower _ _ Hinc) as Hl.
      intros [[H|H]|H]; [left; left|left; right|right]; try by eapply includes_trans.
      destruct (he_tabTitle e); [|done]. apply andb_true_iff in H as [? ?]. apply andb_true_iff. split; [done|].
      by eapply includes_trans.
    + by rewrite (trim_includes _ _ Hinc Ht2) in Ht1.
  - by rewrite to_lower_idem, trim_to_lower.
Qed.

(** ** Durations *)

(** Rounding to nearest is off by at most half the divisor. *)
Lemma div_rne_spec a b : 0 < b → 2 * Z.abs (b * div_rne a b - a) ≤ b.
Proof.
  intros Hb. unfold div_rne. pose proof (Z.div_mod a b ltac:(lia)) as Ha. pose proof (Z.mod_pos_bound a b Hb).
  set (q := a / b) in *. set (r := a mod b) in *.
  case_bool_decide; cbn iota; [lia|]. case_bool_decide; cbn iota; [lia|]. destruct (Z.even q); lia.
Qed.

Lemma tenths_close d : 1000 ≤ d < 60000 → Z.abs (100 * tenths_of_seconds d - d) ≤ 50.
Proof.
  intros Hd. unfold tenths_of_seconds.
  set (e := Z.log2 (d / 1000)).
  assert (0 ≤ e ≤ 5) as He.
  { split; [apply Z.log2_nonneg|]. change 5 with (Z.log2 59). apply Z.log2_le_mono.
    assert (d / 1000 < 60) by (apply Z.div_lt_upper_bound; lia). lia. }
  set (P := 2 ^ (52 - e)).
  assert (2 ^ 47 ≤ P) as HP by (apply Z.pow_le_mono_r; lia).
  assert (2 ^ (52 - e + 1) = 2 * P) as -> by (rewrite Z.pow_add_r by lia; unfold P; lia).
  pose proof (div_rne_spec (d * P) 1000 ltac:(lia)) as HM. set (M := div_rne (d * P) 1000) in *.
  assert (0 < 2 * P) as HP2 by lia.
  pose proof (Z.div_mod (20 * M + P) (2 * P) ltac:(lia)) as Hn. pose proof (Z.mod_pos_bound (20 * M + P) (2 * P) HP2).
  set (n := (20 * M + P) / (2 * P)) in *. set (r := (20 * M + P) mod (2 * P)) in *.
  assert (P * (100 * n - d) = 50 * (2 * P * n - 20 * M) + (1000 * M - d * P)) as Hx by ring.
  assert (Z.abs (2 * P * n - 20 * M) ≤ P) by lia.
  destruct (Z.abs_spec (100 * n - d)) as [[_ ->]|[_ ->]]; nia.
Qed.

(** in the seconds branch of [formatDuration], the tenths printed are
    within half a tenth of the duration; so a duration from 59.95 s up to
    a minute prints as ["60.0s"], not as ["1m 0s"].  In the minutes
    branch the seconds printed are below 60. *)
Theorem format_duration_bounds d :
  (1000 ≤ d < 60000 → ∃ n, formatDuration d = fixed1 n +:+ "s" ∧ Z.abs (100 * n - d) ≤ 50 ∧ 10 ≤ n ≤ 600) ∧
  (60000 ≤ d → ∃ m sec, formatDuration d = z_to_string m +:+ "m " +:+ z_to_string sec +:+ "s" ∧
                 0 ≤ sec < 60 ∧ m * 60000 + sec * 1000 ≤ d < m * 60000 + sec * 1000 + 1000).
Proof.
  split.
  - intros Hd. exists (tenths_of_seconds d). unfold formatDuration.
    rewrite bool_decide_false, bool_decide_true by lia. pose proof (tenths_close d Hd). split_and!; [done|done|lia|lia].
  - intros Hd. exists (d / 60000), ((d mod 60000) / 1000). unfold formatDuration.
    rewrite !bool_decide_false by lia. split; [done|].
    pose proof (Z.div_mod d 60000 ltac:(lia)). pose proof (Z.mod_pos_bound d 60000 ltac:(lia)).
    pose proof (Z.div_mod (d mod 60000) 1000 ltac:(lia)). pose proof (Z.mod_pos_bound (d mod 60000) 1000 ltac:(lia)).
    split; [split; [apply Z.div_pos|apply Z.div_lt_upper_bound]; lia|lia].
Qed.

(** ** CSV fields *)

(** Reading one field of a CSV record as RFC 4180 defines it: a quoted
    field runs to the quote that is not doubled, and [""] inside it is a
    quote; a bare field runs to the next comma or line break. *)
Fixpoint csv_quoted (s : string) : option (string * string) :=
  match s with
  | EmptyString => None
  | String c r =>
      if bool_decide (c = c_dq) then
        match r with
        | String c2 r2 =>
            if bool_decide (c2 = c_dq) then (λ p, (String c_dq p.1, p.2)) <$> csv_quoted r2 else Some (EmptyString, r)
        | EmptyString => Some (EmptyString, EmptyString)
        end
      else (λ p, (String c p.1, p.2)) <$> csv_quoted r
  end.

Definition csv_stop (c : ascii) : bool := bool_decide (c = c_comma) || bool_decide (c = c_lf) || bool_decide (c = c_cr).

Fixpoint csv_bare (s : string) : string * string :=
  match s with
  | EmptyString => (EmptyString, EmptyString)
  | String c r => if csv_stop c then (EmptyString, s) else let p := csv_bare r in (String c p.1, p.2)
  end.

Definition csv_field (s : string) : option (string * string) :=
  match s with
  | String c r => if bool_decide (c = c_dq) then csv_quoted r else Some (csv_bare s)
  | EmptyString => Some (EmptyString, EmptyString)
  end.

(** What may follow a field: the end of the text, a comma, a line break. *)
Definition field_end (rest : string) : Prop :=
  match rest with EmptyString => True | String c _ => csv_stop c = true end.

Lemma includes_char_cons s c d : includes (String d s) (String c EmptyString) = false → d ≠ c ∧ includes s (String c EmptyString) = false.
Proof.
  intros H. simpl in H. apply orb_false_iff in H as [H1 H2]. rewrite andb_true_r in H1.
  split; [intros ->; by rewrite bool_decide_true in H1|done].
Qed.

Lemma csv_bare_plain f rest :
  includes f (String c_comma EmptyString) = false → includes f (String c_lf EmptyString) = false →
  includes f (String c_cr EmptyString) = false → field_end rest → csv_bare (f +:+ rest) = (f, rest).
Proof.
  intros H1 H2 H3 Hr. induction f as [|d f IH].
  - destruct rest as [|c r]; [done|]. simpl in *. by rewrite Hr.
  - apply includes_char_cons in H1 as [D1 H1], H2 as [D2 H2], H3 as [D3 H3]. simpl.
    assert (csv_stop d = false) as -> by (unfold csv_stop; rewrite !bool_decide_false by done; done).
    by rewrite IH.
Qed.

Lemma csv_quoted_escaped f rest : field_end rest →
  csv_quoted (replace_char c_dq (String c_dq (String c_dq EmptyString)) f +:+ String c_dq rest) = Some (f, rest).
Proof.
  intros Hr. induction f as [|d f IH].
  - simpl. rewrite ?bool_decide_true by done. destruct rest as [|c r]; [done|].
    rewrite bool_decide_false; [done|]. intros ->. by vm_compute in Hr.
  - simpl. case_bool_decide as Hd.
    + subst d. simpl. rewrite ?bool_decide_true by done. by rewrite string_app_nil_l, IH.
    + simpl. rewrite bool_decide_false by done. by rewrite IH.
Qed.

(** C39: a field written by [escapeCsvField] reads back as itself with
    RFC 4180's rules, whatever comma, quote or line break it holds, and
    the reading stops where the field ends. *)
Theorem csv_field_roundtrip f rest : field_end rest → csv_field (escapeCsvField f +:+ rest) = Some (f, rest).
Proof.
  intros Hr. unfold escapeCsvField. destruct (str_truthy f) eqn:Hf; simpl.
  - destruct (needs_quotes f) eqn:Hq.
    + simpl. rewrite ?bool_decide_true by done. rewrite str_app_assoc. by apply csv_quoted_escaped.
    + unfold needs_quotes in Hq. rewrite !orb_false_iff in Hq. destruct Hq as [[[H1 H2] H3] H4].
      destruct f as [|d f']; [done|]. pose proof (includes_char_cons _ _ _ H2) as [Hd _].
      change (csv_field (String d f' +:+ rest)) with
        (if bool_decide (d = c_dq) then csv_quoted (f' +:+ rest) else Some (csv_bare (String d f' +:+ rest))).
      rewrite bool_decide_false by done. f_equal. by apply csv_bare_plain.
  - destruct f; [|done]. destruct rest as [|c r]; [done|]. simpl in Hr |- *.
    rewrite bool_decide_false; [|intros ->; by vm_compute in Hr]. simpl. by rewrite Hr.
Qed.
