(* ===== verification/HistoryModal.v ===== *)
(** * The command-history dialog of the agent plugin

    [CommandHistoryModalComponent] (in [components/runningCommandsDialog.component.ts])
    shows the history of [CommandHistoryManagerService] ([CommandHistory.v])
    through a status filter and a search box, with outputs cut at 200
    characters unless expanded.  Its state is the search term, the
    filter and the set of expanded entries ([expandedOutputs], a [Set]
    modelled as the list of its elements in insertion order). *)

From S2P Require Import Prelude JsString CommandHistory.
From Stdlib Require Import Ascii String.

Local Abbreviation length := List.length.
Local Open Scope Z_scope.

Record modal_state := ModalState {
  searchTerm : string;
  filterType : history_filter;
  expandedOutputs : list string;
}.

(** The filter the dialog applies to search results. *)
Definition modal_pred (f : history_filter) (e : cmd_entry) : bool :=
  match f with
  | FSuccess => negb (he_aborted e) && bool_decide (he_exitCode e = Some 0)
  | FFailed => negb (he_aborted e) && bool_decide (he_exitCode e ≠ Some 0)
  | FAborted => he_aborted e
  | FAll => true
  end.

(** [updateFilteredHistory()]: the filtered history, or, when there is a
    search term, the search results filtered again. *)
Definition updateFilteredHistory (st : modal_state) (s : hist_state) : list cmd_entry :=
  let history := getFilteredHistory (filterType st) s in
  if str_truthy (trim (searchTerm st)) then
    let history := searchHistory (searchTerm st) s in
    match filterType st with
    | FAll => history
    | f => filter (λ e, modal_pred f e = true) history
    end
  else history.

(** [toggleOutputExpanded(id)]. *)
Definition toggleOutputExpanded (id : string) (st : modal_state) : modal_state :=
  ModalState (searchTerm st) (filterType st)
    (if bool_decide (id ∈ expandedOutputs st) then filter (λ x, x ≠ id) (expandedOutputs st)
     else expandedOutputs st ++ [id]).

(** [isOutputExpanded(id)]. *)
Definition isOutputExpanded (id : string) (st : modal_state) : bool := bool_decide (id ∈ expandedOutputs st).

(** [getDisplayOutput(entry)]. *)
Definition getDisplayOutput (st : modal_state) (e : cmd_entry) : string :=
  if negb (str_truthy (he_output e)) then EmptyString
  else if isOutputExpanded (he_id e) st then he_output e
  else if bool_decide (200 < String.length (he_output e))%nat then substring 0 200 (he_output e) +:+ "..."
  else he_output e.

(** The three status getters: [getStatusBadgeClass], [getStatusIcon],
    [getStatusText]. *)
Definition getStatusBadgeClass (e : cmd_entry) : string :=
  if he_aborted e then "bg-warning" else if bool_decide (he_exitCode e = Some 0) then "bg-success" else "bg-danger".

Definition getStatusIcon (e : cmd_entry) : string :=
  if he_aborted e then "fa-ban" else if bool_decide (he_exitCode e = Some 0) then "fa-check" else "fa-times".

Definition getStatusText (e : cmd_entry) : string :=
  if he_aborted e then "Aborted" else if bool_decide (he_exitCode e = Some 0) then "Success" else "Failed".

(** [getRelativeTime(timestamp)] at [Date.now() = now]. *)
Definition getRelativeTime (now timestamp : Z) : string :=
  let diff := now - timestamp in
  let minutes := diff / 60000 in
  let hours := diff / 3600000 in
  let days := diff / 86400000 in
  if bool_decide (minutes < 1) then "Just now"%string
  else if bool_decide (minutes < 60) then z_to_string minutes +:+ "m ago"
  else if bool_decide (hours < 24) then z_to_string hours +:+ "h ago"
  else z_to_string days +:+ "d ago".

(** What the dialog should show: the entries that pass the service's
    status filter and match the search, in history order. *)
Definition filter_pred (f : history_filter) (e : cmd_entry) : bool :=
  match f with
  | FAll => true
  | FSuccess => succeeded e
  | FFailed => failed e
  | FAborted => he_aborted e
  end.

Definition search_pred (term : string) (e : cmd_entry) : bool :=
  negb (str_truthy (trim term)) || entry_matches (to_lower term) e.

Definition visible_entries (f : history_filter) (term : string) (s : hist_state) : list cmd_entry :=
  filter (λ e, filter_pred f e && search_pred term e = true) (h_history s).

(** ** The dialog and its handlers *)

(** The component's fields: the view state above, the list it shows
    ([filteredHistory]), the count in its header ([totalHistory]) and the
    [alert]s it raised. *)
Record history_dialog := HistoryDialog {
  view : modal_state;
  filteredHistory : list cmd_entry;
  totalHistory : nat;
  alerts : list string
}.

Definition dialog_new : history_dialog := HistoryDialog (ModalState "" FAll []) [] 0 [].

Definition set_view (st : modal_state) (d : history_dialog) : history_dialog :=
  HistoryDialog st (filteredHistory d) (totalHistory d) (alerts d).

Definition dialog_alert (msg : string) (d : history_dialog) : history_dialog :=
  HistoryDialog (view d) (filteredHistory d) (totalHistory d) (alerts d ++ [msg]).

(** [this.filteredHistory = history] at the end of [updateFilteredHistory()]. *)
Definition refresh (d : history_dialog) (s : hist_state) : history_dialog :=
  HistoryDialog (view d) (updateFilteredHistory (view d) s) (totalHistory d) (alerts d).

(** The [commandHistory$] subscription, run by each [next(history)]. *)
Definition on_history (d : history_dialog) (s : hist_state) : history_dialog :=
  refresh (HistoryDialog (view d) (filteredHistory d) (length (h_history s)) (alerts d)) s.

(** [ngOnInit()]: the [BehaviorSubject] gives its value on subscription,
    then the initial load. *)
Definition dialog_ngOnInit (d : history_dialog) (s : hist_state) : history_dialog := refresh (on_history d s) s.

(** Typing in the search box: [ngModel] writes [searchTerm] (its listener
    is registered first), then [(input)] calls [onSearchChange()]. *)
Definition onSearchChange (term : string) (d : history_dialog) (s : hist_state) : history_dialog :=
  refresh (set_view (ModalState term (filterType (view d)) (expandedOutputs (view d))) d) s.

(** Choosing a status: [ngModel] writes [filterType], then [(change)]
    calls [onFilterChange()]. *)
Definition onFilterChange (f : history_filter) (d : history_dialog) (s : hist_state) : history_dialog :=
  refresh (set_view (ModalState (searchTerm (view d)) f (expandedOutputs (view d))) d) s.

(** [clearSearch()] *)
Definition clearSearch (d : history_dialog) (s : hist_state) : history_dialog :=
  refresh (set_view (ModalState "" (filterType (view d)) (expandedOutputs (view d))) d) s.

(** [removeEntry(id)]: the service emits only when it removed something;
    [stored] is the outcome of its [setItem]. *)
Definition removeEntry (stored : bool) (id : string) (d : history_dialog) (s : hist_state) : history_dialog * hist_state :=
  match removeCommand stored id s with
  | (s1, true) => (on_history d s1, s1)
  | (s1, false) => (d, s1)
  end.

(** [clearAllHistory()] after [confirm] answered [ok]. *)
Definition clearAllHistory (ok stored : bool) (d : history_dialog) (s : hist_state) : history_dialog * hist_state :=
  if ok then (on_history d (clearHistory stored s), clearHistory stored s) else (d, s).

(** [toggleOutputExpanded(id)] on the component. *)
Definition dialog_toggleOutput (id : string) (d : history_dialog) : history_dialog :=
  set_view (toggleOutputExpanded id (view d)) d.

(** [formatDuration(duration)] of the dialog: the same code as the
    service's. *)
Definition dialog_formatDuration (duration : Z) : string := formatDuration duration.

(** [trackByEntryId(index, entry)] *)
Definition trackByEntryId (index : nat) (e : cmd_entry) : string := he_id e.

(** [exportAll ? this.historyManager.history : this.filteredHistory] *)
Definition export_entries (exportAll : bool) (d : history_dialog) (s : hist_state) : list cmd_entry :=
  if exportAll then h_history s else filteredHistory d.

Definition export_scope (exportAll : bool) : string := if exportAll then "all" else "filtered".

(** [new Date().toISOString().replace(/[:.]/g, '-').slice(0, -5)] *)
Definition file_timestamp (iso : string) : string :=
  let t := replace_char ":"%char "-" (replace_char "."%char "-" iso) in
  substring 0 (String.length t - 5) t.

(** The common tail of the export handlers: alert on empty content,
    otherwise [downloadExport(content, filename, mimeType)]. *)
Definition export_to_file (content filename mimeType : string) (d : history_dialog) (s : hist_state) :
    history_dialog * hist_state :=
  if str_truthy content then (d, (downloadExport content filename mimeType s).1)
  else (dialog_alert "No commands to export" d, s).

(** The common tail of the copy handlers. *)
Definition copy_content (ok : bool) (content : string) (d : history_dialog) (s : hist_state) :
    history_dialog * hist_state :=
  if str_truthy content then (d, (copyExportToClipboard ok content s).1)
  else (dialog_alert "No commands to copy" d, s).

Section Exports.

(** [toLocaleString], [toISOString], [Date.now()] and whether the
    clipboard accepts the text, as in [CommandHistory.v]. *)
Variable locale_of : Z → string.
Variable iso_of : Z → string.
Variable now : Z.
Variable clipboard_ok : bool.

(** [copyCommand(id)] and [copyOutput(id)]: the result is only logged. *)
Definition dialog_copyCommand (id : string) (s : hist_state) : hist_state := (copyCommand clipboard_ok id s).1.
Definition dialog_copyOutput (id : string) (s : hist_state) : hist_state := (copyOutput clipboard_ok id s).1.

(** [exportCommandsOnly(exportAll)] *)
Definition dialog_exportCommandsOnly (exportAll : bool) (d : history_dialog) (s : hist_state) :
    history_dialog * hist_state :=
  export_to_file (exportCommandsOnly (Some (export_entries exportAll d s)) s)
    ("command-history-commands-" +:+ export_scope exportAll +:+ "-" +:+ file_timestamp (iso_of now) +:+ ".json")
    "application/json;charset=utf-8" d s.

(** [exportCommandsWithOutput(exportAll)] *)
Definition dialog_exportCommandsWithOutput (exportAll : bool) (d : history_dialog) (s : hist_state) :
    history_dialog * hist_state :=
  export_to_file (exportCommandsWithOutput locale_of (Some (export_entries exportAll d s)) s)
    ("command-history-full-" +:+ export_scope exportAll +:+ "-" +:+ file_timestamp (iso_of now) +:+ ".txt")
    "text/plain;charset=utf-8" d s.

(** [exportAsJSON(exportAll)] *)
Definition dialog_exportAsJSON (exportAll : bool) (d : history_dialog) (s : hist_state) :
    history_dialog * hist_state :=
  export_to_file (exportAsJSON iso_of now (Some (export_entries exportAll d s)) s)
    ("command-history-commands-" +:+ export_scope exportAll +:+ "-" +:+ file_timestamp (iso_of now) +:+ ".json")
    "text/plain;charset=utf-8" d s.

(** [exportAsCSV(exportAll)] *)
Definition dialog_exportAsCSV (exportAll : bool) (d : history_dialog) (s : hist_state) :
    history_dialog * hist_state :=
  export_to_file (exportAsCSV iso_of (Some (export_entries exportAll d s)) s)
    ("command-history-commands-" +:+ export_scope exportAll +:+ "-" +:+ file_timestamp (iso_of now) +:+ ".csv")
    "text/csv;charset=utf-8" d s.

(** [exportAsMarkdown(exportAll)] *)
Definition dialog_exportAsMarkdown (exportAll : bool) (d : history_dialog) (s : hist_state) :
    history_dialog * hist_state :=
  export_to_file (exportAsMarkdown locale_of now (Some (export_entries exportAll d s)) s)
    ("command-history-commands-" +:+ export_scope exportAll +:+ "-" +:+ file_timestamp (iso_of now) +:+ ".md")
    "text/markdown;charset=utf-8" d s.

(** [copyCommandsOnly()], [copyCommandsWithOutput()], [copyAsJSON()]:
    the entries shown. *)
Definition dialog_copyCommandsOnly (d : history_dialog) (s : hist_state) : history_dialog * hist_state :=
  copy_content clipboard_ok (exportCommandsOnly (Some (filteredHistory d)) s) d s.

Definition dialog_copyCommandsWithOutput (d : history_dialog) (s : hist_state) : history_dialog * hist_state :=
  copy_content clipboard_ok (exportCommandsWithOutput locale_of (Some (filteredHistory d)) s) d s.

Definition dialog_copyAsJSON (d : history_dialog) (s : hist_state) : history_dialog * hist_state :=
  copy_content clipboard_ok (exportAsJSON iso_of now (Some (filteredHistory d)) s) d s.

End Exports.

(** The open dialog and the service: the dialog's handlers, and the
    service's methods called from elsewhere (a new command, a restart),
    each followed by the subscription when it calls [next]. *)
Inductive dlg_step : history_dialog * hist_state → history_dialog * hist_state → Prop :=
| DlgAdd w id e d s : dlg_step (d, s) (on_history d (addCommand w id e s).1, (addCommand w id e s).1)
| DlgRestart d s : dlg_step (d, s) (on_history d (loadHistoryFromStorage s), loadHistoryFromStorage s)
| DlgSearch term d s : dlg_step (d, s) (onSearchChange term d s, s)
| DlgFilter f d s : dlg_step (d, s) (onFilterChange f d s, s)
| DlgClearSearch d s : dlg_step (d, s) (clearSearch d s, s)
| DlgRemove w id d s : dlg_step (d, s) (removeEntry w id d s)
| DlgClearAll ok w d s : dlg_step (d, s) (clearAllHistory ok w d s)
| DlgToggle id d s : dlg_step (d, s) (dialog_toggleOutput id d, s)
| DlgCopyCommand ok id d s : dlg_step (d, s) (d, dialog_copyCommand ok id s)
| DlgCopyOutput ok id d s : dlg_step (d, s) (d, dialog_copyOutput ok id s)
| DlgExportCommandsOnly iso now all d s : dlg_step (d, s) (dialog_exportCommandsOnly iso now all d s)
| DlgExportWithOutput loc iso now all d s : dlg_step (d, s) (dialog_exportCommandsWithOutput loc iso now all d s)
| DlgExportJSON iso now all d s : dlg_step (d, s) (dialog_exportAsJSON iso now all d s)
| DlgExportCSV iso now all d s : dlg_step (d, s) (dialog_exportAsCSV iso now all d s)
| DlgExportMarkdown loc iso now all d s : dlg_step (d, s) (dialog_exportAsMarkdown loc iso now all d s)
| DlgCopyCommandsOnly ok d s : dlg_step (d, s) (dialog_copyCommandsOnly ok d s)
| DlgCopyWithOutput loc ok d s : dlg_step (d, s) (dialog_copyCommandsWithOutput loc ok d s)
| DlgCopyJSON iso now ok d s : dlg_step (d, s) (dialog_copyAsJSON iso now ok d s).

(** The dialog is up to date: its list is what [updateFilteredHistory]
    gives now and its count is the history's length. *)
Definition dlg_ok (ds : history_dialog * hist_state) : Prop :=
  filteredHistory ds.1 = updateFilteredHistory (view ds.1) ds.2 ∧ totalHistory ds.1 = length (h_history ds.2).

(** A run of the dialog: a command is recorded while it is open, the
    user searches for it and removes it. *)
Definition hm_s0 : hist_state := HistState [] None None [].
Definition hm_entry : cmd_entry := CmdEntry "" "ls -la" "total 0" None (Some 0) 1000 false "tab-1" None (Some 15).
Definition hm_d0 : history_dialog := dialog_ngOnInit dialog_new hm_s0.
Definition hm_ds1 : history_dialog * hist_state :=
  (on_history hm_d0 (addCommand true "c1" hm_entry hm_s0).1, (addCommand true "c1" hm_entry hm_s0).1).
Definition hm_ds2 : history_dialog * hist_state := (onSearchChange "ls" hm_ds1.1 hm_ds1.2, hm_ds1.2).
Definition hm_ds3 : history_dialog * hist_state := removeEntry true "c1" hm_ds2.1 hm_ds2.2.

(** ** Lemmas *)

Lemma getFilteredHistory_pred f s : getFilteredHistory f s = filter (λ e, filter_pred f e = true) (h_history s).
Proof. destruct f; cbn; [|done..]. symmetry. apply filter_all, Forall_forall. done. Qed.

Lemma modal_pred_filter f e : f ≠ FAll → modal_pred f e = filter_pred f e.
Proof. by destruct f. Qed.

(** ** Properties *)

(** C26: searching and filtering commute in the dialog: whichever branch
    [updateFilteredHistory] takes, it shows exactly the entries that pass
    the service's status filter and match the search term, in history
    order. *)
Theorem history_view_equiv st s : updateFilteredHistory st s = visible_entries (filterType st) (searchTerm st) s.
Proof.
  unfold updateFilteredHistory, visible_entries, search_pred, searchHistory.
  destruct (str_truthy (trim (searchTerm st))) eqn:Ht.
  - cbn [negb]. destruct (filterType st);
      [apply list_filter_iff; intros e; cbn; by destruct (entry_matches _ e)|..];
      rewrite list_filter_filter; apply list_filter_iff; intros e; rewrite modal_pred_filter by congruence;
      destruct (filter_pred _ e), (entry_matches _ e); cbn; tauto.
  - rewrite getFilteredHistory_pred. apply list_filter_iff. intros e. by rewrite orb_true_l, andb_true_r.
Qed.

(** ** Lemmas on the dialog *)

Lemma updateFilteredHistory_hist st s s' :
  h_history s' = h_history s → updateFilteredHistory st s' = updateFilteredHistory st s.
Proof. intros H. unfold updateFilteredHistory, getFilteredHistory, searchHistory. by rewrite H. Qed.

Lemma on_history_ok d s : dlg_ok (on_history d s, s).
Proof. done. Qed.

Lemma refresh_ok d s : totalHistory d = length (h_history s) → dlg_ok (refresh d s, s).
Proof. done. Qed.

(** A service call that keeps the history keeps the dialog up to date. *)
Lemma dlg_ok_same_history d s s' : h_history s' = h_history s → dlg_ok (d, s) → dlg_ok (d, s').
Proof. intros H [H1 H2]. split; simpl in *; [by rewrite (updateFilteredHistory_hist _ _ _ H)|by rewrite H]. Qed.

Lemma write_clipboard_history ok t s : h_history (write_clipboard ok t s).1 = h_history s.
Proof. unfold write_clipboard. by destruct ok. Qed.

Lemma copy_history ok (f : cmd_entry → string) id s :
  h_history (match getCommand id s with None => (s, false) | Some e => write_clipboard ok (f e) s end).1 = h_history s.
Proof. destruct (getCommand id s); [apply write_clipboard_history|done]. Qed.

Lemma export_to_file_ok c f m d s : dlg_ok (d, s) → dlg_ok (export_to_file c f m d s).
Proof. unfold export_to_file. intros H. destruct (str_truthy c); [by eapply dlg_ok_same_history|done]. Qed.

Lemma copy_content_ok ok c d s : dlg_ok (d, s) → dlg_ok (copy_content ok c d s).
Proof.
  unfold copy_content. intros H. destruct (str_truthy c); [|done].
  eapply dlg_ok_same_history; [apply write_clipboard_history|done].
Qed.

#[local] Hint Resolve export_to_file_ok copy_content_ok on_history_ok : tlink.

Lemma dlg_step_ok a b : dlg_step a b → dlg_ok a → dlg_ok b.
Proof.
  destruct 1; intros Hok; try by eauto with tlink.
  1-3: apply refresh_ok; by destruct Hok.
  - unfold removeEntry, removeCommand. case_bool_decide; [apply on_history_ok|done].
  - unfold clearAllHistory. destruct ok; [apply on_history_ok|done].
  - eapply dlg_ok_same_history; [apply (copy_history ok he_command)|done].
  - eapply dlg_ok_same_history; [apply (copy_history ok he_output)|done].
Qed.

(** C33: the open dialog is never stale: from [ngOnInit], through any
    sequence of the dialog's handlers (search, filter, clear, remove,
    clear all, expand, copy, export) and of the service's own changes (a
    command recorded, a restart), the list the dialog shows is what
    [updateFilteredHistory] computes from the current history and view,
    and the count it shows is the history's length. *)
Theorem history_dialog_fresh s0 ds :
  rtc dlg_step (dialog_ngOnInit dialog_new s0, s0) ds → dlg_ok ds.
Proof. apply rtc_preserve; [exact dlg_step_ok|done]. Qed.

Lemma history_dialog_fresh_witness :
  rtc dlg_step (dialog_ngOnInit dialog_new hm_s0, hm_s0) hm_ds3 ∧ dlg_ok hm_ds3 ∧
  filteredHistory hm_ds2.1 = [with_id "c1" hm_entry] ∧ filteredHistory hm_ds3.1 = [].
Proof.
  assert (H : rtc dlg_step (dialog_ngOnInit dialog_new hm_s0, hm_s0) hm_ds3).
  { eapply rtc_l; [apply DlgAdd|]. eapply rtc_l; [apply DlgSearch|]. apply rtc_once, DlgRemove. }
  split; [exact H|]. split; [exact (history_dialog_fresh _ _ H)|]. split; vm_compute; reflexivity.
Defined.
