(* ===== verification/OutputStorage.v ===== *)
(** * Stored command outputs of the agent plugin ([CommandOutputStorageService])

    [src/unnamed/part_004] keeps the full output of the commands the
    agent ran, in an in-memory [Map] from generated ids to outputs, at
    most 100 of them, and serves an output a page of lines at a time.

    The [Map] is a list of its entries in insertion order, which is the
    order [Array.from(this.outputs.keys())] lists them: the clean-up sorts
    that list by timestamp with a stable sort, so ties are broken by
    insertion order.  The arguments of [getPaginatedOutput] are integers;
    [Math.ceil] of a division by zero is not a finite number, which the
    model writes [None] ([JSON.stringify] writes it [null]).  [slice] is
    modelled with its treatment of negative bounds. *)

From S2P Require Import Prelude JsString JsMap JsArray.
From Stdlib Require Import Ascii String.

Local Abbreviation length := List.length.
Local Open Scope Z_scope.

(** ** Data *)

(** [interface StoredCommandOutput]. *)
Record stored_output := StoredOutput {
  so_id : string;
  so_command : string;
  so_output : string;
  so_promptShell : option string;
  so_exitCode : option Z;
  so_timestamp : Z;
  so_aborted : bool;
  so_tabId : Z;
}.

Definition so_with_id (id : string) (o : stored_output) : stored_output :=
  StoredOutput id (so_command o) (so_output o) (so_promptShell o) (so_exitCode o) (so_timestamp o)
    (so_aborted o) (so_tabId o).

(** [private outputs: Map<string, StoredCommandOutput>]. *)
Abbreviation output_map := (js_map string stored_output).

(** ** Clean-up *)

(** [keys.sort((a, b) => t(a) - t(b))]: ascending, ties in insertion order. *)
Definition sort_asc (t : string → Z) (l : list string) : list string := sort_by (λ a b, t a - t b) l.

(** [this.outputs.get(k)!.timestamp]. *)
Definition ts_of (m : output_map) (k : string) : Z := default 0 (so_timestamp <$> map_get k m).

Definition MAX_OUTPUTS : nat := 100.

(** The clean-up of [storeOutput]: when there are more than 100 outputs,
    the oldest ones are deleted, down to 100. *)
Definition cleanup (m : output_map) : output_map :=
  if bool_decide (MAX_OUTPUTS < length m)%nat then
    let oldest := take (length m - MAX_OUTPUTS) (sort_asc (ts_of m) (fst <$> m)) in
    foldl (λ m k, map_delete k m) m oldest
  else m.

(** [storeOutput(data)] with the id it generates. *)
Definition storeOutput (id : string) (data : stored_output) (m : output_map) : output_map * string :=
  (cleanup (map_set id (so_with_id id data) m), id).

(** [getOutput(id)]. *)
Definition getOutput (id : string) (m : output_map) : option stored_output := map_get id m.

(** ** Pages *)

(** [Math.ceil(a / b)] on integers; not finite when [b = 0]. *)
Definition ceil_div (a b : Z) : option Z :=
  if bool_decide (b = 0) then None else Some (- ((- a) / b)).

(** [l.slice(start, end)]: negative bounds count from the end. *)
Definition slice_index (len x : Z) : Z := if bool_decide (x < 0) then Z.max (len + x) 0 else Z.min x len.

Definition js_slice {A} (l : list A) (start stop : Z) : list A :=
  let len := Z.of_nat (length l) in
  let from := slice_index len start in
  let to := slice_index len stop in
  take (Z.to_nat (to - from)) (drop (Z.to_nat from) l).

(** The object [getPaginatedOutput] returns. *)
Record page := Page {
  pg_lines : list string;
  pg_totalLines : Z;
  pg_part : option Z;
  pg_totalParts : option Z;
  pg_command : string;
  pg_exitCode : option Z;
  pg_promptShell : option string;
  pg_aborted : bool;
}.

(** [getPaginatedOutput(id, startLine, maxLines)]. *)
Definition getPaginatedOutput (id : string) (startLine maxLines : Z) (m : output_map) : option page :=
  match getOutput id m with
  | None => None
  | Some o =>
      let lines := split_on (ascii_of_nat 10) (so_output o) in
      let totalLines := Z.of_nat (length lines) in
      let totalParts := ceil_div totalLines maxLines in
      let part := ceil_div startLine maxLines in
      let startIdx := Z.max 0 (startLine - 1) in
      let endIdx := Z.min (startIdx + maxLines) totalLines in
      Some (Page (js_slice lines startIdx endIdx) totalLines part totalParts (so_command o) (so_exitCode o)
              (so_promptShell o) (so_aborted o))
  end.

(** The outputs after a sequence of [storeOutput] calls from the empty map. *)
Definition outputs_after (calls : list (string * stored_output)) : output_map :=
  foldl (λ m c, (storeOutput c.1 c.2 m).1) [] calls.

(** The lines of the page that starts at line [i * k + 1]. *)
Definition page_lines (lines : list string) (k : Z) (i : nat) : list string :=
  take (Z.to_nat k) (drop (i * Z.to_nat k) lines).

(** ** Lemmas: the clean-up *)

Lemma sort_asc_perm t l : sort_asc t l ≡ₚ l.
Proof. apply sort_by_perm. Qed.

Lemma sort_asc_snoc t l k : (∀ x, x ∈ l → t x ≤ t k) → sort_asc t (l ++ [k]) = sort_asc t l ++ [k].
Proof. intros H. apply sort_by_snoc. intros y Hy. pose proof (H y Hy). lia. Qed.

Lemma cleanup_short m : (length m ≤ MAX_OUTPUTS)%nat → cleanup m = m.
Proof. intros H. unfold cleanup. rewrite bool_decide_false by lia. done. Qed.

(** The clean-up of a map with distinct keys leaves at most 100 entries,
    deletes the [length m - 100] oldest keys, and keeps the others. *)
Lemma cleanup_outputs_spec m : NoDup m.*1 →
  let oldest := take (length m - MAX_OUTPUTS) (sort_asc (ts_of m) m.*1) in
  NoDup (cleanup m).*1 ∧ length (cleanup m) = Nat.min (length m) MAX_OUTPUTS ∧
  ∀ k, k ∉ oldest → map_get k (cleanup m) = map_get k m.
Proof.
  intros Hnd oldest. unfold cleanup. case_bool_decide as Hl; [|split_and!; [done|lia|done]]. cbv zeta. fold oldest.
  pose proof (sort_asc_perm (ts_of m) m.*1) as Hp.
  assert (NoDup (sort_asc (ts_of m) m.*1)) as Hns by (by rewrite Hp).
  assert (NoDup oldest) as Hno.
  { unfold oldest. rewrite <-(take_drop (length m - MAX_OUTPUTS) (sort_asc (ts_of m) m.*1)) in Hns.
    by apply NoDup_app in Hns as [? _]. }
  destruct (foldl_delete_spec oldest m Hno Hnd) as (H1 & H2 & H3).
  { intros k Hk. rewrite <-Hp. unfold oldest in Hk. apply elem_of_take in Hk as (i & Hi & _).
    by eapply list_elem_of_lookup_2. }
  split_and!; [done| |done]. rewrite H2. unfold oldest. rewrite length_take, Hp, length_fmap. lia.
Qed.

(** whatever ids and timestamps [storeOutput] is called with, the map
    never holds more than 100 outputs, one per id. *)
Theorem outputs_bounded calls : NoDup (outputs_after calls).*1 ∧ (length (outputs_after calls) ≤ MAX_OUTPUTS)%nat.
Proof.
  unfold outputs_after. apply (foldl_preserve (λ m, NoDup m.*1 ∧ (length m ≤ MAX_OUTPUTS)%nat)); [split; [constructor|simpl; lia]|].
  intros m [id data] _ [Hnd Hl]. simpl. pose proof (map_set_nodup id (so_with_id id data) m Hnd) as Hnd'.
  destruct (cleanup_outputs_spec _ Hnd') as (H1 & H2 & _). split; [done|]. rewrite H2. lia.
Qed.

(** C23: storing an output whose id is new and whose timestamp is not
    older than the stored ones keeps it: [getOutput] returns it.  The map
    then has one more output, or 100 if it was full, and every other
    output it has was there before, unchanged. *)
Theorem store_output_spec id data m :
  NoDup m.*1 → id ∉ m.*1 → (∀ kv, kv ∈ m → so_timestamp kv.2 ≤ so_timestamp data) →
  let m' := (storeOutput id data m).1 in
  getOutput id m' = Some (so_with_id id data) ∧ NoDup m'.*1 ∧ length m' = Nat.min (S (length m)) MAX_OUTPUTS ∧
  ∀ k v, k ≠ id → map_get k m' = Some v → map_get k m = Some v.
Proof.
  intros Hnd Hid Hts m'. unfold m', storeOutput, getOutput. cbn [fst].
  rewrite map_set_keys by done. set (m1 := m ++ [(id, so_with_id id data)]).
  assert (NoDup m1.*1) as Hnd1.
  { unfold m1. rewrite fmap_app. apply NoDup_app. split_and!; [done| |apply NoDup_singleton].
    by intros x Hx ->%list_elem_of_singleton. }
  destruct (cleanup_outputs_spec m1 Hnd1) as (H1 & H2 & H3).
  assert (id ∉ take (length m1 - MAX_OUTPUTS) (sort_asc (ts_of m1) m1.*1)) as Hold.
  { unfold m1. rewrite fmap_app. cbn [fmap list_fmap fst]. rewrite sort_asc_snoc.
    - rewrite take_app_le.
      + intros Hin. apply elem_of_take in Hin as (i & Hi & _). apply Hid. rewrite <-(sort_asc_perm (ts_of m1) m.*1).
        by eapply list_elem_of_lookup_2.
      + rewrite length_app, (Permutation_length (sort_asc_perm _ _)), length_fmap. simpl. unfold MAX_OUTPUTS. lia.
    - intros x Hx. unfold ts_of, m1. rewrite !map_get_snoc by done. rewrite (decide_True _ _ (eq_refl id)).
      rewrite decide_False by (intros ->; contradiction).
      destruct (map_get_is_Some x m Hx) as [w Hw]. rewrite Hw. apply map_get_Some in Hw. apply (Hts (x, w) Hw). }
  split_and!; [|done| |].
  - rewrite H3 by done. unfold m1. rewrite map_get_snoc by done. by rewrite decide_True.
  - rewrite H2. unfold m1. rewrite length_app. unfold MAX_OUTPUTS. simpl. lia.
  - intros k v Hk. unfold cleanup. case_bool_decide; cbv zeta; [rewrite map_get_foldl_delete; case_decide; [done|]|];
      unfold m1; rewrite map_get_snoc, decide_False by done; done.
Qed.

(** ** Lemmas: pages *)

Lemma js_slice_page {A} (l : list A) (s k : Z) :
  0 ≤ s → 0 < k → js_slice l s (Z.min (s + k) (Z.of_nat (length l))) = take (Z.to_nat k) (drop (Z.to_nat s) l).
Proof.
  intros Hs Hk. unfold js_slice, slice_index. set (len := Z.of_nat (length l)).
  rewrite !bool_decide_false by lia. destruct (decide (s ≤ len)).
  - assert (Z.min s len = s) as -> by lia. assert (Z.min (Z.min (s + k) len) len = Z.min (s + k) len) as -> by lia.
    apply (list_eq_same_length _ _ (Nat.min (Z.to_nat k) (length l - Z.to_nat s)));
      rewrite ?length_take, ?length_drop; [unfold len in *; lia|lia|].
    intros i x y Hi Hx Hy. rewrite lookup_take, decide_True in Hx by (unfold len in *; lia).
    rewrite lookup_take, decide_True in Hy by lia. congruence.
  - assert (Z.min s len = len) as -> by lia. assert (Z.min (Z.min (s + k) len) len = len) as -> by lia.
    rewrite (drop_ge l (Z.to_nat len)), (drop_ge l (Z.to_nat s)) by (unfold len in *; lia). by rewrite !take_nil.
Qed.

Lemma chunks_take {A} (l : list A) (k q : nat) :
  mjoin ((λ i, take k (drop (i * k) l)) <$> seq 0 q) = take (q * k) l.
Proof.
  induction q as [|q IH]; [done|]. rewrite seq_S, fmap_app, join_app, IH. simpl. rewrite app_nil_r.
  rewrite take_take_drop. f_equal. lia.
Qed.

Lemma ceil_div_page i k : 0 < k → ceil_div (Z.of_nat i * k + 1) k = Some (Z.of_nat i + 1).
Proof.
  intros Hk. unfold ceil_div. rewrite bool_decide_false by lia. f_equal.
  assert (- (Z.of_nat i * k + 1) = (- Z.of_nat i - 1) * k + (k - 1)) as -> by ring.
  rewrite Z.div_add_l by lia. rewrite Z.div_small by lia. lia.
Qed.

Lemma ceil_div_cover n k : 0 ≤ n → 0 < k → ∃ q, ceil_div n k = Some q ∧ 0 ≤ q ∧ n ≤ q * k ∧ (q - 1) * k < n.
Proof.
  intros Hn Hk. unfold ceil_div. rewrite bool_decide_false by lia. eexists. split; [reflexivity|].
  pose proof (Z.div_mod (- n) k ltac:(lia)). pose proof (Z.mod_pos_bound (- n) k Hk). nia.
Qed.

Lemma page_at id o m k i : getOutput id m = Some o → 0 < k →
  let lines := split_on (ascii_of_nat 10) (so_output o) in
  ∃ p, getPaginatedOutput id (Z.of_nat i * k + 1) k m = Some p ∧ pg_lines p = page_lines lines k i ∧
       pg_part p = Some (Z.of_nat i + 1) ∧ pg_totalParts p = ceil_div (Z.of_nat (length lines)) k.
Proof.
  intros Ho Hk lines. unfold getPaginatedOutput. rewrite Ho. eexists. split; [reflexivity|]. cbn.
  fold lines. split_and!; [|by apply ceil_div_page|done].
  rewrite (Z.max_r 0) by lia. rewrite Z.add_simpl_r, js_slice_page by lia. unfold page_lines.
  by rewrite Z2Nat.inj_mul, Nat2Z.id by lia.
Qed.

(** C24: reading a stored output page by page with [maxLines = k > 0],
    starting at lines [1], [k + 1], [2k + 1], ..., gives [totalParts]
    pages numbered [1 .. totalParts], every page reports the same
    [totalParts], and the pages, in order, are exactly the lines of the
    output, each page at most [k] of them. *)
Theorem pages_cover id o m k : getOutput id m = Some o → 0 < k →
  let lines := split_on (ascii_of_nat 10) (so_output o) in
  ∃ q : nat,
    (∀ i, (i < q)%nat → ∃ p, getPaginatedOutput id (Z.of_nat i * k + 1) k m = Some p ∧
       pg_lines p = page_lines lines k i ∧ (length (pg_lines p) ≤ Z.to_nat k)%nat ∧
       pg_part p = Some (Z.of_nat i + 1) ∧ pg_totalParts p = Some (Z.of_nat q)) ∧
    mjoin (page_lines lines k <$> seq 0 q) = lines.
Proof.
  intros Ho Hk lines. destruct (ceil_div_cover (Z.of_nat (length lines)) k) as (q & Hq & Hq0 & Hup & Hlow); [lia|done|].
  exists (Z.to_nat q). split.
  - intros i Hi. destruct (page_at id o m k i Ho Hk) as (p & Hp & Hl & Hpart & Ht). fold lines in Hl, Ht.
    exists p. rewrite Hl, Ht, Hq, Z2Nat.id by lia. split_and!; [done|done| |done|done].
    unfold page_lines. rewrite length_take. lia.
  - unfold page_lines. rewrite chunks_take. apply take_ge. nia.
Qed.

(** with [maxLines = 0] the page of a stored output is empty and its
    [part] and [totalParts] are not finite numbers ([Infinity] or [NaN]
    in the code), whatever the start line; an id that is not stored
    gives [null]. *)
Theorem paginate_zero_maxlines id m s :
  (getOutput id m = None → getPaginatedOutput id s 0 m = None) ∧
  ∀ o, getOutput id m = Some o →
  ∃ p, getPaginatedOutput id s 0 m = Some p ∧ pg_lines p = [] ∧ pg_part p = None ∧ pg_totalParts p = None.
Proof.
  split; unfold getPaginatedOutput; [by intros ->|]. intros o ->. eexists. split; [reflexivity|]. cbn.
  unfold js_slice, slice_index. split_and!; [|done|done]. rewrite !bool_decide_false by lia.
  match goal with |- take (Z.to_nat ?d) _ = _ => replace d with 0 by lia end. done.
Qed.
