(* ===== verification/Dialogs.v ===== *)
(** * Dialogs of the agent plugin: the one-at-a-time queue and minimized dialogs

    Three pieces of the agent plugin cooperate to show the confirmation
    and result dialogs of the commands the agent runs:
    - [DialogManagerService] ([services/dialogManager.service.ts]) shows
      one dialog at a time: [openDialog] shows a dialog at once when none
      is active and queues it otherwise; when a dialog closes,
      [handleDialogClosed] takes the next request off the queue and shows
      it 100 ms later ([setTimeout]);
    - [MinimizedDialogManagerService] ([src/unnamed/part_006]) keeps the
      list of minimized dialogs;
    - [MinimizedDialogsModalComponent] ([components/minimizedModal.component.ts])
      restores a minimized dialog in a new modal that it opens itself, or
      discards it.

    The state [dm_state] holds the fields of the manager
    ([activeDialog], [dialogQueue]), the [setTimeout] callbacks not yet
    run, the modals on screen (the [NgbModal] stack) with the handlers the
    code attached to their [result] promises, the settled promises of
    [openDialog], the minimized dialogs and the [dialogOpened]/
    [dialogClosed] emissions.  Modal references and promises are numbered
    by the state.  Component instances and props are JSON objects
    ([Json.v]); the component's constructor sets [dialogId] to a fresh
    string, which is an argument of the operations that open a modal.
    Whether [NgbModal.open] throws is the Section variable [open_ok]. *)

From S2P Require Import Prelude JsString Json.
From Stdlib Require Import Ascii String.

Local Abbreviation length := List.length.
Local Open Scope Z_scope.

(** ** Data *)

(** The two dialog components the agent opens through the manager. *)
Inductive dialog_kind := ConfirmCommandDialog | CommandResultDialog.

#[export] Instance dialog_kind_eq_dec : EqDecision dialog_kind.
Proof. solve_decision. Defined.

(** [interface MinimizedDialog]: the component, its instance (as an
    object), the number of its modal and the stored promise, by number. *)
Record min_dialog := MinDialog {
  md_id : string;
  md_title : string;
  md_component : dialog_kind;
  md_instance : list (string * json);
  md_modalRef : nat;
  md_timestamp : Z;
  md_promiseResolver : option nat;
}.

Definition md_with_resolver (p : option nat) (d : min_dialog) : min_dialog :=
  MinDialog (md_id d) (md_title d) (md_component d) (md_instance d) (md_modalRef d) (md_timestamp d) p.

(** [Object.assign(o, props)], or [for (key in props) o[key] = props[key]]. *)
Definition obj_assign (o props : list (string * json)) : list (string * json) :=
  foldl (λ o kv, assoc_set kv.1 kv.2 o) o props.

(** ** [MinimizedDialogManagerService] *)

Module MinimizedDialogManager.

(** [minimizeDialog(dialog)]: replace the dialog with the same id in place,
    or append it. *)
Definition minimizeDialog (d : min_dialog) (cur : list min_dialog) : list min_dialog :=
  match list_find (λ x, md_id x = md_id d) cur with
  | Some (i, _) => <[i := d]> cur
  | None => cur ++ [d]
  end.

(** [restoreDialog(dialogId)]: the dialog, removed from the list. *)
Definition restoreDialog (id : string) (cur : list min_dialog) : option min_dialog * list min_dialog :=
  match list_find (λ x, md_id x = id) cur with
  | Some (_, d) => (Some d, filter (λ x, md_id x ≠ id) cur)
  | None => (None, cur)
  end.

(** [closeMinimizedDialog(dialogId)]. *)
Definition closeMinimizedDialog (id : string) (cur : list min_dialog) : list min_dialog :=
  filter (λ x, md_id x ≠ id) cur.

(** [isDialogMinimized(dialogId)]. *)
Definition isDialogMinimized (id : string) (cur : list min_dialog) : bool :=
  existsb (λ x, bool_decide (md_id x = id)) cur.

(** [clearAll()]. *)
Definition clearAll : list min_dialog := [].

End MinimizedDialogManager.

Import MinimizedDialogManager.

(** ** The minimized-dialogs modal: pure helpers *)

(** [getRelativeTime(timestamp)] of the minimized-dialogs modal at [Date.now() = now]. *)
Definition minimizedRelativeTime (now timestamp : Z) : string :=
  let diff := now - timestamp in
  if bool_decide (diff < 60000) then "just now"%string
  else if bool_decide (diff < 3600000) then z_to_string (diff / 60000) +:+ "m ago"
  else if bool_decide (diff < 86400000) then z_to_string (diff / 3600000) +:+ "h ago"
  else z_to_string (diff / 86400000) +:+ "d ago".

(** [if (test) props[k] = instance[k]]. *)
Definition prop_if (test : bool) (k : string) (inst props : list (string * json)) : list (string * json) :=
  match test, assoc_get k inst with
  | true, Some v => assoc_set k v props
  | _, _ => props
  end.

(** [getDialogProps(dialog)]: the props a restored dialog is opened with,
    read back from the minimized instance. *)
Definition getDialogProps (inst : list (string * json)) : list (string * json) :=
  let truthy k := default false (js_truthy <$> assoc_get k inst) in
  let defined k := bool_decide (is_Some (assoc_get k inst)) in
  prop_if (truthy "originalInstruction") "originalInstruction" inst
  (prop_if (defined "aborted") "aborted" inst
  (prop_if (defined "exitCode") "exitCode" inst
  (prop_if (truthy "output") "output" inst
  (prop_if (truthy "commandExplanation") "commandExplanation" inst
  (prop_if (truthy "tabTitle") "tabTitle" inst
  (prop_if (defined "tabId") "tabId" inst
  (prop_if (truthy "command") "command" inst [])))))))%string.

(** ** [DialogManagerService] *)

(** What a promise of [openDialog] is rejected with: the reason a modal
    was dismissed with ([undefined] is [None]), or an [Error]. *)
Inductive reject_reason := RReason (v : option json) | RError (msg : string).

Inductive settlement := Resolved (v : option json) | Rejected (r : reject_reason).

(** [interface DialogRequest]: the promise, by number, and the arguments of
    [openDialog]. *)
Record dialog_request := DialogRequest {
  rq_promise : nat;
  rq_component : dialog_kind;
  rq_options : list (string * json);
  rq_props : list (string * json);
}.

(** The handlers attached to a modal's [result]: those of [showDialog]
    for a request, or those of [restoreDialog] for a restored dialog. *)
Inductive modal_handler := ByManager (r : dialog_request) | ByRestore (d : min_dialog).

Record modal := Modal {
  mo_ref : nat;
  mo_component : dialog_kind;
  mo_options : list (string * json);
  mo_instance : list (string * json);
  mo_handler : modal_handler;
}.

(** [dialogOpened.next] and [dialogClosed.next]. *)
Inductive dm_event :=
| DialogOpened (k : dialog_kind) (inst : list (string * json))
| DialogClosed (result : option json) (error : option reject_reason).

Record dm_state := DMState {
  activeDialog : option nat;
  dialogQueue : list dialog_request;
  timers : list dialog_request;
  modals : list modal;
  trap : bool;
  next_ref : nat;
  next_promise : nat;
  settled : list (nat * settlement);
  minimized : list min_dialog;
  events : list dm_event;
}.

Definition dm_init : dm_state := DMState None [] [] [] false 0 0 [] [] [].

Definition set_active a s := DMState a (dialogQueue s) (timers s) (modals s) (trap s) (next_ref s) (next_promise s) (settled s) (minimized s) (events s).
Definition set_queue q s := DMState (activeDialog s) q (timers s) (modals s) (trap s) (next_ref s) (next_promise s) (settled s) (minimized s) (events s).
Definition set_timers t s := DMState (activeDialog s) (dialogQueue s) t (modals s) (trap s) (next_ref s) (next_promise s) (settled s) (minimized s) (events s).
Definition set_modals m s := DMState (activeDialog s) (dialogQueue s) (timers s) m (trap s) (next_ref s) (next_promise s) (settled s) (minimized s) (events s).
Definition set_trap b s := DMState (activeDialog s) (dialogQueue s) (timers s) (modals s) b (next_ref s) (next_promise s) (settled s) (minimized s) (events s).
Definition set_next_ref n s := DMState (activeDialog s) (dialogQueue s) (timers s) (modals s) (trap s) n (next_promise s) (settled s) (minimized s) (events s).
Definition set_next_promise n s := DMState (activeDialog s) (dialogQueue s) (timers s) (modals s) (trap s) (next_ref s) n (settled s) (minimized s) (events s).
Definition set_settled l s := DMState (activeDialog s) (dialogQueue s) (timers s) (modals s) (trap s) (next_ref s) (next_promise s) l (minimized s) (events s).
Definition set_minimized l s := DMState (activeDialog s) (dialogQueue s) (timers s) (modals s) (trap s) (next_ref s) (next_promise s) (settled s) l (events s).
Definition emit e s := DMState (activeDialog s) (dialogQueue s) (timers s) (modals s) (trap s) (next_ref s) (next_promise s) (settled s) (minimized s) (events s ++ [e]).

(** [resolve] or [reject] of a promise: only the first call counts. *)
Definition settle (p : nat) (v : settlement) (s : dm_state) : dm_state :=
  if bool_decide (p ∈ (settled s).*1) then s else set_settled (settled s ++ [(p, v)]) s.

Definition find_modal (ref : nat) (s : dm_state) : option modal :=
  (λ im : nat * modal, im.2) <$> list_find (λ m, mo_ref m = ref) (modals s).

Definition remove_modal (ref : nat) (s : dm_state) : dm_state :=
  set_modals (filter (λ m, mo_ref m ≠ ref) (modals s)) s.

(** The options [showDialog] passes to [NgbModal.open]. *)
Definition modalOptions (options : list (string * json)) : list (string * json) :=
  obj_assign [("backdrop", JStr "static"); ("keyboard", JBool false); ("windowClass", JStr "force-focus-modal")]%string options.

(** The instance the component's constructor makes, before the props. *)
Definition new_instance (did : string) : list (string * json) := [("dialogId"%string, JStr did)].

(** [this.command] of a component instance, when it is a string. *)
Definition inst_command (inst : list (string * json)) : option string :=
  match assoc_get "command" inst with Some (JStr c) => Some c | _ => None end.

(** The title [minimize()] gives: [`Command: ...`] or [`Result: ...`],
    the command cut at 40 characters. *)
Definition minimized_title (k : dialog_kind) (cmd : string) : string :=
  (match k with ConfirmCommandDialog => "Command: " | CommandResultDialog => "Result: " end)%string
  +:+ (if bool_decide (40 < String.length cmd)%nat then substring 0 40 cmd +:+ "..." else cmd).

(** The dialog with the highest timestamp, the first one on ties
    ([dialogs.reduce((latest, current) => current.timestamp > latest.timestamp ? current : latest)]). *)
Definition most_recent (d : min_dialog) (ds : list min_dialog) : min_dialog :=
  foldl (λ latest current, if bool_decide (md_timestamp latest < md_timestamp current) then current else latest) d ds.

Section DialogManager.
Variable open_ok : dialog_kind → bool.

(** [handleDialogClosed(result, error)]. *)
Definition handleDialogClosed (result : option json) (error : option reject_reason) (s : dm_state) : dm_state :=
  let s := set_active None (set_trap false (emit (DialogClosed result error) s)) in
  match dialogQueue s with
  | [] => s
  | next :: rest => set_timers (timers s ++ [next]) (set_queue rest s)
  end.

(** [showDialog(request)], the component's constructor generating [did]. *)
Definition showDialog (did : string) (r : dialog_request) (s : dm_state) : dm_state :=
  if open_ok (rq_component r) then
    let ref := next_ref s in
    let inst := obj_assign (new_instance did) (rq_props r) in
    let m := Modal ref (rq_component r) (modalOptions (rq_options r)) inst (ByManager r) in
    emit (DialogOpened (rq_component r) inst)
      (set_trap true (set_active (Some ref) (set_next_ref (S ref) (set_modals (modals s ++ [m]) s))))
  else
    let err := RError "NgbModal.open" in
    settle (rq_promise r) (Rejected err) (handleDialogClosed (Some JNull) (Some err) s).

(** [openDialog(component, options, props)]: the promise it returns and
    the state after. *)
Definition openDialog (k : dialog_kind) (options props : list (string * json)) (did : string) (s : dm_state)
  : nat * dm_state :=
  let p := next_promise s in
  let r := DialogRequest p k options props in
  let s := set_next_promise (S p) s in
  (p, if bool_decide (activeDialog s = None) then showDialog did r s else set_queue (dialogQueue s ++ [r]) s).

(** [clearQueue()]. *)
Definition clearQueue (s : dm_state) : dm_state :=
  set_queue [] (foldl (λ s r, settle (rq_promise r) (Rejected (RError "Dialog queue cleared")) s) s (dialogQueue s)).

(** [storePromiseResolverForMinimizedDialog(modalRef, request)]. *)
Definition storePromiseResolverForMinimizedDialog (modalRef : option nat) (r : dialog_request) (s : dm_state) : dm_state :=
  let dialogId :=
    match modalRef ≫= λ ref, find_modal ref s with
    | Some m => assoc_get "dialogId" (mo_instance m)
    | None => match minimized s with [] => None | d :: ds => Some (JStr (md_id (most_recent d ds))) end
    end in
  match dialogId with
  | Some (JStr id) =>
      if str_truthy id then
        match list_find (λ d, md_id d = id) (minimized s) with
        | Some (_, d) => set_minimized (minimizeDialog (md_with_resolver (Some (rq_promise r)) d) (minimized s)) s
        | None => s
        end
      else s
  | _ => s
  end.

(** The handler of a restored dialog dismissed with ['minimized']: the
    dialog minimized again gets the stored promise. *)
Definition restored_reminimized (d : min_dialog) (p : nat) (s : dm_state) : dm_state :=
  match list_find (λ x, assoc_get "command" (md_instance x) = assoc_get "command" (md_instance d)) (minimized s) with
  | Some (_, nd) => set_minimized (minimizeDialog (md_with_resolver (Some p) nd) (minimized s)) s
  | None => s
  end.

(** A modal closes with [modal.close(result)]: it leaves the screen and
    the [then] handler attached to its [result] runs. *)
Definition modal_close (ref : nat) (result : option json) (s : dm_state) : dm_state :=
  match find_modal ref s with
  | None => s
  | Some m =>
      let s := remove_modal ref s in
      match mo_handler m with
      | ByManager r => settle (rq_promise r) (Resolved result) (handleDialogClosed result None s)
      | ByRestore d => match md_promiseResolver d with Some p => settle p (Resolved result) s | None => s end
      end
  end.

Definition is_minimized_reason (reason : option json) : bool := bool_decide (reason = Some (JStr "minimized")).

(** A modal is dismissed with [modal.dismiss(reason)]: the rejection
    handler attached to its [result] runs. *)
Definition modal_dismiss (ref : nat) (reason : option json) (s : dm_state) : dm_state :=
  match find_modal ref s with
  | None => s
  | Some m =>
      let s := remove_modal ref s in
      match mo_handler m with
      | ByManager r =>
          let s := handleDialogClosed (Some JNull) (Some (RReason reason)) s in
          if is_minimized_reason reason then storePromiseResolverForMinimizedDialog (activeDialog s) r s
          else settle (rq_promise r) (Rejected (RReason reason)) s
      | ByRestore d =>
          match md_promiseResolver d with
          | Some p => if is_minimized_reason reason then restored_reminimized d p s
                      else settle p (Rejected (RReason reason)) s
          | None => s
          end
      end
  end.

(** [closeActiveDialog()]: [this.activeDialog.close()]. *)
Definition closeActiveDialog (s : dm_state) : dm_state :=
  match activeDialog s with Some ref => modal_close ref None s | None => s end.

(** [minimize()] of the two dialog components, at [Date.now() = now]:
    the dialog is added to the minimized list, then the modal is
    dismissed with ['minimized'].  [None] when the modal is not open or
    its [command] is not a string. *)
Definition minimize (ref : nat) (now : Z) (s : dm_state) : option dm_state :=
  m ← find_modal ref s;
  cmd ← inst_command (mo_instance m);
  let id := match assoc_get "dialogId" (mo_instance m) with Some (JStr i) => i | _ => EmptyString end in
  let d := MinDialog id (minimized_title (mo_component m) cmd) (mo_component m) (mo_instance m) ref now None in
  Some (modal_dismiss ref (Some (JStr "minimized")) (set_minimized (minimizeDialog d (minimized s)) s)).

(** [MinimizedDialogsModalComponent.restoreDialog(dialogId)]: the dialog
    leaves the list and opens in a new modal of its own, outside the
    manager, with the props read back from its instance and a new
    [dialogId]; its handlers settle the stored promise, if any. *)
Definition restoreMinimized (id did : string) (s : dm_state) : dm_state :=
  match restoreDialog id (minimized s) with
  | (None, _) => s
  | (Some d, rest) =>
      let s := set_minimized rest s in
      if open_ok (md_component d) then
        let ref := next_ref s in
        let inst := assoc_set "dialogId" (JStr did) (obj_assign (new_instance did) (getDialogProps (md_instance d))) in
        let opts := [("backdrop", JStr "static"); ("keyboard", JBool false); ("windowClass", JStr "restored-modal")]%string in
        set_next_ref (S ref) (set_modals (modals s ++ [Modal ref (md_component d) opts inst (ByRestore d)]) s)
      else match md_promiseResolver d with
           | Some p => settle p (Rejected (RError "NgbModal.open")) s
           | None => s
           end
  end.

(** [MinimizedDialogsModalComponent.closeDialog(dialogId)]. *)
Definition closeMinimized (id : string) (s : dm_state) : dm_state :=
  set_minimized (closeMinimizedDialog id (minimized s)) s.

(** The steps of the modals, the timers and the minimized-dialogs modal,
    everything but a new [openDialog]. *)
Inductive dm_react : dm_state → dm_state → Prop :=
| StepTimer did r rest s : timers s = r :: rest → dm_react s (showDialog did r (set_timers rest s))
| StepCloseActive s : dm_react s (closeActiveDialog s)
| StepClearQueue s : dm_react s (clearQueue s)
| StepClose ref result s : dm_react s (modal_close ref result s)
| StepDismiss ref reason s : dm_react s (modal_dismiss ref reason s)
| StepMinimize ref now s s' : minimize ref now s = Some s' → dm_react s s'
| StepRestore id did s : dm_react s (restoreMinimized id did s)
| StepCloseMinimized id s : dm_react s (closeMinimized id s).

(** Every step: an [openDialog] call at any time, or a reaction. *)
Inductive dm_step : dm_state → dm_state → Prop :=
| StepOpen k options props did s : dm_step s (openDialog k options props did s).2
| StepReact s s' : dm_react s s' → dm_step s s'.

(** The runs in which [openDialog] is never called while a queued dialog
    waits for its 100 ms timer. *)
Inductive dm_step_nogap : dm_state → dm_state → Prop :=
| NoGapOpen k options props did s : timers s = [] → dm_step_nogap s (openDialog k options props did s).2
| NoGapReact s s' : dm_react s s' → dm_step_nogap s s'.

End DialogManager.

(** ** Views of the state *)

Definition is_managed (m : modal) : bool :=
  match mo_handler m with ByManager _ => true | ByRestore _ => false end.

(** The modals the manager opened and that are still on screen. *)
Definition managed (s : dm_state) : list modal := filter (λ m, is_managed m = true) (modals s).

Definition managed_request (m : modal) : option dialog_request :=
  match mo_handler m with ByManager r => Some r | ByRestore _ => None end.

(** The promises the manager still has to settle: queued, waiting for
    their timer, or shown. *)
Definition pending (s : dm_state) : list nat :=
  rq_promise <$> (dialogQueue s ++ timers s ++ omap managed_request (modals s)).

(** The part of the state the queue discipline is about. *)
Definition dm_core (s : dm_state) := (activeDialog s, dialogQueue s, timers s, modals s, next_ref s).

(** The queue discipline: distinct modal numbers below [next_ref]; at
    most one managed modal or one timer; [activeDialog] is the managed
    modal; a non-empty queue waits behind a modal or a timer. *)
Definition dm_inv (s : dm_state) : Prop :=
  NoDup (mo_ref <$> modals s) ∧ (∀ m, m ∈ modals s → mo_ref m < next_ref s)%nat ∧
  (length (managed s) + length (timers s) ≤ 1)%nat ∧
  match activeDialog s with
  | None => managed s = []
  | Some ref => ∃ m, managed s = [m] ∧ mo_ref m = ref
  end ∧
  (dialogQueue s ≠ [] → managed s ≠ [] ∨ timers s ≠ []).

(** The user answers every dialog the manager shows as soon as it shows,
    with [closeActiveDialog], and the timers run: [fuel] rounds. *)
Fixpoint answer_all (open_ok : dialog_kind → bool) (did : string) (fuel : nat) (s : dm_state) : dm_state :=
  match fuel with
  | O => s
  | S f =>
      match activeDialog s, timers s with
      | Some _, _ => answer_all open_ok did f (closeActiveDialog s)
      | None, r :: rest => answer_all open_ok did f (showDialog open_ok did r (set_timers rest s))
      | None, [] => s
      end
  end.

(** Enough rounds for [answer_all]. *)
Definition drain_measure (s : dm_state) : nat :=
  (3 * length (dialogQueue s) + 2 * length (timers s) + length (managed s))%nat.

Definition restored_resolver (m : modal) : option nat :=
  match mo_handler m with ByRestore d => md_promiseResolver d | ByManager _ => None end.

(** The promises the state still holds a way to settle: the manager's
    requests, the handlers of restored modals and the resolvers stored in
    minimized dialogs. *)
Definition refs (s : dm_state) : list nat :=
  pending s ++ omap restored_resolver (modals s) ++ omap md_promiseResolver (minimized s).

(** From [s0] to [s] no promise that [s0] had no way to settle got one
    or was settled, except promises created after [s0]. *)
Definition bounded_by (s0 s : dm_state) : Prop :=
  (∀ q, q ∈ refs s → q ∈ refs s0 ∨ (next_promise s0 ≤ q)%nat) ∧
  (∀ q, q ∈ (settled s).*1 → q ∈ (settled s0).*1 ∨ q ∈ refs s0 ∨ (next_promise s0 ≤ q)%nat) ∧
  (next_promise s0 ≤ next_promise s)%nat.

(** One round of [answer_all] from a state that is not idle. *)
Definition answered (s s' : dm_state) : Prop :=
  (∀ p, p ∈ pending s → p ∈ pending s' ∨ p ∈ (settled s').*1) ∧ (settled s).*1 ⊆ (settled s').*1.

(** ** Lemmas: the parts of the state an operation leaves alone *)

Create Rewrite HintDb dm_core.

Lemma dm_inv_core s s' : dm_core s' = dm_core s → dm_inv s → dm_inv s'.
Proof. destruct s, s'. unfold dm_core, dm_inv, managed. cbn. by intros [= -> -> -> -> ->]. Qed.

Lemma dm_core_settle p v s : dm_core (settle p v s) = dm_core s.
Proof. unfold settle. by case_bool_decide. Qed.

Lemma dm_core_set_minimized l s : dm_core (set_minimized l s) = dm_core s.
Proof. done. Qed.

Lemma dm_core_store mr r s : dm_core (storePromiseResolverForMinimizedDialog mr r s) = dm_core s.
Proof. unfold storePromiseResolverForMinimizedDialog. by repeat case_match. Qed.

Lemma dm_core_reminimized d p s : dm_core (restored_reminimized d p s) = dm_core s.
Proof. unfold restored_reminimized. by repeat case_match. Qed.

Lemma dm_core_foldl_settle (f : dialog_request → nat) v rs s :
  dm_core (foldl (λ s r, settle (f r) v s) s rs) = dm_core s.
Proof. revert s. induction rs as [|r rs IH]; intros s; [done|]. simpl. by rewrite IH, dm_core_settle. Qed.

#[export] Hint Rewrite dm_core_settle dm_core_set_minimized dm_core_store dm_core_reminimized : dm_core.

(** [handleDialogClosed] clears [activeDialog] and moves the head of the
    queue to the timers. *)
Lemma handleDialogClosed_fields res err s :
  let s' := handleDialogClosed res err s in
  activeDialog s' = None ∧ modals s' = modals s ∧ next_ref s' = next_ref s ∧ next_promise s' = next_promise s ∧
  settled s' = settled s ∧ minimized s' = minimized s ∧
  (dialogQueue s', timers s') = match dialogQueue s with [] => ([], timers s) | n :: r => (r, timers s ++ [n]) end.
Proof. unfold handleDialogClosed. cbn. destruct (dialogQueue s) eqn:E; cbn; by rewrite ?E. Qed.

Lemma find_modal_Some ref s m : find_modal ref s = Some m → m ∈ modals s ∧ mo_ref m = ref.
Proof.
  unfold find_modal. destruct (list_find _ _) as [[i m']|] eqn:E; intros [=<-].
  apply list_find_Some in E as (Hi & Hr & _). split; [by eapply list_elem_of_lookup_2|done].
Qed.

Lemma nodup_fmap_eq {A B} (f : A → B) l x y : NoDup (f <$> l) → x ∈ l → y ∈ l → f x = f y → x = y.
Proof.
  induction l as [|z l IH]; intros Hnd Hx Hy Hf; [by apply elem_of_nil in Hx|].
  rewrite fmap_cons in Hnd. apply NoDup_cons in Hnd as [Hz Hnd].
  apply elem_of_cons in Hx as [->|Hx], Hy as [->|Hy]; [done| | |by apply IH].
  - exfalso. apply Hz. rewrite Hf. by apply list_elem_of_fmap_2.
  - exfalso. apply Hz. rewrite <-Hf. by apply list_elem_of_fmap_2.
Qed.

Lemma managed_remove ref s : managed (remove_modal ref s) = filter (λ m, mo_ref m ≠ ref) (managed s).
Proof. unfold managed, remove_modal. cbn. rewrite !list_filter_filter. apply list_filter_iff. tauto. Qed.

Lemma remove_modal_inv_refs ref s :
  NoDup (mo_ref <$> modals s) → (∀ m, m ∈ modals s → mo_ref m < next_ref s)%nat →
  NoDup (mo_ref <$> modals (remove_modal ref s)) ∧ (∀ m, m ∈ modals (remove_modal ref s) → mo_ref m < next_ref s)%nat.
Proof.
  intros Hnd Hlt. cbn. split.
  - eapply sublist_NoDup; [exact Hnd|]. apply sublist_fmap, sublist_filter.
  - intros m Hm. apply list_elem_of_filter in Hm as [_ Hm]. by apply Hlt.
Qed.

(** Adding a modal numbered [next_ref] keeps the numbers distinct. *)
Lemma add_modal_inv_refs m s :
  NoDup (mo_ref <$> modals s) → (∀ m, m ∈ modals s → mo_ref m < next_ref s)%nat → mo_ref m = next_ref s →
  NoDup (mo_ref <$> modals s ++ [m]) ∧ (∀ m', m' ∈ modals s ++ [m] → mo_ref m' < S (next_ref s))%nat.
Proof.
  intros Hnd Hlt Hm. rewrite fmap_app. split.
  - apply NoDup_app. split_and!; [done| |apply NoDup_singleton]. intros x Hx ->%list_elem_of_singleton.
    apply list_elem_of_fmap in Hx as (m' & Hx & Hm'). pose proof (Hlt m' Hm'). lia.
  - intros m' [Hm' | ->%list_elem_of_singleton]%elem_of_app; [pose proof (Hlt m' Hm')|]; lia.
Qed.

(** ** Lemmas: the queue discipline *)

Lemma managed_single s m : dm_inv s → m ∈ managed s → managed s = [m] ∧ timers s = [].
Proof.
  intros (_ & _ & Hlen & _) Hmm. destruct (managed s) as [|m1 [|m2 ms]]; [by apply elem_of_nil in Hmm| |simpl in Hlen; lia].
  apply list_elem_of_singleton in Hmm as ->. split; [done|]. destruct (timers s); [done|simpl in Hlen; lia].
Qed.

(** A managed modal closes: the manager is idle again, the next request
    waits for its timer. *)
Lemma inv_close s ref m res err : dm_inv s → find_modal ref s = Some m → is_managed m = true →
  dm_inv (handleDialogClosed res err (remove_modal ref s)).
Proof.
  intros Hinv Hf Hm. apply find_modal_Some in Hf as [Hin <-].
  destruct (managed_single s m Hinv) as [Hms Ht]; [by apply list_elem_of_filter|].
  destruct Hinv as (Hnd & Hlt & _).
  destruct (handleDialogClosed_fields res err (remove_modal (mo_ref m) s)) as (Ha & Hmo & Hnr & _ & _ & _ & Hqt).
  destruct (remove_modal_inv_refs (mo_ref m) s Hnd Hlt) as [Hnd' Hlt'].
  assert (managed (handleDialogClosed res err (remove_modal (mo_ref m) s)) = []) as Hm'.
  { unfold managed. rewrite Hmo. fold (managed (remove_modal (mo_ref m) s)). rewrite managed_remove, Hms.
    rewrite filter_cons_False; [done|tauto]. }
  change (dialogQueue (remove_modal (mo_ref m) s)) with (dialogQueue s) in Hqt.
  change (timers (remove_modal (mo_ref m) s)) with (timers s) in Hqt.
  unfold dm_inv. rewrite Ha, Hmo, Hnr, Hm'. rewrite Ht in Hqt.
  destruct (dialogQueue s); injection Hqt as -> ->; split_and!; try done; cbn; try lia; by right.
Qed.

(** A restored modal closes: the manager does not see it. *)
Lemma inv_remove_restored s ref m : dm_inv s → find_modal ref s = Some m → is_managed m = false →
  dm_inv (remove_modal ref s).
Proof.
  intros (Hnd & Hlt & Hlen & Hact & Hq) Hf Hm. apply find_modal_Some in Hf as [Hin <-].
  destruct (remove_modal_inv_refs (mo_ref m) s Hnd Hlt) as [Hnd' Hlt'].
  assert (managed (remove_modal (mo_ref m) s) = managed s) as Hms.
  { rewrite managed_remove. apply filter_all, Forall_forall. intros m' Hm' Heq.
    apply list_elem_of_filter in Hm' as [Hm'1 Hm'2].
    assert (m' = m) as -> by (eapply (nodup_fmap_eq mo_ref); [exact Hnd|exact Hm'2|exact Hin|exact Heq]). congruence. }
  unfold dm_inv. rewrite Hms. by split_and!.
Qed.

(** [showDialog] on an idle manager with no timer pending. *)
Lemma inv_show (open_ok : dialog_kind → bool) did r s :
  NoDup (mo_ref <$> modals s) → (∀ m, m ∈ modals s → mo_ref m < next_ref s)%nat →
  managed s = [] → activeDialog s = None → timers s = [] → dm_inv (showDialog open_ok did r s).
Proof.
  intros Hnd Hlt Hact Ha Ht.
  unfold showDialog. destruct (open_ok (rq_component r)).
  - destruct (add_modal_inv_refs (Modal (next_ref s) (rq_component r) (modalOptions (rq_options r))
      (obj_assign (new_instance did) (rq_props r)) (ByManager r)) s Hnd Hlt eq_refl) as [Hnd' Hlt'].
    unfold dm_inv. cbn. unfold managed in *. cbn. rewrite filter_app, Hact. cbn.
    rewrite decide_True by done. rewrite Ht. split_and!; [done|done|cbn; lia|by eexists|by left].
  - apply (dm_inv_core (handleDialogClosed (Some JNull) (Some (RError "NgbModal.open")) s)); [by rewrite dm_core_settle|].
    destruct (handleDialogClosed_fields (Some JNull) (Some (RError "NgbModal.open")) s) as (Ha' & Hmo & Hnr & _ & _ & _ & Hqt).
    unfold dm_inv. unfold managed. rewrite Ha', Hmo, Hnr. fold (managed s). rewrite Hact, Ht in *.
    destruct (dialogQueue s); injection Hqt as -> ->; split_and!; try done; cbn; try lia; by right.
Qed.

Section Discipline.
Context (open_ok : dialog_kind → bool).

Lemma inv_modal_close s ref res : dm_inv s → dm_inv (modal_close ref res s).
Proof.
  intros Hinv. unfold modal_close. destruct (find_modal ref s) as [m|] eqn:Hf; [|done].
  destruct (mo_handler m) as [r|d] eqn:Hh.
  - eapply dm_inv_core; [apply dm_core_settle|]. apply (inv_close s ref m); [done|done|by unfold is_managed; rewrite Hh].
  - pose proof (inv_remove_restored s ref m Hinv Hf ltac:(by unfold is_managed; rewrite Hh)).
    destruct (md_promiseResolver d); [|done]. eapply dm_inv_core; [apply dm_core_settle|done].
Qed.

Lemma inv_modal_dismiss s ref reason : dm_inv s → dm_inv (modal_dismiss ref reason s).
Proof.
  intros Hinv. unfold modal_dismiss. destruct (find_modal ref s) as [m|] eqn:Hf; [|done].
  destruct (mo_handler m) as [r|d] eqn:Hh; cbv zeta.
  - pose proof (inv_close s ref m (Some JNull) (Some (RReason reason)) Hinv Hf ltac:(by unfold is_managed; rewrite Hh)).
    destruct (is_minimized_reason reason); (eapply dm_inv_core; [autorewrite with dm_core; reflexivity|done]).
  - pose proof (inv_remove_restored s ref m Hinv Hf ltac:(by unfold is_managed; rewrite Hh)).
    destruct (md_promiseResolver d); [|done].
    destruct (is_minimized_reason reason); (eapply dm_inv_core; [autorewrite with dm_core; reflexivity|done]).
Qed.

Lemma inv_minimize s s' ref now : dm_inv s → minimize ref now s = Some s' → dm_inv s'.
Proof.
  intros Hinv. unfold minimize. destruct (find_modal ref s); [|done]. cbn. destruct (inst_command _); [|done].
  intros [= <-]. apply inv_modal_dismiss. by eapply dm_inv_core.
Qed.

Lemma inv_restore s id did : dm_inv s → dm_inv (restoreMinimized open_ok id did s).
Proof.
  intros Hinv. unfold restoreMinimized. destruct (restoreDialog id (minimized s)) as [[d|] rest]; [|done].
  assert (dm_inv (set_minimized rest s)) as (Hnd & Hlt & Hlen & Hact & Hq) by by eapply dm_inv_core.
  destruct (open_ok (md_component d)).
  - set (m := Modal _ _ _ _ (ByRestore d)).
    destruct (add_modal_inv_refs m (set_minimized rest s) Hnd Hlt eq_refl) as [Hnd' Hlt'].
    assert (managed (set_next_ref (S (next_ref (set_minimized rest s))) (set_modals (modals (set_minimized rest s) ++ [m]) (set_minimized rest s)))
            = managed (set_minimized rest s)) as Hms.
    { unfold managed. cbn. rewrite filter_app, filter_cons_False, app_nil_r; done. }
    unfold dm_inv. rewrite Hms. by split_and!.
  - destruct (md_promiseResolver d); [|by split_and!]. eapply dm_inv_core; [apply dm_core_settle|by split_and!].
Qed.

Lemma inv_clear_queue s : dm_inv s → dm_inv (clearQueue s).
Proof.
  intros (Hnd & Hlt & Hlen & Hact & Hq). unfold clearQueue.
  pose proof (dm_core_foldl_settle rq_promise (Rejected (RError "Dialog queue cleared")) (dialogQueue s) s) as Hc.
  match goal with |- dm_inv (set_queue [] ?x) => change (dm_core x = dm_core s) in Hc; destruct x end.
  destruct s. unfold dm_core in Hc. cbn in *. injection Hc as -> -> -> -> ->.
  unfold dm_inv, managed in *. cbn in *. by split_and!.
Qed.

(** A timer fires on an idle manager. *)
Lemma inv_timer s did r rest : dm_inv s → timers s = r :: rest → dm_inv (showDialog open_ok did r (set_timers rest s)).
Proof.
  intros (Hnd & Hlt & Hlen & Hact & Hq) Ht. rewrite Ht in Hlen. cbn in Hlen.
  assert (managed s = [] ∧ rest = []) as [Hm ->] by (destruct (managed s), rest; cbn in Hlen; split; done || lia).
  apply inv_show; cbn; [done|done|exact Hm| |done]. destruct (activeDialog s); [|done]. destruct Hact as (m & Hm' & _). congruence.
Qed.

Lemma inv_react s s' : dm_inv s → dm_react open_ok s s' → dm_inv s'.
Proof.
  intros Hinv Hst. destruct Hst.
  - by eapply inv_timer.
  - unfold closeActiveDialog. destruct (activeDialog s); [by apply inv_modal_close|done].
  - by apply inv_clear_queue.
  - by apply inv_modal_close.
  - by apply inv_modal_dismiss.
  - by eapply inv_minimize.
  - by apply inv_restore.
  - by eapply dm_inv_core.
Qed.

(** [openDialog] when no timer is pending. *)
Lemma inv_open s k options props did : dm_inv s → timers s = [] → dm_inv (openDialog open_ok k options props did s).2.
Proof.
  intros Hinv Ht. unfold openDialog. cbn.
  assert (dm_inv (set_next_promise (S (next_promise s)) s)) as Hinv' by by eapply dm_inv_core.
  pose proof Hinv' as (Hnd & Hlt & Hlen & Hact & Hq).
  change (activeDialog (set_next_promise (S (next_promise s)) s)) with (activeDialog s) in *. case_bool_decide as Ha.
  - rewrite Ha in Hact. by apply inv_show.
  - destruct (activeDialog s) as [ref|] eqn:Ea; [|done]. destruct Hact as (m & Hm & Href).
    unfold dm_inv, managed in *. cbn in *. rewrite Ea, Hm. rewrite Hm in Hlen. split_and!; try done; [by eauto|by left].
Qed.

End Discipline.

(** ** Lemmas: answering every dialog *)

Lemma settle_settled p v s : p ∈ (settled (settle p v s)).*1 ∧ (settled s).*1 ⊆ (settled (settle p v s)).*1.
Proof. unfold settle. case_bool_decide; [done|]. cbn. rewrite fmap_app. set_solver. Qed.

Lemma pending_spec p s : p ∈ pending s ↔
  ∃ r, (r ∈ dialogQueue s ∨ r ∈ timers s ∨ ∃ m, m ∈ modals s ∧ mo_handler m = ByManager r) ∧ rq_promise r = p.
Proof.
  unfold pending. rewrite list_elem_of_fmap. split.
  - intros (r & -> & Hr). exists r. split; [|done]. rewrite !elem_of_app in Hr.
    destruct Hr as [|[|Hr]]; [by left|by right; left|]. apply list_elem_of_omap in Hr as (m & Hm & Hh).
    right; right. exists m. split; [done|]. unfold managed_request in Hh. by destruct (mo_handler m); simplify_eq.
  - intros (r & Hr & <-). exists r. split; [done|]. rewrite !elem_of_app.
    destruct Hr as [|[|(m & Hm & Hh)]]; [by left|by right; left|]. right; right. apply list_elem_of_omap.
    exists m. split; [done|]. unfold managed_request. by rewrite Hh.
Qed.

Lemma find_modal_in s m : NoDup (mo_ref <$> modals s) → m ∈ modals s → find_modal (mo_ref m) s = Some m.
Proof.
  intros Hnd Hm. unfold find_modal. destruct (list_find _ _) as [[i m']|] eqn:E.
  - apply list_find_Some in E as (Hi & Hr & _). cbn. f_equal.
    eapply (nodup_fmap_eq mo_ref); [exact Hnd|by eapply list_elem_of_lookup_2|exact Hm|exact Hr].
  - apply list_find_None in E. rewrite Forall_forall in E. by destruct (E m Hm).
Qed.

Lemma answered_trans s1 s2 s3 : answered s1 s2 → answered s2 s3 → answered s1 s3.
Proof.
  intros [H1 H1'] [H2 H2']. split; [|set_solver]. intros p Hp. destruct (H1 p Hp) as [Hp'|Hp']; [by apply H2|].
  right. by apply H2'.
Qed.

(** [handleDialogClosed] keeps the requests of the queue and the timers. *)
Lemma handleDialogClosed_pending res err s r :
  r ∈ dialogQueue s ∨ r ∈ timers s →
  r ∈ dialogQueue (handleDialogClosed res err s) ∨ r ∈ timers (handleDialogClosed res err s).
Proof.
  destruct (handleDialogClosed_fields res err s) as (_ & _ & _ & _ & _ & _ & Hqt).
  destruct (dialogQueue s) as [|n q]; injection Hqt as -> ->; [done|].
  intros [[->|Hr]%elem_of_cons|Hr]; [right|left|right]; set_solver.
Qed.

Lemma settle_fields p v s :
  activeDialog (settle p v s) = activeDialog s ∧ dialogQueue (settle p v s) = dialogQueue s ∧
  timers (settle p v s) = timers s ∧ modals (settle p v s) = modals s ∧ minimized (settle p v s) = minimized s.
Proof. unfold settle. by case_bool_decide. Qed.

Lemma pending_settle p v s : pending (settle p v s) = pending s.
Proof. destruct (settle_fields p v s) as (_ & Hq & Ht & Hm & _). unfold pending. by rewrite Hq, Ht, Hm. Qed.

Lemma managed_settle p v s : managed (settle p v s) = managed s.
Proof. destruct (settle_fields p v s) as (_ & _ & _ & Hm & _). unfold managed. by rewrite Hm. Qed.

(** The user answers the dialog on screen. *)
Lemma answer_close s ref : dm_inv s → activeDialog s = Some ref →
  let s' := closeActiveDialog s in dm_inv s' ∧ answered s s' ∧ (drain_measure s' < drain_measure s)%nat.
Proof.
  intros Hinv Ha s'. pose proof Hinv as (Hnd & _ & _ & Hact & _). rewrite Ha in Hact. destruct Hact as (m & Hms & <-).
  assert (m ∈ managed s) as Hmm by (rewrite Hms; apply list_elem_of_here).
  apply list_elem_of_filter in Hmm as [Hman Hm]. destruct (managed_single s m Hinv) as [_ Ht]; [by rewrite Hms; left|].
  destruct (mo_handler m) as [r|d] eqn:Hh; [|by unfold is_managed in Hman; rewrite Hh in Hman].
  assert (s' = settle (rq_promise r) (Resolved None) (handleDialogClosed None None (remove_modal (mo_ref m) s))) as Hs'.
  { unfold s', closeActiveDialog, modal_close. rewrite Ha, find_modal_in by done. by rewrite Hh. }
  assert (dm_inv s') as Hinv' by (unfold s', closeActiveDialog; rewrite Ha; by apply inv_modal_close).
  destruct (handleDialogClosed_fields None None (remove_modal (mo_ref m) s)) as (Ha' & Hmo & _ & _ & Hse & _ & Hqt).
  destruct (settle_fields (rq_promise r) (Resolved None) (handleDialogClosed None None (remove_modal (mo_ref m) s)))
    as (Ha'' & Hq'' & Ht'' & Hm'' & _).
  destruct (settle_settled (rq_promise r) (Resolved None) (handleDialogClosed None None (remove_modal (mo_ref m) s))) as [Hpr Hsub].
  change (dialogQueue (remove_modal (mo_ref m) s)) with (dialogQueue s) in Hqt.
  change (timers (remove_modal (mo_ref m) s)) with (timers s) in Hqt. rewrite Ht in Hqt.
  assert (managed s' = []) as Hm0.
  { pose proof Hinv' as (_ & _ & _ & Hact' & _). rewrite Hs' in Hact' |- *. by rewrite Ha'', Ha' in Hact'. }
  split_and!; [done| split|].
  - intros p Hp. apply pending_spec in Hp as (r' & Hr' & <-). rewrite Hs', pending_settle.
    destruct Hr' as [Hr'|[Hr'|(m' & Hm' & Hh')]].
    + left. apply pending_spec. exists r'. split; [|done].
      destruct (handleDialogClosed_pending None None (remove_modal (mo_ref m) s) r' (or_introl Hr')) as [H|H];
        [left; exact H|right; left; exact H].
    + rewrite Ht in Hr'. by apply elem_of_nil in Hr'.
    + right. assert (m' = m) as ->.
      { assert (m' ∈ managed s) as Hmm' by (apply list_elem_of_filter; unfold is_managed; by rewrite Hh').
        rewrite Hms in Hmm'. by apply list_elem_of_singleton. }
      rewrite Hh in Hh'. by injection Hh' as ->.
  - rewrite Hs'. etrans; [|exact Hsub]. by rewrite Hse.
  - unfold drain_measure. rewrite Hm0, Hs', Hq'', Ht'', Hms, Ht. destruct (dialogQueue s); injection Hqt as -> ->; cbn; lia.
Qed.

(** The timer of the next request fires on an idle manager. *)
Lemma answer_timer (open_ok : dialog_kind → bool) did s r rest : dm_inv s → activeDialog s = None → timers s = r :: rest →
  let s' := showDialog open_ok did r (set_timers rest s) in dm_inv s' ∧ answered s s' ∧ (drain_measure s' < drain_measure s)%nat.
Proof.
  intros Hinv Ha Ht s'. assert (dm_inv s') as Hinv' by (by eapply inv_timer).
  pose proof Hinv as (_ & _ & Hlen & Hact & _). rewrite Ha in Hact. rewrite Ht, Hact in Hlen. cbn in Hlen.
  destruct rest; [|cbn in Hlen; lia].
  unfold s', showDialog in *. destruct (open_ok (rq_component r)).
  - cbn. split_and!; [done| |].
    + split; [|done]. intros p Hp. left. apply pending_spec in Hp as (r' & Hr' & <-). apply pending_spec.
      exists r'. split; [|done]. cbn. rewrite Ht in Hr'.
      destruct Hr' as [Hr'|[->%list_elem_of_singleton|(m' & Hm' & Hh')]]; [by left| |].
      * right; right. eexists. split; [apply elem_of_app; right; apply list_elem_of_here|done].
      * right; right. exists m'. split; [apply elem_of_app; by left|done].
    + unfold drain_measure, managed in *. cbn. rewrite filter_app, Hact, Ht. cbn. rewrite decide_True by done. cbn. lia.
  - set (s1 := set_timers [] s). cbv zeta.
    destruct (handleDialogClosed_fields (Some JNull) (Some (RError "NgbModal.open")) s1) as (Ha' & Hmo & _ & _ & Hse & _ & Hqt).
    destruct (settle_fields (rq_promise r) (Rejected (RError "NgbModal.open")) (handleDialogClosed (Some JNull) (Some (RError "NgbModal.open")) s1))
      as (_ & Hq'' & Ht'' & Hm'' & _).
    destruct (settle_settled (rq_promise r) (Rejected (RError "NgbModal.open")) (handleDialogClosed (Some JNull) (Some (RError "NgbModal.open")) s1))
      as [Hpr Hsub].
    change (dialogQueue s1) with (dialogQueue s) in Hqt. change (timers s1) with (@nil dialog_request) in Hqt.
    split_and!; [done|split|].
    + intros p Hp. apply pending_spec in Hp as (r' & Hr' & <-). rewrite pending_settle. rewrite Ht in Hr'.
      destruct Hr' as [Hr'|[->%list_elem_of_singleton|(m' & Hm' & Hh')]].
      * left. apply pending_spec. exists r'. split; [|done].
        destruct (handleDialogClosed_pending (Some JNull) (Some (RError "NgbModal.open")) s1 r' (or_introl Hr')) as [H|H];
          [left; exact H|right; left; exact H].
      * by right.
      * left. apply pending_spec. exists r'. split; [|done]. right; right. exists m'. by rewrite Hmo.
    + etrans; [|exact Hsub]. by rewrite Hse.
    + unfold drain_measure, managed in *. rewrite Hq'', Ht'', Hm'', Hmo. cbn. rewrite Hact, Ht.
      destruct (dialogQueue s); injection Hqt as -> ->; cbn; lia.
Qed.

(** [answer_all] with enough rounds reaches an idle manager, every step a
    reaction of the modals and timers. *)
Lemma answer_all_spec (open_ok : dialog_kind → bool) did n s : dm_inv s → (drain_measure s ≤ n)%nat →
  let s' := answer_all open_ok did n s in
  rtc (dm_step_nogap open_ok) s s' ∧ dm_inv s' ∧ activeDialog s' = None ∧ timers s' = [] ∧
  (s' = s ∨ answered s s').
Proof.
  revert s. induction n as [|n IH]; intros s Hinv Hn s'.
  - unfold s'. cbn. pose proof Hinv as (_ & _ & _ & Hact & _). unfold drain_measure in Hn.
    destruct (activeDialog s) eqn:Ea; [destruct Hact as (m & Hm & _); rewrite Hm in Hn; cbn in Hn; lia|].
    destruct (timers s) eqn:Et; [|cbn in Hn; lia]. by split_and!; [|done| | |left].
  - unfold s'. cbn [answer_all]. destruct (activeDialog s) as [ref|] eqn:Ea; [|destruct (timers s) as [|r rest] eqn:Et].
    + destruct (answer_close s ref Hinv Ea) as (Hinv1 & Hans & Hlt).
      destruct (IH (closeActiveDialog s) Hinv1 ltac:(lia)) as (Hrtc & Hinv2 & Ha2 & Ht2 & Hans2).
      split_and!; [|done|done|done|right].
      * eapply rtc_l; [apply NoGapReact, StepCloseActive|exact Hrtc].
      * destruct Hans2 as [-> | Hans2]; [done|by eapply answered_trans].
    + by split_and!; [|done| | |left].
    + destruct (answer_timer open_ok did s r rest Hinv Ea Et) as (Hinv1 & Hans & Hlt).
      destruct (IH _ Hinv1 ltac:(lia)) as (Hrtc & Hinv2 & Ha2 & Ht2 & Hans2).
      split_and!; [|done|done|done|right].
      * eapply rtc_l; [apply NoGapReact; by apply StepTimer|exact Hrtc].
      * destruct Hans2 as [-> | Hans2]; [done|by eapply answered_trans].
Qed.

(** ** Lemmas: promises nobody can settle any more *)

Lemma elem_of_insert_inv {A} (l : list A) i x y : y ∈ <[i:=x]> l → y ∈ l ∨ y = x.
Proof.
  revert i. induction l as [|z l IH]; intros [|i]; cbn; [intros Hy; by left|intros Hy; by left| |].
  - intros [->|Hy]%elem_of_cons; [by right|left; by right].
  - intros [->|Hy]%elem_of_cons; [left; by left|]. destruct (IH i Hy); [left; by right|by right].
Qed.

Lemma resolvers_minimizeDialog d cur q :
  q ∈ omap md_promiseResolver (minimizeDialog d cur) → q ∈ omap md_promiseResolver cur ∨ md_promiseResolver d = Some q.
Proof.
  unfold minimizeDialog. intros Hq. apply list_elem_of_omap in Hq as (x & Hx & Hr).
  destruct (list_find _ cur) as [[i y]|].
  - apply elem_of_insert_inv in Hx as [Hx | ->]; [left; by apply list_elem_of_omap; exists x|by right].
  - apply elem_of_app in Hx as [Hx | ->%list_elem_of_singleton]; [left; by apply list_elem_of_omap; exists x|by right].
Qed.

Lemma resolvers_filter (P : min_dialog → Prop) `{∀ x, Decision (P x)} (cur : list min_dialog) (q : nat) :
  q ∈ omap md_promiseResolver (filter P cur) → q ∈ omap md_promiseResolver cur.
Proof.
  intros (x & Hx & Hr)%list_elem_of_omap. apply list_elem_of_omap. exists x. split; [|done].
  by apply list_elem_of_filter in Hx as [_ Hx].
Qed.

Lemma bounded_refl s : bounded_by s s.
Proof. split_and!; [by left|by left|lia]. Qed.

Lemma bounded_trans s0 s1 s2 : bounded_by s0 s1 → bounded_by s1 s2 → bounded_by s0 s2.
Proof.
  intros (R1 & S1 & N1) (R2 & S2 & N2). split_and!; [| |lia].
  - intros q Hq. destruct (R2 q Hq) as [Hq'|Hq']; [by apply R1|right; lia].
  - intros q Hq. destruct (S2 q Hq) as [Hq'|[Hq'|Hq']]; [by apply S1|destruct (R1 q Hq'); [by right; left|by right; right]|right; right; lia].
Qed.

(** An operation that adds no way to settle a promise and settles none. *)
Lemma bounded_frame s0 s s' : bounded_by s0 s → (∀ q, q ∈ refs s' → q ∈ refs s) →
  settled s' = settled s → (next_promise s ≤ next_promise s')%nat → bounded_by s0 s'.
Proof. intros (R & S & N) Hr Hs Hn. split_and!; [naive_solver|by rewrite Hs|lia]. Qed.

Lemma bounded_settle s0 s q v : bounded_by s0 s → q ∈ refs s0 ∨ (next_promise s0 ≤ q)%nat → bounded_by s0 (settle q v s).
Proof.
  intros (R & S & N) Hq. unfold settle. case_bool_decide; [by split_and!|]. split_and!; [exact R| |exact N].
  intros x. cbn. rewrite fmap_app. intros [Hx | ->%list_elem_of_singleton]%elem_of_app; [by apply S|by right].
Qed.

Lemma refs_handleDialogClosed res err s q : q ∈ refs (handleDialogClosed res err s) → q ∈ refs s.
Proof.
  destruct (handleDialogClosed_fields res err s) as (_ & Hmo & _ & _ & _ & Hmin & Hqt).
  unfold refs, pending. rewrite Hmo, Hmin. destruct (dialogQueue s) as [|n r]; injection Hqt as -> ->; [done|].
  rewrite !fmap_app, fmap_cons. set_solver.
Qed.

Lemma omap_subseteq {A B} (f : A → option B) (l1 l2 : list A) : l1 ⊆ l2 → omap f l1 ⊆ omap f l2.
Proof. intros Hl x (y & Hy & Hf)%list_elem_of_omap. apply list_elem_of_omap. exists y. split; [by apply Hl|done]. Qed.

Lemma refs_mono s s' :
  dialogQueue s' ⊆ dialogQueue s ++ timers s → timers s' ⊆ dialogQueue s ++ timers s →
  modals s' ⊆ modals s → minimized s' ⊆ minimized s → refs s' ⊆ refs s.
Proof.
  unfold refs, pending. intros Hq Ht Hm Hmin.
  pose proof (omap_subseteq managed_request _ _ Hm). pose proof (omap_subseteq restored_resolver _ _ Hm).
  pose proof (omap_subseteq md_promiseResolver _ _ Hmin). rewrite !fmap_app. set_solver.
Qed.

Lemma pending_refs q s : q ∈ pending s → q ∈ refs s.
Proof. unfold refs. set_solver. Qed.

Lemma request_refs s m r : m ∈ modals s → mo_handler m = ByManager r → rq_promise r ∈ refs s.
Proof. intros Hm Hh. apply pending_refs, pending_spec. exists r. split; [right; right; by exists m|done]. Qed.

Lemma restored_refs s m d p : m ∈ modals s → mo_handler m = ByRestore d → md_promiseResolver d = Some p → p ∈ refs s.
Proof.
  intros Hm Hh Hp. unfold refs. apply elem_of_app. right. apply elem_of_app. left.
  apply list_elem_of_omap. exists m. split; [done|]. unfold restored_resolver. by rewrite Hh.
Qed.

Lemma bounded_handleDialogClosed s0 s res err : bounded_by s0 s → bounded_by s0 (handleDialogClosed res err s).
Proof.
  intros Hb. destruct (handleDialogClosed_fields res err s) as (_ & _ & _ & Hn & Hs & _).
  eapply bounded_frame; [exact Hb|apply refs_handleDialogClosed|done|by rewrite Hn].
Qed.

Lemma bounded_remove_modal s0 s ref : bounded_by s0 s → bounded_by s0 (remove_modal ref s).
Proof.
  intros Hb. eapply bounded_frame; [exact Hb| |done|done]. apply refs_mono; cbn; [set_solver|set_solver| |done].
  intros m Hm. by apply list_elem_of_filter in Hm as [_ Hm].
Qed.

Lemma elem_of_omap_snoc {A B} (f : A → option B) (l : list A) x q : q ∈ omap f (l ++ [x]) → q ∈ omap f l ∨ f x = Some q.
Proof.
  intros (y & Hy & Hf)%list_elem_of_omap. apply elem_of_app in Hy as [Hy | ->%list_elem_of_singleton]; [|by right].
  left. apply list_elem_of_omap. by exists y.
Qed.

(** A state with one more modal, whose handler may hold a promise. *)
Lemma bounded_add_modal s0 s s' m :
  bounded_by s0 s → dialogQueue s' = dialogQueue s → timers s' = timers s → modals s' = modals s ++ [m] →
  minimized s' = minimized s → settled s' = settled s → (next_promise s ≤ next_promise s')%nat →
  (∀ q, (rq_promise <$> managed_request m) = Some q ∨ restored_resolver m = Some q → q ∈ refs s0 ∨ (next_promise s0 ≤ q)%nat) →
  bounded_by s0 s'.
Proof.
  intros (R & S & N) Hq Ht Hm Hmin Hs Hn Hnew. split_and!; [|by rewrite Hs|lia].
  intros q Hq'. unfold refs, pending in Hq'. rewrite Hq, Ht, Hm, Hmin, !fmap_app, !elem_of_app in Hq'.
  destruct Hq' as [[Hq'|[Hq'|Hq']]|[Hq'|Hq']].
  - apply R. unfold refs, pending. rewrite !fmap_app. set_solver.
  - apply R. unfold refs, pending. rewrite !fmap_app. set_solver.
  - apply list_elem_of_fmap in Hq' as (r & -> & Hr). apply elem_of_omap_snoc in Hr as [Hr|Hr].
    + apply R. unfold refs, pending. rewrite !fmap_app. apply elem_of_app. left. apply elem_of_app. right.
      apply elem_of_app. right. by apply list_elem_of_fmap_2.
    + apply Hnew. left. by rewrite Hr.
  - apply elem_of_omap_snoc in Hq' as [Hq'|Hq']; [|by apply Hnew; right].
    apply R. unfold refs. set_solver.
  - apply R. unfold refs. set_solver.
Qed.

Lemma bounded_set_minimized s0 s l : bounded_by s0 s →
  (∀ q, q ∈ omap md_promiseResolver l → q ∈ omap md_promiseResolver (minimized s) ∨ q ∈ refs s0 ∨ (next_promise s0 ≤ q)%nat) →
  bounded_by s0 (set_minimized l s).
Proof.
  intros (R & S & N) Hl. split_and!; [|exact S|exact N]. intros q Hq. unfold refs in Hq. cbn in Hq.
  rewrite !elem_of_app in Hq. destruct Hq as [Hq|[Hq|Hq]]; [apply R; unfold refs; set_solver..|].
  destruct (Hl q Hq) as [Hq'|Hq']; [apply R; unfold refs; set_solver|done].
Qed.

(** [minimizeDialog] of a dialog whose resolver, if any, the state held. *)
Lemma bounded_minimizeDialog s0 s d : bounded_by s0 s →
  (∀ q, md_promiseResolver d = Some q → q ∈ refs s0 ∨ (next_promise s0 ≤ q)%nat) →
  bounded_by s0 (set_minimized (minimizeDialog d (minimized s)) s).
Proof.
  intros Hb Hd. apply bounded_set_minimized; [done|]. intros q [Hq|Hq]%resolvers_minimizeDialog; [by left|right; by apply Hd].
Qed.

Lemma bounded_filter_minimized s0 s (P : min_dialog → Prop) `{∀ x, Decision (P x)} :
  bounded_by s0 s → bounded_by s0 (set_minimized (filter P (minimized s)) s).
Proof. intros Hb. apply bounded_set_minimized; [done|]. intros q Hq%resolvers_filter. by left. Qed.

Lemma bounded_show (open_ok : dialog_kind → bool) s0 s did r : bounded_by s0 s →
  rq_promise r ∈ refs s0 ∨ (next_promise s0 ≤ rq_promise r)%nat → bounded_by s0 (showDialog open_ok did r s).
Proof.
  intros Hb Hr. unfold showDialog. destruct (open_ok (rq_component r)).
  - eapply bounded_add_modal; [exact Hb|done..|]. intros q [[= <-]|[=]]. exact Hr.
  - apply bounded_settle; [by apply bounded_handleDialogClosed|done].
Qed.

Lemma bounded_open (open_ok : dialog_kind → bool) s k options props did :
  bounded_by s (openDialog open_ok k options props did s).2.
Proof.
  unfold openDialog. cbn. assert (bounded_by s (set_next_promise (S (next_promise s)) s)) as Hb.
  { eapply bounded_frame; [apply bounded_refl|done|done|cbn; lia]. }
  case_bool_decide.
  - apply bounded_show; [done|by right].
  - destruct Hb as (R & S & N). split_and!; [|exact S|exact N]. intros q Hq. unfold refs, pending in Hq. cbn in Hq.
    rewrite !fmap_app, !elem_of_app in Hq. destruct Hq as [[[Hq|Hq%list_elem_of_singleton]|Hq]|Hq].
    + apply R. unfold refs, pending. set_solver.
    + right. cbn in Hq. lia.
    + apply R. unfold refs, pending. rewrite !fmap_app. set_solver.
    + apply R. unfold refs. set_solver.
Qed.

Lemma bounded_modal_close s ref res : bounded_by s (modal_close ref res s).
Proof.
  unfold modal_close. destruct (find_modal ref s) as [m|] eqn:Hf; [|apply bounded_refl].
  apply find_modal_Some in Hf as [Hm _]. pose proof (bounded_remove_modal s s ref (bounded_refl s)) as Hb.
  destruct (mo_handler m) as [r|d] eqn:Hh.
  - apply bounded_settle; [by apply bounded_handleDialogClosed|left; by eapply request_refs].
  - destruct (md_promiseResolver d) eqn:Hp; [|done]. apply bounded_settle; [done|left; by eapply restored_refs].
Qed.

Lemma bounded_store s0 s mr r : bounded_by s0 s → rq_promise r ∈ refs s0 →
  bounded_by s0 (storePromiseResolverForMinimizedDialog mr r s).
Proof.
  intros Hb Hr. unfold storePromiseResolverForMinimizedDialog.
  repeat case_match; try done;
    try match goal with H : minimized s = _ |- _ => rewrite <-H end;
    (apply bounded_minimizeDialog; [done|]); intros q [= <-]; by left.
Qed.

Lemma bounded_reminimized s0 s d p : bounded_by s0 s → p ∈ refs s0 → bounded_by s0 (restored_reminimized d p s).
Proof.
  intros Hb Hp. unfold restored_reminimized. repeat case_match; try done.
  apply bounded_minimizeDialog; [done|]. intros q [= <-]. by left.
Qed.

Lemma bounded_modal_dismiss s ref reason : bounded_by s (modal_dismiss ref reason s).
Proof.
  unfold modal_dismiss. destruct (find_modal ref s) as [m|] eqn:Hf; [|apply bounded_refl].
  apply find_modal_Some in Hf as [Hm _]. pose proof (bounded_remove_modal s s ref (bounded_refl s)) as Hb.
  destruct (mo_handler m) as [r|d] eqn:Hh; cbv zeta.
  - pose proof (bounded_handleDialogClosed _ _ (Some JNull) (Some (RReason reason)) Hb) as Hb'.
    pose proof (request_refs s m r Hm Hh) as Hr.
    destruct (is_minimized_reason reason); [by apply bounded_store|by apply bounded_settle; [|left]].
  - destruct (md_promiseResolver d) eqn:Hp; [|done]. pose proof (restored_refs s m d _ Hm Hh Hp) as Hr.
    destruct (is_minimized_reason reason); [by apply bounded_reminimized|by apply bounded_settle; [|left]].
Qed.

Lemma restoreDialog_Some id cur d rest : restoreDialog id cur = (Some d, rest) → d ∈ cur ∧ rest = closeMinimizedDialog id cur.
Proof.
  unfold restoreDialog. destruct (list_find _ cur) as [[i x]|] eqn:E; [|done]. intros [= -> <-].
  apply list_find_Some in E as (Hi & _). split; [by eapply list_elem_of_lookup_2|done].
Qed.

Lemma bounded_minimize s s' ref now : minimize ref now s = Some s' → bounded_by s s'.
Proof.
  unfold minimize. destruct (find_modal ref s); [|done]. cbn. destruct (inst_command _); [|done]. intros [= <-].
  eapply bounded_trans; [|apply bounded_modal_dismiss]. apply bounded_minimizeDialog; [apply bounded_refl|done].
Qed.

Lemma bounded_restore (open_ok : dialog_kind → bool) s id did : bounded_by s (restoreMinimized open_ok id did s).
Proof.
  unfold restoreMinimized. destruct (restoreDialog id (minimized s)) as [[d|] rest] eqn:E; [|apply bounded_refl].
  apply restoreDialog_Some in E as [Hd ->].
  pose proof (bounded_filter_minimized s s (λ x, md_id x ≠ id) (bounded_refl s)) as Hb.
  assert (∀ q, md_promiseResolver d = Some q → q ∈ refs s) as Hq.
  { intros q Hq. unfold refs. apply elem_of_app. right. apply elem_of_app. right. apply list_elem_of_omap. by exists d. }
  destruct (open_ok (md_component d)).
  - eapply bounded_add_modal; [exact Hb|done..|]. intros q [[=]|Hq']. left. by apply Hq.
  - destruct (md_promiseResolver d) eqn:Hp; [|done]. apply bounded_settle; [done|left; by apply Hq].
Qed.

Lemma bounded_clear_queue s : bounded_by s (clearQueue s).
Proof.
  unfold clearQueue. assert (∀ rs s1, bounded_by s s1 → (∀ r, r ∈ rs → rq_promise r ∈ refs s) →
    bounded_by s (foldl (λ s r, settle (rq_promise r) (Rejected (RError "Dialog queue cleared")) s) s1 rs)) as Hf.
  { induction rs as [|r rs IH]; intros s1 Hb Hr; [done|]. cbn. apply IH; [|set_solver].
    apply bounded_settle; [done|left; apply Hr; set_solver]. }
  eapply bounded_frame; [apply Hf; [apply bounded_refl|]| |done|done].
  - intros r Hr. apply pending_refs, pending_spec. exists r. by split; [left|].
  - apply refs_mono; cbn; set_solver.
Qed.

Lemma bounded_step (open_ok : dialog_kind → bool) s s' : dm_step open_ok s s' → bounded_by s s'.
Proof.
  intros [k options props did|s0 s1 Hr]; [apply bounded_open|]. destruct Hr.
  - apply bounded_show.
    + eapply bounded_frame; [apply bounded_refl| |done|done]. apply refs_mono; cbn; rewrite ?H; set_solver.
    + left. apply pending_refs, pending_spec. exists r. rewrite H. split; [right; left; set_solver|done].
  - unfold closeActiveDialog. destruct (activeDialog _); [apply bounded_modal_close|apply bounded_refl].
  - apply bounded_clear_queue.
  - apply bounded_modal_close.
  - apply bounded_modal_dismiss.
  - by eapply bounded_minimize.
  - apply bounded_restore.
  - apply bounded_filter_minimized, bounded_refl.
Qed.

Lemma bounded_rtc (open_ok : dialog_kind → bool) s s' : rtc (dm_step open_ok) s s' → bounded_by s s'.
Proof.
  induction 1 as [s|s1 s2 s3 Hst _ IH]; [apply bounded_refl|]. eapply bounded_trans; [|exact IH].
  by eapply bounded_step.
Qed.

Lemma filter_insert_out {A} (P : A → Prop) `{∀ x, Decision (P x)} (l : list A) i x :
  ¬ P x → (∀ y, l !! i = Some y → ¬ P y) → filter P (<[i:=x]> l) = filter P l.
Proof.
  revert i. induction l as [|z l IH]; intros [|i] Hx Hy; [done|done| |].
  - change (<[0%nat:=x]> (z :: l)) with (x :: l).
    pose proof (Hy z eq_refl) as Hz. rewrite !filter_cons. case_decide as H1; [contradiction|]. case_decide as H2; [contradiction|done].
  - change (<[S i:=x]> (z :: l)) with (z :: <[i:=x]> l).
    rewrite !filter_cons. rewrite (IH i Hx (λ y Hl, Hy y Hl)). done.
Qed.

Lemma inv_init : dm_inv dm_init.
Proof. unfold dm_inv. cbn. split_and!; [constructor|set_solver|lia|done|done]. Qed.

Lemma omap_managed_nil s : managed s = [] → omap managed_request (modals s) = [].
Proof.
  unfold managed. induction (modals s) as [|m ms IH]; [done|]. rewrite filter_cons. cbn.
  unfold managed_request, is_managed in *. destruct (mo_handler m); [by rewrite decide_True|rewrite decide_False by done; auto].
Qed.

(** ** The properties of the dialog queue *)

(** C6: when [openDialog] is never called in the 100 ms between a dialog
    closing and the next queued one showing, the manager keeps its
    promise: at most one dialog it opened is on screen, it is
    [activeDialog], and a non-empty queue always waits behind a dialog on
    screen or a pending timer. *)
Theorem one_dialog_at_a_time open_ok s : rtc (dm_step_nogap open_ok) dm_init s → dm_inv s ∧ (length (managed s) ≤ 1)%nat.
Proof.
  intros Hr. assert (dm_inv s) as Hinv.
  { revert Hr. generalize dm_init inv_init. intros s0 Hinv0 Hr. induction Hr as [s|s1 s2 s3 Hst _ IH]; [done|].
    apply IH. destruct Hst as [k options props did s1 Ht|s1 s2 Hst]; [by apply inv_open|by eapply inv_react]. }
  split; [done|]. destruct Hinv as (_ & _ & Hlen & _). lia.
Qed.

(** C5: the promise of [showDialog] fails when [openDialog] is called in
    that gap: [activeDialog] is [null] while the next request waits for
    its timer, so the new dialog shows at once, the timer then shows the
    queued one, and two dialogs of the manager are on screen. *)
Theorem two_dialogs_reachable : ∃ s, rtc (dm_step (λ _, true)) dm_init s ∧ length (managed s) = 2%nat.
Proof.
  set (ok := λ _ : dialog_kind, true).
  set (s1 := (openDialog ok ConfirmCommandDialog [] [("command"%string, JStr "ls")] "d1" dm_init).2).
  set (s2 := (openDialog ok ConfirmCommandDialog [] [("command"%string, JStr "pwd")] "d2" s1).2).
  set (s3 := modal_close 0 (Some (JBool true)) s2).
  set (s4 := (openDialog ok CommandResultDialog [] [("command"%string, JStr "ls")] "d3" s3).2).
  eexists. split.
  - eapply rtc_l; [apply (StepOpen ok ConfirmCommandDialog [] [("command"%string, JStr "ls")] "d1")|]. fold s1.
    eapply rtc_l; [apply (StepOpen ok ConfirmCommandDialog [] [("command"%string, JStr "pwd")] "d2")|]. fold s2.
    eapply rtc_l; [apply StepReact, (StepClose ok 0 (Some (JBool true)))|]. fold s3.
    eapply rtc_l; [apply (StepOpen ok CommandResultDialog [] [("command"%string, JStr "ls")] "d3")|]. fold s4.
    eapply rtc_l; [apply StepReact, (StepTimer ok "d4"); vm_compute; reflexivity|]. apply rtc_refl.
  - vm_compute. reflexivity.
Qed.

(** C7: from any state of the discipline, if the user answers each dialog
    the manager shows ([closeActiveDialog]) and the timers run, the queue
    drains after at most [3 * queued + 2 * timers + shown] rounds, the
    manager is idle, and every promise it had to settle is settled. *)
Theorem queue_drains open_ok did s : dm_inv s →
  let s' := answer_all open_ok did (drain_measure s) s in
  rtc (dm_step_nogap open_ok) s s' ∧ activeDialog s' = None ∧ dialogQueue s' = [] ∧ timers s' = [] ∧
  managed s' = [] ∧ ∀ p, p ∈ pending s → p ∈ (settled s').*1.
Proof.
  intros Hinv s'. destruct (answer_all_spec open_ok did (drain_measure s) s Hinv (le_n _)) as (Hrtc & Hinv' & Ha & Ht & Hans).
  fold s' in Hrtc, Hinv', Ha, Ht, Hans. pose proof Hinv' as (_ & _ & _ & Hact & Hq). rewrite Ha in Hact.
  assert (dialogQueue s' = []) as Hq'.
  { destruct (dialogQueue s'); [done|]. by destruct (Hq ltac:(done)). }
  assert (pending s' = []) as Hp'. { unfold pending. by rewrite Hq', Ht, omap_managed_nil. }
  split_and!; try done. intros p Hp. destruct Hans as [Heq|[Hans _]].
  - rewrite <-Heq, Hp' in Hp. by apply elem_of_nil in Hp.
  - destruct (Hans p Hp) as [H|H]; [rewrite Hp' in H; by apply elem_of_nil in H|done].
Qed.

(** A promise of [openDialog] that nothing in the state can settle any
    more (no request, no restored modal and no minimized dialog holds
    it) stays pending forever, whatever happens next. *)
Lemma orphaned_promise_pending open_ok p s s' : rtc (dm_step open_ok) s s' →
  (p < next_promise s)%nat → p ∉ refs s → p ∉ (settled s).*1 → p ∉ (settled s').*1.
Proof.
  intros Hr Hp Hnr Hns Hs'. destruct (bounded_rtc open_ok s s' Hr) as (_ & S & _).
  destruct (S p Hs') as [H|[H|H]]; [done|done|lia].
Qed.

(** C8: discarding a minimized dialog from the minimized-dialogs modal
    ([closeDialog]) neither resolves nor rejects the promise it holds:
    when the dialog was the only holder of an open promise of
    [openDialog], the state could settle the promise before the close,
    has no way to afterwards, and the caller waits forever, whatever
    happens next. *)
Theorem closed_minimized_promise_pending open_ok s d p :
  d ∈ minimized s → md_promiseResolver d = Some p → (p < next_promise s)%nat → p ∉ (settled s).*1 →
  p ∉ pending s ++ omap restored_resolver (modals s) ++
        omap md_promiseResolver (filter (λ x, md_id x ≠ md_id d) (minimized s)) →
  p ∈ refs s ∧ (p ∉ refs (closeMinimized (md_id d) s)) ∧
  (∀ s', rtc (dm_step open_ok) (closeMinimized (md_id d) s) s' → p ∉ (settled s').*1).
Proof.
  intros Hd Hres Hp Hns Hother. split_and!.
  - unfold refs. apply elem_of_app; right. apply elem_of_app; right.
    apply list_elem_of_omap. by exists d.
  - exact Hother.
  - intros s' Hr. by apply (orphaned_promise_pending open_ok p _ s' Hr).
Qed.

(** restoring a dialog just minimized gives it back, and leaves the
    other minimized dialogs as they were. *)
Theorem minimize_restore_roundtrip d cur :
  restoreDialog (md_id d) (minimizeDialog d cur) = (Some d, closeMinimizedDialog (md_id d) cur).
Proof.
  unfold restoreDialog, minimizeDialog, closeMinimizedDialog.
  destruct (list_find (λ x, md_id x = md_id d) cur) as [[i x]|] eqn:E.
  - apply list_find_Some in E as (Hi & Hx & Hbefore).
    rewrite (proj2 (list_find_Some _ _ i d)).
    + f_equal. apply filter_insert_out; [tauto|]. intros y Hy. rewrite Hi in Hy. injection Hy as <-. tauto.
    + split_and!; [apply list_lookup_insert_eq; by eapply lookup_lt_Some|done|].
      intros j y Hj Hlt. rewrite list_lookup_insert_ne in Hj by lia. by apply (Hbefore j y).
  - rewrite list_find_app_r by done. cbn. rewrite decide_True by done. cbn.
    rewrite filter_app, filter_cons_False, app_nil_r; [done|tauto].
Qed.
