(* ===== verification/RunningCommands.v ===== *)
(** * Running commands of the agent plugin

    [RunningCommandsManagerService] ([services/runningCommandsManager.service.ts])
    keeps, per terminal tab, the command the agent is running there, in a
    [Map] from tab ids; the running-commands dialog
    ([RunningCommandsDialogComponent], [components/runningCommandsDialog.component.ts])
    lists them newest first with the time they have been running.

    The map is a [js_map] ([JsMap.v]); [Date.now()] is an argument.
    [Math.floor] on the integer milliseconds is [Z.div] (floor), and
    JavaScript's [%] is [Z.rem] (the sign of the dividend). *)

From S2P Require Import Prelude JsString JsMap JsArray.
From Stdlib Require Import String Sorting.Sorted.

Local Abbreviation length := List.length.
Local Open Scope Z_scope.

(** ** The service *)

(** [interface RunningCommand]; the dialog adds [duration]. *)
Record running_command := RunningCommand {
  rc_tabId : string;
  rc_command : string;
  rc_startTime : Z;
}.

(** [private runningCommands = new Map<string, RunningCommand>()]. *)
Abbreviation running_map := (js_map string running_command).

Module RunningCommandsManager.

(** [startCommand(tabId, command)] at [Date.now() = now]. *)
Definition startCommand (tabId command : string) (now : Z) (m : running_map) : running_map :=
  map_set tabId (RunningCommand tabId command now) m.

(** [endCommand(tabId)]. *)
Definition endCommand (tabId : string) (m : running_map) : running_map := map_delete tabId m.

(** [getAllRunningCommands()]: [Array.from(this.runningCommands.values())]. *)
Definition getAllRunningCommands (m : running_map) : list running_command := m.*2.

(** [getRunningCommandsCount()]: [this.runningCommands.size]. *)
Definition getRunningCommandsCount (m : running_map) : nat := length m.

(** [isCommandRunning(tabId)]. *)
Definition isCommandRunning (tabId : string) (m : running_map) : bool := map_has tabId m.

(** [getRunningCommand(tabId)]. *)
Definition getRunningCommand (tabId : string) (m : running_map) : option running_command := map_get tabId m.

(** [clearAll()]. *)
Definition clearAllRunning : running_map := [].

End RunningCommandsManager.

Import RunningCommandsManager.

(** The calls the agent makes on the service. *)
Inductive rc_call :=
| CStart (tabId command : string) (now : Z)
| CEnd (tabId : string)
| CClear.

Definition rc_apply (m : running_map) (c : rc_call) : running_map :=
  match c with
  | CStart t cmd now => startCommand t cmd now m
  | CEnd t => endCommand t m
  | CClear => clearAllRunning
  end.

(** ** The dialog *)

(** [formatDuration(ms)] of the dialog. *)
Definition formatRunningDuration (ms : Z) : string :=
  let seconds := ms / 1000 in
  let minutes := seconds / 60 in
  let hours := minutes / 60 in
  if bool_decide (0 < hours) then
    z_to_string hours +:+ "h " +:+ z_to_string (Z.rem minutes 60) +:+ "m " +:+ z_to_string (Z.rem seconds 60) +:+ "s"
  else if bool_decide (0 < minutes) then
    z_to_string minutes +:+ "m " +:+ z_to_string (Z.rem seconds 60) +:+ "s"
  else z_to_string seconds +:+ "s".

(** A row of the dialog: the command and its duration. *)
Record running_row := RunningRow {
  rr_tabId : string;
  rr_command : string;
  rr_startTime : Z;
  rr_duration : string;
}.

(** [refreshRunningCommands()] at [Date.now() = now]: one row per running
    command, sorted by [(a, b) => b.startTime - a.startTime]. *)
Definition refreshRunningCommands (now : Z) (m : running_map) : list running_row :=
  let rows := (λ c, RunningRow (rc_tabId c) (rc_command c) (rc_startTime c) (formatRunningDuration (now - rc_startTime c)))
                <$> getAllRunningCommands m in
  sort_by (λ a b, rr_startTime b - rr_startTime a) rows.

(** [getCommandPreview(command)]. *)
Definition getCommandPreview (command : string) : string :=
  if bool_decide (String.length command ≤ 50)%nat then command else substring 0 47 command +:+ "...".

(** [stopAllCommands()]: the tab ids [abortCommand(parseInt(tabId))] is
    called with, in the order of the rows. *)
Definition stopAllCommands (rows : list running_row) : list string := rr_tabId <$> rows.

(** ** Properties *)

(** C25: the running-commands dialog shows one row per running command,
    with its tab, command, start time and the time elapsed since then,
    newest first: [refreshRunningCommands] is a rearrangement of the
    service's commands into rows, sorted by decreasing start time. *)
Theorem running_rows_sorted now m :
  let rows := refreshRunningCommands now m in
  Sorted (λ a b, rr_startTime b ≤ rr_startTime a) rows ∧
  rows ≡ₚ (λ c, RunningRow (rc_tabId c) (rc_command c) (rc_startTime c) (formatRunningDuration (now - rc_startTime c)))
            <$> getAllRunningCommands m.
Proof.
  intros rows. split.
  - unfold rows, refreshRunningCommands.
    rewrite (sort_by_ext _ (λ a b, (λ r, - rr_startTime r) a - (λ r, - rr_startTime r) b)) by (intros; lia).
    eapply Sorted_ind; [| |apply (sort_by_key_sorted (λ r, - rr_startTime r))]; [constructor|].
    intros a l _ Hs Hhd. constructor; [done|]. destruct Hhd; constructor. lia.
  - unfold rows, refreshRunningCommands. apply sort_by_perm.
Qed.
