(* ===== verification/WorkspaceScenarios.v ===== *)
(** * Concrete runs of the workspace service

    A configuration store with no [workspaces] array yet and three open
    tabs: a code editor on [/src] (listed twice, beside an entry without a
    path, an empty path and [/docs]), a local shell, and a tab with no
    recovery token.  The theorems of [Workspace.v] are applied to the
    states the service reaches from there; every state is computed by
    [vm_compute]. *)

From S2P Require Import Prelude JsString Json Base64 Workspace.
From Stdlib Require Import Ascii String.

Local Open Scope Z_scope.

Definition demo_editor : app_tab :=
  AppTab (Some (JObj [("type", JStr "code-editor")])) true
    (Some [Some "/src"; None; Some "/src"; Some ""; Some "/docs"]) (Some "local").

Definition demo_shell : app_tab := AppTab (Some (JObj [("type", JStr "local")])) false None (Some "local").

Definition demo_plain : app_tab := AppTab None false None (Some "ssh").

Definition demo_tabs : list app_tab := [demo_editor; demo_shell; demo_plain].

Definition demo_backup_settings : stored_backup := StoredBackup (Some false) (Some 60) (Some 30) None None None.

Definition demo_ws0 : ws_state := WsState (Some (ConfigStore None None demo_backup_settings)) None demo_tabs None.

Definition demo_ws1 : ws_state := (saveWorkspace (Some (JStr "dev")) (Some (JStr "daily")) (JBool false) None "u1" 1000 demo_ws0).1.

Definition no_workspace : workspace :=
  Workspace EmptyString None None JNull JNull JNull None JNull None JNull 0 0 None None.

Definition demo_w1 : workspace := default no_workspace (getWorkspace "u1" demo_ws1).2.

(** Tab recovery that finds the open tab a token came from. *)
Definition demo_recover (tok : json) : option app_tab :=
  snd <$> list_find (λ t, tab_token t = Some tok) demo_tabs.

(** A workspace imported from text whose [tabs] is a number and whose
    [version] is a string. *)
Definition demo_bad_text : string :=
  json_stringify false (JObj [("name", JStr "bad"); ("tabs", JNum 5); ("version", JStr "2")]).

Definition demo_ws2 : ws_state := (importFromJson demo_bad_text "u2" 2000 demo_ws1).1.

Definition demo_w2 : workspace := default no_workspace (getWorkspace "u2" demo_ws2).2.

Definition no_updates : ws_updates := WsUpdates None None None None None None None None None None None.

(** ** Witnesses *)

Lemma save_then_get_witness :
  ∃ s' w folders profiles, saveWorkspace (Some (JStr "dev")) (Some (JStr "daily")) (JBool false) None "u1" 1000 demo_ws0 = (s', Ok w) ∧
    ws_id w = "u1" ∧ ws_version w = JNum 1 ∧
    ws_list s' = ws_list demo_ws0 ++ [w] ∧ getWorkspace "u1" s' = (s', Some w) ∧ st_saved s' = st_store s' ∧
    ws_tabs w = JArr (omap tab_token (st_tabs demo_ws0)) ∧
    ws_codeEditorFolders w = JArr (JStr <$> folders) ∧ NoDup folders ∧
    (∀ p, p ∈ folders ↔ p ≠ EmptyString ∧
       ∃ tab fs, tab ∈ st_tabs demo_ws0 ∧ tab_is_code_editor tab = true ∧ tab_folders tab = Some fs ∧ Some p ∈ fs) ∧
    ws_profiles w = JArr (JStr <$> profiles) ∧ NoDup profiles ∧
    (∀ p, p ∈ profiles ↔ p ≠ EmptyString ∧ ∃ tab, tab ∈ st_tabs demo_ws0 ∧ tab_profile_id tab = Some p).
Proof.
  exact (save_then_get (Some (JStr "dev")) (Some (JStr "daily")) (JBool false) None "u1" 1000 demo_ws0
           ltac:(vm_decide)).
Defined.

Lemma save_then_load_witness :
  loadWorkspace demo_recover "u1" demo_ws1 = (set_tabs [demo_editor; demo_shell] demo_ws1, Ok true).
Proof.
  apply (save_then_load demo_recover (Some (JStr "dev")) (Some (JStr "daily")) (JBool false) None "u1" 1000 demo_ws0 demo_ws1 demo_w1).
  - intros tab tok Hin Htok. simpl in Hin.
    repeat (apply elem_of_cons in Hin as [->|Hin];
              [simpl in Htok; first [discriminate | injection Htok as <-; reflexivity]|]).
    by apply elem_of_nil in Hin.
  - vm_decide.
  - vm_compute. reflexivity.
Defined.

(** The imported workspace keeps the string version ["2"], and an update
    makes it ["21"]. *)
Lemma update_workspace_spec_witness :
  ws_version (apply_updates demo_w2 no_updates "u2" 3000) = JStr "21" ∧
  ∃ s', updateWorkspace "u2" no_updates 3000 demo_ws2 = (s', Ok (Some (apply_updates demo_w2 no_updates "u2" 3000))) ∧
    ws_id (apply_updates demo_w2 no_updates "u2" 3000) = ws_id demo_w2 ∧
    ws_version (apply_updates demo_w2 no_updates "u2" 3000) = js_add_one (ws_version demo_w2) ∧
    ws_updatedAt (apply_updates demo_w2 no_updates "u2" 3000) = 3000 ∧
    (getWorkspace "u2" s').2 = Some (apply_updates demo_w2 no_updates "u2" 3000) ∧
    (∀ j, j ≠ "u2" → (getWorkspace j s').2 = (getWorkspace j demo_ws2).2) ∧
    st_saved s' = st_store s'.
Proof.
  split; [vm_compute; reflexivity|].
  exact (update_workspace_spec "u2" no_updates 3000 demo_ws2 demo_w2 ltac:(vm_compute; reflexivity)).
Defined.

Lemma delete_workspace_spec_witness :
  ∃ s', deleteWorkspace "u1" demo_ws2 = (s', Ok true) ∧
    ws_list s' = filter (λ x, ws_id x ≠ "u1") (ws_list demo_ws2) ∧ (getWorkspace "u1" s').2 = None ∧
    st_saved s' = st_store s'.
Proof.
  apply (delete_workspace_spec "u1" demo_ws2 demo_w1).
  - vm_decide.
  - vm_compute. reflexivity.
Defined.

Lemma absent_id_noop_witness :
  updateWorkspace "nope" no_updates 0 demo_ws2 = (ensureWorkspacesConfig demo_ws2, Ok None) ∧
  deleteWorkspace "nope" demo_ws2 = (ensureWorkspacesConfig demo_ws2, Ok false) ∧
  exportWorkspace "nope" "2024-01-01T00:00:00.000Z" demo_ws2 = (ensureWorkspacesConfig demo_ws2, None) ∧
  generateShareableUrl "nope" demo_ws2 = (ensureWorkspacesConfig demo_ws2, None) ∧
  copyShareableUrl "nope" demo_ws2 = (ensureWorkspacesConfig demo_ws2, false).
Proof. apply absent_id_noop. vm_compute. reflexivity. Defined.

Lemma export_import_roundtrip_witness :
  ∃ text s2, exportWorkspace "u1" "2024-01-01T00:00:00.000Z" demo_ws1 = (ensureWorkspacesConfig demo_ws1, Some text) ∧
    importFromJson text "u3" 3000 (ensureWorkspacesConfig demo_ws1) = (s2, Some (imported_copy demo_w1 "u3" 3000)) ∧
    ws_list s2 = ws_list demo_ws1 ++ [imported_copy demo_w1 "u3" 3000] ∧ st_saved s2 = st_store s2.
Proof.
  apply export_import_roundtrip; vm_compute; reflexivity.
Defined.

Lemma share_url_roundtrip_witness :
  ∃ b s2, generateShareableUrl "u1" demo_ws1 = (ensureWorkspacesConfig demo_ws1, Some (url_prefix +:+ b)) ∧
    importFromUrl (url_prefix +:+ b) "u3" 3000 (ensureWorkspacesConfig demo_ws1) = (s2, Some (imported_copy demo_w1 "u3" 3000)) ∧
    importFromUrl ("data:" +:+ "application/json" +:+ ";base64," +:+ b) "u3" 3000 (ensureWorkspacesConfig demo_ws1) =
      (s2, Some (imported_copy demo_w1 "u3" 3000)) ∧
    ws_list s2 = ws_list demo_ws1 ++ [imported_copy demo_w1 "u3" 3000] ∧ st_saved s2 = st_store s2.
Proof.
  apply share_url_roundtrip; [vm_compute; reflexivity|vm_compute; reflexivity|].
  vm_decide.
Defined.

Lemma load_noniterable_closes_tabs_witness :
  loadWorkspace demo_recover "u2" demo_ws2 = (set_tabs [] (ensureWorkspacesConfig demo_ws2), Err "TypeError").
Proof.
  apply (load_noniterable_closes_tabs demo_recover "u2" demo_ws2 demo_w2).
  - vm_compute. reflexivity.
  - intros l H. vm_compute in H. discriminate.
  - intros str H. vm_compute in H. discriminate.
Defined.

Lemma demo_ws2_reach : rtc ws_step demo_ws0 demo_ws2.
Proof.
  apply (rtc_l _ _ demo_ws1); [apply (WsSave (Some (JStr "dev")) (Some (JStr "daily")) (JBool false) None "u1" 1000 demo_ws0); vm_decide|].
  apply (rtc_l _ _ demo_ws2); [apply (WsImportJson demo_bad_text "u2" 2000 demo_ws1); vm_decide|].
  apply rtc_refl.
Qed.

Lemma ws_ids_unique_witness : NoDup (ws_id <$> ws_list demo_ws2).
Proof. apply (ws_ids_unique demo_ws0 demo_ws2 demo_ws2_reach). vm_compute. constructor. Defined.
