(* ===== verification/BackupScenarios.v ===== *)
(** * Concrete runs of the backup service

    An environment with the IPC renderer, a checksum that is the text
    itself (an injective stand-in for SHA-256), a fixed [toISOString],
    a date parser that reads any string as 1000 ms, and [uuidv4] drawing
    from a fixed list.  The service starts with automatic backups enabled
    (every 60 minutes, 30 days' retention, everything included), no
    backups, and the configuration store of [WorkspaceScenarios] holding
    one saved workspace.  The theorems of [Backup.v] are applied to the
    states the service reaches from there, computed by [vm_compute]. *)

From S2P Require Import Prelude JsString Json Base64 Workspace Backup WorkspaceScenarios.
From Stdlib Require Import Ascii String.

Local Open Scope Z_scope.

Definition demo_uuid (n : nat) : string :=
  match n with
  | 0%nat => "11111111-aaaa-4aaa-8aaa-aaaaaaaaaaaa"
  | 1%nat => "22222222-bbbb-4bbb-8bbb-bbbbbbbbbbbb"
  | _ => "33333333-cccc-4ccc-8ccc-cccccccccccc"
  end.

Definition demo_env : backup_env :=
  BackupEnv true (λ t, t) (λ _, "2025-07-21T10:00:00.000Z")
    (λ v, match v with JStr _ => Some 1000 | _ => None end)
    "1.0.8" "linux" (λ _, JObj [("version", JNum 1)]) (λ p ps, Ok (ps ++ [p])) demo_uuid.

Definition demo_config : backup_config := BackupConfig true 60 30 true true true.

Definition demo_bk0 : bk_state :=
  BkState demo_config [] (Some 3600000) "device-1" "/home/u/.config/tlink/backups" ∅ ∅ 0 demo_ws1 0.

Definition demo_store : config_store := default (ConfigStore None None demo_backup_settings) (st_store demo_ws1).

Definition demo_bk1 : bk_state := (createBackup demo_env false 5000 demo_bk0).1.

Definition demo_b1 : backup := default (Backup EmptyString 0 0 EmptyString EmptyString JNull JNull [] None)
  (head (b_backups demo_bk1)).

Definition demo_text : string := default EmptyString (b_files demo_bk1 !! bk_path demo_b1).

Definition demo_data : json := default JNull (json_parse demo_text).

Definition demo_updates : bc_updates := BcUpdates (Some false) None (Some 7) None None None.

(** ** Witnesses *)

Lemma create_backup_spec_witness :
  ∃ s' b text, createBackup demo_env false 5000 demo_bk0 = (s', Ok b) ∧ getBackup (bk_id b) s' = Some b ∧
    bk_timestamp b = 5000 ∧ b_files s' !! bk_path b = Some text ∧ text = bk_checksum b ∧
    json_parse text = Some (backup_data demo_env 5000 demo_config "device-1" demo_store (ws_list demo_ws1)) ∧
    b_backups s' = filter (λ x, 0 < bc_retention demo_config → cutoff 5000 demo_bk0 ≤ bk_timestamp x) ([] ++ [b]).
Proof.
  apply (create_backup_spec demo_env false 5000 demo_bk0 demo_store); try reflexivity.
  - split; reflexivity.
  - vm_decide.
  - apply NoDup_nil_2.
  - apply not_elem_of_nil.
  - intros x Hx. by apply elem_of_nil in Hx.
Defined.

Lemma export_import_backup_witness :
  ∃ s2 b', exportBackup demo_env (bk_id demo_b1) "/tmp/copy.json" demo_bk1 =
             (set_files (<["/tmp/copy.json" := demo_text]> (b_files demo_bk1)) demo_bk1, Ok ()) ∧
    importBackup demo_env "/tmp/copy.json" 9000 (set_files (<["/tmp/copy.json" := demo_text]> (b_files demo_bk1)) demo_bk1)
      = (s2, Ok b') ∧
    bk_checksum b' = bk_checksum demo_b1 ∧ bk_size b' = byte_length demo_text ∧ bk_timestamp b' = 1000 ∧
    md_items b' = data_items demo_data ∧ b_files s2 !! bk_path b' = Some demo_text ∧
    b_backups s2 = b_backups demo_bk1 ++ [b'].
Proof.
  apply (export_import_backup demo_env (bk_id demo_b1) "/tmp/copy.json" 9000 demo_bk1 demo_b1 demo_text demo_data 1000);
    try (vm_compute; reflexivity).
  vm_compute. discriminate.
Defined.

Lemma update_config_persists_witness :
  b_config (updateBackupConfig demo_env demo_updates 9000 demo_bk1) = BackupConfig false 60 7 true true true ∧
  b_config (loadBackupConfig (updateBackupConfig demo_env demo_updates 9000 demo_bk1)) = BackupConfig false 60 7 true true true ∧
  b_timer (updateBackupConfig demo_env demo_updates 9000 demo_bk1) = None.
Proof. exact (update_config_persists demo_env demo_updates 9000 demo_bk1 demo_store ltac:(vm_compute; reflexivity)). Defined.

Lemma restore_refuses_witness :
  restoreBackup demo_env "no-such-id" 9000 demo_bk1 = (demo_bk1, Err "Backup not found").
Proof.
  apply (restore_refuses demo_env "no-such-id" 9000 demo_bk1); vm_compute; reflexivity.
Defined.

Lemma timer_invariant_witness :
  timer_matches (backup_tick demo_env 9000 (bk_ready demo_env None 0 (set_timer None demo_bk0))).
Proof.
  apply (timer_invariant demo_env None 0 (set_timer None demo_bk0)); [reflexivity|].
  apply rtc_once. constructor.
Defined.

Lemma backup_dir_beside_config_witness :
  getBackupDirectory (Some ("/home/u/.config/tlink" +:+ "/" +:+ "config.yaml")) = "/home/u/.config/tlink" +:+ "/backups".
Proof. apply backup_dir_beside_config. reflexivity. Defined.

Lemma backup_restore_roundtrip_witness :
  ∃ s1 b s2, createBackup demo_env false 5000 demo_bk0 = (s1, Ok b) ∧
    restoreBackup demo_env (bk_id b) 9000 s1 = (s2, Ok ()) ∧
    Forall2 (λ w w', ws_name w' = ws_name w ∧ ws_description w' = ws_description w ∧
                     ws_shared w' = js_or (Some (ws_shared w)) (JBool false) ∧ ws_teamId w' = ws_teamId w ∧
                     ws_tabs w' = JArr (capture_tokens (st_tabs demo_ws1)))
      (ws_list demo_ws1) (ws_list (b_ws s2)).
Proof.
  apply (backup_restore_roundtrip demo_env false 5000 9000 demo_bk0 demo_store);
    first [reflexivity | split; reflexivity | vm_decide | intros x Hx; by apply elem_of_nil in Hx].
Defined.

(** Thirty-one days after the first backup, with thirty days' retention. *)
Lemma restore_drops_expired_witness :
  getBackup (bk_id demo_b1) (restoreBackup demo_env (bk_id demo_b1) 2678405000 demo_bk1).1 = None.
Proof.
  apply (restore_drops_expired demo_env (bk_id demo_b1) 2678405000 demo_bk1 demo_b1 demo_text demo_data demo_store);
    first [vm_compute; reflexivity | split; reflexivity | vm_decide].
Defined.
