(* ===== verification/AgentScenarios.v ===== *)
(** * Concrete runs of the agent plugin's services

    A command history with two entries stored and reloaded, an output
    store holding a five-line output, and the dialog manager opening two
    confirmation dialogs.  The theorems of [CommandHistory.v],
    [OutputStorage.v] and [Dialogs.v] are applied to these states, whose
    hypotheses are discharged by evaluation. *)

From S2P Require Import Prelude JsString JsMap Json CommandHistory OutputStorage Dialogs.
From Stdlib Require Import Ascii String.

Local Abbreviation length := List.length.
Local Open Scope Z_scope.

(** ** Command history *)

Definition demo_entry (cmd out : string) (code : Z) (t : Z) : cmd_entry :=
  CmdEntry EmptyString cmd out (Some "$ ") (Some code) t false "1" (Some "bash") (Some 1200).

Definition demo_hist0 : hist_state := HistState [] None None [].

Definition demo_hist1 : hist_state :=
  (addCommand true "h2" (demo_entry "git status" "clean" 0 2000) (addCommand true "h1" (demo_entry "ls -la" "a b c" 0 1000) demo_hist0).1).1.

(** A third command whose write to the storage fails. *)
Definition demo_hist2 : hist_state := (addCommand false "h3" (demo_entry "make" "ok" 0 3000) demo_hist1).1.

Lemma history_invariant_witness :
  hist_bounded demo_hist2 ∧
  (hist_bounded demo_hist1 ∧ stored_history demo_hist1 = filter (λ e, entry_valid e = true) (h_history demo_hist1)) ∧
  length (h_history demo_hist2) = 3%nat ∧ length (stored_history demo_hist2) = 2%nat.
Proof.
  assert (H0 : (length (stored_history demo_hist0) ≤ MAX_HISTORY_ENTRIES)%nat) by (vm_compute; lia).
  split; [|split].
  - apply (proj1 (history_invariant demo_hist0 demo_hist2 H0)).
    eapply rtc_l; [apply HRestart|].
    eapply rtc_l; [apply (HAdd _ true "h1" (demo_entry "ls -la" "a b c" 0 1000)); exact I|].
    eapply rtc_l; [apply (HAdd _ true "h2" (demo_entry "git status" "clean" 0 2000)); exact I|].
    apply rtc_once. apply (HAdd _ false "h3" (demo_entry "make" "ok" 0 3000)). exact I.
  - apply (proj2 (history_invariant demo_hist0 demo_hist1 H0)).
    eapply rtc_l; [apply HRestart|].
    eapply rtc_l; [apply (HAdd _ true "h1" (demo_entry "ls -la" "a b c" 0 1000)); reflexivity|].
    apply rtc_once. apply (HAdd _ true "h2" (demo_entry "git status" "clean" 0 2000)). reflexivity.
  - split; vm_compute; reflexivity.
Defined.

Lemma search_narrowing_witness :
  searchHistory "status" demo_hist1 `sublist_of` searchHistory "stat" demo_hist1 ∧
  searchHistory (to_lower "stat") demo_hist1 = searchHistory "stat" demo_hist1.
Proof. apply search_narrowing; vm_compute; reflexivity. Defined.

(** A field with quotes and a comma. *)
Definition demo_field : string := "say " +:+ String c_dq ("hi" +:+ String c_dq ", then go").

Lemma csv_field_roundtrip_witness :
  csv_field (escapeCsvField demo_field +:+ ",next") = Some (demo_field, ",next"%string).
Proof. apply csv_field_roundtrip. vm_compute. reflexivity. Defined.

(** ** Stored outputs *)

Definition demo_output : stored_output :=
  StoredOutput EmptyString "seq 5" (String.concat (String (ascii_of_nat 10) EmptyString) ["1"; "2"; "3"; "4"; "5"])
    None (Some 0) 7000 false 1.

Definition demo_outputs : output_map := [("o1", StoredOutput "o1" "echo" "x" None (Some 0) 5000 false 1)]%string.

Lemma store_output_spec_witness :
  let m' := (storeOutput "o2" demo_output demo_outputs).1 in
  getOutput "o2" m' = Some (so_with_id "o2" demo_output) ∧ NoDup m'.*1 ∧
  length m' = Nat.min (S (length demo_outputs)) MAX_OUTPUTS ∧
  ∀ k v, k ≠ "o2"%string → map_get k m' = Some v → map_get k demo_outputs = Some v.
Proof.
  apply store_output_spec.
  - vm_compute. repeat constructor; set_solver.
  - vm_compute. set_solver.
  - intros kv Hkv. unfold demo_outputs in Hkv. apply list_elem_of_singleton in Hkv as ->. cbn. lia.
Defined.

Lemma pages_cover_witness :
  let lines := split_on (ascii_of_nat 10) (so_output (so_with_id "o2" demo_output)) in
  ∃ q : nat,
    (∀ i, (i < q)%nat → ∃ p, getPaginatedOutput "o2" (Z.of_nat i * 2 + 1) 2 (storeOutput "o2" demo_output demo_outputs).1 = Some p ∧
       pg_lines p = page_lines lines 2 i ∧ (length (pg_lines p) ≤ Z.to_nat 2)%nat ∧
       pg_part p = Some (Z.of_nat i + 1) ∧ pg_totalParts p = Some (Z.of_nat q)) ∧
    mjoin (page_lines lines 2 <$> seq 0 q) = lines.
Proof. apply pages_cover; [vm_compute; reflexivity|lia]. Defined.

(** ** Dialogs *)

Definition demo_ok : dialog_kind → bool := λ _, true.

Definition demo_dm1 : dm_state :=
  (openDialog demo_ok ConfirmCommandDialog [] [("command"%string, JStr "ls")] "d1" dm_init).2.

Definition demo_dm2 : dm_state :=
  (openDialog demo_ok ConfirmCommandDialog [] [("command"%string, JStr "pwd")] "d2" demo_dm1).2.

Lemma demo_dm2_reach : rtc (dm_step_nogap demo_ok) dm_init demo_dm2.
Proof.
  unfold demo_dm2. eapply rtc_r; [|apply NoGapOpen; reflexivity].
  unfold demo_dm1. apply rtc_once. apply NoGapOpen. reflexivity.
Qed.

Lemma one_dialog_at_a_time_witness : dm_inv demo_dm2 ∧ (length (managed demo_dm2) ≤ 1)%nat.
Proof. apply (one_dialog_at_a_time demo_ok), demo_dm2_reach. Defined.

Lemma queue_drains_witness :
  let s' := answer_all demo_ok "d9" (drain_measure demo_dm2) demo_dm2 in
  rtc (dm_step_nogap demo_ok) demo_dm2 s' ∧ activeDialog s' = None ∧ dialogQueue s' = [] ∧ timers s' = [] ∧
  managed s' = [] ∧ ∀ p, p ∈ pending demo_dm2 → p ∈ (settled s').*1.
Proof. apply queue_drains. exact (proj1 (one_dialog_at_a_time demo_ok demo_dm2 demo_dm2_reach)). Defined.

(** The first dialog is minimized, its promise goes to the minimized
    dialog, and the dialog is then discarded from the minimized list:
    promise 0 is held by nothing and is never settled. *)
Definition demo_dm_min : dm_state := default demo_dm1 (minimize 0 5000 demo_dm1).

Definition demo_md : min_dialog :=
  Eval vm_compute in match minimized demo_dm_min with d :: _ => d | [] => MinDialog "" "" ConfirmCommandDialog [] 0 0 None end.

Definition demo_dm3 : dm_state := closeMinimized "d1" demo_dm_min.

Lemma closed_minimized_promise_pending_witness :
  demo_md ∈ minimized demo_dm_min ∧ md_id demo_md = "d1" ∧
  0%nat ∈ refs demo_dm_min ∧ (0%nat ∉ refs demo_dm3) ∧
  0%nat ∉ (settled (closeActiveDialog (clearQueue demo_dm3))).*1.
Proof.
  assert (Hd : demo_md ∈ minimized demo_dm_min) by (vm_compute; left).
  assert (Hid : md_id demo_md = "d1") by reflexivity.
  destruct (closed_minimized_promise_pending demo_ok demo_dm_min demo_md 0%nat Hd eq_refl)
    as (H1 & H2 & H3); [vm_compute; lia|vm_compute; set_solver|vm_compute; set_solver|].
  split_and!; [exact Hd|exact Hid|exact H1|exact H2|].
  apply H3.
  eapply rtc_l; [apply StepReact, StepClearQueue|]. eapply rtc_l; [apply StepReact, StepCloseActive|]. apply rtc_refl.
Defined.

