(* ===== verification/DialogComponents.v ===== *)
(** * The confirmation and result dialogs of the agent plugin

    [ConfirmCommandDialogComponent] ([components/confirmCommandDialog.component.ts])
    asks the user to run, cancel or reject (with a reason) a command the
    agent wants to run; [CommandResultDialogComponent]
    ([components/commandResultDialog.component.ts]) shows its output and
    lets the user accept it (with a message) or reject it (with a reason).
    Both are opened by [DialogManagerService] ([Dialogs.v]) in an
    [NgbModal], handle the keyboard through [@HostListener]s on the
    document, pause the application's hotkeys while they are open and
    keep the focus inside the modal.

    The state of a component is its form fields and a [shell]: the calls
    it has made on [HotkeysService] ([disable]/[enable]), on its
    [NgbActiveModal] ([close]/[dismiss]), on
    [MinimizedDialogManagerService.minimizeDialog] and [alert], the
    element that has the focus ([document.activeElement]), the [focusin]
    listener and [focused] class it installs, the [setTimeout] callbacks
    still pending and whether Angular has destroyed it.  The template
    ([.pug] files, not in the repository) calls the public methods; its
    buttons, the textarea's [(keydown)] and its [ngModel] binding are
    events of the step relations, which also run pending timers and the
    destruction that follows the modal's closing. *)

From S2P Require Import Prelude JsString Json Dialogs.
From Stdlib Require Import String.

Local Open Scope Z_scope.

(** ** The shell both components share *)

(** Where the focus is: the modal's [.modal-content], the textarea of the
    form, another input of the modal, or outside the modal. *)
Inductive elem := EModal | ETextarea | EInput | EOutside.

#[export] Instance elem_eq_dec : EqDecision elem.
Proof. solve_decision. Defined.

(** A call on [HotkeysService]. *)
Inductive hk_call := HkDisable | HkEnable.

#[export] Instance hk_call_eq_dec : EqDecision hk_call.
Proof. solve_decision. Defined.

(** A call on the [NgbActiveModal]: [close(result)] or [dismiss(reason)]. *)
Inductive modal_call := MClose (result : option json) | MDismiss (reason : json).

Record shell := Shell {
  hotkeysPaused : bool;
  hotkeys : list hk_call;
  modal_calls : list modal_call;
  minimized_calls : list (string * string * Z);
  alerts : list string;
  activeElement : elem;
  focusin : bool;
  focused : bool;
  view_timer : bool;
  focus_timer : bool;
  destroyed : bool;
}.

Definition set_paused b h := Shell b (hotkeys h) (modal_calls h) (minimized_calls h) (alerts h) (activeElement h) (focusin h) (focused h) (view_timer h) (focus_timer h) (destroyed h).
Definition hk_push c h := Shell (hotkeysPaused h) (hotkeys h ++ [c]) (modal_calls h) (minimized_calls h) (alerts h) (activeElement h) (focusin h) (focused h) (view_timer h) (focus_timer h) (destroyed h).
Definition modal_push c h := Shell (hotkeysPaused h) (hotkeys h) (modal_calls h ++ [c]) (minimized_calls h) (alerts h) (activeElement h) (focusin h) (focused h) (view_timer h) (focus_timer h) (destroyed h).
Definition minimized_push c h := Shell (hotkeysPaused h) (hotkeys h) (modal_calls h) (minimized_calls h ++ [c]) (alerts h) (activeElement h) (focusin h) (focused h) (view_timer h) (focus_timer h) (destroyed h).
Definition alert (msg : string) h := Shell (hotkeysPaused h) (hotkeys h) (modal_calls h) (minimized_calls h) (alerts h ++ [msg]) (activeElement h) (focusin h) (focused h) (view_timer h) (focus_timer h) (destroyed h).
Definition focus e h := Shell (hotkeysPaused h) (hotkeys h) (modal_calls h) (minimized_calls h) (alerts h) e (focusin h) (focused h) (view_timer h) (focus_timer h) (destroyed h).
Definition set_focusin b h := Shell (hotkeysPaused h) (hotkeys h) (modal_calls h) (minimized_calls h) (alerts h) (activeElement h) b (focused h) (view_timer h) (focus_timer h) (destroyed h).
Definition set_focused b h := Shell (hotkeysPaused h) (hotkeys h) (modal_calls h) (minimized_calls h) (alerts h) (activeElement h) (focusin h) b (view_timer h) (focus_timer h) (destroyed h).
Definition set_view_timer b h := Shell (hotkeysPaused h) (hotkeys h) (modal_calls h) (minimized_calls h) (alerts h) (activeElement h) (focusin h) (focused h) b (focus_timer h) (destroyed h).
Definition set_focus_timer b h := Shell (hotkeysPaused h) (hotkeys h) (modal_calls h) (minimized_calls h) (alerts h) (activeElement h) (focusin h) (focused h) (view_timer h) b (destroyed h).
Definition set_destroyed b h := Shell (hotkeysPaused h) (hotkeys h) (modal_calls h) (minimized_calls h) (alerts h) (activeElement h) (focusin h) (focused h) (view_timer h) (focus_timer h) b.

(** A component just created: [ngAfterViewInit] has scheduled its
    callback, the focus is still where it was (outside the modal). *)
Definition shell_init : shell := Shell false [] [] [] [] EOutside false false true false false.

(** [pauseHotkeys()]. *)
Definition pauseHotkeys (h : shell) : shell :=
  if hotkeysPaused h then h else set_paused true (hk_push HkDisable h).

(** [resumeHotkeys()]. *)
Definition resumeHotkeys (h : shell) : shell :=
  if hotkeysPaused h then set_paused false (hk_push HkEnable h) else h.

(** The focus part of the [ngAfterViewInit] callback: when
    [document.querySelector('.modal-content')] finds an element
    ([found]), mark it [focused], focus it and install
    [keepFocusInModal]. *)
Definition focus_modal_content (found : bool) (h : shell) : shell :=
  if found then set_focusin true (focus EModal (set_focused true h)) else h.

(** [keepFocusInModal] on a [focusin] event: focus that leaves the modal
    is brought back to it. *)
Definition focus_event (e : elem) (h : shell) : shell :=
  if focusin h && bool_decide (e = EOutside) then focus EModal h else focus e h.

(** [ngOnDestroy()]. *)
Definition ngOnDestroy (h : shell) : shell :=
  set_destroyed true (set_focused false (set_focusin false (resumeHotkeys h))).

(** The alert of the two [reject()] methods. *)
Definition reason_alert : string := "Please provide a reason for rejection.".

(** [minimize()] of either component at [Date.now() = now]: the
    minimized-dialog object handed to [minimizeDialog], then
    [resumeHotkeys()] and [dismiss('minimized')]. *)
Definition minimize_shell (k : dialog_kind) (id cmd : string) (now : Z) (h : shell) : shell :=
  modal_push (MDismiss (JStr "minimized")) (resumeHotkeys (minimized_push (id, minimized_title k cmd, now) h)).

(** [modal.close(result)] after [resumeHotkeys()], the end of every
    method that answers the dialog. *)
Definition close_with (result : option json) (h : shell) : shell :=
  modal_push (MClose result) (resumeHotkeys h).

(** Whether the keydown target is a text field
    ([instanceof HTMLInputElement || instanceof HTMLTextAreaElement]). *)
Definition in_text_field (e : elem) : bool :=
  match e with ETextarea | EInput => true | _ => false end.

(** The balance of the calls on [HotkeysService]: [disable] counts one,
    [enable] minus one. *)
Definition hk_delta (c : hk_call) : Z := match c with HkDisable => 1 | HkEnable => -1 end.
Definition hk_level (l : list hk_call) : Z := foldr (λ c z, hk_delta c + z) 0 l.

(** ** Lemmas on the shell *)

(** The hotkeys are disabled once more than enabled exactly while the
    component has them paused. *)
Definition hk_inv (h : shell) : Prop := hk_level (hotkeys h) = if hotkeysPaused h then 1 else 0.

(** [h'] follows [h] by a handler that does not touch the view timer or
    the component's life, pauses nothing and keeps the balance. *)
Definition shell_le (h h' : shell) : Prop :=
  view_timer h' = view_timer h ∧ destroyed h' = destroyed h ∧
  (hotkeysPaused h' = true → hotkeysPaused h = true) ∧ (hk_inv h → hk_inv h').

Lemma hk_level_snoc l c : hk_level (l ++ [c]) = hk_level l + hk_delta c.
Proof. unfold hk_level. rewrite foldr_app. cbn. induction l as [|x l IH]; cbn; lia. Qed.

(** A shell operation that changes neither the hotkeys nor the timers. *)
Ltac shell_le_triv := unfold shell_le, hk_inv; cbn; split_and!; auto.

Lemma shell_le_refl h : shell_le h h.
Proof. shell_le_triv. Qed.

Lemma modal_push_le c h : shell_le h (modal_push c h).
Proof. shell_le_triv. Qed.

Lemma minimized_push_le c h : shell_le h (minimized_push c h).
Proof. shell_le_triv. Qed.

Lemma shell_le_trans h1 h2 h3 : shell_le h1 h2 → shell_le h2 h3 → shell_le h1 h3.
Proof. intros (?&?&?&?) (?&?&?&?). split_and!; try congruence; auto. Qed.

Lemma resumeHotkeys_le h : shell_le h (resumeHotkeys h).
Proof.
  unfold resumeHotkeys, shell_le, hk_inv. destruct (hotkeysPaused h) eqn:E; cbn; rewrite ?hk_level_snoc, ?E; cbn;
    split_and!; intros; try lia; congruence.
Qed.

Lemma resumeHotkeys_paused h : hotkeysPaused (resumeHotkeys h) = false.
Proof. unfold resumeHotkeys. by destruct (hotkeysPaused h) eqn:E. Qed.

Lemma close_with_le v h : shell_le h (close_with v h).
Proof. eapply shell_le_trans; [apply resumeHotkeys_le|apply modal_push_le]. Qed.

Lemma minimize_shell_le k id cmd now h : shell_le h (minimize_shell k id cmd now h).
Proof.
  unfold minimize_shell. eapply shell_le_trans; [apply minimized_push_le|].
  eapply shell_le_trans; [apply resumeHotkeys_le|apply modal_push_le].
Qed.

Lemma focus_le e h : shell_le h (focus e h).
Proof. shell_le_triv. Qed.

Lemma focus_event_le e h : shell_le h (focus_event e h).
Proof. unfold focus_event. case_match; apply focus_le. Qed.

Lemma alert_le m h : shell_le h (alert m h).
Proof. shell_le_triv. Qed.

Lemma set_focus_timer_le b h : shell_le h (set_focus_timer b h).
Proof. shell_le_triv. Qed.

Lemma pauseHotkeys_inv h : hk_inv h → hk_inv (pauseHotkeys h).
Proof.
  intros Hi. unfold pauseHotkeys, hk_inv in *. destruct (hotkeysPaused h) eqn:E; cbn;
    rewrite ?hk_level_snoc, ?E; cbn; rewrite ?E in Hi; lia.
Qed.

Lemma focus_modal_content_le b h : shell_le h (focus_modal_content b h).
Proof. unfold focus_modal_content. case_match; shell_le_triv. Qed.

Lemma ngOnDestroy_inv h : hk_inv h → hk_inv (ngOnDestroy h) ∧ hotkeysPaused (ngOnDestroy h) = false.
Proof. intros Hi. split; [apply (resumeHotkeys_le h), Hi|apply resumeHotkeys_paused]. Qed.

Lemma shell_init_inv : hk_inv shell_init.
Proof. done. Qed.

#[export] Hint Resolve shell_le_refl resumeHotkeys_le close_with_le minimize_shell_le focus_le
  focus_event_le alert_le set_focus_timer_le focus_modal_content_le : tlink.

(** What a step of either component does to its shell: a handler while
    the component lives, the [ngAfterViewInit] callback (whenever it is
    due), or [ngOnDestroy]. *)
Inductive shell_step : shell → shell → Prop :=
| SHandler h h' : destroyed h = false → shell_le h h' → shell_step h h'
| SViewTimer h h' : view_timer h = true → view_timer h' = false → destroyed h' = destroyed h →
    (hk_inv h → hk_inv h') → shell_step h h'
| SDestroy h : destroyed h = false → shell_step h (ngOnDestroy h).

Lemma ngOnDestroy_view_timer h : view_timer (ngOnDestroy h) = view_timer h.
Proof. unfold ngOnDestroy, resumeHotkeys. by case_match. Qed.

Lemma shell_step_inv h h' : shell_step h h' → hk_inv h → hk_inv h'.
Proof. intros Hs Hi. destruct Hs as [? ? _ (_&_&_&H)|? ? _ _ _ H|]; auto. by apply ngOnDestroy_inv. Qed.

Lemma shell_rtc_inv h h' : rtc shell_step h h' → hk_inv h → hk_inv h'.
Proof. induction 1; eauto using shell_step_inv. Qed.

(** Once the [ngAfterViewInit] callback has run, a destroyed component
    has its hotkeys resumed. *)
Lemma shell_rtc_restored h h' : rtc shell_step h h' → view_timer h = false →
  (destroyed h = true → hotkeysPaused h = false) →
  view_timer h' = false ∧ (destroyed h' = true → hotkeysPaused h' = false).
Proof.
  induction 1 as [|h1 h2 h3 Hs _ IH]; [done|]. intros Hv Hd. apply IH.
  - destruct Hs as [? ? _ (Hv'&_)| |]; [congruence|congruence|by rewrite ngOnDestroy_view_timer].
  - destruct Hs as [? ? Hl (_&->&_)|?|? Hl]; [congruence|congruence|intros _; apply resumeHotkeys_paused].
Qed.

(** A destroyed component whose callback has run takes no step. *)
Lemma shell_step_frozen h h' : destroyed h = true → view_timer h = false → ¬ shell_step h h'.
Proof. intros Hd Hv Hs. inversion Hs; congruence. Qed.

Lemma shell_rtc_frozen {D} (sh : D → shell) (R : relation D) d d' :
  (∀ d1 d2, R d1 d2 → shell_step (sh d1) (sh d2)) →
  destroyed (sh d) = true → view_timer (sh d) = false → rtc R d d' → d' = d.
Proof. intros HR Hd Hv Hr. destruct Hr as [|? d2 ? H]; [done|]. by destruct (shell_step_frozen _ _ Hd Hv (HR _ _ H)). Qed.

Lemma shell_rtc {D} (sh : D → shell) (R : relation D) d d' :
  (∀ d1 d2, R d1 d2 → shell_step (sh d1) (sh d2)) → rtc R d d' → rtc shell_step (sh d) (sh d').
Proof. intros HR. induction 1; [done|]. eapply rtc_l; eauto. Qed.

(** The calls on the modal each operation makes. *)
Lemma modal_calls_resumeHotkeys h : modal_calls (resumeHotkeys h) = modal_calls h.
Proof. unfold resumeHotkeys. by case_match. Qed.
Lemma modal_calls_pauseHotkeys h : modal_calls (pauseHotkeys h) = modal_calls h.
Proof. unfold pauseHotkeys. by case_match. Qed.
Lemma modal_calls_close_with v h : modal_calls (close_with v h) = modal_calls h ++ [MClose v].
Proof. unfold close_with. cbn. by rewrite modal_calls_resumeHotkeys. Qed.
Lemma modal_calls_minimize_shell k id cmd now h :
  modal_calls (minimize_shell k id cmd now h) = modal_calls h ++ [MDismiss (JStr "minimized")].
Proof. unfold minimize_shell. cbn. by rewrite modal_calls_resumeHotkeys. Qed.
Lemma modal_calls_focus_event e h : modal_calls (focus_event e h) = modal_calls h.
Proof. unfold focus_event. by case_match. Qed.
Lemma modal_calls_focus_modal_content b h : modal_calls (focus_modal_content b h) = modal_calls h.
Proof. unfold focus_modal_content. by case_match. Qed.
Lemma modal_calls_ngOnDestroy h : modal_calls (ngOnDestroy h) = modal_calls h.
Proof. unfold ngOnDestroy. cbn. apply modal_calls_resumeHotkeys. Qed.

#[export] Hint Rewrite modal_calls_resumeHotkeys modal_calls_pauseHotkeys modal_calls_close_with
  modal_calls_minimize_shell modal_calls_focus_event modal_calls_focus_modal_content modal_calls_ngOnDestroy : tlink_rw.

(** ** [ConfirmCommandDialogComponent] *)

Module ConfirmDialog.

Record confirm_dialog := ConfirmDialog {
  cd_shell : shell;
  command : string;
  dialogId : string;
  showRejectInput : bool;
  rejectMessage : string;
}.

Definition with_shell (f : shell → shell) (c : confirm_dialog) : confirm_dialog :=
  ConfirmDialog (f (cd_shell c)) (command c) (dialogId c) (showRejectInput c) (rejectMessage c).

(** The constructor: [dialogId] from [generateDialogId()]. *)
Definition create (cmd id : string) : confirm_dialog := ConfirmDialog shell_init cmd id false EmptyString.

(** The results the dialog closes its modal with. *)
Definition confirmed_result : json := JObj [("confirmed", JBool true)]%string.
Definition cancelled_result : json := JObj [("confirmed", JBool false)]%string.
Definition rejected_result (msg : string) : json :=
  JObj [("confirmed", JBool false); ("rejected", JBool true); ("rejectMessage", JStr msg)]%string.

(** The [ngAfterViewInit] callback: [pauseHotkeys()], then the focus. *)
Definition view_init_timer (found : bool) (c : confirm_dialog) : confirm_dialog :=
  with_shell (λ h, focus_modal_content found (pauseHotkeys (set_view_timer false h))) c.

(** [confirm()]. *)
Definition confirm (c : confirm_dialog) : confirm_dialog :=
  with_shell (close_with (Some confirmed_result)) c.

(** [cancel()]. *)
Definition cancel (c : confirm_dialog) : confirm_dialog :=
  with_shell (close_with (Some cancelled_result)) c.

(** [reject()]: a blank reason is refused with an alert. *)
Definition reject (c : confirm_dialog) : confirm_dialog :=
  if negb (str_truthy (trim (rejectMessage c))) then with_shell (alert reason_alert) c
  else with_shell (close_with (Some (rejected_result (rejectMessage c)))) c.

(** [showRejectForm()]: shows the form and schedules the focusing of its
    textarea. *)
Definition showRejectForm (c : confirm_dialog) : confirm_dialog :=
  ConfirmDialog (set_focus_timer true (cd_shell c)) (command c) (dialogId c) true (rejectMessage c).

(** The callback of [showRejectForm]: focus the textarea. *)
Definition focus_textarea (c : confirm_dialog) : confirm_dialog :=
  with_shell (λ h, focus ETextarea (set_focus_timer false h)) c.

(** [onEscapePressed()]: a first Escape only brings the focus to the
    modal. *)
Definition onEscapePressed (c : confirm_dialog) : confirm_dialog :=
  if bool_decide (activeElement (cd_shell c) ≠ EModal) then with_shell (focus EModal) c else cancel c.

(** [onEnterPressed(event)], the target being the focused element. *)
Definition onEnterPressed (c : confirm_dialog) : confirm_dialog :=
  if bool_decide (activeElement (cd_shell c) = ETextarea) then c
  else if showRejectInput c then (if str_truthy (trim (rejectMessage c)) then reject c else c)
  else confirm c.

(** [onRKeyPressed(event)]. *)
Definition onRKeyPressed (c : confirm_dialog) : confirm_dialog :=
  if bool_decide (activeElement (cd_shell c) ≠ ETextarea) && negb (showRejectInput c) then showRejectForm c else c.

(** [onTextareaKeyDown(event)]: Enter without Shift submits the
    rejection. *)
Definition onTextareaKeyDown (enter shift : bool) (c : confirm_dialog) : confirm_dialog :=
  if enter && negb shift then reject c else c.

(** [minimize()] at [Date.now() = now]. *)
Definition minimize (now : Z) (c : confirm_dialog) : confirm_dialog :=
  with_shell (minimize_shell ConfirmCommandDialog (dialogId c) (command c) now) c.

(** Typing into the textarea ([ngModel] bound to [rejectMessage]). *)
Definition type_reason (v : string) (c : confirm_dialog) : confirm_dialog :=
  ConfirmDialog (cd_shell c) (command c) (dialogId c) (showRejectInput c) v.

(** What the user and the template can do to the dialog. *)
Inductive cd_event :=
| CEscape | CEnter | CKeyR | CTextareaKey (enter shift : bool)
| CFocus (e : elem) | CType (v : string)
| CConfirm | CCancel | CReject | CShowRejectForm | CMinimize (now : Z).

Definition handle (ev : cd_event) (c : confirm_dialog) : confirm_dialog :=
  match ev with
  | CEscape => onEscapePressed c
  | CEnter => onEnterPressed c
  | CKeyR => onRKeyPressed c
  | CTextareaKey enter shift => onTextareaKeyDown enter shift c
  | CFocus e => with_shell (focus_event e) c
  | CType v => type_reason v c
  | CConfirm => confirm c
  | CCancel => cancel c
  | CReject => reject c
  | CShowRejectForm => showRejectForm c
  | CMinimize now => minimize now c
  end.

(** The life of a dialog: events while it lives, its timers whenever they
    are due (a [setTimeout] is not cleared by [ngOnDestroy]), and its
    destruction once its modal was closed or dismissed.  While the
    component lives its [.modal-content] is in the document; after, the
    callback finds one only if another modal is open. *)
Inductive cd_step : confirm_dialog → confirm_dialog → Prop :=
| CdEvent ev c : destroyed (cd_shell c) = false → cd_step c (handle ev c)
| CdViewTimer found c : view_timer (cd_shell c) = true →
    (destroyed (cd_shell c) = false → found = true) → cd_step c (view_init_timer found c)
| CdFocusTimer c : focus_timer (cd_shell c) = true → destroyed (cd_shell c) = false → cd_step c (focus_textarea c)
| CdDestroy c : modal_calls (cd_shell c) ≠ [] → destroyed (cd_shell c) = false → cd_step c (with_shell ngOnDestroy c).

End ConfirmDialog.

(** ** [CommandResultDialogComponent] *)

Module ResultDialog.

Record result_dialog := ResultDialog {
  rd_shell : shell;
  command : string;
  dialogId : string;
  isRejectMode : bool;
  userMessage : string;
  rejectionMessage : string;
}.

Definition with_shell (f : shell → shell) (r : result_dialog) : result_dialog :=
  ResultDialog (f (rd_shell r)) (command r) (dialogId r) (isRejectMode r) (userMessage r) (rejectionMessage r).

Definition create (cmd id : string) : result_dialog := ResultDialog shell_init cmd id false EmptyString EmptyString.

Definition accepted_result (msg : string) : json := JObj [("accepted", JBool true); ("userMessage", JStr msg)]%string.
Definition rejected_result (msg : string) : json := JObj [("accepted", JBool false); ("rejectionMessage", JStr msg)]%string.

(** The [ngAfterViewInit] callback: the focus, then [pauseHotkeys()]
    (the output textarea's height is layout, not modelled). *)
Definition view_init_timer (found : bool) (r : result_dialog) : result_dialog :=
  with_shell (λ h, pauseHotkeys (focus_modal_content found (set_view_timer false h))) r.

(** [toggleRejectMode()]: the message moves to [rejectionMessage] on the
    way in and back on the way out. *)
Definition toggleRejectMode (r : result_dialog) : result_dialog :=
  if isRejectMode r then ResultDialog (rd_shell r) (command r) (dialogId r) false (rejectionMessage r) EmptyString
  else ResultDialog (set_focus_timer true (rd_shell r)) (command r) (dialogId r) true EmptyString (userMessage r).

(** [accept()]. *)
Definition accept (r : result_dialog) : result_dialog :=
  if isRejectMode r then toggleRejectMode r
  else with_shell (close_with (Some (accepted_result (userMessage r)))) r.

(** [reject()]. *)
Definition reject (r : result_dialog) : result_dialog :=
  if negb (isRejectMode r) then toggleRejectMode r
  else if negb (str_truthy (trim (userMessage r))) then with_shell (alert reason_alert) r
  else with_shell (close_with (Some (rejected_result (userMessage r)))) r.

(** [cancel()]: [modal.close()] with no result. *)
Definition cancel (r : result_dialog) : result_dialog := with_shell (close_with None) r.

(** The callback of [toggleRejectMode]: focus the message textarea. *)
Definition focus_textarea (r : result_dialog) : result_dialog :=
  with_shell (λ h, focus ETextarea (set_focus_timer false h)) r.

(** [onEscapePressed()]. *)
Definition onEscapePressed (r : result_dialog) : result_dialog :=
  if bool_decide (activeElement (rd_shell r) ≠ EModal) then with_shell (focus EModal) r
  else if isRejectMode r then toggleRejectMode r else cancel r.

(** [onRPressed(event)]. *)
Definition onRPressed (r : result_dialog) : result_dialog :=
  if in_text_field (activeElement (rd_shell r)) then r else reject r.

(** [onEnterPressed(event)]. *)
Definition onEnterPressed (r : result_dialog) : result_dialog :=
  if in_text_field (activeElement (rd_shell r)) then r else accept r.

(** [onTextareaKeyDown(event)]. *)
Definition onTextareaKeyDown (enter shift : bool) (r : result_dialog) : result_dialog :=
  if enter && negb shift then (if isRejectMode r then reject r else accept r) else r.

(** [minimize()] at [Date.now() = now]. *)
Definition minimize (now : Z) (r : result_dialog) : result_dialog :=
  with_shell (minimize_shell CommandResultDialog (dialogId r) (command r) now) r.

(** Typing into the message textarea ([ngModel] bound to [userMessage]). *)
Definition type_message (v : string) (r : result_dialog) : result_dialog :=
  ResultDialog (rd_shell r) (command r) (dialogId r) (isRejectMode r) v (rejectionMessage r).

Inductive rd_event :=
| REscape | REnter | RKeyR | RTextareaKey (enter shift : bool)
| RFocus (e : elem) | RType (v : string)
| RAccept | RReject | RToggleRejectMode | RCancel | RMinimize (now : Z).

Definition handle (ev : rd_event) (r : result_dialog) : result_dialog :=
  match ev with
  | REscape => onEscapePressed r
  | REnter => onEnterPressed r
  | RKeyR => onRPressed r
  | RTextareaKey enter shift => onTextareaKeyDown enter shift r
  | RFocus e => with_shell (focus_event e) r
  | RType v => type_message v r
  | RAccept => accept r
  | RReject => reject r
  | RToggleRejectMode => toggleRejectMode r
  | RCancel => cancel r
  | RMinimize now => minimize now r
  end.

Inductive rd_step : result_dialog → result_dialog → Prop :=
| RdEvent ev r : destroyed (rd_shell r) = false → rd_step r (handle ev r)
| RdViewTimer found r : view_timer (rd_shell r) = true →
    (destroyed (rd_shell r) = false → found = true) → rd_step r (view_init_timer found r)
| RdFocusTimer r : focus_timer (rd_shell r) = true → destroyed (rd_shell r) = false → rd_step r (focus_textarea r)
| RdDestroy r : modal_calls (rd_shell r) ≠ [] → destroyed (rd_shell r) = false → rd_step r (with_shell ngOnDestroy r).

End ResultDialog.

(** ** Lemmas on the components *)

Lemma pauseHotkeys_view_timer h : view_timer (pauseHotkeys h) = view_timer h ∧ destroyed (pauseHotkeys h) = destroyed h.
Proof. unfold pauseHotkeys. by case_match. Qed.

(** The [ngAfterViewInit] callbacks of both components, in their order
    ([pauseHotkeys] first in the confirmation dialog, last in the result
    dialog). *)
Lemma view_init_shell_step found h : view_timer h = true →
  shell_step h (focus_modal_content found (pauseHotkeys (set_view_timer false h))) ∧
  shell_step h (pauseHotkeys (focus_modal_content found (set_view_timer false h))).
Proof.
  intros Hv. pose proof (focus_modal_content_le found (pauseHotkeys (set_view_timer false h))) as (H1&H2&_&H3).
  pose proof (focus_modal_content_le found (set_view_timer false h)) as (H4&H5&_&H6).
  pose proof (pauseHotkeys_view_timer (set_view_timer false h)) as [H7 H8].
  pose proof (pauseHotkeys_view_timer (focus_modal_content found (set_view_timer false h))) as [H9 H10].
  cbn in H4, H5, H7, H8. split; (apply SViewTimer; [done|congruence|congruence|]).
  - intros Hi. by apply H3, pauseHotkeys_inv.
  - intros Hi. by apply pauseHotkeys_inv, H6.
Qed.

Lemma focus_textarea_le h : shell_le h (focus ETextarea (set_focus_timer false h)).
Proof. eapply shell_le_trans; [apply set_focus_timer_le|apply focus_le]. Qed.

#[export] Hint Resolve focus_textarea_le : tlink.

(** An answer is appended by the operation that gives it. *)
Ltac answers_tac :=
  repeat (case_match || case_bool_decide); simplify_eq/=; autorewrite with tlink_rw;
  repeat match goal with H : negb _ = false |- _ => apply negb_false_iff in H end;
  try (apply Forall_app_2; [done|apply Forall_singleton]); auto.

Section Confirm.
Import ConfirmDialog.

Lemma cd_step_shell c c' : cd_step c c' → shell_step (cd_shell c) (cd_shell c').
Proof.
  intros Hs. destruct Hs as [ev c Hd|found c Hv _|c _ Hd|c _ Hd].
  - apply SHandler; [done|].
    destruct ev; cbn; unfold onEscapePressed, onEnterPressed, onRKeyPressed, onTextareaKeyDown, reject, confirm, cancel, minimize;
      repeat (case_match || case_bool_decide); cbn; eauto with tlink.
  - apply (view_init_shell_step found _ Hv).
  - apply SHandler; [done|apply focus_textarea_le].
  - by apply SDestroy.
Qed.

(** The answers of the confirmation dialog. *)
Definition confirm_answer (m : modal_call) : Prop :=
  m = MClose (Some confirmed_result) ∨ m = MClose (Some cancelled_result) ∨
  (∃ msg, str_truthy (trim msg) = true ∧ m = MClose (Some (rejected_result msg))) ∨ m = MDismiss (JStr "minimized").

Lemma cd_step_answers c c' : cd_step c c' →
  Forall confirm_answer (modal_calls (cd_shell c)) → Forall confirm_answer (modal_calls (cd_shell c')).
Proof.
  intros Hs Ha. destruct Hs as [ev c Hd|found c|c|c]; cbn; autorewrite with tlink_rw; [|done..].
  unfold confirm_answer in *.
  destruct ev; cbn; unfold onEscapePressed, onEnterPressed, onRKeyPressed, onTextareaKeyDown, reject, confirm, cancel, minimize;
    answers_tac; eauto 10 using ex_intro.
Qed.

End Confirm.

Section Result.
Import ResultDialog.

Lemma rd_step_shell r r' : rd_step r r' → shell_step (rd_shell r) (rd_shell r').
Proof.
  intros Hs. destruct Hs as [ev r Hd|found r Hv _|r _ Hd|r _ Hd].
  - apply SHandler; [done|].
    destruct ev; cbn; unfold onEscapePressed, onEnterPressed, onRPressed, onTextareaKeyDown, accept, reject,
      toggleRejectMode, cancel, minimize; repeat (case_match || case_bool_decide); cbn; eauto with tlink.
  - apply (view_init_shell_step found _ Hv).
  - apply SHandler; [done|apply focus_textarea_le].
  - by apply SDestroy.
Qed.

(** The answers of the result dialog. *)
Definition result_answer (m : modal_call) : Prop :=
  (∃ msg, m = MClose (Some (accepted_result msg))) ∨ m = MClose None ∨
  (∃ msg, str_truthy (trim msg) = true ∧ m = MClose (Some (rejected_result msg))) ∨ m = MDismiss (JStr "minimized").

Lemma rd_step_answers r r' : rd_step r r' →
  Forall result_answer (modal_calls (rd_shell r)) → Forall result_answer (modal_calls (rd_shell r')).
Proof.
  intros Hs Ha. destruct Hs as [ev r Hd|found r|r|r]; cbn; autorewrite with tlink_rw; [|done..].
  unfold result_answer in *.
  destruct ev; cbn; unfold onEscapePressed, onEnterPressed, onRPressed, onTextareaKeyDown, accept, reject,
    toggleRejectMode, cancel, minimize; answers_tac; eauto 10 using ex_intro.
Qed.

End Result.

(** Both components keep the hotkeys balanced, and a component destroyed
    after its callback has run has them enabled. *)
Lemma shell_restored h h' : hk_inv h → rtc shell_step h h' → view_timer h = false → destroyed h = false →
  destroyed h' = true → hotkeysPaused h' = false ∧ hk_level (hotkeys h') = 0.
Proof.
  intros Hi Hr Hv Hd Hd'. destruct (shell_rtc_restored h h' Hr Hv (λ H, ltac:(congruence))) as [_ Hp].
  specialize (Hp Hd'). split; [done|]. pose proof (shell_rtc_inv h h' Hr Hi) as Hi'. unfold hk_inv in Hi'. by rewrite Hp in Hi'.
Qed.

Lemma component_restored {D} (sh : D → shell) (R : relation D) d0 d d' :
  (∀ d1 d2, R d1 d2 → shell_step (sh d1) (sh d2)) → hk_inv (sh d0) → rtc R d0 d →
  view_timer (sh d) = false → destroyed (sh d) = false → rtc R d d' → destroyed (sh d') = true →
  hotkeysPaused (sh d') = false ∧ hk_level (hotkeys (sh d')) = 0.
Proof.
  intros HR Hi H0 Hv Hd Hr. apply (shell_restored (sh d)); [|by apply (shell_rtc sh R)|done|done].
  apply (shell_rtc_inv (sh d0)); [by apply (shell_rtc sh R)|exact Hi].
Qed.

(** ** Properties *)

(** C10: the hotkeys come back.  In every run of either dialog in which the
    [ngAfterViewInit] callback has run while the dialog was open, the
    dialog, once destroyed, has called [HotkeysService.enable] as often
    as [disable] and no longer holds the hotkeys paused, however the user
    answered, minimized or left it. *)
Theorem hotkeys_restored cmd id :
  (∀ c c', rtc ConfirmDialog.cd_step (ConfirmDialog.create cmd id) c →
     view_timer (ConfirmDialog.cd_shell c) = false → destroyed (ConfirmDialog.cd_shell c) = false →
     rtc ConfirmDialog.cd_step c c' → destroyed (ConfirmDialog.cd_shell c') = true →
     hotkeysPaused (ConfirmDialog.cd_shell c') = false ∧ hk_level (hotkeys (ConfirmDialog.cd_shell c')) = 0) ∧
  (∀ r r', rtc ResultDialog.rd_step (ResultDialog.create cmd id) r →
     view_timer (ResultDialog.rd_shell r) = false → destroyed (ResultDialog.rd_shell r) = false →
     rtc ResultDialog.rd_step r r' → destroyed (ResultDialog.rd_shell r') = true →
     hotkeysPaused (ResultDialog.rd_shell r') = false ∧ hk_level (hotkeys (ResultDialog.rd_shell r')) = 0).
Proof.
  split; intros d d' H0 Hv Hd Hr Hd'.
  - exact (component_restored _ _ (ConfirmDialog.create cmd id) d d' cd_step_shell shell_init_inv H0 Hv Hd Hr Hd').
  - exact (component_restored _ _ (ResultDialog.create cmd id) d d' rd_step_shell shell_init_inv H0 Hv Hd Hr Hd').
Qed.

(** C9: the hotkeys can stay disabled for good.  The [setTimeout] of
    [ngAfterViewInit] is not cleared by [ngOnDestroy]: when the user
    answers either dialog within its first 100 ms, the callback runs
    after the component was destroyed and calls [pauseHotkeys()], and no
    code of the dialog ever calls [enable] again: the application's
    hotkeys stay disabled. *)
Theorem hotkeys_left_disabled cmd id :
  (∃ c, rtc ConfirmDialog.cd_step (ConfirmDialog.create cmd id) c ∧ destroyed (ConfirmDialog.cd_shell c) = true ∧
     hotkeysPaused (ConfirmDialog.cd_shell c) = true ∧ hk_level (hotkeys (ConfirmDialog.cd_shell c)) = 1 ∧
     ∀ c', rtc ConfirmDialog.cd_step c c' → c' = c) ∧
  (∃ r, rtc ResultDialog.rd_step (ResultDialog.create cmd id) r ∧ destroyed (ResultDialog.rd_shell r) = true ∧
     hotkeysPaused (ResultDialog.rd_shell r) = true ∧ hk_level (hotkeys (ResultDialog.rd_shell r)) = 1 ∧
     ∀ r', rtc ResultDialog.rd_step r r' → r' = r).
Proof.
  split; eexists; split_and!.
  - eapply rtc_l; [apply (ConfirmDialog.CdEvent ConfirmDialog.CConfirm); done|].
    eapply rtc_l; [apply ConfirmDialog.CdDestroy; done|].
    eapply rtc_once, (ConfirmDialog.CdViewTimer false); [done|discriminate].
  - done.
  - done.
  - done.
  - intros c'. apply (shell_rtc_frozen _ _ _ _ cd_step_shell); done.
  - eapply rtc_l; [apply (ResultDialog.RdEvent ResultDialog.RAccept); done|].
    eapply rtc_l; [apply ResultDialog.RdDestroy; done|].
    eapply rtc_once, (ResultDialog.RdViewTimer false); [done|discriminate].
  - done.
  - done.
  - done.
  - intros r'. apply (shell_rtc_frozen _ _ _ _ rd_step_shell); done.
Qed.

(** what the dialogs answer.  In every run, each call a confirmation
    dialog makes on its modal is [close({confirmed: true})],
    [close({confirmed: false})], [close] with a rejection whose reason is
    not blank, or [dismiss('minimized')]; each call of a result dialog is
    [close({accepted: true, userMessage})], [close()], [close] with a
    rejection whose reason is not blank, or [dismiss('minimized')]. *)
Theorem dialog_answers cmd id :
  (∀ c, rtc ConfirmDialog.cd_step (ConfirmDialog.create cmd id) c → Forall confirm_answer (modal_calls (ConfirmDialog.cd_shell c))) ∧
  (∀ r, rtc ResultDialog.rd_step (ResultDialog.create cmd id) r → Forall result_answer (modal_calls (ResultDialog.rd_shell r))).
Proof.
  split; intros d.
  - apply (rtc_preserve _ (λ x, Forall _ (modal_calls (ConfirmDialog.cd_shell x)))); [apply cd_step_answers|constructor].
  - apply (rtc_preserve _ (λ x, Forall _ (modal_calls (ResultDialog.rd_shell x)))); [apply rd_step_answers|constructor].
Qed.

(** rejecting from the keyboard.  With the focus on the modal, R opens
    the rejection form (and, 100 ms later, focuses its textarea); typing a
    reason that is not blank and pressing Enter closes the modal with the
    rejection and that reason, and resumes the hotkeys.  In the
    confirmation dialog the answer is
    [{confirmed: false, rejected: true, rejectMessage}], in the result
    dialog [{accepted: false, rejectionMessage}]. *)
Theorem keyboard_reject c r m :
  activeElement (ConfirmDialog.cd_shell c) = EModal → ConfirmDialog.showRejectInput c = false →
  activeElement (ResultDialog.rd_shell r) = EModal → ResultDialog.isRejectMode r = false →
  str_truthy (trim m) = true →
  let c' := ConfirmDialog.handle (ConfirmDialog.CTextareaKey true false)
              (ConfirmDialog.handle (ConfirmDialog.CType m) (ConfirmDialog.focus_textarea (ConfirmDialog.handle ConfirmDialog.CKeyR c))) in
  let r' := ResultDialog.handle (ResultDialog.RTextareaKey true false)
              (ResultDialog.handle (ResultDialog.RType m) (ResultDialog.focus_textarea (ResultDialog.handle ResultDialog.RKeyR r))) in
  modal_calls (ConfirmDialog.cd_shell c') = modal_calls (ConfirmDialog.cd_shell c) ++ [MClose (Some (ConfirmDialog.rejected_result m))] ∧
  hotkeysPaused (ConfirmDialog.cd_shell c') = false ∧
  modal_calls (ResultDialog.rd_shell r') = modal_calls (ResultDialog.rd_shell r) ++ [MClose (Some (ResultDialog.rejected_result m))] ∧
  hotkeysPaused (ResultDialog.rd_shell r') = false.
Proof.
  intros Hc Hsc Hr Hsr Hm c' r'. subst c' r'.
  destruct c as [hc cmd id [] msg], r as [hr cmd' id' [] um rm]; cbn -[trim] in *; try discriminate.
  unfold ConfirmDialog.onRKeyPressed, ResultDialog.onRPressed. cbn -[trim]. rewrite Hc, Hr. cbn -[trim].
  unfold ConfirmDialog.reject, ResultDialog.reject. cbn -[trim]. rewrite Hm. cbn -[trim]. autorewrite with tlink_rw.
  rewrite bool_decide_true by done. cbn. by rewrite !resumeHotkeys_paused.
Qed.

(** ** Concrete runs *)

Definition demo_c1 : ConfirmDialog.confirm_dialog := ConfirmDialog.view_init_timer true (ConfirmDialog.create "ls" "d1").
Definition demo_c3 : ConfirmDialog.confirm_dialog := ConfirmDialog.with_shell ngOnDestroy (ConfirmDialog.confirm demo_c1).
Definition demo_r1 : ResultDialog.result_dialog := ResultDialog.view_init_timer true (ResultDialog.create "ls" "d2").
Definition demo_r3 : ResultDialog.result_dialog := ResultDialog.with_shell ngOnDestroy (ResultDialog.accept demo_r1).

Lemma demo_c_runs : rtc ConfirmDialog.cd_step (ConfirmDialog.create "ls" "d1") demo_c1 ∧ rtc ConfirmDialog.cd_step demo_c1 demo_c3.
Proof.
  split; [apply rtc_once, ConfirmDialog.CdViewTimer; done|].
  eapply rtc_l; [apply (ConfirmDialog.CdEvent ConfirmDialog.CConfirm); done|]. apply rtc_once, ConfirmDialog.CdDestroy; done.
Qed.

Lemma demo_r_runs : rtc ResultDialog.rd_step (ResultDialog.create "ls" "d2") demo_r1 ∧ rtc ResultDialog.rd_step demo_r1 demo_r3.
Proof.
  split; [apply rtc_once, ResultDialog.RdViewTimer; done|].
  eapply rtc_l; [apply (ResultDialog.RdEvent ResultDialog.RAccept); done|]. apply rtc_once, ResultDialog.RdDestroy; done.
Qed.

Lemma hotkeys_restored_witness :
  (hotkeysPaused (ConfirmDialog.cd_shell demo_c3) = false ∧ hk_level (hotkeys (ConfirmDialog.cd_shell demo_c3)) = 0) ∧
  (hotkeysPaused (ResultDialog.rd_shell demo_r3) = false ∧ hk_level (hotkeys (ResultDialog.rd_shell demo_r3)) = 0).
Proof.
  split; [apply (proj1 (hotkeys_restored "ls" "d1") demo_c1 demo_c3)|apply (proj2 (hotkeys_restored "ls" "d2") demo_r1 demo_r3)];
    first [apply demo_c_runs|apply demo_r_runs|reflexivity].
Defined.

Lemma dialog_answers_witness :
  Forall confirm_answer (modal_calls (ConfirmDialog.cd_shell demo_c3)) ∧ Forall result_answer (modal_calls (ResultDialog.rd_shell demo_r3)).
Proof.
  split; [apply (proj1 (dialog_answers "ls" "d1"))|apply (proj2 (dialog_answers "ls" "d2"))];
    [transitivity demo_c1; apply demo_c_runs|transitivity demo_r1; apply demo_r_runs].
Defined.

Lemma keyboard_reject_witness :
  let c' := ConfirmDialog.handle (ConfirmDialog.CTextareaKey true false)
              (ConfirmDialog.handle (ConfirmDialog.CType "wrong directory") (ConfirmDialog.focus_textarea (ConfirmDialog.handle ConfirmDialog.CKeyR demo_c1))) in
  let r' := ResultDialog.handle (ResultDialog.RTextareaKey true false)
              (ResultDialog.handle (ResultDialog.RType "wrong directory") (ResultDialog.focus_textarea (ResultDialog.handle ResultDialog.RKeyR demo_r1))) in
  modal_calls (ConfirmDialog.cd_shell c') = modal_calls (ConfirmDialog.cd_shell demo_c1) ++ [MClose (Some (ConfirmDialog.rejected_result "wrong directory"))] ∧
  hotkeysPaused (ConfirmDialog.cd_shell c') = false ∧
  modal_calls (ResultDialog.rd_shell r') = modal_calls (ResultDialog.rd_shell demo_r1) ++ [MClose (Some (ResultDialog.rejected_result "wrong directory"))] ∧
  hotkeysPaused (ResultDialog.rd_shell r') = false.
Proof. apply keyboard_reject; vm_compute; reflexivity. Defined.
