(* ===== verification/SharingDecorator.v ===== *)
(** * The terminal side of session sharing

    [SessionSharingDecorator] ([src/unnamed/part_010], lines 1-86) is the
    terminal decorator that connects a shared terminal to the renderer's
    [SessionSharingService] (of [tlink-core], not in the repository): when
    a terminal is attached and its session is already shared, it records
    the terminal's session id in [sharedTerminals] and subscribes to the
    terminal's output (each chunk is sent to [broadcastOutput] of the
    session) and to its [closed$] and [destroyed$] events (each calls
    [stopSharing]).  [detach] forgets the terminal and, through
    [TerminalDecorator.detach], ends the subscriptions made with
    [subscribeUntilDetached].

    The service is the interface [SessionSharing] below: the operations
    the decorator and the context menus ([ContextMenus.v]) call, on a
    state of the service's own; [SessionSharingLaws] states what the
    menus rely on.  Terminals are numbered; a terminal is its number and
    whether it has a [session].  The decorator's state is its
    [sharedTerminals] map and the list of live subscriptions in the order
    they were made.  The logger calls are not modelled. *)

From S2P Require Import Prelude JsString JsMap ServerIface Relay.
From Stdlib Require Import String.

Local Open Scope Z_scope.

(** ** The service interface *)

(** What [getSharedSession(terminal)] returns. *)
Record shared_info := SharedInfo {
  si_id : string;
  si_mode : mode;
  si_viewers : nat;
  si_expiresAt : option Z;
}.

(** The methods of [SessionSharingService] the terminal plugin calls;
    the [Promise]s they return are awaited, so each is a function of the
    service state. *)
Class SessionSharing (S : Type) := {
  isSessionShared : S → nat → bool;
  getSharedSession : S → nat → option shared_info;
  shareSession : nat → mode → S → S * option string;
  copyShareableLink : nat → S → S * bool;
  stopSharing : nat → S → S;
  broadcastOutput : string → bytes → S → S;
}.

(** What the context menus rely on: a terminal is shared exactly when it
    has a shared session, a successful [shareSession] shares the terminal
    in the requested mode, copying a link changes no sharing, and
    [stopSharing] ends the terminal's sharing. *)
Class SessionSharingLaws (S : Type) `{!SessionSharing S} := {
  shared_iff s t : isSessionShared s t = true ↔ is_Some (getSharedSession s t);
  share_some s t m s' u : shareSession t m s = (s', Some u) → ∃ si, getSharedSession s' t = Some si ∧ si_mode si = m;
  copy_keeps s t t' : getSharedSession (copyShareableLink t s).1 t' = getSharedSession s t';
  stop_none s t : getSharedSession (stopSharing t s) t = None;
}.

(** ** The decorator *)

Record terminal := Terminal { term_id : nat; term_has_session : bool }.

(** A subscription made with [subscribeUntilDetached]: to the output
    (for the session [sid] read at attach time), to [closed$] or to
    [destroyed$]. *)
Inductive subscription := SubOutput (sid : string) | SubClosed | SubDestroyed.

#[export] Instance subscription_eq_dec : EqDecision subscription.
Proof. solve_decision. Defined.

Record decorator := Decorator {
  sharedTerminals : js_map nat string;
  subscriptions : list (nat * subscription);
}.

Definition decorator_init : decorator := Decorator [] [].

Section Decorator.
Context {Svc : Type} `{!SessionSharing Svc}.

(** [attachToSharedSession(terminal)]. *)
Definition attachToSharedSession (svc : Svc) (t : terminal) (d : decorator) : decorator :=
  match getSharedSession svc (term_id t) with
  | None => d
  | Some si =>
      if negb (term_has_session t) then d
      else if map_has (term_id t) (sharedTerminals d) then d
      else Decorator (map_set (term_id t) (si_id si) (sharedTerminals d))
             (subscriptions d ++ [(term_id t, SubOutput (si_id si)); (term_id t, SubClosed); (term_id t, SubDestroyed)])
  end.

(** [attach(terminal)]. *)
Definition attach (svc : Svc) (t : terminal) (d : decorator) : decorator :=
  if isSessionShared svc (term_id t) then attachToSharedSession svc t d else d.

(** [detachFromSharedSession(terminal)]. *)
Definition detachFromSharedSession (t : nat) (d : decorator) : decorator :=
  if negb (map_has t (sharedTerminals d)) then d
  else Decorator (map_delete t (sharedTerminals d)) (subscriptions d).

(** [detach(terminal)]: then [super.detach], which ends the terminal's
    subscriptions. *)
Definition detach (t : nat) (d : decorator) : decorator :=
  let d := detachFromSharedSession t d in
  Decorator (sharedTerminals d) (filter (λ ts, ts.1 ≠ t) (subscriptions d)).

(** The subscribers of a terminal event, in subscription order. *)
Definition on_output (t : nat) (data : bytes) (svc : Svc) (ts : nat * subscription) : Svc :=
  match ts with
  | (t', SubOutput sid) => if bool_decide (t' = t) then broadcastOutput sid data svc else svc
  | _ => svc
  end.

Definition on_end (t : nat) (k : subscription) (svc : Svc) (ts : nat * subscription) : Svc :=
  if bool_decide (ts = (t, k)) then stopSharing t svc else svc.

(** The terminal [t] emits [data] on [binaryOutput$]. *)
Definition terminal_output (t : nat) (data : bytes) (d : decorator) (svc : Svc) : Svc :=
  foldl (on_output t data) svc (subscriptions d).

(** The session of [t] emits [closed$] / [destroyed$]. *)
Definition terminal_closed (t : nat) (d : decorator) (svc : Svc) : Svc :=
  foldl (on_end t SubClosed) svc (subscriptions d).
Definition terminal_destroyed (t : nat) (d : decorator) (svc : Svc) : Svc :=
  foldl (on_end t SubDestroyed) svc (subscriptions d).

(** The decorator's calls, as the terminal container makes them. *)
Inductive dec_op := OAttach (t : terminal) | ODetach (t : nat).

Definition dec_apply (svc : Svc) (d : decorator) (o : dec_op) : decorator :=
  match o with OAttach t => attach svc t d | ODetach t => detach t d end.

End Decorator.

(** ** Well-formedness *)

(** The subscriptions of a terminal, in order. *)
Definition kind_subs (t : nat) (d : decorator) : list subscription :=
  snd <$> filter (λ ts, ts.1 = t) (subscriptions d).

(** The subscriptions [attachToSharedSession] makes for a session. *)
Definition session_subs (sid : string) : list subscription := [SubOutput sid; SubClosed; SubDestroyed].

(** Every terminal in [sharedTerminals] has exactly the three
    subscriptions made for the session recorded for it, the other
    terminals none, and no terminal is recorded twice. *)
Definition dec_wf (d : decorator) : Prop :=
  NoDup (sharedTerminals d).*1 ∧
  ∀ t, kind_subs t d = match map_get t (sharedTerminals d) with Some sid => session_subs sid | None => [] end.

(** ** Lemmas *)

Lemma dec_init_wf : dec_wf decorator_init.
Proof. split; [constructor|done]. Qed.

Lemma kind_subs_app t m l : snd <$> filter (λ ts : nat * subscription, ts.1 = t) (m ++ l) =
  (snd <$> filter (λ ts : nat * subscription, ts.1 = t) m) ++ (snd <$> filter (λ ts : nat * subscription, ts.1 = t) l).
Proof. by rewrite filter_app, fmap_app. Qed.

Lemma kind_subs_new t t' sid :
  snd <$> filter (λ ts : nat * subscription, ts.1 = t) [(t', SubOutput sid); (t', SubClosed); (t', SubDestroyed)] =
  if decide (t' = t) then session_subs sid else [].
Proof. unfold session_subs. cbn. repeat case_decide; simplify_eq/=; done. Qed.

Lemma kind_subs_filter t t' l : snd <$> filter (λ ts : nat * subscription, ts.1 = t) (filter (λ ts, ts.1 ≠ t') l) =
  if decide (t = t') then [] else snd <$> filter (λ ts : nat * subscription, ts.1 = t) l.
Proof.
  rewrite list_filter_filter. case_decide as Ht.
  - subst. rewrite filter_none; [done|]. apply Forall_forall. intros ? _ [? ?]. done.
  - f_equal. apply list_filter_iff. intros [a b]; cbn. naive_solver.
Qed.

Section Lemmas.
Context {Svc : Type} `{!SessionSharing Svc}.

Lemma dec_attach_wf svc t d : dec_wf d → dec_wf (attach svc t d).
Proof.
  intros [Hnd Hk]. unfold attach, attachToSharedSession.
  destruct (isSessionShared svc (term_id t)), (getSharedSession svc (term_id t)) as [si|], (term_has_session t); cbn; try done.
  destruct (map_has _ _) eqn:Hh; [done|]. unfold map_has in Hh. apply bool_decide_eq_false in Hh.
  split; cbn [sharedTerminals subscriptions]; [by apply map_set_nodup|]. intros t'. unfold kind_subs.
  cbn [sharedTerminals subscriptions]. rewrite kind_subs_app, kind_subs_new.
  fold (kind_subs t' d). rewrite Hk, map_set_keys, map_get_snoc by done.
  destruct (decide (term_id t = t')) as [<-|]; rewrite ?decide_True, ?decide_False by done; [|by rewrite app_nil_r].
  rewrite (proj2 (map_get_None _ _) Hh). done.
Qed.

Lemma dec_detach_wf t d : dec_wf d → dec_wf (detach t d).
Proof.
  intros [Hnd Hk]. unfold detach, detachFromSharedSession.
  destruct (negb (map_has t _)) eqn:Hh; cbn; (split; [first [done|by apply map_delete_nodup]|]); intros t';
    unfold kind_subs; cbn [sharedTerminals subscriptions]; rewrite kind_subs_filter; fold (kind_subs t' d); rewrite Hk.
  - apply negb_true_iff in Hh. unfold map_has in Hh. apply bool_decide_eq_false in Hh.
    case_decide; [subst; by rewrite (proj2 (map_get_None _ _) Hh)|done].
  - case_decide; [subst; by rewrite map_get_delete_same|by rewrite map_get_delete].
Qed.

(** A handler that ignores the subscriptions of other terminals sees
    exactly the terminal's subscriptions, in order. *)
Lemma foldl_kind_subs {A} (f : A → nat * subscription → A) t d a :
  (∀ a t' k, t' ≠ t → f a (t', k) = a) →
  foldl f a (subscriptions d) = foldl (λ a k, f a (t, k)) a (kind_subs t d).
Proof.
  intros Hf. unfold kind_subs. revert a. induction (subscriptions d) as [|[t' k] l IH]; intros a; [done|].
  rewrite filter_cons. cbn [foldl]. case_decide as Ht; cbn in Ht; cbn [fmap list_fmap foldl]; rewrite <-IH; [by subst|].
  by rewrite Hf.
Qed.

Lemma terminal_output_subs t data d svc :
  terminal_output t data d svc = foldl (λ s ts, on_output t data s ts) svc ((λ k, (t, k)) <$> kind_subs t d).
Proof.
  unfold terminal_output. rewrite (foldl_kind_subs _ t); [|intros a t' [] Ht; cbn; by rewrite ?bool_decide_false].
  generalize (kind_subs t d). intros l. revert svc. induction l; intros; [done|]. cbn. apply IHl.
Qed.

Lemma terminal_end_subs t k d svc :
  foldl (on_end t k) svc (subscriptions d) = foldl (λ s ts, on_end t k s ts) svc ((λ k', (t, k')) <$> kind_subs t d).
Proof.
  rewrite (foldl_kind_subs _ t); [|intros a t' k' Ht; unfold on_end; rewrite bool_decide_false; congruence].
  generalize (kind_subs t d). intros l. revert svc. induction l; intros; [done|]. cbn. apply IHl.
Qed.

End Lemmas.


(** ** Properties *)

Section Properties.
Context {Svc : Type} `{!SessionSharing Svc}.

(** C11: the decorator stays well formed.  Whatever sequence of [attach]
    and [detach] calls the terminals make, whatever the service answers
    at each [attach], every terminal in [sharedTerminals] is recorded
    once and has exactly one output, one [closed$] and one [destroyed$]
    subscription, for the session recorded for it, and the other
    terminals have none. *)
Theorem decorator_wf (run : list (Svc * dec_op)) :
  dec_wf (foldl (λ d so, dec_apply so.1 d so.2) decorator_init run).
Proof.
  apply foldl_preserve; [apply dec_init_wf|]. intros d [svc [t|t]] _ Hd; cbn; [by apply dec_attach_wf|by apply dec_detach_wf].
Qed.

(** C12: a shared terminal's output is broadcast once.  In a well-formed
    decorator, a chunk of output of a terminal recorded for session
    [sid] is passed to [broadcastOutput(sid, data)] exactly once, and its
    [closed$] and [destroyed$] events call [stopSharing] once each; a
    terminal not recorded causes no call. *)
Theorem output_broadcast_once d t data svc :
  dec_wf d →
  terminal_output t data d svc = match map_get t (sharedTerminals d) with Some sid => broadcastOutput sid data svc | None => svc end ∧
  terminal_closed t d svc = (if map_has t (sharedTerminals d) then stopSharing t svc else svc) ∧
  terminal_destroyed t d svc = (if map_has t (sharedTerminals d) then stopSharing t svc else svc).
Proof.
  intros [_ Hk]. unfold terminal_closed, terminal_destroyed.
  rewrite terminal_output_subs, !terminal_end_subs, Hk, map_has_get.
  destruct (map_get t _) as [sid|]; cbn; unfold on_end; split_and!; repeat case_bool_decide; simplify_eq/=; done.
Qed.

(** C13: a terminal shared after it was attached is not broadcast.  The
    decorator subscribes only in [attach]; the context menu's "Share
    session" calls the service alone (part_010 lines 29-31 leave this
    open).  When a terminal is attached while not shared, its later
    output reaches no [broadcastOutput], whatever the service's state
    then, until it is attached again. *)
Theorem late_share_not_broadcast d svc t :
  dec_wf d → map_get (term_id t) (sharedTerminals d) = None → isSessionShared svc (term_id t) = false →
  ∀ svc' data, terminal_output (term_id t) data (attach svc t d) svc' = svc'.
Proof.
  intros [_ Hk] Hn Hs svc' data. unfold attach. rewrite Hs, terminal_output_subs, Hk, Hn. done.
Qed.

End Properties.

(** ** A service satisfying the interface

    A small implementation of [SessionSharing]: the shared terminals with
    their session, the chunks broadcast, in order.  It shows that the laws
    can be met and gives the concrete runs below a service to run on. *)

Record demo_sharing := DemoSharing { ds_shared : js_map nat shared_info; ds_sent : list (string * bytes) }.

#[export] Instance demo_sharing_ops : SessionSharing demo_sharing := {|
  isSessionShared s t := map_has t (ds_shared s);
  getSharedSession s t := map_get t (ds_shared s);
  shareSession t m s :=
    let si := SharedInfo ("s" +:+ z_to_string (Z.of_nat t)) m 0 None in
    (DemoSharing (map_set t si (ds_shared s)) (ds_sent s), Some ("http://localhost/" +:+ si_id si));
  copyShareableLink t s := (s, map_has t (ds_shared s));
  stopSharing t s := DemoSharing (map_delete t (ds_shared s)) (ds_sent s);
  broadcastOutput sid data s := DemoSharing (ds_shared s) (ds_sent s ++ [(sid, data)]);
|}.

#[export] Instance demo_sharing_laws : SessionSharingLaws demo_sharing.
Proof.
  split.
  - intros s t. cbn. rewrite map_has_get. apply bool_decide_eq_true.
  - intros s t m s' u [= <- _]. cbn [getSharedSession demo_sharing_ops ds_shared]. rewrite map_get_set, decide_True by done. by eexists.
  - done.
  - intros s t. apply map_get_delete_same.
Qed.

Definition demo_svc0 : demo_sharing := DemoSharing [] [].
Definition demo_svc1 : demo_sharing := (shareSession 1%nat ReadOnly demo_svc0).1.
Definition demo_term : terminal := Terminal 1%nat true.
Definition demo_dec1 : decorator := attach demo_svc1 demo_term decorator_init.

Lemma output_broadcast_once_witness :
  terminal_output 1%nat "ls" demo_dec1 demo_svc1 =
    match map_get 1%nat (sharedTerminals demo_dec1) with Some sid => broadcastOutput sid "ls" demo_svc1 | None => demo_svc1 end ∧
  terminal_closed 1%nat demo_dec1 demo_svc1 = (if map_has 1%nat (sharedTerminals demo_dec1) then stopSharing 1%nat demo_svc1 else demo_svc1) ∧
  terminal_destroyed 1%nat demo_dec1 demo_svc1 = (if map_has 1%nat (sharedTerminals demo_dec1) then stopSharing 1%nat demo_svc1 else demo_svc1).
Proof. apply output_broadcast_once, dec_attach_wf, dec_init_wf. Defined.

(** Terminal 1 is attached before it is shared: once the service shares
    it ([demo_svc1]), its output still reaches no [broadcastOutput]. *)
Lemma late_share_not_broadcast_witness :
  terminal_output 1%nat "ls" (attach demo_svc0 demo_term decorator_init) demo_svc1 = demo_svc1.
Proof. apply (late_share_not_broadcast decorator_init demo_svc0 demo_term); [apply dec_init_wf|reflexivity|reflexivity]. Defined.
