(* ===== verification/ContextMenus.v ===== *)
(** * The terminal tab's context menus

    Six [TabContextMenuItemProvider]s of the terminal plugin
    ([src/unnamed/part_010], lines 87-517) build the items of a tab's
    context menu: copy and paste, the toolbar/path/focus items,
    disconnect and reconnect, the items of legacy providers, session
    sharing, and the session-log and "Save as profile" items.

    [getItems] of each provider is a function from what it reads of the
    tab ([tab_info]) to the list of items, in order; an item is its label
    (the key passed to [translate.instant], translation is not modelled),
    its checkbox and [enabled] flags, and its [click] action.  A click is
    a function of the menu's environment ([menu_env]): the sharing
    service ([SharingDecorator.v]'s interface), [config.store.profiles]
    and the tab's own profile object (the code assigns the same settings
    object to both), the [config.save()] calls, the notifications, the
    share dialogs opened and the calls made on the tab and the platform.
    What the user or the platform answers on the way (the mode picked in
    the selector, the directory picked, the name typed, the working
    directory the shell reports, [Date.now()], [uuidv4()]) are arguments;
    [slugify] is a Section variable. *)

From S2P Require Import Prelude JsString Json ServerIface Relay SharingDecorator.
From Stdlib Require Import String.

Local Open Scope Z_scope.

(** ** Profiles *)

(** A profile's [sessionLog] settings. *)
Record session_log := SessionLog {
  sl_enabled : option bool;
  sl_directory : option string;
  sl_filenameTemplate : option string;
  sl_append : option bool;
}.

(** The fields of a profile the menus read or write. *)
Record profile := Profile {
  p_id : string;
  p_type : string;
  p_name : string;
  p_group : option string;
  p_icon : option string;
  p_color : option string;
  p_disableDynamicTitle : option bool;
  p_behaviorOnSessionEnd : option string;
  p_options : list (string * json);
  p_sessionLog : option session_log;
}.

Definition set_sessionLog (l : option session_log) (p : profile) : profile :=
  Profile (p_id p) (p_type p) (p_name p) (p_group p) (p_icon p) (p_color p) (p_disableDynamicTitle p)
    (p_behaviorOnSessionEnd p) (p_options p) l.

(** [profile.options.cwd], a string when set. *)
Definition options_cwd (p : profile) : option string :=
  match assoc_get "cwd" (p_options p) with Some (JStr s) => Some s | _ => None end.

(** ** Tabs and items *)

(** What the providers read of the tab. *)
Record tab_info := TabInfo {
  ti_terminal : bool;            (* instanceof BaseTerminalTabComponent *)
  ti_connectable : bool;         (* instanceof ConnectableTerminalTabComponent *)
  ti_id : nat;                   (* the terminal, for the sharing service *)
  ti_enableToolbar : bool;
  ti_pinToolbar : bool;
  ti_supportsCwd : option bool;  (* tab.session?.supportsWorkingDirectory() *)
  ti_splitTabs : option nat;     (* tab.parent instanceof SplitTabComponent: getAllTabs().length *)
  ti_profile : profile;
}.

(** What a click does. *)
Inductive action :=
| ACopy | APaste | AShowToolbar | ACopyCurrentPath | AFocusAllTabs | AFocusAllPanes
| ADisconnect | AReconnect | AExternal (n : nat)
| ACopyShareLink | AViewSharingDetails (si : shared_info) | AStopSharing | AShareSession
| ASetLogDirectory (hasDirectory : bool) | AUseCwdForLogs | ASaveAsProfile.

Record menu_item := MenuItem {
  mi_label : string;
  mi_checked : option bool;   (* type: 'checkbox', checked *)
  mi_enabled : option bool;
  mi_action : action;
}.

Definition item (label : string) (a : action) : menu_item := MenuItem label None None a.

(** ** [getItems] of the providers *)

(** [CopyPasteContextMenu.getItems(tab, tabHeader)]. *)
Definition copyPasteItems (tab : tab_info) (tabHeader : bool) : list menu_item :=
  if tabHeader then []
  else if ti_terminal tab then [item "Copy" ACopy; item "Paste" APaste] else [].

(** [MiscContextMenu.getItems(tab)]. *)
Definition miscItems (tab : tab_info) : list menu_item :=
  (if ti_terminal tab && ti_enableToolbar tab && negb (ti_pinToolbar tab) then [item "Show toolbar" AShowToolbar] else []) ++
  (if ti_terminal tab && default false (ti_supportsCwd tab) then [item "Copy current path" ACopyCurrentPath] else []) ++
  [item "Focus all tabs" AFocusAllTabs] ++
  (match ti_splitTabs tab with Some n => if bool_decide (1 < n)%nat then [item "Focus all panes" AFocusAllPanes] else [] | None => [] end).

(** [ReconnectContextMenu.getItems(tab)]. *)
Definition reconnectItems (tab : tab_info) : list menu_item :=
  if ti_connectable tab then [item "Disconnect" ADisconnect; item "Reconnect" AReconnect] else [].

(** [LegacyContextMenu.getItems(tab)]: the items of the injected
    providers, in order ([None] when none is injected). *)
Definition legacyItems (providers : option (list (list menu_item))) (tab : tab_info) : list menu_item :=
  match providers with
  | None => []
  | Some ps => if ti_terminal tab then mjoin ps else []
  end.

Section Menus.
Context {Svc : Type} `{!SessionSharing Svc}.

(** [SessionSharingContextMenu.getItems(tab)]. *)
Definition sharingItems (svc : Svc) (tab : tab_info) : list menu_item :=
  if negb (ti_terminal tab) then []
  else match isSessionShared svc (ti_id tab), getSharedSession svc (ti_id tab) with
       | true, Some si =>
           [item "Copy share link" ACopyShareLink; item "View sharing details" (AViewSharingDetails si);
            item "Stop sharing" AStopSharing]
       | _, _ => [item "Share session" AShareSession]
       end.

(** [config.store.profiles.find(p => p.id === tab.profile.id)]. *)
Definition find_profile (id : string) (profiles : list profile) : option profile :=
  snd <$> list_find (λ p, p_id p = id) profiles.

Definition storedProfile (profiles : list profile) (tab : tab_info) : option profile :=
  find_profile (p_id (ti_profile tab)) profiles.

(** [!!storedProfile.sessionLog?.directory?.trim()]. *)
Definition hasDirectory (p : profile) : bool :=
  match p_sessionLog p with
  | Some l => match sl_directory l with Some d => str_truthy (trim d) | None => false end
  | None => false
  end.

(** [SaveAsProfileContextMenu.getItems(tab)] on a platform that is the
    web ([web]) or not. *)
Definition saveAsProfileItems (profiles : list profile) (web : bool) (tab : tab_info) : list menu_item :=
  if negb (ti_terminal tab) then []
  else (match storedProfile profiles tab with
        | Some sp =>
            if negb web then
              [MenuItem "Set log directory" (Some (hasDirectory sp)) None (ASetLogDirectory (hasDirectory sp));
               MenuItem "Use current working directory for logs" None (Some (default false (ti_supportsCwd tab))) AUseCwdForLogs]
            else []
        | None => []
        end) ++ [item "Save as profile" ASaveAsProfile].

End Menus.

(** ** Clicks *)

Inductive note := Notice (msg : string) | Info (msg : string) | Error (msg : string).

(** A [ShareSessionModalComponent] opened, with the inputs set on it. *)
Record share_modal := ShareModal {
  sm_shareUrl : string;
  sm_mode : mode;
  sm_viewers : nat;
  sm_expiresIn : option Z;
}.

(** Calls on the tab, [MultifocusService] and [PlatformService]. *)
Inductive tab_call :=
| CopySelection | Paste | PinToolbar | CopyCurrentPath | FocusAllTabs | FocusAllPanes
| Disconnect | Reconnect | OpenPath (p : string) | External (n : nat).

Record menu_env {Svc : Type} := MenuEnv {
  me_svc : Svc;
  me_profiles : list profile;
  me_tab_profile : profile;
  me_saves : nat;
  me_notes : list note;
  me_modals : list share_modal;
  me_calls : list tab_call;
}.
Arguments menu_env : clear implicits.
Arguments MenuEnv {_}.

Section Clicks.
Context {Svc : Type} `{!SessionSharing Svc}.
Implicit Types (e : menu_env Svc).

Definition set_svc (s : Svc) (e : menu_env Svc) : menu_env Svc := MenuEnv s (me_profiles e) (me_tab_profile e) (me_saves e) (me_notes e) (me_modals e) (me_calls e).
Definition set_profiles (ps : list profile) (e : menu_env Svc) : menu_env Svc := MenuEnv (me_svc e) ps (me_tab_profile e) (me_saves e) (me_notes e) (me_modals e) (me_calls e).
Definition set_tab_profile (p : profile) (e : menu_env Svc) : menu_env Svc := MenuEnv (me_svc e) (me_profiles e) p (me_saves e) (me_notes e) (me_modals e) (me_calls e).
Definition config_save (e : menu_env Svc) : menu_env Svc := MenuEnv (me_svc e) (me_profiles e) (me_tab_profile e) (S (me_saves e)) (me_notes e) (me_modals e) (me_calls e).
Definition notify (n : note) (e : menu_env Svc) : menu_env Svc := MenuEnv (me_svc e) (me_profiles e) (me_tab_profile e) (me_saves e) (me_notes e ++ [n]) (me_modals e) (me_calls e).
Definition open_modal (m : share_modal) (e : menu_env Svc) : menu_env Svc := MenuEnv (me_svc e) (me_profiles e) (me_tab_profile e) (me_saves e) (me_notes e) (me_modals e ++ [m]) (me_calls e).
Definition call (c : tab_call) (e : menu_env Svc) : menu_env Svc := MenuEnv (me_svc e) (me_profiles e) (me_tab_profile e) (me_saves e) (me_notes e) (me_modals e) (me_calls e ++ [c]).

(** [Math.round((expiresAt.getTime() - Date.now()) / 60000)]: the
    nearest integer, halves rounded up. *)
Definition minutes_left (expiresAt now : Z) : Z := (expiresAt - now + 30000) `div` 60000.

(** The [expiresIn] set on the details dialog: only a positive number. *)
Definition expiresIn (si : shared_info) (now : Z) : option Z :=
  match si_expiresAt si with
  | Some t => let m := minutes_left t now in if bool_decide (0 < m) then Some m else None
  | None => None
  end.

(** [shareWithMode(tab, mode)]. *)
Definition shareWithMode (t : nat) (m : mode) e : menu_env Svc :=
  let '(svc, url) := shareSession t m (me_svc e) in
  let e := set_svc svc e in
  match url with
  | Some u =>
      if str_truthy u then
        let e := set_svc (copyShareableLink t (me_svc e)).1 e in
        notify (Notice "Session shared! Share URL copied to clipboard.") (open_modal (ShareModal u m 0 None) e)
      else notify (Error "Failed to share session. Please check console for details.") e
  | None => notify (Error "Failed to share session. Please check console for details.") e
  end.

(** The settings object both "log" items build. *)
Definition next_settings (sp : profile) (dir : option string) : session_log :=
  let l := p_sessionLog sp in
  SessionLog (Some (default true (l ≫= sl_enabled))) dir (l ≫= sl_filenameTemplate) (l ≫= sl_append).

(** [enabled || append || directory || filenameTemplate]. *)
Definition hasSettings (l : session_log) : bool :=
  default false (sl_enabled l) || default false (sl_append l) ||
  default false (str_truthy <$> sl_directory l) || default false (str_truthy <$> sl_filenameTemplate l).

(** The assignment to [storedProfile.sessionLog]: the profile of
    [config.store.profiles] the item was built for, the first with the
    tab profile's id. *)
Definition update_stored (id : string) (l : option session_log) (ps : list profile) : list profile :=
  match list_find (λ p, p_id p = id) ps with
  | Some (i, p) => <[i := set_sessionLog l p]> ps
  | None => ps
  end.

(** Both objects get the settings (or lose them), then [config.save()]. *)
Definition store_log (l : option session_log) e : menu_env Svc :=
  config_save (set_tab_profile (set_sessionLog l (me_tab_profile e))
                 (set_profiles (update_stored (p_id (me_tab_profile e)) l (me_profiles e)) e)).

(** The click of "Set log directory", [picked] the directory the picker
    returns when it is opened.  The stored profile is the one the item
    was built for: the profiles do not change while the menu is open. *)
Definition setLogDirectory (has : bool) (picked : option string) e : menu_env Svc :=
  match find_profile (p_id (me_tab_profile e)) (me_profiles e) with
  | None => e
  | Some sp =>
      let dir := if has then None else picked in
      if negb has && negb (default false (str_truthy <$> picked)) then e
      else let l := next_settings sp dir in
           store_log (if hasSettings l then Some l else None) e
  end.

(** The click of "Use current working directory for logs", [cwd] what
    [tab.session?.getWorkingDirectory()] resolves to. *)
Definition useCwdForLogs (web : bool) (cwd : option string) e : menu_env Svc :=
  match find_profile (p_id (me_tab_profile e)) (me_profiles e) with
  | None => e
  | Some sp =>
      let cwd := match cwd with Some c => Some c | None => options_cwd (me_tab_profile e) end in
      match cwd with
      | Some c =>
          if str_truthy c then
            let e := store_log (Some (next_settings sp (Some c))) e in
            let e := if web then e else call (OpenPath c) e in
            notify (Info "Session log directory set to current working directory") e
          else notify (Error "Shell does not support current path detection") e
      | None => notify (Error "Shell does not support current path detection") e
      end
  end.

Variable slugify : string → string.

(** The profile "Save as profile" creates. *)
Definition new_profile (tp : profile) (name : string) (cwd : option string) (uuid : string) : profile :=
  let cwd := match cwd with Some c => Some c | None => options_cwd tp end in
  let options := match cwd with Some c => if str_truthy c then assoc_set "cwd" (JStr c) (p_options tp) else p_options tp
                                | None => p_options tp end in
  Profile (p_type tp +:+ ":custom:" +:+ slugify name +:+ ":" +:+ uuid) (p_type tp) name (p_group tp) (p_icon tp)
    (p_color tp) (p_disableDynamicTitle tp) (p_behaviorOnSessionEnd tp) options None.

(** The click of "Save as profile": [name] the value of the prompt
    ([None] when it is dismissed), [cwd] the shell's working directory. *)
Definition saveAsProfile (name : option string) (cwd : option string) (uuid : string) e : menu_env Svc :=
  match name with
  | Some n =>
      if str_truthy n then
        notify (Info "Saved") (config_save (set_profiles (me_profiles e ++ [new_profile (me_tab_profile e) n cwd uuid]) e))
      else e
  | None => e
  end.

(** The click of "View sharing details" at [Date.now() = now]. *)
Definition viewSharingDetails (t : nat) (si : shared_info) (now : Z) e : menu_env Svc :=
  let '(svc, url) := shareSession t (si_mode si) (me_svc e) in
  let e := set_svc svc e in
  match url with
  | Some u => if str_truthy u then open_modal (ShareModal u (si_mode si) (si_viewers si) (expiresIn si now)) e else e
  | None => e
  end.

(** What the user and the platform answer during a click. *)
Record click_inputs := ClickInputs {
  in_now : Z;
  in_selectorActive : bool;
  in_mode : option mode;
  in_picked : option string;
  in_cwd : option string;
  in_name : option string;
  in_uuid : string;
  in_web : bool;
}.

(** The [click] of an item of the tab [t]. *)
Definition click (t : nat) (a : action) (inp : click_inputs) e : menu_env Svc :=
  match a with
  | ACopy => notify (Notice "Copied") (call CopySelection e)
  | APaste => call Paste e
  | AShowToolbar => call PinToolbar e
  | ACopyCurrentPath => call CopyCurrentPath e
  | AFocusAllTabs => call FocusAllTabs e
  | AFocusAllPanes => call FocusAllPanes e
  | ADisconnect => notify (Notice "Disconnect") (call Disconnect e)
  | AReconnect => notify (Notice "Reconnect") (call Reconnect e)
  | AExternal n => call (External n) e
  | ACopyShareLink =>
      let '(svc, ok) := copyShareableLink t (me_svc e) in
      notify (if ok then Notice "Share link copied to clipboard" else Error "Failed to copy share link") (set_svc svc e)
  | AViewSharingDetails si => viewSharingDetails t si (in_now inp) e
  | AStopSharing => notify (Notice "Session sharing stopped") (set_svc (stopSharing t (me_svc e)) e)
  | AShareSession =>
      if in_selectorActive inp then e
      else match in_mode inp with Some m => shareWithMode t m e | None => e end
  | ASetLogDirectory has => setLogDirectory has (in_picked inp) e
  | AUseCwdForLogs => useCwdForLogs (in_web inp) (in_cwd inp) e
  | ASaveAsProfile => saveAsProfile (in_name inp) (in_cwd inp) (in_uuid inp) e
  end.

End Clicks.

(** ** Lemmas *)

Lemma find_profile_Some id ps i sp :
  list_find (λ p, p_id p = id) ps = Some (i, sp) → find_profile id ps = Some sp.
Proof. unfold find_profile. by intros ->. Qed.

Section ClickLemmas.
Context {Svc : Type} `{!SessionSharing Svc}.

(** Storing log settings: both objects get them, the profile the item
    was built for is the one of [config.store.profiles] that changes. *)
Lemma store_log_spec l (e : menu_env Svc) i sp :
  list_find (λ p, p_id p = p_id (me_tab_profile e)) (me_profiles e) = Some (i, sp) →
  let e' := store_log l e in
  me_profiles e' = <[i := set_sessionLog l sp]> (me_profiles e) ∧ me_tab_profile e' = set_sessionLog l (me_tab_profile e) ∧
  me_saves e' = S (me_saves e) ∧ me_svc e' = me_svc e ∧ me_notes e' = me_notes e ∧ me_modals e' = me_modals e.
Proof. intros Hf. unfold store_log, update_stored. cbn. by rewrite Hf. Qed.

End ClickLemmas.

(** ** Properties *)

Section Properties.
Context {Svc : Type} `{!SessionSharing Svc}.

(** C38: the "Set log directory" checkbox.  For the tab's stored profile
    (the first of [config.store.profiles] with the tab profile's id),
    the click either changes nothing (the item was unchecked and the
    directory picker was cancelled) or gives the stored profile and the
    tab's profile the same settings and saves the configuration once:
    unchecking removes the directory, checking sets the picked one, the
    other settings are kept with [enabled] defaulting to true, and the
    settings are deleted only when unchecking leaves none of them set.
    The other profiles are unchanged. *)
Theorem log_directory_toggle (e : menu_env Svc) i sp has picked :
  list_find (λ p, p_id p = p_id (me_tab_profile e)) (me_profiles e) = Some (i, sp) →
  let e' := setLogDirectory has picked e in
  let l := p_sessionLog (me_tab_profile e') in
  (has = false ∧ default false (str_truthy <$> picked) = false ∧ e' = e) ∨
  (me_profiles e' = <[i := set_sessionLog l sp]> (me_profiles e) ∧
   me_tab_profile e' = set_sessionLog l (me_tab_profile e) ∧ me_saves e' = S (me_saves e) ∧
   l ≫= sl_directory = (if has then None else picked) ∧
   (∀ x, l = Some x → x = next_settings sp (if has then None else picked)) ∧
   (l = None ↔ has = true ∧ hasSettings (next_settings sp None) = false)).
Proof.
  intros Hf e' l. subst e' l. unfold setLogDirectory. rewrite (find_profile_Some _ _ _ _ Hf).
  destruct has; cbn [negb andb].
  - right. destruct (store_log_spec (if hasSettings (next_settings sp None) then Some (next_settings sp None) else None) e i sp Hf)
      as (H1&H2&H3&_). rewrite H1, H2, H3. cbn [p_sessionLog set_sessionLog].
    destruct (hasSettings _) eqn:Hs; split_and!; try done; naive_solver.
  - destruct (default false (str_truthy <$> picked)) eqn:Hp; cbn [negb]; [right|by left].
    destruct picked as [d|]; [|done]. cbn in Hp.
    assert (hasSettings (next_settings sp (Some d)) = true) as Hs.
    { unfold hasSettings. cbn [sl_directory next_settings fmap option_fmap option_map default]. rewrite Hp. by rewrite !orb_true_r. }
    rewrite Hs. destruct (store_log_spec (Some (next_settings sp (Some d))) e i sp Hf) as (H1&H2&H3&_).
    rewrite H1, H2, H3. cbn [p_sessionLog set_sessionLog]. split_and!; try done; naive_solver.
Qed.

(** "Save as profile".  When the name prompt gives a non-empty name,
    exactly one profile is appended to [config.store.profiles]: its id
    is [type:custom:slugify(name):uuid], it has the tab profile's type,
    the name, no session-log settings, and as [cwd] option the working
    directory the shell reports when it reports a non-empty one, the
    tab profile's own otherwise; the configuration is saved once and
    "Saved" is shown.  A dismissed prompt or an empty name changes
    nothing. *)
Theorem save_as_profile_spec slugify (e : menu_env Svc) name cwd uuid :
  let e' := saveAsProfile slugify name cwd uuid e in
  let tp := me_tab_profile e in
  (default false (str_truthy <$> name) = false ∧ e' = e) ∨
  (∃ n p, name = Some n ∧ str_truthy n = true ∧ me_profiles e' = me_profiles e ++ [p] ∧
     p_id p = p_type tp +:+ ":custom:" +:+ slugify n +:+ ":" +:+ uuid ∧ p_type p = p_type tp ∧ p_name p = n ∧
     p_sessionLog p = None ∧
     options_cwd p = match cwd with Some c => if str_truthy c then Some c else options_cwd tp | None => options_cwd tp end ∧
     me_saves e' = S (me_saves e) ∧ me_notes e' = me_notes e ++ [Info "Saved"] ∧ me_tab_profile e' = tp).
Proof.
  intros e' tp. subst e' tp. unfold saveAsProfile.
  destruct name as [n|]; [|by left]. destruct (str_truthy n) eqn:Hn; [right|by left].
  eexists n, _. split_and!; try done. unfold new_profile, options_cwd. cbn [p_options].
  destruct cwd as [c|]; [destruct (str_truthy c) eqn:Hc; [by rewrite assoc_get_set|done]|].
  destruct (assoc_get "cwd" (p_options _)) as [[| | |c'| |]|] eqn:Ho; cbv iota; rewrite ?Ho; try done.
  destruct (str_truthy c') eqn:Hs; [by rewrite assoc_get_set|by rewrite Ho].
Qed.

(** sharing a session from the menu.  When the user picks a mode in
    the selector, either the service returns a share URL, the terminal
    is then shared in that mode, the link is copied, one share dialog
    opens with the URL, the mode and no viewers, and the success notice
    is shown; or no dialog opens and the failure is reported. *)
Theorem share_session_flow `{!SessionSharingLaws Svc} slugify (e : menu_env Svc) t m inp :
  in_selectorActive inp = false → in_mode inp = Some m →
  let e' := click slugify t AShareSession inp e in
  (∃ u si, (shareSession t m (me_svc e)).2 = Some u ∧ str_truthy u = true ∧
     me_modals e' = me_modals e ++ [ShareModal u m 0 None] ∧
     me_notes e' = me_notes e ++ [Notice "Session shared! Share URL copied to clipboard."] ∧
     getSharedSession (me_svc e') t = Some si ∧ si_mode si = m) ∨
  (me_modals e' = me_modals e ∧ me_notes e' = me_notes e ++ [Error "Failed to share session. Please check console for details."]).
Proof.
  intros Ha Hm e'. subst e'. cbn [click]. rewrite Ha, Hm. unfold shareWithMode.
  destruct (shareSession t m (me_svc e)) as [svc [u|]] eqn:Hs; [|by right].
  destruct (str_truthy u) eqn:Hu; [left|by right].
  destruct (share_some _ _ _ _ _ Hs) as (si & Hsi & Hmode). exists u, si. split_and!; try done.
  cbn. by rewrite copy_keeps.
Qed.

End Properties.

(** the expiry shown in the sharing details.  [expiresIn] is the
    number of minutes left rounded to the nearest, shown only when
    positive: a session with less than 30 seconds left, or already
    expired, is shown with no expiry at all. *)
Theorem expires_in_bounds si now t :
  si_expiresAt si = Some t →
  match expiresIn si now with
  | Some k => 0 < k ∧ k * 60000 - 30000 ≤ t - now < k * 60000 + 30000
  | None => t - now < 30000
  end.
Proof.
  intros Ht. unfold expiresIn, minutes_left. rewrite Ht.
  pose proof (Z.div_mod (t - now + 30000) 60000 ltac:(lia)). pose proof (Z.mod_pos_bound (t - now + 30000) 60000 ltac:(lia)).
  case_bool_decide; lia.
Qed.

(** ** Concrete runs *)

Definition demo_profile : profile :=
  Profile "local:default" "local" "Default" None None None None None [("cwd", JStr "/home")]%string
    (Some (SessionLog None (Some "/logs") None None)).

Definition demo_env : menu_env demo_sharing := MenuEnv demo_svc0 [demo_profile] demo_profile 0 [] [] [].

Definition demo_inputs : click_inputs := ClickInputs 0 false (Some Interactive) None None None "u1" false.

Lemma log_directory_toggle_witness :
  let e' := setLogDirectory true None demo_env in
  let l := p_sessionLog (me_tab_profile e') in
  (true = false ∧ default false (str_truthy <$> None) = false ∧ e' = demo_env) ∨
  (me_profiles e' = <[0%nat := set_sessionLog l demo_profile]> (me_profiles demo_env) ∧
   me_tab_profile e' = set_sessionLog l (me_tab_profile demo_env) ∧ me_saves e' = S (me_saves demo_env) ∧
   l ≫= sl_directory = (if true then None else None) ∧
   (∀ x, l = Some x → x = next_settings demo_profile (if true then None else None)) ∧
   (l = None ↔ true = true ∧ hasSettings (next_settings demo_profile None) = false)).
Proof. apply log_directory_toggle. vm_compute. reflexivity. Defined.

Lemma share_session_flow_witness :
  let e' := click id 1%nat AShareSession demo_inputs demo_env in
  (∃ u si, (shareSession 1%nat Interactive (me_svc demo_env)).2 = Some u ∧ str_truthy u = true ∧
     me_modals e' = me_modals demo_env ++ [ShareModal u Interactive 0 None] ∧
     me_notes e' = me_notes demo_env ++ [Notice "Session shared! Share URL copied to clipboard."] ∧
     getSharedSession (me_svc e') 1%nat = Some si ∧ si_mode si = Interactive) ∨
  (me_modals e' = me_modals demo_env ∧
   me_notes e' = me_notes demo_env ++ [Error "Failed to share session. Please check console for details."]).
Proof. apply share_session_flow; reflexivity. Defined.

Lemma expires_in_bounds_witness :
  match expiresIn (SharedInfo "s1" ReadOnly 0 (Some 600000)) 0 with
  | Some k => 0 < k ∧ k * 60000 - 30000 ≤ 600000 - 0 < k * 60000 + 30000
  | None => 600000 - 0 < 30000
  end.
Proof. apply expires_in_bounds. reflexivity. Defined.
