(* ===== verification/Proxy.v ===== *)
(** * The AI proxy: provider configuration and the chat-completions route

    The standalone proxy server forwards the terminal's AI requests to an
    upstream provider.  Two sources are modelled here:

    - the provider configuration module (src/unnamed/part_000, the
      proxy's [providers/config.js]): [isValidKey], [parseKeyList],
      [buildProviderConfigs], [getProviderConfig], [getAllProviders];
      [process.env] is the record [Env], the configuration object a
      property list ([JsMap]) in insertion order;
    - the route handler [chatCompletions] (src/proxy-server/src/routes/chat.js)
      with [isRetryable] and [getRetryDelayMs]: the provider rotation, the
      loop over candidates, the retry loop with back-off and the error
      responses.  The upstream is the list of outcomes that the successive
      [axios.post] calls give, consumed in order; the handler returns
      [None] only when that list runs out.  [selectProvider] (not under
      src/) is an argument: the provider it selected.

    The main theorems: every provider [getAllProviders] lists is the one
    [getProviderConfig] returns for its name; the keys [parseKeyList]
    keeps pass [isValidKey], except a blank single key; the handler
    answers after at most (providers + 1) * (RETRY_MAX + 1) upstream
    calls and sleeps at most RETRY_MAX times per provider, each sleep at
    most RETRY_MAX_MS; every error answer has the
    [{error: {message, type}}] shape; and the [PROXY_FAILOVER_ON_429]
    switch changes nothing. *)

From S2P Require Import Prelude JsString JsMap Json.
From Stdlib Require Import Ascii String.
Local Abbreviation length := List.length.

Local Open Scope string_scope.
Local Open Scope list_scope.
Local Open Scope Z_scope.

Module Providers.

(** ** Configuration (providers/config.js) *)

(** The environment variables the module reads; [None] is [undefined]. *)
Record Env := {
  OPENAI_API_KEY : option string;
  OPENAI_API_KEYS : option string;
  ANTHROPIC_API_KEY : option string;
  ANTHROPIC_API_KEYS : option string;
  GROQ_API_KEY : option string;
  GROQ_API_KEYS : option string;
  GROQ_DEFAULT_MODEL : option string;
  OPENAI_DEFAULT_MODEL : option string;
  ANTHROPIC_DEFAULT_MODEL : option string;
  ALLOWED_PROVIDERS : option string
}.

Record ProviderConfig := {
  name : string;
  baseURL : string;
  apiKey : string;
  defaultModel : string;
  timeout : Z;
  enabled : bool
}.

#[export] Instance ProviderConfig_eq_dec : EqDecision ProviderConfig.
Proof. solve_decision. Defined.

(** [isValidKey(key, placeholder)] *)
Definition isValidKey (key : option string) (placeholder : string) : bool :=
  match key with
  | Some k => str_truthy k && negb (bool_decide (to_lower (trim k) = to_lower placeholder))
  | None => false
  end.

(** [s.split(',').map(k => k.trim()).filter(Boolean)] *)
Definition split_list (s : string) : list string :=
  filter (λ k, str_truthy k = true) (trim <$> split_on "," s).

(** The first block of [parseKeyList]: the valid keys of the
    comma-separated list [multiKey], when it is set. *)
Definition parse_multi (multiKey : option string) (placeholder : string) : list string :=
  match multiKey with
  | Some m => if str_truthy m then filter (λ k, isValidKey (Some k) placeholder = true) (split_list m) else []
  | None => []
  end.

(** [parseKeyList(singleKey, multiKey, placeholder)]: the keys of the
    list, then the single key, trimmed. *)
Definition parseKeyList (singleKey multiKey : option string) (placeholder : string) : list string :=
  let multi := parse_multi multiKey placeholder in
  match singleKey with
  | Some s => if str_truthy s && isValidKey (Some s) placeholder then multi ++ [trim s] else multi
  | None => multi
  end.

(** The configurations one [keys.forEach((key, index) => ...)] builds:
    named [prefix-<index+1>] when there are several keys. *)
Definition provider_configs (prefix url model : string) (tmo : Z) (keys : list string) : list ProviderConfig :=
  imap (λ i key,
          {| name := if bool_decide (1 < length keys)%nat
                     then prefix +:+ "-" +:+ n_to_string (N.of_nat (S i)) else prefix;
             baseURL := url; apiKey := key; defaultModel := model;
             timeout := tmo; enabled := true |}) keys.

(** [configs[name] = {...}] for each configuration, in order. *)
Definition add_configs (configs : list (string * ProviderConfig)) (cs : list ProviderConfig) :
    list (string * ProviderConfig) :=
  foldl (λ m c, map_set (name c) c m) configs cs.

(** [Object.fromEntries(entries)] *)
Definition from_entries (entries : list (string * ProviderConfig)) : list (string * ProviderConfig) :=
  foldl (λ m kv, map_set kv.1 kv.2 m) [] entries.

(** [name.split('-')[0]] *)
Definition name_prefix (n : string) : string := default "" (head (split_on "-" n)).

(** [list.includes(name) || list.includes(name.split('-')[0])] *)
Definition allowed_name (allow : list string) (n : string) : bool :=
  bool_decide (n ∈ allow) || bool_decide (name_prefix n ∈ allow).

(** [process.env.ALLOWED_PROVIDERS ? ....split(',').map(trim).filter(Boolean) : null] *)
Definition allowList (env : Env) : option (list string) :=
  match ALLOWED_PROVIDERS env with
  | Some a => if str_truthy a then Some (split_list a) else None
  | None => None
  end.

(** [buildProviderConfigs()]: groq, then openai, then anthropic, filtered
    by the allow list when it is non-empty. *)
Definition buildProviderConfigs (env : Env) : list (string * ProviderConfig) :=
  let openaiKeys := parseKeyList (OPENAI_API_KEY env) (OPENAI_API_KEYS env) "your_openai_api_key_here" in
  let anthropicKeys := parseKeyList (ANTHROPIC_API_KEY env) (ANTHROPIC_API_KEYS env) "your_anthropic_api_key_here" in
  let groqKeys := parseKeyList (GROQ_API_KEY env) (GROQ_API_KEYS env) "" in
  let configs :=
    add_configs
      (add_configs
         (add_configs []
            (provider_configs "groq" "https://api.groq.com/openai/v1"
               (js_or_str (GROQ_DEFAULT_MODEL env) "llama-3.1-8b-instant") 30000 groqKeys))
         (provider_configs "openai" "https://api.openai.com/v1"
            (js_or_str (OPENAI_DEFAULT_MODEL env) "gpt-4o-mini") 60000 openaiKeys))
      (provider_configs "anthropic" "https://api.anthropic.com/v1"
         (js_or_str (ANTHROPIC_DEFAULT_MODEL env) "claude-3-sonnet-20240229") 60000 anthropicKeys) in
  match allowList env with
  | Some al =>
      if bool_decide (al ≠ [])
      then from_entries ((λ c, (name c, c)) <$> filter (λ c, allowed_name al (name c) = true) configs.*2)
      else configs
  | None => configs
  end.

(** [getProviderConfig(providerName, allowedProviders)]; [allowed] is
    [req.user?.allowedProviders]. *)
Definition getProviderConfig (env : Env) (providerName : string) (allowed : option (list string)) :
    option ProviderConfig :=
  let configs := buildProviderConfigs env in
  match allowed with
  | Some al => if bool_decide (al ≠ []) && negb (allowed_name al providerName) then None
               else map_get providerName configs
  | None => map_get providerName configs
  end.

(** [allowedProviders] is absent or empty, or lists the provider. *)
Definition allowed_by (allowed : option (list string)) (p : ProviderConfig) : bool :=
  match allowed with
  | Some al => bool_decide (al = []) || allowed_name al (name p)
  | None => true
  end.

(** [getAllProviders(allowedProviders)] *)
Definition getAllProviders (env : Env) (allowed : option (list string)) : list ProviderConfig :=
  filter (λ p, allowed_by allowed p = true) (filter (λ p, enabled p = true) (buildProviderConfigs env).*2).

(** ** Configuration lemmas *)

(** A configuration object: each name once, each configuration under its
    own name. *)
Definition cfg_map_wf (m : list (string * ProviderConfig)) : Prop :=
  NoDup m.*1 ∧ ∀ k c, (k, c) ∈ m → name c = k.

Lemma cfg_map_wf_nil : cfg_map_wf [].
Proof. split; [constructor|set_solver]. Qed.

Lemma map_set_cfg_wf m c : cfg_map_wf m → cfg_map_wf (map_set (name c) c m).
Proof.
  intros [Hnd Hn]. split; [by apply map_set_nodup|].
  intros k c' Hkc. apply map_set_elem_of in Hkc as [[= -> ->]|Hkc]; eauto.
Qed.

Lemma add_configs_wf m cs : cfg_map_wf m → cfg_map_wf (add_configs m cs).
Proof. intros Hm. unfold add_configs. apply foldl_preserve; [done|]. intros m' c _. apply map_set_cfg_wf. Qed.

Lemma from_entries_wf es : Forall (λ kv, kv.1 = name kv.2) es → cfg_map_wf (from_entries es).
Proof.
  intros Hes. unfold from_entries. apply foldl_preserve; [split; [constructor|set_solver]|].
  intros m [k c] Hkc. rewrite Forall_forall in Hes. specialize (Hes _ Hkc). cbn in Hes |- *. subst k. apply map_set_cfg_wf.
Qed.

Lemma from_entries_elem_of es kc : kc ∈ from_entries es → kc ∈ es.
Proof.
  unfold from_entries. revert kc. apply (foldl_preserve (λ m, ∀ kc, kc ∈ m → kc ∈ es)); [set_solver|].
  intros m kv Hkv Hm kc Hkc. apply map_set_elem_of in Hkc as [->|]; [by destruct kv|auto].
Qed.

Lemma name_entries_wf (cs : list ProviderConfig) : Forall (λ kv, kv.1 = name kv.2) ((λ c, (name c, c)) <$> cs).
Proof. apply Forall_fmap, Forall_true. done. Qed.

#[local] Hint Resolve cfg_map_wf_nil add_configs_wf from_entries_wf name_entries_wf : tlink.

Lemma buildProviderConfigs_wf env : cfg_map_wf (buildProviderConfigs env).
Proof.
  unfold buildProviderConfigs. repeat case_match; eauto 10 with tlink.
Qed.

(** The lookup by name of a listed configuration finds it. *)
Lemma buildProviderConfigs_get env p :
  p ∈ (buildProviderConfigs env).*2 → map_get (name p) (buildProviderConfigs env) = Some p.
Proof.
  destruct (buildProviderConfigs_wf env) as [Hnd Hn]. intros ([k c] & -> & Hkc)%list_elem_of_fmap.
  cbn [snd]. rewrite (Hn _ _ Hkc). by apply map_get_elem_of.
Qed.

(** The keys of the list are trimmed and valid. *)
Lemma parse_multi_valid m ph k : k ∈ parse_multi m ph → trim k = k ∧ isValidKey (Some k) ph = true.
Proof.
  unfold parse_multi, split_list. intros Hk. destruct m as [m|]; [|set_solver].
  destruct (str_truthy m); [|set_solver].
  apply list_elem_of_filter in Hk as [Hv Hk]. apply list_elem_of_filter in Hk as [_ Hk].
  apply list_elem_of_fmap in Hk as (x & -> & _). split; [apply trim_idem|done].
Qed.

(** Every key [parseKeyList] returns is trimmed, and a non-empty one
    passes [isValidKey] against the placeholder: the placeholder text in
    any case and padding is never taken for a key.  The empty key is the
    exception: a single key of white space only passes the check and is
    kept as [''] (see [blank_single_key]). *)
Lemma parse_key_list_valid s m ph k :
  k ∈ parseKeyList s m ph → trim k = k ∧ (str_truthy k = true → isValidKey (Some k) ph = true).
Proof.
  unfold parseKeyList. intros Hk.
  destruct s as [s|]; [|by apply parse_multi_valid in Hk as [? ->]].
  destruct (str_truthy s && isValidKey (Some s) ph) eqn:Hs; [|by apply parse_multi_valid in Hk as [? ->]].
  apply elem_of_app in Hk as [Hk| ->%list_elem_of_singleton]; [by apply parse_multi_valid in Hk as [? ->]|].
  rewrite trim_idem. split; [done|]. intros Hne.
  apply andb_true_iff in Hs as [_ Hs]. simpl in Hs |- *. rewrite trim_idem, Hne.
  by apply andb_true_iff in Hs as [_ Hs].
Qed.

(** A single key of blank space is kept, as the empty key. *)
Lemma blank_single_key : parseKeyList (Some " ") None "your_openai_api_key_here" = [""].
Proof. reflexivity. Qed.

(** The lookup by name of a listed provider finds it. *)
Lemma getProviderConfig_listed env allowed p :
  p ∈ getAllProviders env allowed → getProviderConfig env (name p) allowed = Some p.
Proof.
  unfold getAllProviders, getProviderConfig. intros Hp.
  apply list_elem_of_filter in Hp as [Ha Hp]. apply list_elem_of_filter in Hp as [_ Hp].
  apply buildProviderConfigs_get in Hp. destruct allowed as [al|]; [|done].
  unfold allowed_by in Ha. destruct (bool_decide (al ≠ [])) eqn:E; simpl; [|done].
  apply bool_decide_eq_true in E. rewrite bool_decide_false in Ha by done. simpl in Ha. by rewrite Ha.
Qed.

(** The listed providers have distinct names. *)
Lemma getAllProviders_nodup env allowed : NoDup (name <$> getAllProviders env allowed).
Proof.
  destruct (buildProviderConfigs_wf env) as [Hnd Hn].
  assert (name <$> (buildProviderConfigs env).*2 = (buildProviderConfigs env).*1) as Hnames.
  { clear Hnd. induction (buildProviderConfigs env) as [|[k c] m IH]; [done|].
    rewrite !fmap_cons. cbn [fst snd]. rewrite (Hn k c) by (by left). f_equal. apply IH. intros. apply Hn. by right. }
  rewrite <-Hnames in Hnd. eapply sublist_NoDup; [exact Hnd|].
  apply sublist_fmap. unfold getAllProviders. etransitivity; apply sublist_filter.
Qed.

(** C32: [getProviderConfig] agrees with [getAllProviders]: the listed
    providers have distinct names, and for each of them, with the same
    [allowedProviders], [getProviderConfig] returns that provider.  So the
    route never finds a listed provider unconfigured, except through an
    empty [apiKey]. *)
Lemma all_providers_configured env allowed :
  NoDup (name <$> getAllProviders env allowed) ∧
  ∀ p, p ∈ getAllProviders env allowed → getProviderConfig env (name p) allowed = Some p.
Proof. split; [apply getAllProviders_nodup|intros p; apply getProviderConfig_listed]. Qed.

End Providers.

Module Chat.
Import Providers.

(** ** The route (routes/chat.js) *)

(** The constants of the module, as read from [process.env]: at most
    [RETRY_MAX] retries per provider, the back-off base and cap in
    milliseconds, and the [PROXY_FAILOVER_ON_429] switch. *)
Record ProxyConf := {
  RETRY_MAX : Z;
  RETRY_BASE_MS : Z;
  RETRY_MAX_MS : Z;
  FAILOVER_ON_429 : bool
}.

(** The values with no variable set. *)
Definition default_conf : ProxyConf :=
  {| RETRY_MAX := 2; RETRY_BASE_MS := 500; RETRY_MAX_MS := 4000; FAILOVER_ON_429 := true |}.

(** [parseInt(s, 10)]: leading white space, a sign, the longest run of
    digits; [None] is [NaN]. *)
Definition digit_value (c : ascii) : option Z :=
  let n := Z.of_nat (nat_of_ascii c) in
  if (48 <=? n) && (n <=? 57) then Some (n - 48) else None.

Fixpoint read_digits (s : string) (acc : option Z) : option Z :=
  match s with
  | EmptyString => acc
  | String c s' =>
      match digit_value c with
      | Some d => read_digits s' (Some (default 0 acc * 10 + d))
      | None => acc
      end
  end.

Definition parse_int (s : string) : option Z :=
  match trim_start s with
  | String "-" r => Z.opp <$> read_digits r None
  | String "+" r => read_digits r None
  | t => read_digits t None
  end%char.

(** An upstream HTTP response as axios gives it. *)
Record UpstreamResponse := {
  status : Z;
  headers : list (string * string);
  data : json
}.

(** A rejected [axios.post]: [error.response] when the provider answered
    with an error status, [error.code] for network errors,
    [error.request] when a request was sent, and [error.message]. *)
Record AxiosError := {
  err_response : option UpstreamResponse;
  err_code : option string;
  err_request : bool;
  err_message : string
}.

(** One [axios.post]: it resolves, or it rejects; a rejection carries the
    value [Math.floor(Math.random() * 100)] would give if its retry is
    delayed. *)
Inductive Outcome :=
| Resolved (r : UpstreamResponse)
| Rejected (e : AxiosError) (jitter : Z).

(** [error?.response?.status] *)
Definition err_status (e : AxiosError) : option Z := status <$> err_response e.

(** [isRetryable(error)] *)
Definition isRetryable (e : AxiosError) : bool :=
  bool_decide (err_status e ∈ Some <$> [429; 500; 502; 503; 504]) ||
  bool_decide (err_code e ∈ Some <$> ["ECONNRESET"; "ETIMEDOUT"; "ECONNABORTED"]).

(** [getRetryDelayMs(error, attempt)]: the [retry-after] seconds when the
    header holds a positive number, else exponential back-off with jitter,
    capped at [RETRY_MAX_MS]. *)
Definition getRetryDelayMs (conf : ProxyConf) (e : AxiosError) (attempt jitter : Z) : Z :=
  let backoff := Z.min (RETRY_BASE_MS conf * 2 ^ attempt + jitter) (RETRY_MAX_MS conf) in
  match err_response e ≫= λ r, map_get "retry-after" (headers r) with
  | Some ra =>
      if str_truthy ra then
        match parse_int ra with
        | Some seconds => if 0 <? seconds then Z.min (seconds * 1000) (RETRY_MAX_MS conf) else backoff
        | None => backoff
        end
      else backoff
  | None => backoff
  end.

(** The request: [req.body.model], [req.body.stream] ([None] when
    absent) and [req.user?.allowedProviders]. *)
Record Request := {
  body_model : option json;
  body_stream : option json;
  allowedProviders : option (list string)
}.

(** What the handler sends: the upstream answer as JSON, the upstream
    stream piped, or an error object. *)
Inductive Reply :=
| Forwarded (st : Z) (hs : list (string * string)) (body : json)
| Streamed (st : Z) (hs : list (string * string))
| ErrorReply (st : Z) (body : json).

(** One [axios.post] call: URL, [Authorization] key, model, response type
    and timeout. *)
Record Post := {
  post_url : string;
  post_key : string;
  post_model : json;
  post_stream : bool;
  post_timeout : Z
}.

(** The effects of a request besides its reply: the [recordRequest]
    calls (provider, success), the [sleep] delays and the upstream calls,
    each list in order. *)
Record Trace := {
  telemetry : list (string * bool);
  sleeps : list Z;
  posts : list Post
}.

Definition empty_trace : Trace := {| telemetry := []; sleeps := []; posts := [] |}.

Definition recordRequest (tr : Trace) (n : string) (ok : bool) : Trace :=
  {| telemetry := telemetry tr ++ [(n, ok)]; sleeps := sleeps tr; posts := posts tr |}.

Definition sleep (tr : Trace) (ms : Z) : Trace :=
  {| telemetry := telemetry tr; sleeps := sleeps tr ++ [ms]; posts := posts tr |}.

Definition log_post (tr : Trace) (p : Post) : Trace :=
  {| telemetry := telemetry tr; sleeps := sleeps tr; posts := posts tr ++ [p] |}.

(** [{ error: { message, type, code } }]; a [code] that is [undefined]
    is left out by [res.json]. *)
Definition error_json (message type : json) (code : option json) : json :=
  JObj [("error", JObj ([("message", message); ("type", type)] ++
                        match code with Some c => [("code", c)] | None => [] end))].

(** [o?.k] on an optional value. *)
Definition opt_get (v : option json) (k : string) : option json := v ≫= λ x, jget x k.

(** The error answer for [lastError] (lines 169-191 and 198-220, the
    same code): the provider's status and error object, [503] when no
    answer came, [500] otherwise. *)
Definition error_reply (lastError : option AxiosError) : Reply :=
  match lastError ≫= err_response with
  | Some r =>
      let err := jget (data r) "error" in
      ErrorReply (status r)
        (error_json (js_or (opt_get err "message") (JStr "Provider error"))
                    (js_or (opt_get err "type") (JStr "provider_error"))
                    (opt_get err "code"))
  | None =>
      if default false (err_request <$> lastError)
      then ErrorReply 503 (error_json (JStr "Provider unavailable") (JStr "provider_unavailable") None)
      else ErrorReply 500 (error_json (JStr (js_or_str (err_message <$> lastError) "Internal proxy error"))
                                      (JStr "internal_error") None)
  end.

Definition no_providers_reply : Reply :=
  ErrorReply 503 (error_json (JStr "No AI providers available") (JStr "service_unavailable") None).

(** A resolved call: status and non-empty headers forwarded, then the
    body as JSON or the stream piped. *)
Definition success_reply (wantsStream : bool) (r : UpstreamResponse) : Reply :=
  let hs := filter (λ kv, str_truthy kv.2 = true) (headers r) in
  if wantsStream then Streamed (status r) hs else Forwarded (status r) hs (data r).

(** [new Error(`Provider ${name} not configured`)] *)
Definition not_configured_error (n : string) : AxiosError :=
  {| err_response := None; err_code := None; err_request := false;
     err_message := "Provider " +:+ n +:+ " not configured" |}.

(** The model sent: the provider's default for an empty, [auto] or
    [tlink-proxy-auto] model. *)
Definition effectiveModel (req : Request) (cfg : ProviderConfig) : json :=
  let auto := match body_model req with
              | Some v => negb (js_truthy v) || bool_decide (v = JStr "tlink-proxy-auto") || bool_decide (v = JStr "auto")
              | None => true
              end in
  if auto then JStr (if str_truthy (defaultModel cfg) then defaultModel cfg else "gpt-3.5-turbo")
  else default JNull (body_model req).

(** [requestBody.stream !== false] *)
Definition wantsStream (req : Request) : bool :=
  negb (bool_decide (body_stream req = Some (JBool false))).

Definition mk_post (cfg : ProviderConfig) (model : json) (stream : bool) : Post :=
  {| post_url := baseURL cfg +:+ "/chat/completions"; post_key := apiKey cfg;
     post_model := model; post_stream := stream;
     post_timeout := if bool_decide (timeout cfg = 0) then 60000 else timeout cfg |}.

(** How the retry loop of one provider ends: [return] with a reply, or
    leaving the loop ([break] or the last attempt) with the last error. *)
Inductive LoopExit :=
| Returned (r : Reply)
| Fallthrough (lastError : option AxiosError).

(** [for (let attempt = 0; attempt <= RETRY_MAX; attempt++)]: [k] is the
    number of iterations left, started at [RETRY_MAX + 1]. *)
Fixpoint attempt_loop (conf : ProxyConf) (cfg : ProviderConfig) (model : json) (stream : bool)
    (k : nat) (attempt : Z) (lastError : option AxiosError) (outs : list Outcome) (tr : Trace) :
    option (LoopExit * list Outcome * Trace) :=
  match k with
  | O => Some (Fallthrough lastError, outs, tr)
  | S k' =>
      match outs with
      | [] => None
      | o :: outs' =>
          let tr := log_post tr (mk_post cfg model stream) in
          match o with
          | Resolved r => Some (Returned (success_reply stream r), outs', recordRequest tr (name cfg) true)
          | Rejected e jitter =>
              let tr := recordRequest tr (name cfg) false in
              let shouldRetry := isRetryable e && (attempt <? RETRY_MAX conf) in
              let shouldFailover :=
                bool_decide (err_status e = Some 429) && FAILOVER_ON_429 conf && (RETRY_MAX conf <=? attempt) in
              if shouldRetry then
                attempt_loop conf cfg model stream k' (attempt + 1) (Some e) outs'
                  (sleep tr (getRetryDelayMs conf e attempt jitter))
              else if shouldFailover then Some (Fallthrough (Some e), outs', tr)
              else if negb (isRetryable e) then Some (Returned (error_reply (Some e)), outs', tr)
              else attempt_loop conf cfg model stream k' (attempt + 1) (Some e) outs' tr
          end
      end
  end.

(** [for (const candidate of orderedProviders)] and the answer after it. *)
Fixpoint candidates_loop (conf : ProxyConf) (env : Env) (req : Request) (cands : list ProviderConfig)
    (lastError : option AxiosError) (outs : list Outcome) (tr : Trace) : option (Reply * list Outcome * Trace) :=
  match cands with
  | [] => Some (error_reply lastError, outs, tr)
  | c :: cs =>
      let skip := candidates_loop conf env req cs (Some (not_configured_error (name c))) outs
                    (recordRequest tr (name c) false) in
      match getProviderConfig env (name c) (allowedProviders req) with
      | Some cfg =>
          if str_truthy (apiKey cfg) then
            match attempt_loop conf cfg (effectiveModel req cfg) (wantsStream req)
                    (Z.to_nat (RETRY_MAX conf + 1)) 0 lastError outs tr with
            | None => None
            | Some (Returned r, outs', tr') => Some (r, outs', tr')
            | Some (Fallthrough le, outs', tr') => candidates_loop conf env req cs le outs' tr'
            end
          else skip
      | None => skip
      end
  end.

(** The selected provider first, then the others in the configured order
    (a rotation when it is listed). *)
Definition orderedProviders (providers : list ProviderConfig) (provider : ProviderConfig) : list ProviderConfig :=
  match list_find (λ p, name p = name provider) providers with
  | Some (i, _) => drop i providers ++ take i providers
  | None => provider :: filter (λ p, name p ≠ name provider) providers
  end.

(** [chatCompletions(req, res)] with [selectProvider] giving [provider]:
    the reply, the upstream outcomes left over and the trace; [None] when
    [outs] runs out. *)
Definition chatCompletions (conf : ProxyConf) (env : Env) (req : Request) (provider : option ProviderConfig)
    (outs : list Outcome) : option (Reply * list Outcome * Trace) :=
  let providers := getAllProviders env (allowedProviders req) in
  match provider with
  | Some p =>
      if bool_decide (providers = []) then Some (no_providers_reply, outs, empty_trace)
      else candidates_loop conf env req (orderedProviders providers p) None outs empty_trace
  | None => Some (no_providers_reply, outs, empty_trace)
  end.

(** ** Lemmas on the loops *)

(** The shape of every error answer: an [error] object with a truthy
    [message] and [type], and at most a [code] besides. *)
Definition error_shape (b : json) : bool :=
  match b with
  | JObj [(k, JObj ((km, m) :: (kt, t) :: rest))] =>
      bool_decide (k = "error" ∧ km = "message" ∧ kt = "type") && js_truthy m && js_truthy t &&
      bool_decide (rest.*1 ⊆ ["code"])
  | _ => false
  end.

(** The last error comes from the outcomes, or has no response. *)
Definition from_outs (outs : list Outcome) (le : option AxiosError) : Prop :=
  ∀ e, le = Some e → err_response e = None ∨ ∃ j, Rejected e j ∈ outs.

Lemma js_or_truthy a b : js_truthy b = true → js_truthy (js_or a b) = true.
Proof. destruct a as [v|]; simpl; [|done]. by destruct (js_truthy v) eqn:E. Qed.

Lemma error_json_shape m t c :
  js_truthy m = true → js_truthy t = true → error_shape (error_json m t c) = true.
Proof.
  intros Hm Ht. destruct c; cbn -[bool_decide js_truthy]; rewrite Hm, Ht;
    repeat rewrite bool_decide_true by (done || set_solver); done.
Qed.

Lemma js_or_str_truthy a b : str_truthy b = true → str_truthy (js_or_str a b) = true.
Proof. destruct a as [v|]; simpl; [|done]. by destruct (str_truthy v) eqn:E. Qed.

(** [error_reply] answers with an error object, and with [500], [503] or
    the status of an upstream error. *)
Lemma error_reply_spec outs le st b :
  from_outs outs le → error_reply le = ErrorReply st b →
  error_shape b = true ∧ (st = 500 ∨ st = 503 ∨ ∃ e j, Rejected e j ∈ outs ∧ err_status e = Some st).
Proof.
  intros Hle. unfold error_reply. destruct (le ≫= err_response) as [r|] eqn:Er.
  - intros [= <- <-]. split; [apply error_json_shape; apply js_or_truthy; done|].
    destruct le as [e|]; [|done]. simpl in Er. destruct (Hle e eq_refl) as [Hn|[j Hj]]; [congruence|].
    right; right. exists e, j. split; [done|]. unfold err_status. by rewrite Er.
  - case_match; intros [= <- <-]; split; auto; apply error_json_shape; try done.
    simpl. pose proof (js_or_str_truthy (err_message <$> le) "Internal proxy error" eq_refl).
    by destruct (js_or_str _ _).
Qed.

Definition is_resolved (o : Outcome) : bool := match o with Resolved _ => true | Rejected _ _ => false end.

Definition attempt_inv (conf : ProxyConf) (k : nat) (attempt : Z) : Prop :=
  Z.of_nat k + attempt = RETRY_MAX conf + 1 ∨ k = 0%nat.

(** What one provider's retry loop does: it consumes the outcomes [pre],
    posts once and records once for each, sleeps at most once between two
    posts, each sleep at most [RETRY_MAX_MS]; it answers from an outcome
    of [pre] or leaves with the last error of [pre] (or the one it had). *)
Definition loop_spec (conf : ProxyConf) (cfg : ProviderConfig) (model : json) (stream : bool) (k : nat)
    (le : option AxiosError) (outs : list Outcome) (tr : Trace) (x : LoopExit) (outs' : list Outcome) (tr' : Trace) :
    Prop :=
  (∃ pre ds,
    outs = pre ++ outs' ∧ (length pre ≤ k)%nat ∧ (k = 0%nat ∨ pre ≠ []) ∧
    posts tr' = posts tr ++ ((λ _, mk_post cfg model stream) <$> pre) ∧
    telemetry tr' = telemetry tr ++ ((λ o, (name cfg, is_resolved o)) <$> pre) ∧
    sleeps tr' = sleeps tr ++ ds ∧ Forall (λ d, d ≤ RETRY_MAX_MS conf) ds ∧ (length ds ≤ pred (length pre))%nat ∧
    (match x with
    | Returned r => (∃ r0, Resolved r0 ∈ pre ∧ r = success_reply stream r0) ∨
                    (∃ e j, Rejected e j ∈ pre ∧ r = error_reply (Some e))
    | Fallthrough le' => le' = le ∨ ∃ e j, le' = Some e ∧ Rejected e j ∈ pre
    end))%list.

Lemma getRetryDelayMs_le conf e attempt jitter : getRetryDelayMs conf e attempt jitter ≤ RETRY_MAX_MS conf.
Proof. unfold getRetryDelayMs. repeat case_match; lia. Qed.

Lemma attempt_loop_spec conf cfg model stream k attempt le outs tr x outs' tr' :
  attempt_inv conf k attempt →
  attempt_loop conf cfg model stream k attempt le outs tr = Some (x, outs', tr') →
  loop_spec conf cfg model stream k le outs tr x outs' tr'.
Proof.
  revert attempt le outs tr. induction k as [|k IH]; intros attempt le outs tr Hinv H; simpl in H.
  - simplify_eq. exists [], []. rewrite !app_nil_r. naive_solver.
  - destruct outs as [|o outs]; [done|]. destruct o as [r|e j].
    + simplify_eq. exists [Resolved r], []. rewrite app_nil_r. split_and!; simpl; auto with lia.
      left. exists r. split; [by left|done].
    + destruct (isRetryable e && (attempt <? RETRY_MAX conf)) eqn:Er.
      * apply andb_true_iff in Er as [_ Er%Z.ltb_lt].
        apply IH in H as HS; [|unfold attempt_inv in *; lia].
        destruct HS as (pre & ds & -> & Hl & Hne & Hp & Ht & Hs & Hf & Hds & Hx). simpl in *.
        assert (pre ≠ []) as Hpre by (destruct Hne; [unfold attempt_inv in Hinv; lia|done]).
        exists (Rejected e j :: pre), (getRetryDelayMs conf e attempt j :: ds).
        rewrite Hp, Ht, Hs, <-!app_assoc. split_and!; simpl; auto with lia.
        -- constructor; [apply getRetryDelayMs_le|done].
        -- destruct pre; [done|]. simpl in *. lia.
        -- destruct x as [r|le'].
           ++ destruct Hx as [(r0 & ? & ?)|(e' & j' & ? & ?)]; [left; exists r0|right; exists e', j']; set_solver.
           ++ right. destruct Hx as [->|(e' & j' & -> & ?)]; [exists e, j|exists e', j']; set_solver.
      * destruct (bool_decide _ && _ && _) eqn:Ef; [|destruct (negb (isRetryable e)) eqn:Enr].
        -- simplify_eq. exists [Rejected e j], []. rewrite app_nil_r. split_and!; simpl; auto with lia.
           right. exists e, j. split; [done|by left].
        -- simplify_eq. exists [Rejected e j], []. rewrite app_nil_r. split_and!; simpl; auto with lia.
           right. exists e, j. split; [by left|done].
        -- destruct k; simpl in H; [|].
           ++ simplify_eq. exists [Rejected e j], []. rewrite app_nil_r. split_and!; simpl; auto with lia.
              right. exists e, j. split; [done|by left].
           ++ exfalso. apply negb_false_iff in Enr. rewrite Enr in Er. simpl in Er.
              apply Z.ltb_ge in Er. unfold attempt_inv in Hinv. lia.
Qed.

(** With an outcome for each of its [k] iterations the loop answers. *)
Lemma attempt_loop_total conf cfg model stream k attempt le outs tr :
  (k ≤ length outs)%nat → is_Some (attempt_loop conf cfg model stream k attempt le outs tr).
Proof.
  revert attempt le outs tr. induction k as [|k IH]; intros attempt le [|o outs] tr Hk; simpl in *; eauto; [lia|].
  destruct o; [eauto|]. repeat case_match; eauto; apply IH; lia.
Qed.

Lemma attempt_inv_start conf : attempt_inv conf (Z.to_nat (RETRY_MAX conf + 1)) 0.
Proof. unfold attempt_inv. lia. Qed.

Lemma success_reply_not_error stream r st b : success_reply stream r ≠ ErrorReply st b.
Proof. unfold success_reply. by destruct stream. Qed.

(** What the loop over the candidates does, relative to the outcomes [O]
    the request started with: it consumes at most [RETRY_MAX + 1]
    outcomes per candidate, posts once for each, sleeps at most
    [RETRY_MAX] times per candidate, at most [RETRY_MAX_MS] each, and an
    error answer has the error shape and a status of its own or of an
    upstream error. *)
Definition cands_spec (conf : ProxyConf) (O : list Outcome) (n : nat) (outs : list Outcome) (tr : Trace)
    (r : Reply) (outs' : list Outcome) (tr' : Trace) : Prop :=
  (∃ pre ds,
    outs = pre ++ outs' ∧ (length pre ≤ n * Z.to_nat (RETRY_MAX conf + 1))%nat ∧
    length (posts tr') = (length (posts tr) + length pre)%nat ∧
    sleeps tr' = sleeps tr ++ ds ∧ Forall (λ d, d ≤ RETRY_MAX_MS conf) ds ∧
    (length ds ≤ n * Z.to_nat (RETRY_MAX conf))%nat ∧
    ∀ st b, r = ErrorReply st b →
      error_shape b = true ∧ (st = 500 ∨ st = 503 ∨ ∃ e j, Rejected e j ∈ O ∧ err_status e = Some st))%list.

Lemma candidates_loop_spec conf env req O cands le outs tr r outs' tr' :
  from_outs O le → outs ⊆ O →
  candidates_loop conf env req cands le outs tr = Some (r, outs', tr') →
  cands_spec conf O (length cands) outs tr r outs' tr'.
Proof.
  revert le outs tr. induction cands as [|c cs IH]; intros le outs tr Hle HO H; simpl in H.
  - simplify_eq. exists [], []. rewrite !app_nil_r. split_and!; simpl; auto with lia.
    intros st b Hr. by eapply error_reply_spec.
  - assert (∀ outs tr, outs ⊆ O →
              candidates_loop conf env req cs (Some (not_configured_error (name c))) outs
                (recordRequest tr (name c) false) = Some (r, outs', tr') →
              cands_spec conf O (length (c :: cs)) outs tr r outs' tr') as Hskip.
    { intros outs0 tr0 HO0 Hs. apply IH in Hs as (pre & ds & -> & Hl & Hp & Hs & Hf & Hds & Hr);
        [|by intros e [= <-]; left|done].
      exists pre, ds. simpl in *. split_and!; auto with lia. }
    destruct (getProviderConfig _ _ _) as [cfg|]; [|by apply Hskip].
    destruct (str_truthy (apiKey cfg)); [|by apply Hskip].
    destruct (attempt_loop _ _ _ _ _ _ _ _ _) as [[[x outs1] tr1]|] eqn:Ea; [|done].
    apply attempt_loop_spec in Ea as (pre1 & ds1 & -> & Hl1 & _ & Hp1 & _ & Hs1 & Hf1 & Hds1 & Hx);
      [|apply attempt_inv_start].
    assert (length ds1 ≤ Z.to_nat (RETRY_MAX conf))%nat by lia. destruct x as [r1|le1].
    + simplify_eq. exists pre1, ds1. rewrite Hp1, length_app, length_fmap. simpl. split_and!; auto with lia.
      intros st b ->. destruct Hx as [(r0 & _ & Hr0)|(e & j & Hej & Hr0)];
        [by symmetry in Hr0; apply success_reply_not_error in Hr0|].
      eapply error_reply_spec; [|done]. intros e' [= <-]. right. exists j. apply HO. set_solver.
    + apply IH in H as (pre & ds & -> & Hl & Hp & Hs & Hf & Hds & Hr).
      * exists (pre1 ++ pre), (ds1 ++ ds). rewrite Hp, Hp1, Hs, Hs1, !length_app, length_fmap, <-!app_assoc.
        simpl. split_and!; auto with lia. by apply Forall_app.
      * destruct Hx as [->|(e & j & -> & Hej)]; [done|]. intros e' [= <-]. right. exists j. apply HO. set_solver.
      * intros o Ho. apply HO. set_solver.
Qed.

Lemma candidates_loop_total conf env req cands le outs tr :
  (length cands * Z.to_nat (RETRY_MAX conf + 1) ≤ length outs)%nat →
  is_Some (candidates_loop conf env req cands le outs tr).
Proof.
  revert le outs tr. induction cands as [|c cs IH]; intros le outs tr Hn; simpl in *; [eauto|].
  destruct (getProviderConfig _ _ _) as [cfg|]; [|apply IH; lia].
  destruct (str_truthy (apiKey cfg)); [|apply IH; lia].
  destruct (attempt_loop_total conf cfg (effectiveModel req cfg) (wantsStream req) (Z.to_nat (RETRY_MAX conf + 1))
              0 le outs tr ltac:(lia)) as [[[x outs1] tr1] Ea].
  rewrite Ea. destruct x; [eauto|].
  apply attempt_loop_spec in Ea as (pre & ds & -> & Hl & _); [|apply attempt_inv_start].
  apply IH. rewrite length_app in Hn. lia.
Qed.

Lemma orderedProviders_length providers p : (length (orderedProviders providers p) ≤ S (length providers))%nat.
Proof.
  unfold orderedProviders. destruct (list_find _ _) as [[i q]|].
  - rewrite length_app, length_drop, length_take. lia.
  - simpl. pose proof (filter_length_le (λ q, name q ≠ name p) providers). lia.
Qed.

Lemma no_providers_reply_spec st b : no_providers_reply = ErrorReply st b → error_shape b = true ∧ st = 503.
Proof. intros [= <- <-]. split; [by apply error_json_shape|done]. Qed.

(** The whole handler, with [n] the number of providers listed. *)
Lemma chatCompletions_spec conf env req prov outs r outs' tr :
  chatCompletions conf env req prov outs = Some (r, outs', tr) →
  cands_spec conf outs (S (length (getAllProviders env (allowedProviders req)))) outs empty_trace r outs' tr.
Proof.
  unfold chatCompletions.
  assert (Some (no_providers_reply, outs, empty_trace) = Some (r, outs', tr) →
          cands_spec conf outs (S (length (getAllProviders env (allowedProviders req)))) outs empty_trace r outs' tr)
    as Hnone.
  { intros [= <- <- <-]. exists [], []. rewrite app_nil_r. split_and!; simpl; auto with lia.
    intros st b Hb. apply no_providers_reply_spec in Hb as [? ->]. auto. }
  destruct prov as [p|]; [|done]. case_bool_decide; [done|]. intros Hc.
  apply candidates_loop_spec with (O := outs) in Hc as (pre & ds & Hpre & Hl & Hp & Hs & Hf & Hds & Hr);
    [|by intros ? ?|done].
  exists pre, ds. pose proof (orderedProviders_length (getAllProviders env (allowedProviders req)) p).
  split_and!; auto with lia.
  - transitivity (length (orderedProviders (getAllProviders env (allowedProviders req)) p) * Z.to_nat (RETRY_MAX conf + 1))%nat;
      [done|]. by apply Nat.mul_le_mono_r.
  - transitivity (length (orderedProviders (getAllProviders env (allowedProviders req)) p) * Z.to_nat (RETRY_MAX conf))%nat;
      [done|]. by apply Nat.mul_le_mono_r.
Qed.

Lemma sum_le_bound (ds : list Z) (M : Z) :
  Forall (λ d, d ≤ M) ds → foldr Z.add 0 ds ≤ Z.of_nat (length ds) * M.
Proof. induction 1; simpl; lia. Qed.

(** The configuration with [FAILOVER_ON_429] set to [b]. *)
Definition with_failover (conf : ProxyConf) (b : bool) : ProxyConf :=
  {| RETRY_MAX := RETRY_MAX conf; RETRY_BASE_MS := RETRY_BASE_MS conf;
     RETRY_MAX_MS := RETRY_MAX_MS conf; FAILOVER_ON_429 := b |}.

(** On a 429 at the last attempt, [break] and the end of the loop leave it
    the same way. *)
Lemma attempt_loop_failover conf b cfg model stream k attempt le outs tr :
  attempt_inv conf k attempt →
  attempt_loop (with_failover conf b) cfg model stream k attempt le outs tr =
  attempt_loop conf cfg model stream k attempt le outs tr.
Proof.
  revert attempt le outs tr. induction k as [|k IH]; intros attempt le [|[r|e j] outs] tr Hinv; try done.
  cbn -[isRetryable getRetryDelayMs].
  assert (getRetryDelayMs (with_failover conf b) e attempt j = getRetryDelayMs conf e attempt j) as -> by done.
  destruct (isRetryable e && (attempt <? RETRY_MAX conf)) eqn:Er.
  { apply andb_true_iff in Er as [_ ?%Z.ltb_lt]. apply IH. unfold attempt_inv in *. lia. }
  assert (∀ b', bool_decide (err_status e = Some 429) && b' && (RETRY_MAX conf <=? attempt) = true →
                isRetryable e = true ∧ k = 0%nat) as Hlast.
  { intros b' Hb. apply andb_true_iff in Hb as [Hb H2]. apply andb_true_iff in Hb as [H1 _].
    apply bool_decide_eq_true in H1. apply Z.leb_le in H2. unfold attempt_inv in Hinv. split; [|lia].
    unfold isRetryable. rewrite H1, bool_decide_true; [done|set_solver]. }
  destruct (bool_decide (err_status e = Some 429) && b && _) eqn:Eb,
           (bool_decide (err_status e = Some 429) && FAILOVER_ON_429 conf && _) eqn:Ec; try done.
  - by destruct (Hlast _ Eb) as [-> ->].
  - by destruct (Hlast _ Ec) as [-> ->].
  - destruct (negb (isRetryable e)); [done|]. apply IH. unfold attempt_inv in *. lia.
Qed.

Lemma candidates_loop_failover conf b env req cands le outs tr :
  candidates_loop (with_failover conf b) env req cands le outs tr = candidates_loop conf env req cands le outs tr.
Proof.
  revert le outs tr. induction cands as [|c cs IH]; intros le outs tr; [done|]. cbn [candidates_loop].
  destruct (getProviderConfig _ _ _) as [cfg|]; [|apply IH]. destruct (str_truthy _); [|apply IH].
  rewrite attempt_loop_failover by exact (attempt_inv_start conf).
  destruct (attempt_loop _ _ _ _ _ _ _ _ _) as [[[[r|le'] outs'] tr']|]; auto.
Qed.

(** Two providers of a list with distinct names are the same when their
    names are. *)
Lemma names_nodup_eq (l : list ProviderConfig) p q :
  NoDup (name <$> l) → p ∈ l → q ∈ l → name p = name q → p = q.
Proof.
  induction l as [|x l IH]; intros Hnd Hp Hq Hn; [set_solver|]. rewrite fmap_cons in Hnd.
  apply NoDup_cons in Hnd as [Hx Hnd].
  apply elem_of_cons in Hp as [->|Hp], Hq as [->|Hq]; auto;
    destruct Hx; apply list_elem_of_fmap; eauto.
Qed.

(** ** Properties of the route *)

(** C27: The handler terminates: given an upstream outcome for each of the
    (providers + 1) * (RETRY_MAX + 1) calls it can make, it answers.  A
    request never waits on more upstream calls than that. *)
Theorem chat_terminates conf env req prov outs :
  (S (length (getAllProviders env (allowedProviders req))) * Z.to_nat (RETRY_MAX conf + 1) ≤ length outs)%nat →
  ∃ r outs' tr, chatCompletions conf env req prov outs = Some (r, outs', tr).
Proof.
  intros Hn. unfold chatCompletions. destruct prov as [p|]; [|eauto]. case_bool_decide; [eauto|].
  pose proof (orderedProviders_length (getAllProviders env (allowedProviders req)) p).
  destruct (candidates_loop_total conf env req (orderedProviders (getAllProviders env (allowedProviders req)) p)
              None outs empty_trace) as [[[r outs'] tr] ->]; [|eauto].
  etransitivity; [|exact Hn]. by apply Nat.mul_le_mono_r.
Qed.

(** Every upstream call consumes one outcome, and a request makes at
    most (providers + 1) * (RETRY_MAX + 1) of them: at most
    [RETRY_MAX + 1] attempts per candidate, the selected provider added
    to the list when it is not in it. *)
Theorem chat_calls_bounded conf env req prov outs r outs' tr :
  chatCompletions conf env req prov outs = Some (r, outs', tr) →
  (length (posts tr) + length outs' = length outs ∧
   length (posts tr) ≤ S (length (getAllProviders env (allowedProviders req))) * Z.to_nat (RETRY_MAX conf + 1))%nat.
Proof.
  intros H. apply chatCompletions_spec in H as (pre & ds & -> & Hl & Hp & _). simpl in Hp.
  rewrite length_app. lia.
Qed.

(** C31: The back-off is bounded: a request sleeps at most [RETRY_MAX]
    times per candidate, each time at most [RETRY_MAX_MS], so its total
    delay is at most (providers + 1) * RETRY_MAX * RETRY_MAX_MS
    milliseconds. *)
Theorem chat_backoff_bounded conf env req prov outs r outs' tr :
  0 ≤ RETRY_MAX_MS conf →
  chatCompletions conf env req prov outs = Some (r, outs', tr) →
  (length (sleeps tr) ≤ S (length (getAllProviders env (allowedProviders req))) * Z.to_nat (RETRY_MAX conf))%nat ∧
  foldr Z.add 0 (sleeps tr) ≤
    Z.of_nat (S (length (getAllProviders env (allowedProviders req))) * Z.to_nat (RETRY_MAX conf)) * RETRY_MAX_MS conf.
Proof.
  intros HM H. apply chatCompletions_spec in H as (pre & ds & _ & _ & _ & Hs & Hf & Hds & _).
  simpl in Hs. rewrite Hs. split; [done|].
  etransitivity; [by apply sum_le_bound|]. apply Z.mul_le_mono_nonneg_r; lia.
Qed.

(** C29: Every error answer is a JSON object [{error: {message, type}}],
    with a truthy message and type and at most a [code] besides, and its
    status is [500], [503] or the status of an upstream error of this
    request. *)
Theorem chat_error_shape conf env req prov outs st b outs' tr :
  chatCompletions conf env req prov outs = Some (ErrorReply st b, outs', tr) →
  error_shape b = true ∧ (st = 500 ∨ st = 503 ∨ ∃ e j, Rejected e j ∈ outs ∧ err_status e = Some st).
Proof. intros H. apply chatCompletions_spec in H as (_ & _ & _ & _ & _ & _ & _ & _ & Hr). by apply Hr. Qed.

(** C28: [PROXY_FAILOVER_ON_429=false] changes nothing: on every request
    and every upstream behaviour the handler answers, calls, records and
    sleeps the same with the switch on or off.  A 429 on the last attempt
    leaves the retry loop for the next provider either way. *)
Theorem failover_flag_ignored conf env req prov outs :
  chatCompletions (with_failover conf false) env req prov outs = chatCompletions (with_failover conf true) env req prov outs.
Proof. unfold chatCompletions. destruct prov; [|done]. by rewrite !candidates_loop_failover. Qed.

(** The candidates start with the selected provider; when a provider
    of that name is listed, they are the listed providers rotated, each
    tried once. *)
Theorem ordered_providers_rotation providers p :
  (∃ q rest, orderedProviders providers p = q :: rest ∧ name q = name p) ∧
  ((∃ q, q ∈ providers ∧ name q = name p) → orderedProviders providers p ≡ₚ providers).
Proof.
  unfold orderedProviders. destruct (list_find _ _) as [[i q]|] eqn:Ef.
  - apply list_find_Some in Ef as (Hi & Hq & _). split.
    + exists q, (drop (S i) providers ++ take i providers). by rewrite (drop_S _ _ _ Hi).
    + intros _. rewrite Permutation_app_comm. by rewrite take_drop.
  - split; [by exists p, (filter (λ q, name q ≠ name p) providers)|].
    intros (q & Hq & Hn). apply list_find_None in Ef. rewrite Forall_forall in Ef. by destruct (Ef q Hq).
Qed.

(** When the selected provider is listed and has a key, and its first
    call succeeds, the handler forwards that answer (status, non-empty
    headers, body or stream) after exactly one call, to the provider's
    completions URL with its key and model, one successful [recordRequest]
    and no sleep. *)
Theorem chat_first_success conf env req p r outs :
  p ∈ getAllProviders env (allowedProviders req) → str_truthy (apiKey p) = true → 0 ≤ RETRY_MAX conf →
  chatCompletions conf env req (Some p) (Resolved r :: outs) =
  Some (success_reply (wantsStream req) r, outs,
        {| telemetry := [(name p, true)]; sleeps := [];
           posts := [mk_post p (effectiveModel req p) (wantsStream req)] |}).
Proof.
  intros Hp Hk HR. unfold chatCompletions. rewrite bool_decide_false by (intros E; rewrite E in Hp; by apply elem_of_nil in Hp).
  pose proof (getAllProviders_nodup env (allowedProviders req)) as Hnd.
  unfold orderedProviders. destruct (list_find _ _) as [[i q]|] eqn:Ef.
  - apply list_find_Some in Ef as (Hi & Hq & _).
    rewrite <-(names_nodup_eq _ _ _ Hnd Hp (list_elem_of_lookup_2 _ _ _ Hi) (eq_sym Hq)) in Hi.
    rewrite (drop_S _ _ _ Hi), <-app_comm_cons. cbn [candidates_loop]. rewrite getProviderConfig_listed, Hk by done.
    replace (Z.to_nat (RETRY_MAX conf + 1)) with (S (Z.to_nat (RETRY_MAX conf))) by lia. done.
  - apply list_find_None in Ef. rewrite Forall_forall in Ef. by destruct (Ef p Hp).
Qed.

End Chat.
