(* ===== verification/ProxyScenarios.v ===== *)
(** * Scenarios of the AI proxy

    Concrete runs of [chatCompletions] on a proxy configured with one
    OpenAI key and two Groq keys, where every upstream call answers [503]
    with [retry-after: 2]: the handler tries the selected provider and
    both Groq keys three times each, sleeps two seconds between attempts,
    and answers with the last upstream error.  Each lemma applies a
    property of Proxy.v to such a run. *)

From S2P Require Import Prelude JsString JsMap Json Proxy.
From Stdlib Require Import String.
Import Proxy.Providers Proxy.Chat.
Local Abbreviation length := List.length.

Local Open Scope string_scope.
Local Open Scope list_scope.
Local Open Scope Z_scope.

Definition demo_env : Env :=
  {| OPENAI_API_KEY := Some "sk-1"; OPENAI_API_KEYS := None;
     ANTHROPIC_API_KEY := None; ANTHROPIC_API_KEYS := None;
     GROQ_API_KEY := None; GROQ_API_KEYS := Some " g1 , g2,,";
     GROQ_DEFAULT_MODEL := None; OPENAI_DEFAULT_MODEL := None;
     ANTHROPIC_DEFAULT_MODEL := None; ALLOWED_PROVIDERS := None |}.

Definition demo_openai : ProviderConfig :=
  {| name := "openai"; baseURL := "https://api.openai.com/v1"; apiKey := "sk-1";
     defaultModel := "gpt-4o-mini"; timeout := 60000; enabled := true |}.

Definition demo_req : Request :=
  {| body_model := Some (JStr "auto"); body_stream := Some (JBool false); allowedProviders := None |}.

Definition demo_503 : AxiosError :=
  {| err_response := Some {| status := 503; headers := [("retry-after", "2")]; data := JNull |};
     err_code := None; err_request := true; err_message := "Request failed with status code 503" |}.

Definition demo_outs : list Outcome := repeat (Rejected demo_503 42) 12.

Definition demo_ok : UpstreamResponse :=
  {| status := 200; headers := [("content-type", "application/json"); ("x-empty", "")];
     data := JObj [("id", JStr "chatcmpl-1")] |}.

Definition demo_reply : Reply :=
  Eval vm_compute in
  match chatCompletions default_conf demo_env demo_req (Some demo_openai) demo_outs with
  | Some (r, _, _) => r | None => no_providers_reply
  end.

Definition demo_trace : Trace :=
  Eval vm_compute in
  match chatCompletions default_conf demo_env demo_req (Some demo_openai) demo_outs with
  | Some (_, _, tr) => tr | None => empty_trace
  end.

Definition demo_left : list Outcome := repeat (Rejected demo_503 42) 3.

Lemma demo_run : chatCompletions default_conf demo_env demo_req (Some demo_openai) demo_outs =
                 Some (demo_reply, demo_left, demo_trace).
Proof. vm_compute. reflexivity. Qed.

Definition demo_error_body : json :=
  Eval vm_compute in match demo_reply with ErrorReply _ b => b | _ => JNull end.

Lemma demo_reply_eq : demo_reply = ErrorReply 503 demo_error_body.
Proof. reflexivity. Qed.

(** The keys of the Groq list are trimmed and valid. *)
Lemma parse_key_list_valid_witness :
  "g1" ∈ parseKeyList None (Some " g1 , g2,,") "" ∧
  trim "g1" = "g1" ∧ (str_truthy "g1" = true → isValidKey (Some "g1") "" = true).
Proof. split; [vm_decide|]. apply (parse_key_list_valid None (Some " g1 , g2,,") ""). vm_decide. Defined.

(** The OpenAI provider is listed and is its own configuration. *)
Lemma all_providers_configured_witness :
  demo_openai ∈ getAllProviders demo_env None ∧ getProviderConfig demo_env "openai" None = Some demo_openai.
Proof. split; [vm_decide|]. apply (proj2 (all_providers_configured demo_env None) demo_openai). vm_decide. Defined.

(** Twelve outcomes are enough for three providers and three attempts. *)
Lemma chat_terminates_witness :
  (S (length (getAllProviders demo_env (allowedProviders demo_req))) * Z.to_nat (RETRY_MAX default_conf + 1)
     ≤ length demo_outs)%nat ∧
  ∃ r outs' tr, chatCompletions default_conf demo_env demo_req (Some demo_openai) demo_outs = Some (r, outs', tr).
Proof. split; [vm_compute; lia|]. apply chat_terminates. vm_compute. lia. Defined.

(** Nine calls, three outcomes left. *)
Lemma chat_calls_bounded_witness :
  (length (posts demo_trace) + length demo_left = length demo_outs ∧
   length (posts demo_trace) ≤
     S (length (getAllProviders demo_env (allowedProviders demo_req))) * Z.to_nat (RETRY_MAX default_conf + 1))%nat.
Proof. apply (chat_calls_bounded default_conf demo_env demo_req (Some demo_openai) demo_outs demo_reply). apply demo_run. Defined.

(** Six sleeps of two seconds, within 4 * 2 * 4000 ms. *)
Lemma chat_backoff_bounded_witness :
  0 ≤ RETRY_MAX_MS default_conf ∧
  (length (sleeps demo_trace) ≤ S (length (getAllProviders demo_env (allowedProviders demo_req))) *
                                Z.to_nat (RETRY_MAX default_conf))%nat ∧
  foldr Z.add 0 (sleeps demo_trace) ≤
    Z.of_nat (S (length (getAllProviders demo_env (allowedProviders demo_req))) * Z.to_nat (RETRY_MAX default_conf)) *
    RETRY_MAX_MS default_conf.
Proof.
  split; [vm_compute; congruence|].
  apply (chat_backoff_bounded default_conf demo_env demo_req (Some demo_openai) demo_outs demo_reply demo_left);
    [vm_compute; congruence|apply demo_run].
Defined.

(** The last upstream error, [503], is the answer. *)
Lemma chat_error_shape_witness :
  error_shape demo_error_body = true ∧
  (503 = 500 ∨ 503 = 503 ∨ ∃ e j, Rejected e j ∈ demo_outs ∧ err_status e = Some 503).
Proof.
  apply (chat_error_shape default_conf demo_env demo_req (Some demo_openai) demo_outs 503 demo_error_body demo_left
           demo_trace).
  rewrite <-demo_reply_eq. apply demo_run.
Defined.

(** The selected provider is listed: the candidates are a rotation. *)
Lemma ordered_providers_rotation_witness :
  demo_openai ∈ getAllProviders demo_env None ∧
  orderedProviders (getAllProviders demo_env None) demo_openai ≡ₚ getAllProviders demo_env None.
Proof.
  split; [vm_decide|]. apply (proj2 (ordered_providers_rotation (getAllProviders demo_env None) demo_openai)).
  exists demo_openai. split; [vm_decide|done].
Defined.

(** A first call that succeeds is forwarded. *)
Lemma chat_first_success_witness :
  demo_openai ∈ getAllProviders demo_env (allowedProviders demo_req) ∧
  chatCompletions default_conf demo_env demo_req (Some demo_openai) (Resolved demo_ok :: demo_outs) =
  Some (Forwarded 200 [("content-type", "application/json")] (JObj [("id", JStr "chatcmpl-1")]), demo_outs,
        {| telemetry := [("openai", true)]; sleeps := [];
           posts := [mk_post demo_openai (JStr "gpt-4o-mini") false] |}).
Proof.
  split; [vm_decide|].
  apply (chat_first_success default_conf demo_env demo_req demo_openai demo_ok demo_outs);
    [vm_decide|reflexivity|vm_compute; congruence].
Defined.

(** A blank [OPENAI_API_KEY] makes a provider [openai] with the empty key:
    it is listed, selected, and then reported as not configured. *)
Definition blank_env : Env :=
  {| OPENAI_API_KEY := Some " "; OPENAI_API_KEYS := None;
     ANTHROPIC_API_KEY := None; ANTHROPIC_API_KEYS := None;
     GROQ_API_KEY := None; GROQ_API_KEYS := None;
     GROQ_DEFAULT_MODEL := None; OPENAI_DEFAULT_MODEL := None;
     ANTHROPIC_DEFAULT_MODEL := None; ALLOWED_PROVIDERS := None |}.

Definition blank_openai : ProviderConfig :=
  {| name := "openai"; baseURL := "https://api.openai.com/v1"; apiKey := "";
     defaultModel := "gpt-4o-mini"; timeout := 60000; enabled := true |}.

Lemma blank_key_not_configured :
  getAllProviders blank_env None = [blank_openai] ∧
  chatCompletions default_conf blank_env demo_req (Some blank_openai) [] =
  Some (ErrorReply 500 (error_json (JStr "Provider openai not configured") (JStr "internal_error") None), [],
        {| telemetry := [("openai", false)]; sleeps := []; posts := [] |}).
Proof. split; vm_compute; reflexivity. Qed.
