(* ===== verification/SettingsTabs.v ===== *)
(** * The workspace and backup settings tabs

    [src/tlink-settings/src/components/workspaceSettingsTab.component.ts]
    and [backupSettingsTab.component.ts]: two Angular components that
    show the state of [WorkspaceService] and [BackupService] and call
    their methods.  Each component is a record of its fields.  Each of
    its methods is a function of the component, the service's state
    ([ws_state] of Workspace.v, [bk_state] of Backup.v) and the user's
    answers (prompt, [confirm], file pickers).  It returns the new
    component and service, and [Err] for a promise it leaves rejected.

    The notifications the tabs show are a list of [note]s.  Their text is
    the translation key, since translation is not modelled.
    [formatDate] ([toLocaleString]) and the templates (not in the
    repository) are not modelled: the user's clicks are the calls of the
    methods.

    The theorems:
    - while only the workspace tab changes the workspaces, it lists the
      stored workspaces and its selection is one of them;
    - saving the current workspace from the tab appends it and selects
      it, while a store that is not ready is swallowed by the catch
      meant for a cancelled prompt;
    - the interval and retention the backup tab writes are at least 1,
      so an automatic-backup period is at least a minute. *)

From S2P Require Import Prelude JsString Json Base64 Workspace Backup.
From Stdlib Require Import String.
Local Abbreviation length := List.length.

Local Open Scope string_scope.
Local Open Scope list_scope.
Local Open Scope Z_scope.

(** [notifications.notice(text)] and [notifications.error(text)]. *)
Inductive note :=
| Notice (msg : string)
| ErrorNote (msg : string).

Module WorkspaceTab.

(** [WorkspaceSettingsTabComponent]'s fields. *)
Record wtab := WTab {
  workspaces : list workspace;
  selectedWorkspace : option workspace;
  notes : list note
}.

Definition notify (n : note) (t : wtab) : wtab :=
  WTab (workspaces t) (selectedWorkspace t) (notes t ++ [n]).

Definition select (w : option workspace) (t : wtab) : wtab :=
  WTab (workspaces t) w (notes t).

(** [loadWorkspaces()] *)
Definition loadWorkspaces (t : wtab) (s : ws_state) : wtab * ws_state :=
  let '(s1, l) := getWorkspaces s in (WTab l (selectedWorkspace t) (notes t), s1).

(** The constructor: [loadWorkspaces()]. *)
Definition wtab_init (s : ws_state) : wtab * ws_state := loadWorkspaces (WTab [] None []) s.

(** What the prompt modal gives: [None] when it is dismissed ([modal.result]
    rejects), [Some None] for a result without a value, [Some (Some v)]
    for the text typed. *)
Definition prompt_answer := option (option string).

(** [result && result.value && result.value.trim()]: the trimmed text
    when it is not blank. *)
Definition prompt_text (ans : prompt_answer) : option string :=
  match ans with
  | Some (Some v) => if str_truthy (trim v) then Some (trim v) else None
  | _ => None
  end.

(** [saveCurrentWorkspace()]: save under the trimmed name, notify,
    reload and select.  The [catch] meant for a cancelled prompt also
    catches a rejected [saveWorkspace]. *)
Definition saveCurrentWorkspace (ans : prompt_answer) (uuid : string) (now : Z) (t : wtab) (s : ws_state) :
    wtab * ws_state :=
  match prompt_text ans with
  | Some name =>
      match saveWorkspace (Some (JStr name)) (Some (JStr "")) (JBool false) None uuid now s with
      | (s1, Ok w) =>
          let '(t1, s2) := loadWorkspaces (notify (Notice "Workspace saved") t) s1 in
          (select (Some w) t1, s2)
      | (s1, Err _) => (t, s1)
      end
  | None => (t, s)
  end.

Section Tab.

(** [tabRecovery.recoverTab], as in [Workspace.loadWorkspace]. *)
Variable recoverTab : json → option app_tab.

(** [loadWorkspace(workspace)]: a rejected [loadWorkspace] of the service
    rejects the handler. *)
Definition tab_loadWorkspace (w : workspace) (t : wtab) (s : ws_state) : wtab * ws_state * result string unit :=
  match Workspace.loadWorkspace recoverTab (ws_id w) s with
  | (s1, Ok true) => (notify (Notice "Workspace loaded: {name}") t, s1, Ok ())
  | (s1, Ok false) => (notify (ErrorNote "Failed to load workspace") t, s1, Ok ())
  | (s1, Err e) => (t, s1, Err e)
  end.

End Tab.

(** [deleteWorkspace(workspace)] after [confirm] answered [ok]: notify,
    reload, and clear the selection when it was that workspace. *)
Definition tab_deleteWorkspace (ok : bool) (w : workspace) (t : wtab) (s : ws_state) :
    wtab * ws_state * result string unit :=
  if ok then
    match Workspace.deleteWorkspace (ws_id w) s with
    | (s1, Ok true) =>
        let '(t1, s2) := loadWorkspaces (notify (Notice "Workspace deleted") t) s1 in
        let t2 := if bool_decide ((ws_id <$> selectedWorkspace t1) = Some (ws_id w)) then select None t1 else t1 in
        (t2, s2, Ok ())
    | (s1, Ok false) => (notify (ErrorNote "Failed to delete workspace") t, s1, Ok ())
    | (s1, Err e) => (t, s1, Err e)
    end
  else (t, s, Ok ()).

(** [shareWorkspace(workspace)] *)
Definition shareWorkspace (w : workspace) (t : wtab) (s : ws_state) : wtab * ws_state :=
  match copyShareableUrl (ws_id w) s with
  | (s1, true) => (notify (Notice "Workspace shareable URL copied to clipboard") t, s1)
  | (s1, false) => (notify (ErrorNote "Failed to generate shareable URL") t, s1)
  end.

(** [importWorkspaceFromUrl()] *)
Definition importWorkspaceFromUrl (ans : prompt_answer) (uuid : string) (now : Z) (t : wtab) (s : ws_state) :
    wtab * ws_state :=
  match prompt_text ans with
  | Some u =>
      match importFromUrl u uuid now s with
      | (s1, Some w) =>
          let '(t1, s2) := loadWorkspaces (notify (Notice "Workspace imported: {name}") t) s1 in
          (select (Some w) t1, s2)
      | (s1, None) => (notify (ErrorNote "Failed to import workspace") t, s1)
      end
  | None => (t, s)
  end.

(** [platform.setClipboard({ text })] *)
Definition set_clipboard (text : string) (s : ws_state) : ws_state :=
  WsState (st_store s) (st_saved s) (st_tabs s) (Some text).

(** [exportWorkspace(workspace)]: the JSON goes to the clipboard. *)
Definition tab_exportWorkspace (w : workspace) (iso : string) (t : wtab) (s : ws_state) : wtab * ws_state :=
  match Workspace.exportWorkspace (ws_id w) iso s with
  | (s1, Some json) =>
      if str_truthy json then (notify (Notice "Workspace exported to clipboard") t, set_clipboard json s1)
      else (notify (ErrorNote "Failed to export workspace") t, s1)
  | (s1, None) => (notify (ErrorNote "Failed to export workspace") t, s1)
  end.

(** The tab's methods, called one after the other on a workspace of its
    list; ids drawn for new workspaces are fresh. *)
Inductive wtab_step : wtab * ws_state → wtab * ws_state → Prop :=
| WtSave ans uuid now t s :
    uuid ∉ ws_id <$> ws_list s → wtab_step (t, s) (saveCurrentWorkspace ans uuid now t s)
| WtLoad rt w t s : w ∈ workspaces t → wtab_step (t, s) (tab_loadWorkspace rt w t s).1
| WtDelete ok w t s : w ∈ workspaces t → wtab_step (t, s) (tab_deleteWorkspace ok w t s).1
| WtShare w t s : w ∈ workspaces t → wtab_step (t, s) (shareWorkspace w t s)
| WtImport ans uuid now t s :
    uuid ∉ ws_id <$> ws_list s → wtab_step (t, s) (importWorkspaceFromUrl ans uuid now t s)
| WtExport w iso t s : w ∈ workspaces t → wtab_step (t, s) (tab_exportWorkspace w iso t s).

(** ** What the service calls do to the stored list *)

Lemma save_result name d sh tm uuid now s s1 r :
  saveWorkspace name d sh tm uuid now s = (s1, r) →
  match r with Ok w => ws_list s1 = ws_list s ++ [w] | Err _ => ws_list s1 = ws_list s end.
Proof.
  destruct (st_store s) as [cs|] eqn:E.
  - destruct (saveWorkspace_stored name d sh tm uuid now s cs E) as (s' & -> & H & _).
    intros [= <- <-]. by rewrite H.
  - unfold saveWorkspace. rewrite ensure_no_store by done. unfold stored_workspaces. rewrite E.
    by intros [= <- <-].
Qed.

Lemma save_id name d sh tm uuid now s s1 w : saveWorkspace name d sh tm uuid now s = (s1, Ok w) → ws_id w = uuid.
Proof. unfold saveWorkspace. destruct (stored_workspaces (ensureWorkspacesConfig s)); intros; by simplify_eq. Qed.

Lemma import_result u uuid now s s1 o :
  importFromUrl u uuid now s = (s1, o) →
  match o with Some w => ws_list s1 = ws_list s ++ [w] | None => ws_list s1 = ws_list s end.
Proof.
  unfold importFromUrl. destruct (_ ≫= _) as [w|e]; [|by intros [= <- <-]].
  destruct (st_store s) as [cs|] eqn:E.
  - rewrite push_imported_ok by eauto. intros [= <- <-].
    rewrite ws_list_write; [done|]. apply ensure_store_some. by rewrite E.
  - unfold push_imported, catch_null. rewrite !ensure_no_store by done. unfold stored_workspaces.
    rewrite E. simpl. rewrite E. by intros [= <- <-].
Qed.

Lemma delete_result id s s1 r :
  Workspace.deleteWorkspace id s = (s1, r) →
  match r with
  | Ok true => ∃ i w0, find_ws id (ws_list s) = Some (i, w0) ∧ ws_list s1 = delete i (ws_list s)
  | _ => ws_list s1 = ws_list s
  end.
Proof.
  rewrite deleteWorkspace_eq. destruct (find_ws id (ws_list s)) as [[i w0]|] eqn:Hf;
    [|intros [= <- <-]; apply ws_list_ensure].
  destruct (st_store s) as [cs|] eqn:E; [|by rewrite (ws_list_no_store s E) in Hf].
  assert (ws_list s = default [] (cs_workspaces cs)) as Hl by (by rewrite (ws_list_stored s cs E)).
  rewrite (ensure_stored s cs E). intros [= <- <-]. exists i, w0. split; [done|].
  rewrite ws_list_write, Hl; [done|]. apply ensure_store_some. by rewrite E.
Qed.

(** An element other than the one at [i] survives [delete i]. *)
Lemma elem_of_delete_other {A} (l : list A) i x y : x ∈ l → l !! i = Some y → x ≠ y → x ∈ delete i l.
Proof.
  revert i. induction l as [|z l IH]; intros i Hx Hi Hne; [by apply elem_of_nil in Hx|].
  destruct i as [|i]; simpl in *.
  - simplify_eq. apply elem_of_cons in Hx as [->|]; [done|done].
  - apply elem_of_cons in Hx as [->|Hx]; [by left|right; eauto].
Qed.

Lemma loadWorkspaces_eq t s :
  loadWorkspaces t s = (WTab (ws_list s) (selectedWorkspace t) (notes t), ensureWorkspacesConfig s).
Proof. reflexivity. Qed.

(** The tab agrees with the service: it lists the stored workspaces, its
    selection is one of them, and their ids are distinct. *)
Definition wtab_ok (ts : wtab * ws_state) : Prop :=
  workspaces ts.1 = ws_list ts.2 ∧ (∀ w, selectedWorkspace ts.1 = Some w → w ∈ ws_list ts.2) ∧
  NoDup (ws_id <$> ws_list ts.2).

(** A call that keeps the stored list and only adds notes keeps the
    agreement. *)
Lemma wtab_ok_keep t s t' s' :
  workspaces t' = workspaces t → selectedWorkspace t' = selectedWorkspace t → ws_list s' = ws_list s →
  wtab_ok (t, s) → wtab_ok (t', s').
Proof. intros H1 H2 H3 (Ha & Hb & Hc). unfold wtab_ok; simpl in *. rewrite H1, H2, H3. auto. Qed.

(** A call that appends [w] with a fresh id, reloads and selects it. *)
Lemma wtab_ok_append t s s1 w n :
  ws_list s1 = ws_list s ++ [w] → ws_id w ∉ ws_id <$> ws_list s →
  wtab_ok (t, s) → wtab_ok (let '(t1, s2) := loadWorkspaces (notify n t) s1 in (select (Some w) t1, s2)).
Proof.
  intros Hl Hf (_ & _ & Hnd). rewrite loadWorkspaces_eq. unfold wtab_ok.
  cbn [fst snd workspaces selectedWorkspace select]. rewrite ws_list_ensure, Hl.
  split_and!; [done|intros w' [= <-]; set_solver|].
  rewrite fmap_app. apply NoDup_app. split_and!; [done| |by apply NoDup_singleton].
  intros x Hx ->%list_elem_of_singleton. done.
Qed.

#[local] Hint Resolve wtab_ok_keep : tlink.

Lemma wtab_step_ok a b : wtab_step a b → wtab_ok a → wtab_ok b.
Proof.
  destruct 1 as [ans uuid now t s Hf|rt w t s _|ok w t s _|w t s _|ans uuid now t s Hf|w iso t s _]; intros Hok.
  - unfold saveCurrentWorkspace. destruct (prompt_text ans); [|done].
    destruct (saveWorkspace _ _ _ _ _ _ _) as [s1 [w|e]] eqn:Hs; pose proof (save_result _ _ _ _ _ _ _ _ _ Hs) as Hl.
    + apply (wtab_ok_append t s); [done| |done]. by rewrite (save_id _ _ _ _ _ _ _ _ _ Hs).
    + eapply wtab_ok_keep; [done|done|exact Hl|done].
  - unfold tab_loadWorkspace. pose proof (load_keeps rt (ws_id w) s) as Hl.
    destruct (Workspace.loadWorkspace _ _ _) as [s1 [[]|e]]; eauto with tlink.
  - unfold tab_deleteWorkspace. destruct ok; [|done].
    destruct (Workspace.deleteWorkspace _ _) as [s1 r] eqn:Hd.
    pose proof (delete_ids (ws_id w) s) as Hsub. rewrite Hd in Hsub. apply delete_result in Hd.
    destruct r as [[]|e]; [|eauto with tlink..].
    destruct Hd as (i & w0 & Hfind & Hl). destruct Hok as (_ & Hsel & Hnd).
    apply list_find_Some in Hfind as (Hi & Hid & _).
    rewrite loadWorkspaces_eq. cbn [fst snd]. unfold wtab_ok.
    case_bool_decide as Hs; cbn [fst snd workspaces selectedWorkspace select notify] in *;
      rewrite ws_list_ensure, Hl; split_and!; try done.
    + rewrite <-Hl. eapply sublist_NoDup; [exact Hnd|exact Hsub].
    + intros w' Hw'. eapply elem_of_delete_other; [by apply Hsel|exact Hi|].
      intros ->. apply Hs. rewrite Hw'. simpl. by rewrite Hid.
    + rewrite <-Hl. eapply sublist_NoDup; [exact Hnd|exact Hsub].
  - unfold shareWorkspace. pose proof (copy_keeps (ws_id w) s) as Hl.
    destruct (copyShareableUrl _ _) as [s1 []]; eauto with tlink.
  - unfold importWorkspaceFromUrl. destruct (prompt_text ans); [|done].
    destruct (importFromUrl _ _ _ _) as [s1 [w|]] eqn:Hi; pose proof (import_result _ _ _ _ _ _ Hi) as Hl.
    + apply (wtab_ok_append t s); [done| |done]. pose proof (import_url_appends s0 uuid now s) as Ha.
      rewrite Hi in Ha. destruct Ha as [Ha|(w' & Hw' & Ha)]; cbn [fst] in Ha.
      * rewrite Ha in Hl. apply (f_equal length) in Hl. rewrite length_app in Hl. simpl in Hl. lia.
      * rewrite Ha in Hl. apply app_inv_head in Hl. injection Hl as ->. by rewrite Hw'.
    + eapply wtab_ok_keep; [done|done|exact Hl|done].
  - unfold tab_exportWorkspace. pose proof (export_keeps (ws_id w) iso s) as Hl.
    destruct (Workspace.exportWorkspace _ _ _) as [s1 [json|]]; [|eauto with tlink].
    destruct (str_truthy json); [|eauto with tlink].
    eapply wtab_ok_keep; [done|done| |done]. transitivity (ws_list s1); [by apply ws_list_same_store|exact Hl].
Qed.

(** C35: While only the workspace settings tab changes the workspaces, the
    tab agrees with [WorkspaceService]: from its construction on, through
    any sequence of its methods (save, load, delete, share, import,
    export), it lists exactly the stored workspaces, its selected
    workspace is one of them, and their ids stay distinct. *)
Theorem wtab_consistent s0 ts :
  NoDup (ws_id <$> ws_list s0) → rtc wtab_step (wtab_init s0) ts → wtab_ok ts.
Proof.
  intros Hnd. apply rtc_preserve; [apply wtab_step_ok|].
  unfold wtab_init, wtab_ok. rewrite loadWorkspaces_eq. cbn [fst snd workspaces selectedWorkspace].
  rewrite ws_list_ensure. split_and!; [done|done|done].
Qed.

(** C36: "Save current workspace" with a non-blank name and a ready store
    saves a workspace with a fresh id named by the trimmed text, appends
    it to the stored list, persists the store, shows "Workspace saved",
    lists it and selects it.  A cancelled or blank prompt changes nothing,
    and so does a store that is not ready: the rejection of [saveWorkspace]
    is caught by the [catch] meant for a cancelled prompt, and no error is
    shown. *)
Theorem save_current_workspace_spec ans uuid now t s :
  match prompt_text ans, st_store s with
  | Some name, Some _ =>
      ∃ t' s' w, saveCurrentWorkspace ans uuid now t s = (t', s') ∧ selectedWorkspace t' = Some w ∧
        ws_id w = uuid ∧ ws_name w = Some (JStr name) ∧ ws_list s' = ws_list s ++ [w] ∧
        st_saved s' = st_store s' ∧
        workspaces t' = ws_list s' ∧ notes t' = notes t ++ [Notice "Workspace saved"]
  | _, _ => saveCurrentWorkspace ans uuid now t s = (t, s)
  end.
Proof.
  unfold saveCurrentWorkspace. destruct (prompt_text ans) as [name|]; [|by destruct (st_store s)].
  destruct (st_store s) as [cs|] eqn:E.
  - destruct (saveWorkspace_stored (Some (JStr name)) (Some (JStr "")) (JBool false) None uuid now s cs E)
      as (s' & Hs & Hg & Hsaved & _).
    pose proof (f_equal snd Hg) as Hl. pose proof (f_equal fst Hg) as He. cbn [fst snd] in Hl, He.
    rewrite getWorkspaces_eq in He. cbn [fst] in He.
    rewrite Hs, loadWorkspaces_eq, He. eexists _, _, _. split; [reflexivity|]. split; [reflexivity|].
    cbn [fst snd workspaces selectedWorkspace notes select notify ws_id ws_name]. by rewrite Hl.
  - unfold saveWorkspace. rewrite ensure_no_store by done. unfold stored_workspaces. by rewrite E.
Qed.

End WorkspaceTab.

Module BackupTab.

(** [BackupSettingsTabComponent]'s fields. *)
Record btab := BTab {
  backups : list backup;
  backupConfig : backup_config;
  selectedBackup : option backup;
  creatingBackup : bool;
  restoringBackup : bool;
  notes : list note
}.

(** The fields' initial values. *)
Definition btab_new : btab := BTab [] default_backup_config None false false [].

Definition set_backups (l : list backup) (t : btab) : btab :=
  BTab l (backupConfig t) (selectedBackup t) (creatingBackup t) (restoringBackup t) (notes t).
Definition set_backupConfig (c : backup_config) (t : btab) : btab :=
  BTab (backups t) c (selectedBackup t) (creatingBackup t) (restoringBackup t) (notes t).
Definition set_selected (b : option backup) (t : btab) : btab :=
  BTab (backups t) (backupConfig t) b (creatingBackup t) (restoringBackup t) (notes t).
Definition set_creating (c : bool) (t : btab) : btab :=
  BTab (backups t) (backupConfig t) (selectedBackup t) c (restoringBackup t) (notes t).
Definition set_restoring (r : bool) (t : btab) : btab :=
  BTab (backups t) (backupConfig t) (selectedBackup t) (creatingBackup t) r (notes t).
Definition notify (n : note) (t : btab) : btab :=
  BTab (backups t) (backupConfig t) (selectedBackup t) (creatingBackup t) (restoringBackup t) (notes t ++ [n]).

(** The [BackupConfig] with one setting changed, as [ngModel] does. *)
Definition with_interval (v : Z) (c : backup_config) : backup_config :=
  BackupConfig (bc_enabled c) v (bc_retention c) (bc_includeWorkspaces c) (bc_includeConfig c) (bc_includeProfiles c).
Definition with_retention (v : Z) (c : backup_config) : backup_config :=
  BackupConfig (bc_enabled c) (bc_interval c) v (bc_includeWorkspaces c) (bc_includeConfig c) (bc_includeProfiles c).

(** [loadBackupConfig()]: a copy of the service's settings. *)
Definition tab_loadBackupConfig (t : btab) (s : bk_state) : btab := set_backupConfig (getBackupConfig s) t.

(** [loadBackups()] *)
Definition loadBackups (t : btab) (s : bk_state) : btab := set_backups (getBackups s) t.

(** [ngOnInit()], once the configuration is ready; the subscription to
    [backupsChanged] is [onBackupsChanged]. *)
Definition ngOnInit (t : btab) (s : bk_state) : btab := loadBackups (tab_loadBackupConfig t s) s.

(** The [backupsChanged] subscription. *)
Definition onBackupsChanged (t : btab) (s : bk_state) : btab := loadBackups t s.

(** [formatSize(bytes)]: [toFixed(2)] of an exact quotient rounds half
    up to hundredths. *)
Definition two_decimals (n : Z) : string :=
  z_to_string (n / 100) +:+ "." +:+ (if bool_decide (n mod 100 < 10) then "0" else "") +:+ z_to_string (n mod 100).

Definition formatSize (bytes : Z) : string :=
  if bool_decide (bytes < 1024) then z_to_string bytes +:+ " B"
  else if bool_decide (bytes < 1024 * 1024) then two_decimals ((bytes * 100 + 512) / 1024) +:+ " KB"
  else two_decimals ((bytes * 100 + 524288) / 1048576) +:+ " MB".

Section Tab.

Variable env : backup_env.

(** [toggleAutomaticBackups()]: the tab's copy decides which way. *)
Definition toggleAutomaticBackups (now : Z) (t : btab) (s : bk_state) : btab * bk_state :=
  if bc_enabled (backupConfig t) then
    let s1 := disableAutomaticBackups s in
    (tab_loadBackupConfig (notify (Notice "Automatic backups disabled") t) s1, s1)
  else
    let s1 := enableAutomaticBackups env now s in
    (tab_loadBackupConfig (notify (Notice "Automatic backups enabled") t) s1, s1).

(** [updateBackupInterval()]: at least 1 minute. *)
Definition updateBackupInterval (now : Z) (t : btab) (s : bk_state) : btab * bk_state :=
  let t1 := if bool_decide (bc_interval (backupConfig t) < 1)
            then set_backupConfig (with_interval 1 (backupConfig t)) t else t in
  let s1 := updateBackupConfig env
              (BcUpdates None (Some (bc_interval (backupConfig t1))) None None None None) now s in
  (notify (Notice "Backup interval updated") t1, s1).

(** [updateBackupRetention()]: at least 1 day. *)
Definition updateBackupRetention (now : Z) (t : btab) (s : bk_state) : btab * bk_state :=
  let t1 := if bool_decide (bc_retention (backupConfig t) < 1)
            then set_backupConfig (with_retention 1 (backupConfig t)) t else t in
  let s1 := updateBackupConfig env
              (BcUpdates None None (Some (bc_retention (backupConfig t1))) None None None) now s in
  (notify (Notice "Backup retention updated") t1, s1).

(** [toggleIncludeWorkspaces()], [toggleIncludeConfig()],
    [toggleIncludeProfiles()]: write the tab's checkbox. *)
Definition toggleIncludeWorkspaces (now : Z) (t : btab) (s : bk_state) : btab * bk_state :=
  (notify (Notice "Backup configuration updated") t,
   updateBackupConfig env (BcUpdates None None None (Some (bc_includeWorkspaces (backupConfig t))) None None) now s).

Definition toggleIncludeConfig (now : Z) (t : btab) (s : bk_state) : btab * bk_state :=
  (notify (Notice "Backup configuration updated") t,
   updateBackupConfig env (BcUpdates None None None None (Some (bc_includeConfig (backupConfig t))) None) now s).

Definition toggleIncludeProfiles (now : Z) (t : btab) (s : bk_state) : btab * bk_state :=
  (notify (Notice "Backup configuration updated") t,
   updateBackupConfig env (BcUpdates None None None None None (Some (bc_includeProfiles (backupConfig t)))) now s).

(** [createManualBackup()]: a silent backup, selected and listed;
    [creatingBackup] is reset in [finally]. *)
Definition createManualBackup (now : Z) (t : btab) (s : bk_state) : btab * bk_state :=
  let t0 := set_creating true t in
  match createBackup env true now s with
  | (s1, Ok b) =>
      (set_creating false (loadBackups (set_selected (Some b) (notify (Notice "Backup created: {name}") t0)) s1), s1)
  | (s1, Err _) => (set_creating false (notify (ErrorNote "Failed to create backup: {error}") t0), s1)
  end.

(** [restoreBackup(backup)] after [confirm] answered [ok]. *)
Definition tab_restoreBackup (ok : bool) (b : backup) (now : Z) (t : btab) (s : bk_state) : btab * bk_state :=
  if ok then
    let t0 := set_restoring true t in
    match Backup.restoreBackup env (bk_id b) now s with
    | (s1, Ok _) =>
        (set_restoring false
           (notify (Notice "Backup restored successfully. Please restart the app for changes to take effect.")
              (loadBackups t0 s1)), s1)
    | (s1, Err _) => (set_restoring false (notify (ErrorNote "Failed to restore backup: {error}") t0), s1)
    end
  else (t, s).

(** [deleteBackup(backup)] after [confirm] answered [ok]. *)
Definition tab_deleteBackup (ok : bool) (b : backup) (t : btab) (s : bk_state) : btab * bk_state :=
  if ok then
    match Backup.deleteBackup env (bk_id b) s with
    | (s1, Ok _) =>
        let t1 := loadBackups (notify (Notice "Backup deleted") t) s1 in
        (if bool_decide ((bk_id <$> selectedBackup t1) = Some (bk_id b)) then set_selected None t1 else t1, s1)
    | (s1, Err _) => (notify (ErrorNote "Failed to delete backup: {error}") t, s1)
    end
  else (t, s).

(** [exportBackup(backup)]: [picked] is the save dialog's [filePath],
    [None] when it is cancelled. *)
Definition tab_exportBackup (picked : option string) (b : backup) (t : btab) (s : bk_state) : btab * bk_state :=
  if negb (env_ipc env) then (notify (ErrorNote "IPC not available") t, s) else
  match picked with
  | Some path =>
      if str_truthy path then
        match Backup.exportBackup env (bk_id b) path s with
        | (s1, Ok _) => (notify (Notice "Backup exported successfully") t, s1)
        | (s1, Err _) => (notify (ErrorNote "Failed to export backup: {error}") t, s1)
        end
      else (t, s)
  | None => (t, s)
  end.

(** [importBackup()]: [picked] is the open dialog's [filePaths], [None]
    when it is cancelled. *)
Definition tab_importBackup (picked : option (list string)) (now : Z) (t : btab) (s : bk_state) : btab * bk_state :=
  if negb (env_ipc env) then (notify (ErrorNote "IPC not available") t, s) else
  match picked with
  | Some (path :: _) =>
      match Backup.importBackup env path now s with
      | (s1, Ok b) => (loadBackups (set_selected (Some b) (notify (Notice "Backup imported: {name}") t)) s1, s1)
      | (s1, Err _) => (notify (ErrorNote "Failed to import backup: {error}") t, s1)
      end
  | _ => (t, s)
  end.

End Tab.

(** ** The settings the tab writes *)

Lemma start_config env skip now s : b_config (startAutomaticBackups env skip now s) = b_config s.
Proof.
  unfold startAutomaticBackups, stopAutomaticBackups. destruct (bc_enabled _); [|done].
  destruct skip; [done|]. simpl. by destruct (create_frame env false now (set_timer None s)) as [(-> & _) _].
Qed.

(** [updateBackupConfig] merges the update into the settings and leaves
    the timer as the settings say. *)
Lemma updateBackupConfig_spec env u now s :
  b_config (updateBackupConfig env u now s) = merge_config (b_config s) u ∧
  timer_matches (updateBackupConfig env u now s).
Proof.
  unfold updateBackupConfig. destruct (saveBackupConfig_frame (set_config (merge_config (b_config s) u) s)) as (Hc & _).
  destruct (bc_enabled _) eqn:He.
  - split; [by rewrite start_config|apply start_matches].
  - unfold timer_matches, stopAutomaticBackups. simpl. by rewrite He, Hc.
Qed.

(** C37: The interval the backup tab writes is at least one minute: after
    the user sets the field to any [v] and [updateBackupInterval] runs,
    the tab and the service hold [max 1 v], and the automatic-backup
    timer, when there is one, has a period of [max 1 v] minutes, at least
    60 000 ms. *)
Theorem update_interval_clamped env v now t s :
  let '(t', s') := updateBackupInterval env now (set_backupConfig (with_interval v (backupConfig t)) t) s in
  bc_interval (b_config s') = Z.max 1 v ∧ bc_interval (backupConfig t') = Z.max 1 v ∧
  (∀ p, b_timer s' = Some p → p = Z.max 1 v * 60000 ∧ 60000 ≤ p).
Proof.
  unfold updateBackupInterval. cbn [backupConfig set_backupConfig with_interval bc_interval].
  destruct (updateBackupConfig_spec env (BcUpdates None (Some (if bool_decide (v < 1) then 1 else v)) None None None None)
              now s) as [Hc Ht].
  case_bool_decide; cbn [notify backupConfig set_backupConfig with_interval bc_interval];
    unfold timer_matches in Ht; rewrite Hc in Ht |- *; simpl in Ht |- *;
    (split_and!; [lia|lia|]); intros p; destruct (bc_enabled _); intros Hp; rewrite Hp in Ht; simplify_eq; lia.
Qed.

(** The retention the tab writes is at least one day. *)
Lemma update_retention_clamped env v now t s :
  let '(t', s') := updateBackupRetention env now (set_backupConfig (with_retention v (backupConfig t)) t) s in
  bc_retention (b_config s') = Z.max 1 v ∧ bc_retention (backupConfig t') = Z.max 1 v.
Proof.
  unfold updateBackupRetention. cbn [backupConfig set_backupConfig with_retention bc_retention].
  destruct (updateBackupConfig_spec env (BcUpdates None None (Some (if bool_decide (v < 1) then 1 else v)) None None None)
              now s) as [Hc _].
  case_bool_decide; cbn [notify backupConfig set_backupConfig with_retention bc_retention]; rewrite Hc; simpl; lia.
Qed.

(** [formatSize] rounds to hundredths before choosing the unit: just
    under one megabyte is shown as 1024.00 KB. *)
Lemma formatSize_boundary : formatSize 1048575 = "1024.00 KB".
Proof. vm_compute. reflexivity. Qed.

End BackupTab.

(** ** Scenarios *)

Module TabScenarios.
Import WorkspaceTab.

Definition demo_store : ws_state :=
  WsState (Some (ConfigStore (Some []) None (StoredBackup None None None None None None))) None [] None.

(** The tab opens on an empty store and saves " Dev " as a workspace. *)
Lemma wtab_consistent_witness :
  NoDup (ws_id <$> ws_list demo_store) ∧
  wtab_ok (saveCurrentWorkspace (Some (Some " Dev ")) "ws-1" 0 (wtab_init demo_store).1 (wtab_init demo_store).2).
Proof.
  assert (NoDup (ws_id <$> ws_list demo_store)) as Hnd by (vm_compute; constructor).
  split; [exact Hnd|]. apply (wtab_consistent demo_store); [exact Hnd|].
  apply rtc_once. change (wtab_init demo_store) with ((wtab_init demo_store).1, (wtab_init demo_store).2).
  apply WtSave. vm_compute. intros Hin. inversion Hin.
Defined.

End TabScenarios.
