(* ===== verification/AgentUi.v ===== *)
(** * Hotkeys, toolbar and running-commands dialog of the agent plugin

    - [McpHotkeyProvider] ([src/unnamed/part_007]) declares four hotkeys;
      [McpConfigProvider] ([services/mcpConfigProvider.ts]) binds one of
      them by default.
    - [McpHotkeyService] ([services/mcpHotkey.service.ts]) dispatches a
      matched hotkey.  It can abort the focused terminal's command, open
      the history or running-commands dialog, or open Copilot.  Copilot
      is reached over TCP on port 6789, with a PowerShell command and a
      recommendation dialog as the fallback.
    - [McpToolbarButtonProvider] ([toolbarButtonProvider.ts]) keeps three
      counts from the services' [BehaviorSubject]s and shows them in its
      buttons' titles.
    - [RunningCommandsDialogComponent]: [ngOnInit] refreshes, starts a 2 s
      interval and subscribes to [runningCommands$].  [ngOnDestroy]
      stops the interval only.
    - [ExtensionRecommendationDialogComponent] and [UrlOpeningService]
      open the marketplace page.

    The services are the models of [RunningCommands.v], [Dialogs.v] and
    [CommandHistory.v].  [ExecToolCategory] ([tools/terminal], not in the
    repository) is an environment record: its sessions, the active
    command per session and the aborts it received.  The composed system
    is the step relation [ui_step].  [Date.now()], whether the TCP
    connection succeeds and whether [exec] fails are arguments of the
    steps. *)

From S2P Require Import Prelude JsString JsMap Json CommandHistory Dialogs RunningCommands.
Import MinimizedDialogManager RunningCommandsManager.
From Stdlib Require Import Ascii String.

Local Abbreviation length := List.length.
Local Open Scope string_scope.
Local Open Scope list_scope.

(** ** Declarations *)

(** [McpHotkeyProvider.provide()]: ids and names. *)
Definition mcp_hotkeys : list (string * string) :=
  [("mcp-abort-command", "Abort running MCP command");
   ("mcp-show-command-history", "Show MCP command history");
   ("mcp-show-running-commands", "Show running MCP commands");
   ("mcp-open-copilot", "Open Copilot window")].

(** [McpConfigProvider.defaults], an object literal. *)
Definition mcp_defaults : json :=
  JObj [("mcp", JObj [("startOnBoot", JBool false); ("enabled", JBool true); ("port", JNum 3001);
                      ("serverUrl", JStr "http://localhost:3001"); ("enableDebugLogging", JBool true);
                      ("pairProgrammingMode", JObj [("enabled", JBool false); ("autoFocusTerminal", JBool true);
                                                    ("showConfirmationDialog", JBool true); ("showResultDialog", JBool true)])]);
        ("hotkeys", JObj [("mcp-abort-command", JArr [JStr "Ctrl-Shift-C"])])].

(** ** The state *)

(** The components the plugin opens with [NgbModal.open]. *)
Inductive ui_component := CommandHistoryModal | RunningCommandsModal | MinimizedDialogsModal | ExtensionRecommendationModal.

Record modal_open := ModalOpen {
  mo_component : ui_component;
  mo_size : string;
  mo_backdrop : bool;
  mo_keyboard : bool;
}.

(** What [findAndSerializeTerminalSessions] gives of a session. *)
Record term_session := TermSession { ts_id : Z; ts_hasFocus : bool }.

(** [ExecToolCategory] as the hotkeys see it. *)
Record exec_tool := ExecTool {
  et_sessions : list term_session;
  et_active : js_map Z string;
  et_aborted : list Z;
}.

Definition getActiveCommand (id : Z) (x : exec_tool) : option string := map_get id (et_active x).
Definition abortCommand (id : Z) (x : exec_tool) : exec_tool :=
  ExecTool (et_sessions x) (et_active x) (et_aborted x ++ [id]).

(** A [RunningCommandsDialogComponent]: its rows, whether its
    [refreshSubscription] is live, and whether it was destroyed. *)
Record running_dialog := RunningDialog {
  rd_rows : list running_row;
  rd_interval : bool;
  rd_destroyed : bool;
}.

(** The toolbar provider's three counters. *)
Record toolbar := Toolbar {
  activeCommandsCount : nat;
  minimizedDialogsCount : nat;
  commandHistoryCount : nat;
}.

(** The services, the toolbar, the running-commands dialogs created so
    far (by creation index), the dialogs subscribed to
    [runningCommands$], the modals opened, the terminal tool, the
    commands [exec] was given and the URLs [window.open] was given. *)
Record ui_state := UiState {
  u_running : running_map;
  u_minimized : list min_dialog;
  u_history : hist_state;
  u_toolbar : toolbar;
  u_dialogs : list running_dialog;
  u_rc_subs : list nat;
  u_opened : list modal_open;
  u_exec : exec_tool;
  u_spawned : list string;
  u_windows : list string;
}.

Definition with_running m u := UiState m (u_minimized u) (u_history u) (u_toolbar u) (u_dialogs u) (u_rc_subs u) (u_opened u) (u_exec u) (u_spawned u) (u_windows u).
Definition with_minimized l u := UiState (u_running u) l (u_history u) (u_toolbar u) (u_dialogs u) (u_rc_subs u) (u_opened u) (u_exec u) (u_spawned u) (u_windows u).
Definition with_history h u := UiState (u_running u) (u_minimized u) h (u_toolbar u) (u_dialogs u) (u_rc_subs u) (u_opened u) (u_exec u) (u_spawned u) (u_windows u).
Definition with_toolbar t u := UiState (u_running u) (u_minimized u) (u_history u) t (u_dialogs u) (u_rc_subs u) (u_opened u) (u_exec u) (u_spawned u) (u_windows u).
Definition with_dialogs ds u := UiState (u_running u) (u_minimized u) (u_history u) (u_toolbar u) ds (u_rc_subs u) (u_opened u) (u_exec u) (u_spawned u) (u_windows u).
Definition with_subs l u := UiState (u_running u) (u_minimized u) (u_history u) (u_toolbar u) (u_dialogs u) l (u_opened u) (u_exec u) (u_spawned u) (u_windows u).
Definition with_opened l u := UiState (u_running u) (u_minimized u) (u_history u) (u_toolbar u) (u_dialogs u) (u_rc_subs u) l (u_exec u) (u_spawned u) (u_windows u).
Definition with_exec x u := UiState (u_running u) (u_minimized u) (u_history u) (u_toolbar u) (u_dialogs u) (u_rc_subs u) (u_opened u) x (u_spawned u) (u_windows u).
Definition with_spawned l u := UiState (u_running u) (u_minimized u) (u_history u) (u_toolbar u) (u_dialogs u) (u_rc_subs u) (u_opened u) (u_exec u) l (u_windows u).
Definition with_windows l u := UiState (u_running u) (u_minimized u) (u_history u) (u_toolbar u) (u_dialogs u) (u_rc_subs u) (u_opened u) (u_exec u) (u_spawned u) l.

(** ** The subjects' subscribers *)

(** The toolbar's subscriptions, set up in its constructor. *)
Definition on_running_tb (cmds : list running_command) (t : toolbar) : toolbar :=
  Toolbar (length cmds) (minimizedDialogsCount t) (commandHistoryCount t).
Definition on_minimized_tb (ds : list min_dialog) (t : toolbar) : toolbar :=
  Toolbar (activeCommandsCount t) (length ds) (commandHistoryCount t).
Definition on_history_tb (h : list cmd_entry) (t : toolbar) : toolbar :=
  Toolbar (activeCommandsCount t) (minimizedDialogsCount t) (length h).

(** [refreshRunningCommands()] of a dialog. *)
Definition dialog_refresh (now : Z) (m : running_map) (d : running_dialog) : running_dialog :=
  RunningDialog (refreshRunningCommands now m) (rd_interval d) (rd_destroyed d).

(** [updateSubject()]: [next(getAllRunningCommands())] runs the
    toolbar's callback (it subscribed first) and then each dialog's, in
    the order they subscribed. *)
Definition emit_running (now : Z) (u : ui_state) : ui_state :=
  let m := u_running u in
  let u := with_toolbar (on_running_tb (getAllRunningCommands m) (u_toolbar u)) u in
  with_dialogs (foldl (λ ds i, alter (dialog_refresh now m) i ds) (u_dialogs u) (u_rc_subs u)) u.

Definition emit_minimized (u : ui_state) : ui_state :=
  with_toolbar (on_minimized_tb (u_minimized u) (u_toolbar u)) u.

(** ** Service calls made elsewhere *)

(** [startCommand], [endCommand] or [clearAll] of the running-commands
    service: each ends in [updateSubject()]. *)
Definition rc_call_ui (c : rc_call) (now : Z) (u : ui_state) : ui_state :=
  emit_running now (with_running (rc_apply (u_running u) c) u).

(** The minimized-dialog service's methods; [restoreDialog] emits only
    when it found the dialog. *)
Definition ui_minimize (d : min_dialog) (u : ui_state) : ui_state :=
  emit_minimized (with_minimized (minimizeDialog d (u_minimized u)) u).
Definition ui_restore (id : string) (u : ui_state) : ui_state :=
  match restoreDialog id (u_minimized u) with
  | (Some _, l) => emit_minimized (with_minimized l u)
  | (None, _) => u
  end.
Definition ui_closeMinimized (id : string) (u : ui_state) : ui_state :=
  emit_minimized (with_minimized (closeMinimizedDialog id (u_minimized u)) u).
Definition ui_clearMinimized (u : ui_state) : ui_state :=
  emit_minimized (with_minimized clearAll u).

(** A call of the history service that leaves it in [s'], followed by
    the toolbar's callback. *)
Definition ui_history (s' : hist_state) (u : ui_state) : ui_state :=
  with_toolbar (on_history_tb (h_history s') (u_toolbar u)) (with_history s' u).

(** ** The running-commands dialog *)

(** [ngOnInit()] of a new dialog, the [length (u_dialogs u)]-th:
    refresh, start the interval, subscribe.  The [BehaviorSubject]
    answers the subscription at once, which refreshes a second time. *)
Definition running_ngOnInit (now : Z) (u : ui_state) : ui_state :=
  let i := length (u_dialogs u) in
  let d := RunningDialog (refreshRunningCommands now (u_running u)) true false in
  let d := dialog_refresh now (u_running u) d in
  with_subs (u_rc_subs u ++ [i]) (with_dialogs (u_dialogs u ++ [d]) u).

(** [ngOnDestroy()]: [refreshSubscription.unsubscribe()], and nothing
    else. *)
Definition running_ngOnDestroy (i : nat) (u : ui_state) : ui_state :=
  with_dialogs (alter (λ d, RunningDialog (rd_rows d) false true) i (u_dialogs u)) u.

(** A tick of [interval(2000)] for the [i]-th dialog. *)
Definition running_tick (i : nat) (now : Z) (u : ui_state) : ui_state :=
  match u_dialogs u !! i with
  | Some d => if rd_interval d then with_dialogs (<[i := dialog_refresh now (u_running u) d]> (u_dialogs u)) u else u
  | None => u
  end.

(** [this.modal.open(component, options)]: the running-commands dialog
    is created and initialised. *)
Definition ngb_open (mo : modal_open) (now : Z) (u : ui_state) : ui_state :=
  let u := with_opened (u_opened u ++ [mo]) u in
  match mo_component mo with
  | RunningCommandsModal => running_ngOnInit now u
  | _ => u
  end.

(** ** The hotkey service *)

(** [abortFocusedCommand()]: the first session whose tab has focus, if
    it runs a command. *)
Definition abortFocusedCommand (u : ui_state) : ui_state :=
  match list_find (λ s, ts_hasFocus s = true) (et_sessions (u_exec u)) with
  | None => u
  | Some (_, fs) =>
      match getActiveCommand (ts_id fs) (u_exec u) with
      | None => u
      | Some _ => with_exec (abortCommand (ts_id fs) (u_exec u)) u
      end
  end.

Definition showCommandHistory (now : Z) (u : ui_state) : ui_state :=
  ngb_open (ModalOpen CommandHistoryModal "xl" true true) now u.

Definition showRunningCommands (now : Z) (u : ui_state) : ui_state :=
  ngb_open (ModalOpen RunningCommandsModal "lg" true true) now u.

Definition dq : string := String (ascii_of_nat 34) EmptyString.

(** [openCopilotWithPowerShell()]: the recommendation dialog, then
    [exec], whose callback only logs. *)
Definition openCopilotWithPowerShell (now : Z) (u : ui_state) : ui_state :=
  let u := ngb_open (ModalOpen ExtensionRecommendationModal "md" true true) now u in
  with_spawned (u_spawned u ++ ["pwsh.exe -Command " +:+ dq +:+ "code --command workbench.action.chat.openInNewWindow" +:+ dq]) u.

(** [openCopilotViaTCP()]: on [connect] the socket is ended; on
    [error] the PowerShell fallback runs. *)
Definition openCopilotViaTCP (tcp_ok : bool) (now : Z) (u : ui_state) : ui_state :=
  if tcp_ok then u else openCopilotWithPowerShell now u.

Definition openCopilot (tcp_ok : bool) (now : Z) (u : ui_state) : ui_state := openCopilotViaTCP tcp_ok now u.

(** The [matchedHotkey] callback of [initializeHotkeys()]. *)
Definition handle_hotkey (hotkey : string) (tcp_ok : bool) (now : Z) (u : ui_state) : ui_state :=
  if bool_decide (hotkey = "mcp-abort-command") then abortFocusedCommand u
  else if bool_decide (hotkey = "mcp-show-command-history") then showCommandHistory now u
  else if bool_decide (hotkey = "mcp-show-running-commands") then showRunningCommands now u
  else if bool_decide (hotkey = "mcp-open-copilot") then openCopilot tcp_ok now u
  else u.

(** ** The toolbar *)

Inductive toolbar_click := ClickRunning | ClickMinimized | ClickHistory | ClickCopilot.

Record toolbar_button := ToolbarButton { tb_weight : Z; tb_title : string; tb_click : toolbar_click }.

(** [count > 0 ? `label (count)` : 'label'] *)
Definition count_title (label : string) (n : nat) : string :=
  if bool_decide (0 < n)%nat then label +:+ " (" +:+ n_to_string (N.of_nat n) +:+ ")" else label.

(** [provide()], the SVG icons left out. *)
Definition provide (t : toolbar) : list toolbar_button :=
  [ToolbarButton 5 (count_title "Running Commands" (activeCommandsCount t)) ClickRunning;
   ToolbarButton 6 (count_title "Minimized Dialogs" (minimizedDialogsCount t)) ClickMinimized;
   ToolbarButton 7 (count_title "Command History" (commandHistoryCount t)) ClickHistory;
   ToolbarButton 8 "Open Copilot Chat" ClickCopilot].

Definition showMinimizedDialogsModal (now : Z) (u : ui_state) : ui_state :=
  ngb_open (ModalOpen MinimizedDialogsModal "lg" true true) now u.
Definition showCommandHistoryModal (now : Z) (u : ui_state) : ui_state :=
  ngb_open (ModalOpen CommandHistoryModal "xl" true true) now u.
Definition showRunningCommandsModal (now : Z) (u : ui_state) : ui_state :=
  ngb_open (ModalOpen RunningCommandsModal "lg" true true) now u.

(** The buttons' [click] callbacks. *)
Definition button_click (c : toolbar_click) (tcp_ok : bool) (now : Z) (u : ui_state) : ui_state :=
  match c with
  | ClickRunning => showRunningCommandsModal now u
  | ClickMinimized => showMinimizedDialogsModal now u
  | ClickHistory => showCommandHistoryModal now u
  | ClickCopilot => openCopilot tcp_ok now u
  end.

(** The constructor: the counters start at 0 and the three
    [BehaviorSubject]s answer the subscriptions at once. *)
Definition toolbar_subscribe (u : ui_state) : toolbar :=
  on_history_tb (h_history (u_history u))
    (on_minimized_tb (u_minimized u) (on_running_tb (getAllRunningCommands (u_running u)) (Toolbar 0 0 0))).

(** ** The recommendation dialog *)

(** [UrlOpeningService.openUrl(url)]: [exec(`start ${url}`)], and
    [window.open] when [exec] reports an error. *)
Definition openUrl (exec_ok : bool) (url : string) (u : ui_state) : ui_state :=
  let u := with_spawned (u_spawned u ++ ["start " +:+ url]) u in
  if exec_ok then u else with_windows (u_windows u ++ [url]) u.

(** [openMarketplace()]; the [modal.close()] that follows is the modal
    library's. *)
Definition openMarketplace (exec_ok : bool) (u : ui_state) : ui_state :=
  openUrl exec_ok "https://marketplace.visualstudio.com/items?itemName=TabbyCopilotConnector.tabby-copilot-opener" u.

(** ** The dialog service *)

(** [DialogService] ([services/dialog.service.ts]): both methods go
    through [DialogManagerService.openDialog] ([Dialogs.v]).  A missing
    [commandExplanation] is a property set to [undefined], which reads
    as an absent one: the model leaves the key out. *)
Section DialogService.
Variable open_ok : dialog_kind → bool.

Definition confirm_props (command : string) (tabId : Z) (tabTitle : string) (commandExplanation : option string) :
    list (string * json) :=
  [("command", JStr command); ("tabId", JNum tabId); ("tabTitle", JStr tabTitle)] ++
  match commandExplanation with Some e => [("commandExplanation", JStr e)] | None => [] end.

Definition showConfirmCommandDialog (command : string) (tabId : Z) (tabTitle : string)
    (commandExplanation : option string) (did : string) (s : dm_state) : nat * dm_state :=
  openDialog open_ok ConfirmCommandDialog [("backdrop", JStr "static")]
    (confirm_props command tabId tabTitle commandExplanation) did s.

Definition result_props (command output : string) (exitCode : option Z) (aborted : bool) (originalInstruction : string) :
    list (string * json) :=
  [("command", JStr command); ("output", JStr output);
   ("exitCode", match exitCode with Some n => JNum n | None => JNull end);
   ("aborted", JBool aborted); ("originalInstruction", JStr originalInstruction)].

(** [originalInstruction] defaults to the empty string. *)
Definition showCommandResultDialog (command output : string) (exitCode : option Z) (aborted : bool)
    (originalInstruction : string) (did : string) (s : dm_state) : nat * dm_state :=
  openDialog open_ok CommandResultDialog [("backdrop", JStr "static"); ("size", JStr "lg")]
    (result_props command output exitCode aborted originalInstruction) did s.

End DialogService.

(** ** The command button *)

(** [ExecCommandButtonComponent] ([src/unnamed/part_003]): whether a
    command runs, the name it shows, and whether it listens to
    [activeCommand$]. *)
Record exec_button := ExecButton {
  isCommandRunning : bool;
  commandName : string;
  eb_subscribed : bool;
}.

Definition exec_button_new : exec_button := ExecButton false "" false.

(** The [activeCommand$] callback; the active command is given by its
    [command] text. *)
Definition exec_button_on (command : option string) (b : exec_button) : exec_button :=
  let name := match command with Some c => if str_truthy c then c else "" | None => "" end in
  let name := if bool_decide (15 < String.length name)%nat then substring 0 12 name +:+ "..." else name in
  ExecButton (bool_decide (is_Some command)) name (eb_subscribed b).

(** [ngOnInit()]: subscribe; [current] is the value the subject gives at
    once, if any. *)
Definition exec_button_ngOnInit (current : option (option string)) (b : exec_button) : exec_button :=
  let b := ExecButton (isCommandRunning b) (commandName b) true in
  match current with Some c => exec_button_on c b | None => b end.

Definition exec_button_ngOnDestroy (b : exec_button) : exec_button :=
  ExecButton (isCommandRunning b) (commandName b) false.

(** [onAbortClick()]: whether [abortCurrentCommand()] is called. *)
Definition onAbortClick (b : exec_button) : bool := isCommandRunning b.

(** ** The share dialog *)

(** [ShareSessionModalComponent] ([tlink-core/src/components/shareSessionModal.component.ts]):
    its inputs, whether [PlatformService] was found, and whether the
    [urlInput] element exists. *)
Record share_session_modal := ShareSessionModal {
  shareUrl : string;
  sm_mode : string;
  sm_viewers : Z;
  sm_expiresIn : option Z;
  sm_platform : bool;
  sm_urlInput : bool;
}.

Inductive copy_effect := PlatformClipboard (text : string) | ExecCopy.

(** [copyUrl()]: [setClipboard] through the platform, which may throw
    ([clip_ok = false]); else [execCommand('copy')] on the selected
    input. *)
Definition copyUrl (clip_ok : bool) (m : share_session_modal) : list copy_effect :=
  if str_truthy (shareUrl m) then
    if sm_platform m && clip_ok then [PlatformClipboard (shareUrl m)]
    else if sm_urlInput m then [ExecCopy] else []
  else [].

(** ** The system *)

(** The plugin at start: the services in their current state, no dialog,
    the toolbar constructed. *)
Definition ui_init (x : exec_tool) (h0 : hist_state) : ui_state :=
  let u := UiState [] [] h0 (Toolbar 0 0 0) [] [] [] x [] [] in
  with_toolbar (toolbar_subscribe u) u.

(** The steps: the services' calls from the rest of the plugin, the
    user's hotkeys, clicks and dialog closes, the intervals' ticks, and
    the terminals' own changes. *)
Inductive ui_step : ui_state → ui_state → Prop :=
| URunning c now u : ui_step u (rc_call_ui c now u)
| UMinimize d u : ui_step u (ui_minimize d u)
| URestore id u : ui_step u (ui_restore id u)
| UCloseMinimized id u : ui_step u (ui_closeMinimized id u)
| UClearMinimized u : ui_step u (ui_clearMinimized u)
| UHistory s' u : hist_step (λ _, True) (u_history u) s' → ui_step u (ui_history s' u)
| UHotkey h tcp_ok now u : ui_step u (handle_hotkey h tcp_ok now u)
| UClick c tcp_ok now u : ui_step u (button_click c tcp_ok now u)
| UTick i now u : ui_step u (running_tick i now u)
| UDestroy i u : ui_step u (running_ngOnDestroy i u)
| UMarketplace exec_ok u : ui_step u (openMarketplace exec_ok u)
| UTerminals sessions active u : ui_step u (with_exec (ExecTool sessions active (et_aborted (u_exec u))) u).

(** ** Invariants *)

(** The toolbar's counters are the lengths of the services' lists. *)
Definition tb_ok (u : ui_state) : Prop :=
  u_toolbar u = Toolbar (length (u_running u)) (length (u_minimized u)) (length (h_history (u_history u))).

(** Every dialog created is still subscribed to [runningCommands$], in
    creation order, and a dialog's interval runs exactly until it is
    destroyed. *)
Definition sub_ok (u : ui_state) : Prop :=
  u_rc_subs u = seq 0 (length (u_dialogs u)) ∧
  Forall (λ d, rd_interval d = negb (rd_destroyed d)) (u_dialogs u).

(** A step that leaves the services and the toolbar alone. *)
Definition ui_frame (u u' : ui_state) : Prop :=
  u_running u' = u_running u ∧ u_minimized u' = u_minimized u ∧
  u_history u' = u_history u ∧ u_toolbar u' = u_toolbar u.

(** ** A run

    The user opens the running-commands dialog from the toolbar and
    closes it; then the agent starts a command. *)
Definition ui_x0 : exec_tool := ExecTool [TermSession 1 false; TermSession 2 true] [(2%Z, "make")] [].
Definition ui_h0 : hist_state := HistState [] None None [].
Definition ui_u0 : ui_state := ui_init ui_x0 ui_h0.
Definition ui_u1 : ui_state := button_click ClickRunning false 1000 ui_u0.
Definition ui_u2 : ui_state := running_ngOnDestroy 0 ui_u1.
Definition ui_u3 : ui_state := rc_call_ui (CStart "tab-1" "npm test" 2000) 2500 ui_u2.

(** ** Lemmas *)

Section foldl_alter.
Context {A : Type}.

Lemma foldl_alter_length (g : A → A) (l : list nat) (ds : list A) :
  length (foldl (λ ds i, alter g i ds) ds l) = length ds.
Proof. revert ds. induction l as [|j l IH]; intros ds; [done|]. simpl. by rewrite IH, length_alter. Qed.

Lemma foldl_alter_Forall (P : A → Prop) (g : A → A) (l : list nat) (ds : list A) :
  (∀ x, P x → P (g x)) → Forall P ds → Forall P (foldl (λ ds i, alter g i ds) ds l).
Proof.
  intros Hg. revert ds. induction l as [|j l IH]; intros ds Hds; [done|]. simpl.
  apply IH, Forall_alter; auto.
Qed.

(** Applying an idempotent update at each index of [l]: the [i]-th
    element is updated iff [i] is in [l]. *)
Lemma foldl_alter_lookup (g : A → A) (l : list nat) (ds : list A) i x :
  (∀ y, g (g y) = g y) → ds !! i = Some x →
  foldl (λ ds i, alter g i ds) ds l !! i = Some (if bool_decide (i ∈ l) then g x else x).
Proof.
  intros Hg. revert ds x. induction l as [|j l IH]; intros ds x Hx; [by rewrite bool_decide_false by set_solver|].
  simpl. destruct (decide (j = i)) as [->|Hne].
  - rewrite (IH _ (g x)) by (by rewrite list_lookup_alter_eq, Hx).
    rewrite (bool_decide_true (i ∈ i :: l)) by set_solver. case_bool_decide; by rewrite ?Hg.
  - rewrite (IH _ x) by (by rewrite list_lookup_alter_ne).
    f_equal. by rewrite (bool_decide_ext (i ∈ j :: l) (i ∈ l)) by set_solver.
Qed.

End foldl_alter.

Lemma getAllRunningCommands_length m : length (getAllRunningCommands m) = length m.
Proof. apply length_fmap. Qed.

Lemma dialog_refresh_idem now m d : dialog_refresh now m (dialog_refresh now m d) = dialog_refresh now m d.
Proof. done. Qed.

Lemma ngb_open_frame mo now u : ui_frame u (ngb_open mo now u).
Proof. unfold ngb_open. by destruct (mo_component mo). Qed.

Lemma abortFocusedCommand_frame u : ui_frame u (abortFocusedCommand u).
Proof.
  unfold abortFocusedCommand. destruct (list_find _ _) as [[? fs]|]; [|done].
  by destruct (getActiveCommand _ _).
Qed.

Lemma openCopilot_frame tcp_ok now u : ui_frame u (openCopilot tcp_ok now u).
Proof.
  unfold openCopilot, openCopilotViaTCP, openCopilotWithPowerShell. destruct tcp_ok; [done|].
  by destruct (ngb_open_frame (ModalOpen ExtensionRecommendationModal "md" true true) now u) as (? & ? & ? & ?).
Qed.

#[local] Hint Resolve ngb_open_frame abortFocusedCommand_frame openCopilot_frame : tlink.

Lemma handle_hotkey_frame h tcp_ok now u : ui_frame u (handle_hotkey h tcp_ok now u).
Proof. unfold handle_hotkey. repeat case_bool_decide; eauto with tlink. done. Qed.

Lemma button_click_frame c tcp_ok now u : ui_frame u (button_click c tcp_ok now u).
Proof. destruct c; simpl; eauto with tlink. Qed.

Lemma running_tick_frame i now u : ui_frame u (running_tick i now u).
Proof. unfold running_tick. destruct (u_dialogs u !! i) as [d|]; [by destruct (rd_interval d)|done]. Qed.

Lemma openUrl_frame ok url u : ui_frame u (openUrl ok url u).
Proof. unfold openUrl. by destruct ok. Qed.

Lemma tb_ok_frame u u' : ui_frame u u' → tb_ok u → tb_ok u'.
Proof. intros (H1 & H2 & H3 & H4). unfold tb_ok. by rewrite H1, H2, H3, H4. Qed.

#[local] Hint Resolve handle_hotkey_frame button_click_frame running_tick_frame openUrl_frame tb_ok_frame : tlink.

Lemma ui_step_tb_ok u u' : ui_step u u' → tb_ok u → tb_ok u'.
Proof.
  destruct 1; intros Hok; try by eauto with tlink.
  - unfold tb_ok, rc_call_ui, emit_running.
    cbn [u_toolbar u_running u_minimized u_history with_dialogs with_toolbar with_running on_running_tb].
    unfold on_running_tb. rewrite getAllRunningCommands_length, Hok. done.
  - unfold tb_ok, ui_minimize, emit_minimized. cbn. by rewrite Hok.
  - unfold ui_restore. destruct (restoreDialog id (u_minimized u)) as [[d|] l]; [|done].
    unfold tb_ok, emit_minimized. cbn. by rewrite Hok.
  - unfold tb_ok, ui_closeMinimized, emit_minimized. cbn. by rewrite Hok.
  - unfold tb_ok, ui_clearMinimized, emit_minimized. cbn. by rewrite Hok.
  - unfold tb_ok, ui_history. cbn. by rewrite Hok.
Qed.

Lemma sub_ok_same u u' : u_dialogs u' = u_dialogs u → u_rc_subs u' = u_rc_subs u → sub_ok u → sub_ok u'.
Proof. intros H1 H2. unfold sub_ok. by rewrite H1, H2. Qed.

Lemma sub_ok_ngOnInit now u : sub_ok u → sub_ok (running_ngOnInit now u).
Proof.
  intros [Hs Hf]. split; cbn.
  - by rewrite Hs, length_app, seq_app.
  - apply Forall_app. by split; [|constructor].
Qed.

Lemma sub_ok_open_modal mo now u : sub_ok u → sub_ok (ngb_open mo now u).
Proof.
  intros H. assert (sub_ok (with_opened (u_opened u ++ [mo]) u)) by by apply (sub_ok_same u).
  unfold ngb_open. destruct (mo_component mo); [done|by apply sub_ok_ngOnInit|done|done].
Qed.

Lemma sub_ok_abort u : sub_ok u → sub_ok (abortFocusedCommand u).
Proof.
  unfold abortFocusedCommand. destruct (list_find _ _) as [[? fs]|]; [|done].
  by destruct (getActiveCommand _ _).
Qed.

Lemma sub_ok_openCopilot tcp_ok now u : sub_ok u → sub_ok (openCopilot tcp_ok now u).
Proof.
  unfold openCopilot, openCopilotViaTCP, openCopilotWithPowerShell. destruct tcp_ok; [done|].
  intros H. by apply (sub_ok_open_modal (ModalOpen ExtensionRecommendationModal "md" true true) now) in H.
Qed.

#[local] Hint Resolve sub_ok_open_modal sub_ok_abort sub_ok_openCopilot : tlink.

Lemma sub_ok_emit_running now u : sub_ok u → sub_ok (emit_running now u).
Proof.
  intros [Hs Hf]. split; cbn.
  - by rewrite foldl_alter_length.
  - by apply foldl_alter_Forall.
Qed.

Lemma sub_ok_hotkey h tcp_ok now u : sub_ok u → sub_ok (handle_hotkey h tcp_ok now u).
Proof. unfold handle_hotkey. repeat case_bool_decide; eauto with tlink. Qed.

Lemma sub_ok_button_click c tcp_ok now u : sub_ok u → sub_ok (button_click c tcp_ok now u).
Proof. destruct c; simpl; eauto with tlink. Qed.

Lemma sub_ok_tick i now u : sub_ok u → sub_ok (running_tick i now u).
Proof.
  unfold running_tick. destruct (u_dialogs u !! i) as [d|] eqn:Hd; [|done].
  destruct (rd_interval d) eqn:Hi; [|done]. intros [Hs Hf]. split; cbn.
  - by rewrite length_insert.
  - apply Forall_insert; [done|]. cbn. by eapply Forall_lookup_1 in Hd; [|exact Hf].
Qed.

Lemma sub_ok_destroy i u : sub_ok u → sub_ok (running_ngOnDestroy i u).
Proof.
  intros [Hs Hf]. split; cbn.
  - by rewrite length_alter.
  - by apply Forall_alter.
Qed.

#[local] Hint Resolve sub_ok_emit_running sub_ok_hotkey sub_ok_button_click sub_ok_tick : tlink.

Lemma ui_step_sub_ok u u' : ui_step u u' → sub_ok u → sub_ok u'.
Proof.
  destruct 1; intros Hok; try by apply sub_ok_destroy. all: eauto with tlink; try by apply (sub_ok_same u).
  unfold ui_restore. destruct (restoreDialog id (u_minimized u)) as [[d|] l]; [by apply (sub_ok_same u)|done].
  unfold openMarketplace, openUrl. destruct exec_ok; by apply (sub_ok_same u).
Qed.

Lemma ui_init_ok x h0 : tb_ok (ui_init x h0) ∧ sub_ok (ui_init x h0).
Proof. split; [done|]. split; [done|constructor]. Qed.

(** The hotkey and the toolbar button for the same dialog do the same. *)
Lemma hotkey_toolbar_agree tcp_ok now u :
  handle_hotkey "mcp-show-command-history" tcp_ok now u = button_click ClickHistory tcp_ok now u ∧
  handle_hotkey "mcp-show-running-commands" tcp_ok now u = button_click ClickRunning tcp_ok now u ∧
  handle_hotkey "mcp-open-copilot" tcp_ok now u = button_click ClickCopilot tcp_ok now u.
Proof. unfold handle_hotkey. by repeat split; repeat (rewrite bool_decide_false by done || rewrite bool_decide_true by done). Qed.

(** The abort hotkey aborts the command of the first focused session,
    when it runs one. *)
Lemma abort_hotkey_aborts_focused tcp_ok now u pre s rest cmd :
  et_sessions (u_exec u) = pre ++ s :: rest → Forall (λ p, ts_hasFocus p = false) pre →
  ts_hasFocus s = true → getActiveCommand (ts_id s) (u_exec u) = Some cmd →
  handle_hotkey "mcp-abort-command" tcp_ok now u = with_exec (abortCommand (ts_id s) (u_exec u)) u.
Proof.
  intros Hs Hpre Hf Ha. unfold handle_hotkey. rewrite bool_decide_true by done.
  unfold abortFocusedCommand. rewrite Hs, list_find_app_r.
  - simpl. rewrite decide_True by done. simpl. by rewrite Ha.
  - apply list_find_None. eapply Forall_impl; [exact Hpre|]. intros p ->. done.
Qed.

(** With no focused session the abort hotkey does nothing. *)
Lemma abort_hotkey_no_focus tcp_ok now u :
  Forall (λ p, ts_hasFocus p = false) (et_sessions (u_exec u)) →
  handle_hotkey "mcp-abort-command" tcp_ok now u = u.
Proof.
  intros Hf. unfold handle_hotkey. rewrite bool_decide_true by done. unfold abortFocusedCommand.
  rewrite (proj2 (list_find_None _ _)); [done|]. eapply Forall_impl; [exact Hf|]. intros p ->. done.
Qed.

(** A destroyed dialog's interval no longer refreshes it. *)
Lemma tick_destroyed x h0 u i d now :
  rtc ui_step (ui_init x h0) u → u_dialogs u !! i = Some d → rd_destroyed d = true →
  running_tick i now u = u.
Proof.
  intros Hr Hd Hdes. destruct (rtc_preserve _ sub_ok _ _ ui_step_sub_ok (proj2 (ui_init_ok x h0)) Hr) as [_ Hf].
  unfold running_tick. rewrite Hd. eapply Forall_lookup_1 in Hf; [|exact Hd]. by rewrite Hf, Hdes.
Qed.

(** When the TCP connection succeeds nothing else happens: no request
    is written on the socket. *)
Lemma copilot_tcp_connected now u : openCopilot true now u = u.
Proof. done. Qed.

(** While a dialog is on screen, a confirmation request waits in the
    manager's queue. *)
Lemma confirm_dialog_queued open_ok command tabId tabTitle expl did s :
  activeDialog s ≠ None →
  (showConfirmCommandDialog open_ok command tabId tabTitle expl did s).2 =
    set_queue (dialogQueue s ++ [DialogRequest (next_promise s) ConfirmCommandDialog [("backdrop", JStr "static")]
                                   (confirm_props command tabId tabTitle expl)])
      (set_next_promise (S (next_promise s)) s).
Proof. intros Ha. unfold showConfirmCommandDialog, openDialog. cbn. by rewrite bool_decide_false. Qed.

Lemma substring_length_le n m str : (String.length (substring n m str) ≤ m)%nat.
Proof.
  revert n m. induction str as [|a str IH]; intros n m; destruct n as [|n], m as [|m]; simpl; try lia.
  all: try apply IH. pose proof (IH 0 m). lia.
Qed.

Lemma str_app_length s1 s2 : String.length (s1 +:+ s2) = (String.length s1 + String.length s2)%nat.
Proof. induction s1 as [|a s1 IH]; [by rewrite string_app_nil_l|rewrite string_app_cons; simpl; lia]. Qed.

(** The button's label is at most 15 characters. *)
Lemma exec_button_name_short c b : (String.length (commandName (exec_button_on c b)) ≤ 15)%nat.
Proof.
  unfold exec_button_on. cbn [commandName]. case_bool_decide as H; [|lia].
  rewrite str_app_length. cbn [String.length]. pose proof (substring_length_le 0 12 (match c with Some c => if str_truthy c then c else "" | None => "" end)). lia.
Qed.

(** ** Properties *)

(** C30: the toolbar's titles are always current: from the plugin's
    start, through any sequence of calls of the three services, hotkeys,
    clicks, dialog ticks and closes, the Running Commands, Minimized
    Dialogs and Command History buttons show the number of running
    commands, minimized dialogs and history entries at that moment
    (the count in parentheses when it is positive). *)
Theorem toolbar_titles_current x h0 u :
  rtc ui_step (ui_init x h0) u →
  tb_title <$> provide (u_toolbar u) =
    [count_title "Running Commands" (length (u_running u));
     count_title "Minimized Dialogs" (length (u_minimized u));
     count_title "Command History" (length (h_history (u_history u)));
     "Open Copilot Chat"].
Proof.
  intros Hr. assert (Hok : tb_ok u) by exact (rtc_preserve _ _ _ _ ui_step_tb_ok (proj1 (ui_init_ok x h0)) Hr).
  by rewrite Hok.
Qed.

(** C34: [ngOnDestroy] of the running-commands dialog leaves its
    [runningCommands$] subscription in place: in every reachable state,
    a dialog that was destroyed is still refreshed by each later
    [startCommand], [endCommand] or [clearAll], its interval stopped. *)
Theorem destroyed_dialog_still_refreshed x h0 u i d c now :
  rtc ui_step (ui_init x h0) u → u_dialogs u !! i = Some d → rd_destroyed d = true →
  u_dialogs (rc_call_ui c now u) !! i =
    Some (RunningDialog (refreshRunningCommands now (rc_apply (u_running u) c)) false true).
Proof.
  intros Hr Hd Hdes. destruct (rtc_preserve _ sub_ok _ _ ui_step_sub_ok (proj2 (ui_init_ok x h0)) Hr) as [Hs Hf].
  unfold rc_call_ui, emit_running. cbn [u_dialogs u_rc_subs u_running with_dialogs with_toolbar with_running].
  rewrite (foldl_alter_lookup _ _ _ i d) by done.
  rewrite bool_decide_true by (rewrite Hs, elem_of_seq; apply lookup_lt_Some in Hd; lia).
  eapply Forall_lookup_1 in Hf; [|exact Hd]. unfold dialog_refresh. by rewrite Hf, Hdes.
Qed.

Lemma toolbar_titles_current_witness :
  rtc ui_step ui_u0 ui_u3 ∧
  tb_title <$> provide (u_toolbar ui_u3) =
    ["Running Commands (1)"; "Minimized Dialogs"; "Command History"; "Open Copilot Chat"].
Proof.
  assert (H : rtc ui_step ui_u0 ui_u3).
  { eapply rtc_l; [exact (UClick ClickRunning false 1000 ui_u0)|].
    eapply rtc_l; [exact (UDestroy 0 ui_u1)|]. exact (rtc_once _ _ (URunning (CStart "tab-1" "npm test" 2000) 2500 ui_u2)). }
  split; [exact H|]. rewrite (toolbar_titles_current ui_x0 ui_h0 ui_u3 H). vm_compute. reflexivity.
Defined.

Lemma destroyed_dialog_still_refreshed_witness :
  rtc ui_step ui_u0 ui_u2 ∧ u_dialogs ui_u2 !! 0 = Some (RunningDialog [] false true) ∧
  u_dialogs ui_u3 !! 0 = Some (RunningDialog [RunningRow "tab-1" "npm test" 2000 "0s"] false true).
Proof.
  assert (H : rtc ui_step ui_u0 ui_u2).
  { eapply rtc_l; [exact (UClick ClickRunning false 1000 ui_u0)|]. exact (rtc_once _ _ (UDestroy 0 ui_u1)). }
  assert (Hd : u_dialogs ui_u2 !! 0 = Some (RunningDialog [] false true)) by (vm_compute; reflexivity).
  split; [exact H|]. split; [exact Hd|].
  change ui_u3 with (rc_call_ui (CStart "tab-1" "npm test" 2000) 2500 ui_u2).
  rewrite (destroyed_dialog_still_refreshed ui_x0 ui_h0 ui_u2 0 _ (CStart "tab-1" "npm test" 2000) 2500 H Hd eq_refl).
  vm_compute. reflexivity.
Defined.
